(* ===== verification/_CoqProject ===== *)
-Q . S2P
Prelude.v
GoError.v
Naming.v
Types.v
Calls.v
GoMonad.v
AwsClient.v
Lookups.v
Rules.v
Controller.v
Helpers.v
HostedZones.v
Validation.v
Cleanup.v
Reconcile.v
Template.v
Acceptance.v
Sim.v
AwsSpec.v
HelpersSpec.v
HostedZoneSpec.v
EndpointSpec.v
CleanupSpec.v
Termination.v
ReconcileSpec.v
TemplateSpec.v
AcceptanceSpec.v
ReleaseSpec.v
InvariantSpec.v
IsolationSpec.v
TagSpec.v
LivenessSpec.v
Heap.v
DeepCopyV2.v
DeepCopyV1.v
Yields.v
SteadySpec.v
Main.v
LeakSpec.v
Mock.v
ApiServer.v
ClusterSim.v
SystemSpec.v
OperatorSpec.v
SafetySpec.v
Metrics.v
Provision.v
ProvisionSim.v
Creation.v
CreationEndpoint.v
CreationDns.v
CreationSpec.v
Json.v
Admission.v
AdmissionSpec.v
E2e.v
