(* ===== verification/Prelude.v ===== *)
(** * aws-vpce-operator: a verification library

    The operator creates AWS VPC Endpoints for OpenShift clusters, and the DNS
    that makes them reachable.  It has three controllers.  The VpcEndpoint
    controller turns a VpcEndpoint object into a security group, an endpoint, a
    private hosted zone with a record, and an ExternalName service, and takes them
    down again when the object is deleted.  The VpcEndpointTemplate controller
    keeps one VpcEndpoint per hosted control plane.  The VpcEndpointAcceptance
    controller accepts endpoint connections on the side of the service.  They
    share nothing but the API server: a template creates the VpcEndpoint objects
    that the first controller reconciles.

    ** How the program is modelled

    A Go function that talks to AWS or Kubernetes is a computation of the monad
    [M W L A] of GoMonad.v: from a system state to an [outcome] and a state.  The
    system state has a world, the trace of all calls made so far with their
    answers, and the controller's memory.  The outcome is a value, a Go error
    (GoError.v: a tree, so that [errors.As] and [kerr.IsNotFound] can be
    evaluated), a panic (nil pointers, slice bounds), or [OutOfFuel].

    Everything outside the repository is a [call] of Calls.v: the EC2, Route 53
    and Kubernetes operations, the clock, sleeping, the environment, metrics and
    recorder events, the work queue, and the order in which Go ranges over a map.
    A [World] is any function that answers calls, with a state of its own; the
    theorems hold for every world, so for every sequence of answers and errors,
    and name what they assume of it: [ClockLaws] (time does not run backwards, a
    sleep lasts) or that an iteration order enumerates the keys.  The helpers of
    apimachinery and controller-runtime on conditions and finalizers are the
    class [K8sHelpers] with their documented behaviour, [K8sHelpersLaws]; [K8sRef]
    is an implementation with proofs of the laws.  Sim.v is a small simulated
    world in which the functions run on concrete inputs; the witnesses of the
    theorems use it.

    The custom resource a reconcile works on is shared by pointer between all its
    functions, which change its status in place.  It is therefore part of the
    controller's memory ([Controller.Mem]: the reconciler and the resource), and a
    pointer argument is nil or that object.  In-memory changes and updates of the
    API server are different things, and the theorems tell them apart.

    ** Files and sources

    - Prelude.v: strings as Go's [fmt] and [strings] use them, generic lemmas.
    - GoError.v, GoMonad.v: errors, outcomes, the monad and its two logics:
      [respects] for what every run does to trace and memory, [wp] for results.
    - Naming.v: pkg/util/naming.go and helpers.go.
    - Types.v: api/v1alpha1, api/v1alpha2 and the objects of AWS and Kubernetes.
    - Calls.v: the interface to services and libraries.
    - AwsClient.v: pkg/aws_client, one definition per method.
    - Lookups.v: pkg/dnses, pkg/infrastructures, pkg/hostedcontrolplanes and
      pkg/secrets.
    - Rules.v: the rule loops of generateMissingSecurityGroupRules.
    - Controller.v: the VpcEndpoint reconciler's memory.
    - Helpers.v, HostedZones.v: controllers/vpcendpoint/helpers.go.
    - Validation.v: controllers/vpcendpoint/validation.go.
    - Cleanup.v: controllers/vpcendpoint/cleanup.go.
    - Reconcile.v: controllers/vpcendpoint/vpcendpoint_controller.go.
    - Template.v: controllers/vpcendpointtemplate.
    - Acceptance.v: controllers/vpcendpointacceptance, the health check of
      controllers/util and the flags of main.go.
    - Main.v: main.go, the rate limiter and the three SetupWithManager.
    - Heap.v, DeepCopyV2.v, DeepCopyV1.v: zz_generated.deepcopy.go of both API
      versions, and the types of the v1alpha1 VpcEndpoint.
    - Mock.v: pkg/aws_client/mock.go and pkg/testutil/mock.go, with tables of the
      unit tests run on the model.
    - Metrics.v: metrics.go of both controllers.
    - Json.v, Admission.v: the json tags and the validation markers of
      api/v1alpha2, that is how a spec is written and what the CRD lets in: JSON, the
      fragment of CEL that the markers use, structural schemas and [encoding/json], then
      one instance and one schema per struct.
    - E2e.v: test/e2e/aws_vpce_operator_tests.go, its objects evaluated on the schema
      and the installation of the CRDs.
    - ApiServer.v, ClusterSim.v: the API server the controllers share, as an
      interface ([ApiServer.ApiServer]) and as a simulation of it.

    A definition has the name of the Go function; a long body is split into one
    definition per branch or loop, which carry names of their own.

    ** What is proved

    - SystemSpec.v, OperatorSpec.v: the three controllers together, around one API
      server with optimistic locking, while users and others act around each call.
      A pass of a controller refines the steps of ApiServer.v; by induction on runs,
      live objects with recorded resources carry the finalizer, and an object leaves
      only after a pass on it has seen its resources disappear: the recorded endpoint and
      security group, the record set if it was shown as ready, and the zone if it is the
      operator's ([ReleaseSpec.resources_gone]).
    - SafetySpec.v: with complete answers and specs no pass of any controller panics.
    - CleanupSpec.v, ReconcileSpec.v, ReleaseSpec.v: the life of an object.  The
      finalizer is stored before anything is created and removed only after AWS
      has confirmed the end of those resources; the security group goes after the
      endpoint; which hosted zones are never deleted, and one that is although the
      safeguard means to keep it; when a reconcile comes back.
    - LeakSpec.v: what a deletion does not find, because it goes by the status, and the
      record that it leaves in a zone of others when the record was not ready.
    - Termination.v, LivenessSpec.v: a reconcile always has an outcome; in a world
      that cooperates ([LivenessSpec.Cooperates]) a deletion completes.
    - CreationSpec.v: in a world that provides ([Provision.reply]: calls succeed, and
      what was created or stored is there afterwards) creation completes.  A pass that
      creates the security group or the service ends with an error, so that the next
      goes on from there; after two such passes, and those that find the endpoint not
      yet accepted by its service ([Provision.waiting] of them), nothing is left to do.
      Provision.v has the world and a logic of computations in it ([Provision.runs]),
      ProvisionSim.v an instance; Creation.v, CreationEndpoint.v and CreationDns.v
      follow the validations.
    - AdmissionSpec.v: which objects get that far.  By [AdmissionSpec.storable_iff] the
      rules of the CRD let the operator write back exactly the specs that discover their
      subnets and have no region, besides the conditions that are meant; what is let in
      can always be read ([AdmissionSpec.admitted_then_stored]); an object that cannot be
      written back never gets its finalizer, and so nothing else; a template whose
      spec the operator can write makes objects that are taken.
    - SteadySpec.v, over the triples of Yields.v: a whole reconcile of an object
      that is as it should be changes nothing.  [SteadySpec.shows] says what the
      services answer, and any call may fail.
    - InvariantSpec.v, IsolationSpec.v: what every update of an object keeps, the
      shape of its conditions, and whose credentials each AWS call uses.
    - TagSpec.v: resources and zones that were created are found again, in a world
      that stores tags and ids ([TagSpec.TagStore], [TagSpec.ZoneStore]).
    - EndpointSpec.v: the endpoint's state machine and its conditions, creation
      only when none is found, convergence of subnets and security groups.
    - Rules.v: the rule loops refine a declarative specification, and are
      idempotent.
    - HostedZoneSpec.v: the invariant of the zone cache, creation of zones, the
      record that is upserted and the ones that cleanup leaves alone.
    - HelpersSpec.v, AwsSpec.v, Naming.v: the facts a reconcile establishes about
      the cluster, the choice of VPC and subnets, tags and names, with bounds.
    - TemplateSpec.v, AcceptanceSpec.v: convergence and deletion of templates,
      de-duplication of requests, why a connection is accepted, the health check.
    - Main.v: the entry point follows the plan of its configuration.
    - Metrics.v: no update of a metric can panic, and the gauge of objects that are
      not ready tells the truth about the last pass that got to its validations.
    - DeepCopyV2.v, DeepCopyV1.v: a deep copy has the value of the original and
      shares no memory with it.

    Values are immutable in all files but those on deep copies, which have a heap of
    arrays: there a pointer is an address, a slice a window of an array, and the
    records have the fields as they lie in memory.  The two views meet in [Repr]:
    the value an address stands for in a heap.  The deep copies of library types
    ([ObjectMeta] and the like) are an interface, [Heap.DeepCopy], with their
    contract.

    ** Fuel

    The loops run over finite slices and are structural, except for the wait for a
    deleted endpoint, [Cleanup.pollDeleted]: it polls every five seconds for three
    minutes.  36 polls fit, and one more iteration reads the clock and leaves, so
    [Cleanup.pollFuel] is 37; [Termination.Reconcile_terminates] shows that no
    reconcile runs out of it.

    ** What is left out

    Logging, [LastTransitionTime] and [ObservedGeneration] of conditions, type
    metadata outside the deep copies, the registration of types, and what
    controller-runtime does with the requests of main.  One reconcile of a
    controller runs at a time (the default of controller-runtime), so the mutex of
    the zone cache has nothing to do.  After an update the object in memory takes over the resource
    version only: the API server is taken to answer with the object it was sent.
    Durations are nanoseconds in [Z] and counters are [Z]: no count of the program
    comes near 64 bits.  A nil and an empty slice are the same list, although
    [reflect.DeepEqual] tells them apart.  A Go string is a string of bytes;
    white space in [Sscanf] and case in [ToLower] are those of ASCII.  The texts of
    errors that the program makes itself are exact but for those of [Sscanf] and
    the escapes of the verb [%q].  The API server's own work on JSON (removal of
    nulls and unknown fields, defaults, which equal Go's zero values here) comes before
    Json.v; rules on the status do not exist.  The generated OpenAPI schemas (tables
    without behaviour) and the build's constants are not modelled. *)
From stdpp Require Export base tactics option list strings gmap sets.
From Stdlib Require Export ZArith Lia.
From Stdlib Require Import Ascii.

#[global] Open Scope string_scope.
#[global] Open Scope list_scope.

(** ** Strings, as Go's [fmt] and [strings] use them

    A Go string is a sequence of bytes; a [string] here is a list of 8-bit
    characters, so [String.length] is Go's [len]. *)

(** [strings.TrimRight(s, ".")]: drop every trailing dot. *)
Fixpoint TrimRight_dot (s : string) : string :=
  match s with
  | EmptyString => EmptyString
  | String c rest =>
      match TrimRight_dot rest with
      | EmptyString => if Ascii.eqb c "."%char then EmptyString else String c EmptyString
      | rest' => String c rest'
      end
  end.

(** [s] without its prefix [p], when [p] is one. *)
Fixpoint cut_prefix (p s : string) : option string :=
  match p, s with
  | EmptyString, _ => Some s
  | String a p', String b s' => if Ascii.eqb a b then cut_prefix p' s' else None
  | String _ _, EmptyString => None
  end.

Definition is_newline (c : ascii) : bool := Ascii.eqb c "010"%char.

(** The ASCII blanks of package [fmt]'s scanner. *)
Definition is_space (c : ascii) : bool :=
  let n := nat_of_ascii c in
  (Nat.eqb n 32 || (Nat.leb 9 n && Nat.leb n 13))%bool.

(** The scanner's [SkipSpace] in [Sscanf]: blanks are skipped, a newline is an
    error ([None]). A carriage return directly before a newline counts as part
    of it. *)
Fixpoint skip_space (s : string) : option string :=
  match s with
  | EmptyString => Some EmptyString
  | String c rest =>
      if is_newline c then None
      else if is_space c then skip_space rest
      else Some s
  end.

Fixpoint take_token (s : string) : string :=
  match s with
  | EmptyString => EmptyString
  | String c rest => if is_space c then EmptyString else String c (take_token rest)
  end.

(** [fmt.Sscanf(s, prefix ++ "%s", &x)] for a [prefix] without blanks or verbs:
    [Some x] when one value was scanned, [None] when [Sscanf] returns an error
    (input that does not start with [prefix], a newline, or no token left).
    Input left over after the token is not an error. *)
Definition Sscanf_s (prefix s : string) : option string :=
  match cut_prefix prefix s with
  | None => None
  | Some rest =>
      match skip_space rest with
      | None => None
      | Some EmptyString => None
      | Some rest' => Some (take_token rest')
      end
  end.

Definition ascii_to_lower (c : ascii) : ascii :=
  let n := nat_of_ascii c in
  if (Nat.leb 65 n && Nat.leb n 90)%bool then ascii_of_nat (n + 32) else c.

(** [strings.ToLower] on ASCII input. *)
Fixpoint ToLower (s : string) : string :=
  match s with
  | EmptyString => EmptyString
  | String c rest => String (ascii_to_lower c) (ToLower rest)
  end.

(** [strings.ReplaceAll(s, " ", "")]. *)
Fixpoint remove_spaces (s : string) : string :=
  match s with
  | EmptyString => EmptyString
  | String c rest =>
      if Ascii.eqb c " "%char then remove_spaces rest else String c (remove_spaces rest)
  end.

(** [fmt]'s [%q] of a string without characters to escape. *)
Definition quote (s : string) : string :=
  String "034"%char EmptyString +:+ s +:+ String "034"%char EmptyString.

Definition is_empty (s : string) : bool := String.eqb s "".

Lemma is_empty_spec s : is_empty s = true <-> s = "".
Proof. apply String.eqb_eq. Qed.

Lemma is_empty_false s : is_empty s = false <-> s <> "".
Proof. unfold is_empty. apply String.eqb_neq. Qed.

Lemma string_length_app s t :
  String.length (s +:+ t) = String.length s + String.length t.
Proof. induction s as [|c s IH]; simpl; [done|]. by rewrite IH. Qed.

Lemma string_length_substring n s :
  String.length (String.substring 0 n s) = Nat.min n (String.length s).
Proof.
  revert n; induction s as [|c s IH]; intros [|n]; simpl; try done.
  by rewrite IH.
Qed.

Lemma cut_prefix_app p s : cut_prefix p (p +:+ s) = Some s.
Proof.
  induction p as [|c p IH]; simpl; [done|]. by rewrite Ascii.eqb_refl.
Qed.

(** No blank anywhere in [s]. *)
Definition no_space (s : string) : Prop :=
  Forall (fun c => is_space c = false) (String.list_ascii_of_string s).

Lemma newline_is_space c : is_newline c = true -> is_space c = true.
Proof. intros ->%Ascii.eqb_eq. reflexivity. Qed.

Lemma take_token_no_space s : no_space s -> take_token s = s.
Proof.
  unfold no_space. induction s as [|c s IH]; simpl; [done|].
  intros [Hc Hs]%Forall_cons. rewrite Hc. by rewrite IH.
Qed.

(** Scanning what was printed with the same format gives the value back. *)
Lemma Sscanf_s_app prefix s :
  no_space s -> s <> "" -> Sscanf_s prefix (prefix +:+ s) = Some s.
Proof.
  intros Hs Hne. unfold Sscanf_s. rewrite cut_prefix_app.
  assert (Hskip : skip_space s = Some s).
  { destruct s as [|c s]; [done|]. simpl. apply Forall_cons in Hs as [Hc _].
    destruct (is_newline c) eqn:Hn; [|by rewrite Hc].
    apply newline_is_space in Hn. congruence. }
  rewrite Hskip. destruct s; [done|]. by rewrite take_token_no_space.
Qed.

(** ** Lists *)

(** [strings.Join(l, " ")] and the brackets: how [fmt]'s [%v] prints a slice of
    strings. *)
Definition format_strings (l : list string) : string :=
  "[" +:+ String.concat " " l +:+ "]".

(** The slice built by dereferencing every pointer of [l]: [None] when one is
    nil. *)
Fixpoint sequence {A} (l : list (option A)) : option (list A) :=
  match l with
  | [] => Some []
  | None :: _ => None
  | Some a :: l' => (cons a) <$> sequence l'
  end.

Lemma sequence_Some {A} (l : list A) : sequence (Some <$> l) = Some l.
Proof. induction l as [|a l IH]; csimpl; [done|]. by rewrite IH. Qed.

(** Pointers that are all there, through a field [f]. *)
Lemma all_present {A B} (f : A -> option B) (P : B -> Prop) (l : list A) :
  Forall (fun x => exists y, f x = Some y /\ P y) l ->
  exists ys, f <$> l = Some <$> ys /\ Forall P ys.
Proof.
  induction 1 as [|x l (y & Hy & HP) _ (ys & IH & Hys)]; [by exists []|].
  exists (y :: ys). csimpl. rewrite Hy, IH. split; [done|by constructor].
Qed.

Lemma filter_none {A} (P : A -> Prop) `{!forall x, Decision (P x)} (l : list A) :
  (forall x, x ∈ l -> ~ P x) -> filter P l = [].
Proof.
  induction l as [|a l IH]; intros Hl; [done|].
  rewrite filter_cons, decide_False by (apply Hl; set_solver).
  apply IH. intros x Hx. apply Hl. set_solver.
Qed.

Lemma filter_ext_in {A} (P Q : A -> Prop) `{!forall x, Decision (P x)}
    `{!forall x, Decision (Q x)} (l : list A) :
  (forall x, x ∈ l -> P x <-> Q x) -> filter P l = filter Q l.
Proof.
  induction l as [|a l IH]; intros Hl; [done|].
  rewrite !filter_cons, IH by (intros x Hx; apply Hl; set_solver).
  destruct (Hl a ltac:(set_solver)). repeat case_decide; tauto.
Qed.

Lemma filter_all {A} (P : A -> Prop) `{!forall x, Decision (P x)} (l : list A) :
  (forall x, x ∈ l -> P x) -> filter P l = l.
Proof.
  induction l as [|a l IH]; intros Hl; [done|].
  rewrite filter_cons, decide_True by (apply Hl; set_solver).
  rewrite IH; [done|]. intros x Hx. apply Hl. set_solver.
Qed.

(** ** Automation *)

(** Lemmas on what a computation does to the state, indexed by the program. *)
Create HintDb respects.
(** Lemmas that evaluate pure model code. *)
Create Rewrite HintDb model.

(** Turns boolean tests on strings and integers in the context into
    propositions. *)
Ltac breflect :=
  repeat match goal with
  | H : is_empty _ = true |- _ => apply is_empty_spec in H
  | H : is_empty _ = false |- _ => apply is_empty_false in H
  | H : String.eqb _ _ = true |- _ => apply String.eqb_eq in H
  | H : String.eqb _ _ = false |- _ => apply String.eqb_neq in H
  | H : Z.eqb _ _ = true |- _ => apply Z.eqb_eq in H
  | H : Z.eqb _ _ = false |- _ => apply Z.eqb_neq in H
  | H : Z.ltb _ _ = true |- _ => apply Z.ltb_lt in H
  | H : Z.ltb _ _ = false |- _ => apply Z.ltb_ge in H
  | H : (_ && _)%bool = true |- _ => apply andb_true_iff in H as [??]
  | H : (_ || _)%bool = false |- _ => apply orb_false_iff in H as [??]
  | H : negb _ = true |- _ => apply negb_true_iff in H
  | H : negb _ = false |- _ => apply negb_false_iff in H
  end.
