(* ===== verification/GoError.v ===== *)
(** * Go errors and the outcomes of a Go function

    [error] is the tree of a Go error value: the leaves are the errors the
    program can tell apart (an AWS API error, a Kubernetes status error, any
    other error) and [EWrap] is [fmt.Errorf] with the verb [%w].  [outcome] is
    what a call of a function with an error result can end in. *)
From S2P Require Import Prelude.

(** Each leaf carries the text its [Error()] method prints. [EApi] is an error
    that implements [smithy.APIError] ([code] is its [ErrorCode()]),
    [EOperation] is a [*smithy.OperationError] around another error, [EStatus]
    is a Kubernetes API status error with its reason. *)
Inductive error : Type :=
| EApi (code msg text : string)
| EOperation (service operation text : string) (inner : error)
| EStatus (reason text : string)
| EOpaque (text : string)
| EWrap (text : string) (inner : error).

#[export] Instance error_eq_dec : EqDecision error.
Proof. solve_decision. Defined.

(** The error's [Error()] text. *)
Definition error_text (e : error) : string :=
  match e with
  | EApi _ _ t | EOperation _ _ t _ | EStatus _ t | EOpaque t | EWrap t _ => t
  end.

(** [fmt.Errorf(prefix ++ "%w", e)]. *)
Definition Errorf_w (prefix : string) (e : error) : error :=
  EWrap (prefix +:+ error_text e) e.

(** [errors.As(err, &ae)] with [ae] a [smithy.APIError]: the first API error of
    the chain, as its code and message. *)
Fixpoint AsAPIError (e : error) : option (string * string) :=
  match e with
  | EApi code msg _ => Some (code, msg)
  | EOperation _ _ _ e' | EWrap _ e' => AsAPIError e'
  | EStatus _ _ | EOpaque _ => None
  end.

(** [errors.As(err, &oe)] with [oe] a [*smithy.OperationError]. *)
Fixpoint AsOperationError (e : error) : option (string * string) :=
  match e with
  | EOperation service operation _ _ => Some (service, operation)
  | EWrap _ e' => AsOperationError e'
  | EApi _ _ _ | EStatus _ _ | EOpaque _ => None
  end.

(** The reason of the first Kubernetes status error of the chain. *)
Fixpoint ReasonForError (e : error) : option string :=
  match e with
  | EStatus reason _ => Some reason
  | EOperation _ _ _ e' | EWrap _ e' => ReasonForError e'
  | EApi _ _ _ | EOpaque _ => None
  end.

(** [kerr.IsNotFound(err)]: the documented reason of a missing object. *)
Definition IsNotFound (e : error) : bool :=
  bool_decide (ReasonForError e = Some "NotFound").

(** [ae.ErrorCode() == code] under [errors.As(err, &ae)]. *)
Definition has_code (code : string) (e : error) : bool :=
  match AsAPIError e with
  | Some (c, _) => String.eqb c code
  | None => false
  end.

(** What a call ends in: a value with a nil error, an error, a run-time panic
    (a nil dereference, a slice out of range), or, for the one loop that is
    bounded by a clock, fuel that ran out. *)
Inductive outcome (A : Type) : Type :=
| Ok (a : A)
| Err (e : error)
| Panic (what : string)
| OutOfFuel.
Arguments Ok {A} a.
Arguments Err {A} e.
Arguments Panic {A} what.
Arguments OutOfFuel {A}.

#[export] Instance outcome_eq_dec `{EqDecision A} : EqDecision (outcome A).
Proof. solve_decision. Defined.

(** [v, err := f(); if err != nil { return err }]. *)
Definition obind {A B} (o : outcome A) (k : A -> outcome B) : outcome B :=
  match o with
  | Ok a => k a
  | Err e => Err e
  | Panic w => Panic w
  | OutOfFuel => OutOfFuel
  end.

(** Dereferencing a pointer. *)
Definition deref {A} (p : option A) : outcome A :=
  match p with
  | Some a => Ok a
  | None => Panic "nil pointer dereference"
  end.

Definition returns {A} (o : outcome A) : Prop :=
  match o with Ok _ | Err _ => True | Panic _ | OutOfFuel => False end.

(** Wrapping keeps the API error visible to [errors.As]: what every
    [fmt.Errorf("...%w", err)] of the operator relies on. *)
Lemma AsAPIError_Errorf prefix e : AsAPIError (Errorf_w prefix e) = AsAPIError e.
Proof. done. Qed.

Lemma has_code_Errorf code prefix e : has_code code (Errorf_w prefix e) = has_code code e.
Proof. done. Qed.

Lemma has_code_AsAPIError code e :
  has_code code e = true <-> exists msg, AsAPIError e = Some (code, msg).
Proof.
  unfold has_code. destruct (AsAPIError e) as [[c m]|]; [|naive_solver].
  rewrite String.eqb_eq. naive_solver.
Qed.

#[export] Hint Rewrite AsAPIError_Errorf has_code_Errorf : model.
