(* ===== verification/Naming.v ===== *)
(** * Names, tags and slice differences: [pkg/util]

    [Module Naming] is [pkg/util/naming.go] and [pkg/util/helpers.go]: the
    names and tags every AWS resource of the operator gets, and the two-way
    difference the reconcilers use to attach and detach subnets and security
    groups. *)
From S2P Require Import Prelude GoError.

(** A tag of the EC2 or Route 53 API; both fields are pointers. *)
Record AwsTag := mkAwsTag { tag_Key : option string; tag_Value : option string }.

#[export] Instance AwsTag_eq_dec : EqDecision AwsTag.
Proof. solve_decision. Defined.

Module Naming.

(** ** Definitions *)

Definition OperatorTagKey := "kubernetes.io/aws-vpce-operator".
Definition OperatorTagValue := "managed".
Definition RedHatManagedTagKey := "red-hat-managed".
Definition RedHatManagedTagValue := "true".
Definition SecurityGroupDescription := "Managed by AWS VPCE Operator".
Definition LegacyClusterTagPrefix := "kubernetes.io/cluster".
Definition CapiClusterTagPrefix := "sigs.k8s.io/cluster-api-provider-aws/cluster".

(** [SupportedInfraIDSuffixes], each format applied to the infra name. *)
Definition SupportedInfraIDSuffixes (infraName : string) : list string :=
  (fun suffix => infraName +:+ suffix) <$>
    ["-master-sg"; "-worker-sg"; "-controlplane"; "-node"].

Definition GenerateAwsTags (name clusterTagKey : string) : outcome (list AwsTag) :=
  if (is_empty name || is_empty clusterTagKey)%bool then
    Err (EOpaque "failed to GenerateAwsTags: name and clusterTagKey must not be empty")
  else
    Ok [ mkAwsTag (Some OperatorTagKey) (Some OperatorTagValue);
         mkAwsTag (Some RedHatManagedTagKey) (Some RedHatManagedTagValue);
         mkAwsTag (Some clusterTagKey) (Some "owned");
         mkAwsTag (Some "Name") (Some name) ].

(** The loop of [GenerateAwsTagsAsMap]: later tags overwrite earlier ones. *)
Fixpoint tagsToMap (tags : list AwsTag) (m : gmap string string)
  : outcome (gmap string string) :=
  match tags with
  | [] => Ok m
  | t :: tags' =>
      obind (deref (tag_Key t)) (fun k =>
      obind (deref (tag_Value t)) (fun v =>
      tagsToMap tags' (<[k := v]> m)))
  end.

Definition GenerateAwsTagsAsMap (name clusterTagKey : string)
  : outcome (gmap string string) :=
  obind (GenerateAwsTags name clusterTagKey) (fun tags => tagsToMap tags ∅).

Definition GetClusterLegacyTagKey (infraName : string) : outcome string :=
  if is_empty infraName then
    Err (EOpaque "failed to GetClusterLegacyTagKey: infraName must be specified")
  else Ok (LegacyClusterTagPrefix +:+ "/" +:+ infraName).

Definition GetClusterCapiTagKey (infraName : string) : outcome string :=
  if is_empty infraName then
    Err (EOpaque "failed to GetClusterCapiTagKey: infraName must be specified")
  else Ok (CapiClusterTagPrefix +:+ "/" +:+ infraName).

(** Go's [s[:n]], which panics outside [0, len(s)]. *)
Definition slice_to (s : string) (n : Z) : outcome string :=
  if ((n <? 0)%Z || (Z.of_nat (String.length s) <? n)%Z)%bool
  then Panic "slice bounds out of range"
  else Ok (String.substring 0 (Z.to_nat n) s).

Definition generateName (prefix suffix : string) (maxLength : Z) : outcome string :=
  if (is_empty prefix || is_empty suffix)%bool then
    Err (EOpaque "prefix and suffix must be specified")
  else if (maxLength <? 1)%Z then
    Err (EOpaque "maxLength must be greater than 0")
  else
    let room := (maxLength - Z.of_nat (String.length suffix))%Z in
    obind (if (room <? Z.of_nat (String.length prefix))%Z
           then slice_to prefix (room - 1)
           else Ok prefix)
      (fun prefix' => Ok (prefix' +:+ "-" +:+ suffix)).

Definition GenerateSecurityGroupName (clusterName purpose : string) : outcome string :=
  if is_empty clusterName then
    Err (EOpaque "clusterName must not be empty when generating a security group name")
  else generateName (clusterName +:+ "-" +:+ purpose) "sg" 255.

Definition GenerateVPCEndpointName (clusterName purpose : string) : outcome string :=
  if is_empty clusterName then
    Err (EOpaque "clusterName must not be empty when generating a vpc endpoint name")
  else generateName (clusterName +:+ "-" +:+ purpose) "vpce" 255.

Definition GenerateR53Tags (clusterTagKey : string) : outcome (list AwsTag) :=
  if is_empty clusterTagKey then Err (EOpaque "clusterTagKey must not be empty")
  else
    Ok [ mkAwsTag (Some OperatorTagKey) (Some OperatorTagValue);
         mkAwsTag (Some clusterTagKey) (Some "owned");
         mkAwsTag (Some RedHatManagedTagKey) (Some RedHatManagedTagValue) ].

(** The order in which a [range] over a Go map visits its keys is unspecified:
    a function that ranges takes the order as an argument. *)
Definition MapOrder := gset string -> list string.

Definition valid_order (o : MapOrder) : Prop := forall s, o s ≡ₚ elements s.

(** [StringSliceTwoWayDiff]; [order1] and [order2] are the orders of its two
    loops over [currentMap] and [expectedMap]. *)
Definition StringSliceTwoWayDiff (order1 order2 : MapOrder)
    (current expected : list string) : list string * list string :=
  let currentMap : gset string := list_to_set current in
  let expectedMap : gset string := list_to_set expected in
  let toDelete := filter (fun k => k ∉ expectedMap) (order1 currentMap) in
  let toCreate := filter (fun k => k ∉ currentMap) (order2 expectedMap) in
  (toCreate, toDelete).

(** ** Lemmas *)

Lemma valid_order_elements : valid_order elements.
Proof. by intros s. Qed.

Lemma valid_order_elem o s k : valid_order o -> k ∈ o s <-> k ∈ s.
Proof. intros Ho. by rewrite (Ho s), elem_of_elements. Qed.

Lemma valid_order_NoDup o s : valid_order o -> NoDup (o s).
Proof. intros Ho. rewrite (Ho s). apply NoDup_elements. Qed.

Lemma slice_to_Ok s n :
  (0 <= n <= Z.of_nat (String.length s))%Z ->
  slice_to s n = Ok (String.substring 0 (Z.to_nat n) s).
Proof.
  intros Hn. unfold slice_to.
  destruct (Z.ltb_spec n 0); [lia|].
  by destruct (Z.ltb_spec (Z.of_nat (String.length s)) n); [lia|].
Qed.

(** The length of a generated name, as a function of its inputs. *)
Definition generated_length (prefix suffix : string) (maxLength : Z) : Z :=
  let p := Z.of_nat (String.length prefix) in
  let s := Z.of_nat (String.length suffix) in
  if (maxLength - s <? p)%Z then maxLength else (p + 1 + s)%Z.

Lemma generateName_Ok prefix suffix maxLength :
  prefix <> "" -> suffix <> "" ->
  (Z.of_nat (String.length suffix) < maxLength)%Z ->
  exists name, generateName prefix suffix maxLength = Ok name /\
    Z.of_nat (String.length name) = generated_length prefix suffix maxLength.
Proof.
  intros Hp Hs Hmax. unfold generateName, generated_length.
  apply is_empty_false in Hp as ->. apply is_empty_false in Hs as ->. simpl.
  destruct (Z.ltb_spec maxLength 1); [lia|].
  destruct (Z.ltb_spec (maxLength - Z.of_nat (String.length suffix))
              (Z.of_nat (String.length prefix))) as [Hlt|Hge]; simpl.
  - rewrite slice_to_Ok by lia. simpl. eexists; split; [done|].
    rewrite !string_length_app, string_length_substring. simpl. lia.
  - eexists; split; [done|]. rewrite !string_length_app. simpl. lia.
Qed.

Lemma cluster_prefix_nonempty c p : c +:+ "-" +:+ p <> "".
Proof. by destruct c. Qed.

Lemma cluster_prefix_length c p :
  Z.of_nat (String.length (c +:+ "-" +:+ p)) =
  (Z.of_nat (String.length c) + 1 + Z.of_nat (String.length p))%Z.
Proof. rewrite !string_length_app. simpl. lia. Qed.

Lemma StringSliceTwoWayDiff_elem o1 o2 current expected toCreate toDelete :
  valid_order o1 -> valid_order o2 ->
  StringSliceTwoWayDiff o1 o2 current expected = (toCreate, toDelete) ->
  (forall k, k ∈ toCreate <-> k ∈ expected /\ k ∉ current) /\
  (forall k, k ∈ toDelete <-> k ∈ current /\ k ∉ expected).
Proof.
  intros H1 H2 [= <- <-].
  split; intros k; rewrite list_elem_of_filter, valid_order_elem by done; set_solver.
Qed.

Lemma StringSliceTwoWayDiff_NoDup o1 o2 current expected toCreate toDelete :
  valid_order o1 -> valid_order o2 ->
  StringSliceTwoWayDiff o1 o2 current expected = (toCreate, toDelete) ->
  NoDup toCreate /\ NoDup toDelete.
Proof.
  intros H1 H2 [= <- <-]. split; apply NoDup_filter; by apply valid_order_NoDup.
Qed.

(** ** Properties *)

(** C39: [GenerateVPCEndpointName] and [GenerateSecurityGroupName] return an
    error exactly for an empty cluster name and never panic; otherwise the
    name's length is [min(255, len(clusterName) + 1 + len(purpose) + 1 +
    len(suffix))], except when the unshortened name would be exactly one byte
    too long, where the guard does not fire and the name has 256 bytes. *)
Theorem generated_name_lengths (clusterName purpose : string) :
  let n suffix :=
    (Z.of_nat (String.length clusterName) + 1 + Z.of_nat (String.length purpose)
     + 1 + Z.of_nat (String.length suffix))%Z in
  let ok r suffix :=
    match r with
    | Ok name => clusterName <> "" /\
        Z.of_nat (String.length name) =
          (if (n suffix =? 256)%Z then 256 else Z.min 255 (n suffix))%Z
    | Err _ => clusterName = ""
    | _ => False
    end in
  ok (GenerateVPCEndpointName clusterName purpose) "vpce" /\
  ok (GenerateSecurityGroupName clusterName purpose) "sg".
Proof.
  simpl. unfold GenerateVPCEndpointName, GenerateSecurityGroupName.
  destruct (is_empty clusterName) eqn:Hc; breflect; [done|].
  assert (Hgen : forall suffix, suffix <> "" -> String.length suffix < 10 ->
    exists name, generateName (clusterName +:+ "-" +:+ purpose) suffix 255 = Ok name /\
      Z.of_nat (String.length name) =
        generated_length (clusterName +:+ "-" +:+ purpose) suffix 255).
  { intros suffix Hs Hlen. apply generateName_Ok; [|done|lia].
    apply cluster_prefix_nonempty. }
  unfold generated_length in Hgen. rewrite cluster_prefix_length in Hgen.
  destruct (Hgen "vpce") as (n1 & -> & ->); [done|simpl; lia|].
  destruct (Hgen "sg") as (n2 & -> & ->); [done|simpl; lia|].
  simpl String.length. split; (split; [done|]);
    repeat case_match; breflect; lia.
Qed.

(** [StringSliceTwoWayDiff] is the difference its callers apply: for any
    iteration order of Go's maps, both results are free of duplicates, they
    share no element, and detaching [toDelete] from the current set and then
    attaching [toCreate] yields exactly the expected set. *)
Theorem StringSliceTwoWayDiff_correct (order1 order2 : MapOrder)
    (current expected : list string) :
  valid_order order1 -> valid_order order2 ->
  let '(toCreate, toDelete) := StringSliceTwoWayDiff order1 order2 current expected in
  NoDup toCreate /\ NoDup toDelete /\ toCreate ## toDelete /\
  ((list_to_set current : gset string) ∖ list_to_set toDelete) ∪ list_to_set toCreate
    = list_to_set expected.
Proof.
  intros H1 H2. destruct (StringSliceTwoWayDiff _ _ _ _) as [c d] eqn:E.
  destruct (StringSliceTwoWayDiff_elem _ _ _ _ _ _ H1 H2 E) as [Hc Hd].
  destruct (StringSliceTwoWayDiff_NoDup _ _ _ _ _ _ H1 H2 E) as [Nc Nd].
  split; [done|]. split; [done|]. split.
  - intros k ?%Hc ?%Hd. naive_solver.
  - apply set_eq. intros k.
    rewrite elem_of_union, elem_of_difference, !elem_of_list_to_set, Hc, Hd.
    destruct (decide (k ∈ current)), (decide (k ∈ expected)); naive_solver.
Qed.

Lemma StringSliceTwoWayDiff_correct_witness :
  let '(c, d) := StringSliceTwoWayDiff elements elements ["a"; "b"; "b"] ["b"; "c"] in
  (c = ["c"] /\ d = ["a"]) /\
  ((list_to_set ["a"; "b"; "b"] : gset string) ∖ list_to_set d) ∪ list_to_set c
    = list_to_set ["b"; "c"].
Proof.
  split; [vm_compute; done|].
  apply (StringSliceTwoWayDiff_correct elements elements ["a"; "b"; "b"] ["b"; "c"]);
    apply valid_order_elements.
Defined.

(** The map of default tags holds the four tags of [GenerateAwsTags] and
    nothing else, whenever the cluster tag key is one the operator builds; and
    both functions fail on exactly the same inputs. *)
Theorem GenerateAwsTagsAsMap_correct (name infraName clusterTagKey : string) :
  GetClusterLegacyTagKey infraName = Ok clusterTagKey ->
  match GenerateAwsTags name clusterTagKey, GenerateAwsTagsAsMap name clusterTagKey with
  | Ok tags, Ok m =>
      name <> "" /\
      forall k v, m !! k = Some v <-> mkAwsTag (Some k) (Some v) ∈ tags
  | Err e, Err e' => name = "" /\ e = e'
  | _, _ => False
  end.
Proof.
  unfold GetClusterLegacyTagKey.
  destruct (is_empty infraName) eqn:Hi; [done|]. intros [= <-].
  unfold GenerateAwsTagsAsMap, GenerateAwsTags. simpl is_empty at 2.
  rewrite orb_false_r. destruct (is_empty name) eqn:Hn; breflect; simpl; [done|].
  split; [done|]. intros k v.
  rewrite !elem_of_cons, elem_of_nil, !lookup_insert_Some, lookup_empty.
  unfold OperatorTagKey, RedHatManagedTagKey, LegacyClusterTagPrefix. naive_solver.
Qed.

Lemma GenerateAwsTagsAsMap_correct_witness :
  GetClusterLegacyTagKey "mock-12345" = Ok "kubernetes.io/cluster/mock-12345" /\
  match GenerateAwsTags "n" "kubernetes.io/cluster/mock-12345",
        GenerateAwsTagsAsMap "n" "kubernetes.io/cluster/mock-12345" with
  | Ok tags, Ok m => "n" <> "" /\
      forall k v, m !! k = Some v <-> mkAwsTag (Some k) (Some v) ∈ tags
  | Err e, Err e' => "n" = "" /\ e = e'
  | _, _ => False
  end.
Proof.
  split; [reflexivity|].
  apply (GenerateAwsTagsAsMap_correct "n" "mock-12345" "kubernetes.io/cluster/mock-12345").
  reflexivity.
Defined.

End Naming.
