(* ===== verification/Types.v ===== *)
(** * The data: custom resources, Kubernetes objects and AWS objects

    [Module avov1alpha2] and [Module avov1alpha1] are the operator's own custom
    resources ([api/v1alpha2], [api/v1alpha1]).  The other modules hold the
    objects of the services the operator talks to, restricted to the fields its
    code reads or writes; a pointer field is an [option].  Ports are [int32]s
    that the operator only compares and copies, so they are kept as [Z]. *)
From S2P Require Import Prelude GoError Naming.

(** ** Kubernetes object metadata *)

Module metav1.

(** [metav1.ObjectMeta]; times are nanoseconds. [DeletionTimestamp] is [None]
    while [IsZero()] holds. *)
Record ObjectMeta := mkObjectMeta {
  Name : string;
  Namespace : string;
  Labels : gmap string string;
  CreationTimestamp : Z;
  DeletionTimestamp : option Z;
  Finalizers : list string;
  ResourceVersion : string
}.

Definition ConditionTrue := "True".
Definition ConditionFalse := "False".

(** [metav1.Condition]. *)
Record Condition := mkCondition {
  Type_ : string;
  Status : string;
  Reason : string;
  Message : string
}.

#[export] Instance Condition_eq_dec : EqDecision Condition.
Proof. solve_decision. Defined.

Record LabelSelectorRequirement := mkRequirement {
  Key : string; Operator : string; Values : list string
}.

Record LabelSelector := mkLabelSelector {
  MatchLabels : gmap string string;
  MatchExpressions : list LabelSelectorRequirement
}.

End metav1.

(** [corev1.SecretReference]. *)
Record SecretReference := mkSecretReference {
  secret_Name : string; secret_Namespace : string
}.

#[export] Instance SecretReference_eq_dec : EqDecision SecretReference.
Proof. solve_decision. Defined.

(** ** [api/v1alpha2]: VpcEndpoint and VpcEndpointTemplate *)

Module avov1alpha2.

Record SecurityGroupRule := mkSecurityGroupRule {
  CidrIp : string; FromPort : Z; ToPort : Z; Protocol : string
}.

Record SecurityGroup := mkSecurityGroup {
  IngressRules : list SecurityGroupRule;
  EgressRules : list SecurityGroupRule;
  UseVpcCidr : bool
}.

Record Tag := mkTag { Key : string; Value : string }.

Record Vpc := mkVpc {
  AutoDiscoverSubnets : bool;
  SubnetIds : list string;
  Ids : list string;
  Tags : list Tag;
  SubnetTags : list Tag
}.

Record ExternalNameService := mkExternalNameService { ens_Name : string }.

Record Route53HostedZoneRecord := mkRoute53HostedZoneRecord {
  Hostname : string;
  ExternalNameService_ : ExternalNameService
}.

Record DnsSelector := mkDnsSelector { dns_Name : string }.

Record ObjectFieldSelector := mkObjectFieldSelector { FieldPath : string }.

Record HostedControlPlaneSelector := mkHostedControlPlaneSelector {
  NamespaceFieldRef : option ObjectFieldSelector
}.

Record DomainNameSource := mkDomainNameSource {
  DnsRef : option DnsSelector;
  HostedControlPlaneRef : option HostedControlPlaneSelector
}.

(** The struct [DomainName]. *)
Record DomainNameT := mkDomainName {
  dn_Name : string;
  dn_ValueFrom : option DomainNameSource
}.

Record AssociatedVpc := mkAssociatedVpc {
  CredentialsSecretRef : option SecretReference;
  av_VpcId : string;
  av_Region : string
}.

Record Route53PrivateHostedZone := mkRoute53PrivateHostedZone {
  AutoDiscover : bool;
  AssociatedVpcs : list AssociatedVpc;
  DomainName : string;
  DomainNameRef : option DomainNameT;
  Id : string;
  Record_ : Route53HostedZoneRecord
}.

(** The struct [CustomDns]. *)
Record CustomDnsT := mkCustomDns { r53phz : Route53PrivateHostedZone }.

Record AwsEndpointSelector := mkAwsEndpointSelector { aes_Name : string }.

Record ServiceNameSource := mkServiceNameSource {
  AwsEndpointServiceRef : option AwsEndpointSelector
}.

(** The struct [ServiceName]. *)
Record ServiceNameT := mkServiceName {
  sn_Name : string;
  sn_ValueFrom : option ServiceNameSource
}.

Record VpcEndpointSpec := mkVpcEndpointSpec {
  ServiceName : string;
  ServiceNameRef : option ServiceNameT;
  SecurityGroup_ : SecurityGroup;
  AssumeRoleArn : string;
  AWSCredentialOverrideRef : option SecretReference;
  Region : string;
  EnablePrivateDns : bool;
  Vpc_ : Vpc;
  CustomDns : CustomDnsT
}.

(** [reflect.DeepEqual] on specs is Leibniz equality of these records. *)
#[export] Instance VpcEndpointSpec_eq_dec : EqDecision VpcEndpointSpec.
Proof.
  assert (EqDecision SecurityGroupRule) by solve_decision.
  assert (EqDecision SecurityGroup) by solve_decision.
  assert (EqDecision Tag) by solve_decision.
  assert (EqDecision Vpc) by solve_decision.
  assert (EqDecision ExternalNameService) by solve_decision.
  assert (EqDecision Route53HostedZoneRecord) by solve_decision.
  assert (EqDecision DnsSelector) by solve_decision.
  assert (EqDecision ObjectFieldSelector) by solve_decision.
  assert (EqDecision HostedControlPlaneSelector) by solve_decision.
  assert (EqDecision DomainNameSource) by solve_decision.
  assert (EqDecision DomainNameT) by solve_decision.
  assert (EqDecision AssociatedVpc) by solve_decision.
  assert (EqDecision Route53PrivateHostedZone) by solve_decision.
  assert (EqDecision CustomDnsT) by solve_decision.
  assert (EqDecision AwsEndpointSelector) by solve_decision.
  assert (EqDecision ServiceNameSource) by solve_decision.
  assert (EqDecision ServiceNameT) by solve_decision.
  solve_decision.
Defined.

Definition AWSVpcEndpointCondition := "AWSVpcEndpointReady".
Definition AWSSecurityGroupCondition := "AWSSecurityGroupReady".
Definition ExternalNameServiceCondition := "ExternalNameServiceReady".
Definition AWSRoute53RecordCondition := "AWSRoute53RecordReady".
Definition AWSRoute53TagsCondition := "AWSRoute53TagsReady".

Record VpcEndpointStatus := mkVpcEndpointStatus {
  Status : string;
  SecurityGroupId : string;
  VPCId : string;
  VPCEndpointId : string;
  VPCEndpointServiceName : string;
  HostedZoneId : string;
  ResourceRecordSet : string;
  InfraId : string;
  Conditions : list metav1.Condition
}.

Record VpcEndpoint := mkVpcEndpoint {
  meta : metav1.ObjectMeta;
  Spec : VpcEndpointSpec;
  status : VpcEndpointStatus
}.

(** [VpceTemplateSpec]: the labels of its metadata and its spec. *)
Record VpceTemplateSpec := mkVpceTemplateSpec {
  tmpl_meta : metav1.ObjectMeta;
  tmpl_Spec : VpcEndpointSpec
}.

Definition HCPVpcEndpointTemplateType := "HostedControlPlane".

Record VpcEndpointTemplateSpec := mkVpcEndpointTemplateSpec {
  vt_Type : string;
  Selector : metav1.LabelSelector;
  Template : VpceTemplateSpec
}.

Record VpcEndpointTemplate := mkVpcEndpointTemplate {
  vt_meta : metav1.ObjectMeta;
  vt_Spec : VpcEndpointTemplateSpec
}.

(** *** Zero values ([new(T)]) *)

Definition ObjectMeta_zero : metav1.ObjectMeta :=
  metav1.mkObjectMeta "" "" ∅ 0 None [] "".

Definition VpcEndpointSpec_zero : VpcEndpointSpec :=
  mkVpcEndpointSpec "" None (mkSecurityGroup [] [] false) "" None "" false
    (mkVpc false [] [] [] [])
    (mkCustomDns (mkRoute53PrivateHostedZone false [] "" None ""
       (mkRoute53HostedZoneRecord "" (mkExternalNameService "")))).

Definition VpcEndpointStatus_zero : VpcEndpointStatus :=
  mkVpcEndpointStatus "" "" "" "" "" "" "" "" [].

Definition VpcEndpoint_zero : VpcEndpoint :=
  mkVpcEndpoint ObjectMeta_zero VpcEndpointSpec_zero VpcEndpointStatus_zero.

(** *** Field updates *)

Definition set_Status (x : string) (s : VpcEndpointStatus) : VpcEndpointStatus :=
  mkVpcEndpointStatus x (SecurityGroupId s) (VPCId s) (VPCEndpointId s)
    (VPCEndpointServiceName s) (HostedZoneId s) (ResourceRecordSet s) (InfraId s) (Conditions s).
Definition set_SecurityGroupId (x : string) (s : VpcEndpointStatus) : VpcEndpointStatus :=
  mkVpcEndpointStatus (Status s) x (VPCId s) (VPCEndpointId s)
    (VPCEndpointServiceName s) (HostedZoneId s) (ResourceRecordSet s) (InfraId s) (Conditions s).
Definition set_VPCId (x : string) (s : VpcEndpointStatus) : VpcEndpointStatus :=
  mkVpcEndpointStatus (Status s) (SecurityGroupId s) x (VPCEndpointId s)
    (VPCEndpointServiceName s) (HostedZoneId s) (ResourceRecordSet s) (InfraId s) (Conditions s).
Definition set_VPCEndpointId (x : string) (s : VpcEndpointStatus) : VpcEndpointStatus :=
  mkVpcEndpointStatus (Status s) (SecurityGroupId s) (VPCId s) x
    (VPCEndpointServiceName s) (HostedZoneId s) (ResourceRecordSet s) (InfraId s) (Conditions s).
Definition set_VPCEndpointServiceName (x : string) (s : VpcEndpointStatus) : VpcEndpointStatus :=
  mkVpcEndpointStatus (Status s) (SecurityGroupId s) (VPCId s) (VPCEndpointId s)
    x (HostedZoneId s) (ResourceRecordSet s) (InfraId s) (Conditions s).
Definition set_HostedZoneId (x : string) (s : VpcEndpointStatus) : VpcEndpointStatus :=
  mkVpcEndpointStatus (Status s) (SecurityGroupId s) (VPCId s) (VPCEndpointId s)
    (VPCEndpointServiceName s) x (ResourceRecordSet s) (InfraId s) (Conditions s).
Definition set_ResourceRecordSet (x : string) (s : VpcEndpointStatus) : VpcEndpointStatus :=
  mkVpcEndpointStatus (Status s) (SecurityGroupId s) (VPCId s) (VPCEndpointId s)
    (VPCEndpointServiceName s) (HostedZoneId s) x (InfraId s) (Conditions s).
Definition set_InfraId (x : string) (s : VpcEndpointStatus) : VpcEndpointStatus :=
  mkVpcEndpointStatus (Status s) (SecurityGroupId s) (VPCId s) (VPCEndpointId s)
    (VPCEndpointServiceName s) (HostedZoneId s) (ResourceRecordSet s) x (Conditions s).
Definition set_Conditions (x : list metav1.Condition) (s : VpcEndpointStatus) : VpcEndpointStatus :=
  mkVpcEndpointStatus (Status s) (SecurityGroupId s) (VPCId s) (VPCEndpointId s)
    (VPCEndpointServiceName s) (HostedZoneId s) (ResourceRecordSet s) (InfraId s) x.

Definition set_status (f : VpcEndpointStatus -> VpcEndpointStatus) (v : VpcEndpoint)
  : VpcEndpoint := mkVpcEndpoint (meta v) (Spec v) (f (status v)).

Definition set_ResourceVersion_meta (x : string) (m : metav1.ObjectMeta) : metav1.ObjectMeta :=
  metav1.mkObjectMeta (metav1.Name m) (metav1.Namespace m) (metav1.Labels m)
    (metav1.CreationTimestamp m) (metav1.DeletionTimestamp m) (metav1.Finalizers m) x.

Definition set_Finalizers_meta (x : list string) (m : metav1.ObjectMeta) : metav1.ObjectMeta :=
  metav1.mkObjectMeta (metav1.Name m) (metav1.Namespace m) (metav1.Labels m)
    (metav1.CreationTimestamp m) (metav1.DeletionTimestamp m) x (metav1.ResourceVersion m).

Definition set_meta (f : metav1.ObjectMeta -> metav1.ObjectMeta) (v : VpcEndpoint)
  : VpcEndpoint := mkVpcEndpoint (f (meta v)) (Spec v) (status v).

Definition set_Spec (sp : VpcEndpointSpec) (v : VpcEndpoint) : VpcEndpoint :=
  mkVpcEndpoint (meta v) sp (status v).

End avov1alpha2.

(** ** [api/v1alpha1]: VpcEndpointAcceptance and AvoConfig *)

Module avov1alpha1.

Record AAOAccountAcceptanceCriteria := mkAAOAccountAcceptanceCriteria { Namespace : string }.

(** The struct [AcceptanceCriteria]. *)
Record AcceptanceCriteriaT := mkAcceptanceCriteria {
  AwsAccountOperatorAccount : option AAOAccountAcceptanceCriteria;
  AlwaysAccept : bool
}.

Record VpcEndpointAcceptanceSpec := mkVpcEndpointAcceptanceSpec {
  Id : string;
  AssumeRoleArn : string;
  Region : string;
  AcceptanceCriteria : AcceptanceCriteriaT
}.

Record VpcEndpointAcceptance := mkVpcEndpointAcceptance {
  meta : metav1.ObjectMeta;
  Spec : VpcEndpointAcceptanceSpec
}.

(** The feature flags of [AvoConfig]. *)
Record AvoConfig := mkAvoConfig {
  EnableVpcEndpointController : option bool;
  EnableVpcEndpointAcceptanceController : option bool;
  EnableVpcEndpointTemplateController : option bool;
  EnablePrivateDns : option bool
}.

End avov1alpha1.

(** ** Objects of other APIs *)

(** [config.openshift.io/v1]. *)
Module configv1.

Record PlatformStatus := mkPlatformStatus {
  Type_ : string;
  AWS : option string (* .aws.region *)
}.

Record Infrastructure := mkInfrastructure {
  InfrastructureName : string;
  PlatformStatus_ : option PlatformStatus
}.

Record DNS := mkDNS { BaseDomain : string }.

End configv1.

(** [hypershift.openshift.io/v1beta1]. *)
Module hyperv1beta1.

Definition APIServer := "APIServer".
Definition Route := "Route".

Record ServicePublishingStrategyMapping := mkService {
  Service : string;
  Type_ : string;
  Route_Hostname : option string (* .route.hostname; None when .route is nil *)
}.

Record HostedControlPlane := mkHostedControlPlane {
  Name : string;
  Namespace : string;
  DeletionTimestamp : option Z;
  InfraID : string;
  Services : list ServicePublishingStrategyMapping
}.

End hyperv1beta1.

Module corev1.

(** The parts of [corev1.Service] the operator sets or reads. [Owner] is the
    name and namespace of the controller owner reference. *)
Record Service := mkService {
  Name : string;
  Namespace : string;
  Owner : option (string * string);
  Type_ : string;
  ExternalName : string;
  ResourceVersion : string
}.

Definition ServiceTypeExternalName := "ExternalName".

End corev1.

(** [aws.Config]: a region, and an identification of the credentials it
    carries. *)
Inductive Credentials :=
| CredDefault
| CredAssumeRole (arn : string)
| CredStatic (accessKeyId secretAccessKey : string).

Record AwsConfig := mkAwsConfig { cfg_Region : string; cfg_Credentials : Credentials }.

#[export] Instance Credentials_eq_dec : EqDecision Credentials.
Proof. solve_decision. Defined.
#[export] Instance AwsConfig_eq_dec : EqDecision AwsConfig.
Proof. solve_decision. Defined.

Module ec2Types.

Record SecurityGroup := mkSecurityGroup {
  sg_GroupId : option string; sg_Tags : list AwsTag
}.

Record SecurityGroupRule := mkSecurityGroupRule {
  IsEgress : option bool;
  IpProtocol : option string;
  FromPort : option Z;
  ToPort : option Z;
  CidrIpv4 : option string;
  ReferencedGroupInfo : option (option string) (* .groupId *)
}.

(** [IpRanges] lists the [CidrIp]s, [UserIdGroupPairs] the [GroupId]s. *)
Record IpPermission := mkIpPermission {
  perm_IpProtocol : option string;
  perm_FromPort : option Z;
  perm_ToPort : option Z;
  IpRanges : list (option string);
  UserIdGroupPairs : list (option string)
}.

#[export] Instance IpPermission_eq_dec : EqDecision IpPermission.
Proof. solve_decision. Defined.

Record Filter := mkFilter { flt_Name : option string; flt_Values : list string }.

#[export] Instance Filter_eq_dec : EqDecision Filter.
Proof. solve_decision. Defined.

Record Subnet := mkSubnet {
  SubnetId : option string;
  subnet_VpcId : option string;
  AvailabilityZone : option string
}.

Record Vpc := mkVpc { VpcId : option string; CidrBlock : option string }.

Record VpcEndpoint := mkVpcEndpoint {
  VpcEndpointId : option string;
  State : string;
  vpce_VpcId : option string;
  SubnetIds : list string;
  Groups : list (option string); (* the GroupIds *)
  PrivateDnsEnabled : option bool;
  DnsEntries : list (option string) (* the DnsNames *)
}.

Record VpcEndpointConnection := mkVpcEndpointConnection {
  conn_VpcEndpointId : option string;
  VpcEndpointOwner : option string
}.

(** The inputs of the calls that take a struct. *)
Record AuthorizeInput := mkAuthorizeInput {
  auth_GroupId : option string;
  IpPermissions : list IpPermission;
  auth_Tags : list AwsTag
}.

Record ModifyVpcEndpointInput := mkModifyVpcEndpointInput {
  mod_VpcEndpointId : option string;
  AddSubnetIds : list string;
  RemoveSubnetIds : list string;
  AddSecurityGroupIds : list string;
  RemoveSecurityGroupIds : list string;
  mod_PrivateDnsEnabled : option bool
}.

Record CreateVpcEndpointInput := mkCreateVpcEndpointInput {
  cve_VpcId : string;
  cve_ServiceName : string;
  cve_VpcEndpointType : string;
  cve_Tags : list AwsTag
}.

Record CreateSecurityGroupInput := mkCreateSecurityGroupInput {
  csg_GroupName : string;
  csg_Description : string;
  csg_VpcId : string;
  csg_Tags : list AwsTag
}.

End ec2Types.

Module route53Types.

Record HostedZone := mkHostedZone {
  hz_Id : option string;
  hz_Name : option string;
  hz_Config : option bool (* .privateZone *)
}.

Record GetHostedZoneOutput := mkGetHostedZoneOutput {
  HostedZone_ : option HostedZone;
  VPCs : list (option string) (* the VPCIds *)
}.

Record HostedZoneSummary := mkHostedZoneSummary {
  hzs_HostedZoneId : option string;
  hzs_Name : option string
}.

Record ResourceRecordSet := mkResourceRecordSet {
  rrs_Name : option string;
  rrs_Type : string;
  rrs_TTL : option Z;
  rrs_ResourceRecords : list (option string) (* the values *)
}.

Definition RRTypeCname := "CNAME".
Definition RRTypeNs := "NS".
Definition RRTypeSoa := "SOA".

Inductive ChangeAction := ChangeActionUpsert | ChangeActionDelete.

Record ChangeResourceRecordSetsInput := mkChangeResourceRecordSetsInput {
  Action : ChangeAction;
  ResourceRecordSet_ : ResourceRecordSet;
  Comment : option string;
  crrs_HostedZoneId : string
}.

(** [ChangeTagsForResourceInput] without the always empty [RemoveTagKeys]. *)
Record ChangeTagsForResourceInput := mkChangeTagsForResourceInput {
  ResourceId : string;
  ResourceType : string;
  AddTags : list AwsTag
}.

Definition TagResourceTypeHostedzone := "hostedzone".

Record CreateHostedZoneInput := mkCreateHostedZoneInput {
  CallerReference : Z; (* the clock it is printed from *)
  chz_Name : string;
  chz_Comment : string;
  chz_PrivateZone : bool;
  chz_VPCId : string;
  chz_VPCRegion : string
}.

End route53Types.
