(* ===== verification/Calls.v ===== *)
(** * The calls the operator makes on services it does not implement

    Every interaction with AWS, with the Kubernetes API server, with the clock
    and with the Go runtime is a [call]; its index is the type of the answer on
    success.  A [World] answers calls; nothing is assumed of the answers unless
    a theorem says so.  The pure helper functions of the Kubernetes libraries
    are the class [K8sHelpers], with their documented behaviour as the laws of
    [K8sHelpersLaws]. *)
From S2P Require Import Prelude GoError Naming Types.

(** ** The calls *)

(** [AvoEC2API], [AvoVpcEndpointAcceptanceEc2Api] and the SDK's paginator and
    waiter over them. *)
Inductive ec2op : Type -> Type :=
| AuthorizeSecurityGroupEgress (i : ec2Types.AuthorizeInput)
    : ec2op (list ec2Types.SecurityGroupRule)
| AuthorizeSecurityGroupIngress (i : ec2Types.AuthorizeInput)
    : ec2op (list ec2Types.SecurityGroupRule)
| CreateSecurityGroup (i : ec2Types.CreateSecurityGroupInput) : ec2op (option string)
| DeleteSecurityGroup (groupId : string) : ec2op unit
| DescribeSecurityGroups (filters : list ec2Types.Filter) (groupIds : list string)
    : ec2op (list ec2Types.SecurityGroup)
| DescribeSecurityGroupRules (filters : list ec2Types.Filter)
    : ec2op (list ec2Types.SecurityGroupRule)
| WaitSecurityGroupExists (groupIds : list string) (maxWait : Z) : ec2op unit
| DescribeSubnets (filters : list ec2Types.Filter) (subnetIds : list string)
    : ec2op (list ec2Types.Subnet)
| DescribeVpcs (filters : list ec2Types.Filter) (vpcIds : list string)
    : ec2op (list ec2Types.Vpc)
| CreateTags (resources : list string) (tags : list AwsTag) : ec2op unit
| CreateVpcEndpoint (i : ec2Types.CreateVpcEndpointInput)
    : ec2op (option ec2Types.VpcEndpoint)
| DeleteVpcEndpoints (ids : list string) : ec2op unit
| DescribeVpcEndpoints (filters : list ec2Types.Filter) (ids : list string)
    : ec2op (list ec2Types.VpcEndpoint)
| DescribeVpcEndpointsPages (filters : list ec2Types.Filter)
    (* what [NextPage] of the paginator answers, until [HasMorePages] is false *)
    : ec2op (list (error + list ec2Types.VpcEndpoint))
| ModifyVpcEndpoint (i : ec2Types.ModifyVpcEndpointInput) : ec2op unit
| DescribeVpcEndpointServices (names : list string)
    : ec2op (list (list string)) (* the AvailabilityZones of each ServiceDetail *)
| AcceptVpcEndpointConnections (serviceId : string) (ids : list string) : ec2op unit
| DescribeVpcEndpointConnections (filters : list ec2Types.Filter)
    : ec2op (list ec2Types.VpcEndpointConnection).

(** [AvoRoute53API] and [VpcAssociationAPI]. *)
Inductive route53op : Type -> Type :=
| ChangeResourceRecordSets (i : route53Types.ChangeResourceRecordSetsInput) : route53op unit
| ChangeTagsForResource (i : route53Types.ChangeTagsForResourceInput) : route53op unit
| CreateHostedZone (i : route53Types.CreateHostedZoneInput)
    : route53op (option route53Types.HostedZone)
| CreateVPCAssociationAuthorization (hostedZoneId vpcId region : string) : route53op unit
| DeleteHostedZone (id : string) : route53op unit
| GetHostedZone (id : string) : route53op route53Types.GetHostedZoneOutput
| ListHostedZonesByName (dnsName : string) : route53op (list route53Types.HostedZone)
| ListHostedZonesByVPC (vpcId region : string)
    : route53op (list route53Types.HostedZoneSummary)
| ListResourceRecordSets (hostedZoneId : string)
    : route53op (list route53Types.ResourceRecordSet)
| ListTagsForResource (resourceId resourceType : string)
    : route53op (option (list AwsTag)) (* None: a nil ResourceTagSet *)
| AssociateVPCWithHostedZone (hostedZoneId vpcId region comment : string) : route53op unit.

(** The Kubernetes API server. A write answers with the object's new resource
    version: on success the client overwrites the object it was given with the
    server's copy, which under the optimistic lock differs in that field only. *)
Inductive kubeop : Type -> Type :=
| GetVpcEndpoint (namespace name : string) : kubeop avov1alpha2.VpcEndpoint
| UpdateVpcEndpoint (v : avov1alpha2.VpcEndpoint) : kubeop string
| UpdateVpcEndpointStatus (v : avov1alpha2.VpcEndpoint) : kubeop string
| CreateVpcEndpointCR (v : avov1alpha2.VpcEndpoint) : kubeop unit
| DeleteVpcEndpointCR (v : avov1alpha2.VpcEndpoint) : kubeop unit
| ListVpcEndpoints (selector : metav1.LabelSelector) (namespace : string)
    : kubeop (list avov1alpha2.VpcEndpoint)
| GetVpcEndpointTemplate (namespace name : string) : kubeop avov1alpha2.VpcEndpointTemplate
| UpdateVpcEndpointTemplate (v : avov1alpha2.VpcEndpointTemplate) : kubeop string
| ListVpcEndpointTemplates : kubeop (list avov1alpha2.VpcEndpointTemplate)
| ValidateLabelSelector (selector : metav1.LabelSelector) : kubeop unit
| GetVpcEndpointAcceptance (namespace name : string)
    : kubeop avov1alpha1.VpcEndpointAcceptance
| ListAccounts (namespace : string) : kubeop (list string) (* the .spec.awsAccountIDs *)
| GetInfrastructure (name : string) : kubeop configv1.Infrastructure
| GetDNS (name : string) : kubeop configv1.DNS
| ListHostedControlPlanes (namespace : string) : kubeop (list hyperv1beta1.HostedControlPlane)
| GetAWSEndpointService (namespace name : string)
    : kubeop string (* its .status.endpointServiceName *)
| GetSecret (namespace name : string) : kubeop (gmap string string)
| GetService (namespace name : string) : kubeop corev1.Service
| CreateService (s : corev1.Service) : kubeop unit
| UpdateService (s : corev1.Service) : kubeop unit
| SetControllerReference (ownerNamespace ownerName : string) (s : corev1.Service)
    : kubeop corev1.Service.

(** Prometheus metrics. Gauges are set to a number (a count or a duration in
    nanoseconds). *)
Inductive metric :=
| VpcePendingAcceptanceSet (name namespace id : string) (v : Z)
| VpcePendingAcceptanceDelete (name namespace id : string)
| AwsUnauthorizedOperationInc (action : string)
| VpceCleanupFailureInc (error_type : string)
| VpceSecurityGroupReadyDuration (v : Z)
| VpceEndpointReadyDuration (v : Z)
| VpceRoute53ReadyDuration (v : Z)
| VpceNotReadySecondsSet (name namespace : string) (v : Z)
| VpceNotReadySecondsDelete (name namespace : string)
| VpcEndpointAcceptanceQueueSet (name namespace : string) (v : Z)
| VpcEndpointAcceptanceQueueDelete (name namespace : string).

Inductive call : Type -> Type :=
| EC2 {R} (client : AwsConfig) (op : ec2op R) : call R
| R53 {R} (client : AwsConfig) (op : route53op R) : call R
| Kube {R} (op : kubeop R) : call R
| LoadDefaultConfig (region : string) (creds : option Credentials) : call AwsConfig
| Now : call Z
| AfterOrDone (duration : Z) : call unit (* [<-time.After(d)]; an error is [ctx.Err()] *)
| RangeOrder : call Naming.MapOrder (* the order of the next [range] over a map *)
| LookupEnv (name : string) : call (option string)
| Metric (m : metric) : call unit
| Event (eventtype reason message : string) : call unit
| Enqueue (namespace name : string) : call unit (* workqueue.Add *).

(** One call that was made, with its answer. *)
Inductive event : Type :=
| Ev {R : Type} (c : call R) (answer : error + R).

(** ** Interfaces to code outside the repository *)

(** A world: how the services answer, as a transition on an arbitrary state. *)
Class World (W : Type) := handle : forall {R}, call R -> W -> W * (error + R).

(** The clock of a world: it is read by [Now], never runs backwards, and a sleep
    that was not cancelled lasts at least as long as asked for. *)
Class ClockLaws `{World W} (clock : W -> Z) : Prop := {
  clock_now w w' r :
    handle Now w = (w', r) -> exists t, r = inr t /\ (clock w <= t <= clock w')%Z;
  clock_monotone R (c : call R) w w' r : handle c w = (w', r) -> (clock w <= clock w')%Z;
  clock_sleep d w w' :
    handle (AfterOrDone d) w = (w', inr tt) -> (clock w + d <= clock w')%Z
}.

(** Pure helpers of [k8s.io/apimachinery/pkg/api/meta] and of controller-runtime's
    [controllerutil]. *)
Class K8sHelpers := {
  IsStatusConditionTrue : list metav1.Condition -> string -> bool;
  SetStatusCondition : list metav1.Condition -> metav1.Condition -> list metav1.Condition;
  ContainsFinalizer : list string -> string -> bool;
  AddFinalizer : list string -> string -> list string;
  RemoveFinalizer : list string -> string -> list string
}.

(** What a list of conditions says of the type [t]: its first entry. *)
Definition condition_of (cs : list metav1.Condition) (t : string)
  : option metav1.Condition :=
  snd <$> list_find (fun c => metav1.Type_ c = t) cs.

(** The documented behaviour of the helpers. *)
Class K8sHelpersLaws `{K8sHelpers} : Prop := {
  condition_true_iff cs t :
    IsStatusConditionTrue cs t = true <->
    exists c, condition_of cs t = Some c /\ metav1.Status c = metav1.ConditionTrue;
  condition_set cs c :
    exists c', condition_of (SetStatusCondition cs c) (metav1.Type_ c) = Some c' /\
      metav1.Status c' = metav1.Status c /\ metav1.Reason c' = metav1.Reason c /\
      metav1.Message c' = metav1.Message c;
  condition_set_other cs c t :
    t <> metav1.Type_ c ->
    condition_of (SetStatusCondition cs c) t = condition_of cs t;
  (* an entry of the type is updated in place, else one is appended *)
  condition_set_elem cs c c' :
    c' ∈ SetStatusCondition cs c ->
    c' ∈ cs \/ (metav1.Type_ c' = metav1.Type_ c /\ metav1.Status c' = metav1.Status c);
  condition_set_types cs c :
    metav1.Type_ <$> SetStatusCondition cs c =
    if decide (metav1.Type_ c ∈ metav1.Type_ <$> cs) then metav1.Type_ <$> cs
    else (metav1.Type_ <$> cs) ++ [metav1.Type_ c];
  contains_finalizer_iff fs f : ContainsFinalizer fs f = true <-> f ∈ fs;
  add_finalizer fs f g : g ∈ AddFinalizer fs f <-> g = f \/ g ∈ fs;
  remove_finalizer fs f g : g ∈ RemoveFinalizer fs f <-> g <> f /\ g ∈ fs
}.

Section laws.
Context `{K8sHelpersLaws}.

Lemma condition_true_set cs c :
  IsStatusConditionTrue (SetStatusCondition cs c) (metav1.Type_ c) =
  String.eqb (metav1.Status c) metav1.ConditionTrue.
Proof.
  destruct (condition_set cs c) as (c' & Hc' & Hs & _).
  apply eq_true_iff_eq. rewrite condition_true_iff, String.eqb_eq. split.
  - intros (c'' & ? & ?). simplify_eq. congruence.
  - intros ?. exists c'. split; congruence.
Qed.

End laws.

(** ** A concrete implementation of the helpers, for evaluation *)

Module K8sRef.

Fixpoint set_condition (cs : list metav1.Condition) (c : metav1.Condition)
  : list metav1.Condition :=
  match cs with
  | [] => [c]
  | c' :: cs' => if decide (metav1.Type_ c' = metav1.Type_ c) then c :: cs'
                 else c' :: set_condition cs' c
  end.

#[export] Instance helpers : K8sHelpers := {
  IsStatusConditionTrue cs t :=
    match condition_of cs t with
    | Some c => String.eqb (metav1.Status c) metav1.ConditionTrue
    | None => false
    end;
  SetStatusCondition := set_condition;
  ContainsFinalizer fs f := bool_decide (f ∈ fs);
  AddFinalizer fs f := if decide (f ∈ fs) then fs else fs ++ [f];
  RemoveFinalizer fs f := filter (fun g => g <> f) fs
}.

Lemma condition_of_cons c cs t :
  condition_of (c :: cs) t =
  if decide (metav1.Type_ c = t) then Some c else condition_of cs t.
Proof.
  unfold condition_of. simpl. case_decide; [done|].
  by destruct (list_find _ cs) as [[i c']|].
Qed.

#[export] Instance helpers_laws : K8sHelpersLaws.
Proof.
  split; simpl.
  - intros cs t. destruct (condition_of cs t) as [c|]; [|naive_solver].
    rewrite String.eqb_eq. naive_solver.
  - intros cs c. exists c. split; [|done].
    induction cs as [|c' cs IH]; simpl.
    { rewrite condition_of_cons. by case_decide. }
    case_decide; rewrite condition_of_cons; case_decide; done.
  - intros cs c t Ht. induction cs as [|c' cs IH]; simpl.
    { rewrite condition_of_cons. by case_decide. }
    case_decide; rewrite !condition_of_cons; repeat case_decide; congruence.
  - intros cs c c'. induction cs as [|c1 cs IH]; simpl; [set_solver|].
    case_decide; set_solver.
  - intros cs c. induction cs as [|c1 cs IH]; csimpl.
    { done. }
    destruct (decide (metav1.Type_ c1 = metav1.Type_ c)) as [Hc|Hc]; rewrite fmap_cons.
    + rewrite decide_True by (rewrite Hc; set_solver). by rewrite Hc.
    + rewrite IH. repeat case_decide; set_solver.
  - intros fs f. apply bool_decide_eq_true.
  - intros fs f g. case_decide; [naive_solver|]. set_solver.
  - intros fs f g. by rewrite list_elem_of_filter.
Qed.

End K8sRef.
