(* ===== verification/GoMonad.v ===== *)
(** * The monad of the operator's functions

    A Go function that may call services, change its controller's memory, fail
    or panic is a computation [M W L A]: from a system state (a world, the calls
    made so far, the controller's memory [L]) to an [outcome] and the state it
    leaves behind.  Effects done before an error or a panic stay done.

    Two ways to reason: [respects R m], for a preorder [R] between the state
    before and the state after, proved by following the program text; and
    [wp m Q s], the weakest precondition, for the result of a run. *)
From S2P Require Import Prelude GoError Naming Types Calls.

Record Sys (W L : Type) := mkSys { world : W; trace : list event; local : L }.
Arguments mkSys {W L} world trace local.
Arguments world {W L} s.
Arguments trace {W L} s.
Arguments local {W L} s.

Definition M (W L A : Type) : Type := Sys W L -> outcome A * Sys W L.

Section ops.
Context {W : Type} {L : Type}.
Implicit Types s : Sys W L.

Definition ret {A} (a : A) : M W L A := fun s => (Ok a, s).

Definition bind {A B} (m : M W L A) (k : A -> M W L B) : M W L B := fun s =>
  match m s with
  | (Ok a, s') => k a s'
  | (Err e, s') => (Err e, s')
  | (Panic w, s') => (Panic w, s')
  | (OutOfFuel, s') => (OutOfFuel, s')
  end.

(** A pure function with an error result, or that may panic. *)
Definition lift {A} (o : outcome A) : M W L A := fun s => (o, s).

Definition fail {A} (e : error) : M W L A := lift (Err e).
Definition panic {A} (w : string) : M W L A := lift (Panic w).
Definition out_of_fuel {A} : M W L A := lift OutOfFuel.

(** [v, err := f()] without the usual early return: the error is a value. *)
Definition try {A} (m : M W L A) : M W L (error + A) := fun s =>
  match m s with
  | (Ok a, s') => (Ok (inr a), s')
  | (Err e, s') => (Ok (inl e), s')
  | (Panic w, s') => (Panic w, s')
  | (OutOfFuel, s') => (OutOfFuel, s')
  end.

(** Reading and writing the controller's memory. *)
Definition gets {A} (f : L -> A) : M W L A := fun s => (Ok (f (local s)), s).
Definition modify (f : L -> L) : M W L unit := fun s =>
  (Ok tt, mkSys (world s) (trace s) (f (local s))).

(** [for _, a := range l { if err := f(a); err != nil { return err } }]. *)
Fixpoint forM_ {A} (l : list A) (f : A -> M W L unit) : M W L unit :=
  match l with
  | [] => ret tt
  | a :: l' => bind (f a) (fun _ => forM_ l' f)
  end.

Context `{World W}.

Definition of_answer {A} (r : error + A) : outcome A :=
  match r with inl e => Err e | inr a => Ok a end.

Definition after s {R} (c : call R) (w' : W) (r : error + R) : Sys W L :=
  mkSys w' (trace s ++ [Ev c r]) (local s).

Definition trigger {R} (c : call R) : M W L R := fun s =>
  let '(w', r) := handle c (world s) in (of_answer r, after s c w' r).

(** A call whose result the code drops: metrics, recorder events. *)
Definition fire (c : call unit) : M W L unit :=
  bind (try (trigger c)) (fun _ => ret tt).
End ops.

(** [if err := m; err != nil { return fmt.Errorf(prefix ++ "%w", err) }]. *)
Definition wrap {W L A} (prefix : string) (m : M W L A) : M W L A :=
  bind (try m) (fun r =>
    match r with
    | inl e => fail (Errorf_w prefix e)
    | inr a => ret a
    end).

Declare Scope go_scope.
Delimit Scope go_scope with go.
Notation "x <- m ;; k" := (bind m (fun x => k))
  (at level 100, m at next level, k at level 200, right associativity) : go_scope.
Notation "m ;; k" := (bind m (fun _ => k))
  (at level 100, k at level 200, right associativity) : go_scope.

(** ** What a call looked like *)

Definition call_pred : Type := forall R, call R -> Prop.

Definition event_sat (P : call_pred) (e : event) : Prop :=
  match e with Ev c _ => P _ c end.

Definition no (P : call_pred) : call_pred := fun R c => ~ P R c.

Lemma event_sat_no P e : event_sat (no P) e <-> ~ event_sat P e.
Proof. by destruct e. Qed.

(** Every [P]-event of [l] comes after a [Q]-event. *)
Definition preceded (P Q : event -> Prop) (l : list event) : Prop :=
  forall n e, l !! n = Some e -> P e ->
    exists m e', (m < n)%nat /\ l !! m = Some e' /\ Q e'.

Lemma preceded_none P Q l : Forall (event_sat (no P)) l -> preceded (event_sat P) Q l.
Proof.
  intros Hl n e Hn He. eapply Forall_lookup_1 in Hl; [|exact Hn].
  by apply event_sat_no in Hl.
Qed.

Lemma preceded_app P (Q : event -> Prop) l l' :
  Forall (event_sat (no P)) l -> Exists Q l -> preceded (event_sat P) Q (l ++ l').
Proof.
  intros Hl Hc n e Hn He. apply Exists_exists in Hc as (e' & Hin & Hc).
  apply list_elem_of_lookup in Hin as [m Hm].
  exists m, e'. split_and!; [|by apply lookup_app_l_Some|done].
  destruct (decide (n < length l)%nat) as [Hlt|Hge].
  - rewrite lookup_app_l in Hn by done.
    eapply Forall_lookup_1 in Hl; [|exact Hn]. by apply event_sat_no in Hl.
  - apply lookup_lt_Some in Hm. lia.
Qed.

(** ** Relations between the state before and after *)

Section respects.
Context {W : Type} {L : Type} `{World W}.
Implicit Types s : Sys W L.

Definition respects (R : relation (Sys W L)) {A} (m : M W L A) : Prop :=
  forall s, R s (m s).2.

Section generic.
Context (R : relation (Sys W L)) `{!PreOrder R}.

Lemma respects_ret {A} (a : A) : respects R (ret a).
Proof. intros s. simpl. reflexivity. Qed.

Lemma respects_lift {A} (o : outcome A) : respects R (lift o).
Proof. intros s. simpl. reflexivity. Qed.

Lemma respects_gets {A} (f : L -> A) : respects R (gets f).
Proof. intros s. simpl. reflexivity. Qed.

Lemma respects_bind {A B} (m : M W L A) (k : A -> M W L B) :
  respects R m -> (forall a, respects R (k a)) -> respects R (bind m k).
Proof.
  intros Hm Hk s. unfold bind. specialize (Hm s).
  destruct (m s) as [[a| | |] s']; simpl in *; try done.
  transitivity s'; [done|apply Hk].
Qed.

(** The value of a pure part is known. *)
Lemma respects_lift_bind {A B} (o : outcome A) (k : A -> M W L B) :
  (forall a, o = Ok a -> respects R (k a)) -> respects R (bind (lift o) k).
Proof.
  intros Hk s. unfold bind, lift. destruct o; simpl; try reflexivity. by apply Hk.
Qed.

Lemma respects_try {A} (m : M W L A) : respects R m -> respects R (try m).
Proof.
  intros Hm s. unfold try. specialize (Hm s).
  by destruct (m s) as [[a| | |] s'].
Qed.

Lemma respects_wrap {A} p (m : M W L A) : respects R m -> respects R (wrap p m).
Proof.
  intros Hm. apply respects_bind; [by apply respects_try|].
  intros [e|a]; apply respects_lift || apply respects_ret.
Qed.

Lemma respects_forM_ {A} (l : list A) (f : A -> M W L unit) :
  (forall a, respects R (f a)) -> respects R (forM_ l f).
Proof.
  intros Hf. induction l as [|a l IH]; simpl; [apply respects_ret|].
  by apply respects_bind.
Qed.
End generic.

(** [emits P Inv]: from a memory that satisfies [Inv], only calls that satisfy
    [P] are made, and the memory satisfies [Inv] again. *)
Definition emits (P : call_pred) (Inv : L -> Prop) : relation (Sys W L) := fun s s' =>
  Inv (local s) ->
  Inv (local s') /\ exists l, trace s' = trace s ++ l /\ Forall (event_sat P) l.

#[export] Instance emits_preorder P Inv : PreOrder (emits P Inv).
Proof.
  split.
  - intros s Hi. split; [done|]. exists []. by rewrite app_nil_r.
  - intros s1 s2 s3 H12 H23 Hi. destruct (H12 Hi) as (Hi2 & l1 & Ht1 & Hl1).
    destruct (H23 Hi2) as (Hi3 & l2 & Ht2 & Hl2).
    split; [done|]. exists (l1 ++ l2). rewrite Ht2, Ht1, app_assoc.
    split; [done|]. by apply Forall_app_2.
Qed.

Context (P : call_pred) (Inv : L -> Prop).

Lemma emits_trigger {R} (c : call R) :
  P _ c -> respects (emits P Inv) (trigger c).
Proof.
  intros Hc s Hi. unfold trigger. destruct (handle c (world s)) as [w' r].
  simpl. split; [done|]. exists [Ev c r]. split; [done|]. by repeat constructor.
Qed.

Lemma emits_fire (c : call unit) : P _ c -> respects (emits P Inv) (fire c).
Proof.
  intros Hc. apply respects_bind; [apply _|by apply respects_try, emits_trigger|].
  intros r. apply respects_ret, _.
Qed.

Lemma emits_modify (f : L -> L) :
  (forall l, Inv l -> Inv (f l)) -> respects (emits P Inv) (modify f).
Proof.
  intros Hf s Hi. simpl. split; [auto|]. exists []. by rewrite app_nil_r.
Qed.

(** The value read is one the invariant allows. *)
Lemma emits_gets_bind {A B} (f : L -> A) (k : A -> M W L B) :
  (forall l, Inv l -> respects (emits P Inv) (k (f l))) ->
  respects (emits P Inv) (bind (gets f) k).
Proof. intros Hk s Hi. simpl. by apply (Hk (local s) Hi). Qed.

End respects.

#[export] Hint Resolve respects_ret respects_lift respects_gets : respects.

(** Side conditions: the call is one that [P] allows, the update keeps [Inv]. *)
Ltac call_solve := solve [exact I | exact (fun Hno : False => Hno) | eauto with respects].
Ltac inv_solve := solve [intros ? Hinv; exact Hinv | eauto with respects].

Ltac head_of t := match t with ?f _ => head_of f | _ => t end.

(** Unfolds the function a program starts with, unless it is an operation of
    the monad. *)
Ltac unfold_program m :=
  let h := head_of m in
  lazymatch h with
  | @trigger => fail | @fire => fail | @modify => fail | @bind => fail
  | @gets => fail | @try => fail | @wrap => fail | @forM_ => fail
  | @lift => fail | @ret => fail
  | _ => unfold h; cbv beta
  end.

(** Follows the text of a program in a goal [respects R m].  Lemmas on called
    functions are taken from the hints of [respects]; calls of functions
    without a lemma are unfolded. *)
Ltac go_respects_step :=
  match goal with
  | |- respects (emits _ _) (bind (gets _) _) =>
      apply emits_gets_bind; intros ??
  | |- respects _ (bind _ _) => apply respects_bind; [apply _| |intros ?]
  | |- respects _ (ret _) => apply respects_ret, _
  | |- respects _ (lift _) => apply respects_lift, _
  | |- respects _ (fail _) => apply respects_lift, _
  | |- respects _ (panic _) => apply respects_lift, _
  | |- respects _ out_of_fuel => apply respects_lift, _
  | |- respects _ (gets _) => apply respects_gets, _
  | |- respects _ (try _) => apply respects_try
  | |- respects _ (wrap _ _) => apply respects_wrap; [apply _|]
  | |- respects _ (forM_ (_ :: _) _) => cbn [forM_]
  | |- respects _ (forM_ [] _) => cbn [forM_]
  | |- respects _ (forM_ _ _) => apply respects_forM_; [apply _|intros ?]
  | |- respects (emits _ _) (modify _) => apply emits_modify; inv_solve
  | |- respects (emits _ _) (trigger _) => apply emits_trigger; call_solve
  | |- respects (emits _ _) (fire _) => apply emits_fire; call_solve
  | |- respects _ ?m => solve [eauto 2 with respects]
  | |- respects _ (let _ := _ in _) => cbv zeta
  | |- respects _ (match ?x with _ => _ end) => destruct x eqn:?
  | |- respects _ ?m => unfold_program m
  end.

Ltac go_respects := repeat go_respects_step.

(** ** Termination *)

Section terminates.
Context {W : Type} {L : Type} `{World W}.

(** [m] never runs out of fuel. *)
Definition terminates {A} (m : M W L A) : Prop := forall s, (m s).1 <> OutOfFuel.

Lemma terminates_ret {A} (a : A) : terminates (ret a).
Proof. done. Qed.

Lemma terminates_lift {A} (o : outcome A) : o <> OutOfFuel -> terminates (lift o).
Proof. by intros ? s. Qed.

Lemma terminates_gets {A} (f : L -> A) : terminates (gets f).
Proof. done. Qed.

Lemma terminates_modify (f : L -> L) : terminates (modify f).
Proof. done. Qed.

Lemma terminates_trigger {R} (c : call R) : terminates (trigger c).
Proof. intros s. unfold trigger. by destruct (handle c (world s)) as [w' [|]]. Qed.

Lemma terminates_bind {A B} (m : M W L A) (k : A -> M W L B) :
  terminates m -> (forall a, terminates (k a)) -> terminates (bind m k).
Proof.
  intros Hm Hk s. unfold bind. specialize (Hm s).
  destruct (m s) as [[a| | |] s']; simpl in *; try done. apply Hk.
Qed.

Lemma terminates_try {A} (m : M W L A) : terminates m -> terminates (try m).
Proof. intros Hm s. unfold try. specialize (Hm s). by destruct (m s) as [[a| | |] s']. Qed.

Lemma terminates_wrap {A} p (m : M W L A) : terminates m -> terminates (wrap p m).
Proof.
  intros Hm. apply terminates_bind; [by apply terminates_try|]. by intros [e|a].
Qed.

Lemma terminates_fire (c : call unit) : terminates (fire c).
Proof. apply terminates_bind; [apply terminates_try, terminates_trigger|done]. Qed.

Lemma terminates_forM_ {A} (l : list A) (f : A -> M W L unit) :
  (forall a, terminates (f a)) -> terminates (forM_ l f).
Proof.
  intros Hf. induction l as [|a l IH]; simpl; [done|]. by apply terminates_bind.
Qed.
End terminates.

(** A pure helper never runs out of fuel: the hints of [total]. *)
Create HintDb total.

Lemma obind_total {A B} (o : outcome A) (k : A -> outcome B) :
  o <> OutOfFuel -> (forall a, k a <> OutOfFuel) -> obind o k <> OutOfFuel.
Proof. destruct o; simpl; auto; discriminate. Qed.

Lemma deref_total {A} (p : option A) : deref p <> OutOfFuel.
Proof. by destruct p. Qed.

#[export] Hint Resolve deref_total : total.

Ltac go_total :=
  match goal with
  | |- terminates (bind _ _) => apply terminates_bind; [|intros ?]
  | |- terminates (ret _) => apply terminates_ret
  | |- terminates (fail _) => apply terminates_lift; discriminate
  | |- terminates (panic _) => apply terminates_lift; discriminate
  | |- terminates (lift _) => apply terminates_lift
  | |- terminates (gets _) => apply terminates_gets
  | |- terminates (try _) => apply terminates_try
  | |- terminates (wrap _ _) => apply terminates_wrap
  | |- terminates (forM_ (_ :: _) _) => cbn [forM_]
  | |- terminates (forM_ [] _) => cbn [forM_]
  | |- terminates (forM_ _ _) => apply terminates_forM_; intros ?
  | |- terminates (modify _) => apply terminates_modify
  | |- terminates (trigger _) => apply terminates_trigger
  | |- terminates (fire _) => apply terminates_fire
  | |- terminates _ => solve [eauto 2 with total]
  | |- terminates (let _ := _ in _) => cbv zeta
  | |- terminates (match ?x with _ => _ end) => destruct x
  | |- terminates ?m => unfold_program m
  | |- _ <> OutOfFuel => solve [discriminate | eauto 2 with total]
  | |- obind _ _ <> OutOfFuel => apply obind_total; [|intros ?]
  | |- match ?x with _ => _ end <> OutOfFuel => destruct x
  end.

Ltac go_terminates := repeat go_total.

(** ** Weakest preconditions *)

Section wp.
Context {W : Type} {L : Type} `{World W}.
Implicit Types s : Sys W L.

Definition wp {A} (m : M W L A) (Q : outcome A -> Sys W L -> Prop) s : Prop :=
  Q (m s).1 (m s).2.

Lemma wp_mono {A} (m : M W L A) (Q Q' : outcome A -> Sys W L -> Prop) s :
  wp m Q s -> (forall o s', Q o s' -> Q' o s') -> wp m Q' s.
Proof. unfold wp. auto. Qed.

Lemma wp_any {A} (m : M W L A) (Q : outcome A -> Sys W L -> Prop) s :
  (forall o s', Q o s') -> wp m Q s.
Proof. unfold wp. auto. Qed.

Lemma wp_ret {A} (a : A) (Q : outcome A -> Sys W L -> Prop) s :
  Q (Ok a) s -> wp (ret a) Q s.
Proof. done. Qed.

Lemma wp_lift {A} (o : outcome A) (Q : outcome A -> Sys W L -> Prop) s :
  Q o s -> wp (lift o) Q s.
Proof. done. Qed.

(** How [Q] continues after a first computation. *)
Definition continue {A B} (k : A -> M W L B) (Q : outcome B -> Sys W L -> Prop)
  : outcome A -> Sys W L -> Prop := fun o s' =>
  match o with
  | Ok a => wp (k a) Q s'
  | Err e => Q (Err e) s'
  | Panic w => Q (Panic w) s'
  | OutOfFuel => Q OutOfFuel s'
  end.

Lemma wp_bind {A B} (m : M W L A) (k : A -> M W L B) Q s :
  wp m (continue k Q) s -> wp (bind m k) Q s.
Proof.
  unfold wp, continue, bind. by destruct (m s) as [[a| | |] s'].
Qed.

Lemma wp_try {A} (m : M W L A) Q s :
  wp m (fun o s' =>
    match o with
    | Ok a => Q (Ok (inr a)) s'
    | Err e => Q (Ok (inl e)) s'
    | Panic w => Q (Panic w) s'
    | OutOfFuel => Q OutOfFuel s'
    end) s -> wp (try m) Q s.
Proof. unfold wp, try. by destruct (m s) as [[a| | |] s']. Qed.

Lemma wp_gets {A} (f : L -> A) Q s : Q (Ok (f (local s))) s -> wp (gets f) Q s.
Proof. done. Qed.

Lemma wp_modify (f : L -> L) Q s :
  Q (Ok tt) (mkSys (world s) (trace s) (f (local s))) -> wp (modify f) Q s.
Proof. done. Qed.

Lemma wp_trigger {R} (c : call R) Q s :
  (forall w' r, handle c (world s) = (w', r) -> Q (of_answer r) (after s c w' r)) ->
  wp (trigger c) Q s.
Proof.
  intros HQ. unfold wp, trigger. destruct (handle c (world s)) as [w' r] eqn:E.
  by apply HQ.
Qed.

Lemma wp_fire (c : call unit) Q s :
  (forall w' r, handle c (world s) = (w', r) -> Q (Ok tt) (after s c w' r)) ->
  wp (fire c) Q s.
Proof.
  intros HQ. apply wp_bind, wp_try, wp_trigger. intros w' [e|[]] E; simpl;
    by apply HQ.
Qed.

Lemma wp_wrap {A} p (m : M W L A) Q s :
  wp m (fun o s' =>
    match o with Err e => Q (Err (Errorf_w p e)) s' | _ => Q o s' end) s ->
  wp (wrap p m) Q s.
Proof.
  intros Hm. apply wp_bind, wp_try. eapply wp_mono; [exact Hm|].
  by intros [a|e|w|] s'.
Qed.

End wp.

#[global] Arguments wp : simpl never.

(** ** Extensions of the trace *)

Section extends.
Context {W : Type} {L : Type} `{World W}.
Implicit Types s : Sys W L.

(** How a computation extends the trace, with the outcome and the final memory
    at hand. *)
Definition extends {A} (Q : outcome A -> list event -> L -> Prop) (m : M W L A) s : Prop :=
  exists l, trace (m s).2 = trace s ++ l /\ Q (m s).1 l (local (m s).2).

Lemma emits_extends {A} (P : call_pred) (Inv : L -> Prop) (m : M W L A) s :
  respects (emits P Inv) m -> Inv (local s) ->
  extends (fun _ l m' => Forall (event_sat P) l /\ Inv m') m s.
Proof. intros Hm Hs. destruct (Hm s Hs) as (? & l & ? & ?). by exists l. Qed.

Lemma extends_bind {A B} Q Q' (m : M W L A) (k : A -> M W L B) s :
  extends Q m s ->
  (forall a l s', trace s' = trace s ++ l -> Q (Ok a) l (local s') ->
     extends (fun o l' => Q' o (l ++ l')) (k a) s') ->
  (forall e l m', Q (Err e) l m' -> Q' (Err e) l m') ->
  (forall w l m', Q (Panic w) l m' -> Q' (Panic w) l m') ->
  (forall l m', Q OutOfFuel l m' -> Q' OutOfFuel l m') ->
  extends Q' (bind m k) s.
Proof.
  unfold extends, bind. intros (l & Ht & HQ) Hk He Hp Hf.
  destruct (m s) as [[a|e|w|] s']; simpl in *; [|exists l; eauto..].
  destruct (Hk a l s' Ht HQ) as (l' & Ht' & HQ'). exists (l ++ l').
  by rewrite Ht', Ht, app_assoc.
Qed.

(** Two facts about the same run, the second under a condition. *)
Lemma extends_when {A} (C : Prop) Q Q' (m : M W L A) s :
  extends Q m s -> (C -> extends Q' m s) ->
  extends (fun o l m' => Q o l m' /\ (C -> Q' o l m')) m s.
Proof.
  intros (l & Ht & HQ) HC. exists l. split; [done|]. split; [done|].
  intros (l' & Ht' & HQ')%HC. rewrite Ht' in Ht. by apply app_inv_head in Ht as ->.
Qed.

Lemma extends_wp {A} Q (m : M W L A) s :
  extends Q m s <->
  wp m (fun o s' => exists l, trace s' = trace s ++ l /\ Q o l (local s')) s.
Proof. done. Qed.

Lemma wp_extends {A} Q (m : M W L A) (R : outcome A -> Sys W L -> Prop) s :
  extends Q m s ->
  (forall o l s', trace s' = trace s ++ l -> Q o l (local s') -> R o s') -> wp m R s.
Proof. intros (l & Ht & HQ) HR. by apply (HR _ l). Qed.

Lemma wp_emits {A} (P : call_pred) (Inv : L -> Prop) (m : M W L A)
    (Q : outcome A -> Sys W L -> Prop) s :
  respects (emits P Inv) m -> Inv (local s) ->
  (forall o l s', trace s' = trace s ++ l -> Forall (event_sat P) l -> Inv (local s') ->
     Q o s') -> wp m Q s.
Proof.
  intros Hm Hs HQ. eapply wp_extends; [by apply (emits_extends P Inv)|].
  intros o l s' Ht [Hl Hi]. by eapply HQ.
Qed.

(** Regrouping sequences. *)
Lemma bind_assoc {A B C} (m : M W L A) (f : A -> M W L B) (g : B -> M W L C) s :
  bind m (fun a => bind (f a) g) s = bind (bind m f) g s.
Proof. unfold bind. by destruct (m s) as [[a|e|w|] s']. Qed.

Lemma bind_ext {A B} (m : M W L A) (f g : A -> M W L B) s :
  (forall a s', f a s' = g a s') -> bind m f s = bind m g s.
Proof. intros Hfg. unfold bind. destruct (m s) as [[a|e|w|] s']; auto. Qed.

End extends.

(** Closes a goal [exists l, trace s' = trace s ++ l /\ _] from the equations on
    the traces in between. *)
Ltac close_trace :=
  eexists; split;
  [ cbn [trace after]; repeat match goal with H : trace ?s = _ |- context [trace ?s] => rewrite H; cbn [trace after] end;
    cbn [trace after]; rewrite <- ?app_assoc; first [reflexivity | symmetry; apply app_nil_r]
  | cbn ].


(** One step of symbolic execution of a goal [wp m Q s]. *)
Ltac wp_step :=
  match goal with
  | |- wp (bind _ _) _ _ => apply wp_bind
  | |- continue _ _ (Ok _) _ => cbn [continue]
  | |- continue _ _ (Err _) _ => cbn [continue]
  | |- continue _ _ (Panic _) _ => cbn [continue]
  | |- continue _ _ OutOfFuel _ => cbn [continue]
  | |- wp (ret _) _ _ => apply wp_ret
  | |- wp (fail _) _ _ => apply wp_lift
  | |- wp (panic _) _ _ => apply wp_lift
  | |- wp (lift _) _ _ => apply wp_lift
  | |- wp (try _) _ _ => apply wp_try
  | |- wp (gets _) _ _ => apply wp_gets
  | |- wp (modify _) _ _ => apply wp_modify
  | |- wp (fire _) _ _ => apply wp_fire; intros ???
  | |- wp (wrap _ _) _ _ => apply wp_wrap
  end.
