(* ===== verification/AwsClient.v ===== *)
(** * The AWS client: [pkg/aws_client]

    The methods of [AWSClient], [VpcAssociationClient] and
    [VpcEndpointAcceptanceAWSClient].  A client is a pointer to a configuration
    ([option AwsConfig]); using a nil one panics, at the first call the method
    makes on it. *)
From S2P Require Import Prelude GoError Naming Types Calls GoMonad.
From stdpp Require Import pretty.
Import Naming.

Definition Second : Z := 1000000000.
Definition Minute : Z := 60 * Second.

Module AWSClient.
Open Scope go_scope.

Section client.
Context {W : Type} `{World W} {L : Type}.
Abbreviation M := (M W L).
Implicit Types c : option AwsConfig.

Definition ec2 c {R} (op : ec2op R) : M R :=
  match c with
  | Some cfg => trigger (EC2 cfg op)
  | None => panic "nil pointer dereference"
  end.

Definition r53 c {R} (op : route53op R) : M R :=
  match c with
  | Some cfg => trigger (R53 cfg op)
  | None => panic "nil pointer dereference"
  end.

Definition filter_by (name : string) (values : list string) : ec2Types.Filter :=
  ec2Types.mkFilter (Some name) values.

(** ** [vpc_endpoint.go] *)

Definition MaxInt : Z := 2 ^ 63 - 1.

(** [vpcePerVpc[*vpce.VpcId]++] over one page. *)
Fixpoint countPage (vpces : list ec2Types.VpcEndpoint) (m : gmap string Z)
  : outcome (gmap string Z) :=
  match vpces with
  | [] => Ok m
  | v :: vpces' =>
      obind (deref (ec2Types.vpce_VpcId v)) (fun id =>
      countPage vpces' (<[id := (default 0 (m !! id) + 1)%Z]> m))
  end.

(** The paginator loop. *)
Fixpoint countPages (pages : list (error + list ec2Types.VpcEndpoint))
    (m : gmap string Z) : outcome (gmap string Z) :=
  match pages with
  | [] => Ok m
  | inl e :: _ => Err e
  | inr page :: pages' => obind (countPage page m) (fun m' => countPages pages' m')
  end.

(** The loop that keeps the smallest count, over the map's entries in the order
    of [range]. *)
Fixpoint selectMin (entries : list (string * Z)) (minVpcId : string)
    (minVpceConsumed : Z) : string :=
  match entries with
  | [] => minVpcId
  | (vpcId, vpceCount) :: entries' =>
      if (vpceCount <? minVpceConsumed)%Z
      then selectMin entries' vpcId vpceCount
      else selectMin entries' minVpcId minVpceConsumed
  end.

Definition rangeMap (order : MapOrder) (m : gmap string Z) : list (string * Z) :=
  (fun k => (k, default 0%Z (m !! k))) <$> order (dom m).

Definition SelectVPCForVPCEndpoint c (ids : list string) : M string :=
  match ids with
  | [] => fail (EOpaque "must specify vpc id when counting VPC Endpoints per VPC")
  | _ =>
      let zero : gmap string Z := list_to_map ((fun id => (id, 0%Z)) <$> ids) in
      pages <- ec2 c (DescribeVpcEndpointsPages [filter_by "vpc-id" ids]);;
      vpcePerVpc <- lift (countPages pages zero);;
      order <- trigger RangeOrder;;
      let minVpcId := selectMin (rangeMap order vpcePerVpc) "" MaxInt in
      if is_empty minVpcId
      then fail (EOpaque "unexpectedly did not select a VPC for the VPC Endpoint")
      else ret minVpcId
  end.

(** [fmt]'s [%v] of a slice of tags. *)
Definition format_tags (tags : list avov1alpha2.Tag) : string :=
  format_strings
    ((fun t => "{" +:+ avov1alpha2.Key t +:+ " " +:+ avov1alpha2.Value t +:+ "}") <$> tags).

Definition FilterVpcIdsByTags c (tags : list avov1alpha2.Tag) : M (list string) :=
  match tags with
  | [] => fail (EOpaque "must specify tags when filtering VPCs by tags")
  | _ =>
      let filters := (fun t => filter_by ("tag:" +:+ avov1alpha2.Key t)
                                 [avov1alpha2.Value t]) <$> tags in
      vpcs <- ec2 c (DescribeVpcs filters []);;
      match vpcs with
      | [] => fail (EOpaque ("no VPCs found when filtering by tags: " +:+ format_tags tags))
      | _ => lift (match sequence (ec2Types.VpcId <$> vpcs) with
                   | Some ids => Ok ids
                   | None => Panic "nil pointer dereference"
                   end)
      end
  end.

Definition GetVpcCidrBlock c (vpcId : string) : M string :=
  if is_empty vpcId then fail (EOpaque "must specify vpc id when getting VPC CIDR block")
  else
    vpcs <- wrap ("failed to describe VPC " +:+ vpcId +:+ ": ")
              (ec2 c (DescribeVpcs [] [vpcId]));;
    match vpcs with
    | [] => fail (EOpaque ("no VPC found with id: " +:+ vpcId))
    | v :: _ =>
        match ec2Types.CidrBlock v with
        | None => fail (EOpaque ("VPC " +:+ vpcId +:+ " has no CIDR block"))
        | Some cidr => ret cidr
        end
    end.

(** [None] is the nil response of the not-found case. *)
Definition DescribeSingleVPCEndpointById c (id : string)
  : M (option (list ec2Types.VpcEndpoint)) :=
  if is_empty id then ret (Some [])
  else
    r <- try (ec2 c (DescribeVpcEndpoints [] [id]));;
    match r with
    | inl e => if has_code "InvalidVpcEndpointId.NotFound" e then ret None else fail e
    | inr vpces =>
        if negb (Nat.eqb (length vpces) 1)
        then fail (EOpaque ("expected 1 VPC endpoint, got " +:+ pretty (length vpces)))
        else ret (Some vpces)
    end.

Definition FilterVPCEndpointByDefaultTags c (clusterTag vpceNameTag : string)
  : M (list ec2Types.VpcEndpoint) :=
  if is_empty clusterTag then ret []
  else
    ec2 c (DescribeVpcEndpoints
      [ filter_by "tag:Name" [vpceNameTag];
        filter_by "tag-key" [clusterTag];
        filter_by ("tag:" +:+ OperatorTagKey) [OperatorTagValue] ] []).

Definition CreateDefaultInterfaceVPCEndpoint c (name vpcId serviceName tagKey : string)
  : M (option ec2Types.VpcEndpoint) :=
  tags <- lift (GenerateAwsTags name tagKey);;
  ec2 c (CreateVpcEndpoint
    (ec2Types.mkCreateVpcEndpointInput vpcId serviceName "Interface" tags)).

Definition DeleteVPCEndpoint c (id : string) : M unit := ec2 c (DeleteVpcEndpoints [id]).

Definition ModifyVpcEndpoint c (input : ec2Types.ModifyVpcEndpointInput) : M unit :=
  ec2 c (Calls.ModifyVpcEndpoint input).

(** ** [security_group.go] *)

Definition FilterClusterNodeSecurityGroupsByDefaultTags c (infraName : string)
  : M (list ec2Types.SecurityGroup) :=
  clusterLegacyTag <- lift (GetClusterLegacyTagKey infraName);;
  clusterCapiTag <- lift (GetClusterCapiTagKey infraName);;
  ec2 c (DescribeSecurityGroups
    [ filter_by "tag-key" [clusterLegacyTag; clusterCapiTag];
      filter_by "tag:Name" (SupportedInfraIDSuffixes infraName) ] []).

Definition FilterSecurityGroupByDefaultTags c (infraName sgNameTag : string)
  : M (list ec2Types.SecurityGroup) :=
  clusterTag <- lift (GetClusterLegacyTagKey infraName);;
  ec2 c (DescribeSecurityGroups
    [ filter_by "tag:Name" [sgNameTag];
      filter_by "tag-key" [clusterTag];
      filter_by ("tag:" +:+ OperatorTagKey) [OperatorTagValue] ] []).

Definition FilterSecurityGroupById c (groupId : string)
  : M (option (list ec2Types.SecurityGroup)) :=
  if is_empty groupId then ret (Some [])
  else
    r <- try (ec2 c (DescribeSecurityGroups [] [groupId]));;
    match r with
    | inl e => if has_code "InvalidGroup.NotFound" e then ret None else fail e
    | inr sgs => ret (Some sgs)
    end.

Definition CreateSecurityGroup c (name vpcId tagKey : string) : M (option string) :=
  tags <- lift (GenerateAwsTags name tagKey);;
  sg <- ec2 c (Calls.CreateSecurityGroup
          (ec2Types.mkCreateSecurityGroupInput name SecurityGroupDescription vpcId tags));;
  groupId <- lift (deref sg);;
  _ <- ec2 c (WaitSecurityGroupExists [groupId] Minute);;
  ret sg.

Definition DeleteSecurityGroup c (groupId : string) : M unit :=
  r <- try (ec2 c (Calls.DeleteSecurityGroup groupId));;
  match r with
  | inl e => if has_code "InvalidGroup.NotFound" e then ret tt else fail e
  | inr _ => ret tt
  end.

(** ** [security_group_rules.go] *)

Definition DescribeSecurityGroupRules c (groupId : string)
  : M (list ec2Types.SecurityGroupRule) :=
  ec2 c (Calls.DescribeSecurityGroupRules [filter_by "group-id" [groupId]]).

Definition AuthorizeSecurityGroupRules c (ingress egress : ec2Types.AuthorizeInput)
  : M (list ec2Types.SecurityGroupRule) :=
  rules <- match ec2Types.IpPermissions ingress with
           | [] => ret []
           | _ => ec2 c (AuthorizeSecurityGroupIngress ingress)
           end;;
  rules' <- match ec2Types.IpPermissions egress with
            | [] => ret []
            | _ => ec2 c (AuthorizeSecurityGroupEgress egress)
            end;;
  ret (rules ++ rules').

(** ** [subnet.go] *)

Definition privateSubnetTagKey := "kubernetes.io/role/internal-elb".

(** The loop that looks for a subnet of another VPC. *)
Fixpoint sameVpc (vpcId : string) (subnets : list ec2Types.Subnet) : outcome bool :=
  match subnets with
  | [] => Ok true
  | s :: subnets' =>
      obind (deref (ec2Types.subnet_VpcId s)) (fun v =>
      if String.eqb v vpcId then sameVpc vpcId subnets' else Ok false)
  end.

Definition GetVPCId c (subnetIds : list string) : M string :=
  match subnetIds with
  | [] => fail (EOpaque "no subnets provided")
  | _ =>
      subnets <- wrap "failed to describe subnets: " (ec2 c (DescribeSubnets [] subnetIds));;
      match subnets with
      | [] => fail (EOpaque ("no subnets found with ids: " +:+ format_strings subnetIds))
      | s :: _ =>
          vpcId <- lift (deref (ec2Types.subnet_VpcId s));;
          same <- lift (sameVpc vpcId subnets);;
          if (same : bool) then ret vpcId
          else fail (EOpaque ("subnets " +:+ format_strings subnetIds +:+
                              " are a part of multiple VPCs"))
      end
  end.

(** The filters of [DescribeSubnetsByTags]: tags without a key are dropped, tags
    without a value filter by key only. *)
Definition subnetFilters (tags : list avov1alpha2.Tag) : list ec2Types.Filter :=
  omap (fun t =>
    if is_empty (avov1alpha2.Key t) then None
    else if is_empty (avov1alpha2.Value t)
    then Some (filter_by "tag-key" [avov1alpha2.Key t])
    else Some (filter_by ("tag:" +:+ avov1alpha2.Key t) [avov1alpha2.Value t])) tags.

Definition DescribeSubnetsByTags c (tags : list avov1alpha2.Tag)
  : M (list ec2Types.Subnet) :=
  ec2 c (DescribeSubnets (subnetFilters tags) []).

Definition AutodiscoverPrivateSubnets c (clusterTag : string)
    (tags : list avov1alpha2.Tag) : M (list ec2Types.Subnet) :=
  nonByovpc <- DescribeSubnetsByTags c
    (tags ++ [avov1alpha2.mkTag clusterTag ""; avov1alpha2.mkTag privateSubnetTagKey ""]);;
  match nonByovpc with
  | _ :: _ => ret nonByovpc
  | [] =>
      byovpc <- DescribeSubnetsByTags c (tags ++ [avov1alpha2.mkTag clusterTag ""]);;
      match byovpc with
      | _ :: _ => ret byovpc
      | [] => fail (EOpaque ("failed to find subnets with tag key: " +:+ clusterTag))
      end
  end.

(** ** [vpc_endpoint_service.go] *)

Definition GetVpcEndpointServiceAZs c (serviceName : string) : M (list string) :=
  if is_empty serviceName
  then fail (EOpaque "GetVpcEndpointServiceAZs: serviceName must be specified")
  else
    details <- ec2 c (DescribeVpcEndpointServices [serviceName]);;
    match details with
    | [azs] => ret azs
    | _ => fail (EOpaque ("expected one VPC Endpoint Service with name " +:+ serviceName
                          +:+ ", got " +:+ pretty (length details)))
    end.

Definition GetVpcEndpointConnectionsPendingAcceptance c (id : string)
  : M (list ec2Types.VpcEndpointConnection) :=
  if is_empty id then ret []
  else ec2 c (DescribeVpcEndpointConnections
         [ filter_by "service-id" [id];
           filter_by "vpc-endpoint-state" ["pendingAcceptance"] ]).

Definition AcceptVpcEndpointConnections c (serviceId : string)
    (vpcEndpointIds : list string) : M unit :=
  match vpcEndpointIds with
  | [] => ret tt
  | _ => ec2 c (Calls.AcceptVpcEndpointConnections serviceId vpcEndpointIds)
  end.

(** ** [tags.go] *)

Definition CreateTags c (resources : list string) (tags : list AwsTag) : M unit :=
  ec2 c (Calls.CreateTags resources tags).

Definition ChangeTagsForResource c (params : route53Types.ChangeTagsForResourceInput)
  : M unit := r53 c (Calls.ChangeTagsForResource params).

(** ** [route53_hosted_zone.go] *)

Definition ListHostedZonesByVPC c (vpc region : string)
  : M (list route53Types.HostedZoneSummary) := r53 c (Calls.ListHostedZonesByVPC vpc region).

(** The loop over the summaries; the first match is returned. *)
Fixpoint findZoneByName (name : string) (hzs : list route53Types.HostedZoneSummary)
  : outcome (option route53Types.HostedZoneSummary) :=
  match hzs with
  | [] => Ok None
  | hz :: hzs' =>
      obind (deref (route53Types.hzs_Name hz)) (fun n =>
      if String.eqb n name then Ok (Some hz) else findZoneByName name hzs')
  end.

Definition GetDefaultPrivateHostedZoneId c (domainName vpcId region : string)
  : M route53Types.HostedZoneSummary :=
  hzs <- ListHostedZonesByVPC c vpcId region;;
  found <- lift (findZoneByName (domainName +:+ ".") hzs);;
  match found with
  | Some hz => ret hz
  | None => fail (EOpaque ("default private hosted zone: " +:+ domainName
                           +:+ " not found in vpc: " +:+ vpcId))
  end.

Definition GetHostedZone c (id : string) : M route53Types.GetHostedZoneOutput :=
  r53 c (Calls.GetHostedZone ("/hostedzone/" +:+ id)).

Definition ListHostedZonesByName c (dnsName : string) : M (list route53Types.HostedZone) :=
  r53 c (Calls.ListHostedZonesByName dnsName).

Definition ListResourceRecordSets c (hostedZoneId : string)
  : M (list route53Types.ResourceRecordSet) :=
  r53 c (Calls.ListResourceRecordSets hostedZoneId).

Definition UpsertResourceRecordSet c (rrs : route53Types.ResourceRecordSet)
    (hostedZoneId : string) : M unit :=
  r53 c (ChangeResourceRecordSets
    (route53Types.mkChangeResourceRecordSetsInput route53Types.ChangeActionUpsert rrs None
       hostedZoneId)).

Definition DeleteResourceRecordSet c (rrs : route53Types.ResourceRecordSet)
    (hostedZoneId : string) : M unit :=
  name <- lift (deref (route53Types.rrs_Name rrs));;
  r53 c (ChangeResourceRecordSets
    (route53Types.mkChangeResourceRecordSetsInput route53Types.ChangeActionDelete rrs
       (Some ("Deleting " +:+ name)) hostedZoneId)).

Definition CreateHostedZone c (domain vpcId region : string)
  : M (option route53Types.HostedZone) :=
  now <- trigger Now;;
  r53 c (Calls.CreateHostedZone
    (route53Types.mkCreateHostedZoneInput now domain "Managed by aws-vpce-operator" true
       vpcId region)).

Definition DeleteHostedZone c (id : string) : M unit := r53 c (Calls.DeleteHostedZone id).

Definition GenerateDefaultTagsForHostedZoneInput (zoneId clusterTagKey : string)
  : outcome route53Types.ChangeTagsForResourceInput :=
  obind (GenerateR53Tags clusterTagKey) (fun defaultTags =>
  Ok (route53Types.mkChangeTagsForResourceInput zoneId
        route53Types.TagResourceTypeHostedzone defaultTags)).

Definition FetchPrivateZoneTags c (zoneId : string) : M (option (list AwsTag)) :=
  r53 c (ListTagsForResource zoneId route53Types.TagResourceTypeHostedzone).

Definition CreateVPCAssociationAuthorization c (hostedZoneId vpcId region : string)
  : M unit := r53 c (Calls.CreateVPCAssociationAuthorization hostedZoneId vpcId region).

Definition AssociateVPCWithHostedZone c (hostedZoneId vpcId region : string) : M unit :=
  r53 c (Calls.AssociateVPCWithHostedZone hostedZoneId vpcId region
           "associated by aws-vpce-operator").

End client.
End AWSClient.
