(* ===== verification/Lookups.v ===== *)
(** * What the operator reads from the cluster

    [pkg/dnses], [pkg/infrastructures], [pkg/hostedcontrolplanes] and
    [pkg/secrets]: the functions that find the domain name, the infrastructure
    name, the region and override credentials in Kubernetes objects. *)
From S2P Require Import Prelude GoError Naming Types Calls GoMonad.
From stdpp Require Import pretty.

Module Lookups.
Open Scope go_scope.

Section lookups.
Context {W : Type} `{World W} {L : Type}.
Abbreviation M := (M W L).

(** ** [pkg/dnses] *)

Definition DefaultDnsesName := "cluster".

Definition dnses_GetPrivateHostedZoneDomainName (name : string) : M string :=
  dns <- trigger (Kube (GetDNS name));;
  ret (configv1.BaseDomain dns).

(** ** [pkg/infrastructures] *)

Definition defaultInfrastructuresName := "cluster".

Definition getInfrastructure : M configv1.Infrastructure :=
  wrap ("failed to get infrastructure " +:+ defaultInfrastructuresName +:+ ": ")
    (trigger (Kube (GetInfrastructure defaultInfrastructuresName))).

Definition GetAWSRegion : M string :=
  infra <- getInfrastructure;;
  platform <- lift (deref (configv1.PlatformStatus_ infra));;
  if String.eqb (configv1.Type_ platform) "AWS" then
    match configv1.AWS platform with
    | Some region => ret region
    | None => fail (EOpaque "platform is not AWS")
    end
  else fail (EOpaque "platform is not AWS").

Definition GetInfrastructureName : M string :=
  infra <- getInfrastructure;;
  ret (configv1.InfrastructureName infra).

(** ** [pkg/hostedcontrolplanes] *)

Definition wrong_count (hcps : list hyperv1beta1.HostedControlPlane) (namespace : string)
  : error :=
  EOpaque ("found " +:+ pretty (length hcps) +:+ " hostedcontrolplanes in namespace: "
           +:+ namespace +:+ ", expected 1").

Definition GetInfraId (namespace : string) : M string :=
  hcps <- trigger (Kube (ListHostedControlPlanes namespace));;
  match hcps with
  | [hcp] =>
      if is_empty (hyperv1beta1.InfraID hcp)
      then fail (EOpaque ("blank .spec.infraId for " +:+ hyperv1beta1.Name hcp))
      else ret (hyperv1beta1.InfraID hcp)
  | _ => fail (wrong_count hcps namespace)
  end.

(** The loop over [.spec.services]: the first API server entry decides. *)
Fixpoint apiServerDomain (svcs : list hyperv1beta1.ServicePublishingStrategyMapping)
  : outcome string :=
  match svcs with
  | [] => Err (EOpaque "unable to find APIServer url in hostedcontrolplane .spec.services")
  | svc :: svcs' =>
      if String.eqb (hyperv1beta1.Service svc) hyperv1beta1.APIServer then
        if String.eqb (hyperv1beta1.Type_ svc) hyperv1beta1.Route then
          obind (deref (hyperv1beta1.Route_Hostname svc)) (fun hostname =>
          if is_empty hostname
          then Err (EOpaque "unable to find APIServer route hostname in hostedcontrolplane .spec.services")
          else
            match Sscanf_s "api." hostname with
            | Some domainName => Ok domainName
            | None => Err (EOpaque "input does not match format")
            end)
        else Err (EOpaque "unable to find APIServer route hostname in hostedcontrolplane .spec.services")
      else apiServerDomain svcs'
  end.

Definition hostedcontrolplanes_GetPrivateHostedZoneDomainName (namespace : string)
  : M string :=
  hcps <- trigger (Kube (ListHostedControlPlanes namespace));;
  match hcps with
  | [hcp] => lift (apiServerDomain (hyperv1beta1.Services hcp))
  | _ => fail (wrong_count hcps namespace)
  end.

(** ** [pkg/secrets] *)

Definition defaultRoleArn := "role_arn".
Definition defaultAWSAccessKeyId := "aws_access_key_id".
Definition defaultAWSSecretAccessKey := "aws_secret_access_key".

(** The SDK loads a configuration; assigning [cfg.Credentials] replaces its
    credentials. *)
Definition ParseAWSCredentialOverride (region : string) (ref : option SecretReference)
  : M AwsConfig :=
  match ref with
  | None => fail (EOpaque "AWS Credential Override secret reference must not be nil")
  | Some ref =>
      data <- trigger (Kube (GetSecret (secret_Namespace ref) (secret_Name ref)));;
      match data !! defaultRoleArn with
      | Some roleArn =>
          cfg <- wrap "failed to build AWS client. Error: "
                   (trigger (LoadDefaultConfig region None));;
          ret (mkAwsConfig (cfg_Region cfg) (CredAssumeRole roleArn))
      | None =>
          match data !! defaultAWSAccessKeyId, data !! defaultAWSSecretAccessKey with
          | Some accessKeyId, Some secretAccessKey =>
              trigger (LoadDefaultConfig region
                         (Some (CredStatic accessKeyId secretAccessKey)))
          | _, _ =>
              fail (EOpaque ("could not parse credential override secret, requires data keys "
                +:+ defaultAWSAccessKeyId +:+ " and " +:+ defaultAWSSecretAccessKey))
          end
      end
  end.

End lookups.
End Lookups.
