(* ===== verification/Rules.v ===== *)
(** * Security group rules

    The pure part of [generateMissingSecurityGroupRules]
    ([controllers/vpcendpoint/helpers.go]): which permissions have to be
    authorized so that the rules of the custom resource exist in AWS.

    [Module Rules] has the code's loops.  [Module RulesSpec] states what they
    promise (the desired permissions that no existing rule covers) and proves
    that the loops implement it. *)
From S2P Require Import Prelude GoError Naming Types.
Import avov1alpha2.

Module Rules.

Definition avoAndAwsSecurityGroupRuleCandidate (isEgress : bool)
    (avoRule : SecurityGroupRule) (awsRule : ec2Types.SecurityGroupRule) : outcome bool :=
  obind (deref (ec2Types.IsEgress awsRule)) (fun awsEgress =>
  if negb (Bool.eqb isEgress awsEgress) then Ok false
  else
    obind (deref (ec2Types.IpProtocol awsRule)) (fun proto =>
    if negb (String.eqb proto (Protocol avoRule)) then Ok false
    else
      obind (deref (ec2Types.FromPort awsRule)) (fun from =>
      if negb (Z.eqb from (FromPort avoRule)) then Ok false
      else
        obind (deref (ec2Types.ToPort awsRule)) (fun to =>
        Ok (Z.eqb to (ToPort avoRule)))))).

(** The inner loop of the CIDR cases; [true] when a rule was found
    ([create = false]). *)
Fixpoint foundCidr (isEgress : bool) (avoRule : SecurityGroupRule) (cidr : string)
    (rules : list ec2Types.SecurityGroupRule) : outcome bool :=
  match rules with
  | [] => Ok false
  | rule :: rules' =>
      obind (avoAndAwsSecurityGroupRuleCandidate isEgress avoRule rule) (fun candidate =>
      if candidate then
        match ec2Types.CidrIpv4 rule with
        | Some ip => if String.eqb cidr ip then Ok true
                     else foundCidr isEgress avoRule cidr rules'
        | None => foundCidr isEgress avoRule cidr rules'
        end
      else foundCidr isEgress avoRule cidr rules')
  end.

(** The inner loop of the source security group case. *)
Fixpoint foundSourceSg (isEgress : bool) (avoRule : SecurityGroupRule)
    (sourceSgId : option string) (rules : list ec2Types.SecurityGroupRule) : outcome bool :=
  match rules with
  | [] => Ok false
  | rule :: rules' =>
      obind (avoAndAwsSecurityGroupRuleCandidate isEgress avoRule rule) (fun candidate =>
      if candidate then
        match ec2Types.ReferencedGroupInfo rule with
        | None => foundSourceSg isEgress avoRule sourceSgId rules'
        | Some groupId =>
            obind (deref groupId) (fun g =>
            obind (deref sourceSgId) (fun sg =>
            if String.eqb g sg then Ok true
            else foundSourceSg isEgress avoRule sourceSgId rules'))
        end
      else foundSourceSg isEgress avoRule sourceSgId rules')
  end.

Definition cidrPermission (avoRule : SecurityGroupRule) (cidr : string)
  : ec2Types.IpPermission :=
  ec2Types.mkIpPermission (Some (Protocol avoRule)) (Some (FromPort avoRule))
    (Some (ToPort avoRule)) [Some cidr] [].

Definition sourceSgPermission (avoRule : SecurityGroupRule) (sourceSgId : option string)
  : ec2Types.IpPermission :=
  ec2Types.mkIpPermission (Some (Protocol avoRule)) (Some (FromPort avoRule))
    (Some (ToPort avoRule)) [] [sourceSgId].

Definition cidrCase (isEgress : bool) (avoRule : SecurityGroupRule) (cidr : string)
    (rules : list ec2Types.SecurityGroupRule) : outcome (list ec2Types.IpPermission) :=
  obind (foundCidr isEgress avoRule cidr rules) (fun found =>
  Ok (if found then [] else [cidrPermission avoRule cidr])).

Fixpoint sourceSgCase (isEgress : bool) (avoRule : SecurityGroupRule)
    (rules : list ec2Types.SecurityGroupRule) (sourceSgIds : list (option string))
  : outcome (list ec2Types.IpPermission) :=
  match sourceSgIds with
  | [] => Ok []
  | sg :: sourceSgIds' =>
      obind (foundSourceSg isEgress avoRule sg rules) (fun found =>
      obind (sourceSgCase isEgress avoRule rules sourceSgIds') (fun rest =>
      Ok (if found then rest else sourceSgPermission avoRule sg :: rest)))
  end.

(** The [switch] on one rule of the custom resource. *)
Definition rulePermissions (isEgress useVpcCidr : bool) (vpcCidr : string)
    (sourceSgIds : list (option string)) (rules : list ec2Types.SecurityGroupRule)
    (avoRule : SecurityGroupRule) : outcome (list ec2Types.IpPermission) :=
  if negb (is_empty (CidrIp avoRule)) then cidrCase isEgress avoRule (CidrIp avoRule) rules
  else if (useVpcCidr && negb (is_empty vpcCidr))%bool
  then cidrCase isEgress avoRule vpcCidr rules
  else sourceSgCase isEgress avoRule rules sourceSgIds.

(** The loop over the custom resource's rules, for one direction. *)
Fixpoint missingPermissions (isEgress useVpcCidr : bool) (vpcCidr : string)
    (sourceSgIds : list (option string)) (rules : list ec2Types.SecurityGroupRule)
    (avoRules : list SecurityGroupRule) : outcome (list ec2Types.IpPermission) :=
  match avoRules with
  | [] => Ok []
  | avoRule :: avoRules' =>
      obind (rulePermissions isEgress useVpcCidr vpcCidr sourceSgIds rules avoRule) (fun ps =>
      obind (missingPermissions isEgress useVpcCidr vpcCidr sourceSgIds rules avoRules')
        (fun ps' => Ok (ps ++ ps')))
  end.

Definition missingIngress (useVpcCidr : bool) := missingPermissions false useVpcCidr.
Definition missingEgress (useVpcCidr : bool) := missingPermissions true useVpcCidr.

End Rules.

(** ** Specification *)

Module RulesSpec.
Import Rules.

(** Where traffic is allowed from or to. *)
Inductive source := FromCidr (cidr : string) | FromSg (sg : string).

(** The sources a rule of the custom resource asks for. *)
Definition sources (useVpcCidr : bool) (vpcCidr : string) (sgs : list string)
    (avoRule : SecurityGroupRule) : list source :=
  if negb (is_empty (CidrIp avoRule)) then [FromCidr (CidrIp avoRule)]
  else if (useVpcCidr && negb (is_empty vpcCidr))%bool then [FromCidr vpcCidr]
  else FromSg <$> sgs.

Definition desired (useVpcCidr : bool) (vpcCidr : string) (sgs : list string)
    (avoRules : list SecurityGroupRule) : list (SecurityGroupRule * source) :=
  avoRules ≫= fun r => (fun s => (r, s)) <$> sources useVpcCidr vpcCidr sgs r.

(** An AWS rule that allows what [t] asks for. *)
Definition covers (isEgress : bool) (t : SecurityGroupRule * source)
    (r : ec2Types.SecurityGroupRule) : Prop :=
  ec2Types.IsEgress r = Some isEgress /\
  ec2Types.IpProtocol r = Some (Protocol t.1) /\
  ec2Types.FromPort r = Some (FromPort t.1) /\
  ec2Types.ToPort r = Some (ToPort t.1) /\
  match t.2 with
  | FromCidr c => ec2Types.CidrIpv4 r = Some c
  | FromSg g => ec2Types.ReferencedGroupInfo r = Some (Some g)
  end.

#[export] Instance covers_dec isEgress t r : Decision (covers isEgress t r).
Proof. unfold covers. destruct (t.2); solve_decision. Defined.

Definition covered (isEgress : bool) (rules : list ec2Types.SecurityGroupRule)
    (t : SecurityGroupRule * source) : Prop := Exists (covers isEgress t) rules.

Definition permission_of (t : SecurityGroupRule * source) : ec2Types.IpPermission :=
  match t.2 with
  | FromCidr c => cidrPermission t.1 c
  | FromSg g => sourceSgPermission t.1 (Some g)
  end.

(** Desired, and not covered by an existing rule. *)
Definition missing (isEgress useVpcCidr : bool) (vpcCidr : string) (sgs : list string)
    (rules : list ec2Types.SecurityGroupRule) (avoRules : list SecurityGroupRule)
  : list ec2Types.IpPermission :=
  permission_of <$>
    filter (fun t => ¬ covered isEgress rules t) (desired useVpcCidr vpcCidr sgs avoRules).

(** What the code dereferences is there. *)
Definition rule_wf (r : ec2Types.SecurityGroupRule) : Prop :=
  is_Some (ec2Types.IsEgress r) /\ is_Some (ec2Types.IpProtocol r) /\
  is_Some (ec2Types.FromPort r) /\ is_Some (ec2Types.ToPort r) /\
  ec2Types.ReferencedGroupInfo r <> Some None.

(** A rule that an authorized permission shows up as. *)
Definition realizes (isEgress : bool) (p : ec2Types.IpPermission)
    (r : ec2Types.SecurityGroupRule) : Prop :=
  ec2Types.IsEgress r = Some isEgress /\
  ec2Types.IpProtocol r = ec2Types.perm_IpProtocol p /\
  ec2Types.FromPort r = ec2Types.perm_FromPort p /\
  ec2Types.ToPort r = ec2Types.perm_ToPort p /\
  (forall c, c ∈ ec2Types.IpRanges p -> ec2Types.CidrIpv4 r = c) /\
  (forall g, g ∈ ec2Types.UserIdGroupPairs p -> ec2Types.ReferencedGroupInfo r = Some g).

Definition matches (isEgress : bool) (avoRule : SecurityGroupRule)
    (r : ec2Types.SecurityGroupRule) : Prop :=
  ec2Types.IsEgress r = Some isEgress /\
  ec2Types.IpProtocol r = Some (Protocol avoRule) /\
  ec2Types.FromPort r = Some (FromPort avoRule) /\
  ec2Types.ToPort r = Some (ToPort avoRule).

#[export] Instance matches_dec isEgress a r : Decision (matches isEgress a r).
Proof. unfold matches. solve_decision. Defined.

Lemma candidate_spec isEgress avoRule r :
  rule_wf r ->
  avoAndAwsSecurityGroupRuleCandidate isEgress avoRule r =
  Ok (bool_decide (matches isEgress avoRule r)).
Proof.
  intros ([e He] & [p Hp] & [f Hf] & [t Ht] & _).
  unfold avoAndAwsSecurityGroupRuleCandidate. rewrite He, Hp, Hf, Ht. simpl.
  assert (Hm : matches isEgress avoRule r <->
    e = isEgress /\ p = Protocol avoRule /\ f = FromPort avoRule /\ t = ToPort avoRule).
  { unfold matches. rewrite He, Hp, Hf, Ht. naive_solver. }
  rewrite (bool_decide_ext _ _ Hm).
  destruct (Bool.eqb_spec isEgress e) as [->|Hn]; simpl;
    [|rewrite bool_decide_eq_false_2; [done|naive_solver]].
  destruct (String.eqb_spec p (Protocol avoRule)) as [->|Hn]; simpl;
    [|rewrite bool_decide_eq_false_2; [done|naive_solver]].
  destruct (Z.eqb_spec f (FromPort avoRule)) as [->|Hn]; simpl;
    [|rewrite bool_decide_eq_false_2; [done|naive_solver]].
  f_equal. destruct (Z.eqb_spec t (ToPort avoRule)) as [->|Hn].
  - by rewrite bool_decide_eq_true_2.
  - rewrite bool_decide_eq_false_2; [done|naive_solver].
Qed.

Lemma covers_matches isEgress avoRule s r :
  covers isEgress (avoRule, s) r <->
  matches isEgress avoRule r /\
  match s with
  | FromCidr c => ec2Types.CidrIpv4 r = Some c
  | FromSg g => ec2Types.ReferencedGroupInfo r = Some (Some g)
  end.
Proof. unfold covers, matches. simpl. tauto. Qed.

Lemma covered_cons isEgress r rules avoRule s :
  covered isEgress (r :: rules) (avoRule, s) <->
  (matches isEgress avoRule r /\
   match s with
   | FromCidr c => ec2Types.CidrIpv4 r = Some c
   | FromSg g => ec2Types.ReferencedGroupInfo r = Some (Some g)
   end) \/ covered isEgress rules (avoRule, s).
Proof. unfold covered. by rewrite Exists_cons, covers_matches. Qed.

Lemma foundCidr_spec isEgress avoRule cidr rules :
  Forall rule_wf rules ->
  foundCidr isEgress avoRule cidr rules =
  Ok (bool_decide (covered isEgress rules (avoRule, FromCidr cidr))).
Proof.
  intros Hwf. induction Hwf as [|r rules Hr Hwf IH]; simpl; [done|].
  rewrite candidate_spec by done. simpl.
  rewrite (bool_decide_ext _ _ (covered_cons _ _ _ _ _)), IH.
  destruct (decide (matches isEgress avoRule r)) as [Hm|Hm].
  - rewrite (bool_decide_eq_true_2 _ Hm).
    destruct (ec2Types.CidrIpv4 r) as [ip|].
    + destruct (String.eqb_spec cidr ip) as [->|Hne].
      * rewrite bool_decide_eq_true_2; naive_solver.
      * f_equal. apply bool_decide_ext. naive_solver.
    + f_equal. apply bool_decide_ext. naive_solver.
  - rewrite (bool_decide_eq_false_2 _ Hm). f_equal. apply bool_decide_ext. naive_solver.
Qed.

Lemma foundSourceSg_spec isEgress avoRule g rules :
  Forall rule_wf rules ->
  foundSourceSg isEgress avoRule (Some g) rules =
  Ok (bool_decide (covered isEgress rules (avoRule, FromSg g))).
Proof.
  intros Hwf. induction Hwf as [|r rules Hr Hwf IH]; simpl; [done|].
  rewrite candidate_spec by done. simpl.
  rewrite (bool_decide_ext _ _ (covered_cons _ _ _ _ _)), IH.
  destruct Hr as (_ & _ & _ & _ & Href).
  destruct (decide (matches isEgress avoRule r)) as [Hm|Hm].
  - rewrite (bool_decide_eq_true_2 _ Hm).
    destruct (ec2Types.ReferencedGroupInfo r) as [[g'|]|]; simpl; [|done|].
    + destruct (String.eqb_spec g' g) as [->|Hne].
      * rewrite bool_decide_eq_true_2; naive_solver.
      * f_equal. apply bool_decide_ext. naive_solver.
    + f_equal. apply bool_decide_ext. naive_solver.
  - rewrite (bool_decide_eq_false_2 _ Hm). f_equal. apply bool_decide_ext. naive_solver.
Qed.

(** The permissions one rule contributes. *)
Definition missing_of (isEgress : bool) (rules : list ec2Types.SecurityGroupRule)
    (ts : list (SecurityGroupRule * source)) : list ec2Types.IpPermission :=
  permission_of <$> filter (fun t => ¬ covered isEgress rules t) ts.

Lemma missing_of_cons isEgress rules t ts :
  missing_of isEgress rules (t :: ts) =
  if decide (covered isEgress rules t) then missing_of isEgress rules ts
  else permission_of t :: missing_of isEgress rules ts.
Proof.
  unfold missing_of. rewrite filter_cons.
  destruct (decide (covered isEgress rules t)) as [Hc|Hc].
  - by rewrite decide_False by tauto.
  - by rewrite decide_True by done.
Qed.

Lemma missing_of_app isEgress rules ts ts' :
  missing_of isEgress rules (ts ++ ts') =
  missing_of isEgress rules ts ++ missing_of isEgress rules ts'.
Proof. unfold missing_of. by rewrite filter_app, fmap_app. Qed.

Lemma cidrCase_spec isEgress avoRule cidr rules :
  Forall rule_wf rules ->
  cidrCase isEgress avoRule cidr rules =
  Ok (missing_of isEgress rules [(avoRule, FromCidr cidr)]).
Proof.
  intros Hwf. unfold cidrCase. rewrite foundCidr_spec by done. simpl.
  rewrite missing_of_cons. by repeat case_decide || case_bool_decide.
Qed.

Lemma sourceSgCase_spec isEgress avoRule rules sgs :
  Forall rule_wf rules ->
  sourceSgCase isEgress avoRule rules (Some <$> sgs) =
  Ok (missing_of isEgress rules ((fun g => (avoRule, FromSg g)) <$> sgs)).
Proof.
  intros Hwf. induction sgs as [|g sgs IH]; csimpl; [done|].
  rewrite foundSourceSg_spec by done. simpl. rewrite IH. simpl.
  rewrite missing_of_cons. by case_bool_decide; case_decide.
Qed.

Lemma rulePermissions_spec isEgress useVpcCidr vpcCidr sgs rules avoRule :
  Forall rule_wf rules ->
  rulePermissions isEgress useVpcCidr vpcCidr (Some <$> sgs) rules avoRule =
  Ok (missing_of isEgress rules
        ((fun s => (avoRule, s)) <$> sources useVpcCidr vpcCidr sgs avoRule)).
Proof.
  intros Hwf. unfold rulePermissions, sources.
  destruct (negb (is_empty (CidrIp avoRule))); [by apply cidrCase_spec|].
  destruct (useVpcCidr && negb (is_empty vpcCidr))%bool; [by apply cidrCase_spec|].
  rewrite sourceSgCase_spec by done. by rewrite <- list_fmap_compose.
Qed.

Lemma missingPermissions_spec isEgress useVpcCidr vpcCidr sgs rules avoRules :
  Forall rule_wf rules ->
  missingPermissions isEgress useVpcCidr vpcCidr (Some <$> sgs) rules avoRules =
  Ok (missing isEgress useVpcCidr vpcCidr sgs rules avoRules).
Proof.
  intros Hwf. unfold missing, desired. fold (missing_of isEgress rules).
  change (permission_of <$> filter _ ?l) with (missing_of isEgress rules l).
  induction avoRules as [|r avoRules IH]; csimpl; [done|].
  rewrite rulePermissions_spec by done. simpl. rewrite IH. simpl.
  by rewrite missing_of_app.
Qed.

Lemma realizes_covers isEgress t r :
  realizes isEgress (permission_of t) r -> covers isEgress t r.
Proof.
  destruct t as [a [c|g]]; unfold realizes, covers; simpl;
    intros (-> & -> & -> & -> & Hc & Hg); repeat split.
  - apply Hc. set_solver.
  - apply Hg. set_solver.
Qed.

(** ** Properties *)

(** C23: the rule loops implement their specification: for AWS rules with the
    fields the code dereferences, and source security groups with an id, the
    ingress and egress loops never fail and return, in order, exactly the
    permissions of the desired (rule, source) pairs that no existing rule of
    that direction covers. *)
Theorem missing_rules_correct (useVpcCidr : bool) (vpcCidr : string) (sgs : list string)
    (rules : list ec2Types.SecurityGroupRule) (avoRules : list SecurityGroupRule) :
  Forall rule_wf rules ->
  missingIngress useVpcCidr vpcCidr (Some <$> sgs) rules avoRules
    = Ok (missing false useVpcCidr vpcCidr sgs rules avoRules) /\
  missingEgress useVpcCidr vpcCidr (Some <$> sgs) rules avoRules
    = Ok (missing true useVpcCidr vpcCidr sgs rules avoRules).
Proof. intros Hwf. split; by apply missingPermissions_spec. Qed.

(** Rules of the examples below: one ingress rule for a CIDR on port 6443, a
    custom resource that asks for it and for the source security groups. *)
Definition example_rule : ec2Types.SecurityGroupRule :=
  ec2Types.mkSecurityGroupRule (Some false) (Some "tcp") (Some 6443%Z) (Some 6443%Z)
    (Some "10.0.0.0/16") None.
Definition example_avo_rules : list SecurityGroupRule :=
  [ mkSecurityGroupRule "10.0.0.0/16" 6443 6443 "tcp";
    mkSecurityGroupRule "" 443 443 "tcp" ].

Lemma example_rule_wf : rule_wf example_rule.
Proof. repeat split; simpl; eauto. Qed.

Lemma missing_rules_correct_witness :
  Rules.missingIngress false "" [Some "sg-1"] [example_rule] example_avo_rules
    = Ok [sourceSgPermission (mkSecurityGroupRule "" 443 443 "tcp") (Some "sg-1")] /\
  missing false false "" ["sg-1"] [example_rule] example_avo_rules
    = [sourceSgPermission (mkSecurityGroupRule "" 443 443 "tcp") (Some "sg-1")] /\
  Rules.missingEgress false "" [Some "sg-1"] [example_rule] example_avo_rules
    = Ok (missing true false "" ["sg-1"] [example_rule] example_avo_rules).
Proof.
  split; [vm_compute; reflexivity|]. split; [vm_compute; reflexivity|].
  apply (missing_rules_correct false "" ["sg-1"] [example_rule] example_avo_rules).
  constructor; [apply example_rule_wf|constructor].
Defined.

(** Authorizing is idempotent: once every permission the loop returned shows
    up as a rule (and no other rule went away), a second pass returns nothing. *)
Theorem missing_rules_idempotent (isEgress useVpcCidr : bool) (vpcCidr : string)
    (sgs : list string) (rules rules' : list ec2Types.SecurityGroupRule)
    (avoRules : list SecurityGroupRule) (ps : list ec2Types.IpPermission) :
  Forall rule_wf rules -> Forall rule_wf rules' ->
  missingPermissions isEgress useVpcCidr vpcCidr (Some <$> sgs) rules avoRules = Ok ps ->
  rules ⊆ rules' ->
  (forall p, p ∈ ps -> Exists (realizes isEgress p) rules') ->
  missingPermissions isEgress useVpcCidr vpcCidr (Some <$> sgs) rules' avoRules = Ok [].
Proof.
  intros Hwf Hwf' Hps Hsub Hreal. rewrite missingPermissions_spec in Hps |- * by done.
  injection Hps as <-. f_equal. unfold missing.
  rewrite filter_none; [done|]. intros t Ht Hn.
  apply Hn. destruct (decide (covered isEgress rules t)) as [Hc|Hc].
  - unfold covered in *. apply Exists_exists in Hc as (r & Hr & Hc).
    apply Exists_exists. eauto.
  - eapply Exists_impl; [|apply realizes_covers]. apply Hreal.
    apply list_elem_of_fmap. exists t. split; [done|].
    by apply list_elem_of_filter.
Qed.

(** The rule the missing permission of the example becomes. *)
Definition example_rule' : ec2Types.SecurityGroupRule :=
  ec2Types.mkSecurityGroupRule (Some false) (Some "tcp") (Some 443%Z) (Some 443%Z)
    None (Some (Some "sg-1")).

Lemma missing_rules_idempotent_witness :
  missingPermissions false false "" (Some <$> ["sg-1"]) [example_rule; example_rule']
    example_avo_rules = Ok [].
Proof.
  assert (Hwf : rule_wf example_rule') by (repeat split; simpl; eauto; discriminate).
  eapply (missing_rules_idempotent false false "" ["sg-1"] [example_rule]
            [example_rule; example_rule'] example_avo_rules).
  - constructor; [apply example_rule_wf|constructor].
  - constructor; [apply example_rule_wf|]. constructor; [done|constructor].
  - vm_compute. reflexivity.
  - set_solver.
  - intros p Hp. apply list_elem_of_singleton in Hp as ->.
    right. left. repeat split; simpl; set_solver.
Defined.

End RulesSpec.
