(* ===== verification/Controller.v ===== *)
(** * The memory of the VpcEndpoint controller

    [VpcEndpointReconciler] and [clusterInfo]
    ([controllers/vpcendpoint/vpcendpoint_controller.go]), the hosted zone cache
    ([controllers/vpcendpoint/helpers.go]), and the primitives through which the
    controller's functions read and write the reconciler and the custom resource
    they were given a pointer to. *)
From S2P Require Import Prelude GoError Naming Types Calls GoMonad AwsClient.
Import avov1alpha2.

(** Pointers to the one custom resource of a reconcile: nil, or the object in
    the controller's memory. *)
Inductive resource_ptr := nil_ptr | resource_ptr_.

Definition is_nil (p : resource_ptr) : bool :=
  match p with nil_ptr => true | resource_ptr_ => false end.

Record clusterInfo := mkClusterInfo { clusterTag : string; region : string }.

Record hostedZoneCacheEntry := mkHostedZoneCacheEntry {
  response : route53Types.GetHostedZoneOutput;
  fetchedAt : Z
}.

(** The fields of the reconciler that its functions use; the Kubernetes client,
    the recorder and the logger are the world's. *)
Record VpcEndpointReconciler := mkVpcEndpointReconciler {
  EnablePrivateDns_flag : bool;
  awsClient : option AwsConfig;
  awsAssociatedVpcClient : option AwsConfig;
  clusterInfo_ : option clusterInfo;
  hostedZoneCache : option (gmap string hostedZoneCacheEntry)
}.

Record Mem := mkMem { reconciler : VpcEndpointReconciler; resource : VpcEndpoint }.

Definition set_awsClient (x : option AwsConfig) (r : VpcEndpointReconciler) :=
  mkVpcEndpointReconciler (EnablePrivateDns_flag r) x (awsAssociatedVpcClient r)
    (clusterInfo_ r) (hostedZoneCache r).
Definition set_awsAssociatedVpcClient (x : option AwsConfig) (r : VpcEndpointReconciler) :=
  mkVpcEndpointReconciler (EnablePrivateDns_flag r) (awsClient r) x
    (clusterInfo_ r) (hostedZoneCache r).
Definition set_clusterInfo (x : option clusterInfo) (r : VpcEndpointReconciler) :=
  mkVpcEndpointReconciler (EnablePrivateDns_flag r) (awsClient r) (awsAssociatedVpcClient r)
    x (hostedZoneCache r).
Definition set_hostedZoneCache (x : option (gmap string hostedZoneCacheEntry))
    (r : VpcEndpointReconciler) :=
  mkVpcEndpointReconciler (EnablePrivateDns_flag r) (awsClient r) (awsAssociatedVpcClient r)
    (clusterInfo_ r) x.

Definition on_reconciler (f : VpcEndpointReconciler -> VpcEndpointReconciler) (m : Mem) : Mem :=
  mkMem (f (reconciler m)) (resource m).
Definition on_resource (f : VpcEndpoint -> VpcEndpoint) (m : Mem) : Mem :=
  mkMem (reconciler m) (f (resource m)).

Section primitives.
Context {W : Type} `{World W} `{K8sHelpers}.
Abbreviation M := (M W Mem).
Open Scope go_scope.

Definition res : M VpcEndpoint := gets resource.
Definition res_status : M VpcEndpointStatus := gets (fun m => status (resource m)).
Definition client : M (option AwsConfig) := gets (fun m => awsClient (reconciler m)).

(** [r.clusterInfo.clusterTag], [r.clusterInfo.region]. *)
Definition get_clusterInfo : M clusterInfo :=
  ci <- gets (fun m => clusterInfo_ (reconciler m));;
  lift (deref ci).

Definition modify_status (f : VpcEndpointStatus -> VpcEndpointStatus) : M unit :=
  modify (on_resource (set_status f)).

(** [meta.SetStatusCondition(&resource.Status.Conditions, c)]. *)
Definition setCondition (c : metav1.Condition) : M unit :=
  modify_status (fun s => set_Conditions (SetStatusCondition (Conditions s) c) s).

(** [meta.IsStatusConditionTrue(resource.Status.Conditions, t)]. *)
Definition conditionTrue (t : string) : M bool :=
  gets (fun m => IsStatusConditionTrue (Conditions (status (resource m))) t).

(** [r.Status().Update(ctx, resource)]. *)
Definition statusUpdate : M unit :=
  v <- res;;
  rv <- trigger (Kube (UpdateVpcEndpointStatus v));;
  modify (on_resource (set_meta (set_ResourceVersion_meta rv))).

(** [r.Update(ctx, resource)]. *)
Definition resourceUpdate : M unit :=
  v <- res;;
  rv <- trigger (Kube (UpdateVpcEndpoint v));;
  modify (on_resource (set_meta (set_ResourceVersion_meta rv))).

(** [r.Recorder.Eventf(resource, corev1.EventTypeNormal, reason, message)]. *)
Definition eventNormal (reason message : string) : M unit :=
  fire (Event "Normal" reason message).
Definition eventWarning (reason message : string) : M unit :=
  fire (Event "Warning" reason message).

(** [time.Since(t)]. *)
Definition since (t : Z) : M Z :=
  now <- trigger Now;;
  ret (now - t)%Z.

(** [StringSliceTwoWayDiff] with the orders of its two [range] loops. *)
Definition twoWayDiff (current expected : list string) : M (list string * list string) :=
  order1 <- trigger RangeOrder;;
  order2 <- trigger RangeOrder;;
  ret (Naming.StringSliceTwoWayDiff order1 order2 current expected).

End primitives.

(** [go_respects], with the value that is read from the memory kept as one that
    satisfies the invariant. *)
Ltac read_step :=
  match goal with
  | |- respects (emits _ _) (bind ?m _) =>
      let h := head_of m in
      lazymatch h with
      | @res => idtac | @res_status => idtac | @client => idtac | @conditionTrue => idtac
      end;
      apply emits_gets_bind; intros ? ?
  end.

Ltac go_reads := repeat first [read_step | go_respects_step].
