(* ===== verification/Helpers.v ===== *)
(** * The helpers of the VpcEndpoint controller: [controllers/vpcendpoint/helpers.go]

    One definition per function, in the order of the file.  Longer bodies are
    split at the branches of their [switch]es.  The logging calls are left out. *)
From S2P Require Import Prelude GoError Naming Types Calls.
From S2P Require Import GoMonad AwsClient Lookups Controller Rules.
Import avov1alpha2 Naming.

Module Helpers.

Section helpers.
Context {W : Type} `{World W} `{K8sHelpers}.
Abbreviation M := (M W Mem).
Open Scope go_scope.

Definition phz_spec (v : VpcEndpoint) : Route53PrivateHostedZone := r53phz (CustomDns (Spec v)).

(** ** [parseClusterInfo] *)

(** [.domainNameRef.valueFrom.hostedControlPlaneRef], through pointers that may
    be nil. *)
Definition hostedControlPlaneRef (v : VpcEndpoint) : option HostedControlPlaneSelector :=
  (DomainNameRef (phz_spec v) ≫= dn_ValueFrom) ≫= HostedControlPlaneRef.

(** The two branches that fill [.status.infraId]: an error only counts when no
    infra id is recorded yet. *)
Definition recordInfraId (getInfraName : M string) : M unit :=
  r <- try getInfraName;;
  match r with
  | inl e =>
      s <- res_status;;
      if is_empty (InfraId s) then fail e else ret tt
  | inr infraName =>
      modify_status (set_InfraId infraName);;
      wrap "failed to update status: " statusUpdate
  end.

Definition getVpcEndpointServiceName : M unit :=
  v <- res;;
  name <- (if negb (is_empty (ServiceName (Spec v))) then ret (Some (ServiceName (Spec v)))
           else
             ref <- lift (deref (ServiceNameRef (Spec v)));;
             if negb (is_empty (sn_Name ref)) then ret (Some (sn_Name ref))
             else
               valueFrom <- lift (deref (sn_ValueFrom ref));;
               aes <- lift (deref (AwsEndpointServiceRef valueFrom));;
               if negb (is_empty (aes_Name aes)) then
                 r <- try (trigger (Kube (GetAWSEndpointService
                        (metav1.Namespace (meta v)) (aes_Name aes))));;
                 match r with
                 | inl e => if is_empty (VPCEndpointServiceName (status v))
                            then fail e else ret None
                 | inr n => ret (Some n)
                 end
               else ret (Some ""));;
  match name with
  | None => ret tt
  | Some vpceServiceName =>
      if is_empty vpceServiceName then fail (EOpaque "empty VPC Endpoint Service name")
      else
        modify_status (set_VPCEndpointServiceName vpceServiceName);;
        wrap "failed to update status: " statusUpdate
  end.

(** [r.clusterInfo.region = ...]. *)
Definition setRegion (x : string) : M unit :=
  ci <- get_clusterInfo;;
  modify (on_reconciler (set_clusterInfo (Some (mkClusterInfo (clusterTag ci) x)))).

Definition setClusterTag (x : string) : M unit :=
  ci <- get_clusterInfo;;
  modify (on_reconciler (set_clusterInfo (Some (mkClusterInfo x (region ci))))).

Definition recordRegion : M unit :=
  v <- res;;
  if negb (is_empty (Region (Spec v))) then setRegion (Region (Spec v))
  else
    region <- Lookups.GetAWSRegion;;
    setRegion region.

Definition establishClient (refreshAWSSession : bool) : M unit :=
  v <- res;;
  ci <- get_clusterInfo;;
  match AWSCredentialOverrideRef (Spec v) with
  | Some ref =>
      cfg <- Lookups.ParseAWSCredentialOverride (region ci) (Some ref);;
      modify (on_reconciler (set_awsClient (Some cfg)))
  | None =>
      if refreshAWSSession then
        cfg <- trigger (LoadDefaultConfig (region ci) None);;
        modify (on_reconciler (set_awsClient (Some cfg)))
      else ret tt
  end.

(** The [switch] that chooses the VPC. *)
Definition chooseVpc : M string :=
  v <- res;;
  c <- client;;
  let vpc := Vpc_ (Spec v) in
  match Tags vpc, Ids vpc with
  | _ :: _, _ =>
      ids <- wrap "failed to select a VPC to place a VPC Endpoint in: "
               (AWSClient.FilterVpcIdsByTags c (Tags vpc));;
      wrap "failed to select a VPC to place a VPC Endpoint in: "
        (AWSClient.SelectVPCForVPCEndpoint c ids)
  | [], _ :: _ =>
      wrap "failed to select a VPC to place a VPC Endpoint in: "
        (AWSClient.SelectVPCForVPCEndpoint c (Ids vpc))
  | [], [] =>
      if AutoDiscoverSubnets vpc then
        ci <- get_clusterInfo;;
        resp <- wrap "unable to autodiscover subnets: "
                  (AWSClient.AutodiscoverPrivateSubnets c (clusterTag ci) (SubnetTags vpc));;
        subnets <- lift (match sequence (ec2Types.SubnetId <$> resp) with
                         | Some l => Ok l
                         | None => Panic "nil pointer dereference"
                         end);;
        AWSClient.GetVPCId c subnets
      else AWSClient.GetVPCId c (SubnetIds vpc)
  end.

Definition parseClusterInfo (refreshAWSSession : bool) : M unit :=
  modify (on_reconciler (set_clusterInfo (Some (mkClusterInfo "" ""))));;
  v <- res;;
  match hostedControlPlaneRef v with
  | Some _ => recordInfraId (Lookups.GetInfraId (metav1.Namespace (meta v)))
  | None => recordInfraId Lookups.GetInfrastructureName
  end;;
  s <- res_status;;
  tag <- lift (GetClusterLegacyTagKey (InfraId s));;
  setClusterTag tag;;
  getVpcEndpointServiceName;;
  recordRegion;;
  establishClient refreshAWSSession;;
  s <- res_status;;
  if is_empty (VPCId s) then
    vpcId <- chooseVpc;;
    modify_status (set_VPCId vpcId);;
    wrap "failed to update status: " statusUpdate
  else ret tt.

(** ** [awsUnauthorizedOperationMetricHandler] *)

Definition awsUnauthorizedOperationMetricHandler (err : error) : M unit :=
  if (has_code "UnauthorizedOperation" err || has_code "AccessDenied" err)%bool then
    match AsOperationError err with
    | Some (service, operation) =>
        fire (Metric (AwsUnauthorizedOperationInc
                (ToLower (remove_spaces service) +:+ ":" +:+ operation)))
    | None => fire (Metric (AwsUnauthorizedOperationInc "Unknown"))
    end
  else ret tt.

(** ** Security group *)

Definition foundSecurityGroup (sg : ec2Types.SecurityGroup) : M ec2Types.SecurityGroup :=
  id <- lift (deref (ec2Types.sg_GroupId sg));;
  modify_status (set_SecurityGroupId id);;
  r <- try statusUpdate;;
  match r with
  | inl _ => fail (EOpaque "failed to update status")
  | inr _ => ret sg
  end.

Definition createSecurityGroup (sgName : string) : M ec2Types.SecurityGroup :=
  c <- client;;
  s <- res_status;;
  ci <- get_clusterInfo;;
  createResp <- AWSClient.CreateSecurityGroup c sgName (VPCId s) (clusterTag ci);;
  groupId <- lift (deref createResp);;
  eventNormal "Created" ("Created security group: " +:+ groupId);;
  modify_status (set_SecurityGroupId groupId);;
  r <- try statusUpdate;;
  match r with
  | inl _ => fail (EOpaque "failed to update status")
  | inr _ => fail (EOpaque "initial security group creation, reconciling again to configure")
  end.

Definition findOrCreateSecurityGroup : M ec2Types.SecurityGroup :=
  c <- client;;
  v <- res;;
  resp <- AWSClient.FilterSecurityGroupById c (SecurityGroupId (status v));;
  match default [] resp with
  | sg :: _ => foundSecurityGroup sg
  | [] =>
      sgName <- lift (GenerateSecurityGroupName (InfraId (status v)) (metav1.Name (meta v)));;
      resp <- AWSClient.FilterSecurityGroupByDefaultTags c (InfraId (status v)) sgName;;
      match resp with
      | sg :: _ => foundSecurityGroup sg
      | [] => createSecurityGroup sgName
      end
  end.

(** [tagsContains] over one entry of the map. *)
Fixpoint hasTag (tags : list AwsTag) (k v : string) : outcome bool :=
  match tags with
  | [] => Ok false
  | tag :: tags' =>
      obind (deref (tag_Key tag)) (fun key =>
      if String.eqb key k then
        obind (deref (tag_Value tag)) (fun value =>
        if String.eqb value v then Ok true else hasTag tags' k v)
      else hasTag tags' k v)
  end.

Fixpoint hasTags (tags : list AwsTag) (entries : list (string * string)) : outcome bool :=
  match entries with
  | [] => Ok true
  | (k, v) :: entries' =>
      obind (hasTag tags k v) (fun found =>
      if found then hasTags tags entries' else Ok false)
  end.

Definition tagsContains (order : MapOrder) (tags : list AwsTag)
    (tagsToCheck : gmap string string) : outcome bool :=
  hasTags tags ((fun k => (k, default "" (tagsToCheck !! k))) <$> order (dom tagsToCheck)).

Definition createMissingSecurityGroupTags (sg : ec2Types.SecurityGroup) : M unit :=
  v <- res;;
  ci <- get_clusterInfo;;
  sgName <- wrap "failed to generate security group name: "
    (lift (GenerateSecurityGroupName (InfraId (status v)) (metav1.Name (meta v))));;
  defaultTagsMap <- lift (GenerateAwsTagsAsMap sgName (clusterTag ci));;
  order <- trigger RangeOrder;;
  contains <- lift (tagsContains order (ec2Types.sg_Tags sg) defaultTagsMap);;
  if (contains : bool) then ret tt
  else
    defaultTags <- wrap "failed to generate expected tags: "
      (lift (GenerateAwsTags sgName (clusterTag ci)));;
    id <- lift (deref (ec2Types.sg_GroupId sg));;
    c <- client;;
    wrap "failed to create tags: " (AWSClient.CreateTags c [id] defaultTags);;
    eventNormal "Updated" ("Updated security group tags: " +:+ id).

Definition vpcCidrForRules (v : VpcEndpoint) : M string :=
  if UseVpcCidr (SecurityGroup_ (Spec v)) then
    if is_empty (VPCId (status v))
    then fail (EOpaque "cannot use VPC CIDR: VPC ID is not set in status")
    else
      c <- client;;
      wrap "failed to get VPC CIDR block: " (AWSClient.GetVpcCidrBlock c (VPCId (status v)))
  else ret "".

Definition ruleTags (clusterTag : string) : list AwsTag :=
  [ mkAwsTag (Some clusterTag) (Some "");
    mkAwsTag (Some OperatorTagKey) (Some OperatorTagValue);
    mkAwsTag (Some RedHatManagedTagKey) (Some RedHatManagedTagValue) ].

Definition generateMissingSecurityGroupRules (sg : option ec2Types.SecurityGroup)
    (p : resource_ptr) : M (ec2Types.AuthorizeInput * ec2Types.AuthorizeInput) :=
  match sg, p with
  | None, _ | _, nil_ptr => fail (EOpaque "security group and resource must not be nil")
  | Some sg, resource_ptr_ =>
      c <- client;;
      v <- res;;
      groupId <- lift (deref (ec2Types.sg_GroupId sg));;
      rules <- AWSClient.DescribeSecurityGroupRules c groupId;;
      sourceSgs <- AWSClient.FilterClusterNodeSecurityGroupsByDefaultTags c
                     (InfraId (status v));;
      let sourceSgIds := ec2Types.sg_GroupId <$> sourceSgs in
      vpcCidr <- vpcCidrForRules v;;
      let useVpcCidr := UseVpcCidr (SecurityGroup_ (Spec v)) in
      ingressRules <- lift (Rules.missingIngress useVpcCidr vpcCidr sourceSgIds rules
                              (IngressRules (SecurityGroup_ (Spec v))));;
      egressRules <- lift (Rules.missingEgress useVpcCidr vpcCidr sourceSgIds rules
                             (EgressRules (SecurityGroup_ (Spec v))));;
      ci <- get_clusterInfo;;
      ret (ec2Types.mkAuthorizeInput (ec2Types.sg_GroupId sg) ingressRules
             (ruleTags (clusterTag ci)),
           ec2Types.mkAuthorizeInput (ec2Types.sg_GroupId sg) egressRules
             (ruleTags (clusterTag ci)))
  end.

(** ** VPC Endpoint *)

Definition createVpcEndpoint (vpceName : string) : M ec2Types.VpcEndpoint :=
  c <- client;;
  s <- res_status;;
  ci <- get_clusterInfo;;
  creationResp <- wrap "failed to create vpc endpoint: "
    (AWSClient.CreateDefaultInterfaceVPCEndpoint c vpceName (VPCId s)
       (VPCEndpointServiceName s) (clusterTag ci));;
  vpce <- lift (deref creationResp);;
  id <- lift (deref (ec2Types.VpcEndpointId vpce));;
  eventNormal "Created" ("Created VPC endpoint: " +:+ id);;
  ret vpce.

Definition findOrCreateVpcEndpoint : M ec2Types.VpcEndpoint :=
  c <- client;;
  v <- res;;
  resp <- AWSClient.DescribeSingleVPCEndpointById c (VPCEndpointId (status v));;
  vpce <- match default [] resp with
          | vpce :: _ => ret vpce
          | [] =>
              vpceName <- lift (GenerateVPCEndpointName (InfraId (status v))
                                  (metav1.Name (meta v)));;
              ci <- get_clusterInfo;;
              resp <- AWSClient.FilterVPCEndpointByDefaultTags c (clusterTag ci) vpceName;;
              match resp with
              | vpce :: _ => ret vpce
              | [] => createVpcEndpoint vpceName
              end
          end;;
  id <- lift (deref (ec2Types.VpcEndpointId vpce));;
  modify_status (fun s => set_Status (ec2Types.State vpce) (set_VPCEndpointId id s));;
  wrap "failed to update status: " statusUpdate;;
  ret vpce.

(** One subnet against the availability zones of the service. *)
Fixpoint subnetSelected (vpcId : string) (azs : list string) (subnet : ec2Types.Subnet)
  : outcome (list string) :=
  match azs with
  | [] => Ok []
  | az :: azs' =>
      obind (deref (ec2Types.AvailabilityZone subnet)) (fun subnetAz =>
      if String.eqb subnetAz az then
        if negb (is_empty vpcId) then
          obind (deref (ec2Types.subnet_VpcId subnet)) (fun subnetVpc =>
          if String.eqb subnetVpc vpcId
          then obind (deref (ec2Types.SubnetId subnet)) (fun id => Ok [id])
          else Ok [])
        else obind (deref (ec2Types.SubnetId subnet)) (fun id => Ok [id])
      else subnetSelected vpcId azs' subnet)
  end.

Fixpoint selectSubnets (vpcId : string) (azs : list string)
    (subnets : list ec2Types.Subnet) : outcome (list string) :=
  match subnets with
  | [] => Ok []
  | s :: subnets' =>
      obind (subnetSelected vpcId azs s) (fun ids =>
      obind (selectSubnets vpcId azs subnets') (fun ids' => Ok (ids ++ ids')))
  end.

Definition discoverSubnets (v : VpcEndpoint) : M (list ec2Types.Subnet) :=
  c <- client;;
  let vpc := Vpc_ (Spec v) in
  match Ids vpc, Tags vpc with
  | [], [] =>
      ci <- gets (fun m => clusterInfo_ (reconciler m));;
      match ci with
      | None => fail (EOpaque "unable to parse cluster tag: <nil>")
      | Some ci =>
          if is_empty (clusterTag ci)
          then fail (EOpaque ("unable to parse cluster tag: &{ " +:+ region ci +:+ "}"))
          else AWSClient.AutodiscoverPrivateSubnets c (clusterTag ci) (SubnetTags vpc)
      end
  | _, _ => AWSClient.AutodiscoverPrivateSubnets c "" (SubnetTags vpc)
  end.

Definition expectedSubnets (v : VpcEndpoint) : M (list string) :=
  if AutoDiscoverSubnets (Vpc_ (Spec v)) then
    discoveredSubnets <- discoverSubnets v;;
    c <- client;;
    allowedAZs <- AWSClient.GetVpcEndpointServiceAZs c (VPCEndpointServiceName (status v));;
    lift (selectSubnets (VPCId (status v)) allowedAZs discoveredSubnets)
  else ret (SubnetIds (Vpc_ (Spec v))).

Definition modifySubnets (add remove : list string) (vpce : ec2Types.VpcEndpoint)
  : ec2Types.ModifyVpcEndpointInput :=
  ec2Types.mkModifyVpcEndpointInput (ec2Types.VpcEndpointId vpce) add remove [] [] None.

Definition modifySecurityGroups (add remove : list string) (vpce : ec2Types.VpcEndpoint)
  : ec2Types.ModifyVpcEndpointInput :=
  ec2Types.mkModifyVpcEndpointInput (ec2Types.VpcEndpointId vpce) [] [] add remove None.

Definition ensureVpcEndpointSubnets (vpce : ec2Types.VpcEndpoint) : M unit :=
  v <- res;;
  c <- client;;
  expectedSubnetIds <- expectedSubnets v;;
  diff <- twoWayDiff (ec2Types.SubnetIds vpce) expectedSubnetIds;;
  let '(subnetsToAdd, subnetsToRemove) := diff in
  match subnetsToRemove with
  | [] => ret tt
  | _ => wrap ("failed to remove subnets: " +:+ format_strings subnetsToRemove
               +:+ " with error: ")
           (AWSClient.ModifyVpcEndpoint c (modifySubnets [] subnetsToRemove vpce))
  end;;
  match subnetsToAdd with
  | [] => ret tt
  | _ => wrap ("failed to add subnets: " +:+ format_strings subnetsToAdd
               +:+ " with error: ")
           (AWSClient.ModifyVpcEndpoint c (modifySubnets subnetsToAdd [] vpce))
  end.

Definition diffVpcEndpointSecurityGroups (vpce : ec2Types.VpcEndpoint)
  : M (list string * list string) :=
  vpceSgIds <- lift (match sequence (ec2Types.Groups vpce) with
                     | Some l => Ok l
                     | None => Panic "nil pointer dereference"
                     end);;
  s <- res_status;;
  twoWayDiff vpceSgIds [SecurityGroupId s].

Definition ensureVpcEndpointSecurityGroups (vpce : ec2Types.VpcEndpoint) : M unit :=
  diff <- diffVpcEndpointSecurityGroups vpce;;
  let '(sgToAdd, sgToRemove) := diff in
  c <- client;;
  match sgToAdd with
  | [] => ret tt
  | _ => AWSClient.ModifyVpcEndpoint c (modifySecurityGroups sgToAdd [] vpce)
  end;;
  match sgToRemove with
  | [] => ret tt
  | _ => AWSClient.ModifyVpcEndpoint c (modifySecurityGroups [] sgToRemove vpce)
  end.

End helpers.
End Helpers.
