(* ===== verification/HostedZones.v ===== *)
(** * Hosted zones, records and the ExternalName service

    The second half of [controllers/vpcendpoint/helpers.go]: the hosted zone
    cache, [findOrCreatePrivateHostedZone], the generators of the Route 53
    record and of the ExternalName service, and the invalidation of the DNS
    conditions. *)
From S2P Require Import Prelude GoError Naming Types Calls.
From S2P Require Import GoMonad AwsClient Lookups Controller Helpers.
Import avov1alpha2 Naming Helpers.

Module HostedZones.

Section hostedzones.
Context {W : Type} `{World W} `{K8sHelpers}.
Abbreviation M := (M W Mem).
Open Scope go_scope.

(** ** The cache *)

Definition hostedZoneCacheTTL : Z := 2 * Minute.

Definition get_cache : M (gmap string hostedZoneCacheEntry) :=
  gets (fun m => default ∅ (hostedZoneCache (reconciler m))).

Definition set_cache (x : gmap string hostedZoneCacheEntry) : M unit :=
  modify (on_reconciler (set_hostedZoneCache (Some x))).

(** The lookup at the head of [getHostedZoneCached]: a fresh entry is returned,
    a stale one is deleted. *)
Definition cacheLookup (id : string) : M (option route53Types.GetHostedZoneOutput) :=
  cache <- get_cache;;
  set_cache cache;;
  match cache !! id with
  | None => ret None
  | Some entry =>
      age <- since (fetchedAt entry);;
      if (age <? hostedZoneCacheTTL)%Z then ret (Some (response entry))
      else
        set_cache (delete id cache);;
        ret None
  end.

Definition getHostedZoneCached (id : string) : M route53Types.GetHostedZoneOutput :=
  cached <- cacheLookup id;;
  match cached with
  | Some resp => ret resp
  | None =>
      c <- client;;
      resp <- AWSClient.GetHostedZone c id;;
      now <- trigger Now;;
      cache <- get_cache;;
      set_cache (<[id := mkHostedZoneCacheEntry resp now]> cache);;
      ret resp
  end.

Definition invalidateHostedZoneCache (id : string) : M unit :=
  cache <- gets (fun m => hostedZoneCache (reconciler m));;
  match cache with
  | None => ret tt
  | Some cache => set_cache (delete id cache)
  end.

(** ** [findOrCreatePrivateHostedZone] *)

(** The [switch] that computes the domain name; [""] when no case applies. *)
Definition requestedDomainName : M string :=
  v <- res;;
  if negb (is_empty (DomainName (phz_spec v))) then ret (DomainName (phz_spec v))
  else
    match DomainNameRef (phz_spec v) with
    | None => ret ""
    | Some ref =>
        if negb (is_empty (dn_Name ref)) then ret (dn_Name ref)
        else
          match dn_ValueFrom ref with
          | None => ret ""
          | Some valueFrom =>
              match DnsRef valueFrom, HostedControlPlaneRef valueFrom with
              | Some dnsRef, _ =>
                  Lookups.dnses_GetPrivateHostedZoneDomainName (dns_Name dnsRef)
              | None, Some hcpRef =>
                  fieldRef <- lift (deref (NamespaceFieldRef hcpRef));;
                  if String.eqb (FieldPath fieldRef) ".metadata.namespace"
                  then Lookups.hostedcontrolplanes_GetPrivateHostedZoneDomainName
                         (metav1.Namespace (meta v))
                  else fail (EOpaque ("unsupported fieldPath: " +:+ FieldPath fieldRef))
              | None, None => ret ""
              end
          end
    end.

(** The first summary whose name, without trailing dots, is the domain. *)
Fixpoint findSummary (domainName : string) (hzs : list route53Types.HostedZoneSummary)
  : outcome (option route53Types.HostedZoneSummary) :=
  match hzs with
  | [] => Ok None
  | hz :: hzs' =>
      obind (deref (route53Types.hzs_Name hz)) (fun name =>
      if String.eqb (TrimRight_dot name) domainName then Ok (Some hz)
      else findSummary domainName hzs')
  end.

(** The first private hosted zone with that name. *)
Fixpoint findPrivateZone (domainName : string) (hzs : list route53Types.HostedZone)
  : outcome (option route53Types.HostedZone) :=
  match hzs with
  | [] => Ok None
  | hz :: hzs' =>
      obind (deref (route53Types.hz_Name hz)) (fun name =>
      if (String.eqb (TrimRight_dot name) domainName &&
          match route53Types.hz_Config hz with Some private => private | None => false end)%bool
      then Ok (Some hz)
      else findPrivateZone domainName hzs')
  end.

(** The zone id without [/hostedzone/], or the id as given when it does not
    scan. *)
Definition zoneIdOf (id : string) : string := default id (Sscanf_s "/hostedzone/" id).

Definition updateHostedZoneId (id : string) : M unit :=
  s <- res_status;;
  if negb (String.eqb (HostedZoneId s) id) then
    modify_status (set_HostedZoneId id);;
    statusUpdate
  else ret tt.

Definition createZone (domainName : string) : M unit :=
  c <- client;;
  s <- res_status;;
  ci <- get_clusterInfo;;
  createResp <- wrap "failed to create hosted zone: "
    (AWSClient.CreateHostedZone c domainName (VPCId s) (region ci));;
  zone <- lift (deref createResp);;
  id <- lift (deref (route53Types.hz_Id zone));;
  modify_status (set_HostedZoneId (zoneIdOf id));;
  eventNormal "Created" ("Created Private Hosted Zone: " +:+ zoneIdOf id);;
  wrap "failed to update status: " statusUpdate.

(** From [if domainName != ""] on. *)
Definition findOrCreateZone (domainName : string) : M unit :=
  if is_empty domainName then ret tt
  else
    c <- client;;
    s <- res_status;;
    ci <- get_clusterInfo;;
    hzs <- AWSClient.ListHostedZonesByVPC c (VPCId s) (region ci);;
    inVpc <- lift (findSummary domainName hzs);;
    match inVpc with
    | Some hz =>
        id <- lift (deref (route53Types.hzs_HostedZoneId hz));;
        updateHostedZoneId id
    | None =>
        existing <- wrap "failed to check for existing hosted zones by name: "
          (AWSClient.ListHostedZonesByName c domainName);;
        byName <- lift (findPrivateZone domainName existing);;
        match byName with
        | Some hz =>
            id <- lift (deref (route53Types.hz_Id hz));;
            modify_status (set_HostedZoneId (zoneIdOf id));;
            wrap "failed to update status: " statusUpdate
        | None => createZone domainName
        end
    end.

Definition findOrCreatePrivateHostedZone (p : resource_ptr) : M unit :=
  if is_nil p then fail (EOpaque "resource must be specified")
  else
    s <- res_status;;
    if negb (is_empty (HostedZoneId s)) then
      resp <- getHostedZoneCached (HostedZoneId s);;
      zone <- lift (deref (route53Types.HostedZone_ resp));;
      id <- lift (deref (route53Types.hz_Id zone));;
      if String.eqb id ("/hostedzone/" +:+ HostedZoneId s) then ret tt
      else fail (EOpaque ("could not find hosted zone " +:+ HostedZoneId s))
    else
      domainName <- requestedDomainName;;
      findOrCreateZone domainName.

(** ** Generators *)

(** [None] is the nil record of the two [nil, nil] returns; the record is its
    value. *)
Definition generateRoute53Record : M (option (option string)) :=
  v <- res;;
  if is_empty (VPCEndpointId (status v)) then fail (EOpaque "VPCEndpointID status is missing")
  else
    c <- client;;
    vpceResp <- AWSClient.DescribeSingleVPCEndpointById c (VPCEndpointId (status v));;
    match default [] vpceResp with
    | [] => ret None
    | vpce :: _ =>
        if negb (String.eqb (ec2Types.State vpce) "available")
        then fail (EOpaque "VPCEndpoint is not in the available state")
        else
          match ec2Types.DnsEntries vpce with
          | [] =>
              match metav1.DeletionTimestamp (meta v) with
              | Some _ => ret None
              | None => fail (EOpaque "VPCEndpoint has no DNS entries")
              end
          | dnsName :: _ => ret (Some dnsName)
          end
    end.

Definition externalNameServiceName (v : VpcEndpoint) : string :=
  ens_Name (ExternalNameService_ (Record_ (phz_spec v))).

Definition generateExternalNameService : M corev1.Service :=
  v <- res;;
  if is_empty (ResourceRecordSet (status v)) then
    fail (EOpaque ("cannot generate ExternalName service for "
      +:+ metav1.Namespace (meta v) +:+ "/" +:+ metav1.Name (meta v)
      +:+ ": .status.resourceRecordSet is empty"))
  else
    trigger (Kube (SetControllerReference
      (metav1.Namespace (meta v)) (metav1.Name (meta v))
      (corev1.mkService (externalNameServiceName v) (metav1.Namespace (meta v)) None
         corev1.ServiceTypeExternalName (ResourceRecordSet (status v)) ""))).

(** ** Zone tags *)

(** One iteration of the loop over the default tags. *)
Definition checkZoneTag (input : route53Types.ChangeTagsForResourceInput)
    (actualTagsMap : gmap string string) (tag : AwsTag) : M unit :=
  key <- lift (deref (tag_Key tag));;
  let change :=
    c <- client;;
    wrap "failed tag hosted zone with default tags "
      (AWSClient.ChangeTagsForResource c input) in
  match actualTagsMap !! key with
  | None => change
  | Some v =>
      value <- lift (deref (tag_Value tag));;
      if String.eqb v value then ret tt else change
  end.

Definition createMissingPrivateZoneTags : M unit :=
  c <- client;;
  s <- res_status;;
  let id := HostedZoneId s in
  listTagsOut <- wrap "failed to list zone's tags " (AWSClient.FetchPrivateZoneTags c id);;
  ci <- get_clusterInfo;;
  input <- wrap "failed to generate hosted zone's default tags "
    (lift (AWSClient.GenerateDefaultTagsForHostedZoneInput id (clusterTag ci)));;
  tags <- lift (deref listTagsOut);;
  actualTagsMap <- lift (tagsToMap tags ∅);;
  forM_ (route53Types.AddTags input) (checkZoneTag input actualTagsMap);;
  setCondition (metav1.mkCondition AWSRoute53TagsCondition metav1.ConditionTrue
    "TagsVerified" "Route53 hosted zone tags are correct");;
  statusUpdate.

(** ** Invalidation *)

Definition invalidateCondition (t message : string) : M unit :=
  true_ <- conditionTrue t;;
  if (true_ : bool)
  then setCondition (metav1.mkCondition t metav1.ConditionFalse "VpcEndpointChanged" message)
  else ret tt.

Definition invalidateRoute53RecordCondition : M unit :=
  invalidateCondition AWSRoute53RecordCondition
    "VPC endpoint is no longer available, Route53 record will be re-created";;
  invalidateCondition AWSRoute53TagsCondition
    "VPC endpoint is no longer available, tags will be re-verified".

End hostedzones.
End HostedZones.
