(* ===== verification/Validation.v ===== *)
(** * The validations: [controllers/vpcendpoint/validation.go]

    One definition per validation, plus one per branch of the [switch] on the
    state of the VPC Endpoint. *)
From S2P Require Import Prelude GoError Naming Types Calls GoMonad.
From S2P Require Import AwsClient Lookups Controller Helpers HostedZones.
Import avov1alpha2 Helpers HostedZones.

Module Validation.

(** [isVpcEndpointReady]. *)
Definition isVpcEndpointReady (v : VpcEndpoint) : bool :=
  match Conditions (status v) with
  | [] => false
  | cs => forallb (fun c => String.eqb (metav1.Status c) metav1.ConditionTrue) cs
  end.

Section validation.
Context {W : Type} `{World W} `{K8sHelpers}.
Abbreviation M := (M W Mem).
Open Scope go_scope.

Definition resource_missing {A} : M A := fail (EOpaque "resource must be specified").

(** [validateResources]: the validations in order, up to the first error. *)
Definition validateResources (p : resource_ptr) (validations : list (resource_ptr -> M unit))
  : M unit := forM_ validations (fun validation => validation p).

Definition sinceCreation : M Z :=
  v <- res;;
  since (metav1.CreationTimestamp (meta v)).

(** The duration metric of a condition that becomes true. *)
Definition observeReady (t : string) (m : Z -> metric) : M unit :=
  already <- conditionTrue t;;
  if (already : bool) then ret tt
  else
    duration <- sinceCreation;;
    fire (Metric (m duration)).

(** ** Security group *)

Definition validateSecurityGroup (p : resource_ptr) : M unit :=
  if is_nil p then resource_missing
  else
    sg <- findOrCreateSecurityGroup;;
    createMissingSecurityGroupTags sg;;
    inputs <- generateMissingSecurityGroupRules (Some sg) p;;
    c <- client;;
    _ <- AWSClient.AuthorizeSecurityGroupRules c (fst inputs) (snd inputs);;
    observeReady AWSSecurityGroupCondition VpceSecurityGroupReadyDuration;;
    setCondition (metav1.mkCondition AWSSecurityGroupCondition metav1.ConditionTrue
      "Validated" "Validated");;
    statusUpdate.

(** ** VPC Endpoint *)

Definition setPendingAcceptance (n : Z) : M unit :=
  v <- res;;
  fire (Metric (VpcePendingAcceptanceSet (metav1.Name (meta v)) (metav1.Namespace (meta v))
                  (VPCEndpointId (status v)) n)).

(** The common part of the states in which the endpoint is not usable. *)
Definition endpointNotReady (state : string) (pending : Z) : M unit :=
  setPendingAcceptance pending;;
  setCondition (metav1.mkCondition AWSVpcEndpointCondition metav1.ConditionFalse state "");;
  invalidateRoute53RecordCondition;;
  statusUpdate.

Definition enablePrivateDns (vpce : ec2Types.VpcEndpoint) : M unit :=
  v <- res;;
  flag <- gets (fun m => EnablePrivateDns_flag (reconciler m));;
  if (flag && EnablePrivateDns (Spec v) &&
      match ec2Types.PrivateDnsEnabled vpce with Some b => negb b | None => true end)%bool
  then
    c <- client;;
    wrap "failed to enable private DNS on VPC Endpoint: "
      (AWSClient.ModifyVpcEndpoint c
         (ec2Types.mkModifyVpcEndpointInput (ec2Types.VpcEndpointId vpce) [] [] [] []
            (Some true)));;
    eventNormal "Updated" ("Enabled private DNS on VPC Endpoint: "
                           +:+ VPCEndpointId (status v))
  else ret tt.

(** [case "rejected"]. *)
Definition endpointRejected : M unit :=
  invalidateRoute53RecordCondition;;
  c <- client;;
  s <- res_status;;
  r <- try (AWSClient.DeleteVPCEndpoint c (VPCEndpointId s));;
  match r with
  | inr _ => ret tt
  | inl e =>
      if has_code "InvalidVpcEndpoint.NotFound" e
      then modify_status (set_VPCEndpointId "")
      else fail e
  end;;
  fail (EOpaque "VPC Endpoint unexpectedly needed to be deleted").

(** What follows the [switch]: only an available endpoint gets there. *)
Definition endpointReady (vpce : ec2Types.VpcEndpoint) : M unit :=
  wrap "failed to reconcile VPC Endpoint subnets: " (ensureVpcEndpointSubnets vpce);;
  wrap "failed to reconcile VPC Endpoint security groups: "
    (ensureVpcEndpointSecurityGroups vpce);;
  observeReady AWSVpcEndpointCondition VpceEndpointReadyDuration;;
  setCondition (metav1.mkCondition AWSVpcEndpointCondition metav1.ConditionTrue
    (ec2Types.State vpce) ("VPC Endpoint status is: " +:+ ec2Types.State vpce));;
  statusUpdate.

Definition endpointBad (state : string) : M unit :=
  endpointNotReady state 0;;
  fail (EOpaque ("vpc endpoint in a bad state: " +:+ state)).

(** The [switch] on [vpce.State] and the code after it. *)
Definition reconcileEndpointState (vpce : ec2Types.VpcEndpoint) : M unit :=
  let state := ec2Types.State vpce in
  if String.eqb state "pendingAcceptance" then endpointNotReady state 1
  else if (String.eqb state "deleting" || String.eqb state "pending")%bool
  then endpointNotReady state 0
  else if String.eqb state "available" then
    setPendingAcceptance 0;;
    enablePrivateDns vpce;;
    endpointReady vpce
  else if String.eqb state "rejected" then endpointRejected
  else endpointBad state.

(** The branch that reacts to a changed endpoint id. *)
Definition recordChangedId (vpce : ec2Types.VpcEndpoint) : M unit :=
  s <- res_status;;
  id <- lift (deref (ec2Types.VpcEndpointId vpce));;
  if negb (String.eqb (VPCEndpointId s) id) then
    invalidateRoute53RecordCondition;;
    modify_status (set_VPCEndpointId id);;
    statusUpdate
  else ret tt.

Definition validateVPCEndpoint (p : resource_ptr) : M unit :=
  if is_nil p then resource_missing
  else
    vpce <- findOrCreateVpcEndpoint;;
    recordChangedId vpce;;
    reconcileEndpointState vpce.

(** ** Private hosted zone *)

Definition validateR53PrivateHostedZone (p : resource_ptr) : M unit :=
  if is_nil p then resource_missing
  else
    v <- res;;
    if AutoDiscover (phz_spec v) then
      domainName <- Lookups.dnses_GetPrivateHostedZoneDomainName Lookups.DefaultDnsesName;;
      c <- client;;
      ci <- get_clusterInfo;;
      hz <- AWSClient.GetDefaultPrivateHostedZoneId c domainName (VPCId (status v)) (region ci);;
      id <- lift (deref (route53Types.hzs_HostedZoneId hz));;
      updateHostedZoneId id
    else if negb (is_empty (Id (phz_spec v))) then
      resp <- getHostedZoneCached (Id (phz_spec v));;
      zone <- lift (deref (route53Types.HostedZone_ resp));;
      id <- lift (deref (route53Types.hz_Id zone));;
      updateHostedZoneId id
    else if (negb (is_empty (DomainName (phz_spec v))) ||
             match DomainNameRef (phz_spec v) with Some _ => true | None => false end)%bool
    then
      findOrCreatePrivateHostedZone p;;
      tagged <- conditionTrue AWSRoute53TagsCondition;;
      if (tagged : bool) then ret tt else createMissingPrivateZoneTags
    else ret tt.

(** One iteration of the loop over the VPCs to associate. *)
Definition associateVpc (associatedVpcs : gset string) (v : AssociatedVpc) : M unit :=
  if bool_decide (av_VpcId v ∈ associatedVpcs) then ret tt
  else
    c <- client;;
    s <- res_status;;
    AWSClient.CreateVPCAssociationAuthorization c (HostedZoneId s) (av_VpcId v) (av_Region v);;
    cfg <- Lookups.ParseAWSCredentialOverride (av_Region v) (CredentialsSecretRef v);;
    modify (on_reconciler (set_awsAssociatedVpcClient (Some cfg)));;
    AWSClient.AssociateVPCWithHostedZone (Some cfg) (HostedZoneId s) (av_VpcId v) (av_Region v);;
    invalidateHostedZoneCache (HostedZoneId s).

Definition validateR53HostedZoneAuthorization (p : resource_ptr) : M unit :=
  if is_nil p then resource_missing
  else
    v <- res;;
    match AssociatedVpcs (phz_spec v) with
    | [] => ret tt
    | vpcs =>
        if is_empty (HostedZoneId (status v))
        then fail (EOpaque "cannot validate hosted zone authorizations with an empty resource.status.hostedZoneId")
        else
          resp <- getHostedZoneCached (HostedZoneId (status v));;
          ids <- lift (match sequence (route53Types.VPCs resp) with
                       | Some l => Ok l
                       | None => Panic "nil pointer dereference"
                       end);;
          forM_ vpcs (associateVpc (list_to_set ids))
    end.

(** ** Record *)

(** From the [UpsertResourceRecordSet] input on. *)
Definition upsertRecord (zone : route53Types.HostedZone) (record : option string) : M unit :=
  v <- res;;
  zoneName <- lift (deref (route53Types.hz_Name zone));;
  let name := Hostname (Record_ (phz_spec v)) +:+ "." +:+ TrimRight_dot zoneName in
  let input := route53Types.mkResourceRecordSet (Some name) route53Types.RRTypeCname
                 (Some 300%Z) [record] in
  zoneId <- lift (deref (route53Types.hz_Id zone));;
  c <- client;;
  AWSClient.UpsertResourceRecordSet c input zoneId;;
  observeReady AWSRoute53RecordCondition VpceRoute53ReadyDuration;;
  modify_status (set_ResourceRecordSet name);;
  setCondition (metav1.mkCondition AWSRoute53RecordCondition metav1.ConditionTrue
    "Created" ("Created: " +:+ name));;
  statusUpdate.

Definition validateR53HostedZoneRecord (p : resource_ptr) : M unit :=
  if is_nil p then resource_missing
  else
    recordReady <- conditionTrue AWSRoute53RecordCondition;;
    endpointReady_ <- conditionTrue AWSVpcEndpointCondition;;
    if (recordReady && endpointReady_)%bool then ret tt
    else
      s <- res_status;;
      resp <- getHostedZoneCached (HostedZoneId s);;
      r <- try generateRoute53Record;;
      match r with
      | inl _ => ret tt
      | inr None => ret tt
      | inr (Some record) =>
          zone <- lift (deref (route53Types.HostedZone_ resp));;
          upsertRecord zone record
      end.

(** ** ExternalName service *)

Definition externalNameError (e : error) : M unit :=
  setCondition (metav1.mkCondition ExternalNameServiceCondition metav1.ConditionFalse
    "UnknownError" ("Unknown error: " +:+ error_text e));;
  statusUpdate;;
  fail e.

Definition externalNameDone (reason : string) : M unit :=
  setCondition (metav1.mkCondition ExternalNameServiceCondition metav1.ConditionTrue
    reason "");;
  statusUpdate.

Definition set_ExternalName (x : string) (s : corev1.Service) : corev1.Service :=
  corev1.mkService (corev1.Name s) (corev1.Namespace s) (corev1.Owner s) (corev1.Type_ s) x
    (corev1.ResourceVersion s).

Definition validateExternalNameService (p : resource_ptr) : M unit :=
  if is_nil p then
    fail (EOpaque "cannot generate ExternalName service: custom resource is nil")
  else
    v <- res;;
    if (is_empty (Hostname (Record_ (phz_spec v))) ||
        is_empty (externalNameServiceName v))%bool then ret tt
    else
      expected <- generateExternalNameService;;
      r <- try (trigger (Kube (GetService (metav1.Namespace (meta v))
                                 (externalNameServiceName v))));;
      match r with
      | inl e =>
          if IsNotFound e then
            trigger (Kube (CreateService expected));;
            externalNameDone "Created";;
            fail (EOpaque "requeue to validate service")
          else externalNameError e
      | inr found =>
          if String.eqb (corev1.ExternalName found) (corev1.ExternalName expected)
          then ret tt
          else
            u <- try (trigger (Kube (UpdateService
                   (set_ExternalName (corev1.ExternalName expected) found))));;
            match u with
            | inl e => externalNameError e
            | inr _ => externalNameDone "Reconciled"
            end
      end.

(** ** Custom DNS *)

Definition validateCustomDns (p : resource_ptr) : M unit :=
  v <- res;;
  flag <- gets (fun m => EnablePrivateDns_flag (reconciler m));;
  if (flag && EnablePrivateDns (Spec v))%bool then ret tt
  else
    validateResources p
      [ validateR53PrivateHostedZone;
        validateR53HostedZoneRecord;
        validateR53HostedZoneAuthorization;
        validateExternalNameService ].

End validation.
End Validation.
