(* ===== verification/Cleanup.v ===== *)
(** * Deletion: [controllers/vpcendpoint/cleanup.go]

    [cleanupAwsResources], split into its four consecutive parts: the Route 53
    record, the hosted zone, the VPC Endpoint and the security group. *)
From S2P Require Import Prelude GoError Naming Types Calls GoMonad.
From S2P Require Import AwsClient Lookups Controller Helpers HostedZones Validation.
Import avov1alpha2 Helpers HostedZones Validation.

Module Cleanup.

(** [new(route53Types.NoSuchHostedZone).ErrorCode()] and the like. *)
Definition NoSuchHostedZone_code := "NoSuchHostedZone".
Definition HostedZoneNotEmpty_code := "HostedZoneNotEmpty".

Section cleanup.
Context {W : Type} `{World W} `{K8sHelpers}.
Abbreviation M := (M W Mem).
Open Scope go_scope.

Definition cleanupMetrics : M unit :=
  v <- res;;
  if is_empty (VPCEndpointId (status v)) then ret tt
  else fire (Metric (VpcePendingAcceptanceDelete (metav1.Name (meta v))
                       (metav1.Namespace (meta v)) (VPCEndpointId (status v)))).

(** ** Part 1: the record *)

(** One iteration of the loop over the records of the zone: only the record the
    operator created goes away. *)
Definition deleteOwnRecord (zone : route53Types.HostedZone)
    (rr : route53Types.ResourceRecordSet) : M unit :=
  s <- res_status;;
  name <- lift (deref (route53Types.rrs_Name rr));;
  if String.eqb name (ResourceRecordSet s +:+ ".") then
    zoneId <- lift (deref (route53Types.hz_Id zone));;
    c <- client;;
    AWSClient.DeleteResourceRecordSet c rr zoneId
  else ret tt.

Definition deleteRecord : M unit :=
  c <- client;;
  s <- res_status;;
  resp <- AWSClient.GetHostedZone c (HostedZoneId s);;
  match route53Types.HostedZone_ resp with
  | None => ret tt
  | Some zone =>
      rrs <- AWSClient.ListResourceRecordSets c (HostedZoneId s);;
      forM_ rrs (deleteOwnRecord zone)
  end;;
  modify_status (set_ResourceRecordSet "");;
  setCondition (metav1.mkCondition AWSRoute53RecordCondition metav1.ConditionFalse
    "Deleted" "Deleted Route53 Hosted Zone Record");;
  statusUpdate;;
  s <- res_status;;
  eventNormal "Deleted" ("Deleted Route53 record(s) in hosted zone " +:+ HostedZoneId s).

Definition cleanupRecord (p : resource_ptr) : M unit :=
  recordReady <- conditionTrue AWSRoute53RecordCondition;;
  if (recordReady : bool) then
    s <- res_status;;
    (if is_empty (HostedZoneId s) then validateR53PrivateHostedZone p else ret tt);;
    s <- res_status;;
    if (negb (is_empty (HostedZoneId s)) && negb (is_empty (ResourceRecordSet s)))%bool
    then deleteRecord
    else ret tt
  else ret tt.

(** ** Part 2: the hosted zone *)

(** One iteration of the loop that empties the zone. *)
Definition deleteOtherRecord (rr : route53Types.ResourceRecordSet) : M unit :=
  if (String.eqb (route53Types.rrs_Type rr) route53Types.RRTypeNs ||
      String.eqb (route53Types.rrs_Type rr) route53Types.RRTypeSoa)%bool
  then ret tt
  else
    _ <- lift (deref (route53Types.rrs_Name rr));;
    c <- client;;
    s <- res_status;;
    AWSClient.DeleteResourceRecordSet c rr (HostedZoneId s).

Definition forgetHostedZone : M unit :=
  modify_status (set_HostedZoneId "");;
  statusUpdate.

(** The [HostedZoneNotEmpty] branch. *)
Definition emptyAndDeleteZone : M unit :=
  c <- client;;
  s <- res_status;;
  rrs <- AWSClient.ListResourceRecordSets c (HostedZoneId s);;
  forM_ rrs deleteOtherRecord;;
  wrap ("failed to delete hosted zone " +:+ HostedZoneId s +:+ " after clearing records: ")
    (AWSClient.DeleteHostedZone c (HostedZoneId s));;
  eventNormal "Deleted" ("Deleted Route53 hosted zone after clearing records: "
                         +:+ HostedZoneId s);;
  forgetHostedZone.

Definition deleteZone : M unit :=
  c <- client;;
  s <- res_status;;
  r <- try (AWSClient.DeleteHostedZone c (HostedZoneId s));;
  match r with
  | inr _ => eventNormal "Deleted" ("Deleted Route53 hosted zone: " +:+ HostedZoneId s)
  | inl e =>
      match AsAPIError e with
      | Some (code, _) =>
          if String.eqb code NoSuchHostedZone_code then
            eventNormal "Deleted" ("Route53 hosted zone already deleted: " +:+ HostedZoneId s);;
            forgetHostedZone
          else if String.eqb code HostedZoneNotEmpty_code then emptyAndDeleteZone
          else fail e
      | None => fail (Errorf_w "unexpected error while deleting hosted zone: " e)
      end
  end.

(** [.spec] names a domain: the zones the operator deletes. *)
Definition names_domain (v : VpcEndpoint) : bool :=
  (negb (is_empty (DomainName (phz_spec v))) ||
   match DomainNameRef (phz_spec v) with Some _ => true | None => false end)%bool.

Definition cleanupZone : M unit :=
  v <- res;;
  if (negb (is_empty (HostedZoneId (status v))) && names_domain v)%bool then
    r <- try (trigger (Kube (GetDNS Lookups.DefaultDnsesName)));;
    match r with
    | inl e =>
        match hostedControlPlaneRef v with
        | Some _ => deleteZone
        | None => fail e
        end
    | inr dnsConfig =>
        if String.eqb (DomainName (phz_spec v)) (configv1.BaseDomain dnsConfig)
        then ret tt
        else deleteZone
    end
  else ret tt.

(** ** Part 3: the VPC Endpoint *)

Definition pollInterval : Z := 5 * Second.
Definition pollTimeout : Z := 3 * Minute.

(** The polling loop; [fuel] bounds its iterations. *)
Fixpoint pollDeleted (fuel : nat) (deadline : Z) (vpceId : string) : M unit :=
  match fuel with
  | O => out_of_fuel
  | S fuel' =>
      now <- trigger Now;;
      if (now <? deadline)%Z then
        c <- client;;
        resp <- wrap "error polling VPC endpoint deletion status: "
          (AWSClient.DescribeSingleVPCEndpointById c vpceId);;
        match default [] resp with
        | [] => modify_status (set_VPCEndpointId "")
        | vpce :: _ =>
            let state := ec2Types.State vpce in
            if String.eqb state "deleted" then modify_status (set_VPCEndpointId "")
            else if negb (String.eqb state "deleting")
            then fail (EOpaque ("VPC endpoint " +:+ vpceId +:+ " in unexpected state "
                                +:+ quote state +:+ " during deletion"))
            else
              wrap "context cancelled while waiting for VPC endpoint deletion: "
                (trigger (AfterOrDone pollInterval));;
              pollDeleted fuel' deadline vpceId
        end
      else ret tt
  end.

(** 36 polls of five seconds fit before the three minutes are over; the last
    iteration only reads the clock. *)
Definition pollFuel : nat := 37.

Definition awaitDeleted (vpceId : string) : M unit :=
  eventNormal "Deleted" ("Deleted VPC endpoint: " +:+ vpceId);;
  now <- trigger Now;;
  pollDeleted pollFuel (now + pollTimeout)%Z vpceId;;
  s <- res_status;;
  if is_empty (VPCEndpointId s) then ret tt
  else fail (EOpaque ("timed out waiting for VPC endpoint " +:+ vpceId +:+ " to delete")).

Definition cleanupVpcEndpoint : M unit :=
  s <- res_status;;
  if is_empty (VPCEndpointId s) then ret tt
  else
    cleanupMetrics;;
    let vpceId := VPCEndpointId s in
    c <- client;;
    r <- try (AWSClient.DeleteVPCEndpoint c vpceId);;
    match r with
    | inl e =>
        match AsAPIError e with
        | Some (code, _) =>
            if String.eqb code "InvalidVpcEndpoint.NotFound" then
              eventNormal "Deleted" ("VPC endpoint already deleted: " +:+ vpceId);;
              modify_status (set_VPCEndpointId "")
            else fail e
        | None => fail (Errorf_w "unexpected error while deleting VPC Endpoint: " e)
        end
    | inr _ => awaitDeleted vpceId
    end;;
    modify_status (set_Status "deleting");;
    statusUpdate.

(** ** Part 4: the security group *)

Definition cleanupSecurityGroup : M unit :=
  s <- res_status;;
  if is_empty (SecurityGroupId s) then ret tt
  else
    let sgId := SecurityGroupId s in
    c <- client;;
    r <- try (AWSClient.DeleteSecurityGroup c sgId);;
    match r with
    | inr _ => eventNormal "Deleted" ("Deleted security group: " +:+ sgId)
    | inl e =>
        match AsAPIError e with
        | Some (code, _) =>
            if String.eqb code "InvalidGroup.NotFound" then
              eventNormal "Deleted" ("Security group already deleted: " +:+ sgId);;
              modify_status (set_SecurityGroupId "");;
              statusUpdate
            else fail e
        | None => fail (Errorf_w "unexpected error while deleting security group: " e)
        end
    end.

Definition cleanupAwsResources (p : resource_ptr) : M unit :=
  s <- res_status;;
  eventNormal "CleanupStarted"
    ("Starting cleanup of AWS resources (vpceId=" +:+ VPCEndpointId s +:+ ", sgId="
     +:+ SecurityGroupId s +:+ ", hzId=" +:+ HostedZoneId s +:+ ")");;
  cleanupRecord p;;
  cleanupZone;;
  cleanupVpcEndpoint;;
  cleanupSecurityGroup;;
  eventNormal "CleanupComplete" "All AWS resources cleaned up successfully".

End cleanup.

#[global] Arguments pollFuel : simpl never.
End Cleanup.
