(* ===== verification/Reconcile.v ===== *)
(** * The VpcEndpoint reconciler:
      [controllers/vpcendpoint/vpcendpoint_controller.go] *)
From S2P Require Import Prelude GoError Naming Types Calls GoMonad AwsClient.
From S2P Require Import Lookups Controller Helpers HostedZones Validation Cleanup.
Import avov1alpha2 Helpers HostedZones Validation Cleanup.

(** [ctrl.Result]; 0 stands for no requeue. *)
Record Result := mkResult { RequeueAfter : Z }.

#[export] Instance Result_eq_dec : EqDecision Result.
Proof. solve_decision. Defined.

Module Reconcile.

Definition avoFinalizer := "vpcendpoint.avo.openshift.io/finalizer".

Section reconcile.
Context {W : Type} `{World W} `{K8sHelpers}.
Abbreviation M := (M W Mem).
Open Scope go_scope.

Definition done_ : Result := mkResult 0.

Definition cleanupFailure (error_type : string) : M unit :=
  fire (Metric (VpceCleanupFailureInc error_type)).

(** [parseClusterInfo] failed with [err] on an object that is being deleted. *)
Definition degradedCleanup (err : error) : M unit :=
  cleanupFailure "ParseClusterInfoDegraded";;
  v <- res;;
  match AWSCredentialOverrideRef (Spec v) with
  | Some ref =>
      if is_empty (Region (Spec v)) then
        cleanupFailure "AWSClientNotEstablished";;
        fail (EOpaque "cannot establish AWS client for cleanup: region unavailable (Infrastructure CR gone and .spec.region not set)")
      else
        r <- try (Lookups.ParseAWSCredentialOverride (Region (Spec v)) (Some ref));;
        match r with
        | inl credErr =>
            cleanupFailure "AWSClientNotEstablished";;
            fail credErr
        | inr cfg => modify (on_reconciler (set_awsClient (Some cfg)))
        end
  | None =>
      c <- client;;
      match c with
      | None =>
          cleanupFailure "AWSClientNotEstablished";;
          fail err
      | Some _ => ret tt
      end
  end.

Definition ensureFinalizer : M unit :=
  v <- res;;
  if ContainsFinalizer (metav1.Finalizers (meta v)) avoFinalizer then ret tt
  else
    modify (on_resource (set_meta (fun m =>
      set_Finalizers_meta (AddFinalizer (metav1.Finalizers m) avoFinalizer) m)));;
    resourceUpdate.

(** [cleanupAwsResources] failed with [err]. *)
Definition cleanupFailed (err : error) : M Result :=
  let tail :=
    eventWarning "CleanupFailed" ("Failed to clean up AWS resources: " +:+ error_text err);;
    cleanupFailure "Error";;
    fail err in
  match AsAPIError err with
  | Some (code, msg) =>
      if String.eqb code "DependencyViolation" then
        eventWarning "CleanupBlocked"
          ("AWS dependency violation during cleanup, retrying in 30s: " +:+ msg);;
        cleanupFailure "DependencyViolation";;
        ret (mkResult (30 * Second))
      else
        awsUnauthorizedOperationMetricHandler err;;
        tail
  | None => tail
  end.

Definition notReadyDelete : M unit :=
  v <- res;;
  fire (Metric (VpceNotReadySecondsDelete (metav1.Name (meta v)) (metav1.Namespace (meta v)))).

Definition notReadySet : M unit :=
  v <- res;;
  age <- sinceCreation;;
  fire (Metric (VpceNotReadySecondsSet (metav1.Name (meta v)) (metav1.Namespace (meta v)) age)).

Definition removeFinalizer : M unit :=
  modify (on_resource (set_meta (fun m =>
    set_Finalizers_meta (RemoveFinalizer (metav1.Finalizers m) avoFinalizer) m)));;
  resourceUpdate.

(** The branch of an object that is being deleted. *)
Definition reconcileDelete (p : resource_ptr) : M Result :=
  v <- res;;
  if ContainsFinalizer (metav1.Finalizers (meta v)) avoFinalizer then
    r <- try (cleanupAwsResources p);;
    match r with
    | inl err => cleanupFailed err
    | inr _ =>
        removeFinalizer;;
        notReadyDelete;;
        ret done_
    end
  else
    notReadyDelete;;
    ret done_.

(** A validation failed with [err]. *)
Definition validationFailed (err : error) : M Result :=
  awsUnauthorizedOperationMetricHandler err;;
  notReadySet;;
  endpointReady_ <- conditionTrue AWSVpcEndpointCondition;;
  recordReady <- conditionTrue AWSRoute53RecordCondition;;
  if (endpointReady_ && negb recordReady)%bool
  then ret (mkResult Minute)
  else fail err.

Definition reconcileNormal (p : resource_ptr) : M Result :=
  r <- try (validateResources p [ validateSecurityGroup; validateVPCEndpoint; validateCustomDns ]);;
  match r with
  | inl err => validationFailed err
  | inr _ =>
      v <- res;;
      (if isVpcEndpointReady v then notReadyDelete else notReadySet);;
      ret (mkResult (15 * Minute))
  end.

Definition isDeleting (v : VpcEndpoint) : bool :=
  match metav1.DeletionTimestamp (meta v) with Some _ => true | None => false end.

(** After the object was read. *)
Definition reconcileObject : M Result :=
  v <- res;;
  r <- try (parseClusterInfo true);;
  match r with
  | inr _ => ret tt
  | inl err =>
      if isDeleting v then degradedCleanup err
      else
        awsUnauthorizedOperationMetricHandler err;;
        fail err
  end;;
  v <- res;;
  if isDeleting v then reconcileDelete resource_ptr_
  else
    ensureFinalizer;;
    reconcileNormal resource_ptr_.

Definition Reconcile (namespace name : string) : M Result :=
  modify (on_reconciler (set_awsClient None));;
  r <- try (trigger (Kube (GetVpcEndpoint namespace name)));;
  match r with
  | inl e => if IsNotFound e then ret done_ else fail e
  | inr v =>
      modify (on_resource (fun _ => v));;
      reconcileObject
  end.

End reconcile.
End Reconcile.
