(* ===== verification/Template.v ===== *)
(** * The VpcEndpointTemplate controller:
      [controllers/vpcendpointtemplate/vpcendpointtemplate_controller.go]

    The controller's memory is the template of the reconcile; the event handlers
    have none.  [reflect.DeepEqual] on specs is equality of the records (it also
    tells nil from empty slices, which the records do not). *)
From S2P Require Import Prelude GoError Naming Types Calls GoMonad Reconcile.
Import avov1alpha2.

Module Template.

Definition finalizer := "vpcendpointtemplate.avo.openshift.io/finalizer".

Definition set_vt_meta (f : metav1.ObjectMeta -> metav1.ObjectMeta)
    (v : VpcEndpointTemplate) : VpcEndpointTemplate :=
  mkVpcEndpointTemplate (f (vt_meta v)) (vt_Spec v).

(** [metav1.LabelSelector] of [labels.Set(matchLabels)]. *)
Definition matchLabelsOnly (s : metav1.LabelSelector) : metav1.LabelSelector :=
  metav1.mkLabelSelector (metav1.MatchLabels s) [].

Definition matches_template (vpcet : VpcEndpointTemplate) (v : VpcEndpoint) : bool :=
  bool_decide (Spec v = tmpl_Spec (avov1alpha2.Template (vt_Spec vpcet))).

(** The object that [CreateVpcEndpoint] creates. *)
Definition newVpcEndpoint (vpcet : VpcEndpointTemplate) (namespace : string) : VpcEndpoint :=
  let template := avov1alpha2.Template (vt_Spec vpcet) in
  mkVpcEndpoint
    (metav1.mkObjectMeta (metav1.Name (vt_meta vpcet)) namespace
       (metav1.Labels (tmpl_meta template)) 0 None [] "")
    (tmpl_Spec template) VpcEndpointStatus_zero.

Section template.
Context {W : Type} `{World W} `{K8sHelpers}.
Abbreviation M := (M W VpcEndpointTemplate).
Open Scope go_scope.

Definition CreateVpcEndpoint (vpcet : VpcEndpointTemplate) (namespace : string) : M unit :=
  trigger (Kube (CreateVpcEndpointCR (newVpcEndpoint vpcet namespace))).

Definition ReplaceVpcEndpointSpec (actual : VpcEndpoint) (vpcet : VpcEndpointTemplate)
  : M unit :=
  if matches_template vpcet actual then ret tt
  else
    _ <- trigger (Kube (UpdateVpcEndpoint
           (set_Spec (tmpl_Spec (avov1alpha2.Template (vt_Spec vpcet))) actual)));;
    ret tt.

Definition FilterHostedControlPlanes (vpcet : VpcEndpointTemplate)
  : M (list hyperv1beta1.HostedControlPlane) :=
  if String.eqb (vt_Type (vt_Spec vpcet)) HCPVpcEndpointTemplateType
  then trigger (Kube (ListHostedControlPlanes ""))
  else ret [].

(** [r.Delete] on every item. *)
Definition deleteAll (items : list VpcEndpoint) : M unit :=
  forM_ items (fun v => trigger (Kube (DeleteVpcEndpointCR v))).

(** The case of more than one item: those that do not match are deleted. *)
Fixpoint deleteExtras (vpcet : VpcEndpointTemplate) (items : list VpcEndpoint) (found : bool)
  : M bool :=
  match items with
  | [] => ret found
  | v :: items' =>
      if matches_template vpcet v then deleteExtras vpcet items' true
      else
        trigger (Kube (DeleteVpcEndpointCR v));;
        deleteExtras vpcet items' found
  end.

(** One iteration of the loop over the control planes. *)
Definition validateHostedControlPlane (vpcet : VpcEndpointTemplate)
    (hcp : hyperv1beta1.HostedControlPlane) : M unit :=
  items <- trigger (Kube (ListVpcEndpoints (matchLabelsOnly (Selector (vt_Spec vpcet)))
                            (hyperv1beta1.Namespace hcp)));;
  match hyperv1beta1.DeletionTimestamp hcp with
  | Some _ => deleteAll items
  | None =>
      match items with
      | [] => CreateVpcEndpoint vpcet (hyperv1beta1.Namespace hcp)
      | [v] => ReplaceVpcEndpointSpec v vpcet
      | _ =>
          found <- deleteExtras vpcet items false;;
          if (found : bool) then ret tt
          else CreateVpcEndpoint vpcet (hyperv1beta1.Namespace hcp)
      end
  end.

Definition ValidateVpcEndpointForHostedControlPlanes (vpcet : VpcEndpointTemplate)
    (hcpList : list hyperv1beta1.HostedControlPlane) : M unit :=
  trigger (Kube (ValidateLabelSelector (matchLabelsOnly (Selector (vt_Spec vpcet)))));;
  forM_ hcpList (validateHostedControlPlane vpcet).

(** [r.Update(ctx, vpcet)]. *)
Definition templateUpdate : M unit :=
  v <- gets id;;
  rv <- trigger (Kube (UpdateVpcEndpointTemplate v));;
  modify (set_vt_meta (set_ResourceVersion_meta rv)).

Definition deleteMatching : M unit :=
  v <- gets id;;
  trigger (Kube (ValidateLabelSelector (Selector (vt_Spec v))));;
  items <- trigger (Kube (ListVpcEndpoints (Selector (vt_Spec v)) ""));;
  deleteAll items.

(** The branch of a template that is being deleted. *)
Definition reconcileDelete : M Result :=
  v <- gets id;;
  (if ContainsFinalizer (metav1.Finalizers (vt_meta v)) finalizer
   then deleteMatching else ret tt);;
  modify (set_vt_meta (fun m =>
    set_Finalizers_meta (RemoveFinalizer (metav1.Finalizers m) finalizer) m));;
  templateUpdate;;
  ret (mkResult 0).

Definition ensureFinalizer : M unit :=
  v <- gets id;;
  if ContainsFinalizer (metav1.Finalizers (vt_meta v)) finalizer then ret tt
  else
    modify (set_vt_meta (fun m =>
      set_Finalizers_meta (AddFinalizer (metav1.Finalizers m) finalizer) m));;
    templateUpdate.

Definition reconcileLive : M Result :=
  ensureFinalizer;;
  v <- gets id;;
  hcpList <- FilterHostedControlPlanes v;;
  ValidateVpcEndpointForHostedControlPlanes v hcpList;;
  ret (mkResult 0).

Definition Reconcile (namespace name : string) : M Result :=
  r <- try (trigger (Kube (GetVpcEndpointTemplate namespace name)));;
  match r with
  | inl e => if IsNotFound e then ret (mkResult 0) else fail e
  | inr v =>
      modify (fun _ => v);;
      match metav1.DeletionTimestamp (vt_meta v) with
      | Some _ => reconcileDelete
      | None => reconcileLive
      end
  end.
End template.

(** ** The event handlers of hosted control planes *)

(** A [reconcile.Request]: namespace and name. *)
Definition Request : Type := string * string.

Definition requestOf (t : VpcEndpointTemplate) : Request :=
  (metav1.Namespace (vt_meta t), metav1.Name (vt_meta t)).

(** [matches]: the requests of the templates for hosted control planes. *)
Definition requests (templates : list VpcEndpointTemplate) : list Request :=
  requestOf <$> filter (fun t => vt_Type (vt_Spec t) = HCPVpcEndpointTemplateType) templates.

Section handlers.
Context {W : Type} `{World W}.
Abbreviation M := (M W unit).
Open Scope go_scope.

(** The second loop: [q.Add] for the requests not seen before. *)
Fixpoint enqueueNew (matches : list Request) (reqs : gset Request) : M (gset Request) :=
  match matches with
  | [] => ret reqs
  | req :: matches' =>
      if bool_decide (req ∈ reqs) then enqueueNew matches' reqs
      else
        fire (Enqueue req.1 req.2);;
        enqueueNew matches' ({[ req ]} ∪ reqs)
  end.

(** [mapAndEnqueue]; the map [reqs] is returned as it is left. *)
Definition mapAndEnqueue (reqs : gset Request) : M (gset Request) :=
  r <- try (trigger (Kube ListVpcEndpointTemplates));;
  match r with
  | inl _ => ret reqs
  | inr templates => enqueueNew (requests templates) reqs
  end.

(** [Create], [Delete] and [Generic]. *)
Definition handleOne : M unit :=
  _ <- mapAndEnqueue ∅;;
  ret tt.

(** [Update]: once for the old object, once for the new one. *)
Definition handleUpdate : M unit :=
  reqs <- mapAndEnqueue ∅;;
  _ <- mapAndEnqueue reqs;;
  ret tt.
End handlers.

End Template.
