(* ===== verification/Acceptance.v ===== *)
(** * The VpcEndpointAcceptance controller and the operator's entry point

    [controllers/vpcendpointacceptance/vpcendpointacceptance_controller.go], the
    health check of [controllers/util/util.go] and the feature flags of
    [main.go]. *)
From S2P Require Import Prelude GoError Naming Types Calls GoMonad AwsClient Reconcile.
Import avov1alpha1.

Module Acceptance.

Section acceptance.
Context {W : Type} `{World W}.
(** The reconciler's memory: its client. *)
Abbreviation M := (M W (option AwsConfig)).
Open Scope go_scope.

(** One iteration of the loop over the connections: the id to accept, if any. *)
Definition acceptConnection (criteria : AcceptanceCriteriaT)
    (connection : ec2Types.VpcEndpointConnection) : M (list string) :=
  if AlwaysAccept criteria then
    id <- lift (deref (ec2Types.conn_VpcEndpointId connection));;
    ret [id]
  else
    match AwsAccountOperatorAccount criteria with
    | None => ret []
    | Some aao =>
        accounts <- trigger (Kube (ListAccounts (Namespace aao)));;
        owner <- lift (deref (ec2Types.VpcEndpointOwner connection));;
        if bool_decide (owner ∈ (list_to_set accounts : gset string)) then
          id <- lift (deref (ec2Types.conn_VpcEndpointId connection));;
          ret [id]
        else ret []
    end.

Fixpoint acceptedConnections (criteria : AcceptanceCriteriaT)
    (connections : list ec2Types.VpcEndpointConnection) : M (list string) :=
  match connections with
  | [] => ret []
  | connection :: connections' =>
      ids <- acceptConnection criteria connection;;
      ids' <- acceptedConnections criteria connections';;
      ret (ids ++ ids')
  end.

(** Loading the configuration; assuming a role replaces its credentials. *)
Definition acceptanceClient (spec : VpcEndpointAcceptanceSpec) : M (option AwsConfig) :=
  cfg <- trigger (LoadDefaultConfig (Region spec) None);;
  let cfg := if is_empty (AssumeRoleArn spec) then cfg
             else mkAwsConfig (cfg_Region cfg) (CredAssumeRole (AssumeRoleArn spec)) in
  modify (fun _ => Some cfg);;
  ret (Some cfg).

(** After the object was read, and is not being deleted. *)
Definition acceptPending (v : VpcEndpointAcceptance) : M Result :=
  c <- acceptanceClient (Spec v);;
  connections <- AWSClient.GetVpcEndpointConnectionsPendingAcceptance c (Id (Spec v));;
  vpceToAccept <- acceptedConnections (AcceptanceCriteria (Spec v)) connections;;
  fire (Metric (VpcEndpointAcceptanceQueueSet (metav1.Name (meta v)) (metav1.Namespace (meta v))
                  (Z.of_nat (length vpceToAccept))));;
  AWSClient.AcceptVpcEndpointConnections c (Id (Spec v)) vpceToAccept;;
  ret (mkResult Minute).

Definition Reconcile (namespace name : string) : M Result :=
  r <- try (trigger (Kube (GetVpcEndpointAcceptance namespace name)));;
  match r with
  | inl e => if IsNotFound e then ret (mkResult 0) else fail e
  | inr v =>
      match metav1.DeletionTimestamp (meta v) with
      | Some _ =>
          fire (Metric (VpcEndpointAcceptanceQueueDelete (metav1.Name (meta v))
                          (metav1.Namespace (meta v))));;
          ret (mkResult 0)
      | None => acceptPending v
      end
  end.
End acceptance.
End Acceptance.

(** ** [controllers/util/util.go] and [main.go] *)

Module Operator.

Section health.
Context {W : Type} `{World W} {L : Type}.
Abbreviation M := (M W L).
Open Scope go_scope.

(** [if _, ok := os.LookupEnv(a); ok { if _, ok := os.LookupEnv(b); ok {...}}}]. *)
Definition bothSet (a b : string) : M bool :=
  x <- trigger (LookupEnv a);;
  match x with
  | None => ret false
  | Some _ =>
      y <- trigger (LookupEnv b);;
      ret (match y with Some _ => true | None => false end)
  end.

Definition AWSEnvVarHealtzChecker : M unit :=
  keys <- bothSet "AWS_SECRET_ACCESS_KEY" "AWS_ACCESS_KEY_ID";;
  if (keys : bool) then ret tt
  else
    role <- bothSet "AWS_WEB_IDENTITY_TOKEN_FILE" "AWS_ROLE_ARN";;
    if (role : bool) then ret tt
    else fail (EOpaque "missing sufficient environment variables to build an AWS client").
End health.

(** The flags as [main] leaves them: nil is replaced by the default. *)
Definition defaultFlags (c : AvoConfig) : AvoConfig :=
  mkAvoConfig
    (Some (default true (EnableVpcEndpointController c)))
    (Some (default false (EnableVpcEndpointAcceptanceController c)))
    (Some (default false (EnableVpcEndpointTemplateController c)))
    (Some (default false (EnablePrivateDns c))).

(** The controllers that [main] sets up, in order. *)
Definition controllersToStart (c : AvoConfig) : list string :=
  let c := defaultFlags c in
  let when (flag : option bool) (name : string) :=
    if default false flag then [name] else [] in
  when (EnableVpcEndpointController c) "VpcEndpoint" ++
  when (EnableVpcEndpointAcceptanceController c) "VpcEndpointAcceptance" ++
  when (EnableVpcEndpointTemplateController c) "VpcEndpointTemplate".

End Operator.
