(* ===== verification/Sim.v ===== *)
(** * A simulated world

    A small, executable implementation of the services: a clock, the endpoints,
    hosted zones and records of one AWS account, the DNS and Infrastructure
    objects and one custom resource.  It answers every call, so that the
    functions of the operator can be run on concrete inputs; no theorem assumes
    that the real services behave like it. *)
From S2P Require Import Prelude GoError Naming Types Calls GoMonad AwsClient Controller.
Import avov1alpha2.

Module Sim.

(** The base domain of the cluster. *)
Definition baseDomain := "example.com".

Record State := mkState {
  clock : Z;
  endpoints : list ec2Types.VpcEndpoint;
  deletionPolls : nat; (* sleeps until a deleting endpoint is gone *)
  zones : list (string * route53Types.HostedZone); (* by id *)
  subnets : list ec2Types.Subnet;
  securityGroups : list string;
  sgError : option error; (* the answer of DeleteSecurityGroup *)
  stored : option VpcEndpoint (* the custom resource in the API server *)
}.

Definition set_clock (x : Z) (w : State) :=
  mkState x (endpoints w) (deletionPolls w) (zones w) (subnets w)
    (securityGroups w) (sgError w) (stored w).
Definition set_endpoints (x : list ec2Types.VpcEndpoint) (w : State) :=
  mkState (clock w) x (deletionPolls w) (zones w) (subnets w)
    (securityGroups w) (sgError w) (stored w).
Definition set_deletionPolls (x : nat) (w : State) :=
  mkState (clock w) (endpoints w) x (zones w) (subnets w)
    (securityGroups w) (sgError w) (stored w).
Definition set_zones (x : list (string * route53Types.HostedZone)) (w : State) :=
  mkState (clock w) (endpoints w) (deletionPolls w) x (subnets w)
    (securityGroups w) (sgError w) (stored w).
Definition set_securityGroups (x : list string) (w : State) :=
  mkState (clock w) (endpoints w) (deletionPolls w) (zones w) (subnets w)
    x (sgError w) (stored w).
Definition set_stored (x : option VpcEndpoint) (w : State) :=
  mkState (clock w) (endpoints w) (deletionPolls w) (zones w) (subnets w)
    (securityGroups w) (sgError w) x.

Definition has_id (id : string) (v : ec2Types.VpcEndpoint) : bool :=
  bool_decide (ec2Types.VpcEndpointId v = Some id).

Definition in_state (st : string) (v : ec2Types.VpcEndpoint) : ec2Types.VpcEndpoint :=
  ec2Types.mkVpcEndpoint (ec2Types.VpcEndpointId v) st (ec2Types.vpce_VpcId v)
    (ec2Types.SubnetIds v) (ec2Types.Groups v) (ec2Types.PrivateDnsEnabled v)
    (ec2Types.DnsEntries v).

Definition is_deleting (v : ec2Types.VpcEndpoint) : bool :=
  String.eqb (ec2Types.State v) "deleting".

Definition notSimulated {A} (w : State) : State * (error + A) :=
  (w, inl (EOpaque "not simulated")).

(** A sleep: the clock advances and deletions make progress. *)
Definition sleep (d : Z) (w : State) : State :=
  let w := set_clock (clock w + Z.max 0 d)%Z w in
  match deletionPolls w with
  | O => set_endpoints (List.filter (fun v => negb (is_deleting v)) (endpoints w)) w
  | S n => set_deletionPolls n w
  end.

Definition notFound (code : string) : error := EApi code "not found" "not found".

Definition ec2 {R} (op : ec2op R) (w : State) : State * (error + R) :=
  match op in ec2op R return State * (error + R) with
  | DescribeVpcEndpoints _ [] => (w, inr []) (* no endpoint carries tags *)
  | DescribeVpcEndpoints _ ids =>
      match List.filter (fun v => existsb (fun id => has_id id v) ids) (endpoints w) with
      | [] => (w, inl (notFound "InvalidVpcEndpointId.NotFound"))
      | l => (w, inr l)
      end
  | CreateVpcEndpoint i =>
      let v := ec2Types.mkVpcEndpoint (Some "vpce-new") "pending"
                 (Some (ec2Types.cve_VpcId i)) [] [] None [] in
      (set_endpoints (v :: endpoints w) w, inr (Some v))
  | DescribeVpcEndpointsPages _ => (w, inr [inr (endpoints w)])
  | DeleteVpcEndpoints ids =>
      if existsb (fun v => existsb (fun id => has_id id v) ids) (endpoints w) then
        (set_endpoints
           (map (fun v => if existsb (fun id => has_id id v) ids
                          then in_state "deleting" v else v) (endpoints w)) w, inr tt)
      else (w, inl (notFound "InvalidVpcEndpoint.NotFound"))
  | ModifyVpcEndpoint _ => (w, inr tt)
  | DescribeSubnets _ _ => (w, inr (subnets w))
  | DescribeSecurityGroups _ ids =>
      (w, inr ((fun id => ec2Types.mkSecurityGroup (Some id) []) <$> ids))
  | DescribeSecurityGroupRules _ => (w, inr [])
  | DescribeVpcEndpointConnections _ =>
      (w, inr [ ec2Types.mkVpcEndpointConnection (Some "vpce-1") (Some "111111111111");
                ec2Types.mkVpcEndpointConnection (Some "vpce-2") (Some "222222222222") ])
  | AcceptVpcEndpointConnections _ _ => (w, inr tt)
  | CreateTags _ _ => (w, inr tt)
  | AuthorizeSecurityGroupIngress _ => (w, inr [])
  | AuthorizeSecurityGroupEgress _ => (w, inr [])
  | DeleteSecurityGroup id =>
      match sgError w with
      | Some e => (w, inl e)
      | None => (set_securityGroups (List.filter (fun g => negb (String.eqb g id))
                                       (securityGroups w)) w, inr tt)
      end
  | _ => notSimulated w
  end.

Definition zone_of (id : string) (w : State) : option route53Types.HostedZone :=
  snd <$> List.find (fun z => String.eqb ("/hostedzone/" +:+ fst z) id) (zones w).

Definition r53 {R} (op : route53op R) (w : State) : State * (error + R) :=
  match op in route53op R return State * (error + R) with
  | GetHostedZone id =>
      match zone_of id w with
      | Some z => (w, inr (route53Types.mkGetHostedZoneOutput (Some z) []))
      | None => (w, inl (notFound "NoSuchHostedZone"))
      end
  | DeleteHostedZone id =>
      match zone_of ("/hostedzone/" +:+ id) w with
      | Some _ => (set_zones (List.filter (fun z => negb (String.eqb (fst z) id)) (zones w)) w,
                   inr tt)
      | None => (w, inl (notFound "NoSuchHostedZone"))
      end
  | ChangeResourceRecordSets _ => (w, inr tt)
  | ChangeTagsForResource _ => (w, inr tt)
  | ListResourceRecordSets _ => (w, inr [])
  | ListTagsForResource _ _ => (w, inr (Some []))
  | ListHostedZonesByVPC _ _ =>
      (w, inr ((fun z => route53Types.mkHostedZoneSummary (Some (fst z))
                           (route53Types.hz_Name (snd z))) <$> zones w))
  | ListHostedZonesByName _ => (w, inr (snd <$> zones w))
  | _ => notSimulated w
  end.

Definition kube {R} (op : kubeop R) (w : State) : State * (error + R) :=
  match op in kubeop R return State * (error + R) with
  | GetVpcEndpoint _ _ =>
      match stored w with
      | Some v => (w, inr v)
      | None => (w, inl (EStatus "NotFound" "not found"))
      end
  | UpdateVpcEndpoint v => (set_stored (Some v) w, inr "2")
  | UpdateVpcEndpointStatus v => (set_stored (Some v) w, inr "2")
  | GetService ns name =>
      (w, inr (corev1.mkService name ns None corev1.ServiceTypeExternalName
                 ("api." +:+ baseDomain) "1"))
  | SetControllerReference ns name svc =>
      (w, inr (corev1.mkService (corev1.Name svc) (corev1.Namespace svc) (Some (ns, name))
                 (corev1.Type_ svc) (corev1.ExternalName svc) (corev1.ResourceVersion svc)))
  | ListVpcEndpoints _ _ => (w, inr (option_list (stored w)))
  | CreateVpcEndpointCR v => (set_stored (Some v) w, inr tt)
  | DeleteVpcEndpointCR _ => (set_stored None w, inr tt)
  | ValidateLabelSelector _ => (w, inr tt)
  | UpdateVpcEndpointTemplate _ => (w, inr "2")
  | ListAccounts _ => (w, inr ["111111111111"])
  | GetDNS _ => (w, inr (configv1.mkDNS baseDomain))
  | GetInfrastructure _ =>
      (w, inr (configv1.mkInfrastructure "infra"
                 (Some (configv1.mkPlatformStatus "AWS" (Some "us-east-1")))))
  | _ => notSimulated w
  end.

#[export] Instance world : World State := fun R (c : call R) w =>
  match c in call R return State * (error + R) with
  | EC2 _ op => ec2 op w
  | R53 _ op => r53 op w
  | Kube op => kube op w
  | LoadDefaultConfig region creds =>
      (w, inr (mkAwsConfig region (default CredDefault creds)))
  | Now => (w, inr (clock w))
  | AfterOrDone d => (sleep d w, inr tt)
  | RangeOrder => (w, inr elements)
  | LookupEnv _ => (w, inr None)
  | Metric _ => (w, inr tt)
  | Event _ _ _ => (w, inr tt)
  | Enqueue _ _ => (w, inr tt)
  end.

(** The clock of the simulated world obeys the laws. *)
Lemma ec2_clock {R} (op : ec2op R) w : clock (ec2 op w).1 = clock w.
Proof. destruct op; simpl; repeat case_match; done. Qed.

Lemma r53_clock {R} (op : route53op R) w : clock (r53 op w).1 = clock w.
Proof. destruct op; simpl; repeat case_match; done. Qed.

Lemma kube_clock {R} (op : kubeop R) w : clock (kube op w).1 = clock w.
Proof. destruct op; simpl; repeat case_match; done. Qed.

Lemma sleep_clock d w : clock (sleep d w) = (clock w + Z.max 0 d)%Z.
Proof. unfold sleep. simpl. by destruct (deletionPolls w). Qed.

#[export] Instance clock_laws : ClockLaws clock.
Proof.
  split.
  - intros w w' r [= <- <-]. exists (clock w). split; [done|lia].
  - intros R c w w' r. unfold handle, world. destruct c; try (intros [= <- _]; lia).
    + pose proof (ec2_clock op w). destruct (ec2 op w). intros [= <- _]. simpl in *. lia.
    + pose proof (r53_clock op w). destruct (r53 op w). intros [= <- _]. simpl in *. lia.
    + pose proof (kube_clock op w). destruct (kube op w). intros [= <- _]. simpl in *. lia.
    + intros [= <- _]. rewrite sleep_clock. lia.
  - intros d w w' [= <-]. rewrite sleep_clock. lia.
Qed.

(** ** Objects to run the operator on *)

Definition cfg : AwsConfig := mkAwsConfig "us-east-1" CredDefault.

Definition phz (domainName : string) (ref : option DomainNameT) (hostname : string)
  : Route53PrivateHostedZone :=
  mkRoute53PrivateHostedZone false [] domainName ref ""
    (mkRoute53HostedZoneRecord hostname (mkExternalNameService "")).

Definition spec (zone : Route53PrivateHostedZone) : VpcEndpointSpec :=
  mkVpcEndpointSpec "com.amazonaws.vpce.svc" None (mkSecurityGroup [] [] false) "" None
    "us-east-1" false (mkVpc false ["subnet-1"] [] [] []) (mkCustomDns zone).

Definition status_ (vpceId sgId hzId rrs : string) (conds : list metav1.Condition)
  : VpcEndpointStatus :=
  mkVpcEndpointStatus "available" sgId "vpc-1" vpceId "com.amazonaws.vpce.svc" hzId rrs
    "infra" conds.

Definition object (deleted : option Z) (finalizers : list string) (sp : VpcEndpointSpec)
    (st : VpcEndpointStatus) : VpcEndpoint :=
  mkVpcEndpoint (metav1.mkObjectMeta "example" "ns" ∅ 0 deleted finalizers "1") sp st.

Definition endpoint (id st : string) : ec2Types.VpcEndpoint :=
  ec2Types.mkVpcEndpoint (Some id) st (Some "vpc-1") ["subnet-1"] [Some "sg-1"] None
    [Some "vpce.example.com"].

Definition zone (id name : string) : string * route53Types.HostedZone :=
  (id, route53Types.mkHostedZone (Some ("/hostedzone/" +:+ id)) (Some name) (Some true)).

Definition reconciler_ : VpcEndpointReconciler :=
  mkVpcEndpointReconciler false (Some cfg) None (Some (mkClusterInfo "tag" "us-east-1")) None.

Definition state : State :=
  mkState 0 [endpoint "vpce-1" "available"] 3 [zone "Z1" "example.com."]
    [ec2Types.mkSubnet (Some "subnet-1") (Some "vpc-1") (Some "us-east-1a")] ["sg-1"] None None.

(** AWS refuses to delete the security group. *)
Definition dependencyViolation : error :=
  EApi "DependencyViolation" "in use" "api error DependencyViolation: in use".

Definition blocked : State :=
  mkState 0 [endpoint "vpce-1" "available"] 3 [] [] ["sg-1"] (Some dependencyViolation) None.

Definition sys (w : State) (v : VpcEndpoint) : Sys State Mem :=
  mkSys w [] (mkMem reconciler_ v).

End Sim.
