(* ===== verification/AwsSpec.v ===== *)
(** * Choosing VPCs and subnets, comparing tags

    Functional correctness of the pure loops behind the AWS client: which VPC
    [SelectVPCForVPCEndpoint] picks, when subnets have a common VPC, which of the
    discovered subnets are expected, and what [tagsContains] decides. *)
From S2P Require Import Prelude GoError Naming Types Calls.
From S2P Require Import GoMonad AwsClient Controller Helpers Sim.
Import Naming AWSClient Helpers.

Module AwsSpec.

(** ** The VPC with the fewest endpoints *)

Definition occurrences (v : string) (l : list string) : Z :=
  Z.of_nat (length (filter (fun x => x = v) l)).

(** The VPC ids of the endpoints on all pages. *)
Definition vpc_ids (pages : list (list ec2Types.VpcEndpoint)) : list (option string) :=
  ec2Types.vpce_VpcId <$> concat pages.

(** [m] after counting the endpoints in the VPCs [l]. *)
Definition counts (m m' : gmap string Z) (l : list string) : Prop :=
  (forall v, default 0%Z (m' !! v) = (default 0%Z (m !! v) + occurrences v l)%Z) /\
  (forall v, is_Some (m' !! v) <-> is_Some (m !! v) \/ v ∈ l).

Lemma counts_nil m : counts m m [].
Proof. split; intros v; [unfold occurrences; simpl; lia|set_solver]. Qed.

Lemma counts_cons m m' x l :
  counts (<[x := (default 0 (m !! x) + 1)%Z]> m) m' l -> counts m m' (x :: l).
Proof.
  intros [Hc Hd]. split; intros v.
  - rewrite Hc. unfold occurrences. rewrite filter_cons.
    destruct (decide (x = v)) as [->|Hne].
    + rewrite lookup_insert_eq. simpl. lia.
    + by rewrite lookup_insert_ne.
  - rewrite Hd, elem_of_cons. destruct (decide (x = v)) as [->|Hne].
    + rewrite lookup_insert_eq. naive_solver.
    + rewrite lookup_insert_ne by done. naive_solver.
Qed.

Lemma counts_app m m' m'' l l' : counts m m' l -> counts m' m'' l' -> counts m m'' (l ++ l').
Proof.
  intros [Hc Hd] [Hc' Hd']. split; intros v.
  - rewrite Hc', Hc. unfold occurrences. rewrite filter_app, length_app. lia.
  - rewrite Hd', Hd, elem_of_app. tauto.
Qed.

Lemma countPage_counts page m m' :
  countPage page m = Ok m' ->
  exists l, ec2Types.vpce_VpcId <$> page = Some <$> l /\ counts m m' l.
Proof.
  revert m. induction page as [|e page IH]; intros m; cbn [countPage].
  - intros [= <-]. exists []. split; [done|apply counts_nil].
  - destruct (ec2Types.vpce_VpcId e) as [id|] eqn:He; [|done]. cbn.
    intros (l & Hl & Hc)%IH. exists (id :: l). rewrite fmap_cons, He, Hl.
    split; [done|by apply counts_cons].
Qed.

Lemma countPages_counts pages m m' :
  countPages pages m = Ok m' ->
  exists ps l, pages = inr <$> ps /\ vpc_ids ps = Some <$> l /\ counts m m' l.
Proof.
  revert m. induction pages as [|[e|page] pages IH]; intros m; cbn [countPages]; [|done|].
  - intros [= <-]. exists [], []. split_and!; [done..|apply counts_nil].
  - destruct (countPage page m) as [m1|e|w|] eqn:Hp; try done. cbn.
    intros (ps & l & -> & Hl & Hc)%IH. apply countPage_counts in Hp as (l1 & Hl1 & Hc1).
    exists (page :: ps), (l1 ++ l). unfold vpc_ids in *. cbn.
    rewrite fmap_app, Hl1, Hl, fmap_app. split_and!; [done..|by eapply counts_app].
Qed.

(** The loop keeps the entry with the smallest count, or its start value when no count
    is below the start's. *)
Lemma selectMin_spec entries id0 c0 :
  (selectMin entries id0 c0 = id0 /\ forall u cu, (u, cu) ∈ entries -> (c0 <= cu)%Z) \/
  exists c, (selectMin entries id0 c0, c) ∈ entries /\ (c <= c0)%Z /\
    forall u cu, (u, cu) ∈ entries -> (c <= cu)%Z.
Proof.
  revert id0 c0.
  induction entries as [|[v c] entries IH]; intros id0 c0; cbn [selectMin].
  { left. split; [done|]. set_solver. }
  destruct (Z.ltb_spec c c0).
  - right. destruct (IH v c) as [[Heq Hmin]|(c' & Hin & Hle & Hmin)].
    + exists c. rewrite Heq. split_and!; [by left|lia|].
      intros u cu [[= -> ->]|Hin]%elem_of_cons; [lia|by eapply Hmin].
    + exists c'. split_and!; [by right|lia|].
      intros u cu [[= -> ->]|Hin']%elem_of_cons; [lia|by eapply Hmin].
  - destruct (IH id0 c0) as [[Heq Hmin]|(c' & Hin & Hle & Hmin)].
    + left. split; [done|]. intros u cu [[= -> ->]|Hin]%elem_of_cons; [lia|by eapply Hmin].
    + right. exists c'. split_and!; [by right|lia|].
      intros u cu [[= -> ->]|Hin']%elem_of_cons; [lia|by eapply Hmin].
Qed.

Lemma rangeMap_elem order m v c :
  valid_order order -> (v, c) ∈ rangeMap order m <-> m !! v = Some c.
Proof.
  intros Ho. unfold rangeMap. rewrite list_elem_of_fmap. split.
  - intros (k & [= -> ->] & Hk). apply (valid_order_elem _ _ _ Ho) in Hk.
    apply elem_of_dom in Hk as [c' Hc]. by rewrite Hc.
  - intros Hv. exists v. rewrite Hv. split; [done|].
    apply (valid_order_elem _ _ _ Ho), elem_of_dom. by exists c.
Qed.

Lemma zeros_lookup (ids : list string) v :
  (list_to_map ((fun id => (id, 0%Z)) <$> ids) : gmap string Z) !! v =
  if decide (v ∈ ids) then Some 0%Z else None.
Proof.
  induction ids as [|id ids IH]; cbn; [by rewrite lookup_empty|].
  destruct (decide (id = v)) as [->|Hne].
  - rewrite lookup_insert_eq, decide_True by set_solver. done.
  - rewrite lookup_insert_ne, IH by done. repeat case_decide; set_solver.
Qed.

(** The candidates are the given VPCs and those of the counted endpoints. *)
Lemma counted_min ids order m l v :
  valid_order order ->
  counts (list_to_map ((fun id => (id, 0%Z)) <$> ids)) m l ->
  selectMin (rangeMap order m) "" MaxInt = v -> v <> "" ->
  (v ∈ ids \/ v ∈ l) /\
  forall u, u ∈ ids \/ u ∈ l -> (occurrences v l <= occurrences u l)%Z.
Proof.
  intros Ho [Hc Hd] Hsel Hv.
  assert (Hm : forall u, default 0%Z (m !! u) = occurrences u l).
  { intros u. rewrite Hc, zeros_lookup. by case_decide. }
  assert (Hcand : forall u, is_Some (m !! u) <-> u ∈ ids \/ u ∈ l).
  { intros u. rewrite Hd, zeros_lookup. case_decide; naive_solver. }
  destruct (selectMin_spec (rangeMap order m) "" MaxInt) as [[Heq _]|(c & Hin & _ & Hmin)];
    [congruence|].
  rewrite Hsel in Hin. apply (rangeMap_elem _ _ _ _ Ho) in Hin.
  split; [apply Hcand; eauto|]. intros u Hu. apply Hcand in Hu as [cu Hu].
  rewrite <- !Hm, Hin, Hu. simpl. eapply Hmin. by apply rangeMap_elem.
Qed.

Section spec.
Context {W : Type} `{World W} {L : Type}.
Implicit Types s : Sys W L.

(** C37: [SelectVPCForVPCEndpoint] picks a VPC with the fewest endpoints, whatever
    the order in which Go iterates over the map: no candidate VPC (one of the given
    ids, or the VPC of a listed endpoint) has fewer endpoints in AWS's answer than
    the VPC returned, which is a candidate itself. *)
Theorem selected_vpc_has_fewest_endpoints c ids s s' v :
  (forall (w w' : W) o, handle RangeOrder w = (w', inr o) -> valid_order o) ->
  SelectVPCForVPCEndpoint c ids s = (Ok v, s') ->
  exists cfg pages l,
    Ev (EC2 cfg (DescribeVpcEndpointsPages [filter_by "vpc-id" ids])) (inr (inr <$> pages))
      ∈ trace s' /\
    vpc_ids pages = Some <$> l /\ (v ∈ ids \/ v ∈ l) /\
    forall u, u ∈ ids \/ u ∈ l -> (occurrences v l <= occurrences u l)%Z.
Proof.
  intros Hrange Hrun.
  enough (Hwp : wp (SelectVPCForVPCEndpoint c ids) (fun o s' => forall v, o = Ok v ->
    exists cfg pages l,
    Ev (EC2 cfg (DescribeVpcEndpointsPages [filter_by "vpc-id" ids])) (inr (inr <$> pages))
      ∈ trace s' /\
    vpc_ids pages = Some <$> l /\ (v ∈ ids \/ v ∈ l) /\
    forall u, u ∈ ids \/ u ∈ l -> (occurrences v l <= occurrences u l)%Z) s).
  { unfold wp in Hwp. rewrite Hrun in Hwp. by apply Hwp. }
  unfold SelectVPCForVPCEndpoint. destruct ids as [|id ids']; [by wp_step|].
  set (ids := id :: ids'). cbv zeta. wp_step. unfold ec2.
  destruct c as [cfg|]; [|by wp_step].
  apply wp_trigger. intros w1 [e|pages] _; cbn -[ids]; [done|]. do 2 wp_step.
  destruct (countPages pages _) as [m|e|w|] eqn:Hcount; cbn -[ids]; try done.
  apply countPages_counts in Hcount as (ps & l & -> & Hl & Hm).
  wp_step. apply wp_trigger. cbn -[ids]. intros w2 [e|o] Ho; cbn -[ids]; [done|].
  apply Hrange in Ho. destruct (is_empty _) eqn:Hempty; wp_step; [done|].
  intros u [= Hu]. exists cfg, ps, l. split.
  - cbn. rewrite !elem_of_app. left. right. by left.
  - split; [done|]. eapply counted_min; [exact Ho|exact Hm|exact Hu|].
    apply is_empty_false in Hempty. congruence.
Qed.

(** ** The VPC of a list of subnets *)

Lemma sameVpc_true vpcId subnets :
  sameVpc vpcId subnets = Ok true <-> Forall (fun sn => ec2Types.subnet_VpcId sn = Some vpcId) subnets.
Proof.
  induction subnets as [|sn subnets IH]; cbn [sameVpc]; [by split|].
  rewrite Forall_cons. destruct (ec2Types.subnet_VpcId sn) as [v|]; cbn; [|naive_solver].
  destruct (String.eqb_spec v vpcId) as [->|Hne]; [rewrite IH|]; naive_solver.
Qed.

(** [GetVPCId] returns a VPC exactly when subnets were asked for and AWS
    describes at least one, all of them in that VPC. *)
Theorem GetVPCId_iff cfg subnetIds subnets s w' vpcId :
  handle (EC2 cfg (DescribeSubnets [] subnetIds)) (world s) = (w', inr subnets) ->
  (GetVPCId (Some cfg) subnetIds s).1 = Ok vpcId <->
  subnetIds <> [] /\ subnets <> [] /\
  Forall (fun sn => ec2Types.subnet_VpcId sn = Some vpcId) subnets.
Proof.
  intros Hh. unfold GetVPCId. destruct subnetIds as [|id ids]; [naive_solver|].
  unfold wrap, ec2, bind, try, trigger. rewrite Hh. cbn [of_answer ret lift fst].
  destruct subnets as [|sn subnets]; [naive_solver|].
  destruct (ec2Types.subnet_VpcId sn) as [v|] eqn:Hsn; cbn [deref lift].
  2:{ split; [done|]. intros (_ & _ & [Hv _]%Forall_cons). congruence. }
  unfold lift. destruct (sameVpc v (sn :: subnets)) as [[]|e|w|] eqn:Hsame; cbn [fst].
  1: { apply sameVpc_true in Hsame. split; [intros [= <-]; done|].
       intros (_ & _ & [Hv _]%Forall_cons). simpl; congruence. }
  all: split; [done|]; intros (_ & _ & Hall).
  all: assert (v = vpcId) as -> by (apply Forall_cons in Hall as [? _]; congruence).
  all: apply sameVpc_true in Hall; congruence.
Qed.
End spec.

(** ** Expected subnets *)

Definition subnet_wf (sn : ec2Types.Subnet) : Prop :=
  is_Some (ec2Types.SubnetId sn) /\ is_Some (ec2Types.subnet_VpcId sn) /\
  is_Some (ec2Types.AvailabilityZone sn).

(** In a zone of the service, and in the VPC of the status when there is one. *)
Definition subnet_fits (vpcId : string) (azs : list string) (sn : ec2Types.Subnet) : Prop :=
  (exists az, ec2Types.AvailabilityZone sn = Some az /\ az ∈ azs) /\
  (vpcId <> "" -> ec2Types.subnet_VpcId sn = Some vpcId).

Lemma subnetSelected_spec vpcId azs sn :
  subnet_wf sn ->
  exists ids, subnetSelected vpcId azs sn = Ok ids /\
    forall id, id ∈ ids <-> ec2Types.SubnetId sn = Some id /\ subnet_fits vpcId azs sn.
Proof.
  intros ([sid Hs] & [vid Hv] & [az Ha]). unfold subnet_fits.
  induction azs as [|az' azs IH]; cbn [subnetSelected].
  { exists []. split; [done|]. intros id. split; [set_solver|].
    intros (_ & (az' & _ & Hin) & _). set_solver. }
  rewrite Ha, Hs, Hv in *. cbn [deref obind].
  destruct (String.eqb_spec az az') as [<-|Hne].
  - destruct (is_empty vpcId) eqn:He; cbn [negb].
    + apply is_empty_spec in He as ->. exists [sid]. split; [done|]. intros id.
      rewrite list_elem_of_singleton. split; [intros ->|naive_solver].
      split; [done|]. split; [|done]. exists az. split; [done|by left].
    + apply is_empty_false in He. destruct (String.eqb_spec vid vpcId) as [->|Hvne].
      * exists [sid]. split; [done|]. intros id. rewrite list_elem_of_singleton.
        split; [intros ->|naive_solver]. split; [done|]. split; [|done].
        exists az. split; [done|by left].
      * exists []. split; [done|]. intros id. split; [set_solver|]. naive_solver.
  - destruct IH as (ids & -> & Hids). exists ids. split; [done|]. intros id.
    rewrite Hids. setoid_rewrite elem_of_cons. naive_solver.
Qed.

(** Of the discovered subnets, [ensureVpcEndpointSubnets] expects exactly those
    in an availability zone of the service and, once the status has a VPC, in that
    VPC. *)
Theorem expected_subnets_fit vpcId azs subnets :
  Forall subnet_wf subnets ->
  exists ids, selectSubnets vpcId azs subnets = Ok ids /\
    forall id, id ∈ ids <->
      exists sn, sn ∈ subnets /\ ec2Types.SubnetId sn = Some id /\ subnet_fits vpcId azs sn.
Proof.
  induction 1 as [|sn subnets Hwf _ IH]; cbn [selectSubnets].
  { exists []. split; [done|]. set_solver. }
  destruct (subnetSelected_spec vpcId azs sn Hwf) as (ids & -> & Hids).
  destruct IH as (ids' & -> & Hids'). exists (ids ++ ids'). split; [done|].
  intros id. rewrite elem_of_app, Hids, Hids'. setoid_rewrite elem_of_cons. naive_solver.
Qed.

(** ** Tags *)

Definition tag_wf (t : AwsTag) : Prop := is_Some (tag_Key t) /\ is_Some (tag_Value t).

Lemma hasTag_spec tags k v :
  Forall tag_wf tags ->
  hasTag tags k v = Ok (bool_decide (mkAwsTag (Some k) (Some v) ∈ tags)).
Proof.
  induction 1 as [|[tk tv] tags [[k' Hk] [v' Hv]] _ IH]; cbn [hasTag].
  { by rewrite bool_decide_eq_false_2 by set_solver. }
  simpl in Hk, Hv. subst tk tv. cbn. rewrite IH.
  destruct (String.eqb_spec k' k) as [->|Hk]; [destruct (String.eqb_spec v' v) as [->|Hv]|].
  - by rewrite bool_decide_eq_true_2 by by left.
  - f_equal. apply bool_decide_ext. rewrite elem_of_cons. naive_solver.
  - f_equal. apply bool_decide_ext. rewrite elem_of_cons. naive_solver.
Qed.

Lemma hasTags_spec tags entries :
  Forall tag_wf tags ->
  hasTags tags entries =
    Ok (bool_decide (Forall (fun e => mkAwsTag (Some e.1) (Some e.2) ∈ tags) entries)).
Proof.
  intros Hwf. induction entries as [|[k v] entries IH]; cbn [hasTags].
  { by rewrite bool_decide_eq_true_2. }
  rewrite hasTag_spec by done. cbn [obind].
  destruct (decide (mkAwsTag (Some k) (Some v) ∈ tags)) as [Hin|Hin].
  - rewrite (bool_decide_eq_true_2 _ Hin), IH. f_equal. apply bool_decide_ext. rewrite Forall_cons. tauto.
  - rewrite (bool_decide_eq_false_2 _ Hin), bool_decide_eq_false_2; [done|].
    by intros [? _]%Forall_cons.
Qed.

(** [tagsContains] decides, for every iteration order of the map and without a
    panic on the tags AWS returns, whether each wanted key is among the tags with
    exactly the wanted value. *)
Theorem tagsContains_correct order tags (wanted : gmap string string) :
  valid_order order -> Forall tag_wf tags ->
  exists b, tagsContains order tags wanted = Ok b /\
    (b = true <-> forall k v, wanted !! k = Some v -> mkAwsTag (Some k) (Some v) ∈ tags).
Proof.
  intros Ho Hwf. unfold tagsContains. rewrite hasTags_spec by done.
  eexists. split; [done|]. rewrite bool_decide_eq_true, Forall_fmap, Forall_forall. simpl.
  split.
  - intros Hall k v Hk. specialize (Hall k). simpl in Hall. rewrite Hk in Hall. apply Hall.
    apply (valid_order_elem _ _ _ Ho), elem_of_dom. eauto.
  - intros Hall k Hk%(valid_order_elem _ _ _ Ho). simpl.
    apply elem_of_dom in Hk as [v Hv]. rewrite Hv. by apply Hall.
Qed.

(** ** Examples *)

#[local] Existing Instances K8sRef.helpers Sim.world.

Definition start : Sys Sim.State unit := mkSys Sim.state [] tt.

Lemma selected_vpc_has_fewest_endpoints_witness :
  exists cfg pages l,
    Ev (EC2 cfg (DescribeVpcEndpointsPages [filter_by "vpc-id" ["vpc-1"; "vpc-2"]]))
      (inr (inr <$> pages)) ∈ trace (SelectVPCForVPCEndpoint (Some Sim.cfg) ["vpc-1"; "vpc-2"] start).2 /\
    vpc_ids pages = Some <$> l /\ ("vpc-2" ∈ ["vpc-1"; "vpc-2"] \/ "vpc-2" ∈ l) /\
    forall u, u ∈ ["vpc-1"; "vpc-2"] \/ u ∈ l -> (occurrences "vpc-2" l <= occurrences u l)%Z.
Proof.
  apply (selected_vpc_has_fewest_endpoints (Some Sim.cfg) ["vpc-1"; "vpc-2"] start).
  - intros w w' o [= _ <-]. apply valid_order_elements.
  - vm_compute. reflexivity.
Defined.

Lemma GetVPCId_iff_witness :
  (GetVPCId (Some Sim.cfg) ["subnet-1"] start).1 = Ok "vpc-1" <->
  ["subnet-1"] <> [] /\ Sim.subnets Sim.state <> [] /\
  Forall (fun sn => ec2Types.subnet_VpcId sn = Some "vpc-1") (Sim.subnets Sim.state).
Proof.
  apply (GetVPCId_iff Sim.cfg ["subnet-1"] (Sim.subnets Sim.state) start Sim.state "vpc-1").
  reflexivity.
Defined.

Lemma expected_subnets_fit_witness :
  exists ids, selectSubnets "vpc-1" ["us-east-1a"] (Sim.subnets Sim.state) = Ok ids /\
    forall id, id ∈ ids <->
      exists sn, sn ∈ Sim.subnets Sim.state /\ ec2Types.SubnetId sn = Some id /\
        subnet_fits "vpc-1" ["us-east-1a"] sn.
Proof.
  apply (expected_subnets_fit "vpc-1" ["us-east-1a"] (Sim.subnets Sim.state)).
  repeat constructor; eexists; reflexivity.
Defined.

Lemma tagsContains_correct_witness :
  exists b, tagsContains elements [mkAwsTag (Some "a") (Some "1"); mkAwsTag (Some "b") (Some "2")]
      {[ "a" := "1" ]} = Ok b /\
    (b = true <-> forall k v, ({[ "a" := "1" ]} : gmap string string) !! k = Some v ->
       mkAwsTag (Some k) (Some v) ∈
         [mkAwsTag (Some "a") (Some "1"); mkAwsTag (Some "b") (Some "2")]).
Proof.
  apply (tagsContains_correct elements
           [mkAwsTag (Some "a") (Some "1"); mkAwsTag (Some "b") (Some "2")] {[ "a" := "1" ]}).
  - apply valid_order_elements.
  - repeat constructor; eexists; reflexivity.
Defined.
End AwsSpec.
