(* ===== verification/HelpersSpec.v ===== *)
(** * What [parseClusterInfo] establishes

    The facts about the cluster that the rest of a reconcile relies on, and the
    two helpers with a surprising branch. *)
From S2P Require Import Prelude GoError Naming Types Calls GoMonad AwsClient.
From S2P Require Import Lookups Controller Helpers HostedZones Validation Sim.
Import avov1alpha2 Naming Helpers HostedZones Validation.

Module HelpersSpec.

Section spec.
Context {W : Type} `{World W} `{K8sHelpers}.
Implicit Types s : Sys W Mem.

(** The infra id is known, and the cluster tag is the one made from it. *)
Definition tagged (m : Mem) : Prop :=
  InfraId (status (resource m)) <> "" /\
  exists r, clusterInfo_ (reconciler m) =
    Some (mkClusterInfo (LegacyClusterTagPrefix +:+ "/" +:+ InfraId (status (resource m))) r).

Definition has_service (m : Mem) : Prop :=
  tagged m /\ VPCEndpointServiceName (status (resource m)) <> "".

Definition has_client (m : Mem) : Prop :=
  has_service m /\ awsClient (reconciler m) <> None.

Definition any_call : call_pred := fun _ _ => True.

Lemma setRegion_emits (Inv : Mem -> Prop) x :
  (forall m t r, Inv m -> clusterInfo_ (reconciler m) = Some (mkClusterInfo t r) ->
     Inv (on_reconciler (set_clusterInfo (Some (mkClusterInfo t x))) m)) ->
  respects (emits (W:=W) any_call Inv) (setRegion x).
Proof.
  intros HInv s Hs. unfold setRegion, get_clusterInfo, bind, gets, lift, modify.
  destruct (clusterInfo_ (reconciler (local s))) as [[t r]|] eqn:E; simpl;
    (split; [by eauto|]); exists []; by rewrite app_nil_r.
Qed.

Lemma setRegion_has_service x : respects (emits (W:=W) any_call has_service) (setRegion x).
Proof.
  apply setRegion_emits. intros m t r [[Hi [r' Hc]] Hs] E.
  rewrite Hc in E. simplify_eq. split; [|exact Hs]. split; [exact Hi|]. by exists x.
Qed.
#[local] Hint Resolve setRegion_has_service : respects.

Lemma recordRegion_keeps : respects (emits (W:=W) any_call has_service) recordRegion.
Proof. go_respects. Qed.

Lemma setClusterTag_wp i (Q : outcome unit -> Sys W Mem -> Prop) s :
  i <> "" -> InfraId (status (resource (local s))) = i ->
  (forall s', tagged (local s') -> Q (Ok tt) s') -> (forall w s', Q (Panic w) s') ->
  wp (setClusterTag (LegacyClusterTagPrefix +:+ "/" +:+ i)) Q s.
Proof.
  intros Hi Hs HQ HP. unfold setClusterTag, get_clusterInfo. repeat wp_step.
  destruct (clusterInfo_ _) as [[t r]|]; cbn [deref]; repeat wp_step; [|apply HP].
  apply HQ. split; cbn; rewrite Hs; [done|by eexists].
Qed.

(** A service name was found, or one was recorded before. *)
Lemma getVpcEndpointServiceName_wp s :
  tagged (local s) ->
  wp getVpcEndpointServiceName (fun o s' => o = Ok tt -> has_service (local s')) s.
Proof.
  intros Ht. unfold getVpcEndpointServiceName, res. do 2 wp_step. cbn [continue]. wp_step.
  set (find := if negb _ then _ else _).
  assert (Hfind : wp find (fun o s' => tagged (local s') /\ (forall a, o = Ok a ->
    match a with
    | None => VPCEndpointServiceName (status (resource (local s'))) <> ""
    | Some _ => True end)) s).
  { unfold find. destruct (negb _); [wp_step; split; [exact Ht|by intros a [= <-]]|].
    destruct (ServiceNameRef _) as [ref|]; cbn [deref]; repeat wp_step; [|by split].
    destruct (negb _); [wp_step; split; [exact Ht|by intros a [= <-]]|].
    destruct (sn_ValueFrom ref) as [vf|]; cbn [deref]; repeat wp_step; [|by split].
    destruct (AwsEndpointServiceRef vf) as [aes|]; cbn [deref]; repeat wp_step; [|by split].
    destruct (negb _); [|wp_step; split; [exact Ht|by intros a [= <-]]]. repeat wp_step. apply wp_trigger.
    intros w' [e|n] _; cbn; [|wp_step; split; [exact Ht|by intros a [= <-]]].
    destruct (is_empty _) eqn:He; repeat wp_step; [by split|]. breflect.
    split; [exact Ht|]. by intros a [= <-]. }
  eapply wp_mono; [exact Hfind|]. intros [[name|]|e|w|] s1 [Ht1 H1]; cbn [continue]; try done.
  2:{ wp_step. intros _. split; [exact Ht1|]. by apply (H1 None). }
  destruct (is_empty name) eqn:He; [by wp_step|]. breflect.
  unfold modify_status, statusUpdate, res. repeat wp_step. apply wp_trigger. cbn.
  intros w' [e|rv] _; cbn; [done|]. repeat wp_step. intros _. by split.
Qed.

Lemma establishClient_wp s :
  has_service (local s) ->
  wp (establishClient true) (fun o s' => o = Ok tt -> has_client (local s')) s.
Proof.
  intros Hs. unfold establishClient, res, get_clusterInfo. repeat wp_step.
  destruct (clusterInfo_ _) as [ci|]; cbn [deref]; repeat wp_step; [|done].
  destruct (AWSCredentialOverrideRef _) as [ref|].
  - wp_step. eapply (wp_emits any_call has_service); [go_respects|exact Hs|].
    by intros [cfg|e|w|] l s1 _ _ Hs1.
  - wp_step. apply wp_trigger. intros w' [e|cfg] _; cbn; [done|]. wp_step. intros _. by split.
Qed.

Lemma chooseVpc_keeps :
  respects (emits (W:=W) any_call has_client)
    (st <- res_status;;
     if is_empty (VPCId st) then
       vpcId <- chooseVpc;;
       modify_status (set_VPCId vpcId);;
       wrap "failed to update status: " statusUpdate
     else ret tt)%go.
Proof. go_respects. Qed.

(** What the rest of a reconcile takes for granted: when [parseClusterInfo]
    succeeds, the status has an infra id and a service name, the cluster tag is
    the legacy tag of that infra id, and there is an AWS client. *)
Theorem parseClusterInfo_establishes s s' :
  parseClusterInfo true s = (Ok tt, s') ->
  InfraId (status (resource (local s'))) <> "" /\
  VPCEndpointServiceName (status (resource (local s'))) <> "" /\
  awsClient (reconciler (local s')) <> None /\
  exists ci, clusterInfo_ (reconciler (local s')) = Some ci /\
    GetClusterLegacyTagKey (InfraId (status (resource (local s')))) = Ok (clusterTag ci).
Proof.
  intros Hrun.
  enough (Hwp : wp (parseClusterInfo true) (fun o s' => o = Ok tt -> has_client (local s')) s).
  { unfold wp in Hwp. rewrite Hrun in Hwp. cbn [fst snd] in Hwp.
    destruct (Hwp eq_refl) as [[[Hi [r Hc]] Hs] Ha]. split_and!; [done..|].
    eexists. split; [exact Hc|]. unfold GetClusterLegacyTagKey.
    by apply is_empty_false in Hi as ->. }
  unfold parseClusterInfo, res. repeat wp_step. cbn beta.
  apply wp_any. intros [[]|e|w|] s1; cbn [continue]; try done.
  unfold res_status. repeat wp_step.
  unfold GetClusterLegacyTagKey. destruct (is_empty _) eqn:Hi; cbn [continue]; [done|]. breflect.
  wp_step. apply (setClusterTag_wp _ _ _ Hi eq_refl); [|done].
  intros s2 Hs2. cbn [continue]. wp_step.
  eapply wp_mono; [by apply getVpcEndpointServiceName_wp|].
  intros [[]|e|w|] s3 Hs3; cbn [continue]; try done. specialize (Hs3 eq_refl).
  wp_step. eapply wp_emits; [apply recordRegion_keeps|exact Hs3|].
  intros [[]|e|w|] l s4 _ _ Hs4; cbn [continue]; try done. wp_step.
  eapply wp_mono; [by apply establishClient_wp|].
  intros [[]|e|w|] s5 Hs5; cbn [continue]; try done. specialize (Hs5 eq_refl).
  eapply wp_emits; [apply chooseVpc_keeps|exact Hs5|]. done.
Qed.

(** A spec that gives a service name in none of the three ways makes the
    reconcile panic: with an empty [serviceName] and no [serviceNameRef], or a
    [serviceNameRef] without name and source, [getVpcEndpointServiceName]
    dereferences a nil pointer before it can report the empty name. *)
Theorem missing_service_name_panics s :
  ServiceName (Spec (resource (local s))) = "" ->
  match ServiceNameRef (Spec (resource (local s))) with
  | None => True
  | Some ref => sn_Name ref = "" /\
      match sn_ValueFrom ref with
      | None => True
      | Some valueFrom => AwsEndpointServiceRef valueFrom = None
      end
  end ->
  getVpcEndpointServiceName s = (Panic "nil pointer dereference", s).
Proof.
  intros Hname Href. unfold getVpcEndpointServiceName, res, bind, gets, lift. rewrite Hname. cbn.
  destruct (ServiceNameRef _) as [ref|]; [|done]. destruct Href as [Hn Hv]. cbn. rewrite Hn. cbn.
  destruct (sn_ValueFrom ref) as [valueFrom|]; [|done]. cbn. by rewrite Hv.
Qed.

(** A service that already has the expected external name is left alone, and so
    is the condition ExternalNameServiceReady: if an earlier error made it false,
    it stays false although the service is as expected. *)
Theorem matching_service_keeps_condition s w1 w2 expected found :
  let v := resource (local s) in
  Hostname (Record_ (phz_spec v)) <> "" -> externalNameServiceName v <> "" ->
  ResourceRecordSet (status v) <> "" ->
  handle (Kube (SetControllerReference (metav1.Namespace (meta v)) (metav1.Name (meta v))
    (corev1.mkService (externalNameServiceName v) (metav1.Namespace (meta v)) None
       corev1.ServiceTypeExternalName (ResourceRecordSet (status v)) ""))) (world s)
    = (w1, inr expected) ->
  handle (Kube (GetService (metav1.Namespace (meta v)) (externalNameServiceName v))) w1
    = (w2, inr found) ->
  corev1.ExternalName found = corev1.ExternalName expected ->
  let '(o, s') := validateExternalNameService resource_ptr_ s in
  o = Ok tt /\ local s' = local s.
Proof.
  cbv zeta. intros Hh%is_empty_false Hn%is_empty_false Hr%is_empty_false Hset Hget Heq.
  unfold validateExternalNameService, generateExternalNameService, res, bind, gets. cbn.
  rewrite Hh, Hn. cbn. rewrite Hr. cbn. unfold trigger. rewrite Hset. cbn. unfold try, after. cbn. rewrite Hget. cbn.
  by rewrite Heq, String.eqb_refl.
Qed.
End spec.

(** ** Examples *)

#[local] Existing Instances K8sRef.helpers Sim.world.

Definition svc_zone : Route53PrivateHostedZone :=
  mkRoute53PrivateHostedZone false [] "example.com" None ""
    (mkRoute53HostedZoneRecord "api" (mkExternalNameService "svc")).

Definition svc_obj : VpcEndpoint :=
  Sim.object None [] (Sim.spec svc_zone)
    (Sim.status_ "vpce-1" "sg-1" "Z1" "api.example.com"
       [metav1.mkCondition ExternalNameServiceCondition metav1.ConditionFalse "UnknownError" ""]).

Definition start : Sys Sim.State Mem := Sim.sys Sim.state svc_obj.

Lemma parseClusterInfo_establishes_witness :
  let s' := (parseClusterInfo true start).2 in
  InfraId (status (resource (local s'))) <> "" /\
  VPCEndpointServiceName (status (resource (local s'))) <> "" /\
  awsClient (reconciler (local s')) <> None /\
  exists ci, clusterInfo_ (reconciler (local s')) = Some ci /\
    GetClusterLegacyTagKey (InfraId (status (resource (local s')))) = Ok (clusterTag ci).
Proof.
  apply (parseClusterInfo_establishes start). vm_compute. reflexivity.
Defined.

Definition nameless_obj : VpcEndpoint :=
  mkVpcEndpoint (meta svc_obj) VpcEndpointSpec_zero (status svc_obj).

Lemma missing_service_name_panics_witness :
  getVpcEndpointServiceName (Sim.sys Sim.state nameless_obj) =
  (Panic "nil pointer dereference", Sim.sys Sim.state nameless_obj).
Proof.
  apply (missing_service_name_panics (Sim.sys Sim.state nameless_obj)); [reflexivity|exact I].
Defined.

Lemma matching_service_keeps_condition_witness :
  let '(o, s') := validateExternalNameService resource_ptr_ start in
  o = Ok tt /\ local s' = local start.
Proof.
  apply (matching_service_keeps_condition start Sim.state Sim.state
    (corev1.mkService "svc" "ns" (Some ("ns", "example")) corev1.ServiceTypeExternalName
       "api.example.com" "")
    (corev1.mkService "svc" "ns" None corev1.ServiceTypeExternalName "api.example.com" "1"));
    (discriminate || reflexivity).
Defined.
End HelpersSpec.
