(* ===== verification/HostedZoneSpec.v ===== *)
(** * Hosted zones and records: what is cached, created and deleted

    The invariant of the hosted zone cache over a whole reconcile, that a zone is
    created only when none exists for the domain, that an upserted record is
    recorded in the status, and that a deletion removes only the recorded one. *)
From S2P Require Import Prelude GoError Naming Types Calls GoMonad AwsClient Lookups.
From S2P Require Import Controller Helpers HostedZones Validation Cleanup Reconcile Sim.
Import avov1alpha2 Naming Helpers HostedZones Validation Cleanup Reconcile.

Module HostedZoneSpec.

Section spec.
Context {W : Type} `{World W} `{K8sHelpers}.
Implicit Types s : Sys W Mem.

(** ** The cache *)

Definition cache_of (m : Mem) : gmap string hostedZoneCacheEntry :=
  default ∅ (hostedZoneCache (reconciler m)).

(** AWS answered a query for the zone [id] with [resp]. *)
Definition answered (id : string) (resp : route53Types.GetHostedZoneOutput)
    (l : list event) : Prop :=
  exists cfg, Ev (R53 cfg (Calls.GetHostedZone ("/hostedzone/" +:+ id))) (inr resp) ∈ l.

(** Every entry is an answer of AWS for its key. *)
Definition cache_ok s : Prop :=
  forall id entry, cache_of (local s) !! id = Some entry -> answered id (response entry) (trace s).

Definition keeps_cache : relation (Sys W Mem) := fun s s' =>
  trace s `prefix_of` trace s' /\ (cache_ok s -> cache_ok s').

#[local] Instance keeps_cache_preorder : PreOrder keeps_cache.
Proof.
  split.
  - intros s. split; [done|auto].
  - intros s1 s2 s3 [? ?] [? ?]. split; [by etransitivity|auto].
Qed.

Lemma answered_prefix id resp l l' : l `prefix_of` l' -> answered id resp l -> answered id resp l'.
Proof. intros [k ->] [cfg Hin]. exists cfg. set_solver. Qed.

Lemma keeps_cache_same s s' :
  trace s `prefix_of` trace s' -> cache_of (local s') ⊆ cache_of (local s) -> keeps_cache s s'.
Proof.
  intros Ht Hc. split; [done|]. intros Hok id entry He.
  eapply answered_prefix; [exact Ht|]. apply Hok. by eapply lookup_weaken.
Qed.

Lemma keeps_cache_trigger {R} (c : call R) : respects keeps_cache (trigger c).
Proof.
  intros s. unfold trigger. destruct (handle c (world s)) as [w' r]. simpl.
  apply keeps_cache_same; [by apply prefix_app_r|done].
Qed.

Lemma keeps_cache_modify (f : Mem -> Mem) :
  (forall m, cache_of (f m) ⊆ cache_of m) -> respects keeps_cache (modify f).
Proof. intros Hf s. apply keeps_cache_same; [done|apply Hf]. Qed.

Lemma keeps_cache_fire c : respects keeps_cache (fire c).
Proof.
  apply respects_bind; [apply _|apply respects_try, keeps_cache_trigger|].
  intros r. apply respects_ret, _.
Qed.

#[local] Hint Resolve keeps_cache_trigger keeps_cache_fire : respects.
#[local] Hint Extern 1 (respects keeps_cache (modify _)) =>
  apply keeps_cache_modify; intros ?; reflexivity : respects.

(** The part of [getHostedZoneCached] behind a miss. *)
Definition fetchZone (id : string) : M W Mem route53Types.GetHostedZoneOutput :=
  (c <- client;;
   resp <- AWSClient.GetHostedZone c id;;
   now <- trigger Now;;
   cache <- get_cache;;
   set_cache (<[id := mkHostedZoneCacheEntry resp now]> cache);;
   ret resp)%go.

(** The result is an answer of AWS, and the cache stays one of answers. *)
Definition yields_answer (id : string) s
    (o : outcome route53Types.GetHostedZoneOutput) s' : Prop :=
  trace s `prefix_of` trace s' /\
  (cache_ok s -> cache_ok s' /\ forall resp, o = Ok resp -> answered id resp (trace s')).

Lemma yields_answer_weaken id s0 s1 o s' :
  keeps_cache s0 s1 -> yields_answer id s1 o s' -> yields_answer id s0 o s'.
Proof.
  intros [Ht Hc] [Ht' Hc']. split; [by etransitivity|]. auto.
Qed.

(** No result: nothing is promised but the invariant. *)
Lemma yields_answer_fail id s o s' :
  keeps_cache s s' -> (forall resp, o <> Ok resp) -> yields_answer id s o s'.
Proof. intros [Ht Hc] Ho. split; [done|]. intros Hok. split; [auto|]. by intros resp ?%Ho. Qed.

Lemma fetchZone_wp id s : wp (fetchZone id) (yields_answer id s) s.
Proof.
  unfold fetchZone, client. repeat wp_step.
  unfold AWSClient.GetHostedZone, AWSClient.r53.
  destruct (awsClient _) as [cfg|]; [|wp_step; by apply yields_answer_fail].
  pose proof (keeps_cache_trigger (R53 cfg (Calls.GetHostedZone ("/hostedzone/" +:+ id))) s) as K1.
  unfold trigger in K1. apply wp_trigger. intros w1 r1 E1. rewrite E1 in K1. cbn in K1.
  destruct r1 as [e|resp]; cbn; [by apply yields_answer_fail|].
  set (s1 := after s _ w1 _) in *. wp_step.
  pose proof (keeps_cache_trigger Now s1) as K2. unfold trigger in K2.
  apply wp_trigger. intros w2 r2 E2. rewrite E2 in K2. cbn in K2.
  assert (K : keeps_cache s (after s1 Now w2 r2)) by by etransitivity.
  destruct r2 as [e|now]; cbn; [by apply yields_answer_fail|].
  unfold get_cache, set_cache. repeat wp_step.
  assert (Hans : answered id resp (trace (after s1 Now w2 (inr now)))).
  { exists cfg. cbn. rewrite !elem_of_app. left. right. by left. }
  destruct K as [Kt Kc]. split; [exact Kt|]. intros Hok.
  split; [|by intros ? [= <-]].
  intros id' entry. unfold cache_of. cbn. rewrite lookup_insert_Some.
  intros [[<- <-]|[_ He]]; [exact Hans|]. exact (Kc Hok id' entry He).
Qed.

Lemma getHostedZoneCached_wp id s : wp (getHostedZoneCached id) (yields_answer id s) s.
Proof.
  unfold getHostedZoneCached, cacheLookup, get_cache, set_cache. repeat wp_step. cbn.
  set (cache := default ∅ (hostedZoneCache (reconciler (local s)))).
  set (s1 := mkSys (world s) (trace s) _).
  assert (K1 : keeps_cache s s1) by by apply keeps_cache_same.
  destruct (cache !! id) as [entry|] eqn:He.
  2:{ wp_step. change (wp (fetchZone id) (yields_answer id s) s1).
      eapply wp_mono; [apply fetchZone_wp|]. intros o s'. by apply yields_answer_weaken. }
  unfold since. repeat wp_step.
  pose proof (keeps_cache_trigger Now s1) as K2. unfold trigger in K2.
  apply wp_trigger. intros w2 r2 E2. rewrite E2 in K2. cbn in K2.
  assert (K : keeps_cache s (after s1 Now w2 r2)) by by etransitivity.
  destruct r2 as [e|now]; cbn; [by apply yields_answer_fail|].
  wp_step. cbn [continue]. destruct (_ <? _)%Z.
  - repeat wp_step. split; [apply K|]. intros Hok. split; [by apply K|]. intros resp [= <-].
    eapply answered_prefix; [apply K|]. by apply Hok.
  - do 2 wp_step. cbn [continue]. wp_step.
    set (s3 := mkSys _ _ _). change (wp (fetchZone id) (yields_answer id s) s3).
    eapply wp_mono; [apply fetchZone_wp|]. intros o s'. apply yields_answer_weaken.
    etransitivity; [exact K|]. apply keeps_cache_same; [done|]. apply delete_subseteq.
Qed.

Lemma getHostedZoneCached_keeps id : respects keeps_cache (getHostedZoneCached id).
Proof.
  intros s. destruct (getHostedZoneCached_wp id s) as [Ht Hc]. split; [done|].
  intros Hok. by apply Hc.
Qed.

Lemma invalidate_keeps id : respects keeps_cache (invalidateHostedZoneCache id).
Proof.
  intros s. unfold invalidateHostedZoneCache, set_cache, bind, gets, modify.
  destruct (hostedZoneCache (reconciler (local s))) as [cache|] eqn:E; [|done]. simpl.
  apply keeps_cache_same; [done|]. unfold cache_of. simpl. rewrite E. apply delete_subseteq.
Qed.

Lemma pollDeleted_keeps fuel deadline id :
  respects keeps_cache (pollDeleted (W:=W) fuel deadline id).
Proof. induction fuel as [|fuel IH]; cbn [pollDeleted]; go_respects. Qed.

#[local] Hint Resolve getHostedZoneCached_keeps invalidate_keeps pollDeleted_keeps : respects.

(** C36: the hosted zone cache only ever holds answers of AWS. If every entry is an
    answer AWS gave for the entry's zone id, then a whole reconcile keeps it so,
    and every zone that [getHostedZoneCached] returns is an answer AWS gave for
    the id that was asked for. *)
Theorem cache_holds_answers s namespace name id :
  cache_ok s ->
  cache_ok (Reconcile namespace name s).2 /\
  cache_ok (getHostedZoneCached id s).2 /\
  (forall resp, (getHostedZoneCached id s).1 = Ok resp ->
     answered id resp (trace (getHostedZoneCached id s).2)).
Proof.
  intros Hok. split.
  - assert (Hr : respects keeps_cache (Reconcile namespace name)) by go_respects.
    by apply Hr.
  - destruct (getHostedZoneCached_wp id s) as [_ Hc]. by apply Hc.
Qed.

(** Within two minutes the cached answer is returned without a Route 53 call,
    and without looking at the client: an entry another reconcile made, for
    another object with other credentials, is served all the same. *)
Theorem fresh_zone_is_reused s id entry t w' :
  cache_of (local s) !! id = Some entry ->
  handle Now (world s) = (w', inr t) -> (t - fetchedAt entry < 2 * Minute)%Z ->
  let '(o, s') := getHostedZoneCached id s in
  o = Ok (response entry) /\ trace s' = trace s ++ [Ev Now (inr t)] /\
  cache_of (local s') = cache_of (local s).
Proof.
  intros He Hnow Hfresh. rewrite (surjective_pairing (getHostedZoneCached id s)).
  change (wp (getHostedZoneCached id) (fun o s' => o = Ok (response entry) /\
    trace s' = trace s ++ [Ev Now (inr t)] /\ cache_of (local s') = cache_of (local s)) s).
  unfold getHostedZoneCached, cacheLookup, get_cache, set_cache. repeat wp_step. cbn.
  unfold cache_of in He. rewrite He. unfold since. repeat wp_step.
  apply wp_trigger. cbn. intros w2 r2 E2. rewrite Hnow in E2. simplify_eq. cbn. wp_step.
  cbn. apply Z.ltb_lt in Hfresh. unfold hostedZoneCacheTTL. rewrite Hfresh. by repeat wp_step.
Qed.

(** ** Creating a zone *)

Definition creates_zone : call_pred := fun R c =>
  match c with R53 _ (Calls.CreateHostedZone _) => True | _ => False end.

(** A private zone named [domain]. *)
Definition is_zone_of (domain : string) (z : route53Types.HostedZone) : Prop :=
  exists name, route53Types.hz_Name z = Some name /\ TrimRight_dot name = domain /\
    route53Types.hz_Config z = Some true.

(** AWS listed the zones by name, and none is a private zone named [domain]. *)
Definition no_zone_listed (domain : string) (e : event) : Prop :=
  match e with
  | @Ev R c a =>
      match c in call R return error + R -> Prop with
      | R53 _ op =>
          match op in route53op R return error + R -> Prop with
          | Calls.ListHostedZonesByName d => fun a => d = domain /\
              exists zs, a = inr zs /\ forall z, z ∈ zs -> ~ is_zone_of domain z
          | _ => fun _ => False
          end
      | _ => fun _ => False
      end a
  end.

(** An id that was stored without its prefix passes the check of the next
    reconcile, which puts the prefix back. *)
Lemma zoneIdOf_prefix id :
  no_space id -> id <> "" -> zoneIdOf ("/hostedzone/" +:+ id) = id.
Proof. intros. unfold zoneIdOf. by rewrite Sscanf_s_app. Qed.

Lemma findPrivateZone_None domain zs :
  findPrivateZone domain zs = Ok None -> forall z, z ∈ zs -> ~ is_zone_of domain z.
Proof.
  induction zs as [|z zs IH]; cbn [findPrivateZone]; intros Hf z'; [set_solver|].
  destruct (route53Types.hz_Name z) as [name|] eqn:Hn; [|done]. cbn in Hf.
  destruct (String.eqb (TrimRight_dot name) domain &&
    match route53Types.hz_Config z with Some private => private | None => false end)%bool
    eqn:Hz; [done|].
  rewrite elem_of_cons. intros [->|Hin]; [|by apply IH].
  intros (name' & Hn' & Ht & Hc). rewrite Hn in Hn'. simplify_eq.
  by rewrite Hc, String.eqb_refl in Hz.
Qed.

Lemma createZone_emits domain :
  respects (emits (W:=W) (fun _ _ => True) (fun _ => True)) (createZone domain).
Proof. go_respects. Qed.

Lemma recordZone_emits (z : route53Types.HostedZone) :
  respects (emits (W:=W) (no creates_zone) (fun _ => True))
    (id <- lift (deref (route53Types.hz_Id z));;
     modify_status (set_HostedZoneId (zoneIdOf id));;
     wrap "failed to update status: " statusUpdate)%go.
Proof. go_respects. Qed.

(** C28: no second zone for the same domain: [findOrCreateZone] creates a hosted
    zone only after AWS has listed the account's zones by that name and none of
    them is a private zone of the domain. *)
Theorem zone_created_only_if_missing domain s :
  exists l, trace (findOrCreateZone domain s).2 = trace s ++ l /\
    preceded (event_sat creates_zone) (no_zone_listed domain) l.
Proof.
  change (extends (fun _ l _ => preceded (event_sat creates_zone) (no_zone_listed domain) l)
            (findOrCreateZone domain) s).
  apply extends_wp. unfold findOrCreateZone. destruct (is_empty domain).
  { wp_step. close_trace. by apply preceded_none. }
  unfold client, res_status, get_clusterInfo. repeat wp_step.
  destruct (clusterInfo_ _) as [ci|]; cbn [deref]; repeat wp_step;
    [|close_trace; by apply preceded_none].
  eapply (wp_emits (no creates_zone) (fun _ => True)); [go_respects|done|].
  intros [hzs|e|w|] l1 s1 Ht1 Hl1 _; cbn [continue]; try (close_trace; by apply preceded_none).
  repeat wp_step. destruct (findSummary domain hzs) as [[hz|]|e|w|]; cbn [continue];
    try (close_trace; by apply preceded_none).
  { eapply (wp_emits (no creates_zone) (fun _ => True)); [go_respects|done|].
    intros o l2 s2 Ht2 Hl2 _. close_trace. by apply preceded_none, Forall_app_2. }
  repeat wp_step. unfold AWSClient.ListHostedZonesByName, AWSClient.r53.
  destruct (awsClient _) as [cfg|]; repeat wp_step; [|close_trace; by apply preceded_none].
  assert (Hlist : forall a, Forall (event_sat (no creates_zone))
    (l1 ++ [Ev (R53 cfg (Calls.ListHostedZonesByName domain)) a])).
  { intros a. apply Forall_app_2; [done|]. repeat constructor. by intros []. }
  apply wp_trigger. cbn. intros w2 [e|zs] _; cbn; [close_trace; by apply preceded_none|].
  repeat wp_step. destruct (findPrivateZone domain zs) as [[z|]|e|w|] eqn:Hz; cbn [continue].
  3-5: close_trace; apply preceded_none, Hlist.
  - eapply wp_emits; [apply recordZone_emits|done|]. intros o l3 s3 Ht3 Hl3 _.
    close_trace. rewrite cons_middle, app_assoc. by apply preceded_none, Forall_app_2.
  - eapply wp_emits; [apply createZone_emits|done|]. intros o l3 s3 Ht3 Hl3 _.
    close_trace. rewrite cons_middle, app_assoc. apply preceded_app; [done|].
    apply Exists_app. right. constructor. cbn. split; [done|]. exists zs.
    split; [done|]. by apply findPrivateZone_None.
Qed.

(** ** The record *)

(** The name of the record: the hostname in the zone, without a trailing dot. *)
Definition record_name (v : VpcEndpoint) (zoneName : string) : string :=
  Hostname (Record_ (phz_spec v)) +:+ "." +:+ TrimRight_dot zoneName.

Definition upserts (zoneId name : string) (record : option string) : event -> Prop :=
  event_sat (fun R c =>
    match c with
    | R53 _ (Calls.ChangeResourceRecordSets i) =>
        i = route53Types.mkChangeResourceRecordSetsInput route53Types.ChangeActionUpsert
              (route53Types.mkResourceRecordSet (Some name) route53Types.RRTypeCname
                 (Some 300%Z) [record]) None zoneId
    | _ => False
    end).

(** When the record step succeeds, it has upserted one CNAME record with a TTL
    of 300 from the hostname in the zone to the endpoint's first DNS name, that
    name is the status' record, and the record's condition is true. *)
Theorem record_upserted `{!K8sHelpersLaws} zone zoneName zoneId record s s' :
  route53Types.hz_Name zone = Some zoneName -> route53Types.hz_Id zone = Some zoneId ->
  upsertRecord zone record s = (Ok tt, s') ->
  let name := record_name (resource (local s)) zoneName in
  (exists l, trace s' = trace s ++ l /\ Exists (upserts zoneId name record) l) /\
  ResourceRecordSet (status (resource (local s'))) = name /\
  IsStatusConditionTrue (Conditions (status (resource (local s')))) AWSRoute53RecordCondition = true.
Proof.
  intros Hn Hi Hrun. cbv zeta. set (name := record_name _ _).
  enough (Hwp : wp (upsertRecord zone record) (fun o s' => o = Ok tt ->
    (exists l, trace s' = trace s ++ l /\ Exists (upserts zoneId name record) l) /\
    ResourceRecordSet (status (resource (local s'))) = name /\
    IsStatusConditionTrue (Conditions (status (resource (local s'))))
      AWSRoute53RecordCondition = true) s).
  { unfold wp in Hwp. rewrite Hrun in Hwp. by apply Hwp. }
  unfold upsertRecord, res, client. rewrite Hn, Hi. cbn [deref]. repeat wp_step. cbn beta zeta.
  fold (record_name (resource (local s)) zoneName). fold name.
  unfold AWSClient.UpsertResourceRecordSet, AWSClient.r53.
  destruct (awsClient _) as [cfg|]; [|by wp_step].
  apply wp_trigger. intros w1 [e|[]] _; cbn; [done|]. wp_step.
  eapply (wp_emits (fun _ _ => True) (fun _ => True)); [go_respects|done|].
  intros [[]|e|w|] l2 s2 Ht2 _ _; cbn [continue]; try done.
  unfold setCondition, modify_status, statusUpdate, res. repeat wp_step.
  apply wp_trigger. cbn. intros w3 [e|rv] _; cbn; [done|]. repeat wp_step. intros _.
  split; [|split].
  - close_trace. by apply Exists_cons_hd.
  - done.
  - set (c := metav1.mkCondition AWSRoute53RecordCondition _ _ _).
    change AWSRoute53RecordCondition with (metav1.Type_ c). apply condition_true_set.
Qed.

(** Changes of a record set other than the deletion of the record [name]. *)
Definition other_record_change (name : string) : call_pred := fun R c =>
  match c with
  | R53 _ (Calls.ChangeResourceRecordSets i) =>
      ~ (route53Types.Action i = route53Types.ChangeActionDelete /\
         route53Types.rrs_Name (route53Types.ResourceRecordSet_ i) = Some (name +:+ "."))
  | _ => False
  end.

Definition record_is (name : string) (m : Mem) : Prop :=
  ResourceRecordSet (status (resource m)) = name.

Lemma deleteOwnRecord_emits name zone rr :
  respects (emits (W:=W) (no (other_record_change name)) (record_is name))
    (deleteOwnRecord zone rr).
Proof.
  unfold deleteOwnRecord, res_status. apply emits_gets_bind. intros m Hm.
  unfold record_is in Hm. rewrite Hm. apply respects_lift_bind; [apply _|].
  intros rrName Hrr. destruct (String.eqb_spec rrName (name +:+ ".")) as [->|]; [|go_respects].
  unfold deref in Hrr. destruct (route53Types.rrs_Name rr) as [n|] eqn:En; simplify_eq.
  apply respects_bind; [apply _|go_respects|intros zoneId].
  apply respects_bind; [apply _|go_respects|intros c].
  unfold AWSClient.DeleteResourceRecordSet.
  apply respects_bind; [apply _|go_respects|intros n'].
  destruct c as [cfg|]; [|apply respects_lift, _].
  apply emits_trigger. intros Hno. by apply Hno.
Qed.
#[local] Hint Resolve deleteOwnRecord_emits : respects.

Lemma deleteRecord_extends name s :
  record_is name (local s) ->
  extends (fun _ l _ => Forall (event_sat (no (other_record_change name))) l) deleteRecord s.
Proof.
  intros Hs. apply extends_wp. unfold deleteRecord, client, res_status. repeat wp_step.
  eapply (wp_emits (no (other_record_change name)) (record_is name)); [go_respects|exact Hs|].
  intros [resp|e|w|] l1 s1 Ht1 Hl1 Hs1; cbn [continue]; try by close_trace.
  wp_step. eapply (wp_emits (no (other_record_change name)) (record_is name));
    [go_respects|exact Hs1|].
  intros [[]|e|w|] l2 s2 Ht2 Hl2 _; cbn [continue]; try (close_trace; by apply Forall_app_2).
  eapply (wp_emits (no (other_record_change name)) (fun _ => True)); [go_respects|done|].
  intros o l3 s3 Ht3 Hl3 _. close_trace. by repeat apply Forall_app_2.
Qed.

Lemma validateZone_emits name p :
  respects (emits (W:=W) (no (other_record_change name)) (record_is name))
    (validateR53PrivateHostedZone p).
Proof. go_respects. Qed.

(** C29: cleaning up the record of an object touches no other record: every change
    of a record set that [cleanupRecord] asks for is the deletion of a record
    with the name that the status recorded, as Route 53 lists it (with a trailing
    dot). *)
Theorem cleanup_deletes_only_own_record p s :
  exists l, trace (cleanupRecord p s).2 = trace s ++ l /\
    Forall (event_sat (no (other_record_change (ResourceRecordSet (status (resource (local s))))))) l.
Proof.
  set (name := ResourceRecordSet _).
  change (extends (fun _ l _ => Forall (event_sat (no (other_record_change name))) l)
            (cleanupRecord p) s).
  apply extends_wp. unfold cleanupRecord, conditionTrue. repeat wp_step.
  destruct (IsStatusConditionTrue _ _); [|wp_step; by close_trace].
  unfold res_status. repeat wp_step. cbn beta.
  eapply (wp_emits (no (other_record_change name)) (record_is name)); [|reflexivity|].
  { destruct (is_empty _); [apply validateZone_emits|apply respects_ret, _]. }
  intros [[]|e|w|] l1 s1 Ht1 Hl1 Hs1; cbn [continue]; try by close_trace.
  repeat wp_step. destruct (_ && _)%bool; [|wp_step; by close_trace].
  eapply wp_extends; [by apply deleteRecord_extends|]. intros o l2 s2 Ht2 Hl2.
  close_trace. by apply Forall_app_2.
Qed.
End spec.

(** ** Examples *)

#[local] Existing Instances K8sRef.helpers K8sRef.helpers_laws Sim.world.

Definition zone_response : route53Types.GetHostedZoneOutput :=
  route53Types.mkGetHostedZoneOutput (Some (snd (Sim.zone "Z1" "example.com."))) [].

Definition dns_obj : VpcEndpoint :=
  Sim.object None [] (Sim.spec (Sim.phz "example.com" None "api"))
    (Sim.status_ "vpce-1" "sg-1" "Z1" "" []).

(** A reconciler that fetched the zone before; it has no AWS client. *)
Definition cached : Sys Sim.State Mem :=
  mkSys Sim.state [Ev (R53 Sim.cfg (Calls.GetHostedZone "/hostedzone/Z1")) (inr zone_response)]
    (mkMem (mkVpcEndpointReconciler false None None None
              (Some {[ "Z1" := mkHostedZoneCacheEntry zone_response 0 ]})) dns_obj).

Lemma cache_holds_answers_witness :
  cache_ok (Reconcile "ns" "example" cached).2 /\
  cache_ok (getHostedZoneCached "Z1" cached).2 /\
  (forall resp, (getHostedZoneCached "Z1" cached).1 = Ok resp ->
     answered "Z1" resp (trace (getHostedZoneCached "Z1" cached).2)).
Proof.
  apply (cache_holds_answers cached "ns" "example" "Z1").
  intros id entry. unfold cache_of. simpl. rewrite lookup_singleton_Some.
  intros [<- <-]. exists Sim.cfg. by left.
Defined.

Lemma fresh_zone_is_reused_witness :
  let '(o, s') := getHostedZoneCached "Z1" cached in
  o = Ok zone_response /\ trace s' = trace cached ++ [Ev Now (inr 0%Z)] /\
  cache_of (local s') = cache_of (local cached).
Proof.
  apply (fresh_zone_is_reused cached "Z1" (mkHostedZoneCacheEntry zone_response 0) 0 Sim.state);
    [vm_compute; reflexivity|reflexivity|reflexivity].
Defined.

(** The cache survives the start of the next reconcile. *)
Example cache_not_cleared_example :
  cache_of (local (Reconcile "ns" "example" cached).2) = cache_of (local cached).
Proof. vm_compute. reflexivity. Qed.

Lemma record_upserted_witness :
  let s := Sim.sys Sim.state dns_obj in
  let s' := (upsertRecord (snd (Sim.zone "Z1" "example.com.")) (Some "vpce.example.com") s).2 in
  (exists l, trace s' = [] ++ l /\
     Exists (upserts "/hostedzone/Z1" "api.example.com" (Some "vpce.example.com")) l) /\
  ResourceRecordSet (status (resource (local s'))) = "api.example.com" /\
  IsStatusConditionTrue (Conditions (status (resource (local s')))) AWSRoute53RecordCondition = true.
Proof.
  apply (record_upserted (snd (Sim.zone "Z1" "example.com.")) "example.com." "/hostedzone/Z1"
           (Some "vpce.example.com") (Sim.sys Sim.state dns_obj));
    [reflexivity|reflexivity|vm_compute; reflexivity].
Defined.
End HostedZoneSpec.
