(* ===== verification/EndpointSpec.v ===== *)
(** * The VPC Endpoint's state machine

    What [validateVPCEndpoint] makes of the state AWS reports, when an endpoint
    is created, and that the subnets and security groups of an endpoint converge
    to the expected ones. *)
From S2P Require Import Prelude GoError Naming Types Calls GoMonad AwsClient.
From S2P Require Import Lookups Controller Helpers HostedZones Validation Sim.
Import avov1alpha2 Naming Helpers HostedZones Validation.

Module EndpointSpec.

(** The conditions of the object in memory. *)
Definition conditions (m : Mem) : list metav1.Condition := Conditions (status (resource m)).

Definition states_without_error : list string := ["pendingAcceptance"; "deleting"; "pending"].

(** The status with the conditions [cs] was sent to the API server. *)
Definition sends_conditions (cs : list metav1.Condition) (e : event) : Prop :=
  event_sat (fun R c =>
    match c with Kube (UpdateVpcEndpointStatus v) => Conditions (status v) = cs | _ => False end) e.

Section spec.
Context {W : Type} `{World W} `{K8sHelpersLaws}.
Implicit Types s : Sys W Mem.

Definition is_true (t : string) (m : Mem) : bool := IsStatusConditionTrue (conditions m) t.

(** ** Invalidating a condition *)

Lemma invalidateCondition_wp t message (Q : outcome unit -> Sys W Mem -> Prop) s :
  (forall m, resource m = set_status (set_Conditions (conditions m)) (resource (local s)) ->
     reconciler m = reconciler (local s) ->
     is_true t m = false ->
     (forall t', t' <> t -> condition_of (conditions m) t' = condition_of (conditions (local s)) t') ->
     Q (Ok tt) (mkSys (world s) (trace s) m)) ->
  wp (invalidateCondition t message) Q s.
Proof.
  intros HQ. unfold invalidateCondition, conditionTrue. repeat wp_step.
  destruct (IsStatusConditionTrue _ _) eqn:E.
  - unfold setCondition, modify_status. repeat wp_step. apply HQ.
    + reflexivity.
    + reflexivity.
    + unfold is_true, conditions. simpl.
      set (c := metav1.mkCondition t _ _ _). change t with (metav1.Type_ c).
      apply condition_true_set.
    + intros t' Ht. unfold conditions. simpl. by apply condition_set_other.
  - repeat wp_step. destruct s as [w tr [r v]]. apply HQ; try done.
    simpl. by destruct v as [? ? []].
Qed.


(** After [invalidateRoute53RecordCondition] neither of the two DNS conditions is
    true; nothing else changed. *)
Lemma invalidate_wp (Q : outcome unit -> Sys W Mem -> Prop) s :
  (forall m, resource m = set_status (set_Conditions (conditions m)) (resource (local s)) ->
     reconciler m = reconciler (local s) ->
     is_true AWSRoute53RecordCondition m = false ->
     is_true AWSRoute53TagsCondition m = false ->
     (forall t, t <> AWSRoute53RecordCondition -> t <> AWSRoute53TagsCondition ->
        condition_of (conditions m) t = condition_of (conditions (local s)) t) ->
     Q (Ok tt) (mkSys (world s) (trace s) m)) ->
  wp invalidateRoute53RecordCondition Q s.
Proof.
  intros HQ. unfold invalidateRoute53RecordCondition. repeat wp_step.
  apply invalidateCondition_wp. intros m1 Hr1 Hc1 Ht1 Ho1. repeat wp_step.
  apply invalidateCondition_wp. intros m2 Hr2 Hc2 Ht2 Ho2. cbn in *. apply HQ.
  - rewrite Hr2, Hr1. by destruct (resource (local s)) as [? ? []].
  - congruence.
  - unfold is_true in *. apply not_true_iff_false. apply not_true_iff_false in Ht1.
    rewrite condition_true_iff in *. intros (c & Hc & Hs). apply Ht1. exists c.
    split; [|done]. rewrite <- Hc. symmetry. by apply Ho2.
  - done.
  - intros t Hn1 Hn2. by rewrite Ho2, Ho1.
Qed.

(** What [endpointNotReady] leaves behind: the endpoint's condition is false with
    the state as its reason, the DNS conditions are not true, and exactly these
    conditions were sent to the API server. *)
Definition not_ready (state : string) (m : Mem) : Prop :=
  (exists c, condition_of (conditions m) AWSVpcEndpointCondition = Some c /\
     metav1.Status c = metav1.ConditionFalse /\ metav1.Reason c = state) /\
  is_true AWSRoute53RecordCondition m = false /\
  is_true AWSRoute53TagsCondition m = false.

Lemma endpointNotReady_extends state pending s :
  extends (fun o l m => not_ready state m /\ Exists (sends_conditions (conditions m)) l /\
             (o = Ok tt \/ exists e, o = Err e))
    (endpointNotReady state pending) s.
Proof.
  apply extends_wp. unfold endpointNotReady, setPendingAcceptance, res. repeat wp_step.
  unfold setCondition, modify_status. repeat wp_step.
  apply invalidate_wp. intros m Hr Hc Hrec Htag Ho. cbn in Hr, Hc, Ho.
  assert (Hn : not_ready state m).
  { split_and!; [|done..]. rewrite Ho by done. unfold conditions. cbn.
    destruct (condition_set (Conditions (status (resource (local s))))
      (metav1.mkCondition AWSVpcEndpointCondition metav1.ConditionFalse state ""))
      as (c & Hc1 & Hc2 & Hc3 & _). eauto. }
  unfold statusUpdate, res. repeat wp_step.
  apply wp_trigger. cbn. intros w2 [e|rv] _; cbn; repeat wp_step; close_trace.
  - split_and!; [done| |eauto]. rewrite !Exists_cons. right. left. done.
  - split_and!; [done| |eauto]. rewrite !Exists_cons. right. left. done.
Qed.

Lemma unavailable_extends vpce s :
  ec2Types.State vpce <> "available" -> ec2Types.State vpce <> "rejected" ->
  extends (fun o l m =>
      not_ready (ec2Types.State vpce) m /\ Exists (sends_conditions (conditions m)) l /\
      (o = Ok tt -> ec2Types.State vpce ∈ states_without_error) /\
      (o = Ok tt \/ exists e, o = Err e))
    (reconcileEndpointState vpce) s.
Proof.
  intros Ha%String.eqb_neq Hr%String.eqb_neq. unfold reconcileEndpointState.
  rewrite Ha, Hr. unfold states_without_error. cbv zeta.
  destruct (String.eqb_spec (ec2Types.State vpce) "pendingAcceptance") as [->|Hp].
  { destruct (endpointNotReady_extends "pendingAcceptance" 1 s) as (l & ? & ? & ? & ?).
    exists l. split_and!; [done..|by intros _; left + (right; left) + (right; right; left)|done]. }
  destruct (String.eqb_spec (ec2Types.State vpce) "deleting") as [->|Hd]; simpl.
  { destruct (endpointNotReady_extends "deleting" 0 s) as (l & ? & ? & ? & ?).
    exists l. split_and!; [done..|by intros _; left + (right; left) + (right; right; left)|done]. }
  destruct (String.eqb_spec (ec2Types.State vpce) "pending") as [->|Hd'].
  { destruct (endpointNotReady_extends "pending" 0 s) as (l & ? & ? & ? & ?).
    exists l. split_and!; [done..|by intros _; left + (right; left) + (right; right; left)|done]. }
  destruct (endpointNotReady_extends (ec2Types.State vpce) 0 s) as (l & Ht & Hn & Hx & Ho).
  unfold extends, endpointBad, bind. cbv beta.
  destruct (endpointNotReady (ec2Types.State vpce) 0 s) as [o s1]; simpl in *.
  exists l. destruct Ho as [->|[e ->]]; simpl; split_and!; eauto; discriminate.
Qed.

Lemma not_ready_false state m :
  not_ready state m -> is_true AWSVpcEndpointCondition m = false.
Proof.
  intros [(c & Hc & Hs & _) _]. apply not_true_iff_false. unfold is_true.
  rewrite condition_true_iff. intros (c' & Hc' & Hs'). rewrite Hc in Hc'.
  simplify_eq. by rewrite Hs in Hs'.
Qed.

(** C18: an endpoint that AWS does not report as available never counts as ready.
    In every state but [available] and [rejected], [reconcileEndpointState]
    leaves the condition AWSVpcEndpointReady false with the state as its reason
    and both DNS conditions not true (so that the record is created again), has
    sent exactly these conditions to the API server, and returns no error at most
    in the states an endpoint passes through on its own. *)
Theorem unavailable_endpoint_not_ready vpce s :
  ec2Types.State vpce <> "available" -> ec2Types.State vpce <> "rejected" ->
  exists l, trace (reconcileEndpointState vpce s).2 = trace s ++ l /\
    let m := local (reconcileEndpointState vpce s).2 in
    not_ready (ec2Types.State vpce) m /\
    Exists (sends_conditions (conditions m)) l /\
    ((reconcileEndpointState vpce s).1 = Ok tt ->
       ec2Types.State vpce ∈ states_without_error) /\
    ((reconcileEndpointState vpce s).1 = Ok tt \/
     exists e, (reconcileEndpointState vpce s).1 = Err e).
Proof. intros Ha Hr. exact (unavailable_extends vpce s Ha Hr). Qed.

(** C35: for a rejected endpoint the state switch makes exactly one call, the endpoint's
    deletion, and always returns an error (which the pass answers by a retry: with the
    error, or after a minute, see [requeue_by_outcome]); the invalidated conditions and the
    cleared endpoint id stay in memory, no status update is made. *)
Theorem rejected_endpoint_deleted vpce s cfg :
  ec2Types.State vpce = "rejected" ->
  awsClient (reconciler (local s)) = Some cfg ->
  let '(o, s') := reconcileEndpointState vpce s in
  (exists e, o = Err e) /\
  (exists a, trace s' = trace s ++
     [Ev (EC2 cfg (DeleteVpcEndpoints [VPCEndpointId (status (resource (local s)))])) a]) /\
  is_true AWSRoute53RecordCondition (local s') = false.
Proof.
  intros Hst Hc. rewrite (surjective_pairing (reconcileEndpointState vpce s)).
  change (wp (reconcileEndpointState vpce) (fun o s' =>
    (exists e, o = Err e) /\
    (exists a, trace s' = trace s ++
       [Ev (EC2 cfg (DeleteVpcEndpoints [VPCEndpointId (status (resource (local s)))])) a]) /\
    is_true AWSRoute53RecordCondition (local s') = false) s).
  unfold reconcileEndpointState. rewrite Hst. simpl. unfold endpointRejected. wp_step.
  apply invalidate_wp. intros m Hr Hrc Hrec _ _. unfold client, res_status. repeat wp_step.
  cbn. rewrite Hrc, Hc, Hr. unfold AWSClient.DeleteVPCEndpoint. cbn.
  apply wp_trigger. cbn. intros w' [e|[]] _; cbn.
  - destruct (has_code _ e); unfold modify_status; repeat wp_step; eauto 10.
  - repeat wp_step. eauto 10.
Qed.

Lemma reconcileEndpointState_available vpce s :
  ec2Types.State vpce = "available" ->
  wp (reconcileEndpointState vpce) (fun o s' => o = Ok tt ->
    is_true AWSVpcEndpointCondition (local s') = true) s.
Proof.
  intros Hst. unfold reconcileEndpointState. rewrite Hst. simpl. unfold endpointReady.
  do 5 (wp_step; apply wp_any; intros [?|?|?|] ?; cbn [continue]; [|discriminate..]).
  unfold setCondition, modify_status, statusUpdate, res. repeat wp_step.
  apply wp_trigger. cbn. intros w2 [e|rv] _; cbn; repeat wp_step; [discriminate|].
  intros _. unfold is_true, conditions. cbn.
  set (c := metav1.mkCondition AWSVpcEndpointCondition _ _ _).
  change AWSVpcEndpointCondition with (metav1.Type_ c). apply condition_true_set.
Qed.

(** C19: when the reconciliation of an endpoint returns without an error, the
    condition AWSVpcEndpointReady is true exactly when AWS reported the endpoint
    as available. *)
Theorem ready_iff_available vpce s s' :
  reconcileEndpointState vpce s = (Ok tt, s') ->
  is_true AWSVpcEndpointCondition (local s') = true <-> ec2Types.State vpce = "available".
Proof.
  intros Hrun. split.
  - intros Hready.
    destruct (decide (ec2Types.State vpce = "available")) as [|Ha]; [done|exfalso].
    destruct (decide (ec2Types.State vpce = "rejected")) as [Hr|Hr].
    + unfold reconcileEndpointState in Hrun. rewrite Hr in Hrun. simpl in Hrun.
      apply (f_equal fst) in Hrun. revert Hrun.
      change (wp endpointRejected (fun o _ => o = Ok tt -> False) s).
      unfold endpointRejected. wp_step. apply invalidate_wp. intros m _ _ _ _ _.
      unfold client, res_status. repeat wp_step. apply wp_any.
      intros [[]|e|w|] s1; cbn [continue]; try done.
      destruct (has_code _ e); unfold modify_status; repeat wp_step; done.
    + destruct (unavailable_extends vpce s Ha Hr) as (l & _ & Hn%not_ready_false & _).
      rewrite Hrun in Hn. simpl in Hn. congruence.
  - intros Ha. pose proof (reconcileEndpointState_available vpce s Ha) as Hwp.
    unfold wp in Hwp. rewrite Hrun in Hwp. by apply Hwp.
Qed.

(** ** Finding or creating the endpoint *)

(** The endpoint returned is the one recorded. *)
Lemma findOrCreate_records s :
  wp findOrCreateVpcEndpoint (fun o s' => forall vpce, o = Ok vpce ->
    ec2Types.VpcEndpointId vpce = Some (VPCEndpointId (status (resource (local s'))))) s.
Proof.
  unfold findOrCreateVpcEndpoint.
  do 4 (wp_step; apply wp_any; intros [?|?|?|] ?; cbn [continue]; [|discriminate..]).
  unfold deref. destruct (ec2Types.VpcEndpointId _) as [id|] eqn:Hid; [|by repeat wp_step].
  unfold modify_status, statusUpdate, res. repeat wp_step.
  apply wp_trigger. cbn. intros w2 [e|rv] _; cbn; repeat wp_step; [discriminate|].
  intros vpce [= <-]. exact Hid.
Qed.

(** The reaction to a changed endpoint id is dead code: since
    [findOrCreateVpcEndpoint] has already recorded the id it returns, the branch
    that compares the two never does anything, and [validateVPCEndpoint] behaves
    like the function without it. *)
Theorem changed_id_branch_is_dead s :
  validateVPCEndpoint resource_ptr_ s =
  bind findOrCreateVpcEndpoint reconcileEndpointState s.
Proof.
  unfold validateVPCEndpoint, bind. cbn [is_nil].
  pose proof (findOrCreate_records s) as Hr. unfold wp in Hr.
  destruct (findOrCreateVpcEndpoint s) as [[vpce|e|w|] s1]; try done.
  specialize (Hr vpce eq_refl). simpl in Hr.
  unfold recordChangedId, res_status, bind, gets, lift. rewrite Hr. simpl.
  by rewrite String.eqb_refl.
Qed.

Definition creates_endpoint : call_pred := fun R c =>
  match c with EC2 _ (Calls.CreateVpcEndpoint _) => True | _ => False end.

(** The search by the operator's tags came back empty. *)
Definition found_none (tag name : string) (e : event) : Prop :=
  match e with
  | @Ev R c a =>
      match c in call R return error + R -> Prop with
      | EC2 _ op =>
          match op in ec2op R return error + R -> Prop with
          | DescribeVpcEndpoints filters [] => fun a =>
              filters = [ AWSClient.filter_by "tag:Name" [name];
                          AWSClient.filter_by "tag-key" [tag];
                          AWSClient.filter_by ("tag:" +:+ OperatorTagKey) [OperatorTagValue] ] /\
              a = inr []
          | _ => fun _ => False
          end
      | _ => fun _ => False
      end a
  end.

Definition any_call : call_pred := fun _ _ => True.

Lemma describe_emits (m : Mem) c id :
  respects (emits (W:=W) (no creates_endpoint) (eq m))
    (AWSClient.DescribeSingleVPCEndpointById c id).
Proof. go_respects. Qed.

Lemma createVpcEndpoint_emits name :
  respects (emits (W:=W) any_call (fun _ : Mem => True)) (createVpcEndpoint name).
Proof. go_respects. Qed.

(** Recording the endpoint in the status creates nothing. *)
Lemma record_emits vpce :
  respects (emits (W:=W) (no creates_endpoint) (fun _ : Mem => True))
    (id <- lift (deref (ec2Types.VpcEndpointId vpce));;
     modify_status (fun st : VpcEndpointStatus =>
       set_Status (ec2Types.State vpce) (set_VPCEndpointId id st));;
     wrap "failed to update status: " statusUpdate;;
     ret vpce)%go.
Proof. go_respects. Qed.

(** C20: no second endpoint for the same resource: [findOrCreateVpcEndpoint] calls
    [CreateVpcEndpoint] only after AWS answered that no endpoint carries the
    cluster's tag, the operator's tag and the name made from the infra id and the
    resource's name. *)
Theorem endpoint_created_only_if_missing s ci name :
  clusterInfo_ (reconciler (local s)) = Some ci -> clusterTag ci <> "" ->
  GenerateVPCEndpointName (InfraId (status (resource (local s))))
    (metav1.Name (meta (resource (local s)))) = Ok name ->
  exists l, trace (findOrCreateVpcEndpoint s).2 = trace s ++ l /\
    preceded (event_sat creates_endpoint) (found_none (clusterTag ci) name) l.
Proof.
  intros Hci Htag%is_empty_false Hname.
  change (extends (fun _ l _ =>
    preceded (event_sat creates_endpoint) (found_none (clusterTag ci) name) l)
    findOrCreateVpcEndpoint s).
  apply extends_wp. unfold findOrCreateVpcEndpoint, client, res. repeat wp_step. cbn beta.
  eapply wp_emits; [apply describe_emits|reflexivity|].
  intros [resp|e|w|] l1 s1 Ht1 Hl1 Hs1; cbn [continue]; try (close_trace; by apply preceded_none).
  wp_step. destruct (default [] resp) as [|vpce vs].
  2:{ wp_step. wp_step. eapply wp_emits; [apply record_emits|done|].
      intros o l2 s2 Ht2 Hl2 _. close_trace. by apply preceded_none, Forall_app_2. }
  rewrite Hname. unfold get_clusterInfo. repeat wp_step. rewrite <- Hs1, Hci. cbn [deref]. repeat wp_step.
  unfold AWSClient.FilterVPCEndpointByDefaultTags. rewrite Htag.
  unfold AWSClient.ec2. destruct (awsClient _) as [cfg|]; repeat wp_step;
    [|close_trace; by apply preceded_none].
  apply wp_trigger. cbn. intros w2 [e|[|vpce vs]] _; cbn.
  - close_trace. apply preceded_none, Forall_app_2; [done|]. repeat constructor. by intros [].
  - eapply wp_emits; [apply createVpcEndpoint_emits|done|].
    intros o l3 s3 Ht3 _ _.
    assert (Hfirst : forall l, preceded (event_sat creates_endpoint)
      (found_none (clusterTag ci) name)
      (l1 ++ [Ev (EC2 cfg (DescribeVpcEndpoints
          [ AWSClient.filter_by "tag:Name" [name];
            AWSClient.filter_by "tag-key" [clusterTag ci];
            AWSClient.filter_by ("tag:" +:+ OperatorTagKey) [OperatorTagValue] ] []))
          (inr [])] ++ l)).
    { intros l. rewrite app_assoc. apply preceded_app.
      - apply Forall_app_2; [done|]. repeat constructor. by intros [].
      - apply Exists_app. right. by constructor. }
    destruct o as [vpce|e|w|]; cbn [continue].
    2-4: close_trace; apply Hfirst.
    eapply wp_emits; [apply record_emits|done|]. intros o l4 s4 Ht4 _ _.
    close_trace. apply Hfirst.
  - wp_step. eapply wp_emits; [apply record_emits|done|].
    intros o l3 s3 Ht3 Hl3 _. close_trace. apply preceded_none, Forall_app_2; [done|].
    constructor; [by intros []|done].
Qed.

(** ** Subnets and security groups of the endpoint *)

(** What a successful [ModifyVpcEndpoint] does to the set of subnets, or of
    security groups, of the endpoint. *)
Definition modify_ec2 (add rem : ec2Types.ModifyVpcEndpointInput -> list string)
    (X : gset string) {R} (op : ec2op R) : error + R -> gset string :=
  match op in ec2op R return error + R -> gset string with
  | Calls.ModifyVpcEndpoint i => fun a =>
      match a with
      | inr _ => (X ∪ list_to_set (add i)) ∖ list_to_set (rem i)
      | inl _ => X
      end
  | _ => fun _ => X
  end.

Definition modify_event (add rem : ec2Types.ModifyVpcEndpointInput -> list string)
    (X : gset string) (e : event) : gset string :=
  match e with
  | @Ev R c a =>
      match c in call R return error + R -> gset string with
      | EC2 _ op => modify_ec2 add rem X op
      | _ => fun _ => X
      end a
  end.

Definition subnets_after : gset string -> list event -> gset string :=
  foldl (modify_event ec2Types.AddSubnetIds ec2Types.RemoveSubnetIds).
Definition groups_after : gset string -> list event -> gset string :=
  foldl (modify_event ec2Types.AddSecurityGroupIds ec2Types.RemoveSecurityGroupIds).

Definition modifies : call_pred := fun R c =>
  match c with EC2 _ (Calls.ModifyVpcEndpoint _) => True | _ => False end.

Lemma modify_event_other add rem X e :
  event_sat (no modifies) e -> modify_event add rem X e = X.
Proof.
  destruct e as [R c a]. simpl. destruct c; try done. destruct op; try done.
  intros Hno. by destruct Hno.
Qed.

Lemma subnets_after_other X l : Forall (event_sat (no modifies)) l -> subnets_after X l = X.
Proof.
  unfold subnets_after. induction 1 as [|e l He Hl IH]; simpl; [done|].
  by rewrite modify_event_other.
Qed.

(** The documented behaviour of [range] over a map. *)
Definition range_is_valid : Prop :=
  forall (w w' : W) o, handle RangeOrder w = (w', inr o) -> valid_order o.

Lemma twoWayDiff_wp current expected (Q : outcome (list string * list string) ->
    Sys W Mem -> Prop) s :
  range_is_valid ->
  (forall o s' l, trace s' = trace s ++ l -> Forall (event_sat (no modifies)) l ->
     local s' = local s ->
     (forall add rem, o = Ok (add, rem) ->
        (forall k, k ∈ add <-> k ∈ expected /\ k ∉ current) /\
        (forall k, k ∈ rem <-> k ∈ current /\ k ∉ expected)) -> Q o s') ->
  wp (twoWayDiff current expected) Q s.
Proof.
  intros Hrange HQ. unfold twoWayDiff. wp_step. apply wp_trigger. intros w1 [e|o1] E1; cbn.
  { eapply HQ; [reflexivity|by repeat constructor; intros []|done..]. }
  wp_step. apply wp_trigger. cbn. intros w2 [e|o2] E2; cbn.
  { eapply HQ; [cbn; rewrite <- app_assoc; reflexivity
               |by repeat constructor; intros []|done..]. }
  wp_step. eapply HQ; [cbn; rewrite <- app_assoc; reflexivity
               |by repeat constructor; intros []|done|].
  intros add rem Hdiff. apply (f_equal (fun o => match o with Ok x => x | _ => ([], []) end)) in Hdiff.
  eapply StringSliceTwoWayDiff_elem; [| |exact Hdiff]; by eapply Hrange.
Qed.

(** One modification. *)
Definition modified (c : option AwsConfig) (i : ec2Types.ModifyVpcEndpointInput)
    (l : list event) : Prop :=
  exists cfg, c = Some cfg /\ l = [Ev (EC2 cfg (Calls.ModifyVpcEndpoint i)) (inr tt)].

Lemma ModifyVpcEndpoint_extends c i s :
  extends (fun o l m => m = local s /\ (o = Ok tt -> modified c i l))
    (AWSClient.ModifyVpcEndpoint c i) s.
Proof.
  apply extends_wp. unfold AWSClient.ModifyVpcEndpoint, AWSClient.ec2.
  destruct c as [cfg|]; [apply wp_trigger; intros w' [e|[]] _|wp_step]; close_trace;
    (split; [done|]); try discriminate. intros _. by exists cfg.
Qed.

(** A modification that is made only when its list is not empty. *)
Lemma unless_empty_extends {A} (ids : list A) m c i s :
  (forall Q : outcome unit -> list event -> Mem -> Prop,
     (forall o l m', (o = Ok tt -> modified c i l) -> m' = local s -> Q o l m') ->
     extends Q m s) ->
  extends (fun o l m' => m' = local s /\
             (o = Ok tt -> (ids = [] /\ l = []) \/ modified c i l))
    (match ids with [] => ret tt | _ => m end) s.
Proof.
  intros Hm. destruct ids as [|a ids].
  - exists []. simpl. rewrite app_nil_r. auto.
  - apply Hm. auto.
Qed.

Lemma unless_empty_modify {A} (ids : list A) c i s :
  extends (fun o l m' => m' = local s /\
             (o = Ok tt -> (ids = [] /\ l = []) \/ modified c i l))
    (match ids with [] => ret tt | _ => AWSClient.ModifyVpcEndpoint c i end) s.
Proof.
  apply unless_empty_extends. intros Q HQ.
  destruct (ModifyVpcEndpoint_extends c i s) as (l & ? & ? & ?). exists l. auto.
Qed.

Lemma unless_empty_wrap {A} (ids : list A) c i prefix s :
  extends (fun o l m' => m' = local s /\
             (o = Ok tt -> (ids = [] /\ l = []) \/ modified c i l))
    (match ids with [] => ret tt | _ => wrap prefix (AWSClient.ModifyVpcEndpoint c i) end) s.
Proof.
  apply unless_empty_extends. intros Q HQ. apply extends_wp, wp_wrap.
  eapply wp_extends; [apply ModifyVpcEndpoint_extends|].
  intros [[]|e|w|] l s' Ht [Hs Ho]; exists l; (split; [done|]); apply HQ; auto; discriminate.
Qed.

Lemma subnets_attached add c vpce l :
  (add = [] /\ l = []) \/ modified c (modifySubnets add [] vpce) l ->
  forall X, subnets_after X l = X ∪ list_to_set add.
Proof.
  intros [[-> ->]|(cfg & _ & ->)] X; simpl.
  - by rewrite union_empty_r_L.
  - by rewrite difference_empty_L.
Qed.

Lemma subnets_detached rem c vpce l :
  (rem = [] /\ l = []) \/ modified c (modifySubnets [] rem vpce) l ->
  forall X, subnets_after X l = X ∖ list_to_set rem.
Proof.
  intros [[-> ->]|(cfg & _ & ->)] X; simpl.
  - by rewrite difference_empty_L.
  - by rewrite union_empty_r_L.
Qed.

(** C22: after [ensureVpcEndpointSubnets] the endpoint has exactly the expected
    subnets: applying its modifications, in order, to the subnets AWS reported
    gives the set of [.spec.vpc.subnetIds], or the discovered subnets. *)
Theorem endpoint_subnets_converge vpce s s' :
  range_is_valid ->
  ensureVpcEndpointSubnets vpce s = (Ok tt, s') ->
  exists l ids, trace s' = trace s ++ l /\
    (expectedSubnets (resource (local s)) s).1 = Ok ids /\
    subnets_after (list_to_set (ec2Types.SubnetIds vpce)) l = list_to_set ids.
Proof.
  intros Hrange. cut (wp (ensureVpcEndpointSubnets vpce) (fun o s' => o = Ok tt ->
    exists l ids, trace s' = trace s ++ l /\
    (expectedSubnets (resource (local s)) s).1 = Ok ids /\
    subnets_after (list_to_set (ec2Types.SubnetIds vpce)) l = list_to_set ids) s).
  { unfold wp. intros Hwp Hrun. rewrite Hrun in Hwp. by apply Hwp. }
  unfold ensureVpcEndpointSubnets, res, client. repeat wp_step. cbn beta.
  assert (He : respects (emits (W:=W) (no modifies) (eq (local s)))
                 (expectedSubnets (resource (local s)))) by go_respects.
  destruct (He s eq_refl) as (Hl1 & l1 & Ht1 & Hm1). unfold wp.
  destruct (expectedSubnets (resource (local s)) s) as [[ids|e|w|] s1]; try done.
  cbn [fst snd continue] in *. wp_step. apply twoWayDiff_wp; [done|].
  intros [[add rem]|e|w|] s2 l2 Ht2 Hm2 _ Hdiff; try done.
  destruct (Hdiff add rem eq_refl) as [Hadd Hrem]. cbn [continue].
  assert (Hset : ((list_to_set (ec2Types.SubnetIds vpce) : gset string) ∖ list_to_set rem)
                   ∪ list_to_set add = list_to_set ids).
  { apply set_eq. intros k.
    rewrite elem_of_union, elem_of_difference, !elem_of_list_to_set, Hadd, Hrem.
    destruct (decide (k ∈ ec2Types.SubnetIds vpce)), (decide (k ∈ ids)); tauto. }
  wp_step. eapply wp_extends; [apply unless_empty_wrap|].
  intros [[]|e|w|] l3 s3 Ht3 [_ H3]; cbn [continue]; try done. specialize (H3 eq_refl).
  eapply wp_extends; [apply unless_empty_wrap|].
  intros o l4 s4 Ht4 [_ H4] ->. specialize (H4 eq_refl).
  exists (l1 ++ l2 ++ l3 ++ l4), ids. split; [|split; [done|]].
  { by rewrite Ht4, Ht3, Ht2, Ht1, !app_assoc. }
  unfold subnets_after. rewrite !foldl_app. fold subnets_after.
  rewrite (subnets_after_other _ l1), (subnets_after_other _ l2) by done.
  by rewrite <- Hset, (subnets_attached _ _ _ _ H4), (subnets_detached _ _ _ _ H3).
Qed.

Lemma groups_after_other X l : Forall (event_sat (no modifies)) l -> groups_after X l = X.
Proof.
  unfold groups_after. induction 1 as [|e l He Hl IH]; simpl; [done|].
  by rewrite modify_event_other.
Qed.

Lemma groups_after_take X l l' k :
  Forall (event_sat (no modifies)) l ->
  exists k', groups_after X (take k (l ++ l')) = groups_after X (take k' l').
Proof.
  intros Hl. exists (k - length l). rewrite take_app. unfold groups_after.
  rewrite foldl_app. fold groups_after. rewrite (groups_after_other _ (take k l)); [done|by apply Forall_take].
Qed.

Lemma take_two {A} k (l l' : list A) :
  (length l <= 1)%nat -> (length l' <= 1)%nat ->
  take k (l ++ l') = [] \/ take k (l ++ l') = l \/ take k (l ++ l') = l ++ l'.
Proof.
  intros Hl Hl'. destruct l as [|a [|]], l' as [|a' [|]], k as [|[|k]]; simpl in *;
    try lia; rewrite ?take_nil; auto.
Qed.

Lemma attach_one X add c vpce l :
  (add = [] /\ l = []) \/ modified c (modifySecurityGroups add [] vpce) l ->
  groups_after X l = X ∪ list_to_set add /\ (length l <= 1)%nat.
Proof.
  intros [[-> ->]|(cfg & _ & ->)]; simpl; (split; [|lia]).
  - by rewrite union_empty_r_L.
  - by rewrite difference_empty_L.
Qed.

Lemma detach_one X rem c vpce l :
  (rem = [] /\ l = []) \/ modified c (modifySecurityGroups [] rem vpce) l ->
  groups_after X l = X ∖ list_to_set rem /\ (length l <= 1)%nat.
Proof.
  intros [[-> ->]|(cfg & _ & ->)]; simpl; (split; [|lia]).
  - by rewrite difference_empty_L.
  - by rewrite union_empty_r_L.
Qed.

(** Attaching first: [add] is what misses of [{sg}], [rem] what is superfluous. *)
Lemma attach_then_detach X sg (add rem : list string) c vpce l2 l3 :
  (list_to_set add : gset string) = {[sg]} ∖ X ->
  (list_to_set rem : gset string) = X ∖ {[sg]} ->
  (add = [] /\ l2 = []) \/ modified c (modifySecurityGroups add [] vpce) l2 ->
  (rem = [] /\ l3 = []) \/ modified c (modifySecurityGroups [] rem vpce) l3 ->
  groups_after X (l2 ++ l3) = {[sg]} /\
  forall k, groups_after X (take k (l2 ++ l3)) = X \/ sg ∈ groups_after X (take k (l2 ++ l3)).
Proof.
  intros Hadd Hrem [Ha Hl2]%(attach_one X) Hd.
  destruct (detach_one (groups_after X l2) _ _ _ _ Hd) as [Hr Hl3].
  assert (Hin : sg ∈ groups_after X l2).
  { rewrite Ha, Hadd, elem_of_union, elem_of_difference, elem_of_singleton.
    destruct (decide (sg ∈ X)); auto. }
  assert (Hfinal : groups_after X (l2 ++ l3) = {[sg]}).
  { transitivity (groups_after (groups_after X l2) l3); [apply foldl_app|].
    rewrite Hr, Ha, Hadd, Hrem. apply set_eq. intros k.
    rewrite !elem_of_difference, elem_of_union, elem_of_difference, elem_of_singleton.
    destruct (decide (k = sg)), (decide (k ∈ X)); tauto. }
  split; [done|]. intros k.
  destruct (take_two k l2 l3 Hl2 Hl3) as [->|[->| ->]]; [auto|auto|right].
  rewrite Hfinal. by apply elem_of_singleton.
Qed.

(** C21: after [ensureVpcEndpointSecurityGroups] exactly the security group of the
    status is attached to the endpoint; and since the missing group is attached
    before the superfluous ones are detached, the endpoint has a security group at
    every point in between (if it had one to begin with). *)
Theorem endpoint_security_groups_converge vpce s s' gs :
  range_is_valid ->
  sequence (ec2Types.Groups vpce) = Some gs ->
  ensureVpcEndpointSecurityGroups vpce s = (Ok tt, s') ->
  exists l, trace s' = trace s ++ l /\
    groups_after (list_to_set gs) l = {[ SecurityGroupId (status (resource (local s))) ]} /\
    (gs <> [] -> forall k, groups_after (list_to_set gs) (take k l) <> ∅).
Proof.
  intros Hrange Hgs. cut (wp (ensureVpcEndpointSecurityGroups vpce) (fun o s' => o = Ok tt ->
    exists l, trace s' = trace s ++ l /\
    groups_after (list_to_set gs) l = {[ SecurityGroupId (status (resource (local s))) ]} /\
    (gs <> [] -> forall k, groups_after (list_to_set gs) (take k l) <> ∅)) s).
  { unfold wp. intros Hwp Hrun. rewrite Hrun in Hwp. by apply Hwp. }
  unfold ensureVpcEndpointSecurityGroups, diffVpcEndpointSecurityGroups, res_status, client.
  rewrite Hgs. repeat wp_step. cbn beta.
  set (sg := SecurityGroupId _). apply twoWayDiff_wp; [done|].
  intros [[add rem]|e|w|] s1 l1 Ht1 Hm1 _ Hdiff; try done.
  destruct (Hdiff add rem eq_refl) as [Hadd Hrem]. cbn [continue].
  repeat wp_step. eapply wp_extends; [apply unless_empty_modify|].
  intros [[]|e|w|] l2 s2 Ht2 [_ H2']; cbn [continue]; try done. specialize (H2' eq_refl).
  eapply wp_extends; [apply unless_empty_modify|].
  intros o l3 s3 Ht3 [_ H3] ->. specialize (H3 eq_refl).
  exists (l1 ++ l2 ++ l3). split; [by rewrite Ht3, Ht2, Ht1, !app_assoc|].
  assert (Hadd' : (list_to_set add : gset string) = {[sg]} ∖ list_to_set gs).
  { apply set_eq. intros k. rewrite elem_of_list_to_set, Hadd, elem_of_difference, elem_of_singleton,
      elem_of_list_to_set, list_elem_of_singleton. tauto. }
  assert (Hrem' : (list_to_set rem : gset string) = list_to_set gs ∖ {[sg]}).
  { apply set_eq. intros k. rewrite elem_of_list_to_set, Hrem, elem_of_difference, elem_of_singleton,
      elem_of_list_to_set, list_elem_of_singleton. tauto. }
  destruct (attach_then_detach _ _ _ _ _ _ _ _ Hadd' Hrem' H2' H3) as [Hfinal Htake].
  split.
  - unfold groups_after. rewrite foldl_app. fold groups_after.
    by rewrite (groups_after_other _ l1).
  - intros Hne k. destruct (groups_after_take (list_to_set gs) l1 (l2 ++ l3) k Hm1) as [k' ->].
    destruct (Htake k') as [->|Hin].
    + destruct gs; [done|]. set_solver.
    + by apply non_empty_inhabited_L with sg.
Qed.
End spec.

(** ** Examples *)

#[local] Existing Instances K8sRef.helpers K8sRef.helpers_laws Sim.world.

Definition obj : VpcEndpoint :=
  Sim.object None [] (Sim.spec (Sim.phz "" None ""))
    (Sim.status_ "vpce-1" "sg-2" "" ""
       [ metav1.mkCondition AWSVpcEndpointCondition metav1.ConditionTrue "available" "";
         metav1.mkCondition AWSRoute53RecordCondition metav1.ConditionTrue "Created" "" ]).

Definition start : Sys Sim.State Mem := Sim.sys Sim.state obj.

Lemma unavailable_endpoint_not_ready_witness :
  exists l, trace (reconcileEndpointState (Sim.endpoint "vpce-1" "pending") start).2 = [] ++ l /\
    let m := local (reconcileEndpointState (Sim.endpoint "vpce-1" "pending") start).2 in
    not_ready "pending" m /\ Exists (sends_conditions (conditions m)) l /\
    ((reconcileEndpointState (Sim.endpoint "vpce-1" "pending") start).1 = Ok tt ->
       "pending" ∈ states_without_error) /\
    ((reconcileEndpointState (Sim.endpoint "vpce-1" "pending") start).1 = Ok tt \/
     exists e, (reconcileEndpointState (Sim.endpoint "vpce-1" "pending") start).1 = Err e).
Proof.
  apply (unavailable_endpoint_not_ready (Sim.endpoint "vpce-1" "pending") start); discriminate.
Defined.

Lemma rejected_endpoint_deleted_witness :
  let '(o, s') := reconcileEndpointState (Sim.endpoint "vpce-1" "rejected") start in
  (exists e, o = Err e) /\
  (exists a, trace s' = [] ++ [Ev (EC2 Sim.cfg (DeleteVpcEndpoints ["vpce-1"])) a]) /\
  is_true AWSRoute53RecordCondition (local s') = false.
Proof.
  apply (rejected_endpoint_deleted (Sim.endpoint "vpce-1" "rejected") start Sim.cfg);
    reflexivity.
Defined.

Lemma ready_iff_available_witness :
  is_true AWSVpcEndpointCondition
    (local (reconcileEndpointState (Sim.endpoint "vpce-1" "available") start).2) = true <->
  "available" = "available".
Proof.
  apply (ready_iff_available (Sim.endpoint "vpce-1" "available") start).
  vm_compute. reflexivity.
Defined.

Lemma endpoint_created_only_if_missing_witness :
  exists l, trace (findOrCreateVpcEndpoint (Sim.sys (Sim.set_endpoints [] Sim.state) obj)).2
      = [] ++ l /\
    preceded (event_sat creates_endpoint) (found_none "tag" "infra-example-vpce") l.
Proof.
  apply (endpoint_created_only_if_missing (Sim.sys (Sim.set_endpoints [] Sim.state) obj)
           (mkClusterInfo "tag" "us-east-1") "infra-example-vpce");
    [reflexivity|discriminate|reflexivity].
Defined.

(** In that run the endpoint is created. *)
Example endpoint_created_example :
  length (Sim.endpoints (world
    (findOrCreateVpcEndpoint (Sim.sys (Sim.set_endpoints [] Sim.state) obj)).2)) = 1%nat.
Proof. vm_compute. reflexivity. Qed.

Lemma sim_range_is_valid : range_is_valid (W:=Sim.State).
Proof. intros w w' o [= _ <-]. apply valid_order_elements. Qed.

Definition two_subnets : ec2Types.VpcEndpoint :=
  ec2Types.mkVpcEndpoint (Some "vpce-1") "available" (Some "vpc-1") ["subnet-0"; "subnet-9"]
    [Some "sg-1"; Some "sg-9"] None [].

Lemma endpoint_subnets_converge_witness :
  exists l ids,
    trace (ensureVpcEndpointSubnets two_subnets start).2 = [] ++ l /\
    (expectedSubnets obj start).1 = Ok ids /\
    subnets_after (list_to_set ["subnet-0"; "subnet-9"]) l = list_to_set ids.
Proof.
  apply (endpoint_subnets_converge two_subnets start); [exact sim_range_is_valid|].
  vm_compute. reflexivity.
Defined.

Lemma endpoint_security_groups_converge_witness :
  exists l, trace (ensureVpcEndpointSecurityGroups two_subnets start).2 = [] ++ l /\
    groups_after (list_to_set ["sg-1"; "sg-9"]) l = {[ "sg-2" ]} /\
    (["sg-1"; "sg-9"] <> [] ->
       forall k, groups_after (list_to_set ["sg-1"; "sg-9"]) (take k l) <> ∅).
Proof.
  apply (endpoint_security_groups_converge two_subnets start
           (ensureVpcEndpointSecurityGroups two_subnets start).2 ["sg-1"; "sg-9"]);
    [exact sim_range_is_valid|reflexivity|vm_compute; reflexivity].
Defined.
End EndpointSpec.
