(* ===== verification/CleanupSpec.v ===== *)
(** * What deletion guarantees

    Safety of [cleanupAwsResources]: which zones it never deletes, in what order
    the endpoint and its security group go away, and what the zone safeguard
    misses. *)
From S2P Require Import Prelude GoError Naming Types Calls GoMonad AwsClient.
From S2P Require Import Lookups Controller Helpers HostedZones Validation Cleanup Sim.
Import avov1alpha2 Helpers HostedZones Validation Cleanup.

Module CleanupSpec.

(** ** Kinds of calls *)

Definition deletes_zone : call_pred := fun R c =>
  match c with R53 _ (Calls.DeleteHostedZone _) => True | _ => False end.

Definition deletes_security_group : call_pred := fun R c =>
  match c with EC2 _ (Calls.DeleteSecurityGroup _) => True | _ => False end.

(** An answer of AWS from which it follows that the endpoint [id] is gone. *)
Definition confirms_ec2 (id : string) {R} (op : ec2op R) : error + R -> Prop :=
  match op in ec2op R return error + R -> Prop with
  | DescribeVpcEndpoints _ ids => fun a => ids = [id] /\
      match a with
      | inl e => has_code "InvalidVpcEndpointId.NotFound" e = true
      | inr [v] => ec2Types.State v = "deleted"
      | inr _ => False
      end
  | DeleteVpcEndpoints ids => fun a => ids = [id] /\
      match a with
      | inl e => has_code "InvalidVpcEndpoint.NotFound" e = true
      | inr _ => False
      end
  | _ => fun _ => False
  end.

Definition confirms_deleted (id : string) (e : event) : Prop :=
  match e with
  | @Ev R c a =>
      match c in call R return error + R -> Prop with
      | EC2 _ op => confirms_ec2 id op
      | _ => fun _ => False
      end a
  end.

(** Every deletion of a security group in [l] comes after an answer that
    confirms the end of the endpoint [id]. *)
Definition confirmed_first (id : string) (l : list event) : Prop :=
  preceded (event_sat deletes_security_group) (confirms_deleted id) l.

Section spec.
Context {W : Type} `{World W} `{K8sHelpers}.
Implicit Types s : Sys W Mem.

Definition spec_is (sp : VpcEndpointSpec) (m : Mem) : Prop := Spec (resource m) = sp.
Definition endpoint_is (id : string) (m : Mem) : Prop :=
  VPCEndpointId (status (resource m)) = id.

(** ** The polling loop *)

Lemma pollDeleted_emits (P : call_pred) (Inv : Mem -> Prop) :
  P _ Now -> (forall c id, P _ (EC2 c (DescribeVpcEndpoints [] [id]))) ->
  (forall d, P _ (AfterOrDone d)) ->
  (forall m, Inv m -> Inv (on_resource (set_status (set_VPCEndpointId "")) m)) ->
  forall fuel deadline id, respects (emits (W:=W) P Inv) (pollDeleted fuel deadline id).
Proof.
  intros HNow HDescribe HSleep HInv fuel deadline id.
  induction fuel as [|fuel IH]; cbn [pollDeleted]; go_respects.
Qed.

#[local] Hint Extern 1 (respects (emits _ _) (pollDeleted _ _ _)) =>
  apply pollDeleted_emits; [call_solve|intros; call_solve..|inv_solve] : respects.

(** ** Zones *)

Lemma cleanupZone_names_domain sp :
  (forall v, Spec v = sp -> names_domain v = false) ->
  respects (emits (W:=W) (no deletes_zone) (spec_is sp)) cleanupZone.
Proof.
  intros Hsp. unfold cleanupZone, res.
  apply emits_gets_bind. intros m Hm. rewrite (Hsp _ Hm), andb_false_r.
  go_respects.
Qed.

(** A resource whose spec names no domain (it discovers the zone, gives a zone
    id, or configures no DNS at all) never has a hosted zone deleted: whatever
    the services answer, [cleanupAwsResources] makes no [DeleteHostedZone]
    call. *)
Theorem unnamed_zone_never_deleted p s :
  names_domain (resource (local s)) = false ->
  exists l, trace (cleanupAwsResources p s).2 = trace s ++ l /\
    Forall (event_sat (no deletes_zone)) l.
Proof.
  intros Hn.
  assert (Hr : respects (emits (W:=W) (no deletes_zone) (spec_is (Spec (resource (local s)))))
                 (cleanupAwsResources p)).
  { pose proof (cleanupZone_names_domain (Spec (resource (local s)))) as Hz.
    assert (Hd : forall v, Spec v = Spec (resource (local s)) -> names_domain v = false).
    { intros v Hv. unfold names_domain, phz_spec in *. by rewrite Hv. }
    specialize (Hz Hd). unfold cleanupAwsResources. go_respects. }
  destruct (Hr s eq_refl) as (_ & l & Hl). eauto.
Qed.

(** ** The security group goes last *)

(** Describing the endpoint: an empty answer is a confirmation. *)
Lemma describe_extends c id s :
  id <> "" ->
  extends (fun o l m' => m' = local s /\
    forall resp, o = Ok resp ->
      (default [] resp = [] -> Exists (confirms_deleted id) l) /\
      (forall v vs, default [] resp = v :: vs -> ec2Types.State v = "deleted" ->
         Exists (confirms_deleted id) l))
    (AWSClient.DescribeSingleVPCEndpointById c id) s.
Proof.
  intros Hid%is_empty_false. apply extends_wp.
  unfold AWSClient.DescribeSingleVPCEndpointById. rewrite Hid.
  repeat wp_step. destruct c as [cfg|]; simpl;
    [|apply wp_lift; exists []; by rewrite app_nil_r].
  apply wp_trigger. intros w' [e|vs] _; simpl.
  - destruct (has_code _ e) eqn:He; apply wp_lift; (eexists; split; [reflexivity|]);
      (split; [done|]); intros resp; [intros [= <-]|done].
    split; [intros _|done]. apply Exists_cons_hd. simpl. done.
  - destruct vs as [|v [|v' vs]]; simpl; repeat wp_step;
      (eexists; split; [reflexivity|]); (split; [done|]); intros resp; try done.
    intros [= <-]. split; [done|]. intros ?? [= <- <-] Hv.
    apply Exists_cons_hd. done.
Qed.

(** Waiting either leaves the recorded id alone or has seen the endpoint gone. *)
Lemma pollDeleted_extends id fuel deadline s :
  id <> "" ->
  extends (fun o l m' => o = Ok tt ->
      VPCEndpointId (status (resource m')) = VPCEndpointId (status (resource (local s))) \/
      Exists (confirms_deleted id) l)
    (pollDeleted fuel deadline id) s.
Proof.
  intros Hid. revert s.
  induction fuel as [|fuel IH]; intros s; cbn [pollDeleted]; apply extends_wp.
  { repeat wp_step. close_trace. done. }
  wp_step. apply wp_trigger. intros w1 [e|now] _; cbn; [close_trace; done|].
  destruct (now <? deadline)%Z; [|apply wp_ret; close_trace; auto].
  unfold client. repeat wp_step.
  eapply wp_extends; [by apply describe_extends|]. cbn beta.
  intros [resp|e|w|] l1 s1 Ht1 [Hl1 Hresp]; cbn; try (close_trace; done).
  destruct (Hresp resp eq_refl) as [Hnil Hcons].
  destruct (default [] resp) as [|v vs].
  { unfold modify_status. repeat wp_step. close_trace. rewrite Exists_cons. auto. }
  destruct (String.eqb_spec (ec2Types.State v) "deleted") as [Hv|_].
  { unfold modify_status. repeat wp_step. close_trace. rewrite Exists_cons. eauto. }
  destruct (negb _); [repeat wp_step; close_trace; done|].
  repeat wp_step. apply wp_trigger. intros w2 [e|[]] _; cbn; [close_trace; done|].
  eapply wp_extends; [apply IH|]. cbn. rewrite Hl1. intros o l3 s3 Ht3 Ho.
  close_trace. intros ->. destruct (Ho eq_refl) as [?|Hc]; [auto|right].
  rewrite Exists_cons, Exists_app, Exists_cons. auto.
Qed.

(** When this part succeeds, no endpoint is recorded any more, and AWS has
    confirmed the end of the one that was. *)
Lemma cleanupVpcEndpoint_extends id s :
  id <> "" -> VPCEndpointId (status (resource (local s))) = id ->
  extends (fun o l m' => o = Ok tt ->
      VPCEndpointId (status (resource m')) = "" /\ Exists (confirms_deleted id) l)
    cleanupVpcEndpoint s.
Proof.
  intros Hid Hs. apply extends_wp. unfold cleanupVpcEndpoint, res_status. repeat wp_step.
  rewrite Hs. rewrite (proj2 (is_empty_false id) Hid). unfold cleanupMetrics, res.
  repeat wp_step. rewrite Hs, (proj2 (is_empty_false id) Hid).
  wp_step. unfold client. repeat wp_step. unfold AWSClient.DeleteVPCEndpoint, AWSClient.ec2.
  destruct (awsClient _) as [cfg|]; cbn; [|apply wp_lift; close_trace; done].
  apply wp_trigger. cbn. intros w2 [e|[]] _; cbn; repeat wp_step.
  - destruct (AsAPIError e) as [[code msg]|] eqn:He; [|repeat wp_step; close_trace; done].
    destruct (String.eqb_spec code "InvalidVpcEndpoint.NotFound") as [->|];
      [|repeat wp_step; close_trace; done].
    unfold eventNormal, modify_status, statusUpdate, res. repeat wp_step.
    apply wp_trigger. cbn. intros w4 [e'|rv] _; cbn; repeat wp_step; close_trace; [done|].
    intros _. split; [done|]. rewrite !Exists_cons. right. left. split; [done|].
    apply has_code_AsAPIError. eauto.
  - unfold awaitDeleted, eventNormal. repeat wp_step.
    apply wp_trigger. cbn. intros w4 [e'|now] _; cbn; [close_trace; done|].
    apply wp_bind. eapply wp_extends; [by apply pollDeleted_extends|]. cbn.
    rewrite Hs. intros [[]|e'|w|] l5 s5 Ht5 H5; cbn; try (close_trace; done).
    unfold res_status. repeat wp_step.
    destruct (is_empty (VPCEndpointId _)) eqn:Hempty; [|repeat wp_step; close_trace; done].
    apply is_empty_spec in Hempty. destruct (H5 eq_refl) as [H5'|H5']; [congruence|].
    unfold modify_status, statusUpdate, res. repeat wp_step.
    apply wp_trigger. cbn. intros w6 [e'|rv] _; cbn; repeat wp_step; close_trace; [done|].
    intros _. split; [done|]. rewrite !Exists_cons, !Exists_app. auto 10.
Qed.

Lemma cleanup_prefix_emits p id :
  respects (emits (W:=W) (no deletes_security_group) (endpoint_is id))
    (s <- res_status;;
     eventNormal "CleanupStarted"
       ("Starting cleanup of AWS resources (vpceId=" +:+ VPCEndpointId s +:+ ", sgId="
        +:+ SecurityGroupId s +:+ ", hzId=" +:+ HostedZoneId s +:+ ")");;
     cleanupRecord p;;
     cleanupZone)%go.
Proof. go_respects. Qed.

Lemma cleanupVpcEndpoint_emits :
  respects (emits (W:=W) (no deletes_security_group) (fun _ => True)) cleanupVpcEndpoint.
Proof. go_respects. Qed.

Lemma cleanup_suffix_emits :
  respects (emits (W:=W) (fun _ _ => True) (fun _ => True))
    (cleanupSecurityGroup;;
     eventNormal "CleanupComplete" "All AWS resources cleaned up successfully")%go.
Proof. go_respects. Qed.

Lemma cleanupAwsResources_split p s :
  cleanupAwsResources p s =
  (((s <- res_status;;
     eventNormal "CleanupStarted"
       ("Starting cleanup of AWS resources (vpceId=" +:+ VPCEndpointId s +:+ ", sgId="
        +:+ SecurityGroupId s +:+ ", hzId=" +:+ HostedZoneId s +:+ ")");;
     cleanupRecord p;;
     cleanupZone);;
    cleanupVpcEndpoint;;
    cleanupSecurityGroup;;
    eventNormal "CleanupComplete" "All AWS resources cleaned up successfully") s)%go.
Proof.
  unfold cleanupAwsResources. rewrite <- bind_assoc. apply bind_ext. intros st s1.
  rewrite <- bind_assoc. apply bind_ext. intros [] s2.
  by rewrite <- bind_assoc.
Qed.

(** C14: deletion keeps the order AWS requires: when an endpoint is recorded in
    the status, every [DeleteSecurityGroup] call of [cleanupAwsResources] comes
    after an answer of AWS that confirms the endpoint's end: a
    [DescribeVpcEndpoints] that does not find it any more or shows it deleted, or
    a [DeleteVpcEndpoints] that did not find it. *)
Theorem security_group_deleted_after_endpoint p s id :
  VPCEndpointId (status (resource (local s))) = id -> id <> "" ->
  exists l, trace (cleanupAwsResources p s).2 = trace s ++ l /\ confirmed_first id l.
Proof.
  intros Hs Hid. rewrite cleanupAwsResources_split.
  eapply (extends_bind _ (fun _ l _ => confirmed_first id l)).
  - apply (emits_extends _ _ _ _ (cleanup_prefix_emits p id)). exact Hs.
  - cbn beta. intros _ l1 s1 Ht1 [Hl1 Hs1].
    eapply (extends_bind (fun o l m' =>
      Forall (event_sat (no deletes_security_group)) l /\
      (o = Ok tt -> Exists (confirms_deleted id) l))).
    + destruct (cleanupVpcEndpoint_extends id s1 Hid Hs1) as (l2 & Ht2 & Hl2).
      destruct (cleanupVpcEndpoint_emits s1 I) as (_ & l2' & Ht2' & Hl2').
      exists l2. rewrite Ht2' in Ht2. apply app_inv_head in Ht2 as ->.
      split; [done|]. split; [done|]. intros Ho. by apply Hl2.
    + cbn beta. intros [] l2 s2 Ht2 [Hl2 Hc2].
      destruct (cleanup_suffix_emits s2 I) as (_ & l3 & Ht3 & _).
      exists l3. split; [exact Ht3|]. rewrite app_assoc.
      apply preceded_app; [by apply Forall_app_2|]. rewrite Exists_app. auto.
    + cbn beta. intros e l2 m' [Hl2 _]. by apply preceded_none, Forall_app_2.
    + cbn beta. intros e l2 m' [Hl2 _]. by apply preceded_none, Forall_app_2.
    + cbn beta. intros l2 m' [Hl2 _]. by apply preceded_none, Forall_app_2.
  - intros e l m' [Hl _]. by apply preceded_none.
  - intros e l m' [Hl _]. by apply preceded_none.
  - intros l m' [Hl _]. by apply preceded_none.
Qed.

(** ** The safeguard for the cluster's own zone *)

(** A resource that names the cluster's base domain literally never has that
    hosted zone deleted: [cleanupAwsResources] makes no [DeleteHostedZone] call,
    provided the DNS object always shows this base domain when it can be read.
    (With a hosted control plane reference an unreadable DNS object lets the
    deletion go ahead, so that case is left out.) *)
Theorem cluster_zone_kept p s dns :
  DomainName (phz_spec (resource (local s))) = configv1.BaseDomain dns ->
  hostedControlPlaneRef (resource (local s)) = None ->
  (forall w w' d, handle (Kube (GetDNS Lookups.DefaultDnsesName)) w = (w', inr d) -> d = dns) ->
  exists l, trace (cleanupAwsResources p s).2 = trace s ++ l /\
    Forall (event_sat (no deletes_zone)) l.
Proof.
  intros Hd Hhcp Hdns. set (sp := Spec (resource (local s))).
  assert (Hz : respects (emits (W:=W) (no deletes_zone) (spec_is sp)) cleanupZone).
  { unfold cleanupZone, res. apply emits_gets_bind. intros m Hm.
    assert (Hm1 : DomainName (phz_spec (resource m)) = configv1.BaseDomain dns)
      by (unfold phz_spec in *; rewrite Hm; exact Hd).
    assert (Hm2 : hostedControlPlaneRef (resource m) = None)
      by (unfold hostedControlPlaneRef, phz_spec in *; rewrite Hm; exact Hhcp).
    case_match; [|go_respects]. intros s1 Hs1.
    unfold bind, try, trigger.
    destruct (handle (Kube (GetDNS Lookups.DefaultDnsesName)) (world s1)) as [w' [e|d]] eqn:E;
      simpl.
    - rewrite Hm2. split; [done|]. eexists. split; [done|]. repeat constructor. intros [].
    - apply Hdns in E as ->. rewrite Hm1, String.eqb_refl. split; [done|].
      eexists. split; [done|]. repeat constructor. intros []. }
  assert (Hr : respects (emits (W:=W) (no deletes_zone) (spec_is sp))
                 (cleanupAwsResources p)) by (unfold cleanupAwsResources; go_respects).
  destruct (Hr s eq_refl) as (_ & l & Hl). eauto.
Qed.

(** The safeguard compares the literal [domainName] only. A resource that
    names the cluster's zone through [domainNameRef] to the cluster's DNS object
    gets the base domain as its domain, and still goes on to delete that zone. *)
Theorem safeguard_misses_dns_reference s hcp w' dns :
  DomainName (phz_spec (resource (local s))) = "" ->
  DomainNameRef (phz_spec (resource (local s))) =
    Some (mkDomainName "" (Some (mkDomainNameSource
      (Some (mkDnsSelector Lookups.DefaultDnsesName)) hcp))) ->
  HostedZoneId (status (resource (local s))) <> "" ->
  handle (Kube (GetDNS Lookups.DefaultDnsesName)) (world s) = (w', inr dns) ->
  configv1.BaseDomain dns <> "" ->
  (requestedDomainName s).1 = Ok (configv1.BaseDomain dns) /\
  cleanupZone s =
    deleteZone (after s (Kube (GetDNS Lookups.DefaultDnsesName)) w' (inr dns)).
Proof.
  intros Hd Href Hz%is_empty_false Hdns Hb. split.
  - unfold requestedDomainName, res, bind, gets. rewrite Hd, Href. simpl.
    unfold Lookups.dnses_GetPrivateHostedZoneDomainName, bind, trigger.
    by rewrite Hdns.
  - unfold cleanupZone, res, bind, gets. unfold names_domain. rewrite Hd, Href, Hz. simpl.
    unfold try, trigger. rewrite Hdns. simpl.
    by destruct (configv1.BaseDomain dns).
Qed.
End spec.

(** ** Examples *)

#[local] Existing Instances K8sRef.helpers Sim.world.

(** An object that found its zone by id. *)
Definition by_id : VpcEndpoint :=
  Sim.object (Some 1%Z) [] (Sim.spec (Sim.phz "" None ""))
    (Sim.status_ "vpce-1" "sg-1" "Z1" "" []).

Lemma unnamed_zone_never_deleted_witness :
  names_domain by_id = false /\
  exists l, trace (cleanupAwsResources resource_ptr_ (Sim.sys Sim.state by_id)).2 = [] ++ l /\
    Forall (event_sat (no deletes_zone)) l.
Proof.
  split; [reflexivity|].
  apply (unnamed_zone_never_deleted resource_ptr_ (Sim.sys Sim.state by_id)). reflexivity.
Defined.

Lemma security_group_deleted_after_endpoint_witness :
  exists l, trace (cleanupAwsResources resource_ptr_ (Sim.sys Sim.state by_id)).2 = [] ++ l /\
    confirmed_first "vpce-1" l.
Proof.
  apply (security_group_deleted_after_endpoint resource_ptr_ (Sim.sys Sim.state by_id) "vpce-1").
  - reflexivity.
  - discriminate.
Defined.

(** The run does delete the security group, and the endpoint is gone by then. *)
Example security_group_deleted_example :
  let s := (cleanupAwsResources resource_ptr_ (Sim.sys Sim.state by_id)).2 in
  (cleanupAwsResources resource_ptr_ (Sim.sys Sim.state by_id)).1 = Ok tt /\
  Sim.securityGroups (world s) = [] /\ Sim.endpoints (world s) = [].
Proof. vm_compute. auto. Qed.

(** An object that names the base domain of the cluster. *)
Definition by_name : VpcEndpoint :=
  Sim.object (Some 1%Z) [] (Sim.spec (Sim.phz "example.com" None ""))
    (Sim.status_ "vpce-1" "sg-1" "Z1" "" []).

Lemma cluster_zone_kept_witness :
  exists l, trace (cleanupAwsResources resource_ptr_ (Sim.sys Sim.state by_name)).2 = [] ++ l /\
    Forall (event_sat (no deletes_zone)) l.
Proof.
  apply (cluster_zone_kept resource_ptr_ (Sim.sys Sim.state by_name)
           (configv1.mkDNS Sim.baseDomain)).
  - reflexivity.
  - reflexivity.
  - intros w w' d [= _ <-]. reflexivity.
Defined.

(** An object that refers to the DNS object of the cluster. *)
Definition by_reference : VpcEndpoint :=
  Sim.object (Some 1%Z) []
    (Sim.spec (Sim.phz "" (Some (mkDomainName "" (Some (mkDomainNameSource
       (Some (mkDnsSelector Lookups.DefaultDnsesName)) None)))) ""))
    (Sim.status_ "vpce-1" "sg-1" "Z1" "" []).

Lemma safeguard_misses_dns_reference_witness :
  (requestedDomainName (Sim.sys Sim.state by_reference)).1 = Ok "example.com" /\
  cleanupZone (Sim.sys Sim.state by_reference) =
    deleteZone (after (Sim.sys Sim.state by_reference)
      (Kube (GetDNS Lookups.DefaultDnsesName)) Sim.state (inr (configv1.mkDNS Sim.baseDomain))).
Proof.
  apply (safeguard_misses_dns_reference (Sim.sys Sim.state by_reference) None Sim.state
           (configv1.mkDNS Sim.baseDomain)); [reflexivity..|discriminate|reflexivity|discriminate].
Defined.

(** The zone of the cluster, whose name is the base domain, is gone afterwards. *)
Example cluster_zone_deleted_example :
  Sim.zones (world (Sim.sys Sim.state by_reference)) = [Sim.zone "Z1" "example.com."] /\
  Sim.zones (world (cleanupAwsResources resource_ptr_ (Sim.sys Sim.state by_reference)).2) = [].
Proof. vm_compute. auto. Qed.
End CleanupSpec.
