(* ===== verification/Termination.v ===== *)
(** * Every reconcile ends

    All loops of the controller run over finite slices, except the one that
    polls a deleted endpoint until a deadline.  Under the laws of the clock that
    loop stops within the fuel of the model, so [Reconcile] always produces an
    outcome. *)
From S2P Require Import Prelude GoError Naming Types Calls GoMonad AwsClient Lookups.
From S2P Require Import Rules Controller Helpers HostedZones Validation Cleanup Reconcile Sim.
Import avov1alpha2.

Module Termination.
Import Naming Rules Helpers HostedZones Validation Cleanup Reconcile.

(** ** Pure functions *)

Ltac total := repeat (progress intros || go_total).

Lemma GenerateAwsTags_total n k : GenerateAwsTags n k <> OutOfFuel.
Proof. unfold GenerateAwsTags. total. Qed.
Lemma GenerateR53Tags_total k : GenerateR53Tags k <> OutOfFuel.
Proof. unfold GenerateR53Tags. total. Qed.
Lemma GetClusterLegacyTagKey_total n : GetClusterLegacyTagKey n <> OutOfFuel.
Proof. unfold GetClusterLegacyTagKey. total. Qed.
Lemma GetClusterCapiTagKey_total n : GetClusterCapiTagKey n <> OutOfFuel.
Proof. unfold GetClusterCapiTagKey. total. Qed.
Lemma generateName_total p s n : generateName p s n <> OutOfFuel.
Proof. unfold generateName, slice_to. cbv zeta. total. Qed.
#[local] Hint Resolve GenerateAwsTags_total GenerateR53Tags_total GetClusterLegacyTagKey_total
  GetClusterCapiTagKey_total generateName_total : total.

Lemma tagsToMap_total tags m : tagsToMap tags m <> OutOfFuel.
Proof. revert m. induction tags; simpl; total. Qed.
Lemma GenerateSecurityGroupName_total c p : GenerateSecurityGroupName c p <> OutOfFuel.
Proof. unfold GenerateSecurityGroupName. total. Qed.
Lemma GenerateVPCEndpointName_total c p : GenerateVPCEndpointName c p <> OutOfFuel.
Proof. unfold GenerateVPCEndpointName. total. Qed.
#[local] Hint Resolve tagsToMap_total GenerateSecurityGroupName_total
  GenerateVPCEndpointName_total : total.
Lemma GenerateAwsTagsAsMap_total n k : GenerateAwsTagsAsMap n k <> OutOfFuel.
Proof. unfold GenerateAwsTagsAsMap. total. Qed.
Lemma countPage_total l m : AWSClient.countPage l m <> OutOfFuel.
Proof. revert m. induction l; simpl; total. Qed.
#[local] Hint Resolve GenerateAwsTagsAsMap_total countPage_total : total.
Lemma countPages_total l m : AWSClient.countPages l m <> OutOfFuel.
Proof. revert m. induction l as [|[e|p] l IH]; simpl; total. Qed.
Lemma sameVpc_total v l : AWSClient.sameVpc v l <> OutOfFuel.
Proof. induction l; simpl; total. Qed.
Lemma findZoneByName_total n l : AWSClient.findZoneByName n l <> OutOfFuel.
Proof. induction l; simpl; total. Qed.
Lemma GenerateDefaultTags_total z k :
  AWSClient.GenerateDefaultTagsForHostedZoneInput z k <> OutOfFuel.
Proof. unfold AWSClient.GenerateDefaultTagsForHostedZoneInput. total. Qed.
Lemma findSummary_total n l : findSummary n l <> OutOfFuel.
Proof. induction l; simpl; total. Qed.
Lemma findPrivateZone_total n l : findPrivateZone n l <> OutOfFuel.
Proof. induction l; simpl; total. Qed.
Lemma apiServerDomain_total l : Lookups.apiServerDomain l <> OutOfFuel.
Proof. induction l; simpl; total. Qed.
Lemma hasTag_total l k v : hasTag l k v <> OutOfFuel.
Proof. induction l; simpl; total. Qed.
Lemma subnetSelected_total v azs s : subnetSelected v azs s <> OutOfFuel.
Proof. induction azs; simpl; total. Qed.
#[local] Hint Resolve countPages_total sameVpc_total findZoneByName_total
  GenerateDefaultTags_total findSummary_total findPrivateZone_total apiServerDomain_total
  hasTag_total subnetSelected_total : total.
Lemma hasTags_total l es : hasTags l es <> OutOfFuel.
Proof. induction es as [|[k v] es IH]; simpl; total. Qed.
Lemma tagsContains_total o l m : tagsContains o l m <> OutOfFuel.
Proof. apply hasTags_total. Qed.
Lemma selectSubnets_total v azs l : selectSubnets v azs l <> OutOfFuel.
Proof. induction l; simpl; total. Qed.

Lemma candidate_total e a r : avoAndAwsSecurityGroupRuleCandidate e a r <> OutOfFuel.
Proof. unfold avoAndAwsSecurityGroupRuleCandidate. total. Qed.
#[local] Hint Resolve candidate_total : total.
Lemma foundCidr_total e a c l : foundCidr e a c l <> OutOfFuel.
Proof. induction l; simpl; total. Qed.
Lemma foundSourceSg_total e a g l : foundSourceSg e a g l <> OutOfFuel.
Proof. induction l; simpl; total. Qed.
#[local] Hint Resolve tagsContains_total selectSubnets_total foundCidr_total
  foundSourceSg_total : total.
Lemma sourceSgCase_total e a l gs : sourceSgCase e a l gs <> OutOfFuel.
Proof. induction gs; simpl; total. Qed.
Lemma cidrCase_total e a c l : cidrCase e a c l <> OutOfFuel.
Proof. unfold cidrCase. total. Qed.
#[local] Hint Resolve sourceSgCase_total cidrCase_total : total.
Lemma missingPermissions_total e u c gs l rs : missingPermissions e u c gs l rs <> OutOfFuel.
Proof.
  induction rs; simpl; [discriminate|]. unfold rulePermissions. total.
Qed.
Lemma missingIngress_total u c gs l rs : missingIngress u c gs l rs <> OutOfFuel.
Proof. apply missingPermissions_total. Qed.
Lemma missingEgress_total u c gs l rs : missingEgress u c gs l rs <> OutOfFuel.
Proof. apply missingPermissions_total. Qed.
#[local] Hint Resolve missingIngress_total missingEgress_total : total.

(** ** The polling loop *)

Section clock.
Context {W : Type} `{World W} `{K8sHelpers} (clock : W -> Z) `{!ClockLaws clock}.
Implicit Types s : Sys W Mem.

Definition later : relation (Sys W Mem) := fun s s' =>
  (clock (world s) <= clock (world s'))%Z.

#[local] Instance later_preorder : PreOrder later.
Proof. split; unfold later; [intros s|intros s1 s2 s3]; lia. Qed.

Lemma later_trigger {R} (c : call R) : respects later (trigger c).
Proof.
  intros s. unfold later, trigger. destruct (handle c (world s)) as [w' r] eqn:E.
  by apply clock_monotone in E.
Qed.
#[local] Hint Resolve later_trigger : respects.

(** An iteration that sleeps costs five seconds, so [fuel + 1] iterations
    are enough for a deadline [fuel] sleeps away. *)
Lemma pollDeleted_terminates fuel deadline id s :
  (deadline - clock (world s) <= Z.of_nat fuel * pollInterval)%Z ->
  (pollDeleted (S fuel) deadline id s).1 <> OutOfFuel.
Proof.
  revert s. induction fuel as [|fuel IH]; intros s Hd;
    change (wp (pollDeleted (S (S fuel)) deadline id) (fun o _ => o <> OutOfFuel) s) ||
    change (wp (pollDeleted 1 deadline id) (fun o _ => o <> OutOfFuel) s);
    cbn [pollDeleted]; wp_step; apply wp_trigger; intros w1 r1 E1;
    apply clock_now in E1 as (t & -> & Ht); cbn [of_answer continue];
    destruct (Z.ltb_spec t deadline) as [Hlt|_]; try (by apply wp_ret); [lia|].
  unfold client. repeat wp_step.
  set (s1 := after s _ w1 _).
  pose proof (ltac:(go_respects) : respects later
    (AWSClient.DescribeSingleVPCEndpointById (awsClient (reconciler (local s1))) id)) as Hl.
  pose proof (ltac:(go_terminates) : terminates (W:=W) (L:=Mem)
    (AWSClient.DescribeSingleVPCEndpointById (awsClient (reconciler (local s1))) id)) as Hf.
  specialize (Hl s1). specialize (Hf s1). unfold wp.
  destruct (AWSClient.DescribeSingleVPCEndpointById _ id s1) as [[resp|e|w|] s2];
    cbn [fst snd continue] in *; try done.
  destruct (default [] resp) as [|v vs]; [by apply wp_modify|].
  destruct (String.eqb _ _); [by apply wp_modify|].
  destruct (negb _); [by repeat wp_step|].
  repeat wp_step. apply wp_trigger. intros w3 [e|[]] E3; cbn [of_answer continue]; [done|].
  apply clock_sleep in E3. apply IH. unfold later in Hl. cbn [world after] in *.
  unfold s1 in Hl. cbn in Hl. lia.
Qed.

Lemma awaitDeleted_terminates id : terminates (W:=W) (awaitDeleted id).
Proof.
  unfold awaitDeleted. apply terminates_bind; [go_terminates|intros _].
  intros s. change (wp
    (now <- trigger Now;;
     pollDeleted pollFuel (now + pollTimeout)%Z id;;
     s <- res_status;;
     if is_empty (VPCEndpointId s) then ret tt
     else fail (EOpaque ("timed out waiting for VPC endpoint " +:+ id +:+ " to delete")))%go
    (fun o _ => o <> OutOfFuel) s).
  wp_step. apply wp_trigger. intros w1 r1 E1.
  apply clock_now in E1 as (t & -> & Ht). cbn [of_answer continue]. wp_step.
  assert (Hp : (pollDeleted pollFuel (t + pollTimeout)%Z id
                  (after s Now w1 (inr t))).1 <> OutOfFuel).
  { apply pollDeleted_terminates. cbn [world after].
    change (Z.of_nat 36 * pollInterval)%Z with pollTimeout. lia. }
  unfold wp. destruct (pollDeleted _ _ _ _) as [[a|e|w|] s2]; cbn [fst snd continue] in *;
    try done.
  unfold res_status. repeat wp_step. by destruct (is_empty _); repeat wp_step.
Qed.
#[local] Hint Resolve awaitDeleted_terminates : total.

(** C17: reconciling always ends with a result, an error or a panic, whatever the
    services answer: under the laws of the clock the fuel of the one loop that is
    not bounded by a slice, the wait for a deleted endpoint, never runs out. *)
Theorem Reconcile_terminates namespace name s :
  (Reconcile (W:=W) namespace name s).1 <> OutOfFuel.
Proof. revert s. change (terminates (Reconcile namespace name)). go_terminates. Qed.

End clock.

#[local] Existing Instances K8sRef.helpers Sim.world Sim.clock_laws.

(** Deleting an object whose endpoint takes three polls to go away. *)
Lemma Reconcile_terminates_witness :
  (Reconcile "ns" "example"
     (Sim.sys
        (Sim.set_stored
           (Some (Sim.object (Some 1%Z) [avoFinalizer]
                    (Sim.spec (Sim.phz "" None "")) (Sim.status_ "vpce-1" "sg-1" "" "" [])))
           Sim.state)
        VpcEndpoint_zero)).1 <> OutOfFuel.
Proof. apply (Reconcile_terminates Sim.clock). Defined.
End Termination.
