(* ===== verification/ReconcileSpec.v ===== *)
(** * What a reconcile guarantees

    The finalizer protocol, what a live object never loses, when a reconcile is
    retried, and the private DNS switch. *)
From S2P Require Import Prelude GoError Naming Types Calls GoMonad AwsClient Lookups.
From S2P Require Import Controller Helpers HostedZones Validation Cleanup Reconcile Sim CleanupSpec.
Import avov1alpha2 Helpers HostedZones Validation Cleanup Reconcile.

Module ReconcileSpec.
Import CleanupSpec.

(** ** Kinds of calls *)

Definition updates_object : call_pred := fun R c =>
  match c with Kube (UpdateVpcEndpoint _) => True | _ => False end.

Definition creates_resource : call_pred := fun R c =>
  match c with
  | EC2 _ (Calls.CreateSecurityGroup _) | EC2 _ (Calls.CreateVpcEndpoint _)
  | R53 _ (Calls.CreateHostedZone _) => True
  | _ => False
  end.

Definition deletes_zone_or_group : call_pred := fun R c =>
  match c with
  | R53 _ (Calls.DeleteHostedZone _) | EC2 _ (Calls.DeleteSecurityGroup _) => True
  | _ => False
  end.

Definition calls_route53 : call_pred := fun R c =>
  match c with R53 _ _ => True | _ => False end.

(** The finalizer was stored by the API server. *)
Definition stores_finalizer (e : event) : Prop :=
  match e with
  | @Ev R c a =>
      match c in call R return error + R -> Prop with
      | Kube op =>
          match op in kubeop R return error + R -> Prop with
          | UpdateVpcEndpoint v => fun a =>
              avoFinalizer ∈ metav1.Finalizers (meta v) /\ exists rv, a = inr rv
          | _ => fun _ => False
          end
      | _ => fun _ => False
      end a
  end.

Section spec.
Context {W : Type} `{World W} `{K8sHelpers}.
Implicit Types s : Sys W Mem.

Definition finalizers_are (fs : list string) (m : Mem) : Prop :=
  metav1.Finalizers (meta (resource m)) = fs.

#[local] Hint Extern 1 (respects (emits _ _) (pollDeleted _ _ _)) =>
  apply pollDeleted_emits; [call_solve|intros; call_solve..|inv_solve] : respects.

(** ** Deletion and the finalizer *)

Lemma cleanup_emits p fs :
  respects (emits (W:=W) (no updates_object) (finalizers_are fs)) (cleanupAwsResources p).
Proof. go_respects. Qed.

Lemma cleanupFailed_emits e fs :
  respects (emits (W:=W) (no updates_object) (finalizers_are fs)) (cleanupFailed e).
Proof. go_respects. Qed.

(** The result of a failed cleanup. *)
Lemma cleanupFailed_result e s :
  (cleanupFailed e s).1 =
  if has_code "DependencyViolation" e then Ok (mkResult (30 * Second)) else Err e.
Proof.
  change (wp (cleanupFailed e) (fun o _ => o =
    if has_code "DependencyViolation" e then Ok (mkResult (30 * Second)) else Err e) s).
  unfold cleanupFailed, has_code, cleanupFailure, eventWarning,
    awsUnauthorizedOperationMetricHandler.
  destruct (AsAPIError e) as [[code msg]|]; cbv zeta; [|by repeat wp_step].
  destruct (String.eqb code "DependencyViolation"); [by repeat wp_step|].
  wp_step. repeat case_match; repeat wp_step; done.
Qed.

(** C15: as long as the AWS resources of a deleted object are not cleaned up, the
    object keeps its finalizer: when [cleanupAwsResources] fails, the reconcile
    updates the object in no way, and is retried: after thirty seconds without
    an error for a [DependencyViolation], through the error otherwise. *)
Theorem failed_cleanup_keeps_finalizer p s e s1 :
  ContainsFinalizer (metav1.Finalizers (meta (resource (local s)))) avoFinalizer = true ->
  cleanupAwsResources p s = (Err e, s1) ->
  let '(o, s') := reconcileDelete p s in
  o = (if has_code "DependencyViolation" e then Ok (mkResult (30 * Second)) else Err e) /\
  metav1.Finalizers (meta (resource (local s'))) = metav1.Finalizers (meta (resource (local s))) /\
  exists l, trace s' = trace s ++ l /\ Forall (event_sat (no updates_object)) l.
Proof.
  intros Hf Hc.
  assert (reconcileDelete p s = cleanupFailed e s1) as ->.
  { unfold reconcileDelete, res, bind, gets. rewrite Hf. unfold try. by rewrite Hc. }
  pose proof (cleanupFailed_result e s1) as Hres.
  destruct (cleanup_emits p _ s eq_refl) as (Hi1 & l1 & Ht1 & Hl1). rewrite Hc in Hi1, Ht1.
  destruct (cleanupFailed_emits e _ s1 Hi1) as (Hi2 & l2 & Ht2 & Hl2).
  destruct (cleanupFailed e s1) as [o s']. simpl in *. split; [done|]. split; [done|].
  exists (l1 ++ l2). rewrite Ht2, Ht1, app_assoc. split; [done|by apply Forall_app_2].
Qed.

(** ** The finalizer comes first *)

Definition live (fs : list string) (sp : VpcEndpointSpec) (m : Mem) : Prop :=
  metav1.DeletionTimestamp (meta (resource m)) = None /\ finalizers_are fs m /\
  Spec (resource m) = sp.

Lemma parse_emits fs sp b :
  respects (emits (W:=W) (no creates_resource) (live fs sp)) (parseClusterInfo b).
Proof. go_respects. Qed.

Lemma reconcileNormal_extends p :
  respects (emits (W:=W) (fun _ _ => True) (fun _ => True)) (reconcileNormal p).
Proof. go_respects. Qed.


(** The part of [reconcileObject] before the finalizer. *)
Lemma parse_failed_emits v fs sp (r : error + unit) :
  respects (emits (W:=W) (no creates_resource) (live fs sp))
    (match r with
     | inr _ => ret tt
     | inl err => if isDeleting v then degradedCleanup err
                  else (awsUnauthorizedOperationMetricHandler err;; fail err)%go
     end).
Proof. go_respects. Qed.

(** A pass over a live object without the finalizer either creates nothing and ends
    without a result, or has the object with its spec and the finalizer stored before it
    creates anything. *)
Lemma without_finalizer_extends `{!K8sHelpersLaws} s
    (Q : outcome Result -> list event -> Mem -> Prop) :
  metav1.DeletionTimestamp (meta (resource (local s))) = None ->
  ContainsFinalizer (metav1.Finalizers (meta (resource (local s)))) avoFinalizer = false ->
  (forall o l m, (forall r, o <> Ok r) -> Forall (event_sat (no creates_resource)) l -> Q o l m) ->
  (forall o l1 v rv l2 m w w',
    Spec v = Spec (resource (local s)) -> avoFinalizer ∈ metav1.Finalizers (meta v) ->
    handle (Kube (UpdateVpcEndpoint v)) w = (w', inr rv) ->
    Forall (event_sat (no creates_resource)) l1 ->
    Q o (l1 ++ Ev (Kube (UpdateVpcEndpoint v)) (inr rv) :: l2) m) ->
  extends Q reconcileObject s.
Proof.
  intros Hd Hf Hfail Hstored. set (fs := metav1.Finalizers (meta (resource (local s)))) in *.
  set (sp := Spec (resource (local s))) in *.
  apply extends_wp. unfold reconcileObject, res. wp_step. wp_step. cbn [continue]. wp_step.
  eapply (wp_emits (no creates_resource) (live fs sp));
    [apply respects_try, parse_emits|done|].
  intros [r|e1|w1|] l1 s1 Ht1 Hl1 Hs1; cbn [continue]; try (close_trace; by apply Hfail).
  wp_step. eapply wp_emits; [apply parse_failed_emits|exact Hs1|].
  intros o2 l2 s2 Ht2 Hl2 (Hd2 & Hf2 & Hsp2).
  assert (Hl12 : Forall (event_sat (no creates_resource)) (l1 ++ l2)) by by apply Forall_app_2.
  destruct o2 as [[]|e2|w2|]; cbn [continue]; try (close_trace; by apply Hfail).
  repeat wp_step. unfold isDeleting. rewrite Hd2. wp_step.
  unfold ensureFinalizer, resourceUpdate, res. repeat wp_step.
  unfold finalizers_are in Hf2. rewrite Hf2, Hf. repeat wp_step.
  apply wp_trigger. cbn. intros w3 [e|rv] Hh; cbn; repeat wp_step.
  - close_trace. rewrite app_assoc. apply Hfail; [done|]. apply Forall_app_2; [done|].
    repeat constructor. by intros [].
  - eapply wp_emits; [apply reconcileNormal_extends|done|]. intros o4 l4 s4 Ht4 _ _.
    close_trace. rewrite app_assoc. eapply Hstored; [exact Hsp2| |exact Hh|done].
    cbn. rewrite add_finalizer. by left.
Qed.

(** C16: nothing is created for an object that could vanish without cleanup: on an
    object without the finalizer, every call that creates a security group, an
    endpoint or a hosted zone comes after the API server has stored the object
    with the finalizer. *)
Theorem finalizer_stored_before_creation `{!K8sHelpersLaws} s :
  metav1.DeletionTimestamp (meta (resource (local s))) = None ->
  ContainsFinalizer (metav1.Finalizers (meta (resource (local s)))) avoFinalizer = false ->
  exists l, trace (reconcileObject s).2 = trace s ++ l /\
    preceded (event_sat creates_resource) stores_finalizer l.
Proof.
  intros Hd Hf.
  change (extends (fun _ l _ => preceded (event_sat creates_resource) stores_finalizer l)
            reconcileObject s).
  apply without_finalizer_extends; [done..| |].
  - intros o l m _. apply preceded_none.
  - intros o l1 v rv l2 m w w' _ Hin _ Hl1. rewrite cons_middle, app_assoc.
    apply preceded_app.
    + apply Forall_app_2; [done|]. repeat constructor. by intros [].
    + apply Exists_app. right. constructor. cbn. by split; [|exists rv].
Qed.

(** ** A live object *)

Definition not_deleting (m : Mem) : Prop :=
  metav1.DeletionTimestamp (meta (resource m)) = None.

(** Reconciling an object that is not being deleted never deletes a hosted
    zone or a security group, whatever the services answer. *)
Theorem live_object_keeps_zone_and_group s :
  not_deleting (local s) ->
  exists l, trace (reconcileObject s).2 = trace s ++ l /\
    Forall (event_sat (no deletes_zone_or_group)) l.
Proof.
  intros Hs.
  enough (Hr : respects (emits (W:=W) (no deletes_zone_or_group) not_deleting) reconcileObject).
  { destruct (Hr s Hs) as (_ & l & Hl). by exists l. }
  unfold reconcileObject, res. apply emits_gets_bind. intros m Hm.
  apply respects_bind; [apply _|go_respects|intros r].
  apply respects_bind; [apply _|go_respects|intros _].
  apply emits_gets_bind. intros m' Hm'. unfold isDeleting. rewrite Hm'. go_respects.
Qed.

(** ** Private DNS *)

Definition private_dns (m : Mem) : Prop :=
  EnablePrivateDns_flag (reconciler m) = true /\ EnablePrivateDns (Spec (resource m)) = true.

Lemma private_dns_skips p s :
  private_dns (local s) -> validateCustomDns p s = (Ok tt, s).
Proof.
  intros [Hf He]. unfold validateCustomDns, res, bind, gets. by rewrite Hf, He.
Qed.

Lemma private_dns_emits p :
  respects (emits (W:=W) (no calls_route53) private_dns) (validateCustomDns p).
Proof.
  intros s Hs. rewrite private_dns_skips by done. split; [done|].
  exists []. by rewrite app_nil_r.
Qed.
#[local] Hint Resolve private_dns_emits : respects.

(** With private DNS switched on, for the operator and in the spec, a
    reconcile manages no DNS: no Route 53 call is made at all. *)
Theorem private_dns_makes_no_route53_call p s :
  private_dns (local s) ->
  exists l, trace (reconcileNormal p s).2 = trace s ++ l /\
    Forall (event_sat (no calls_route53)) l.
Proof.
  intros Hs.
  assert (Hr : respects (emits (W:=W) (no calls_route53) private_dns) (reconcileNormal p))
    by go_respects.
  destruct (Hr s Hs) as (_ & l & Hl). by exists l.
Qed.

(** ** When a reconcile is retried *)

Section clock.
Context (clock : W -> Z) `{!ClockLaws clock}.

Lemma notReadySet_wp (Q : outcome unit -> Sys W Mem -> Prop) s :
  (forall s', local s' = local s -> Q (Ok tt) s') -> wp notReadySet Q s.
Proof.
  intros HQ. unfold notReadySet, sinceCreation, since, res. repeat wp_step.
  apply wp_trigger. intros w1 r E. apply clock_now in E as (t & -> & _). cbn.
  repeat wp_step. by apply HQ.
Qed.

Lemma unauthorized_wp e (Q : outcome unit -> Sys W Mem -> Prop) s :
  (forall s', local s' = local s -> Q (Ok tt) s') ->
  wp (awsUnauthorizedOperationMetricHandler e) Q s.
Proof.
  intros HQ. unfold awsUnauthorizedOperationMetricHandler.
  repeat case_match; repeat wp_step; by apply HQ.
Qed.

(** C33: how a reconcile of a live object ends, by the outcome of its validations:
    all passed, it comes back after fifteen minutes; with an error [err], it comes
    back after one minute without an error when the endpoint's condition is true
    and the record's is not, and fails with [err] otherwise. The stage that failed
    plays no role. *)
Theorem requeue_by_outcome p s o s1 :
  validateResources p [validateSecurityGroup; validateVPCEndpoint; validateCustomDns] s = (o, s1) ->
  let dns_pending :=
    (IsStatusConditionTrue (Conditions (status (resource (local s1)))) AWSVpcEndpointCondition &&
     negb (IsStatusConditionTrue (Conditions (status (resource (local s1))))
             AWSRoute53RecordCondition))%bool in
  (reconcileNormal p s).1 =
  match o with
  | Ok _ => Ok (mkResult (15 * Minute))
  | Err err => if dns_pending then Ok (mkResult Minute) else Err err
  | Panic w => Panic w
  | OutOfFuel => OutOfFuel
  end.
Proof.
  intros Hv. cbv zeta. unfold reconcileNormal, bind at 1, try. rewrite Hv.
  destruct o as [u|err|w|]; [| |done|done].
  - apply (wp_bind (W:=W) (L:=Mem) _ _ (fun o _ => o = Ok (mkResult (15 * Minute)))).
    unfold res. repeat wp_step. destruct (isVpcEndpointReady _).
    + unfold notReadyDelete, res. by repeat wp_step.
    + apply notReadySet_wp. intros s' _. by repeat wp_step.
  - change (wp (validationFailed err) (fun o _ => o =
      if (IsStatusConditionTrue (Conditions (status (resource (local s1)))) AWSVpcEndpointCondition
          && negb (IsStatusConditionTrue (Conditions (status (resource (local s1))))
               AWSRoute53RecordCondition))%bool
      then Ok (mkResult Minute) else Err err) s1).
    unfold validationFailed. wp_step. apply unauthorized_wp. intros s2 Hs2. cbn [continue].
    wp_step. apply notReadySet_wp. intros s3 Hs3. cbn [continue].
    unfold conditionTrue. repeat wp_step. rewrite Hs3, Hs2.
    by destruct (_ && _)%bool; wp_step.
Qed.
End clock.
End spec.

(** ** Examples *)

#[local] Existing Instances K8sRef.helpers K8sRef.helpers_laws Sim.world Sim.clock_laws.

Definition deleted_obj : VpcEndpoint :=
  Sim.object (Some 1%Z) [avoFinalizer] (Sim.spec (Sim.phz "" None ""))
    (Sim.status_ "vpce-1" "sg-1" "" "" []).

Lemma failed_cleanup_keeps_finalizer_witness :
  let '(o, s') := reconcileDelete resource_ptr_ (Sim.sys Sim.blocked deleted_obj) in
  o = Ok (mkResult (30 * Second)) /\
  metav1.Finalizers (meta (resource (local s'))) = [avoFinalizer] /\
  exists l, trace s' = [] ++ l /\ Forall (event_sat (no updates_object)) l.
Proof.
  apply (failed_cleanup_keeps_finalizer resource_ptr_ (Sim.sys Sim.blocked deleted_obj)
           Sim.dependencyViolation
           (cleanupAwsResources resource_ptr_ (Sim.sys Sim.blocked deleted_obj)).2);
    vm_compute; reflexivity.
Defined.

(** Without the dependency the finalizer goes away. *)
Example finalizer_removed_example :
  metav1.Finalizers (meta (resource (local
    (reconcileDelete resource_ptr_ (Sim.sys Sim.state deleted_obj)).2))) = [].
Proof. vm_compute. reflexivity. Qed.

Definition live_obj (conds : list metav1.Condition) : VpcEndpoint :=
  Sim.object None [] (Sim.spec (Sim.phz "" None "")) (Sim.status_ "" "sg-1" "" "" conds).

Lemma finalizer_stored_before_creation_witness :
  exists l, trace (reconcileObject (Sim.sys Sim.state (live_obj []))).2 = [] ++ l /\
    preceded (event_sat creates_resource) stores_finalizer l.
Proof. apply (finalizer_stored_before_creation (Sim.sys Sim.state (live_obj []))); reflexivity. Defined.

Lemma live_object_keeps_zone_and_group_witness :
  exists l, trace (reconcileObject (Sim.sys Sim.state (live_obj []))).2 = [] ++ l /\
    Forall (event_sat (no deletes_zone_or_group)) l.
Proof. apply (live_object_keeps_zone_and_group (Sim.sys Sim.state (live_obj []))); reflexivity. Defined.

Definition private_start : Sys Sim.State Mem :=
  mkSys Sim.state []
    (mkMem (mkVpcEndpointReconciler true (Some Sim.cfg) None
              (Some (mkClusterInfo "tag" "us-east-1")) None)
       (mkVpcEndpoint (meta (live_obj []))
          (mkVpcEndpointSpec "svc" None (mkSecurityGroup [] [] false) "" None "us-east-1" true
             (mkVpc false ["subnet-1"] [] [] []) (mkCustomDns (Sim.phz "example.com" None "api")))
          (status (live_obj [])))).

Lemma private_dns_makes_no_route53_call_witness :
  exists l, trace (reconcileNormal resource_ptr_ private_start).2 = [] ++ l /\
    Forall (event_sat (no calls_route53)) l.
Proof.
  apply (private_dns_makes_no_route53_call resource_ptr_ private_start). split; reflexivity.
Defined.

(** The object has no infra id, so the very first validation fails; the endpoint's
    condition is still true from an earlier reconcile. *)
Definition no_infra : Sys Sim.State Mem :=
  Sim.sys Sim.state
    (mkVpcEndpoint (meta (live_obj [])) (Spec (live_obj []))
       (mkVpcEndpointStatus "available" "" "vpc-1" "vpce-1" "svc" "" "" ""
          [metav1.mkCondition AWSVpcEndpointCondition metav1.ConditionTrue "available" ""])).

Lemma requeue_by_outcome_witness :
  (exists e, (validateSecurityGroup resource_ptr_ no_infra).1 = Err e) /\
  (reconcileNormal resource_ptr_ no_infra).1 = Ok (mkResult Minute).
Proof.
  split; [vm_compute; eauto|].
  rewrite (requeue_by_outcome Sim.clock resource_ptr_ no_infra _ _ (surjective_pairing _)).
  vm_compute. reflexivity.
Defined.
End ReconcileSpec.
