(* ===== verification/TemplateSpec.v ===== *)
(** * What the template controller guarantees

    The VpcEndpoints of a namespace converge to the template, a template goes away
    last, and each template is queued once per event. *)
From S2P Require Import Prelude GoError Naming Types Calls GoMonad Reconcile Template Sim.
Import avov1alpha2 Template.

Module TemplateSpec.

(** ** The effect of the writes on the objects of a namespace *)





Definition deletions (vs : list VpcEndpoint) : list event :=
  (fun v => Ev (Kube (DeleteVpcEndpointCR v)) (inr tt)) <$> vs.



Definition matching (vpcet : VpcEndpointTemplate) (v : VpcEndpoint) : Prop :=
  Spec v = tmpl_Spec (avov1alpha2.Template (vt_Spec vpcet)).

#[export] Instance matching_dec vpcet v : Decision (matching vpcet v).
Proof. unfold matching. apply _. Defined.

Section spec.
Context {W : Type} `{World W} `{K8sHelpers}.
Abbreviation Sys := (GoMonad.Sys W VpcEndpointTemplate).
Implicit Types (s : Sys) (vpcet : VpcEndpointTemplate).

(** ** Convergence *)

Lemma deleteAll_extends items s :
  extends (fun o l _ => o = Ok tt -> l = deletions items) (deleteAll items) s.
Proof.
  revert s. induction items as [|v items IH]; intros s; apply extends_wp;
    unfold deleteAll; cbn [forM_].
  - wp_step. by close_trace.
  - wp_step. apply wp_trigger. intros w' [e|[]] _; cbn; [by close_trace|].
    eapply wp_extends; [apply IH|]. intros o l s' Ht Hl. close_trace. intros ->.
    by rewrite (Hl eq_refl).
Qed.








(** ** Deletion of a template *)

Lemma deleteMatching_extends v s :
  local s = v ->
  extends (fun o l m => m = v /\ (o = Ok tt -> exists items,
      l = [ Ev (Kube (ValidateLabelSelector (Selector (vt_Spec v)))) (inr tt);
            Ev (Kube (ListVpcEndpoints (Selector (vt_Spec v)) "")) (inr items) ]
          ++ deletions items))
    deleteMatching s.
Proof.
  intros Hv. apply extends_wp. unfold deleteMatching. wp_step. wp_step. cbn [continue id].
  rewrite Hv. wp_step. apply wp_trigger. intros w1 [e|[]] _; cbn [of_answer continue].
  { close_trace. by split. }
  wp_step. apply wp_trigger. intros w2 [e|items] _; cbn [of_answer continue].
  { close_trace. by split. }
  assert (Hd : respects (emits (W:=W) (fun _ _ => True) (eq v)) (deleteAll items)) by go_respects.
  unfold wp. destruct (deleteAll_extends items
    (after (after s (Kube (ValidateLabelSelector (Selector (vt_Spec v)))) w1 (inr tt))
       (Kube (ListVpcEndpoints (Selector (vt_Spec v)) "")) w2 (inr items))) as (l & Ht & Hl).
  eexists. split; [rewrite Ht; cbn; rewrite <- !app_assoc; reflexivity|]. split.
  - destruct (Hd (after (after s (Kube (ValidateLabelSelector (Selector (vt_Spec v)))) w1 (inr tt))
       (Kube (ListVpcEndpoints (Selector (vt_Spec v)) "")) w2 (inr items)) (eq_sym Hv)) as [He _].
    symmetry. exact He.
  - intros Ho. exists items. by rewrite (Hl Ho).
Qed.

(** C38: a template that is being deleted loses its finalizer last. When its
    deletion succeeds, every VpcEndpoint that the API server listed for its
    selector was deleted first, and only then was the object without the
    finalizer stored; when listing or deleting fails, the reconcile stops right
    there, with the error. *)
Theorem template_deleted_last `{!K8sHelpersLaws} s :
  ContainsFinalizer (metav1.Finalizers (vt_meta (local s))) finalizer = true ->
  (forall r s', Template.reconcileDelete s = (Ok r, s') -> exists items v rv,
     trace s' = trace s ++
       [ Ev (Kube (ValidateLabelSelector (Selector (vt_Spec (local s))))) (inr tt);
         Ev (Kube (ListVpcEndpoints (Selector (vt_Spec (local s))) "")) (inr items) ]
       ++ deletions items ++ [ Ev (Kube (UpdateVpcEndpointTemplate v)) (inr rv) ] /\
     finalizer ∉ metav1.Finalizers (vt_meta v)) /\
  (forall e s', deleteMatching s = (Err e, s') -> Template.reconcileDelete s = (Err e, s')).
Proof.
  intros Hf. split.
  - intros r s' Hrun. enough (Hwp : wp Template.reconcileDelete (fun o s' => o = Ok r ->
      exists items v rv, trace s' = trace s ++
       [ Ev (Kube (ValidateLabelSelector (Selector (vt_Spec (local s))))) (inr tt);
         Ev (Kube (ListVpcEndpoints (Selector (vt_Spec (local s))) "")) (inr items) ]
       ++ deletions items ++ [ Ev (Kube (UpdateVpcEndpointTemplate v)) (inr rv) ] /\
      finalizer ∉ metav1.Finalizers (vt_meta v)) s).
    { unfold wp in Hwp. rewrite Hrun in Hwp. by apply Hwp. }
    unfold Template.reconcileDelete. wp_step. wp_step. cbn [continue id]. rewrite Hf. wp_step.
    eapply wp_extends; [by apply deleteMatching_extends|].
    intros [[]|e|w|] l s1 Ht [Hv Hl]; cbn [continue]; try done.
    destruct (Hl eq_refl) as [items ->]. unfold templateUpdate. repeat wp_step.
    apply wp_trigger. cbn. intros w2 [e|rv] _; cbn; [done|]. repeat wp_step. intros _.
    exists items. do 2 eexists. split.
    + cbn. rewrite Ht. rewrite <- !app_assoc. reflexivity.
    + cbn. rewrite remove_finalizer. naive_solver.
  - intros e s' Hrun. unfold Template.reconcileDelete, bind at 1, gets. cbn. rewrite Hf.
    unfold bind at 1. by rewrite Hrun.
Qed.
End spec.

(** ** The work queue *)

(** The requests that were added, and the answers of the listings. *)
Definition added (e : event) : option Request :=
  match e with
  | Ev c _ => match c with Enqueue namespace name => Some (namespace, name) | _ => None end
  end.

Definition listing_op {R} (op : kubeop R) : error + R -> option (list VpcEndpointTemplate) :=
  match op in kubeop R return error + R -> option (list VpcEndpointTemplate) with
  | ListVpcEndpointTemplates => fun a => match a with inl _ => None | inr ts => Some ts end
  | _ => fun _ => None
  end.

Definition listing (e : event) : option (list VpcEndpointTemplate) :=
  match e with
  | @Ev R c a =>
      match c in call R return error + R -> option (list VpcEndpointTemplate) with
      | Kube op => listing_op op
      | _ => fun _ => None
      end a
  end.

Definition enqueued (l : list event) : list Request := omap added l.
Definition listed (l : list event) : list (list VpcEndpointTemplate) := omap listing l.

Section handlers.
Context {W : Type} `{World W}.
Abbreviation Sys := (GoMonad.Sys W unit).
Implicit Types (s : Sys).

Lemma enqueueNew_extends ms reqs s :
  extends (fun o l _ => o = Ok (reqs ∪ list_to_set ms) /\ listed l = [] /\ NoDup (enqueued l) /\
      forall r, r ∈ enqueued l <-> r ∈ ms /\ r ∉ reqs)
    (enqueueNew ms reqs) s.
Proof.
  revert reqs s. induction ms as [|m ms IH]; intros reqs s; apply extends_wp; cbn [enqueueNew].
  - wp_step. close_trace. split_and!; [f_equal; set_solver|done|constructor|set_solver].
  - case_bool_decide as Hin.
    + eapply wp_extends; [apply IH|]. intros o l s' Ht (-> & Hl & Hnd & Hr). close_trace.
      split_and!; [f_equal; set_solver|done|done|]. intros r. rewrite Hr. set_solver.
    + repeat wp_step. eapply wp_extends; [apply IH|].
      intros o l s' Ht (-> & Hl & Hnd & Hr). close_trace.
      split_and!; [f_equal; set_solver|done| |].
      * destruct m as [ns name]. cbn. constructor; [|done]. unfold enqueued in *.
        rewrite Hr. set_solver.
      * intros q. destruct m as [ns name]. cbn. rewrite elem_of_cons. unfold enqueued in *.
        rewrite Hr. destruct (decide (q = (ns, name))) as [->|]; set_solver.
Qed.

Lemma mapAndEnqueue_extends reqs s :
  extends (fun o l _ => exists reqs', o = Ok reqs' /\ NoDup (enqueued l) /\
      (forall r, r ∈ enqueued l <-> (exists ts, ts ∈ listed l /\ r ∈ requests ts) /\ r ∉ reqs) /\
      (forall r, r ∈ reqs' <-> r ∈ reqs \/ r ∈ enqueued l))
    (mapAndEnqueue reqs) s.
Proof.
  apply extends_wp. unfold mapAndEnqueue. repeat wp_step. apply wp_trigger.
  intros w1 [e|ts] _; cbn.
  - wp_step. close_trace. exists reqs. split_and!; [done|constructor|set_solver|set_solver].
  - eapply wp_extends; [apply enqueueNew_extends|].
    intros o l s' Ht (-> & Hl & Hnd & Hr). close_trace. eexists. split; [done|].
    unfold enqueued, listed in *. cbn. rewrite Hl. split_and!; [done| |].
    + intros r. rewrite Hr. setoid_rewrite list_elem_of_singleton. naive_solver.
    + intros r. rewrite Hr, elem_of_union, elem_of_list_to_set.
      destruct (decide (r ∈ reqs)); tauto.
Qed.

(** An update of a hosted control plane queues each template at most once,
    although the handler looks at the old and the new object: the requests added
    are, without duplicates, those of the templates for hosted control planes in
    the listings that the API server answered. *)
Theorem update_enqueues_once s :
  exists l, trace (handleUpdate s).2 = trace s ++ l /\ NoDup (enqueued l) /\
    forall r, r ∈ enqueued l <-> exists ts, ts ∈ listed l /\ r ∈ requests ts.
Proof.
  change (extends (fun _ l _ => NoDup (enqueued l) /\
    forall r, r ∈ enqueued l <-> exists ts, ts ∈ listed l /\ r ∈ requests ts) handleUpdate s).
  apply extends_wp. unfold handleUpdate. wp_step.
  eapply wp_extends; [apply mapAndEnqueue_extends|].
  intros o1 l1 s1 Ht1 (reqs & -> & Hnd1 & Hr1 & Hreqs). cbn [continue]. wp_step.
  eapply wp_extends; [apply mapAndEnqueue_extends|].
  intros o2 l2 s2 Ht2 (reqs' & -> & Hnd2 & Hr2 & _). cbn [continue]. wp_step.
  exists (l1 ++ l2). split; [by rewrite Ht2, Ht1, app_assoc|].
  unfold enqueued, listed in *. rewrite !omap_app. split.
  - apply NoDup_app. split_and!; [done| |done]. intros r Hin1 Hin2.
    apply Hr2 in Hin2 as [_ Hn]. apply Hn, Hreqs. auto.
  - intros q. setoid_rewrite elem_of_app. split.
    + intros [[(ts & Hts & Hq) _]%Hr1|[(ts & Hts & Hq) _]%Hr2]; eauto.
    + intros (ts & [Hts|Hts] & Hq).
      * left. apply Hr1. split; [eauto|]. apply not_elem_of_empty.
      * destruct (decide (q ∈ omap added l1)) as [|Hn]; [by left|right].
        apply Hr2. split; [eauto|]. rewrite Hreqs.
        intros [[]%not_elem_of_empty|?]; done.
Qed.
End handlers.

(** ** Examples *)

#[local] Existing Instances K8sRef.helpers K8sRef.helpers_laws Sim.world.

Definition template (deleted : option Z) (finalizers : list string) : VpcEndpointTemplate :=
  mkVpcEndpointTemplate (metav1.mkObjectMeta "t" "ns" ∅ 0 deleted finalizers "1")
    (mkVpcEndpointTemplateSpec HCPVpcEndpointTemplateType (metav1.mkLabelSelector ∅ [])
       (mkVpceTemplateSpec ObjectMeta_zero (Sim.spec (Sim.phz "example.com" None "api")))).


(** An object with another spec exists. *)
Definition start (t : VpcEndpointTemplate) : GoMonad.Sys Sim.State VpcEndpointTemplate :=
  mkSys (Sim.set_stored (Some (Sim.object None [] VpcEndpointSpec_zero VpcEndpointStatus_zero))
           Sim.state) [] t.


Definition deleted : VpcEndpointTemplate := template (Some 1%Z) [finalizer].

Lemma template_deleted_last_witness :
  (exists r s', Template.reconcileDelete (start deleted) = (Ok r, s')) /\
  (forall r s', Template.reconcileDelete (start deleted) = (Ok r, s') -> exists items v rv,
     trace s' = [] ++
       [ Ev (Kube (ValidateLabelSelector (Selector (vt_Spec deleted)))) (inr tt);
         Ev (Kube (ListVpcEndpoints (Selector (vt_Spec deleted)) "")) (inr items) ]
       ++ deletions items ++ [ Ev (Kube (UpdateVpcEndpointTemplate v)) (inr rv) ] /\
     finalizer ∉ metav1.Finalizers (vt_meta v)) /\
  (forall e s', deleteMatching (start deleted) = (Err e, s') ->
     Template.reconcileDelete (start deleted) = (Err e, s')).
Proof.
  split; [vm_compute; eauto|].
  apply (template_deleted_last (start deleted)). reflexivity.
Defined.
End TemplateSpec.
