(* ===== verification/AcceptanceSpec.v ===== *)
(** * What the acceptance controller and the entry point guarantee *)
From S2P Require Import Prelude GoError Naming Types Calls.
From S2P Require Import GoMonad AwsClient Reconcile Acceptance Sim.
Import avov1alpha1 Acceptance.

Module AcceptanceSpec.

#[local] Existing Instance ec2Types.Filter_eq_dec.

(** ** Reading a trace *)

Definition accept_op {R} (op : ec2op R) : option (string * list string) :=
  match op with AcceptVpcEndpointConnections serviceId ids => Some (serviceId, ids) | _ => None end.

(** The service and the connections that were accepted. *)
Definition accepted (e : event) : option (string * list string) :=
  match e with Ev c _ => match c with EC2 _ op => accept_op op | _ => None end end.

Definition pending_op {R} (serviceId : string) (op : ec2op R)
  : error + R -> option (list ec2Types.VpcEndpointConnection) :=
  match op in ec2op R return error + R -> option (list ec2Types.VpcEndpointConnection) with
  | DescribeVpcEndpointConnections filters => fun a =>
      if bool_decide (filters = [ AWSClient.filter_by "service-id" [serviceId];
                                  AWSClient.filter_by "vpc-endpoint-state" ["pendingAcceptance"] ])
      then match a with inl _ => None | inr cs => Some cs end
      else None
  | _ => fun _ => None
  end.

(** The connections that AWS listed as pending for the service. *)
Definition pending (serviceId : string) (e : event)
  : option (list ec2Types.VpcEndpointConnection) :=
  match e with
  | @Ev R c a =>
      match c in call R return error + R -> option (list ec2Types.VpcEndpointConnection) with
      | EC2 _ op => pending_op serviceId op
      | _ => fun _ => None
      end a
  end.

Definition accounts_op {R} (namespace : string) (op : kubeop R)
  : error + R -> option (list string) :=
  match op in kubeop R return error + R -> option (list string) with
  | ListAccounts ns => fun a =>
      if String.eqb ns namespace then match a with inl _ => None | inr l => Some l end else None
  | _ => fun _ => None
  end.

(** The AWS accounts that the API server listed in the namespace. *)
Definition accounts (namespace : string) (e : event) : option (list string) :=
  match e with
  | @Ev R c a =>
      match c in call R return error + R -> option (list string) with
      | Kube op => accounts_op namespace op
      | _ => fun _ => None
      end a
  end.

(** The criteria allow the connection, given the listings in [l]. *)
Definition allowed (criteria : AcceptanceCriteriaT) (l : list event)
    (connection : ec2Types.VpcEndpointConnection) : Prop :=
  AlwaysAccept criteria = true \/
  exists aao owner accs, AwsAccountOperatorAccount criteria = Some aao /\
    ec2Types.VpcEndpointOwner connection = Some owner /\
    accs ∈ omap (accounts (Namespace aao)) l /\ owner ∈ accs.

Lemma allowed_app criteria l l' c :
  allowed criteria l c \/ allowed criteria l' c -> allowed criteria (l ++ l') c.
Proof.
  unfold allowed. setoid_rewrite omap_app. setoid_rewrite elem_of_app. naive_solver.
Qed.

Section spec.
Context {W : Type} `{World W}.
Abbreviation Sys := (GoMonad.Sys W (option AwsConfig)).
Implicit Types (s : Sys).

Lemma acceptConnection_extends criteria conn s :
  extends (fun o l _ => omap accepted l = [] /\ forall ids, o = Ok ids ->
      forall id, id ∈ ids -> ec2Types.conn_VpcEndpointId conn = Some id /\ allowed criteria l conn)
    (acceptConnection criteria conn) s.
Proof.
  apply extends_wp. unfold acceptConnection. destruct (AlwaysAccept criteria) eqn:Ha.
  - destruct (ec2Types.conn_VpcEndpointId conn) as [cid|]; cbn [deref]; repeat wp_step;
      close_trace; (split; [done|]); [|done].
    intros ids [= <-] id ->%list_elem_of_singleton. split; [done|by left].
  - destruct (AwsAccountOperatorAccount criteria) as [aao|] eqn:Haao.
    2:{ wp_step. close_trace. split; [done|]. intros ids [= <-]. set_solver. }
    wp_step. apply wp_trigger. intros w1 [e|accs] _; cbn [of_answer continue].
    { close_trace. by split. }
    destruct (ec2Types.VpcEndpointOwner conn) as [owner|] eqn:Ho; cbn [deref]; repeat wp_step;
      [|close_trace; by split].
    case_bool_decide as Hin.
    2:{ wp_step. close_trace. split; [done|]. intros ids [= <-]. set_solver. }
    destruct (ec2Types.conn_VpcEndpointId conn) as [cid|]; cbn [deref]; repeat wp_step;
      close_trace; (split; [done|]); [|done].
    intros ids [= <-] id ->%list_elem_of_singleton. split; [done|right].
    exists aao, owner, accs. split_and!; [done|done| |set_solver].
    cbn. rewrite String.eqb_refl. by left.
Qed.

Lemma acceptedConnections_extends criteria conns s :
  extends (fun o l _ => omap accepted l = [] /\ forall ids, o = Ok ids ->
      forall id, id ∈ ids -> exists conn, conn ∈ conns /\
        ec2Types.conn_VpcEndpointId conn = Some id /\ allowed criteria l conn)
    (acceptedConnections criteria conns) s.
Proof.
  revert s. induction conns as [|conn conns IH]; intros s; apply extends_wp;
    cbn [acceptedConnections].
  { wp_step. close_trace. split; [done|]. intros ids [= <-]. set_solver. }
  wp_step. eapply wp_extends; [apply acceptConnection_extends|].
  intros [ids1|e|w|] l1 s1 Ht1 [Hl1 H1]; cbn [continue]; try (close_trace; by split).
  wp_step. eapply wp_extends; [apply IH|].
  intros [ids2|e|w|] l2 s2 Ht2 [Hl2 H2]; cbn [continue]; [wp_step|..];
    (exists (l1 ++ l2); split; [by rewrite Ht2, Ht1, app_assoc|]);
    (split; [by rewrite omap_app, Hl1, Hl2|]); try done.
  intros ids [= <-] id [Hid|Hid]%elem_of_app.
  - destruct (H1 ids1 eq_refl id Hid) as [Hc Ha]. exists conn.
    split_and!; [by left|done|]. apply allowed_app. auto.
  - destruct (H2 ids2 eq_refl id Hid) as (conn' & Hin & Hc & Ha). exists conn'.
    split_and!; [by right|done|]. apply allowed_app. auto.
Qed.

(** What a reconcile of [v] may accept, given the answers in [l]. *)
Definition justified (v : VpcEndpointAcceptance) (l : list event) (ids : list string) : Prop :=
  ids <> [] /\ forall id, id ∈ ids -> exists conns conn,
    conns ∈ omap (pending (Id (Spec v))) l /\ conn ∈ conns /\
    ec2Types.conn_VpcEndpointId conn = Some id /\
    allowed (AcceptanceCriteria (Spec v)) l conn.

Lemma acceptanceClient_extends spec s :
  extends (fun _ l _ => omap accepted l = []) (acceptanceClient spec) s.
Proof.
  apply extends_wp. unfold acceptanceClient. wp_step. apply wp_trigger.
  intros w1 [e|cfg] _; cbn [of_answer continue]; [by close_trace|].
  cbv zeta. repeat wp_step. by close_trace.
Qed.

(** The ids taken from the answer of AWS are justified. *)
Lemma pending_justified v cfg l1 conns l3 l4 ids :
  ids <> [] ->
  (forall id, id ∈ ids -> exists conn, conn ∈ conns /\
     ec2Types.conn_VpcEndpointId conn = Some id /\
     allowed (AcceptanceCriteria (Spec v)) l3 conn) ->
  justified v (l1 ++ Ev (EC2 cfg (DescribeVpcEndpointConnections
      [ AWSClient.filter_by "service-id" [Id (Spec v)];
        AWSClient.filter_by "vpc-endpoint-state" ["pendingAcceptance"] ])) (inr conns)
    :: l3 ++ l4) ids.
Proof.
  intros Hne Hids. split; [done|]. intros id (conn & Hin & Hc & Ha)%Hids.
  exists conns, conn. split_and!; [|done|done|].
  - rewrite omap_app, elem_of_app. right. cbn. rewrite bool_decide_eq_true_2 by done. by left.
  - apply allowed_app. right. apply (allowed_app _ [_] (l3 ++ l4)). right.
    apply allowed_app. by left.
Qed.

(** C32: a connection is accepted only for a reason: every connection that a
    reconcile accepts belongs to the service of the resource, was listed by AWS as
    pending for it, and either everything is to be accepted, or its owner is among
    the accounts that the API server listed in the configured namespace. With
    nothing to accept, no call is made. *)
Theorem accepted_connections_justified v s :
  exists l, trace (acceptPending v s).2 = trace s ++ l /\
    forall serviceId ids, (serviceId, ids) ∈ omap accepted l ->
      serviceId = Id (Spec v) /\ justified v l ids.
Proof.
  change (extends (fun _ l _ => forall serviceId ids, (serviceId, ids) ∈ omap accepted l ->
      serviceId = Id (Spec v) /\ justified v l ids) (acceptPending v) s).
  apply extends_wp. unfold acceptPending. wp_step.
  eapply wp_extends; [apply acceptanceClient_extends|].
  intros [c|e|w|] l1 s1 Ht1 Hl1; cbn [continue]; try (close_trace; rewrite Hl1; set_solver).
  assert (Hstop : forall serviceId ids, (serviceId, ids) ∈ omap accepted l1 ->
    serviceId = Id (Spec v) /\ justified v l1 ids) by (rewrite Hl1; set_solver).
  wp_step. unfold AWSClient.GetVpcEndpointConnectionsPendingAcceptance.
  destruct (is_empty (Id (Spec v))).
  { repeat wp_step. cbn [acceptedConnections]. repeat wp_step.
    unfold AWSClient.AcceptVpcEndpointConnections. repeat wp_step. close_trace.
    rewrite omap_app, Hl1. set_solver. }
  unfold AWSClient.ec2 at 1. destruct c as [cfg|]; [|wp_step; close_trace; exact Hstop].
  apply wp_trigger.
  intros w2 [e|conns] _; cbn [of_answer continue].
  { close_trace. rewrite omap_app, Hl1. set_solver. }
  wp_step. eapply wp_extends; [apply acceptedConnections_extends|].
  intros [ids|e|w|] l3 s3 Ht3 [Hl3 H3]; cbn [continue];
    try (close_trace; rewrite omap_app, Hl1; cbn; rewrite Hl3; set_solver).
  specialize (H3 ids eq_refl). repeat wp_step.
  destruct ids as [|id ids]; unfold AWSClient.AcceptVpcEndpointConnections.
  { repeat wp_step. close_trace. rewrite !omap_app, Hl1. cbn. rewrite omap_app, Hl3. set_solver. }
  unfold AWSClient.ec2. cbn. apply wp_trigger. cbn. intros w4 [e|[]] _; cbn; repeat wp_step;
    close_trace; intros serviceId ids'; rewrite omap_app, Hl1; cbn; rewrite omap_app, Hl3; cbn;
    (intros [= -> ->]%list_elem_of_singleton; split; [done|]);
    (apply (pending_justified v cfg l1 conns l3); [done|exact H3]).
Qed.
End spec.

(** ** The health check *)

Section health.
Context {W : Type} `{World W} {L : Type}.
Implicit Types s : Sys W L.

Variable env : string -> option string.
Hypothesis env_is : forall name w, exists w', handle (LookupEnv name) w = (w', inr (env name)).

Lemma bothSet_spec a b s :
  exists s', Operator.bothSet a b s =
    (Ok (bool_decide (is_Some (env a) /\ is_Some (env b))), s').
Proof.
  unfold Operator.bothSet, bind, trigger. destruct (env_is a (world s)) as [w1 ->].
  destruct (env a) as [x|]; [|by eexists]. cbn [world after of_answer].
  destruct (env_is b w1) as [w2 ->]. destruct (env b) as [y|]; by eexists.
Qed.

(** The health check passes exactly when the environment has a secret key with
    its key id, or a web identity token file with a role; otherwise it fails with
    an error. *)
Theorem health_check_iff s :
  match (Operator.AWSEnvVarHealtzChecker s).1 with
  | Ok _ => is_Some (env "AWS_SECRET_ACCESS_KEY") /\ is_Some (env "AWS_ACCESS_KEY_ID") \/
            is_Some (env "AWS_WEB_IDENTITY_TOKEN_FILE") /\ is_Some (env "AWS_ROLE_ARN")
  | Err _ =>
      ~ (is_Some (env "AWS_SECRET_ACCESS_KEY") /\ is_Some (env "AWS_ACCESS_KEY_ID")) /\
      ~ (is_Some (env "AWS_WEB_IDENTITY_TOKEN_FILE") /\ is_Some (env "AWS_ROLE_ARN"))
  | _ => False
  end.
Proof.
  unfold Operator.AWSEnvVarHealtzChecker, bind at 1.
  destruct (bothSet_spec "AWS_SECRET_ACCESS_KEY" "AWS_ACCESS_KEY_ID" s) as [s1 ->].
  case_bool_decide as H1; [cbn; by left|]. unfold bind.
  destruct (bothSet_spec "AWS_WEB_IDENTITY_TOKEN_FILE" "AWS_ROLE_ARN" s1) as [s2 ->].
  case_bool_decide as H2; cbn; [by right|done].
Qed.
End health.

(** ** Examples *)

#[local] Existing Instance Sim.world.

Definition acceptance : VpcEndpointAcceptance :=
  mkVpcEndpointAcceptance (metav1.mkObjectMeta "a" "ns" ∅ 0 None [] "1")
    (mkVpcEndpointAcceptanceSpec "vpce-svc-1" "" "us-east-1"
       (mkAcceptanceCriteria (Some (mkAAOAccountAcceptanceCriteria "accounts")) false)).

(** Only the connection of the known account is accepted. *)
Example accepted_example :
  omap accepted (trace (acceptPending acceptance (mkSys Sim.state [] None)).2) =
  [("vpce-svc-1", ["vpce-1"])].
Proof. vm_compute. reflexivity. Qed.

Lemma health_check_iff_witness :
  match (Operator.AWSEnvVarHealtzChecker (mkSys Sim.state [] tt)).1 with
  | Ok _ => is_Some (@None string) /\ is_Some (@None string) \/
            is_Some (@None string) /\ is_Some (@None string)
  | Err _ => ~ (is_Some (@None string) /\ is_Some (@None string)) /\
             ~ (is_Some (@None string) /\ is_Some (@None string))
  | _ => False
  end.
Proof.
  apply (health_check_iff (fun _ => None)). intros name w. exists w. reflexivity.
Defined.

(** The flags of an empty configuration. *)
Example default_controllers :
  Operator.controllersToStart (mkAvoConfig None None None None) = ["VpcEndpoint"].
Proof. reflexivity. Qed.
End AcceptanceSpec.
