(* ===== verification/ReleaseSpec.v ===== *)
(** * When an object is released

    The finalizer protocol from the other side: the update that lets the API
    server remove a deleted object comes only after AWS has confirmed that each
    of its resources is gone. *)
From S2P Require Import Prelude GoError Naming Types Calls GoMonad AwsClient Lookups.
From S2P Require Import Controller Helpers HostedZones Validation Cleanup Reconcile Sim.
From S2P Require Import CleanupSpec ReconcileSpec.
Import avov1alpha2 Helpers HostedZones Validation Cleanup Reconcile.

Module ReleaseSpec.
Import CleanupSpec ReconcileSpec.

(** ** Answers that confirm the end of a resource *)

(** The security group [id]: deleted, or not found. *)
Definition group_gone (id : string) (e : event) : Prop :=
  match e with
  | @Ev R c a =>
      match c in call R return error + R -> Prop with
      | EC2 _ op =>
          match op in ec2op R return error + R -> Prop with
          | Calls.DeleteSecurityGroup id' => fun a => id' = id /\
              match a with
              | inl e => has_code "InvalidGroup.NotFound" e = true
              | inr _ => True
              end
          | _ => fun _ => False
          end
      | _ => fun _ => False
      end a
  end.

(** The hosted zone [id]: deleted, or not found. *)
Definition zone_gone (id : string) (e : event) : Prop :=
  match e with
  | @Ev R c a =>
      match c in call R return error + R -> Prop with
      | R53 _ op =>
          match op in route53op R return error + R -> Prop with
          | Calls.DeleteHostedZone id' => fun a => id' = id /\
              match a with
              | inl e => has_code NoSuchHostedZone_code e = true
              | inr _ => True
              end
          | _ => fun _ => False
          end
      | _ => fun _ => False
      end a
  end.

(** The deletion of the record set [rr] in the zone [id], as it is asked for. *)
Definition deletion_of (rr : route53Types.ResourceRecordSet) (name id : string)
  : route53Types.ChangeResourceRecordSetsInput :=
  route53Types.mkChangeResourceRecordSetsInput route53Types.ChangeActionDelete rr
    (Some ("Deleting " +:+ name)) id.

(** Every record set of [rrs] with the name [name] was deleted in [zone]. *)
Definition all_deleted (cfg : AwsConfig) (zone : route53Types.HostedZone) (name : string)
    (rrs : list route53Types.ResourceRecordSet) (l : list event) : Prop :=
  forall rr, rr ∈ rrs -> route53Types.rrs_Name rr = Some name ->
    exists id, route53Types.hz_Id zone = Some id /\
      Ev (R53 cfg (ChangeResourceRecordSets (deletion_of rr name id))) (inr tt) ∈ l.

(** No record [name] is left in the zone [zoneId]: Route 53 listed the records of the
    zone and confirmed the deletion of each that has the name, or it answered that
    there is no such zone. *)
Definition record_gone (zoneId name : string) (l : list event) : Prop :=
  exists cfg resp,
    Ev (R53 cfg (Calls.GetHostedZone ("/hostedzone/" +:+ zoneId))) (inr resp) ∈ l /\
      forall zone, route53Types.HostedZone_ resp = Some zone ->
      exists rrs, Ev (R53 cfg (Calls.ListResourceRecordSets zoneId)) (inr rrs) ∈ l /\
      all_deleted cfg zone (name +:+ ".") rrs l.

(** The API server showed that [domain] is the cluster's own. *)
Definition is_cluster_domain (domain : string) (e : event) : Prop :=
  match e with
  | @Ev R c a =>
      match c in call R return error + R -> Prop with
      | Kube op =>
          match op in kubeop R return error + R -> Prop with
          | GetDNS name => fun a => name = Lookups.DefaultDnsesName /\
              match a with inl _ => False | inr dns => configv1.BaseDomain dns = domain end
          | _ => fun _ => False
          end
      | _ => fun _ => False
      end a
  end.

Section spec.
Context {W : Type} `{World W} `{K8sHelpers}.
Implicit Types s : Sys W Mem.

#[local] Hint Extern 1 (respects (emits _ _) (pollDeleted _ _ _)) =>
  apply pollDeleted_emits; [call_solve|intros; call_solve..|inv_solve] : respects.

Abbreviation any_call := (fun _ _ => True).

(** ** The zone *)

(** What the parts before the deletion of the endpoint leave alone. *)
Definition ids_are (v : VpcEndpoint) (m : Mem) : Prop :=
  Spec (resource m) = Spec v /\
  VPCEndpointId (status (resource m)) = VPCEndpointId (status v) /\
  SecurityGroupId (status (resource m)) = SecurityGroupId (status v).

Definition group_is (id : string) (m : Mem) : Prop :=
  SecurityGroupId (status (resource m)) = id.

(** [cleanupRecord] may find the zone of an object without one, but keeps a zone
    that is recorded. *)
Definition zone_kept (v : VpcEndpoint) (m : Mem) : Prop :=
  ids_are v m /\ HostedZoneId (status (resource m)) = HostedZoneId (status v).

Lemma cleanupRecord_keeps_ids p v :
  respects (emits (W:=W) any_call (ids_are v)) (cleanupRecord p).
Proof. go_respects. Qed.

Lemma cleanupRecord_keeps_zone p v :
  HostedZoneId (status v) <> "" ->
  respects (emits (W:=W) any_call (zone_kept v)) (cleanupRecord p).
Proof.
  intros Hz%is_empty_false. unfold cleanupRecord, conditionTrue, res_status.
  apply emits_gets_bind. intros m _. destruct (IsStatusConditionTrue _ _); [|go_respects].
  apply emits_gets_bind. intros m1 [_ Hm1]. rewrite Hm1, Hz. go_respects.
Qed.

(** ** The record *)

Lemma all_deleted_mono cfg zone name rrs l l' :
  l ⊆ l' -> all_deleted cfg zone name rrs l -> all_deleted cfg zone name rrs l'.
Proof. intros Hl Hd rr Hrr Hn. destruct (Hd rr Hrr Hn) as (id & ? & ?). eauto. Qed.

Lemma record_gone_mono zoneId name l l' :
  l ⊆ l' -> record_gone zoneId name l -> record_gone zoneId name l'.
Proof.
  intros Hl (cfg & resp & Hin & Hz). exists cfg, resp. split; [by apply Hl|].
  intros zone Hzone. destruct (Hz zone Hzone) as (rrs & Hrrs & Hd). exists rrs.
  split; [by apply Hl|by eapply all_deleted_mono].
Qed.

Lemma deleteOwnRecord_extends cfg zone rr s :
  awsClient (reconciler (local s)) = Some cfg ->
  extends (fun o l m => m = local s /\
      (o = Ok tt ->
       all_deleted cfg zone (ResourceRecordSet (status (resource (local s))) +:+ ".") [rr] l))
    (deleteOwnRecord zone rr) s.
Proof.
  intros Hc. apply extends_wp. unfold deleteOwnRecord, res_status, client. repeat wp_step.
  destruct (route53Types.rrs_Name rr) as [n|] eqn:Hn; cbn [deref continue]; [|by close_trace].
  destruct (String.eqb_spec n (ResourceRecordSet (status (resource (local s))) +:+ "."))
    as [->|Hne].
  - repeat wp_step.
    destruct (route53Types.hz_Id zone) as [id|] eqn:Hid; cbn [deref continue]; [|by close_trace].
    repeat wp_step. unfold AWSClient.DeleteResourceRecordSet, AWSClient.r53. rewrite Hc, Hn.
    repeat wp_step. cbn [deref continue]. apply wp_trigger.
    intros w' [e|[]] _; close_trace; [done|].
    split; [done|]. intros _ rr' ->%list_elem_of_singleton _. exists id. split; [done|by left].
  - repeat wp_step. close_trace. split; [done|].
    intros _ rr' ->%list_elem_of_singleton Hn'. congruence.
Qed.

Lemma deleteOwnRecords_extends cfg zone rrs s :
  awsClient (reconciler (local s)) = Some cfg ->
  extends (fun o l m => m = local s /\
      (o = Ok tt ->
       all_deleted cfg zone (ResourceRecordSet (status (resource (local s))) +:+ ".") rrs l))
    (forM_ rrs (deleteOwnRecord zone)) s.
Proof.
  revert s. induction rrs as [|rr rrs IH]; intros s Hc; apply extends_wp; cbn [forM_].
  { wp_step. close_trace. split; [done|]. by intros _ rr ?%elem_of_nil. }
  wp_step. eapply wp_extends; [by apply deleteOwnRecord_extends|].
  intros [[]|e|w|] l1 s1 Ht1 [Hm1 H1]; cbn [continue]; try by close_trace.
  eapply wp_extends; [by apply IH; rewrite Hm1|]. rewrite Hm1.
  intros o l2 s2 Ht2 [Hm2 H2]. close_trace. split; [done|]. intros ->.
  intros rr' [->|Hin]%elem_of_cons Hn.
  - destruct (H1 eq_refl rr) as (id & ? & ?); [by left|done|]. exists id. set_solver.
  - destruct (H2 eq_refl rr' Hin Hn) as (id & ? & ?). exists id. set_solver.
Qed.

Lemma deleteRecord_gone s :
  let st := status (resource (local s)) in
  extends (fun o l _ => o = Ok tt -> record_gone (HostedZoneId st) (ResourceRecordSet st) l)
    deleteRecord s.
Proof.
  intros st. apply extends_wp. unfold deleteRecord, client, res_status. repeat wp_step.
  fold st. unfold AWSClient.GetHostedZone, AWSClient.ListResourceRecordSets, AWSClient.r53.
  destruct (awsClient (reconciler (local s))) as [cfg|] eqn:Hc; [|apply wp_lift; by close_trace].
  apply wp_trigger. intros w1 [e|resp] _; cbn [of_answer continue]; [by close_trace|].
  destruct (route53Types.HostedZone_ resp) as [zone|] eqn:Hz.
  - repeat wp_step. apply wp_trigger. intros w2 [e|rrs] _; cbn [of_answer continue]; [by close_trace|].
    eapply wp_extends; [by apply (deleteOwnRecords_extends cfg)|].
    intros [[]|e|w|] l3 s3 Ht3 [_ H3]; cbn [continue]; try by close_trace.
    eapply (wp_emits any_call (fun _ => True)); [go_respects|done|].
    intros o l4 s4 Ht4 _ _. close_trace. intros _. exists cfg, resp. split; [by left|].
    rewrite Hz. intros ? [= <-]. exists rrs. split; [by right; left|].
    eapply all_deleted_mono; [|by apply H3]. set_solver.
  - do 2 wp_step. eapply (wp_emits any_call (fun _ => True)); [go_respects|done|].
    intros o l4 s4 Ht4 _ _. close_trace. intros _. exists cfg, resp. split; [by left|].
    rewrite Hz. by intros ?.
Qed.

(** The status records the record and its zone, and shows the record as ready. *)
Definition record_known (st : VpcEndpointStatus) : Prop :=
  IsStatusConditionTrue (Conditions st) AWSRoute53RecordCondition = true /\
  HostedZoneId st <> "" /\ ResourceRecordSet st <> "".

Lemma cleanupRecord_extends p s :
  let st := status (resource (local s)) in
  record_known st ->
  extends (fun o l _ => o = Ok tt -> record_gone (HostedZoneId st) (ResourceRecordSet st) l)
    (cleanupRecord p) s.
Proof.
  intros st (Hready & Hz%is_empty_false & Hr%is_empty_false). apply extends_wp.
  unfold cleanupRecord, conditionTrue, res_status. repeat wp_step. fold st. rewrite Hready.
  repeat wp_step. fold st. rewrite Hz. repeat wp_step. fold st. rewrite Hz, Hr.
  apply deleteRecord_gone.
Qed.

Lemma cleanupZone_keeps_ids v :
  respects (emits (W:=W) any_call (ids_are v)) cleanupZone.
Proof. go_respects. Qed.

Lemma emptyAndDeleteZone_extends id s :
  HostedZoneId (status (resource (local s))) = id ->
  extends (fun o l _ => o = Ok tt -> Exists (zone_gone id) l) emptyAndDeleteZone s.
Proof.
  intros Hid. apply extends_wp. unfold emptyAndDeleteZone, client, res_status.
  repeat wp_step. cbn [continue]. repeat wp_step. rewrite Hid.
  set (c := awsClient _).
  eapply (wp_emits any_call (fun _ => True)); [go_respects|done|].
  intros [rrs|e|w|] l1 s1 Ht1 _ _; cbn [continue]; try (close_trace; done).
  wp_step. eapply (wp_emits any_call (fun _ => True)); [go_respects|done|].
  intros [[]|e|w|] l2 s2 Ht2 _ _; cbn [continue]; try (close_trace; done).
  repeat wp_step. unfold AWSClient.DeleteHostedZone, AWSClient.r53.
  destruct c as [cfg|]; [|apply wp_lift; close_trace; done].
  apply wp_trigger. cbn. intros w3 [e|[]] _; cbn; [close_trace; done|].
  eapply (wp_emits any_call (fun _ => True)); [go_respects|done|].
  intros o l4 s4 Ht4 _ _. close_trace. intros _.
  rewrite !Exists_app. do 2 right. apply Exists_cons_hd. done.
Qed.

Lemma deleteZone_extends id s :
  HostedZoneId (status (resource (local s))) = id ->
  extends (fun o l _ => o = Ok tt -> Exists (zone_gone id) l) deleteZone s.
Proof.
  intros Hid. apply extends_wp. unfold deleteZone, client, res_status.
  repeat wp_step. cbn [continue]. repeat wp_step. rewrite Hid.
  unfold AWSClient.DeleteHostedZone, AWSClient.r53.
  destruct (awsClient _) as [cfg|]; [|apply wp_lift; close_trace; done].
  apply wp_trigger. cbn. intros w1 [e|[]] _; cbn [of_answer continue].
  - destruct (AsAPIError e) as [[code msg]|] eqn:He; [|repeat wp_step; close_trace; done].
    destruct (String.eqb_spec code NoSuchHostedZone_code) as [->|_].
    + eapply (wp_emits any_call (fun _ => True)); [go_respects|done|].
      intros o l2 s2 Ht2 _ _. close_trace. intros _. apply Exists_cons_hd. split; [done|].
      apply has_code_AsAPIError. eauto.
    + destruct (String.eqb code HostedZoneNotEmpty_code); [|repeat wp_step; close_trace; done].
      eapply wp_extends; [by apply (emptyAndDeleteZone_extends id)|].
      intros o l2 s2 Ht2 Ho. close_trace. intros ->. apply Exists_cons_tl. auto.
  - unfold eventNormal. repeat wp_step. close_trace. intros _. apply Exists_cons_hd. done.
Qed.

(** On success the zone is gone, or it is the cluster's own. *)
Definition zone_released (v : VpcEndpoint) (l : list event) : Prop :=
  Exists (zone_gone (HostedZoneId (status v))) l \/
  Exists (is_cluster_domain (DomainName (phz_spec v))) l.

Lemma cleanupZone_extends v s :
  HostedZoneId (status v) <> "" -> names_domain v = true -> zone_kept v (local s) ->
  extends (fun o l _ => o = Ok tt -> zone_released v l) cleanupZone s.
Proof.
  intros Hz%is_empty_false Hn [(Hsp & _) Hid]. apply extends_wp. unfold cleanupZone, res.
  repeat wp_step. cbn [continue]. rewrite Hid, Hz.
  assert (names_domain (resource (local s)) = true) as ->
    by (unfold names_domain, phz_spec in *; by rewrite Hsp).
  simpl. repeat wp_step. apply wp_trigger. cbn. intros w1 [e|dns] _; cbn [of_answer continue].
  - destruct (hostedControlPlaneRef _); [|repeat wp_step; close_trace; done].
    eapply wp_extends; [by apply deleteZone_extends|].
    intros o l2 s2 Ht2 Ho. close_trace. intros ->. left. apply Exists_cons_tl. auto.
  - destruct (String.eqb_spec (DomainName (phz_spec (resource (local s))))
                (configv1.BaseDomain dns)) as [Hd|_].
    + repeat wp_step. close_trace. intros _. right. apply Exists_cons_hd. split; [done|].
      rewrite <- Hd. unfold phz_spec. by rewrite Hsp.
    + eapply wp_extends; [by apply deleteZone_extends|].
      intros o l2 s2 Ht2 Ho. close_trace. intros ->. left. apply Exists_cons_tl. auto.
Qed.

(** ** The security group *)

Lemma cleanupSecurityGroup_extends id s :
  id <> "" -> group_is id (local s) ->
  extends (fun o l _ => o = Ok tt -> Exists (group_gone id) l) cleanupSecurityGroup s.
Proof.
  intros Hid%is_empty_false Hs. unfold group_is in Hs.
  apply extends_wp. unfold cleanupSecurityGroup, client, res_status.
  repeat wp_step. cbn [continue]. rewrite Hs, Hid. repeat wp_step. cbn [continue].
  repeat wp_step. unfold AWSClient.DeleteSecurityGroup, AWSClient.ec2. repeat wp_step.
  destruct (awsClient _) as [cfg|]; [|apply wp_lift; close_trace; done].
  apply wp_trigger. cbn. intros w1 [e|[]] _; cbn [of_answer continue].
  - destruct (has_code "InvalidGroup.NotFound" e) eqn:He; repeat wp_step.
    + unfold eventNormal. repeat wp_step. close_trace. intros _. by apply Exists_cons_hd.
    + destruct (AsAPIError e) as [[code msg]|] eqn:Ha; [|repeat wp_step; close_trace; done].
      destruct (String.eqb_spec code "InvalidGroup.NotFound") as [->|_];
        [|repeat wp_step; close_trace; done].
      enough (has_code "InvalidGroup.NotFound" e = true) by congruence.
      apply has_code_AsAPIError. eauto.
  - repeat wp_step. unfold eventNormal. repeat wp_step. close_trace. intros _.
    by apply Exists_cons_hd.
Qed.

(** ** The whole cleanup *)

Lemma emits_any {A} (Inv : Mem -> Prop) (m : M W Mem A) s :
  respects (emits (W:=W) any_call Inv) m -> Inv (local s) ->
  extends (fun _ _ m' => Inv m') m s.
Proof.
  intros Hm Hs. destruct (emits_extends _ _ _ _ Hm Hs) as (l & Ht & _ & Hi). by exists l.
Qed.

(** AWS has confirmed the end of what the operator takes down with [v]: the recorded
    endpoint and security group; the recorded record set, if the status shows it as
    ready; and the recorded zone, if the spec names its domain, which is what makes
    it a zone of the operator, and the domain is not the cluster's.  (A zone that the
    spec gives by id or discovers is not the operator's, and stays.) *)
Definition resources_gone (v : VpcEndpoint) (l : list event) : Prop :=
  (record_known (status v) ->
     record_gone (HostedZoneId (status v)) (ResourceRecordSet (status v)) l) /\
  (VPCEndpointId (status v) <> "" -> Exists (confirms_deleted (VPCEndpointId (status v))) l) /\
  (SecurityGroupId (status v) <> "" -> Exists (group_gone (SecurityGroupId (status v))) l) /\
  (HostedZoneId (status v) <> "" -> names_domain v = true -> zone_released v l).

Lemma zone_released_app v l1 l2 l3 : zone_released v l2 -> zone_released v (l1 ++ l2 ++ l3).
Proof. unfold zone_released. rewrite !Exists_app. tauto. Qed.

Lemma resources_gone_mid v l1 l2 l3 :
  resources_gone v l2 -> resources_gone v (l1 ++ l2 ++ l3).
Proof.
  intros (Hr & He & Hs & Hz). split_and!.
  - intros Hk. eapply record_gone_mono; [|by apply Hr]. set_solver.
  - intros Hne. rewrite !Exists_app. auto.
  - intros Hne. rewrite !Exists_app. auto.
  - intros Hne Hn. apply zone_released_app. auto.
Qed.

Lemma cleanupAwsResources_extends p s v :
  resource (local s) = v ->
  extends (fun o l _ => o = Ok tt -> resources_gone v l) (cleanupAwsResources p) s.
Proof.
  intros Hv. apply extends_wp. unfold cleanupAwsResources, res_status, eventNormal.
  repeat wp_step. eapply wp_extends.
  { apply (extends_when (record_known (status v))
             (fun _ _ m' => ids_are v m' /\ (HostedZoneId (status v) <> "" -> zone_kept v m'))
             (fun o l _ => o = Ok tt ->
                record_gone (HostedZoneId (status v)) (ResourceRecordSet (status v)) l)).
    - apply (extends_when (HostedZoneId (status v) <> "")
               (fun _ _ m' => ids_are v m') (fun _ _ m' => zone_kept v m')).
      + apply emits_any; [apply cleanupRecord_keeps_ids|]. by subst v.
      + intros Hz. apply emits_any; [by apply cleanupRecord_keeps_zone|]. by subst v.
    - subst v. exact (cleanupRecord_extends p (after s _ _ _)). }
  intros [[]|e|w|] l1 s1 Ht1 [[Hids1 Hzone1] Hrec1]; cbn [continue]; try (close_trace; done).
  wp_step. eapply wp_extends.
  { apply (extends_when (HostedZoneId (status v) <> "" /\ names_domain v = true)
             (fun _ _ m' => ids_are v m') (fun o l _ => o = Ok tt -> zone_released v l)).
    - by apply emits_any; [apply cleanupZone_keeps_ids|].
    - intros [Hz Hn]. apply cleanupZone_extends; auto. }
  intros [[]|e|w|] l2 s2 Ht2 [(_ & Hep2 & Hsg2) Hzone2]; cbn [continue]; try (close_trace; done).
  wp_step. eapply wp_extends.
  { apply (extends_when (VPCEndpointId (status v) <> "")
             (fun _ _ m' => group_is (SecurityGroupId (status v)) m')
             (fun o l m' => o = Ok tt -> VPCEndpointId (status (resource m')) = "" /\
                Exists (confirms_deleted (VPCEndpointId (status v))) l)).
    - by apply emits_any; [go_respects|].
    - intros Hep. by apply cleanupVpcEndpoint_extends. }
  intros [[]|e|w|] l3 s3 Ht3 [Hsg3 Hep3]; cbn [continue]; try (close_trace; done).
  wp_step. eapply wp_extends.
  { apply (extends_when (SecurityGroupId (status v) <> "") (fun _ _ _ => True)
             (fun o l _ => o = Ok tt -> Exists (group_gone (SecurityGroupId (status v))) l)).
    - by apply (emits_any (fun _ => True)); [go_respects|].
    - intros Hsg. by apply cleanupSecurityGroup_extends. }
  intros [[]|e|w|] l4 s4 Ht4 [_ Hsg4]; cbn [continue]; try (close_trace; done).
  repeat wp_step. close_trace. intros _. unfold resources_gone.
  rewrite !Exists_cons, !Exists_app. split_and!; [|naive_solver..|].
  - intros Hk. eapply record_gone_mono; [|by apply Hrec1]. set_solver.
  - intros. apply (zone_released_app v (_ :: l1)). auto.
Qed.

(** C4: an object is released only when its resources are gone. While an object is
    being deleted, the update that removes the finalizer is sent only after AWS
    has confirmed the end of the recorded endpoint and of the recorded security
    group, of the recorded record set, when the status shows it as ready, and, when
    the spec names a domain, of the recorded hosted zone, unless the API server
    showed the literal domain to be the cluster's own. *)
Theorem object_released_after_cleanup p s :
  ContainsFinalizer (metav1.Finalizers (meta (resource (local s)))) avoFinalizer = true ->
  exists l, trace (reconcileDelete p s).2 = trace s ++ l /\
    (Forall (event_sat (no updates_object)) l \/
     exists l1 l2, l = l1 ++ l2 /\ Forall (event_sat (no updates_object)) l1 /\
       resources_gone (resource (local s)) l1).
Proof.
  intros Hf. set (v := resource (local s)) in *.
  change (extends (fun _ l _ => Forall (event_sat (no updates_object)) l \/
     exists l1 l2, l = l1 ++ l2 /\ Forall (event_sat (no updates_object)) l1 /\
       resources_gone v l1) (reconcileDelete p) s).
  apply extends_wp. unfold reconcileDelete, res. repeat wp_step. fold v. rewrite Hf.
  repeat wp_step. eapply wp_extends.
  { apply (extends_when True (fun _ l _ => Forall (event_sat (no updates_object)) l)
             (fun o l _ => o = Ok tt -> resources_gone v l)).
    - destruct (cleanup_emits p _ s eq_refl) as (_ & l & Ht & Hl). by exists l.
    - intros _. by apply cleanupAwsResources_extends. }
  intros [[]|e|w|] l1 s1 Ht1 [Hno Hgone]; cbn [continue]; try (close_trace; by left).
  - eapply (wp_emits any_call (fun _ => True)); [go_respects|done|].
    intros o l2 s2 Ht2 _ _. close_trace. right. exists l1, l2. auto.
  - eapply (wp_emits (no updates_object) (fun _ => True)); [go_respects|done|].
    intros o l2 s2 Ht2 Hl2 _. close_trace. left. by apply Forall_app_2.
Qed.

End spec.

(** ** Examples *)

#[local] Existing Instances K8sRef.helpers K8sRef.helpers_laws Sim.world.

(** An object that is being deleted, with all its resources. *)
Definition full_obj : VpcEndpoint :=
  Sim.object (Some 1%Z) [avoFinalizer] (Sim.spec (Sim.phz "other.example" None "api"))
    (Sim.status_ "vpce-1" "sg-1" "Z1" "" []).

Definition released : Sys Sim.State Mem :=
  (reconcileDelete resource_ptr_ (Sim.sys Sim.state full_obj)).2.

Lemma object_released_after_cleanup_witness :
  exists l, trace released = [] ++ l /\
    (Forall (event_sat (no updates_object)) l \/
     exists l1 l2, l = l1 ++ l2 /\ Forall (event_sat (no updates_object)) l1 /\
       resources_gone full_obj l1).
Proof.
  apply (object_released_after_cleanup resource_ptr_ (Sim.sys Sim.state full_obj)).
  reflexivity.
Defined.

(** In that run everything is deleted and the finalizer goes. *)
Example released_example :
  Sim.endpoints (world released) = [] /\ Sim.securityGroups (world released) = [] /\
  Sim.zones (world released) = [] /\
  metav1.Finalizers (meta (resource (local released))) = [].
Proof. vm_compute. done. Qed.
End ReleaseSpec.
