(* ===== verification/InvariantSpec.v ===== *)
(** * What the operator writes back

    Invariants of the custom resource over a whole reconcile, and of every copy
    of it that is sent to the API server: the conditions stay well formed, and
    an update never changes the spec, the identity or a recorded VPC. *)
From S2P Require Import Prelude GoError Naming Types Calls GoMonad AwsClient Lookups.
From S2P Require Import Controller Helpers HostedZones Validation Cleanup Reconcile Sim CleanupSpec.
Import avov1alpha2 Helpers HostedZones Validation Cleanup Reconcile.

Module InvariantSpec.
Import CleanupSpec.

(** Every object that is sent to the API server satisfies [Q]. *)
Definition sends (Q : VpcEndpoint -> Prop) : call_pred := fun R c =>
  match c with
  | Kube (UpdateVpcEndpoint v) | Kube (UpdateVpcEndpointStatus v) => Q v
  | _ => True
  end.

Definition resource_sat (Q : VpcEndpoint -> Prop) (m : Mem) : Prop := Q (resource m).

(** ** Well-formed conditions *)

Definition condition_types : list string :=
  [AWSVpcEndpointCondition; AWSSecurityGroupCondition; ExternalNameServiceCondition;
   AWSRoute53RecordCondition; AWSRoute53TagsCondition].

(** A condition the operator may set. *)
Definition condition_wf (c : metav1.Condition) : Prop :=
  metav1.Type_ c ∈ condition_types /\
  metav1.Status c ∈ [metav1.ConditionTrue; metav1.ConditionFalse].

#[export] Instance condition_wf_dec c : Decision (condition_wf c).
Proof. unfold condition_wf. apply _. Defined.

(** Known types, each at most once, each true or false. *)
Definition conditions_wf (cs : list metav1.Condition) : Prop :=
  NoDup (metav1.Type_ <$> cs) /\ Forall condition_wf cs.

#[export] Instance conditions_wf_dec cs : Decision (conditions_wf cs).
Proof. unfold conditions_wf. apply _. Defined.

Definition status_wf (v : VpcEndpoint) : Prop := conditions_wf (Conditions (status v)).

(** ** What an update leaves alone *)

(** [v] is [v0] but for its resource version, the operator's finalizer and its
    status, in which a VPC once recorded stays. *)
Definition same_object (v0 v : VpcEndpoint) : Prop :=
  Spec v = Spec v0 /\
  metav1.Name (meta v) = metav1.Name (meta v0) /\
  metav1.Namespace (meta v) = metav1.Namespace (meta v0) /\
  metav1.Labels (meta v) = metav1.Labels (meta v0) /\
  metav1.CreationTimestamp (meta v) = metav1.CreationTimestamp (meta v0) /\
  metav1.DeletionTimestamp (meta v) = metav1.DeletionTimestamp (meta v0) /\
  (forall f, f <> avoFinalizer ->
     f ∈ metav1.Finalizers (meta v) <-> f ∈ metav1.Finalizers (meta v0)) /\
  (VPCId (status v0) <> "" -> VPCId (status v) = VPCId (status v0)).

Section spec.
Context {W : Type} `{World W} `{K8sHelpersLaws}.
Implicit Types s : Sys W Mem.

(** *** The two updates *)

Lemma update_sends Q {R} (f : VpcEndpoint -> kubeop R) (k : R -> Mem -> Mem) :
  (forall v, Q v -> sends Q _ (Kube (f v))) ->
  (forall r m, resource_sat Q m -> resource_sat Q (k r m)) ->
  respects (emits (W:=W) (sends Q) (resource_sat Q))
    (v <- res;; r <- trigger (Kube (f v));; modify (k r))%go.
Proof.
  intros Hf Hk. unfold res. apply emits_gets_bind. intros m Hm.
  apply respects_bind; [apply _|by apply emits_trigger, Hf|].
  intros r. apply emits_modify. auto.
Qed.

#[local] Hint Extern 1 (respects (emits (sends _) _) statusUpdate) =>
  apply update_sends; [intros ? Hv; exact Hv|intros ? ? Hv; exact Hv] : respects.
#[local] Hint Extern 1 (respects (emits (sends _) _) resourceUpdate) =>
  apply update_sends; [intros ? Hv; exact Hv|intros ? ? Hv; exact Hv] : respects.
#[local] Hint Extern 1 (respects (emits _ _) (pollDeleted _ _ _)) =>
  apply pollDeleted_emits; [call_solve|intros; call_solve..|inv_solve] : respects.

(** *** Conditions *)

Lemma conditions_wf_set cs c :
  condition_wf c -> conditions_wf cs -> conditions_wf (SetStatusCondition cs c).
Proof.
  intros Hc [Hn Hcs]. split.
  - rewrite condition_set_types. case_decide as Hin; [done|].
    apply NoDup_app. split; [done|]. split; [|apply NoDup_singleton].
    intros t Ht ->%list_elem_of_singleton. done.
  - apply Forall_forall. intros c' [Hin|[Ht Hst]]%condition_set_elem.
    + by eapply Forall_forall in Hcs.
    + unfold condition_wf in *. by rewrite Ht, Hst.
Qed.

Lemma setCondition_wf c :
  condition_wf c ->
  respects (emits (W:=W) (sends status_wf) (resource_sat status_wf)) (setCondition c).
Proof.
  intros Hc. apply emits_modify. intros m. by apply conditions_wf_set.
Qed.

#[local] Hint Extern 1 (respects _ (setCondition _)) =>
  apply setCondition_wf; split; cbn; set_solver : respects.

(** C13: the conditions of the status stay well formed. Starting from an object whose
    conditions have known types, each at most once, with the status "True" or
    "False", every object that a reconcile sends to the API server is of that
    shape again, and so is the one it ends with, on every path and whatever the
    services answer. *)
Theorem status_well_formed s :
  status_wf (resource (local s)) ->
  status_wf (resource (local (reconcileObject s).2)) /\
  exists l, trace (reconcileObject s).2 = trace s ++ l /\
    Forall (event_sat (sends status_wf)) l.
Proof.
  assert (Hr : respects (emits (W:=W) (sends status_wf) (resource_sat status_wf))
                 reconcileObject) by go_respects.
  apply Hr.
Qed.

(** *** Identity *)

Lemma same_object_refl v : same_object v v.
Proof. by unfold same_object. Qed.

Lemma ensureFinalizer_same v0 :
  respects (emits (W:=W) (sends (same_object v0)) (resource_sat (same_object v0)))
    ensureFinalizer.
Proof.
  unfold ensureFinalizer, res. apply emits_gets_bind. intros m _.
  case_match; [apply respects_ret, _|]. apply respects_bind; [apply _| |intros _; go_respects].
  apply emits_modify. intros m' (?&?&?&?&?&?& Hf &?). repeat (split; [done|]).
  split; [|done]. intros f Hne. cbn. rewrite add_finalizer, <- Hf by done. tauto.
Qed.

Lemma removeFinalizer_same v0 :
  respects (emits (W:=W) (sends (same_object v0)) (resource_sat (same_object v0)))
    removeFinalizer.
Proof.
  unfold removeFinalizer. apply respects_bind; [apply _| |intros _; go_respects].
  apply emits_modify. intros m' (?&?&?&?&?&?& Hf &?). repeat (split; [done|]).
  split; [|done]. intros f Hne. cbn. rewrite remove_finalizer, <- Hf by done. tauto.
Qed.

#[local] Hint Resolve ensureFinalizer_same removeFinalizer_same : respects.

(** The one place that records a VPC runs only while none is recorded. *)
Definition chooses_vpc : M W Mem unit :=
  (s <- res_status;;
   if is_empty (VPCId s) then
     vpcId <- chooseVpc;;
     modify_status (set_VPCId vpcId);;
     wrap "failed to update status: " statusUpdate
   else ret tt)%go.

Lemma chooses_vpc_same v0 :
  respects (emits (W:=W) (sends (same_object v0)) (resource_sat (same_object v0))) chooses_vpc.
Proof.
  unfold chooses_vpc, res_status. apply emits_gets_bind. intros m (?&?&?&?&?&?&?& Hvpc).
  destruct (is_empty _) eqn:He; [|go_respects]. apply String.eqb_eq in He.
  assert (VPCId (status v0) = "") as Hv0.
  { destruct (decide (VPCId (status v0) = "")) as [|Hne]; [done|].
    rewrite <- Hvpc in Hne by done. done. }
  apply respects_bind; [apply _|go_respects|intros vpcId].
  apply respects_bind; [apply _| |intros _; go_respects].
  apply emits_modify. intros m' (?&?&?&?&?&?&?&_). repeat (split; [done|]). by intros [].
Qed.

(** C26: an update never changes what belongs to the user or to other controllers.
    Every object that a reconcile sends to the API server has the spec, the name,
    the namespace, the labels, the timestamps and, apart from the operator's own
    one, the finalizers of the object that was read, and a VPC id that the status
    once recorded is never replaced by another. *)
Theorem updates_keep_identity s :
  let v0 := resource (local s) in
  same_object v0 (resource (local (reconcileObject s).2)) /\
  exists l, trace (reconcileObject s).2 = trace s ++ l /\
    Forall (event_sat (sends (same_object v0))) l.
Proof.
  intros v0.
  assert (Hp : respects (emits (W:=W) (sends (same_object v0)) (resource_sat (same_object v0)))
                 (parseClusterInfo true)).
  { unfold parseClusterInfo. do 9 (apply respects_bind; [apply _|go_respects|intros ?]).
    change (respects (emits (W:=W) (sends (same_object v0)) (resource_sat (same_object v0)))
              chooses_vpc). apply chooses_vpc_same. }
  assert (Hr : respects (emits (W:=W) (sends (same_object v0)) (resource_sat (same_object v0)))
                 reconcileObject) by go_respects.
  apply Hr, same_object_refl.
Qed.

End spec.

(** ** Examples *)

#[local] Existing Instances K8sRef.helpers K8sRef.helpers_laws Sim.world.

Definition ready_obj : VpcEndpoint :=
  Sim.object None ["other/finalizer"] (Sim.spec (Sim.phz "" None ""))
    (Sim.status_ "vpce-1" "sg-1" "" ""
       [metav1.mkCondition AWSVpcEndpointCondition metav1.ConditionTrue "available" ""]).

Lemma status_well_formed_witness :
  status_wf ready_obj /\
  status_wf (resource (local (reconcileObject (Sim.sys Sim.state ready_obj)).2)) /\
  exists l, trace (reconcileObject (Sim.sys Sim.state ready_obj)).2 = [] ++ l /\
    Forall (event_sat (sends status_wf)) l.
Proof.
  assert (Hwf : status_wf ready_obj).
  { apply (bool_decide_eq_true_1 (status_wf ready_obj)). vm_compute. reflexivity. }
  split; [exact Hwf|]. exact (status_well_formed (Sim.sys Sim.state ready_obj) Hwf).
Defined.

Lemma updates_keep_identity_witness :
  let s := Sim.sys Sim.state ready_obj in
  same_object ready_obj (resource (local (reconcileObject s).2)) /\
  exists l, trace (reconcileObject s).2 = [] ++ l /\
    Forall (event_sat (sends (same_object ready_obj))) l.
Proof. exact (updates_keep_identity (Sim.sys Sim.state ready_obj)). Defined.

(** That run does send updates, and sets another condition. *)
Example ready_obj_example :
  let s := (reconcileObject (Sim.sys Sim.state ready_obj)).2 in
  length (Conditions (status (resource (local s)))) = 2 /\
  metav1.Finalizers (meta (resource (local s))) = ["other/finalizer"; avoFinalizer].
Proof. vm_compute. done. Qed.
End InvariantSpec.
