(* ===== verification/IsolationSpec.v ===== *)
(** * Whose credentials an AWS call uses

    The reconciler is one object for all custom resources and keeps its AWS
    client in a field.  Every AWS call of a reconcile is nevertheless made with a
    configuration that this reconcile loaded, from the credentials that the spec
    of the object it read names. *)
From S2P Require Import Prelude GoError Naming Types Calls GoMonad AwsClient Lookups.
From S2P Require Import Controller Helpers HostedZones Validation Cleanup Reconcile Sim CleanupSpec InvariantSpec.
Import avov1alpha2 Helpers HostedZones Validation Cleanup Reconcile.

Module IsolationSpec.
Import CleanupSpec InvariantSpec.

(** ** Configurations *)

(** [cfg] was made in [l] from the secret [ref]: a role that the secret names, or
    the static key pair it holds. *)
Definition from_secret (l : list event) (ref : SecretReference) (cfg : AwsConfig) : Prop :=
  exists data,
    Ev (Kube (GetSecret (secret_Namespace ref) (secret_Name ref))) (inr data) ∈ l /\
    match data !! Lookups.defaultRoleArn with
    | Some arn => exists region cfg0,
        Ev (LoadDefaultConfig region None) (inr cfg0) ∈ l /\
        cfg = mkAwsConfig (cfg_Region cfg0) (CredAssumeRole arn)
    | None => exists region id key,
        data !! Lookups.defaultAWSAccessKeyId = Some id /\
        data !! Lookups.defaultAWSSecretAccessKey = Some key /\
        Ev (LoadDefaultConfig region (Some (CredStatic id key))) (inr cfg) ∈ l
    end.

(** Without a reference the default configuration is the one to use. *)
Definition loaded (l : list event) (ref : option SecretReference) (cfg : AwsConfig) : Prop :=
  match ref with
  | Some ref => from_secret l ref cfg
  | None => exists region, Ev (LoadDefaultConfig region None) (inr cfg) ∈ l
  end.

(** After the calls [l] of a reconcile of an object with the spec [sp], the call
    [c] may be made: associating a zone with a VPC takes the credentials given for
    that VPC, every other AWS call those of the object. *)
Definition own_call (sp : VpcEndpointSpec) (l : list event) : call_pred := fun R c =>
  match c with
  | EC2 cfg _ => loaded l (AWSCredentialOverrideRef sp) cfg
  | R53 cfg op =>
      match op with
      | Calls.AssociateVPCWithHostedZone _ vpc region _ =>
          exists av ref, av ∈ AssociatedVpcs (r53phz (CustomDns sp)) /\
            av_VpcId av = vpc /\ av_Region av = region /\
            CredentialsSecretRef av = Some ref /\ from_secret l ref cfg
      | _ => loaded l (AWSCredentialOverrideRef sp) cfg
      end
  | _ => True
  end.

Definition own_calls (sp : VpcEndpointSpec) (l : list event) : Prop :=
  forall l1 e l2, l = l1 ++ e :: l2 -> event_sat (own_call sp l1) e.

(** Calls that are not AWS calls, or that use the client [cfg]. *)
Definition no_aws : call_pred := fun R c =>
  match c with EC2 _ _ | R53 _ _ => False | _ => True end.

Definition with_client (cfg : AwsConfig) : call_pred := fun R c =>
  match c with
  | EC2 cfg' _ => cfg' = cfg
  | R53 cfg' op =>
      match op with Calls.AssociateVPCWithHostedZone _ _ _ _ => False | _ => cfg' = cfg end
  | _ => True
  end.

Lemma elem_of_app_prefix (l l' : list event) e : l `prefix_of` l' -> e ∈ l -> e ∈ l'.
Proof. intros [k ->]. set_solver. Qed.

Lemma from_secret_prefix l l' ref cfg :
  l `prefix_of` l' -> from_secret l ref cfg -> from_secret l' ref cfg.
Proof.
  intros Hl (data & Hd & Hcfg). exists data. split; [by eapply elem_of_app_prefix|].
  destruct (data !! _); [destruct Hcfg as (r & cfg0 & ? & ?); exists r, cfg0|
    destruct Hcfg as (r & id & key & ? & ? & ?); exists r, id, key];
    eauto using elem_of_app_prefix.
Qed.

Lemma from_secret_suffix l1 l2 ref cfg :
  from_secret l2 ref cfg -> from_secret (l1 ++ l2) ref cfg.
Proof.
  intros (data & Hd & Hcfg). exists data. split; [set_solver|].
  destruct (data !! _); naive_solver set_solver.
Qed.

Lemma loaded_suffix l1 l2 ref cfg : loaded l2 ref cfg -> loaded (l1 ++ l2) ref cfg.
Proof.
  destruct ref as [ref|]; simpl; [by apply from_secret_suffix|].
  intros [r Hr]. exists r. set_solver.
Qed.

Lemma loaded_prefix l l' ref cfg : l `prefix_of` l' -> loaded l ref cfg -> loaded l' ref cfg.
Proof.
  intros Hl. destruct ref as [ref|]; simpl; [by apply from_secret_prefix|].
  intros [r Hr]. exists r. by eapply elem_of_app_prefix.
Qed.

Lemma own_calls_nil sp : own_calls sp [].
Proof. by intros [|e1 l1] e l2 ?. Qed.

Lemma own_calls_snoc sp l e :
  own_calls sp l -> event_sat (own_call sp l) e -> own_calls sp (l ++ [e]).
Proof.
  intros Hl He l1 e' l2 Heq. destruct l2 as [|e2 l2 _] using rev_ind.
  - by apply app_inj_tail in Heq as [-> ->].
  - rewrite app_comm_cons, app_assoc in Heq. apply app_inj_tail in Heq as [-> _].
    by eapply Hl.
Qed.

(** What may be called while the reconciler's client is [oc]. *)
Definition allowed (oc : option AwsConfig) : call_pred :=
  match oc with Some cfg => with_client cfg | None => no_aws end.

Lemma allowed_own sp l oc R (c : call R) :
  (forall cfg, oc = Some cfg -> loaded l (AWSCredentialOverrideRef sp) cfg) ->
  allowed oc R c -> own_call sp l R c.
Proof.
  intros Hoc. destruct oc as [cfg|]; simpl.
  - specialize (Hoc cfg eq_refl). destruct c; simpl; try done; [by intros ->|].
    destruct op; try (by intros ->); done.
  - by destruct c.
Qed.

Lemma own_calls_app sp l l' oc :
  (forall cfg, oc = Some cfg -> loaded l (AWSCredentialOverrideRef sp) cfg) ->
  own_calls sp l -> Forall (event_sat (allowed oc)) l' -> own_calls sp (l ++ l').
Proof.
  intros Hoc Hl. induction l' as [|e l' IH] using rev_ind; [by rewrite app_nil_r|].
  rewrite Forall_app, Forall_singleton. intros [Hl' He].
  rewrite app_assoc. apply own_calls_snoc; [auto|].
  destruct e as [R c r]. cbn in *. eapply allowed_own; [|exact He].
  intros cfg Hcfg. eapply loaded_prefix; [|by apply Hoc]. by apply prefix_app_r.
Qed.

Lemma no_aws_allowed oc l :
  Forall (event_sat no_aws) l -> Forall (event_sat (allowed oc)) l.
Proof.
  intros Hl. eapply Forall_impl; [exact Hl|]. intros [R c r].
  destruct oc; [|done]. by destruct c.
Qed.

(** ** The invariant *)

Section spec.
Context {W : Type} `{World W} `{K8sHelpers}.
Implicit Types s : Sys W Mem.

(** The memory of a reconcile of an object with the spec [sp], and the client. *)
Definition serves (sp : VpcEndpointSpec) (oc : option AwsConfig) (m : Mem) : Prop :=
  Spec (resource m) = sp /\ awsClient (reconciler m) = oc.

Section reconcile.
(** The trace at the start of the reconcile, and the spec it works on. *)
Context (base : list event) (sp : VpcEndpointSpec).

Definition good (oc : option AwsConfig) s : Prop :=
  serves sp oc (local s) /\
  exists l, trace s = base ++ l /\ own_calls sp l /\
    forall cfg, oc = Some cfg -> loaded l (AWSCredentialOverrideRef sp) cfg.

(** [good] for one client or another. *)
Definition good_any s : Prop := exists oc, good oc s.

(** Calls without AWS, after which the client is [oc']. *)
Lemma good_step oc oc' s s' l :
  good oc s -> trace s' = trace s ++ l -> Forall (event_sat (allowed oc)) l ->
  serves sp oc' (local s') ->
  (oc' = oc \/ forall cfg, oc' = Some cfg -> loaded l (AWSCredentialOverrideRef sp) cfg) ->
  good oc' s'.
Proof.
  intros (_ & k & Ht & Hown & Hload) Ht' Hl Hm Hoc. split; [done|].
  exists (k ++ l). rewrite Ht', Ht, app_assoc. split; [done|].
  split; [by eapply own_calls_app|]. intros cfg ->. destruct Hoc as [<-|Hoc].
  - eapply loaded_prefix; [|by apply Hload]. by apply prefix_app_r.
  - by apply loaded_suffix, Hoc.
Qed.

Definition own (oc : option AwsConfig) : relation (Sys W Mem) := fun s s' =>
  good oc s -> good oc s'.

#[local] Instance own_preorder oc : PreOrder (own oc).
Proof. split; unfold own; [intros s|intros s1 s2 s3]; auto. Qed.

Lemma own_of_emits {A} oc (m : M W Mem A) :
  respects (emits (allowed oc) (serves sp oc)) m -> respects (own oc) m.
Proof.
  intros Hm s Hs. destruct (Hm s (proj1 Hs)) as (Hm' & l & Ht & Hl).
  eapply good_step; eauto.
Qed.

(** A call with the client that was read from the reconciler. *)
#[local] Hint Extern 1 (allowed ?oc _ _) =>
  match goal with
  | Hs : serves _ oc ?m, Hc : awsClient (reconciler ?m) = _ |- _ =>
      rewrite <- (proj2 Hs), Hc; first [reflexivity | exact I]
  | |- _ => first [reflexivity | destruct oc; exact I]
  end : respects.

Lemma pollDeleted_own oc fuel deadline id :
  respects (emits (W:=W) (allowed oc) (serves sp oc)) (pollDeleted fuel deadline id).
Proof. induction fuel as [|fuel IH]; cbn [pollDeleted]; go_reads. Qed.

#[local] Hint Resolve pollDeleted_own : respects.

(** *** Loading a configuration *)

Lemma parse_override_extends region ref s :
  extends (fun o l m => m = local s /\ Forall (event_sat no_aws) l /\
             forall cfg, o = Ok cfg -> from_secret l ref cfg)
    (Lookups.ParseAWSCredentialOverride region (Some ref)) s.
Proof.
  apply extends_wp. unfold Lookups.ParseAWSCredentialOverride. wp_step.
  apply wp_trigger. cbn. intros w1 [e|data] _; cbn [of_answer continue].
  { close_trace. split_and!; [done|by repeat constructor|done]. }
  destruct (data !! Lookups.defaultRoleArn) as [arn|] eqn:Harn.
  - do 2 wp_step. apply wp_trigger. cbn. intros w2 [e|cfg] _; cbn [of_answer continue];
      repeat wp_step; close_trace; (split_and!; [done|by repeat constructor|]); [done|].
    intros ? [= <-]. exists data. rewrite Harn. split; [set_solver|].
    exists region, cfg. split; [set_solver|done].
  - destruct (data !! Lookups.defaultAWSAccessKeyId) as [id|] eqn:Hid,
      (data !! Lookups.defaultAWSSecretAccessKey) as [key|] eqn:Hkey;
      try (repeat wp_step; close_trace; (split_and!; [done|by repeat constructor|done])).
    apply wp_trigger. cbn. intros w2 [e|cfg] _; cbn [of_answer];
      close_trace; (split_and!; [done|by repeat constructor|]); [done|].
    intros ? [= <-]. exists data. rewrite Harn. split; [set_solver|].
    exists region, id, key. split_and!; [done..|set_solver].
Qed.

(** [s] with the client [cfg]. *)
Definition with_awsClient (cfg : AwsConfig) s : Sys W Mem :=
  mkSys (world s) (trace s) (on_reconciler (set_awsClient (Some cfg)) (local s)).

(** Loading the override keeps the client, and its result may become the client. *)
Lemma override_wp oc region ref s :
  good oc s -> AWSCredentialOverrideRef sp = Some ref ->
  wp (Lookups.ParseAWSCredentialOverride region (Some ref))
    (fun o s' => good oc s' /\ forall cfg, o = Ok cfg -> good (Some cfg) (with_awsClient cfg s')) s.
Proof.
  intros Hs Href. eapply wp_extends; [apply parse_override_extends|].
  intros o l s1 Ht (Hm & Hl & Hcfg).
  assert (serves sp oc (local s1)) as Hm1 by (rewrite Hm; apply Hs). split.
  - eapply good_step; [exact Hs|exact Ht|by apply no_aws_allowed|done|by left].
  - intros cfg ->. eapply good_step; [exact Hs|exact Ht|by apply no_aws_allowed| |].
    + split; [|done]. apply Hm1.
    + right. intros ? [= <-]. rewrite Href. by apply Hcfg.
Qed.

Lemma establishClient_own s (Q : outcome unit -> Sys W Mem -> Prop) :
  good None s -> (forall o s', good_any s' -> Q o s') -> wp (establishClient true) Q s.
Proof.
  intros Hs HQ. unfold establishClient, res, get_clusterInfo. repeat wp_step.
  destruct (deref _) as [ci|e|w|]; cbn [continue]; try (apply HQ; by exists None).
  pose proof (proj1 (proj1 Hs)) as Hsp. rewrite Hsp.
  destruct (AWSCredentialOverrideRef sp) as [ref|] eqn:Href.
  { wp_step. eapply wp_mono; [by apply (override_wp None)|].
    intros [cfg|e|w|] s1 [Hs1 Hcfg]; cbn [continue]; try (apply HQ; by exists None).
    wp_step. apply HQ. exists (Some cfg). by apply Hcfg. }
  wp_step. apply wp_trigger. cbn. intros w1 [e|cfg] _; cbn [of_answer continue].
  - apply HQ. exists None. eapply good_step; [exact Hs|reflexivity|by repeat constructor|
      apply Hs|by left].
  - wp_step. apply HQ. exists (Some cfg).
    eapply good_step; [exact Hs|reflexivity|by repeat constructor|by split|].
    right. intros ? [= <-]. rewrite Href. exists (region ci). set_solver.
Qed.

(** The parts of [parseClusterInfo] before and after [establishClient]. *)
Definition parse_head : M W Mem unit :=
  (modify (on_reconciler (set_clusterInfo (Some (mkClusterInfo "" ""))));;
   v <- res;;
   match hostedControlPlaneRef v with
   | Some _ => recordInfraId (Lookups.GetInfraId (metav1.Namespace (meta v)))
   | None => recordInfraId Lookups.GetInfrastructureName
   end;;
   s <- res_status;;
   tag <- lift (Naming.GetClusterLegacyTagKey (InfraId s));;
   setClusterTag tag;;
   getVpcEndpointServiceName;;
   recordRegion)%go.

Lemma parse_split s :
  parseClusterInfo true s =
  bind parse_head (fun _ => bind (establishClient true) (fun _ => chooses_vpc)) s.
Proof.
  unfold parseClusterInfo, parse_head.
  by repeat (rewrite <- bind_assoc; apply bind_ext; intros ??).
Qed.

Lemma parse_head_emits oc :
  respects (emits (W:=W) (allowed oc) (serves sp oc)) parse_head.
Proof. go_reads. Qed.

Lemma chooses_vpc_own oc : respects (own oc) (chooses_vpc (W:=W)).
Proof. apply own_of_emits. go_reads. Qed.

(** A part that keeps the client, in a run. *)
Lemma wp_own {A} oc (m : M W Mem A) s (Q : outcome A -> Sys W Mem -> Prop) :
  respects (own oc) m -> good oc s -> (forall o s', good oc s' -> Q o s') -> wp m Q s.
Proof. intros Hm Hs HQ. apply HQ. by apply Hm. Qed.

Lemma parse_wp s (Q : outcome unit -> Sys W Mem -> Prop) :
  good None s -> (forall o s', good_any s' -> Q o s') -> wp (parseClusterInfo true) Q s.
Proof.
  intros Hs HQ. unfold wp. rewrite parse_split. fold (wp (bind parse_head (fun _ =>
    bind (establishClient true) (fun _ => chooses_vpc))) Q s). wp_step.
  apply (wp_own None); [apply own_of_emits, parse_head_emits|done|].
  intros [[]|e|w|] s1 Hs1; cbn [continue]; try (apply HQ; by exists None).
  wp_step. apply establishClient_own; [done|].
  intros [[]|e|w|] s2 Hs2; cbn [continue]; try by apply HQ.
  destruct Hs2 as [oc Hs2]. apply (wp_own oc); [apply chooses_vpc_own|done|].
  intros o s3 Hs3. apply HQ. by exists oc.
Qed.

Lemma degradedCleanup_wp oc err s (Q : outcome unit -> Sys W Mem -> Prop) :
  good oc s -> (forall o s', good_any s' -> Q o s') -> wp (degradedCleanup err) Q s.
Proof.
  intros Hs HQ. unfold degradedCleanup. wp_step.
  apply (wp_own oc); [apply own_of_emits; go_reads|done|].
  intros [[]|e|w|] s1 Hs1; cbn [continue]; try (apply HQ; by exists oc).
  unfold res. repeat wp_step. pose proof (proj1 (proj1 Hs1)) as Hsp. rewrite Hsp.
  assert (Hc : forall A (m : M W Mem A), respects (emits (allowed oc) (serves sp oc)) m ->
    wp m (fun o s' => good_any s') s1).
  { intros A m Hm. apply (wp_own oc); [by apply own_of_emits|done|]. intros o s2 ?. by exists oc. }
  destruct (AWSCredentialOverrideRef sp) as [ref|] eqn:Href.
  2:{ eapply wp_mono; [apply Hc; go_reads|auto]. }
  destruct (is_empty _); [eapply wp_mono; [apply Hc; go_reads|auto]|].
  wp_step. apply wp_try. eapply wp_mono; [by apply (override_wp oc)|].
  intros [cfg|e|w|] s2 [Hs2 Hcfg]; cbn [continue]; try (apply HQ; by exists oc).
  - wp_step. apply HQ. exists (Some cfg). by apply Hcfg.
  - apply (wp_own oc); [apply own_of_emits; go_reads|done|]. intros o s3 ?. apply HQ. by exists oc.
Qed.

(** *** Associating a zone with a VPC *)

Lemma good_associate oc s m' l av ref cfg id comment w r :
  av ∈ AssociatedVpcs (r53phz (CustomDns sp)) -> CredentialsSecretRef av = Some ref ->
  good oc s -> serves sp oc m' -> from_secret l ref cfg ->
  (exists k, trace s = base ++ k ++ l) ->
  good oc (after (mkSys (world s) (trace s) m')
    (R53 cfg (Calls.AssociateVPCWithHostedZone id (av_VpcId av) (av_Region av) comment)) w r).
Proof.
  intros Hav Href (_ & k & Ht & Hown & Hload) Hm Hl [k1 Hk1]. split; [exact Hm|].
  rewrite Ht in Hk1. apply app_inv_head in Hk1 as ->.
  eexists ((k1 ++ l) ++ [_]). split; [cbn; rewrite Ht; symmetry; apply app_assoc|]. split.
  - apply own_calls_snoc; [done|]. exists av, ref. do 4 (split; [done|]).
    by apply from_secret_suffix.
  - intros cfg' Hcfg'. eapply loaded_prefix; [by apply prefix_app_r|]. auto.
Qed.

Lemma associateVpc_own oc ids av :
  av ∈ AssociatedVpcs (r53phz (CustomDns sp)) ->
  respects (own oc) (associateVpc (W:=W) ids av).
Proof.
  intros Hav. unfold associateVpc. case_bool_decide; [apply respects_ret, _|].
  intros s Hs.
  change (wp (
    c <- client;;
    st <- res_status;;
    AWSClient.CreateVPCAssociationAuthorization c (HostedZoneId st) (av_VpcId av) (av_Region av);;
    cfg <- Lookups.ParseAWSCredentialOverride (av_Region av) (CredentialsSecretRef av);;
    modify (on_reconciler (set_awsAssociatedVpcClient (Some cfg)));;
    AWSClient.AssociateVPCWithHostedZone (Some cfg) (HostedZoneId st) (av_VpcId av)
      (av_Region av);;
    invalidateHostedZoneCache (HostedZoneId st))%go (fun _ s' => good oc s') s).
  unfold client, res_status. repeat wp_step. cbn [continue]. repeat wp_step.
  apply (wp_own oc); [|done|].
  { apply own_of_emits. rewrite (proj2 (proj1 Hs)). destruct oc as [cfg|]; go_reads. }
  intros [[]|e|w|] s1 Hs1; cbn [continue]; try done. wp_step.
  destruct (CredentialsSecretRef av) as [ref|] eqn:Href; [|exact Hs1].
  eapply wp_extends; [apply parse_override_extends|].
  intros o l s2 Ht2 (Hm2 & Hl2 & Hcfg).
  assert (Hs2 : good oc s2).
  { eapply good_step; [exact Hs1|exact Ht2|by apply no_aws_allowed| |by left].
    rewrite Hm2. apply Hs1. }
  destruct o as [cfg|e|w|]; cbn [continue]; try done. repeat wp_step.
  unfold AWSClient.AssociateVPCWithHostedZone, AWSClient.r53.
  apply wp_trigger. intros w3 r3 _.
  assert (Hs3 : good oc (after (mkSys (world s2) (trace s2) (on_reconciler
    (set_awsAssociatedVpcClient (Some cfg)) (local s2))) (R53 cfg
      (Calls.AssociateVPCWithHostedZone (HostedZoneId (status (resource (local s))))
         (av_VpcId av) (av_Region av) "associated by aws-vpce-operator")) w3 r3)).
  { eapply good_associate; [done|exact Href|exact Hs2|apply Hs2|exact (Hcfg cfg eq_refl)|].
    destruct Hs1 as (_ & k1 & Ht1 & _). exists k1. by rewrite Ht2, Ht1, app_assoc. }
  destruct r3 as [e|[]]; cbn [of_answer continue]; [done|].
  apply (wp_own oc); [apply own_of_emits; go_reads|done|auto].
Qed.

Lemma associateVpcs_own oc ids avs :
  avs ⊆ AssociatedVpcs (r53phz (CustomDns sp)) ->
  respects (own oc) (forM_ avs (associateVpc (W:=W) ids)).
Proof.
  intros Havs. induction avs as [|av avs IH]; cbn [forM_]; [apply respects_ret, _|].
  apply respects_bind; [apply _|apply associateVpc_own; set_solver|].
  intros _. apply IH. set_solver.
Qed.

Lemma own_gets_bind {A B} oc (f : Mem -> A) (k : A -> M W Mem B) :
  (forall m, serves sp oc m -> respects (own oc) (k (f m))) ->
  respects (own oc) (bind (gets f) k).
Proof. intros Hk s Hs. by apply (Hk (local s) (proj1 Hs)). Qed.

Lemma authorization_own oc p :
  respects (own oc) (validateR53HostedZoneAuthorization (W:=W) p).
Proof.
  unfold validateR53HostedZoneAuthorization. destruct (is_nil p); [apply respects_lift, _|].
  apply own_gets_bind. intros m [Hsp _]. unfold phz_spec. rewrite Hsp.
  destruct (AssociatedVpcs (r53phz (CustomDns sp))) as [|av avs] eqn:Havs;
    [apply respects_ret, _|].
  destruct (is_empty _); [apply respects_lift, _|].
  apply respects_bind; [apply _|apply own_of_emits; go_reads|intros resp].
  apply respects_bind; [apply _|apply respects_lift, _|intros vpcs].
  rewrite <- Havs. by apply associateVpcs_own.
Qed.

#[local] Hint Resolve authorization_own : respects.
#[local] Hint Extern 2 (respects (own _) _) => apply own_of_emits; solve [go_reads] : respects.

Lemma reconcileNormal_own oc p : respects (own oc) (reconcileNormal (W:=W) p).
Proof.
  unfold reconcileNormal, validateResources. cbn [forM_].
  apply respects_bind; [apply _| |intros r; apply own_of_emits; go_reads].
  apply respects_try.
  do 2 (apply respects_bind; [apply _|apply own_of_emits; go_reads|intros _]).
  apply respects_bind; [apply _| |intros _; apply respects_ret, _].
  unfold validateCustomDns, res. apply own_gets_bind. intros m Hm.
  apply respects_bind; [apply _|apply respects_gets, _|intros flag].
  case_match; [apply respects_ret, _|]. unfold validateResources. cbn [forM_].
  do 2 (apply respects_bind; [apply _|apply own_of_emits; go_reads|intros _]).
  apply respects_bind; [apply _|apply authorization_own|intros _].
  apply respects_bind; [apply _|apply own_of_emits; go_reads|intros _].
  apply respects_ret, _.
Qed.

(** *** A whole reconcile *)

(** After the client was established. *)
Lemma delete_or_live_wp oc s :
  good oc s ->
  wp (v <- res;;
      if isDeleting v then reconcileDelete resource_ptr_
      else (ensureFinalizer;; reconcileNormal resource_ptr_))%go (fun _ s' => good_any s') s.
Proof.
  intros Hs. unfold res. repeat wp_step. case_match;
    (apply (wp_own oc); [|done|intros o s2 ?; by exists oc]).
  - apply own_of_emits. go_reads.
  - apply respects_bind; [apply _|apply own_of_emits; go_reads|intros _].
    apply reconcileNormal_own.
Qed.

Lemma reconcileObject_good s : good None s -> good_any (reconcileObject s).2.
Proof.
  intros Hs. change (wp reconcileObject (fun _ s' => good_any s') s).
  unfold reconcileObject, res at 1. repeat wp_step.
  apply parse_wp; [done|]. intros [[]|err|w|] s1 [oc Hs1]; cbn [continue]; try (by exists oc).
  - repeat wp_step. by apply (delete_or_live_wp oc).
  - wp_step. assert (Hd : forall o s', good_any s' -> continue (fun _ : unit => (v <- res;;
      if isDeleting v then reconcileDelete resource_ptr_
      else (ensureFinalizer;; reconcileNormal resource_ptr_))%go)
      (fun _ s' => good_any s') o s').
    { intros [[]|e|w|] s' [oc' Hs']; cbn [continue]; try (by exists oc').
      by apply (delete_or_live_wp oc'). }
    case_match; [by eapply degradedCleanup_wp|].
    apply (wp_own oc); [apply own_of_emits; go_reads|done|].
    intros o s2 Hs2. apply Hd. by exists oc.
Qed.

End reconcile.

(** Every AWS call in [l] comes after the object was read, and uses a configuration
    that was loaded for it. *)
Definition own_client (namespace name : string) (l : list event) : Prop :=
  forall l1 e l2, l = l1 ++ e :: l2 -> ~ event_sat no_aws e ->
    exists v, Ev (Kube (GetVpcEndpoint namespace name)) (inr v) ∈ l1 /\
      event_sat (own_call (Spec v) l1) e.

Lemma own_client_cons namespace name v l :
  own_calls (Spec v) l ->
  own_client namespace name (Ev (Kube (GetVpcEndpoint namespace name)) (inr v) :: l).
Proof.
  intros Hl [|e1 l1] e l2 Heq He; [by injection Heq as <- _; destruct He|].
  injection Heq as <- ->. exists v. split; [by left|].
  specialize (Hl l1 e l2 eq_refl). destruct e as [R c a]. cbn in *.
  assert (l1 `suffix_of` Ev (Kube (GetVpcEndpoint namespace name)) (inr v) :: l1) as [k Hk]
    by by apply suffix_cons_r.
  rewrite Hk. destruct c; cbn in *; try done.
  - by apply loaded_suffix.
  - destruct op; try by apply loaded_suffix.
    destruct Hl as (av & ref & ? & ? & ? & ? & ?). exists av, ref.
    split_and!; try done. by apply from_secret_suffix.
Qed.

(** C12: no credentials leak from one object to another. Every AWS call of a reconcile
    comes after the object was read, and uses a configuration that was loaded
    since: from the secret of the object's [awsCredentialOverrideRef] when it has
    one, by default otherwise; the association of a zone with a VPC uses the secret
    given for that VPC. A client left in the reconciler by an earlier reconcile is
    never used. *)
Theorem aws_calls_use_own_client s namespace name :
  exists l, trace (Reconcile namespace name s).2 = trace s ++ l /\ own_client namespace name l.
Proof.
  change (wp (Reconcile namespace name) (fun _ s' =>
    exists l, trace s' = trace s ++ l /\ own_client namespace name l) s).
  unfold Reconcile. repeat wp_step. apply wp_trigger. cbn.
  intros w1 [e|v] _; cbn [of_answer continue].
  - assert (own_client namespace name [Ev (Kube (GetVpcEndpoint namespace name)) (inl e)]).
    { intros [|e1 l1] e' l2 Heq He; [by injection Heq as <- _; destruct He|by destruct l1]. }
    destruct (IsNotFound e); wp_step; by close_trace.
  - wp_step. wp_step. cbn [continue].
    set (s1 := mkSys _ _ _). assert (Hs1 : good (trace s1) (Spec v) None s1).
    { split; [done|]. exists []. rewrite app_nil_r. split; [done|].
      split; [apply own_calls_nil|done]. }
    destruct (reconcileObject_good _ _ _ Hs1) as (oc & _ & l & Ht & Hown & _).
    change (exists l, trace (reconcileObject s1).2 = trace s ++ l /\ own_client namespace name l).
    rewrite Ht. cbn. rewrite <- app_assoc. eexists. split; [done|].
    by apply own_client_cons.
Qed.
End spec.

(** ** Example *)

#[local] Existing Instances K8sRef.helpers Sim.world.

(** A reconciler that still holds another object's assumed role. *)
Definition stale_client : Sys Sim.State Mem :=
  let s := Sim.sys (Sim.set_stored (Some ready_obj) Sim.state) ready_obj in
  mkSys (world s) [] (on_reconciler
    (set_awsClient (Some (mkAwsConfig "eu-west-1" (CredAssumeRole "arn:other")))) (local s)).

(** Its AWS calls are made with the default credentials, and there are some. *)
Example stale_client_example :
  let l := trace (Reconcile "ns" "example" stale_client).2 in
  existsb (fun e => match e with Ev (EC2 _ _) _ => true | _ => false end) l = true /\
  forallb (fun e => match e with
                    | Ev (EC2 cfg _) _ | Ev (R53 cfg _) _ => bool_decide (cfg = Sim.cfg)
                    | _ => true
                    end) l = true.
Proof. vm_compute. done. Qed.
End IsolationSpec.
