(* ===== verification/TagSpec.v ===== *)
(** * Finding again what was created

    The operator recognises its AWS resources by the tags it created them with.
    Here the two sides meet: the tags of the creating calls pass the filters of
    the searching calls, and the id of a created hosted zone, as it is stored in
    the status, leads back to that zone. *)
From S2P Require Import Prelude GoError Naming Types Calls GoMonad AwsClient Lookups.
From S2P Require Import Controller Helpers HostedZones Validation Reconcile Sim HostedZoneSpec.
Import avov1alpha2 Naming Helpers HostedZones.

Module TagSpec.

(** ** Filters of the EC2 API

    A filter [tag:K] selects the resources that have the tag [K] with one of the
    values, a filter [tag-key] those that have a tag with one of the keys; a
    request selects what passes all its filters. *)

Definition has_tag (tags : list AwsTag) (p : string -> string -> Prop) : Prop :=
  Exists (fun t => match t with mkAwsTag (Some k) (Some v) => p k v | _ => False end) tags.

Definition passes (tags : list AwsTag) (f : ec2Types.Filter) : Prop :=
  match ec2Types.flt_Name f with
  | None => False
  | Some name =>
      if String.eqb name "tag-key" then has_tag tags (fun k _ => k ∈ ec2Types.flt_Values f)
      else has_tag tags (fun k v => name = "tag:" +:+ k /\ v ∈ ec2Types.flt_Values f)
  end.

Definition passes_all (tags : list AwsTag) (fs : list ec2Types.Filter) : Prop :=
  Forall (passes tags) fs.

#[export] Instance has_tag_dec tags p `{!forall k v, Decision (p k v)} :
  Decision (has_tag tags p).
Proof. unfold has_tag. apply Exists_dec. intros [[k|] [v|]]; apply _. Defined.

#[export] Instance passes_dec tags f : Decision (passes tags f).
Proof. unfold passes. repeat case_match; apply _. Defined.

#[export] Instance passes_all_dec tags fs : Decision (passes_all tags fs).
Proof. unfold passes_all. apply _. Defined.

(** The searches by default tags, for a security group and for an endpoint. *)
Definition default_filters (name clusterTag : string) : list ec2Types.Filter :=
  [ AWSClient.filter_by "tag:Name" [name];
    AWSClient.filter_by "tag-key" [clusterTag];
    AWSClient.filter_by ("tag:" +:+ OperatorTagKey) [OperatorTagValue] ].

(** The tags of a new resource pass the filters of the search for it. *)
Lemma default_tags_pass name clusterTag tags :
  GenerateAwsTags name clusterTag = Ok tags ->
  passes_all tags (default_filters name clusterTag).
Proof.
  unfold GenerateAwsTags. destruct (_ || _)%bool; [done|]. intros [= <-].
  unfold passes_all, default_filters, passes, has_tag. cbn.
  repeat apply Forall_cons_2; [..|apply Forall_nil_2].
  - do 3 apply Exists_cons_tl. apply Exists_cons_hd. set_solver.
  - do 2 apply Exists_cons_tl. apply Exists_cons_hd. set_solver.
  - apply Exists_cons_hd. set_solver.
Qed.

(** ** A store of tagged resources *)

(** What EC2 documents of its tags: a created resource has the tags of the request,
    waiting for it changes nothing, and a search that succeeds returns every
    resource that passes its filters. *)
Class TagStore {W : Type} `{World W} (groups vpces : W -> list (string * list AwsTag)) : Prop := {
  group_created cfg i w w' id :
    handle (EC2 cfg (Calls.CreateSecurityGroup i)) w = (w', inr (Some id)) ->
    (id, ec2Types.csg_Tags i) ∈ groups w';
  group_kept cfg ids t w w' r :
    handle (EC2 cfg (WaitSecurityGroupExists ids t)) w = (w', r) -> groups w ⊆ groups w';
  group_found cfg fs w w' sgs id tags :
    handle (EC2 cfg (DescribeSecurityGroups fs [])) w = (w', inr sgs) ->
    (id, tags) ∈ groups w -> passes_all tags fs ->
    exists sg, sg ∈ sgs /\ ec2Types.sg_GroupId sg = Some id;
  vpce_created cfg i w w' v id :
    handle (EC2 cfg (Calls.CreateVpcEndpoint i)) w = (w', inr (Some v)) ->
    ec2Types.VpcEndpointId v = Some id -> (id, ec2Types.cve_Tags i) ∈ vpces w';
  vpce_found cfg fs w w' vs id tags :
    handle (EC2 cfg (DescribeVpcEndpoints fs [])) w = (w', inr vs) ->
    (id, tags) ∈ vpces w -> passes_all tags fs ->
    exists v, v ∈ vs /\ ec2Types.VpcEndpointId v = Some id
}.

Section spec.
Context {W : Type} `{World W} (groups vpces : W -> list (string * list AwsTag)).
Context `{!TagStore groups vpces} {L : Type}.
Implicit Types s : Sys W L.

(** C24: what was created is found again. A security group and an endpoint that the
    operator created with a name and the cluster's tag key are among the results
    of every later search by default tags that succeeds, as long as AWS still has
    them with their tags: a lost status update does not lead to a second one. *)
Theorem created_resources_are_found cfg infra tag name vpc svc s :
  GetClusterLegacyTagKey infra = Ok tag ->
  wp (AWSClient.CreateSecurityGroup (Some cfg) name vpc tag) (fun o s1 =>
    forall id, o = Ok (Some id) ->
    forall s2, groups (world s1) ⊆ groups (world s2) ->
    wp (AWSClient.FilterSecurityGroupByDefaultTags (Some cfg) infra name) (fun o _ =>
      forall sgs, o = Ok sgs -> exists sg, sg ∈ sgs /\ ec2Types.sg_GroupId sg = Some id) s2) s /\
  wp (AWSClient.CreateDefaultInterfaceVPCEndpoint (Some cfg) name vpc svc tag) (fun o s1 =>
    forall v id, o = Ok (Some v) -> ec2Types.VpcEndpointId v = Some id ->
    forall s2, vpces (world s1) ⊆ vpces (world s2) ->
    wp (AWSClient.FilterVPCEndpointByDefaultTags (Some cfg) tag name) (fun o _ =>
      forall vs, o = Ok vs -> exists v, v ∈ vs /\ ec2Types.VpcEndpointId v = Some id) s2) s.
Proof.
  intros Htag. split.
  - unfold AWSClient.CreateSecurityGroup, AWSClient.ec2. repeat wp_step.
    destruct (GenerateAwsTags name tag) as [tags|e|w|] eqn:Htags; cbn [continue]; try done.
    wp_step. apply wp_trigger. intros w1 [e|[id|]] E1; cbn; repeat wp_step; try done.
    apply wp_trigger. cbn. intros w2 [e|[]] E2; cbn; repeat wp_step; [done|].
    intros ? [= <-] s2 Hs2. unfold AWSClient.FilterSecurityGroupByDefaultTags, AWSClient.ec2.
    repeat wp_step. rewrite Htag. cbn [continue]. apply wp_trigger.
    intros w3 [e|sgs] E3; cbn; [done|]. intros ? [= <-].
    eapply group_found; [exact E3| |by apply default_tags_pass].
    apply Hs2. cbn. eapply group_kept; [exact E2|]. exact (group_created _ _ _ _ _ E1).
  - unfold AWSClient.CreateDefaultInterfaceVPCEndpoint, AWSClient.ec2. repeat wp_step.
    destruct (GenerateAwsTags name tag) as [tags|e|w|] eqn:Htags; cbn [continue]; try done.
    apply wp_trigger. intros w1 [e|[v|]] E1; cbn; try done.
    intros ? id [= <-] Hid s2 Hs2. unfold AWSClient.FilterVPCEndpointByDefaultTags, AWSClient.ec2.
    assert (is_empty tag = false) as ->.
    { unfold GetClusterLegacyTagKey in Htag. destruct (is_empty infra); [done|].
      by injection Htag as <-. }
    apply wp_trigger. intros w3 [e|vs] E3; cbn; [done|]. intros ? [= <-].
    eapply vpce_found; [exact E3| |by apply default_tags_pass].
    apply Hs2. cbn. exact (vpce_created _ _ _ _ _ _ E1 Hid).
Qed.
End spec.

(** ** The hosted zone *)

Section zone.
Context {W : Type} `{World W} `{K8sHelpers}.
Implicit Types s : Sys W Mem.

(** What Route 53 documents of hosted zones: a created zone has an id of the form
    "/hostedzone/Z", a query for the id of a zone answers with it, and nothing but
    Route 53 calls changes the zones. *)
Context (zones : W -> list route53Types.HostedZone).

Class ZoneStore : Prop := {
  zone_created cfg i w w' z :
    handle (R53 cfg (Calls.CreateHostedZone i)) w = (w', inr (Some z)) ->
    z ∈ zones w' /\ exists id, route53Types.hz_Id z = Some ("/hostedzone/" +:+ id) /\
      no_space id /\ id <> "";
  zone_kept R (c : call R) w w' r :
    match c with R53 _ _ => False | _ => True end ->
    handle c w = (w', r) -> zones w ⊆ zones w';
  zone_found cfg id w w' out z :
    handle (R53 cfg (Calls.GetHostedZone id)) w = (w', inr out) ->
    z ∈ zones w -> route53Types.hz_Id z = Some id ->
    exists z', route53Types.HostedZone_ out = Some z' /\ route53Types.hz_Id z' = Some id
}.
Context `{!ZoneStore}.

Definition zone_id (m : Mem) : string := HostedZoneId (status (resource m)).

(** The zone of the id that the status records exists. *)
Definition zone_recorded s : Prop :=
  zone_id (local s) <> "" /\
  exists z, z ∈ zones (world s) /\
    route53Types.hz_Id z = Some ("/hostedzone/" +:+ zone_id (local s)).

Lemma createZone_records domain s :
  wp (createZone domain) (fun o s1 => o = Ok tt -> zone_recorded s1) s.
Proof.
  unfold createZone, client, res_status, get_clusterInfo. repeat wp_step.
  cbn [continue]. repeat wp_step. destruct (deref _) as [ci|e|w|]; cbn [continue]; try done.
  unfold AWSClient.CreateHostedZone, AWSClient.r53. repeat wp_step.
  apply wp_trigger. cbn. intros w1 [e|now] _; cbn; [done|].
  destruct (awsClient _) as [cfg|]; [|done].
  apply wp_trigger. cbn. intros w2 [e|[z|]] E2; cbn; repeat wp_step; try done.
  apply zone_created in E2 as (Hz & id & Hid & Hs & Hne).
  rewrite Hid. cbn [deref continue]. unfold modify_status, eventNormal.
  do 2 wp_step. cbn [continue]. wp_step. apply wp_fire. intros w3 r3 E3%zone_kept; [|done].
  cbn [continue]. unfold statusUpdate, res. repeat wp_step. apply wp_trigger. cbn.
  intros w4 [e|rv] E4%zone_kept; cbn; repeat wp_step; try done.
  intros _. unfold zone_recorded, zone_id. cbn.
  assert (zoneIdOf ("/hostedzone/" +:+ id) = id) as Hzid by by apply HostedZoneSpec.zoneIdOf_prefix.
  rewrite Hzid. split; [done|]. exists z. set_solver.
Qed.
(** A query of AWS or of the clock that the pass makes failed. *)
Definition query_failed (cfg : AwsConfig) (id : string) (e : error) (l : list event) : Prop :=
  Ev (R53 cfg (Calls.GetHostedZone ("/hostedzone/" +:+ id))) (inl e) ∈ l \/ Ev Now (inl e) ∈ l.

Lemma recorded_zone_accepted cfg s :
  zone_recorded s -> awsClient (reconciler (local s)) = Some cfg ->
  HostedZoneSpec.cache_of (local s) !! zone_id (local s) = None ->
  wp (findOrCreatePrivateHostedZone resource_ptr_) (fun o s' =>
    resource (local s') = resource (local s) /\
    (o = Ok tt \/ exists e, o = Err e /\ query_failed cfg (zone_id (local s)) e (trace s'))) s.
Proof.
  intros [Hne (z & Hz & Hid)] Hc Hcache. unfold findOrCreatePrivateHostedZone, res_status.
  cbn [is_nil]. repeat wp_step. unfold zone_id in *. apply is_empty_false in Hne. rewrite Hne.
  cbn [negb]. unfold getHostedZoneCached, cacheLookup, get_cache, set_cache, client.
  repeat wp_step. unfold HostedZoneSpec.cache_of in Hcache. cbn [reconciler].
  rewrite Hcache. wp_step. cbn [continue]. repeat wp_step. cbn. rewrite Hc.
  unfold AWSClient.GetHostedZone, AWSClient.r53. cbn [continue].
  apply wp_trigger. cbn. intros w1 [e|out] E1; cbn.
  { split; [done|]. right. exists e. split; [done|]. left. set_solver. }
  eapply zone_found in E1 as (z' & Hout & Hid'); [|exact Hz|exact Hid].
  wp_step. apply wp_trigger. cbn. intros w2 [e|now] _; cbn.
  { split; [done|]. right. exists e. split; [done|]. right. set_solver. }
  unfold get_cache, set_cache. repeat wp_step. rewrite Hout. cbn [deref continue].
  repeat wp_step. rewrite Hid'. cbn [deref continue]. cbn. rewrite String.eqb_refl.
  wp_step. cbn. auto.
Qed.

(** C25: the id of a created hosted zone survives its round trip through the status.
    AWS answers a creation with the id "/hostedzone/Z", and the status records "Z".
    Every later pass over the object, while the zone exists and nothing is cached
    for it, asks AWS for exactly the id of that zone and accepts it: the pass
    succeeds without searching or creating, and leaves the object as it is, unless
    the query itself fails. *)
Theorem created_zone_is_accepted domain s :
  wp (createZone domain) (fun o s1 => o = Ok tt -> forall cfg s2,
    resource (local s2) = resource (local s1) -> zones (world s1) ⊆ zones (world s2) ->
    awsClient (reconciler (local s2)) = Some cfg ->
    HostedZoneSpec.cache_of (local s2) !! zone_id (local s2) = None ->
    wp (findOrCreatePrivateHostedZone resource_ptr_) (fun o s3 =>
      resource (local s3) = resource (local s2) /\
      (o = Ok tt \/
       exists e, o = Err e /\ query_failed cfg (zone_id (local s2)) e (trace s3))) s2) s.
Proof.
  eapply wp_mono; [apply createZone_records|]. intros o s1 Hrec Ho cfg s2 Hres Hsub.
  destruct (Hrec Ho) as [Hne (z & Hz & Hid)]. apply recorded_zone_accepted.
  unfold zone_recorded, zone_id in *. rewrite Hres. split; [done|]. exists z. set_solver.
Qed.
End zone.

(** ** A world with tags and zones *)

Module TagSim.

Record State := mkState {
  groups : list (string * list AwsTag);
  vpces : list (string * list AwsTag);
  zones : list route53Types.HostedZone
}.

Definition selected (fs : list ec2Types.Filter) (l : list (string * list AwsTag)) : list string :=
  fst <$> filter (fun r => passes_all r.2 fs) l.

Definition zone_with (id : string) (z : route53Types.HostedZone) : bool :=
  bool_decide (route53Types.hz_Id z = Some id).

Definition ec2 {R} (op : ec2op R) (w : State) : State * (error + R) :=
  match op in ec2op R return State * (error + R) with
  | Calls.CreateSecurityGroup i =>
      (mkState (("sg-1", ec2Types.csg_Tags i) :: groups w) (vpces w) (zones w), inr (Some "sg-1"))
  | WaitSecurityGroupExists _ _ => (w, inr tt)
  | DescribeSecurityGroups fs [] =>
      (w, inr ((fun id => ec2Types.mkSecurityGroup (Some id) []) <$> selected fs (groups w)))
  | Calls.CreateVpcEndpoint i =>
      (mkState (groups w) (("vpce-1", ec2Types.cve_Tags i) :: vpces w) (zones w),
       inr (Some (Sim.endpoint "vpce-1" "pending")))
  | DescribeVpcEndpoints fs [] =>
      (w, inr ((fun id => Sim.endpoint id "available") <$> selected fs (vpces w)))
  | _ => (w, inl (EOpaque "not simulated"))
  end.

Definition r53 {R} (op : route53op R) (w : State) : State * (error + R) :=
  match op in route53op R return State * (error + R) with
  | Calls.CreateHostedZone i =>
      let z := route53Types.mkHostedZone (Some "/hostedzone/Z1") (Some (route53Types.chz_Name i))
                 (Some true) in
      (mkState (groups w) (vpces w) (z :: zones w), inr (Some z))
  | Calls.GetHostedZone id =>
      match List.find (zone_with id) (zones w) with
      | Some z => (w, inr (route53Types.mkGetHostedZoneOutput (Some z) []))
      | None => (w, inl (EOpaque "no such zone"))
      end
  | _ => (w, inl (EOpaque "not simulated"))
  end.

Definition kube {R} (op : kubeop R) (w : State) : State * (error + R) :=
  match op in kubeop R return State * (error + R) with
  | UpdateVpcEndpointStatus _ => (w, inr "2")
  | _ => (w, inl (EOpaque "not simulated"))
  end.

#[export] Instance world : World State := fun R (c : call R) w =>
  match c in call R return State * (error + R) with
  | EC2 _ op => ec2 op w
  | R53 _ op => r53 op w
  | Kube op => kube op w
  | Now => (w, inr 0%Z)
  | Event _ _ _ => (w, inr tt)
  | _ => (w, inl (EOpaque "not simulated"))
  end.

Lemma selected_elem fs l id tags :
  (id, tags) ∈ l -> passes_all tags fs -> id ∈ selected fs l.
Proof.
  intros Hin Hp. apply list_elem_of_fmap. exists (id, tags). split; [done|].
  by apply list_elem_of_filter.
Qed.

#[export] Instance tag_store : TagStore groups vpces.
Proof.
  split.
  - intros cfg i w w' id [= <- <-]. by left.
  - intros cfg ids t w w' r [= <- <-]. done.
  - intros cfg fs w w' sgs id tags [= <- <-] Hin Hp.
    exists (ec2Types.mkSecurityGroup (Some id) []). split; [|done].
    apply list_elem_of_fmap. exists id. split; [done|]. by eapply selected_elem.
  - intros cfg i w w' v id [= <- <-] [= <-]. by left.
  - intros cfg fs w w' vs id tags [= <- <-] Hin Hp.
    exists (Sim.endpoint id "available"). split; [|done].
    apply list_elem_of_fmap. exists id. split; [done|]. by eapply selected_elem.
Qed.

Lemma ec2_zones {R} (op : ec2op R) w : zones (ec2 op w).1 = zones w.
Proof. destruct op; simpl; repeat case_match; done. Qed.

Lemma kube_zones {R} (op : kubeop R) w : (kube op w).1 = w.
Proof. by destruct op. Qed.

#[export] Instance zone_store : ZoneStore zones.
Proof.
  split.
  - intros cfg i w w' z [= <- <-]. split; [by left|]. exists "Z1". split_and!; [done| |done].
    vm_compute. auto.
  - intros R c w w' r Hc. unfold handle, world. destruct c; try done; try (by intros [= <- _]).
    + pose proof (ec2_zones op w). destruct (ec2 op w). intros [= <- _]. simpl in *. by rewrite H.
    + pose proof (kube_zones op w). destruct (kube op w). intros [= <- _]. simpl in *. by subst.
  - intros cfg id w w' out z. unfold handle, world, r53.
    destruct (List.find (zone_with id) (zones w)) as [z1|] eqn:Hf; [|done].
    intros [= <- <-] _ _. exists z1. split; [done|].
    apply List.find_some in Hf as [_ Hf]. by apply bool_decide_eq_true in Hf.
Qed.

Definition empty : State := mkState [] [] [].

End TagSim.

#[local] Existing Instances TagSim.world TagSim.tag_store TagSim.zone_store K8sRef.helpers.

Definition new_group : outcome (option string) * Sys TagSim.State unit :=
  AWSClient.CreateSecurityGroup (Some Sim.cfg) "infra-example-sg" "vpc-1"
    "kubernetes.io/cluster/infra" (mkSys TagSim.empty [] tt).

Lemma created_resources_are_found_witness :
  fst new_group = Ok (Some "sg-1") /\
  forall sgs,
    (AWSClient.FilterSecurityGroupByDefaultTags (Some Sim.cfg) "infra" "infra-example-sg"
       (snd new_group)).1 = Ok sgs ->
    exists sg, sg ∈ sgs /\ ec2Types.sg_GroupId sg = Some "sg-1".
Proof.
  split; [vm_compute; reflexivity|].
  pose proof (proj1 (created_resources_are_found TagSim.groups TagSim.vpces Sim.cfg "infra"
    "kubernetes.io/cluster/infra" "infra-example-sg" "vpc-1" "svc" (mkSys TagSim.empty [] tt)
    ltac:(reflexivity))) as Hfound.
  apply (Hfound "sg-1"); [vm_compute; reflexivity|done].
Defined.

(** The search does return the group, and not one of another name. *)
Example new_group_example :
  (AWSClient.FilterSecurityGroupByDefaultTags (Some Sim.cfg) "infra" "infra-example-sg"
     (snd new_group)).1 = Ok [ec2Types.mkSecurityGroup (Some "sg-1") []] /\
  (AWSClient.FilterSecurityGroupByDefaultTags (Some Sim.cfg) "infra" "infra-other-sg"
     (snd new_group)).1 = Ok [].
Proof. vm_compute. done. Qed.

Definition zoneless : Sys TagSim.State Mem :=
  mkSys TagSim.empty [] (mkMem Sim.reconciler_
    (Sim.object None [] (Sim.spec (Sim.phz "example.com" None "api"))
       (Sim.status_ "" "" "" "" []))).

Lemma created_zone_is_accepted_witness :
  (createZone "example.com" zoneless).1 = Ok tt /\
  let s2 := (createZone "example.com" zoneless).2 in
  wp (findOrCreatePrivateHostedZone resource_ptr_) (fun o s3 =>
    resource (local s3) = resource (local s2) /\
    (o = Ok tt \/
     exists e, o = Err e /\ query_failed Sim.cfg (zone_id (local s2)) e (trace s3))) s2.
Proof.
  split; [vm_compute; reflexivity|]. intros s2.
  apply (created_zone_is_accepted TagSim.zones "example.com" zoneless);
    [vm_compute; reflexivity|done|done|vm_compute; reflexivity|vm_compute; reflexivity].
Defined.
End TagSpec.
