(* ===== verification/LivenessSpec.v ===== *)
(** * Deletion completes

    The finalizer protocol is safe (ReleaseSpec.v); here it is live.  In a world
    that cooperates, where calls succeed and a deleted endpoint disappears in
    time, one reconcile of a deleted object cleans everything up and releases it. *)
From S2P Require Import Prelude GoError Naming Types Calls GoMonad AwsClient Lookups.
From S2P Require Import Controller Helpers HostedZones Validation Cleanup Reconcile Sim.
Import avov1alpha2 Helpers HostedZones Validation Cleanup Reconcile.

Module LivenessSpec.

(** The calls of a cleanup, but for those about the endpoint and for sleeping. *)
Definition plain_call : call_pred := fun R c =>
  match c with
  | Now | Metric _ | Event _ _ _ => True
  | Kube (UpdateVpcEndpoint _) | Kube (UpdateVpcEndpointStatus _) | Kube (GetDNS _) => True
  | R53 _ (Calls.GetHostedZone _) | R53 _ (Calls.ListResourceRecordSets _)
  | R53 _ (ChangeResourceRecordSets _) | R53 _ (Calls.DeleteHostedZone _) => True
  | EC2 _ (Calls.DeleteSecurityGroup _) => True
  | _ => False
  end.

(** Zones come with an id, and records with a name. *)
Definition well_formed {R} (c : call R) : R -> Prop :=
  match c in call R return R -> Prop with
  | R53 _ op =>
      match op in route53op R return R -> Prop with
      | Calls.GetHostedZone _ => fun out =>
          forall z, route53Types.HostedZone_ out = Some z -> is_Some (route53Types.hz_Id z)
      | Calls.ListResourceRecordSets _ => fun rrs =>
          Forall (fun rr => is_Some (route53Types.rrs_Name rr)) rrs
      | _ => fun _ => True
      end
  | _ => fun _ => True
  end.

(** A world that cooperates: calls succeed and take at most [latency]; after its
    deletion was asked for, an endpoint is shown as deleting, and it is gone after
    [remaining] sleeps. *)
Class Cooperates {W : Type} `{World W} (clock : W -> Z) (latency : Z)
    (remaining : W -> nat) (deleting : string -> W -> Prop) : Prop := {
  coop_clock :: ClockLaws clock;
  coop_plain R (c : call R) w w' r :
    plain_call R c -> handle c w = (w', r) ->
    (exists a, r = inr a /\ well_formed c a) /\
    (clock w' <= clock w + latency)%Z /\ remaining w' <= remaining w /\
    (forall id, deleting id w -> deleting id w');
  coop_delete cfg id w w' r :
    handle (EC2 cfg (DeleteVpcEndpoints [id])) w = (w', r) ->
    r = inr tt /\ remaining w' <= remaining w /\ deleting id w';
  coop_poll cfg id w w' r :
    deleting id w -> handle (EC2 cfg (DescribeVpcEndpoints [] [id])) w = (w', r) ->
    (clock w' <= clock w + latency)%Z /\ remaining w' <= remaining w /\ deleting id w' /\
    match r with
    | inl e => has_code "InvalidVpcEndpointId.NotFound" e = true
    | inr vs => exists v, vs = [v] /\
        (ec2Types.State v = "deleted" \/ ec2Types.State v = "deleting" /\ remaining w <> 0)
    end;
  coop_sleep d w w' r :
    (0 <= d)%Z -> handle (AfterOrDone d) w = (w', r) ->
    r = inr tt /\ (clock w' <= clock w + d + latency)%Z /\
    remaining w' <= pred (remaining w) /\ (forall id, deleting id w -> deleting id w')
}.

Section spec.
Context {W : Type} `{World W} `{K8sHelpersLaws}.
Context (clock : W -> Z) (latency : Z) (remaining : W -> nat) (deleting : string -> W -> Prop).
Context `{!Cooperates clock latency remaining deleting}.
(** The deletion takes at most [polls] sleeps, which fit into three minutes. *)
Context (cfg : AwsConfig) (polls : nat).
Context (polls_fit : (2 * latency + Z.of_nat polls * (pollInterval + 3 * latency) < pollTimeout)%Z).
Implicit Types s : Sys W Mem.

(** ** Computations that succeed *)

Definition ready s : Prop :=
  remaining (world s) <= polls /\ awsClient (reconciler (local s)) = Some cfg.

Definition succeeds {A} (m : M W Mem A) : Prop :=
  forall s, ready s -> exists a s', m s = (Ok a, s') /\ ready s'.

Lemma succeeds_wp {A} (m : M W Mem A) :
  succeeds m <->
  forall s, ready s -> wp m (fun o s' => (exists a, o = Ok a) /\ ready s') s.
Proof.
  split; intros Hm s Hs; specialize (Hm s Hs); unfold wp in *.
  - destruct Hm as (a & s' & -> & Hs'). split; [by exists a|done].
  - destruct (m s) as [o s'], Hm as [[a Ha] Hs']. cbn in *. subst o. by exists a, s'.
Qed.

Lemma succeeds_ret {A} (a : A) : succeeds (ret a).
Proof. intros s Hs. by exists a, s. Qed.

Lemma succeeds_bind {A B} (m : M W Mem A) (k : A -> M W Mem B) :
  succeeds m -> (forall a, succeeds (k a)) -> succeeds (bind m k).
Proof.
  intros Hm Hk s Hs. destruct (Hm s Hs) as (a & s1 & E & Hs1). unfold bind. rewrite E.
  by apply Hk.
Qed.

Lemma succeeds_gets_bind {A B} (f : Mem -> A) (k : A -> M W Mem B) :
  (forall m, awsClient (reconciler m) = Some cfg -> succeeds (k (f m))) ->
  succeeds (bind (gets f) k).
Proof. intros Hk s Hs. unfold bind, gets. by apply Hk; [apply Hs|]. Qed.

Lemma succeeds_modify (f : Mem -> Mem) :
  (forall m, awsClient (reconciler (f m)) = awsClient (reconciler m)) -> succeeds (modify f).
Proof. intros Hf s [Hr Hc]. eexists _, _. split; [done|]. split; [done|]. cbn. by rewrite Hf. Qed.

Lemma succeeds_trigger_bind {R B} (c : call R) (k : R -> M W Mem B) :
  plain_call R c -> (forall a, well_formed c a -> succeeds (k a)) ->
  succeeds (bind (trigger c) k).
Proof.
  intros Hc Hk s [Hr Hcfg]. unfold bind, trigger.
  destruct (handle c (world s)) as [w' r] eqn:E.
  apply coop_plain in E as ((a & -> & Ha) & _ & Hrem & _); [|done]. cbn.
  apply Hk; [done|]. split; [cbn; lia|done].
Qed.

Lemma bind_ret_r {A} (m : M W Mem A) s : bind m (fun a => ret a) s = m s.
Proof. unfold bind. by destruct (m s) as [[a|e|w|] s']. Qed.

Lemma succeeds_trigger {R} (c : call R) : plain_call R c -> succeeds (trigger c).
Proof.
  intros Hc s Hs. rewrite <- bind_ret_r.
  apply (succeeds_trigger_bind c (fun a => ret a)); auto using succeeds_ret.
Qed.

Lemma succeeds_try_bind {A B} (m : M W Mem A) (k : error + A -> M W Mem B) :
  succeeds m -> (forall a, succeeds (k (inr a))) -> succeeds (bind (try m) k).
Proof.
  intros Hm Hk s Hs. destruct (Hm s Hs) as (a & s1 & E & Hs1). unfold bind, try. rewrite E.
  by apply Hk.
Qed.

Lemma succeeds_fire c : plain_call unit c -> succeeds (fire c).
Proof. intros Hc. apply succeeds_try_bind; [by apply succeeds_trigger|intros; apply succeeds_ret]. Qed.

Lemma succeeds_wrap {A} p (m : M W Mem A) : succeeds m -> succeeds (wrap p m).
Proof. intros Hm. apply succeeds_try_bind; [done|intros; apply succeeds_ret]. Qed.

Lemma succeeds_forM_ {A} (l : list A) (f : A -> M W Mem unit) (P : A -> Prop) :
  Forall P l -> (forall a, P a -> succeeds (f a)) -> succeeds (forM_ l f).
Proof.
  intros Hl Hf. induction Hl as [|a l Ha Hl IH]; cbn [forM_]; [apply succeeds_ret|].
  apply succeeds_bind; auto.
Qed.

(** Follows the text of a program, like [go_respects]. *)
Ltac succeeds_step :=
  match goal with
  | |- succeeds (bind ?m _) =>
      let h := head_of m in
      lazymatch h with
      | @res => idtac | @res_status => idtac | @client => idtac | @conditionTrue => idtac
      end;
      apply succeeds_gets_bind; intros ??
  | |- succeeds (bind (AWSClient.GetHostedZone _ _) _) => unfold AWSClient.GetHostedZone
  | |- succeeds (bind (AWSClient.ListResourceRecordSets _ _) _) =>
      unfold AWSClient.ListResourceRecordSets
  | Hc : awsClient (reconciler ?m) = Some cfg
      |- succeeds (bind (AWSClient.r53 (awsClient (reconciler ?m)) _) _) =>
      rewrite Hc
  | |- succeeds (bind (AWSClient.r53 (Some _) _) _) => cbn [AWSClient.r53]
  | Hx : ?x = Some _ |- succeeds (lift (deref ?x)) =>
      rewrite Hx; cbn [deref]; apply succeeds_ret
  | |- succeeds (bind (trigger _) _) => apply succeeds_trigger_bind; [exact I|intros ??]
  | |- succeeds (bind (try _) _) => apply succeeds_try_bind; [|intros ?]
  | |- succeeds (bind _ _) => apply succeeds_bind; [|intros ?]
  | |- succeeds (ret _) => apply succeeds_ret
  | |- succeeds (trigger _) => apply succeeds_trigger; exact I
  | |- succeeds (fire _) => apply succeeds_fire; exact I
  | |- succeeds (modify _) => apply succeeds_modify; intros ?; reflexivity
  | |- succeeds (wrap _ _) => apply succeeds_wrap
  | |- succeeds (let _ := _ in _) => cbv zeta
  | Hc : awsClient (reconciler ?m) = Some cfg
      |- succeeds (match awsClient (reconciler ?m) with _ => _ end) => rewrite Hc
  | |- succeeds (match ?x with _ => _ end) => destruct x eqn:?
  | |- succeeds ?m => unfold_program m
  end.

Ltac go_succeeds := repeat succeeds_step.

(** ** The parts of the cleanup *)

Lemma deleteOwnRecord_succeeds zone rr :
  is_Some (route53Types.hz_Id zone) -> is_Some (route53Types.rrs_Name rr) ->
  succeeds (deleteOwnRecord zone rr).
Proof. intros [id Hid] [n Hn]. go_succeeds. Qed.

Lemma cleanupRecord_succeeds p s :
  ready s ->
  (IsStatusConditionTrue (Conditions (status (resource (local s)))) AWSRoute53RecordCondition = true ->
   HostedZoneId (status (resource (local s))) <> "") ->
  exists s', cleanupRecord p s = (Ok tt, s') /\ ready s'.
Proof.
  intros Hs Hz. unfold cleanupRecord, conditionTrue, res_status.
  unfold bind at 1, gets at 1. destruct (IsStatusConditionTrue _ _) eqn:Hc; [|by exists s].
  unfold bind at 1, gets at 1. specialize (Hz eq_refl). apply is_empty_false in Hz. rewrite Hz.
  unfold bind at 1, ret at 1.
  enough (Hok : succeeds (A := unit) (s <- gets (fun m => status (resource m));;
    if (negb (is_empty (HostedZoneId s)) && negb (is_empty (ResourceRecordSet s)))%bool
    then deleteRecord else ret tt)%go).
  { destruct (Hok s Hs) as ([] & s' & ? & ?). by exists s'. }
  apply succeeds_gets_bind. intros m Hm. case_match; [|apply succeeds_ret].
  unfold deleteRecord. go_succeeds.
  eapply succeeds_forM_; [eassumption|]. intros rr Hrr.
  apply deleteOwnRecord_succeeds; [|done].
  match goal with Ha : well_formed _ ?a, Hz : route53Types.HostedZone_ ?a = Some _ |- _ =>
    exact (Ha _ Hz) end.
Qed.

Lemma deleteZone_succeeds : succeeds deleteZone.
Proof. unfold deleteZone. go_succeeds. Qed.

Lemma cleanupZone_succeeds : succeeds cleanupZone.
Proof. unfold cleanupZone. go_succeeds; apply deleteZone_succeeds. Qed.

Lemma cleanupSecurityGroup_succeeds : succeeds cleanupSecurityGroup.
Proof. unfold cleanupSecurityGroup, AWSClient.DeleteSecurityGroup. go_succeeds. Qed.

(** ** The wait for the endpoint *)

(** While at most [n] sleeps remain and fit before the deadline, the loop ends with the
    endpoint forgotten. *)
Lemma pollDeleted_succeeds n fuel deadline id s :
  id <> "" -> ready s -> deleting id (world s) -> remaining (world s) <= n -> n < fuel ->
  (clock (world s) + latency + Z.of_nat n * (pollInterval + 3 * latency) < deadline)%Z ->
  wp (pollDeleted fuel deadline id) (fun o s' =>
    o = Ok tt /\ ready s' /\ VPCEndpointId (status (resource (local s'))) = "") s.
Proof.
  intros Hid. revert n s. induction fuel as [|fuel IH]; intros n s [Hr Hc] Hd Hrem Hfuel Ht; [lia|].
  cbn [pollDeleted]. wp_step. apply wp_trigger. intros w1 r1 E1.
  pose proof (coop_plain _ Now _ _ _ I E1) as ([now [-> _]] & Hc1 & Hr1 & Hd1).
  apply clock_now in E1 as (t & [= <-] & Ht1). cbn [of_answer continue].
  assert (0 <= pollInterval)%Z by (unfold pollInterval, AwsClient.Second; lia).
  assert (0 <= Z.of_nat n * (pollInterval + 3 * latency))%Z by (apply Z.mul_nonneg_nonneg; lia).
  rewrite (proj2 (Z.ltb_lt now deadline)) by lia.
  unfold client. repeat wp_step. cbn [continue].
  unfold AWSClient.DescribeSingleVPCEndpointById, AWSClient.ec2.
  apply is_empty_false in Hid. rewrite Hid. cbn [local after]. rewrite Hc. repeat wp_step.
  apply wp_trigger. cbn. intros w2 r2 (Hc2 & Hr2 & Hd2 & Hans)%coop_poll; [|by auto].
  destruct r2 as [e|vs]; cbn.
  { rewrite Hans. unfold modify_status. repeat wp_step. split_and!; [done| |done].
    split; cbn; [lia|done]. }
  destruct Hans as (v & -> & [Hst|[Hst Hnz]]); cbn; repeat wp_step; cbn; rewrite Hst; cbn.
  { split_and!; [done| |done]. split; cbn; [lia|done]. }
  repeat wp_step. apply wp_trigger. cbn. intros w3 r3 (-> & Hc3 & Hr3 & Hd3)%coop_sleep; [|done].
  cbn. destruct n as [|n]; [lia|]. rewrite Nat2Z.inj_succ, Z.mul_succ_l in Ht.
  apply (IH n); cbn; [split; cbn; [lia|done]|auto|lia|lia|lia].
Qed.

Lemma awaitDeleted_succeeds id s :
  id <> "" -> ready s -> deleting id (world s) ->
  wp (awaitDeleted id) (fun o s' => o = Ok tt /\ ready s') s.
Proof.
  intros Hid [Hr Hc] Hd. unfold awaitDeleted, eventNormal. wp_step.
  apply wp_fire. intros w1 r1 E1.
  pose proof (coop_plain _ (Event _ _ _) _ _ _ I E1) as (_ & Hc1 & Hr1 & Hd1).
  cbn [continue]. wp_step. apply wp_trigger. cbn. intros w2 r2 E2.
  pose proof (coop_plain _ Now _ _ _ I E2) as ([now [-> _]] & Hc2 & Hr2 & Hd2).
  apply clock_now in E2 as (t & [= <-] & Ht2). cbn [of_answer continue]. wp_step.
  assert (Hp : polls < pollFuel).
  { unfold pollInterval, pollTimeout, AwsClient.Minute, AwsClient.Second in *.
    change pollFuel with 37. nia. }
  eapply wp_mono; [apply (pollDeleted_succeeds polls); cbn; [done|split; cbn; [lia|done]|auto|lia|done|lia]|].
  intros o s3 (-> & Hs3 & Hgone). cbn [continue]. unfold res_status. repeat wp_step.
  rewrite Hgone. by repeat wp_step.
Qed.

Lemma cleanupVpcEndpoint_succeeds : succeeds cleanupVpcEndpoint.
Proof.
  unfold cleanupVpcEndpoint. apply succeeds_gets_bind. intros m Hm.
  destruct (is_empty (VPCEndpointId (status m.(resource)))) eqn:Hid; [apply succeeds_ret|].
  apply is_empty_false in Hid. apply succeeds_bind; [unfold cleanupMetrics; go_succeeds|intros _].
  cbv zeta. apply succeeds_gets_bind. intros m' Hm'. rewrite Hm'.
  apply succeeds_wp. intros s [Hrem Hcfg].
  cbn [AWSClient.DeleteVPCEndpoint AWSClient.ec2]. do 2 wp_step.
  apply wp_trigger. intros w1 r1 E1. apply coop_delete in E1 as (Ha & Hr1 & Hd1).
  rewrite Ha. cbn [of_answer continue]. wp_step.
  eapply wp_mono; [apply awaitDeleted_succeeds; [done|split; cbn; [lia|done]|done]|].
  intros o s2 (-> & Hs2). cbn [continue]. apply succeeds_wp; [go_succeeds|done].
Qed.

(** ** The theorem *)

Lemma cleanupAwsResources_succeeds p s :
  ready s ->
  (IsStatusConditionTrue (Conditions (status (resource (local s)))) AWSRoute53RecordCondition = true ->
   HostedZoneId (status (resource (local s))) <> "") ->
  wp (cleanupAwsResources p) (fun o s' => o = Ok tt /\ ready s') s.
Proof.
  intros Hs Hz. unfold cleanupAwsResources, res_status, eventNormal. repeat wp_step.
  pose proof (coop_plain _ (Event _ _ _) _ _ _ I H2) as (_ & _ & Hr1 & _).
  set (s1 := after s _ w' r). assert (Hs1 : ready s1) by (destruct Hs; split; cbn; [lia|done]).
  destruct (cleanupRecord_succeeds p s1 Hs1 Hz) as (s2 & E2 & Hs2).
  unfold wp at 1. rewrite E2. cbn [fst snd continue].
  enough (Hok : succeeds (A := unit) (cleanupZone;; cleanupVpcEndpoint;; cleanupSecurityGroup;;
    eventNormal "CleanupComplete" "All AWS resources cleaned up successfully")%go).
  { destruct (Hok s2 Hs2) as ([] & s3 & E3 & Hs3). unfold wp, eventNormal in *. by rewrite E3. }
  apply succeeds_bind; [apply cleanupZone_succeeds|intros _].
  apply succeeds_bind; [apply cleanupVpcEndpoint_succeeds|intros _].
  apply succeeds_bind; [apply cleanupSecurityGroup_succeeds|intros _].
  go_succeeds.
Qed.

(** The API server stored the object without the finalizer. *)
Definition finalizer_dropped (l : list event) : Prop :=
  exists v rv, Ev (Kube (UpdateVpcEndpoint v)) (inr rv) ∈ l /\
    avoFinalizer ∉ metav1.Finalizers (meta v).

(** C7: a deletion completes. In a world that cooperates, where calls succeed and the
    endpoint is gone after [polls] polls that fit into the three minutes, one
    reconcile of a deleted object ends without an error and without a requeue, and
    the API server has stored the object without the operator's finalizer. *)
Theorem deletion_completes p s :
  ready s ->
  ContainsFinalizer (metav1.Finalizers (meta (resource (local s)))) avoFinalizer = true ->
  (IsStatusConditionTrue (Conditions (status (resource (local s)))) AWSRoute53RecordCondition = true ->
   HostedZoneId (status (resource (local s))) <> "") ->
  wp (reconcileDelete p) (fun o s' => o = Ok done_ /\ finalizer_dropped (trace s') /\
    avoFinalizer ∉ metav1.Finalizers (meta (resource (local s')))) s.
Proof.
  intros Hs Hf Hz. unfold reconcileDelete, res. repeat wp_step. rewrite Hf. repeat wp_step.
  eapply wp_mono; [by apply cleanupAwsResources_succeeds|].
  intros o s1 [-> Hs1]. cbn [continue]. unfold removeFinalizer, resourceUpdate, res.
  do 4 wp_step. cbn [continue]. do 2 wp_step. cbn [continue]. wp_step. apply wp_trigger. cbn.
  intros w2 r2 E2.
  pose proof (coop_plain _ (Kube (UpdateVpcEndpoint _)) _ _ _ I E2) as ([rv [-> _]] & _).
  cbn [of_answer continue]. wp_step. cbn [continue]. unfold notReadyDelete, res. repeat wp_step. cbn.
  assert (Hno : avoFinalizer ∉
    RemoveFinalizer (metav1.Finalizers (meta (resource (local s1)))) avoFinalizer)
    by (rewrite remove_finalizer; tauto).
  split; [done|]. split; [|exact Hno].
  eexists _, rv.
  split; [apply elem_of_app; left; apply elem_of_app; right; constructor|exact Hno].
Qed.

End spec.

(** ** A world that cooperates *)

Module CoopSim.

(** The clock, the sleeps until a deleted endpoint is gone, and whether the deletion
    of the endpoint was asked for. *)
Record State := mkState { clock : Z; remaining : nat; asked : bool }.

Definition notSimulated {A} (w : State) : State * (error + A) :=
  (w, inl (EOpaque "not simulated")).

Definition ec2 {R} (op : ec2op R) (w : State) : State * (error + R) :=
  match op in ec2op R return State * (error + R) with
  | DeleteVpcEndpoints _ => (mkState (clock w) (remaining w) true, inr tt)
  | DescribeVpcEndpoints _ ids =>
      match asked w, remaining w with
      | true, O => (w, inl (Sim.notFound "InvalidVpcEndpointId.NotFound"))
      | true, _ => (w, inr ((fun id => Sim.endpoint id "deleting") <$> ids))
      | false, _ => (w, inr ((fun id => Sim.endpoint id "available") <$> ids))
      end
  | Calls.DeleteSecurityGroup _ => (w, inr tt)
  | _ => notSimulated w
  end.

Definition r53 {R} (op : route53op R) (w : State) : State * (error + R) :=
  match op in route53op R return State * (error + R) with
  | Calls.GetHostedZone id =>
      (w, inr (route53Types.mkGetHostedZoneOutput
                 (Some (route53Types.mkHostedZone (Some id) None None)) []))
  | Calls.ListResourceRecordSets _ =>
      (w, inr [route53Types.mkResourceRecordSet (Some "api.example.com.") "CNAME" None []])
  | ChangeResourceRecordSets _ => (w, inr tt)
  | Calls.DeleteHostedZone _ => (w, inr tt)
  | _ => notSimulated w
  end.

Definition kube {R} (op : kubeop R) (w : State) : State * (error + R) :=
  match op in kubeop R return State * (error + R) with
  | UpdateVpcEndpoint _ => (w, inr "2")
  | UpdateVpcEndpointStatus _ => (w, inr "2")
  | GetDNS _ => (w, inr (configv1.mkDNS Sim.baseDomain))
  | _ => notSimulated w
  end.

#[export] Instance world : World State := fun R (c : call R) w =>
  match c in call R return State * (error + R) with
  | EC2 _ op => ec2 op w
  | R53 _ op => r53 op w
  | Kube op => kube op w
  | Now => (w, inr (clock w))
  | AfterOrDone d => (mkState (clock w + Z.max 0 d)%Z (pred (remaining w)) (asked w), inr tt)
  | Metric _ => (w, inr tt)
  | Event _ _ _ => (w, inr tt)
  | _ => notSimulated w
  end.

Definition deleting (id : string) (w : State) : Prop := asked w = true.

Lemma coop_ec2_clock {R} (op : ec2op R) w : clock (ec2 op w).1 = clock w.
Proof. destruct op; simpl; repeat case_match; done. Qed.

Lemma r53_same {R} (op : route53op R) w : (r53 op w).1 = w.
Proof. by destruct op. Qed.

Lemma kube_same {R} (op : kubeop R) w : (kube op w).1 = w.
Proof. by destruct op. Qed.

#[export] Instance clock_laws : ClockLaws clock.
Proof.
  split.
  - intros w w' r [= <- <-]. exists (clock w). split; [done|lia].
  - intros R c w w' r. unfold handle, world. destruct c; try (intros [= <- _]; lia).
    + pose proof (coop_ec2_clock op w). destruct (ec2 op w). intros [= <- _]. simpl in *. lia.
    + pose proof (r53_same op w). destruct (r53 op w). intros [= <- _]. simpl in *. subst. lia.
    + pose proof (kube_same op w). destruct (kube op w). intros [= <- _]. simpl in *. subst. lia.
    + intros [= <- _]. simpl. lia.
  - intros d w w' [= <-]. simpl. lia.
Qed.

#[export] Instance cooperates : Cooperates clock 0 remaining deleting.
Proof.
  split; [apply _|..].
  - intros R c w w' r Hc. unfold handle, world.
    destruct c as [R cfg op|R cfg op|R op| | | | | | | |]; try destruct Hc; try destruct op;
      try destruct Hc; simpl; intros [= <- <-]; (split; [|split; [lia|done]]); eauto.
    eexists. split; [done|]. cbn. intros z [= <-]. by eexists.
  - intros cfg id w w' r [= <- <-]. done.
  - intros cfg id w w' r Hd. unfold handle, world, ec2. rewrite Hd.
    destruct (remaining w) eqn:Hr; intros [= <- <-]; rewrite ?Hr;
      (split_and!; [lia|lia|done|]); [done|].
    exists (Sim.endpoint id "deleting"). split; [done|]. by right.
  - intros d w w' r Hd [= <- <-]. simpl. split_and!; [done|lia|lia|done].
Qed.

End CoopSim.

#[local] Existing Instances K8sRef.helpers K8sRef.helpers_laws CoopSim.world CoopSim.cooperates.

(** An object with an endpoint, a group, a zone and a record. *)
Definition doomed : VpcEndpoint :=
  Sim.object (Some 1%Z) [avoFinalizer] (Sim.spec (Sim.phz "other.example" None "api"))
    (Sim.status_ "vpce-1" "sg-1" "Z1" "api.example.com"
       [metav1.mkCondition AWSRoute53RecordCondition metav1.ConditionTrue "Created" ""]).

Definition doomed_sys : Sys CoopSim.State Mem :=
  mkSys (CoopSim.mkState 0 35 false) [] (mkMem Sim.reconciler_ doomed).

Lemma deletion_completes_witness :
  wp (reconcileDelete resource_ptr_) (fun o s' => o = Ok done_ /\ finalizer_dropped (trace s') /\
    avoFinalizer ∉ metav1.Finalizers (meta (resource (local s')))) doomed_sys.
Proof.
  apply (deletion_completes CoopSim.clock 0 CoopSim.remaining CoopSim.deleting Sim.cfg 35);
    [vm_compute; reflexivity|split; [vm_compute; lia|reflexivity]|reflexivity|discriminate].
Defined.

(** With one sleep more, the wait of three minutes is too short. *)
Example doomed_too_slow :
  (reconcileDelete resource_ptr_ (mkSys (CoopSim.mkState 0 36 false) []
     (mkMem Sim.reconciler_ doomed))).1 =
  Err (EOpaque "timed out waiting for VPC endpoint vpce-1 to delete").
Proof. vm_compute. reflexivity. Qed.
End LivenessSpec.
