(* ===== verification/Heap.v ===== *)
(** * A heap, for the code that is about aliasing

    The controllers' functions are modelled on immutable values.  The generated
    deep copies are about what such values share, so their model has a store: a
    heap of arrays, pointers and slices into it, and the part of the generated
    code that all types have in common.  The type of the heap's cells is a
    parameter; a type whose arrays fit into a cell is [Storable]. *)
From S2P Require Import Prelude.

Abbreviation loc := positive.
Abbreviation heap cell := (gmap positive cell).

(** A pointer is nil or a location; a slice is nil or a window of an array. *)
Definition ptr (A : Type) : Type := option loc.
Record window := mkWindow { array : loc; offset : nat; len : nat }.
Definition slice (A : Type) : Type := option window.

Definition nil {R} : option R := None.

(** Arrays of [A] as cells; a pointer points to an array of one element. *)
Class Storable (cell A : Type) := {
  to_cell : list A -> cell;
  of_cell : cell -> option (list A);
  of_to_cell l : of_cell (to_cell l) = Some l
}.

Section heap.
Context {cell : Type}.
Implicit Types h : heap cell.

(** ** Computations: [None] for a dangling reference *)

Definition H (A : Type) : Type := heap cell -> option (A * heap cell).

Definition hret {A} (a : A) : H A := fun h => Some (a, h).
Definition hbind {A B} (m : H A) (k : A -> H B) : H B := fun h =>
  match m h with
  | Some (a, h') => k a h'
  | None => None
  end.

Fixpoint hmapM {A B} (f : A -> H B) (l : list A) : H (list B) :=
  match l with
  | [] => hret []
  | a :: l' => hbind (f a) (fun b => hbind (hmapM f l') (fun bs => hret (b :: bs)))
  end.

Definition read_array {A} `{Storable cell A} h (l : loc) : option (list A) := (h !! l) ≫= of_cell.

Definition read_ptr {A} `{Storable cell A} h (l : loc) : option A :=
  match read_array h l with Some [a] => Some a | _ => None end.

(** The elements of a window that lies within its array. *)
Definition read_window {A} `{Storable cell A} h (w : window) : option (list A) :=
  xs ← read_array h (array w);
  if decide (offset w + len w <= length xs) then Some (take (len w) (drop (offset w) xs))
  else None.

Definition hget {A} (f : heap cell -> option A) : H A := fun h =>
  match f h with Some a => Some (a, h) | None => None end.

Definition halloc {A} `{Storable cell A} (xs : list A) : H loc := fun h =>
  let l := fresh (dom h) in Some (l, <[l := to_cell xs]> h).

(** *** What the generated code has in common

    The copy of a field that is a pointer: nil stays nil; otherwise
    [*out = new(T)], and [f] copies what it points to.  The new variable and the
    writes into it are one allocation here: nobody else holds the new pointer. *)
Definition copy_ptr {A} `{Storable cell A} (f : A -> H A) (p : ptr A) : H (ptr A) :=
  match p with
  | None => hret None
  | Some l =>
      hbind (hget (fun h => read_ptr h l)) (fun a =>
      hbind (f a) (fun a' =>
      hbind (halloc [a']) (fun l' => hret (Some l'))))
  end.

(** The copy of a field that is a slice: nil stays nil; otherwise
    [*out = make([]T, n)], and [f] copies each element. *)
Definition copy_slice {A} `{Storable cell A} (f : A -> H A) (s : slice A) : H (slice A) :=
  match s with
  | None => hret None
  | Some w =>
      hbind (hget (fun h => read_window h w)) (fun xs =>
      hbind (hmapM f xs) (fun ys =>
      hbind (halloc ys) (fun l' => hret (Some (mkWindow l' 0 (length ys))))))
  end.

(** ** What a representation stands for *)

(** [view h a] is the value that [a] represents in [h], when all its references
    are valid; more memory does not change it. *)
Class Repr (A V : Type) := {
  view : heap cell -> A -> option V;
  view_mono h h' a v : view h a = Some v -> h ⊆ h' -> view h' a = Some v
}.

(** A type without references represents itself. *)
Definition plain {A} : Repr A A.
Proof. by refine {| view _ a := Some a |}. Defined.

Fixpoint view_list {A V} `{Repr A V} h (l : list A) : option (list V) :=
  match l with
  | [] => Some []
  | a :: l' => v ← view h a; vs ← view_list h l'; Some (v :: vs)
  end.

Lemma view_list_mono {A V} `{Repr A V} h h' l vs :
  view_list h l = Some vs -> h ⊆ h' -> view_list h' l = Some vs.
Proof.
  intros Hv Hh. revert vs Hv. induction l as [|a l IH]; intros vs Hv; simpl in *; [done|].
  destruct (view h a) as [v|] eqn:Ha; [|done]. destruct (view_list h l) as [vs'|]; [|done].
  by rewrite (view_mono _ _ _ _ Ha Hh), (IH vs').
Qed.

Lemma read_array_mono {A} `{Storable cell A} h h' l xs :
  read_array h l = Some xs -> h ⊆ h' -> read_array h' l = Some xs.
Proof.
  unfold read_array. intros Hr Hh. destruct (h !! l) eqn:E; [|done].
  by rewrite (lookup_weaken _ _ _ _ E Hh).
Qed.

Lemma read_ptr_mono {A} `{Storable cell A} h h' l a :
  read_ptr h l = Some a -> h ⊆ h' -> read_ptr h' l = Some a.
Proof.
  unfold read_ptr. intros Hr Hh. destruct (read_array h l) as [xs|] eqn:E; [|done].
  by rewrite (read_array_mono _ _ _ _ E Hh).
Qed.

Lemma read_window_mono {A} `{Storable cell A} h h' w xs :
  read_window h w = Some xs -> h ⊆ h' -> read_window h' w = Some xs.
Proof.
  unfold read_window. intros Hr Hh. destruct (read_array h (array w)) as [ys|] eqn:E; [|done].
  by rewrite (read_array_mono _ _ _ _ E Hh).
Qed.

(** A nil pointer is [None]; a nil slice has no elements. *)
Definition view_ptr {A V} `{Storable cell A} `{Repr A V} h (p : ptr A) : option (option V) :=
  match p with
  | None => Some None
  | Some l => a ← read_ptr h l; v ← view h a; Some (Some v)
  end.

Definition view_slice {A V} `{Storable cell A} `{Repr A V} h (s : slice A) : option (list V) :=
  match s with
  | None => Some []
  | Some w => xs ← read_window h w; view_list h xs
  end.

#[export] Program Instance ptr_repr {A V} `{Storable cell A} `{Repr A V} : Repr (ptr A) (option V) := {
  view := view_ptr
}.
Next Obligation.
  intros A V ?? h h' [l|] v Hv Hh; simpl in *; [|done].
  destruct (read_ptr h l) as [a|] eqn:Hl; [|done]. simpl in Hv.
  destruct (view h a) as [va|] eqn:Ha; [|done]. simpl in Hv.
  rewrite (read_ptr_mono _ _ _ _ Hl Hh). simpl. by rewrite (view_mono _ _ _ _ Ha Hh).
Qed.

#[export] Program Instance slice_repr {A V} `{Storable cell A} `{Repr A V} : Repr (slice A) (list V) := {
  view := view_slice
}.
Next Obligation.
  intros A V ?? h h' [w|] v Hv Hh; simpl in *; [|done].
  destruct (read_window h w) as [xs|] eqn:Hw; [|done]. simpl in *.
  rewrite (read_window_mono _ _ _ _ Hw Hh). simpl. by eapply view_list_mono.
Qed.

(** ** Copies *)

(** [m] only adds memory to [h], and its result is one that satisfies [P] in every
    heap that has the added memory, whatever becomes of [h]. *)
Definition adds {A} h (m : H A) (P : heap cell -> A -> Prop) : Prop :=
  exists a hf, m h = Some (a, h ∪ hf) /\ h ##ₘ hf /\ forall h', hf ⊆ h' -> P h' a.

Lemma adds_ret {A} h (a : A) (P : heap cell -> A -> Prop) : (forall h', P h' a) -> adds h (hret a) P.
Proof.
  intros HP. exists a, ∅. unfold hret. rewrite map_union_empty.
  split_and!; [done|solve_map_disjoint|auto].
Qed.

Lemma adds_bind {A B} h (m : H A) (k : A -> H B) (P : heap cell -> A -> Prop)
    (Q : heap cell -> B -> Prop) :
  adds h m P ->
  (forall a h1, h ⊆ h1 -> adds h1 (k a) (fun h' b => P h' a -> Q h' b)) ->
  adds h (hbind m k) Q.
Proof.
  intros (a & hf & Hm & Hd & HP) Hk. unfold hbind, adds. rewrite Hm.
  destruct (Hk a (h ∪ hf)) as (b & hf' & Hb & Hd' & HQ); [by apply map_union_subseteq_l|].
  exists b, (hf ∪ hf'). rewrite Hb, (assoc_L (∪)). split; [done|].
  apply map_disjoint_union_l in Hd' as [Hd1 Hd2].
  split; [apply map_disjoint_union_r; split; [done..|]; solve_map_disjoint|].
  intros h' Hh'. apply HQ; [|apply HP].
  - etransitivity; [|exact Hh']. by apply map_union_subseteq_r.
  - etransitivity; [|exact Hh']. by apply map_union_subseteq_l.
Qed.

(** The value that is read is known. *)
Lemma adds_get_bind {A B} h (f : heap cell -> option A) a (k : A -> H B) Q :
  f h = Some a -> adds h (k a) Q -> adds h (hbind (hget f) k) Q.
Proof. intros Hf. unfold adds, hbind, hget. by rewrite Hf. Qed.

Lemma adds_alloc {A} `{Storable cell A} h (xs : list A) :
  adds h (halloc xs) (fun h' l => read_array h' l = Some xs).
Proof.
  unfold halloc. set (l := fresh (dom h)). exists l, {[l := to_cell xs]}.
  assert (Hl : h !! l = None) by apply not_elem_of_dom, is_fresh.
  split_and!.
  - by rewrite insert_union_singleton_r.
  - by apply map_disjoint_singleton_r.
  - intros h' Hh'. unfold read_array.
    rewrite (lookup_weaken {[l := to_cell xs]} h' l (to_cell xs)); [|by rewrite lookup_singleton_eq|done].
    apply of_to_cell.
Qed.

(** [f] copies: it adds memory only, and its result represents the value of the
    original in the added memory alone. *)
Definition copies {A V} `{Repr A V} (f : A -> H A) : Prop :=
  forall h a v, view h a = Some v -> adds h (f a) (fun h' a' => view h' a' = Some v).

Lemma copies_plain {A} : @copies A A plain hret.
Proof. intros h a v Hv. by apply adds_ret. Qed.

Lemma hmapM_copies {A V} `{Repr A V} (f : A -> H A) h l vs :
  copies f -> view_list h l = Some vs ->
  adds h (hmapM f l) (fun h' l' => view_list h' l' = Some vs).
Proof.
  intros Hf. revert h vs. induction l as [|a l IH]; intros h vs Hv; simpl in *.
  { injection Hv as <-. by apply adds_ret. }
  destruct (view h a) as [v|] eqn:Ha; [|done]. simpl in Hv.
  destruct (view_list h l) as [vs'|] eqn:Hl; [|done]. injection Hv as <-.
  eapply adds_bind; [by apply Hf|]. intros a' h1 Hh1.
  eapply adds_bind; [by eapply IH, view_list_mono|]. intros l' h2 Hh2.
  apply adds_ret. intros h' Hl' Ha'. simpl. by rewrite Ha', Hl'.
Qed.

Lemma copy_ptr_copies {A V} `{Storable cell A} `{Repr A V} (f : A -> H A) :
  copies f -> copies (copy_ptr f).
Proof.
  intros Hf h [l|] v Hv; simpl in *; [|by apply adds_ret].
  destruct (read_ptr h l) as [a|] eqn:Hl; [|done]. simpl in Hv.
  destruct (view h a) as [va|] eqn:Ha; [|done]. injection Hv as <-.
  eapply adds_get_bind; [exact Hl|]. eapply adds_bind; [by apply Hf|]. intros a' h1 Hh1.
  eapply adds_bind; [apply adds_alloc|]. intros l' h2 Hh2.
  apply adds_ret. intros h' Hl' Ha'. simpl. unfold read_ptr. rewrite Hl'. simpl. by rewrite Ha'.
Qed.

Lemma copy_slice_copies {A V} `{Storable cell A} `{Repr A V} (f : A -> H A) :
  copies f -> copies (copy_slice f).
Proof.
  intros Hf h [w|] vs Hv; simpl in *; [|by apply adds_ret].
  destruct (read_window h w) as [xs|] eqn:Hw; [|done]. simpl in Hv.
  eapply adds_get_bind; [exact Hw|]. eapply adds_bind; [by eapply hmapM_copies|]. intros ys h1 Hh1.
  eapply adds_bind; [apply adds_alloc|]. intros l' h2 Hh2.
  apply adds_ret. intros h' Hl' Hys. simpl. unfold read_window. simpl. rewrite Hl'. simpl.
  rewrite decide_True by lia. by rewrite drop_0, firstn_all.
Qed.

(** [DeepCopyObject] returns an interface, which is nil for a nil pointer. *)
Definition copy_object {A} `{Storable cell A} (f : A -> H A) (p : ptr A) : H (option (ptr A)) :=
  hbind (copy_ptr f p) (fun c =>
  match c with
  | Some l => hret (Some (Some l))
  | None => hret None
  end).

(** A copying function, applied to what is still valid in a larger heap. *)
Lemma copies_adds {A V} `{Repr A V} (f : A -> H A) h h1 a v :
  copies f -> view h a = Some v -> h ⊆ h1 ->
  adds h1 (f a) (fun h' a' => view h' a' = Some v).
Proof. intros Hf Hv Hh. by eapply Hf, view_mono. Qed.

(** ** The contract of a deep copy

    [p'] in [h'] is a copy of [p] in [h] that is independent of it: memory was only
    added; [p'] has the same value in every heap that keeps the added memory, so
    whatever is written through [p] does not show in [p'], and the other way
    round. *)
Definition independent {A V} `{Repr A V} h (p p' : A) (v : V) h' : Prop :=
  exists hf, h' = h ∪ hf /\ h ##ₘ hf /\
    (forall g, hf ⊆ g -> view g p' = Some v) /\ (forall g, h ⊆ g -> view g p = Some v).

(** [f] returns an independent copy of all that is valid. *)
Definition deep_copies {A V} `{Repr A V} (f : A -> H A) : Prop :=
  forall h p v, view h p = Some v ->
    exists p' h', f p h = Some (p', h') /\ independent h p p' v h'.

Lemma copies_deep {A V} `{Repr A V} (f : A -> H A) : copies f -> deep_copies f.
Proof.
  intros Hf h p v Hv. destruct (Hf h p v Hv) as (p' & hf & Hp & Hd & Hg).
  exists p', (h ∪ hf). split; [done|]. exists hf. split_and!; [done..|].
  intros g. by apply view_mono.
Qed.

(** The same for an interface: nil for nil, and else never a nil pointer. *)
Definition deep_copies_object {A V} `{Repr (ptr A) V} (f : ptr A -> H (option (ptr A))) : Prop :=
  forall h p v, view h p = Some v ->
    (p = nil -> f p h = Some (None, h)) /\
    (p <> nil -> exists l h', f p h = Some (Some (Some l), h') /\
       independent h p (Some l : ptr A) v h').

Lemma copy_object_deep {A V} `{Storable cell A} `{Repr A V} (f : A -> H A) :
  copies f -> deep_copies_object (copy_object f).
Proof.
  intros Hf h p v Hv. split; [by intros ->|]. intros Hp.
  destruct (copies_deep _ (copy_ptr_copies f Hf) h p v Hv) as (p' & h' & Hc & Hi).
  unfold copy_object, hbind. rewrite Hc. destruct p' as [l|]; [by exists l, h'|].
  destruct p as [l|]; [|done]. unfold copy_ptr, hbind in Hc. repeat case_match; simplify_eq.
Qed.

End heap.
Arguments H cell A : clear implicits.
Arguments Repr cell A V : clear implicits.

Declare Scope heap_scope.
Delimit Scope heap_scope with heap.
Notation "x <- m ;; k" := (hbind m (fun x => k))
  (at level 100, m at next level, k at level 200, right associativity) : heap_scope.

(** A type of a library, with its own [DeepCopyInto]. *)
Class DeepCopy (cell A V : Type) `{Repr cell A V} := {
  DeepCopyInto : A -> H cell A;
  DeepCopyInto_copies : copies DeepCopyInto
}.

Create HintDb copies.
#[export] Hint Resolve DeepCopyInto_copies copies_plain copy_ptr_copies copy_slice_copies : copies.

Ltac repr_head i := match i with ?f _ => repr_head f | _ => i end.

(** One struct of a view is unfolded, not those of its fields. *)
Ltac unfold_view_in Hv :=
  lazymatch type of Hv with
  | @view _ _ _ ?i _ _ = _ => let i' := repr_head i in unfold i' in Hv
  | _ => idtac
  end; cbn [view] in Hv; cbv beta in Hv.

Ltac unfold_view :=
  lazymatch goal with
  | |- @view _ _ _ ?i _ _ = _ => let i' := repr_head i in unfold i'
  | _ => idtac
  end; cbn [view]; cbv beta.

Lemma bind_Some {A B} (o : option A) (k : A -> option B) a : o = Some a -> o ≫= k = k a.
Proof. by intros ->. Qed.

(** Takes apart an equation on the view of a struct. *)
Ltac view_fields Hv :=
  unfold_view_in Hv;
  repeat match type of Hv with
  | (view ?h ?x ≫= _) = Some _ =>
      let E := fresh "Hview" in
      destruct (view h x) eqn:E; [cbn [mbind option_bind] in Hv|discriminate Hv]
  end.

(** [view_mono] of a struct, from that of its fields. *)
Ltac solve_mono :=
  intros; match goal with Hv : _ = Some _, Hh : _ ⊆ _ |- _ =>
    view_fields Hv; cbv beta;
    repeat match goal with E : view _ ?x = Some _ |- (view _ ?x ≫= _) = _ =>
      rewrite (bind_Some _ _ _ (view_mono _ _ _ _ E Hh)); clear E end; exact Hv
  end.

(** A struct is copied field by field. *)
Ltac solve_copies :=
  intros h a v Hv; match goal with |- adds _ (?f _) _ => unfold f end;
  view_fields Hv; injection Hv as <-;
  assert (Hsub : h ⊆ h) by reflexivity;
  repeat match goal with
  | Hsub : h ⊆ ?h0 |- adds ?h0 (hbind _ _) _ =>
      eapply adds_bind;
      [ eapply copies_adds; [solve [eauto with copies]|eassumption|exact Hsub]
      | let x := fresh "x" in let h1 := fresh "h" in let Hh := fresh "Hh" in
        intros x h1 Hh; apply (transitivity Hsub) in Hh; clear Hsub; rename Hh into Hsub ]
  end;
  apply adds_ret; intros; unfold_view;
  repeat match goal with E : view ?g ?x = Some _ |- (view ?g ?x ≫= _) = _ =>
    rewrite (bind_Some _ _ _ E) end;
  reflexivity.
