(* ===== verification/DeepCopyV2.v ===== *)
(** * Deep copies of the v1alpha2 types: [api/v1alpha2/zz_generated.deepcopy.go]

    The types of [api/v1alpha2] as they lie in memory, with pointers and slices,
    their values as the records of Types.v, and the generated functions.  Types
    of Kubernetes libraries ([ObjectMeta] and the like) are parameters that come
    with a deep copy of their own. *)
From S2P Require Import Prelude Types Heap.
Import avov1alpha2 (SecurityGroupRule, Tag, ExternalNameService, Route53HostedZoneRecord,
  DnsSelector, ObjectFieldSelector, AwsEndpointSelector).

Module v1alpha2.
Open Scope heap_scope.

(** [metav1.TypeMeta] has no references. *)
Record TypeMeta := mkTypeMeta { Kind : string; APIVersion : string }.

(** The struct has no fields. *)
Record VpcEndpointTemplateStatus := mkVpcEndpointTemplateStatus { }.

(** Library types as they lie in memory; [lib_cell] is what they refer to, and
    [ListMeta] the value of a [metav1.ListMeta]. *)
Class Library := {
  ObjectMeta_ : Type; ListMeta_ : Type; Condition_ : Type; LabelSelector_ : Type;
  lib_cell : Type; ListMeta : Type
}.

Section types.
Context `{Library}.

(** ** The structs *)

Record AssociatedVpc := mkAssociatedVpc {
  CredentialsSecretRef : ptr SecretReference;
  av_VpcId : string;
  av_Region : string
}.

Record HostedControlPlaneSelector := mkHostedControlPlaneSelector {
  NamespaceFieldRef : ptr ObjectFieldSelector
}.

Record DomainNameSource := mkDomainNameSource {
  DnsRef : ptr DnsSelector;
  HostedControlPlaneRef : ptr HostedControlPlaneSelector
}.

Record DomainName := mkDomainName {
  dn_Name : string;
  dn_ValueFrom : ptr DomainNameSource
}.

Record Route53PrivateHostedZone := mkRoute53PrivateHostedZone {
  AutoDiscover : bool;
  AssociatedVpcs : slice AssociatedVpc;
  DomainName_ : string;
  DomainNameRef : ptr DomainName;
  Id : string;
  Record_ : Route53HostedZoneRecord
}.

Record CustomDns := mkCustomDns {
  r53phz : Route53PrivateHostedZone
}.

Record SecurityGroup := mkSecurityGroup {
  IngressRules : slice SecurityGroupRule;
  EgressRules : slice SecurityGroupRule;
  UseVpcCidr : bool
}.

Record ServiceNameSource := mkServiceNameSource {
  AwsEndpointServiceRef : ptr AwsEndpointSelector
}.

Record ServiceName := mkServiceName {
  sn_Name : string;
  sn_ValueFrom : ptr ServiceNameSource
}.

Record Vpc := mkVpc {
  AutoDiscoverSubnets : bool;
  SubnetIds : slice string;
  Ids : slice string;
  Tags : slice Tag;
  SubnetTags : slice Tag
}.

Record VpcEndpointSpec := mkVpcEndpointSpec {
  ServiceName_ : string;
  ServiceNameRef : ptr ServiceName;
  SecurityGroup_ : SecurityGroup;
  AssumeRoleArn : string;
  AWSCredentialOverrideRef : ptr SecretReference;
  Region : string;
  EnablePrivateDns : bool;
  Vpc_ : Vpc;
  CustomDns_ : CustomDns
}.

Record VpcEndpointStatus := mkVpcEndpointStatus {
  Status : string;
  SecurityGroupId : string;
  VPCId : string;
  VPCEndpointId : string;
  VPCEndpointServiceName : string;
  HostedZoneId : string;
  ResourceRecordSet : string;
  InfraId : string;
  Conditions : slice Condition_
}.

Record VpcEndpoint := mkVpcEndpoint {
  vpce_TypeMeta : TypeMeta;
  vpce_ObjectMeta : ObjectMeta_;
  Spec : VpcEndpointSpec;
  Status_ : VpcEndpointStatus
}.

Record VpcEndpointList := mkVpcEndpointList {
  vpcel_TypeMeta : TypeMeta;
  vpcel_ListMeta : ListMeta_;
  Items : slice VpcEndpoint
}.

Record VpceTemplateSpec := mkVpceTemplateSpec {
  tmpl_ObjectMeta : ObjectMeta_;
  tmpl_Spec : VpcEndpointSpec
}.

Record VpcEndpointTemplateSpec := mkVpcEndpointTemplateSpec {
  Type_ : string;
  Selector : LabelSelector_;
  Template : VpceTemplateSpec
}.

Record VpcEndpointTemplate := mkVpcEndpointTemplate {
  vt_TypeMeta : TypeMeta;
  vt_ObjectMeta : ObjectMeta_;
  vt_Spec : VpcEndpointTemplateSpec;
  vt_Status : VpcEndpointTemplateStatus
}.

Record VpcEndpointTemplateList := mkVpcEndpointTemplateList {
  vtl_TypeMeta : TypeMeta;
  vtl_ListMeta : ListMeta_;
  vtl_Items : slice VpcEndpointTemplate
}.

(** ** The memory: arrays of each type that a pointer or a slice refers to *)

Inductive cell :=
| arr_string (l : list string)
| arr_SecretReference (l : list SecretReference)
| arr_SecurityGroupRule (l : list SecurityGroupRule)
| arr_Tag (l : list Tag)
| arr_ExternalNameService (l : list ExternalNameService)
| arr_Route53HostedZoneRecord (l : list Route53HostedZoneRecord)
| arr_DnsSelector (l : list DnsSelector)
| arr_ObjectFieldSelector (l : list ObjectFieldSelector)
| arr_AwsEndpointSelector (l : list AwsEndpointSelector)
| arr_VpcEndpointTemplateStatus (l : list VpcEndpointTemplateStatus)
| arr_AssociatedVpc (l : list AssociatedVpc)
| arr_HostedControlPlaneSelector (l : list HostedControlPlaneSelector)
| arr_DomainNameSource (l : list DomainNameSource)
| arr_DomainName (l : list DomainName)
| arr_Route53PrivateHostedZone (l : list Route53PrivateHostedZone)
| arr_CustomDns (l : list CustomDns)
| arr_SecurityGroup (l : list SecurityGroup)
| arr_ServiceNameSource (l : list ServiceNameSource)
| arr_ServiceName (l : list ServiceName)
| arr_Vpc (l : list Vpc)
| arr_VpcEndpointSpec (l : list VpcEndpointSpec)
| arr_VpcEndpointStatus (l : list VpcEndpointStatus)
| arr_VpcEndpoint (l : list VpcEndpoint)
| arr_VpcEndpointList (l : list VpcEndpointList)
| arr_VpceTemplateSpec (l : list VpceTemplateSpec)
| arr_VpcEndpointTemplateSpec (l : list VpcEndpointTemplateSpec)
| arr_VpcEndpointTemplate (l : list VpcEndpointTemplate)
| arr_VpcEndpointTemplateList (l : list VpcEndpointTemplateList)
| arr_Condition_ (l : list Condition_)
| arr_lib_cell (l : list lib_cell).

#[export] Instance string_storable : Storable cell string :=
  Build_Storable _ _ arr_string
    (fun c => match c with arr_string l => Some l | _ => None end) (fun _ => eq_refl).
#[export] Instance SecretReference_storable : Storable cell SecretReference :=
  Build_Storable _ _ arr_SecretReference
    (fun c => match c with arr_SecretReference l => Some l | _ => None end) (fun _ => eq_refl).
#[export] Instance SecurityGroupRule_storable : Storable cell SecurityGroupRule :=
  Build_Storable _ _ arr_SecurityGroupRule
    (fun c => match c with arr_SecurityGroupRule l => Some l | _ => None end) (fun _ => eq_refl).
#[export] Instance Tag_storable : Storable cell Tag :=
  Build_Storable _ _ arr_Tag
    (fun c => match c with arr_Tag l => Some l | _ => None end) (fun _ => eq_refl).
#[export] Instance ExternalNameService_storable : Storable cell ExternalNameService :=
  Build_Storable _ _ arr_ExternalNameService
    (fun c => match c with arr_ExternalNameService l => Some l | _ => None end) (fun _ =>
    eq_refl).
#[export] Instance Route53HostedZoneRecord_storable : Storable cell Route53HostedZoneRecord :=
  Build_Storable _ _ arr_Route53HostedZoneRecord
    (fun c => match c with arr_Route53HostedZoneRecord l => Some l | _ => None end) (fun _ =>
    eq_refl).
#[export] Instance DnsSelector_storable : Storable cell DnsSelector :=
  Build_Storable _ _ arr_DnsSelector
    (fun c => match c with arr_DnsSelector l => Some l | _ => None end) (fun _ => eq_refl).
#[export] Instance ObjectFieldSelector_storable : Storable cell ObjectFieldSelector :=
  Build_Storable _ _ arr_ObjectFieldSelector
    (fun c => match c with arr_ObjectFieldSelector l => Some l | _ => None end) (fun _ =>
    eq_refl).
#[export] Instance AwsEndpointSelector_storable : Storable cell AwsEndpointSelector :=
  Build_Storable _ _ arr_AwsEndpointSelector
    (fun c => match c with arr_AwsEndpointSelector l => Some l | _ => None end) (fun _ =>
    eq_refl).
#[export] Instance VpcEndpointTemplateStatus_storable : Storable cell VpcEndpointTemplateStatus :=
  Build_Storable _ _ arr_VpcEndpointTemplateStatus
    (fun c => match c with arr_VpcEndpointTemplateStatus l => Some l | _ => None end) (fun _ =>
    eq_refl).
#[export] Instance AssociatedVpc_storable : Storable cell AssociatedVpc :=
  Build_Storable _ _ arr_AssociatedVpc
    (fun c => match c with arr_AssociatedVpc l => Some l | _ => None end) (fun _ => eq_refl).
#[export] Instance HostedControlPlaneSelector_storable : Storable cell HostedControlPlaneSelector
    :=
  Build_Storable _ _ arr_HostedControlPlaneSelector
    (fun c => match c with arr_HostedControlPlaneSelector l => Some l | _ => None end) (fun _ =>
    eq_refl).
#[export] Instance DomainNameSource_storable : Storable cell DomainNameSource :=
  Build_Storable _ _ arr_DomainNameSource
    (fun c => match c with arr_DomainNameSource l => Some l | _ => None end) (fun _ => eq_refl).
#[export] Instance DomainName_storable : Storable cell DomainName :=
  Build_Storable _ _ arr_DomainName
    (fun c => match c with arr_DomainName l => Some l | _ => None end) (fun _ => eq_refl).
#[export] Instance Route53PrivateHostedZone_storable : Storable cell Route53PrivateHostedZone :=
  Build_Storable _ _ arr_Route53PrivateHostedZone
    (fun c => match c with arr_Route53PrivateHostedZone l => Some l | _ => None end) (fun _ =>
    eq_refl).
#[export] Instance CustomDns_storable : Storable cell CustomDns :=
  Build_Storable _ _ arr_CustomDns
    (fun c => match c with arr_CustomDns l => Some l | _ => None end) (fun _ => eq_refl).
#[export] Instance SecurityGroup_storable : Storable cell SecurityGroup :=
  Build_Storable _ _ arr_SecurityGroup
    (fun c => match c with arr_SecurityGroup l => Some l | _ => None end) (fun _ => eq_refl).
#[export] Instance ServiceNameSource_storable : Storable cell ServiceNameSource :=
  Build_Storable _ _ arr_ServiceNameSource
    (fun c => match c with arr_ServiceNameSource l => Some l | _ => None end) (fun _ => eq_refl).
#[export] Instance ServiceName_storable : Storable cell ServiceName :=
  Build_Storable _ _ arr_ServiceName
    (fun c => match c with arr_ServiceName l => Some l | _ => None end) (fun _ => eq_refl).
#[export] Instance Vpc_storable : Storable cell Vpc :=
  Build_Storable _ _ arr_Vpc
    (fun c => match c with arr_Vpc l => Some l | _ => None end) (fun _ => eq_refl).
#[export] Instance VpcEndpointSpec_storable : Storable cell VpcEndpointSpec :=
  Build_Storable _ _ arr_VpcEndpointSpec
    (fun c => match c with arr_VpcEndpointSpec l => Some l | _ => None end) (fun _ => eq_refl).
#[export] Instance VpcEndpointStatus_storable : Storable cell VpcEndpointStatus :=
  Build_Storable _ _ arr_VpcEndpointStatus
    (fun c => match c with arr_VpcEndpointStatus l => Some l | _ => None end) (fun _ => eq_refl).
#[export] Instance VpcEndpoint_storable : Storable cell VpcEndpoint :=
  Build_Storable _ _ arr_VpcEndpoint
    (fun c => match c with arr_VpcEndpoint l => Some l | _ => None end) (fun _ => eq_refl).
#[export] Instance VpcEndpointList_storable : Storable cell VpcEndpointList :=
  Build_Storable _ _ arr_VpcEndpointList
    (fun c => match c with arr_VpcEndpointList l => Some l | _ => None end) (fun _ => eq_refl).
#[export] Instance VpceTemplateSpec_storable : Storable cell VpceTemplateSpec :=
  Build_Storable _ _ arr_VpceTemplateSpec
    (fun c => match c with arr_VpceTemplateSpec l => Some l | _ => None end) (fun _ => eq_refl).
#[export] Instance VpcEndpointTemplateSpec_storable : Storable cell VpcEndpointTemplateSpec :=
  Build_Storable _ _ arr_VpcEndpointTemplateSpec
    (fun c => match c with arr_VpcEndpointTemplateSpec l => Some l | _ => None end) (fun _ =>
    eq_refl).
#[export] Instance VpcEndpointTemplate_storable : Storable cell VpcEndpointTemplate :=
  Build_Storable _ _ arr_VpcEndpointTemplate
    (fun c => match c with arr_VpcEndpointTemplate l => Some l | _ => None end) (fun _ =>
    eq_refl).
#[export] Instance VpcEndpointTemplateList_storable : Storable cell VpcEndpointTemplateList :=
  Build_Storable _ _ arr_VpcEndpointTemplateList
    (fun c => match c with arr_VpcEndpointTemplateList l => Some l | _ => None end) (fun _ =>
    eq_refl).
#[export] Instance Condition__storable : Storable cell Condition_ :=
  Build_Storable _ _ arr_Condition_
    (fun c => match c with arr_Condition_ l => Some l | _ => None end) (fun _ => eq_refl).
#[export] Instance lib_cell_storable : Storable cell lib_cell :=
  Build_Storable _ _ arr_lib_cell
    (fun c => match c with arr_lib_cell l => Some l | _ => None end) (fun _ => eq_refl).

Abbreviation H := (H cell).

(** What the libraries provide. *)
Class LibraryCopies := {
  ObjectMeta_repr :: Repr cell ObjectMeta_ metav1.ObjectMeta;
  ObjectMeta_copy :: DeepCopy cell ObjectMeta_ metav1.ObjectMeta;
  ListMeta_repr :: Repr cell ListMeta_ ListMeta;
  ListMeta_copy :: DeepCopy cell ListMeta_ ListMeta;
  Condition_repr :: Repr cell Condition_ metav1.Condition;
  Condition_copy :: DeepCopy cell Condition_ metav1.Condition;
  LabelSelector_repr :: Repr cell LabelSelector_ metav1.LabelSelector;
  LabelSelector_copy :: DeepCopy cell LabelSelector_ metav1.LabelSelector
}.
Context `{LibraryCopies}.

(** *** The values *)

#[export] Instance string_repr : Repr cell string string := plain.
#[export] Instance SecretReference_repr : Repr cell SecretReference SecretReference := plain.

#[export] Instance SecurityGroupRule_repr :
    Repr cell SecurityGroupRule SecurityGroupRule := plain.
#[export] Instance Tag_repr : Repr cell Tag Tag := plain.
#[export] Instance ExternalNameService_repr :
    Repr cell ExternalNameService ExternalNameService := plain.
#[export] Instance Route53HostedZoneRecord_repr :
    Repr cell Route53HostedZoneRecord Route53HostedZoneRecord := plain.
#[export] Instance DnsSelector_repr : Repr cell DnsSelector DnsSelector := plain.
#[export] Instance ObjectFieldSelector_repr :
    Repr cell ObjectFieldSelector ObjectFieldSelector := plain.
#[export] Instance AwsEndpointSelector_repr :
    Repr cell AwsEndpointSelector AwsEndpointSelector := plain.
#[export] Instance VpcEndpointTemplateStatus_repr :
    Repr cell VpcEndpointTemplateStatus VpcEndpointTemplateStatus := plain.
#[export] Program Instance AssociatedVpc_repr :
    Repr cell AssociatedVpc avov1alpha2.AssociatedVpc := {
  view h a :=
    v1 ← view h (CredentialsSecretRef a);
    Some (avov1alpha2.mkAssociatedVpc v1 (av_VpcId a) (av_Region a))
}.
Next Obligation. solve_mono. Qed.

#[export] Program Instance HostedControlPlaneSelector_repr :
    Repr cell HostedControlPlaneSelector avov1alpha2.HostedControlPlaneSelector := {
  view h a :=
    v1 ← view h (NamespaceFieldRef a);
    Some (avov1alpha2.mkHostedControlPlaneSelector v1)
}.
Next Obligation. solve_mono. Qed.

#[export] Program Instance DomainNameSource_repr :
    Repr cell DomainNameSource avov1alpha2.DomainNameSource := {
  view h a :=
    v1 ← view h (DnsRef a);
    v2 ← view h (HostedControlPlaneRef a);
    Some (avov1alpha2.mkDomainNameSource v1 v2)
}.
Next Obligation. solve_mono. Qed.

#[export] Program Instance DomainName_repr :
    Repr cell DomainName avov1alpha2.DomainNameT := {
  view h a :=
    v1 ← view h (dn_ValueFrom a);
    Some (avov1alpha2.mkDomainName (dn_Name a) v1)
}.
Next Obligation. solve_mono. Qed.

#[export] Program Instance Route53PrivateHostedZone_repr :
    Repr cell Route53PrivateHostedZone avov1alpha2.Route53PrivateHostedZone := {
  view h a :=
    v1 ← view h (AssociatedVpcs a);
    v2 ← view h (DomainNameRef a);
    Some (avov1alpha2.mkRoute53PrivateHostedZone (AutoDiscover a) v1 (DomainName_ a) v2 (Id a)
    (Record_ a))
}.
Next Obligation. solve_mono. Qed.

#[export] Program Instance CustomDns_repr : Repr cell CustomDns avov1alpha2.CustomDnsT := {
  view h a :=
    v1 ← view h (r53phz a);
    Some (avov1alpha2.mkCustomDns v1)
}.
Next Obligation. solve_mono. Qed.

#[export] Program Instance SecurityGroup_repr :
    Repr cell SecurityGroup avov1alpha2.SecurityGroup := {
  view h a :=
    v1 ← view h (IngressRules a);
    v2 ← view h (EgressRules a);
    Some (avov1alpha2.mkSecurityGroup v1 v2 (UseVpcCidr a))
}.
Next Obligation. solve_mono. Qed.

#[export] Program Instance ServiceNameSource_repr :
    Repr cell ServiceNameSource avov1alpha2.ServiceNameSource := {
  view h a :=
    v1 ← view h (AwsEndpointServiceRef a);
    Some (avov1alpha2.mkServiceNameSource v1)
}.
Next Obligation. solve_mono. Qed.

#[export] Program Instance ServiceName_repr :
    Repr cell ServiceName avov1alpha2.ServiceNameT := {
  view h a :=
    v1 ← view h (sn_ValueFrom a);
    Some (avov1alpha2.mkServiceName (sn_Name a) v1)
}.
Next Obligation. solve_mono. Qed.

#[export] Program Instance Vpc_repr : Repr cell Vpc avov1alpha2.Vpc := {
  view h a :=
    v1 ← view h (SubnetIds a);
    v2 ← view h (Ids a);
    v3 ← view h (Tags a);
    v4 ← view h (SubnetTags a);
    Some (avov1alpha2.mkVpc (AutoDiscoverSubnets a) v1 v2 v3 v4)
}.
Next Obligation. solve_mono. Qed.

#[export] Program Instance VpcEndpointSpec_repr :
    Repr cell VpcEndpointSpec avov1alpha2.VpcEndpointSpec := {
  view h a :=
    v1 ← view h (ServiceNameRef a);
    v2 ← view h (SecurityGroup_ a);
    v3 ← view h (AWSCredentialOverrideRef a);
    v4 ← view h (Vpc_ a);
    v5 ← view h (CustomDns_ a);
    Some (avov1alpha2.mkVpcEndpointSpec (ServiceName_ a) v1 v2 (AssumeRoleArn a) v3 (Region a)
    (EnablePrivateDns a) v4 v5)
}.
Next Obligation. solve_mono. Qed.

#[export] Program Instance VpcEndpointStatus_repr :
    Repr cell VpcEndpointStatus avov1alpha2.VpcEndpointStatus := {
  view h a :=
    v1 ← view h (Conditions a);
    Some (avov1alpha2.mkVpcEndpointStatus (Status a) (SecurityGroupId a) (VPCId a)
    (VPCEndpointId a) (VPCEndpointServiceName a) (HostedZoneId a) (ResourceRecordSet a) (InfraId
    a) v1)
}.
Next Obligation. solve_mono. Qed.

#[export] Program Instance VpcEndpoint_repr :
    Repr cell VpcEndpoint (TypeMeta * avov1alpha2.VpcEndpoint) := {
  view h a :=
    v1 ← view h (vpce_ObjectMeta a);
    v2 ← view h (Spec a);
    v3 ← view h (Status_ a);
    Some (vpce_TypeMeta a, avov1alpha2.mkVpcEndpoint v1 v2 v3)
}.
Next Obligation. solve_mono. Qed.

#[export] Program Instance VpcEndpointList_repr :
    Repr cell VpcEndpointList (TypeMeta * ListMeta * list (TypeMeta * avov1alpha2.VpcEndpoint))
    := {
  view h a :=
    v1 ← view h (vpcel_ListMeta a);
    v2 ← view h (Items a);
    Some (vpcel_TypeMeta a, v1, v2)
}.
Next Obligation. solve_mono. Qed.

#[export] Program Instance VpceTemplateSpec_repr :
    Repr cell VpceTemplateSpec avov1alpha2.VpceTemplateSpec := {
  view h a :=
    v1 ← view h (tmpl_ObjectMeta a);
    v2 ← view h (tmpl_Spec a);
    Some (avov1alpha2.mkVpceTemplateSpec v1 v2)
}.
Next Obligation. solve_mono. Qed.

#[export] Program Instance VpcEndpointTemplateSpec_repr :
    Repr cell VpcEndpointTemplateSpec avov1alpha2.VpcEndpointTemplateSpec := {
  view h a :=
    v1 ← view h (Selector a);
    v2 ← view h (Template a);
    Some (avov1alpha2.mkVpcEndpointTemplateSpec (Type_ a) v1 v2)
}.
Next Obligation. solve_mono. Qed.

#[export] Program Instance VpcEndpointTemplate_repr :
    Repr cell VpcEndpointTemplate (TypeMeta * avov1alpha2.VpcEndpointTemplate) := {
  view h a :=
    v1 ← view h (vt_ObjectMeta a);
    v2 ← view h (vt_Spec a);
    Some (vt_TypeMeta a, avov1alpha2.mkVpcEndpointTemplate v1 v2)
}.
Next Obligation. solve_mono. Qed.

#[export] Program Instance VpcEndpointTemplateList_repr :
    Repr cell VpcEndpointTemplateList (TypeMeta * ListMeta * list (TypeMeta *
    avov1alpha2.VpcEndpointTemplate)) := {
  view h a :=
    v1 ← view h (vtl_ListMeta a);
    v2 ← view h (vtl_Items a);
    Some (vtl_TypeMeta a, v1, v2)
}.
Next Obligation. solve_mono. Qed.

(** ** The generated functions

    [DeepCopyInto] starts with the shallow copy [*out = *in] and replaces the fields
    that hold references. *)

Definition DeepCopyInto_SecurityGroupRule (a : SecurityGroupRule) : H SecurityGroupRule := hret a.

Lemma SecurityGroupRule_copies : copies DeepCopyInto_SecurityGroupRule.
Proof. exact copies_plain. Qed.
#[local] Hint Resolve SecurityGroupRule_copies : copies.

Definition DeepCopy_SecurityGroupRule := copy_ptr DeepCopyInto_SecurityGroupRule.

Definition DeepCopyInto_Tag (a : Tag) : H Tag := hret a.

Lemma Tag_copies : copies DeepCopyInto_Tag.
Proof. exact copies_plain. Qed.
#[local] Hint Resolve Tag_copies : copies.

Definition DeepCopy_Tag := copy_ptr DeepCopyInto_Tag.

Definition DeepCopyInto_ExternalNameService (a : ExternalNameService) : H ExternalNameService :=
    hret a.

Lemma ExternalNameService_copies : copies DeepCopyInto_ExternalNameService.
Proof. exact copies_plain. Qed.
#[local] Hint Resolve ExternalNameService_copies : copies.

Definition DeepCopy_ExternalNameService := copy_ptr DeepCopyInto_ExternalNameService.

Definition DeepCopyInto_Route53HostedZoneRecord (a : Route53HostedZoneRecord) : H
    Route53HostedZoneRecord := hret a.

Lemma Route53HostedZoneRecord_copies : copies DeepCopyInto_Route53HostedZoneRecord.
Proof. exact copies_plain. Qed.
#[local] Hint Resolve Route53HostedZoneRecord_copies : copies.

Definition DeepCopy_Route53HostedZoneRecord := copy_ptr DeepCopyInto_Route53HostedZoneRecord.

Definition DeepCopyInto_DnsSelector (a : DnsSelector) : H DnsSelector := hret a.

Lemma DnsSelector_copies : copies DeepCopyInto_DnsSelector.
Proof. exact copies_plain. Qed.
#[local] Hint Resolve DnsSelector_copies : copies.

Definition DeepCopy_DnsSelector := copy_ptr DeepCopyInto_DnsSelector.

Definition DeepCopyInto_ObjectFieldSelector (a : ObjectFieldSelector) : H ObjectFieldSelector :=
    hret a.

Lemma ObjectFieldSelector_copies : copies DeepCopyInto_ObjectFieldSelector.
Proof. exact copies_plain. Qed.
#[local] Hint Resolve ObjectFieldSelector_copies : copies.

Definition DeepCopy_ObjectFieldSelector := copy_ptr DeepCopyInto_ObjectFieldSelector.

Definition DeepCopyInto_AwsEndpointSelector (a : AwsEndpointSelector) : H AwsEndpointSelector :=
    hret a.

Lemma AwsEndpointSelector_copies : copies DeepCopyInto_AwsEndpointSelector.
Proof. exact copies_plain. Qed.
#[local] Hint Resolve AwsEndpointSelector_copies : copies.

Definition DeepCopy_AwsEndpointSelector := copy_ptr DeepCopyInto_AwsEndpointSelector.

Definition DeepCopyInto_VpcEndpointTemplateStatus (a : VpcEndpointTemplateStatus) : H
    VpcEndpointTemplateStatus := hret a.

Lemma VpcEndpointTemplateStatus_copies : copies DeepCopyInto_VpcEndpointTemplateStatus.
Proof. exact copies_plain. Qed.
#[local] Hint Resolve VpcEndpointTemplateStatus_copies : copies.

Definition DeepCopy_VpcEndpointTemplateStatus := copy_ptr DeepCopyInto_VpcEndpointTemplateStatus.

Definition DeepCopyInto_AssociatedVpc (a : AssociatedVpc) : H AssociatedVpc :=
  x1 <- copy_ptr hret (CredentialsSecretRef a);;
  hret (mkAssociatedVpc x1 (av_VpcId a) (av_Region a)).

Lemma AssociatedVpc_copies : copies DeepCopyInto_AssociatedVpc.
Proof. solve_copies. Qed.
#[local] Hint Resolve AssociatedVpc_copies : copies.

Definition DeepCopy_AssociatedVpc := copy_ptr DeepCopyInto_AssociatedVpc.

Definition DeepCopyInto_HostedControlPlaneSelector (a : HostedControlPlaneSelector)
  : H HostedControlPlaneSelector :=
  x1 <- copy_ptr hret (NamespaceFieldRef a);;
  hret (mkHostedControlPlaneSelector x1).

Lemma HostedControlPlaneSelector_copies : copies DeepCopyInto_HostedControlPlaneSelector.
Proof. solve_copies. Qed.
#[local] Hint Resolve HostedControlPlaneSelector_copies : copies.

Definition DeepCopy_HostedControlPlaneSelector := copy_ptr
    DeepCopyInto_HostedControlPlaneSelector.

Definition DeepCopyInto_DomainNameSource (a : DomainNameSource) : H DomainNameSource :=
  x1 <- copy_ptr hret (DnsRef a);;
  x2 <- copy_ptr DeepCopyInto_HostedControlPlaneSelector (HostedControlPlaneRef a);;
  hret (mkDomainNameSource x1 x2).

Lemma DomainNameSource_copies : copies DeepCopyInto_DomainNameSource.
Proof. solve_copies. Qed.
#[local] Hint Resolve DomainNameSource_copies : copies.

Definition DeepCopy_DomainNameSource := copy_ptr DeepCopyInto_DomainNameSource.

Definition DeepCopyInto_DomainName (a : DomainName) : H DomainName :=
  x1 <- copy_ptr DeepCopyInto_DomainNameSource (dn_ValueFrom a);;
  hret (mkDomainName (dn_Name a) x1).

Lemma DomainName_copies : copies DeepCopyInto_DomainName.
Proof. solve_copies. Qed.
#[local] Hint Resolve DomainName_copies : copies.

Definition DeepCopy_DomainName := copy_ptr DeepCopyInto_DomainName.

Definition DeepCopyInto_Route53PrivateHostedZone (a : Route53PrivateHostedZone)
  : H Route53PrivateHostedZone :=
  x1 <- copy_slice DeepCopyInto_AssociatedVpc (AssociatedVpcs a);;
  x2 <- copy_ptr DeepCopyInto_DomainName (DomainNameRef a);;
  hret (mkRoute53PrivateHostedZone (AutoDiscover a) x1 (DomainName_ a) x2 (Id a) (Record_ a)).

Lemma Route53PrivateHostedZone_copies : copies DeepCopyInto_Route53PrivateHostedZone.
Proof. solve_copies. Qed.
#[local] Hint Resolve Route53PrivateHostedZone_copies : copies.

Definition DeepCopy_Route53PrivateHostedZone := copy_ptr DeepCopyInto_Route53PrivateHostedZone.

Definition DeepCopyInto_CustomDns (a : CustomDns) : H CustomDns :=
  x1 <- DeepCopyInto_Route53PrivateHostedZone (r53phz a);;
  hret (mkCustomDns x1).

Lemma CustomDns_copies : copies DeepCopyInto_CustomDns.
Proof. solve_copies. Qed.
#[local] Hint Resolve CustomDns_copies : copies.

Definition DeepCopy_CustomDns := copy_ptr DeepCopyInto_CustomDns.

Definition DeepCopyInto_SecurityGroup (a : SecurityGroup) : H SecurityGroup :=
  x1 <- copy_slice hret (IngressRules a);;
  x2 <- copy_slice hret (EgressRules a);;
  hret (mkSecurityGroup x1 x2 (UseVpcCidr a)).

Lemma SecurityGroup_copies : copies DeepCopyInto_SecurityGroup.
Proof. solve_copies. Qed.
#[local] Hint Resolve SecurityGroup_copies : copies.

Definition DeepCopy_SecurityGroup := copy_ptr DeepCopyInto_SecurityGroup.

Definition DeepCopyInto_ServiceNameSource (a : ServiceNameSource) : H ServiceNameSource :=
  x1 <- copy_ptr hret (AwsEndpointServiceRef a);;
  hret (mkServiceNameSource x1).

Lemma ServiceNameSource_copies : copies DeepCopyInto_ServiceNameSource.
Proof. solve_copies. Qed.
#[local] Hint Resolve ServiceNameSource_copies : copies.

Definition DeepCopy_ServiceNameSource := copy_ptr DeepCopyInto_ServiceNameSource.

Definition DeepCopyInto_ServiceName (a : ServiceName) : H ServiceName :=
  x1 <- copy_ptr DeepCopyInto_ServiceNameSource (sn_ValueFrom a);;
  hret (mkServiceName (sn_Name a) x1).

Lemma ServiceName_copies : copies DeepCopyInto_ServiceName.
Proof. solve_copies. Qed.
#[local] Hint Resolve ServiceName_copies : copies.

Definition DeepCopy_ServiceName := copy_ptr DeepCopyInto_ServiceName.

Definition DeepCopyInto_Vpc (a : Vpc) : H Vpc :=
  x1 <- copy_slice hret (SubnetIds a);;
  x2 <- copy_slice hret (Ids a);;
  x3 <- copy_slice hret (Tags a);;
  x4 <- copy_slice hret (SubnetTags a);;
  hret (mkVpc (AutoDiscoverSubnets a) x1 x2 x3 x4).

Lemma Vpc_copies : copies DeepCopyInto_Vpc.
Proof. solve_copies. Qed.
#[local] Hint Resolve Vpc_copies : copies.

Definition DeepCopy_Vpc := copy_ptr DeepCopyInto_Vpc.

Definition DeepCopyInto_VpcEndpointSpec (a : VpcEndpointSpec) : H VpcEndpointSpec :=
  x1 <- copy_ptr DeepCopyInto_ServiceName (ServiceNameRef a);;
  x2 <- DeepCopyInto_SecurityGroup (SecurityGroup_ a);;
  x3 <- copy_ptr hret (AWSCredentialOverrideRef a);;
  x4 <- DeepCopyInto_Vpc (Vpc_ a);;
  x5 <- DeepCopyInto_CustomDns (CustomDns_ a);;
  hret (mkVpcEndpointSpec (ServiceName_ a) x1 x2 (AssumeRoleArn a) x3 (Region a)
    (EnablePrivateDns a) x4 x5).

Lemma VpcEndpointSpec_copies : copies DeepCopyInto_VpcEndpointSpec.
Proof. solve_copies. Qed.
#[local] Hint Resolve VpcEndpointSpec_copies : copies.

Definition DeepCopy_VpcEndpointSpec := copy_ptr DeepCopyInto_VpcEndpointSpec.

Definition DeepCopyInto_VpcEndpointStatus (a : VpcEndpointStatus) : H VpcEndpointStatus :=
  x1 <- copy_slice DeepCopyInto (Conditions a);;
  hret (mkVpcEndpointStatus (Status a) (SecurityGroupId a) (VPCId a) (VPCEndpointId a)
    (VPCEndpointServiceName a) (HostedZoneId a) (ResourceRecordSet a) (InfraId a) x1).

Lemma VpcEndpointStatus_copies : copies DeepCopyInto_VpcEndpointStatus.
Proof. solve_copies. Qed.
#[local] Hint Resolve VpcEndpointStatus_copies : copies.

Definition DeepCopy_VpcEndpointStatus := copy_ptr DeepCopyInto_VpcEndpointStatus.

Definition DeepCopyInto_VpcEndpoint (a : VpcEndpoint) : H VpcEndpoint :=
  x1 <- DeepCopyInto (vpce_ObjectMeta a);;
  x2 <- DeepCopyInto_VpcEndpointSpec (Spec a);;
  x3 <- DeepCopyInto_VpcEndpointStatus (Status_ a);;
  hret (mkVpcEndpoint (vpce_TypeMeta a) x1 x2 x3).

Lemma VpcEndpoint_copies : copies DeepCopyInto_VpcEndpoint.
Proof. solve_copies. Qed.
#[local] Hint Resolve VpcEndpoint_copies : copies.

Definition DeepCopy_VpcEndpoint := copy_ptr DeepCopyInto_VpcEndpoint.
Definition DeepCopyObject_VpcEndpoint := copy_object DeepCopyInto_VpcEndpoint.

Definition DeepCopyInto_VpcEndpointList (a : VpcEndpointList) : H VpcEndpointList :=
  x1 <- DeepCopyInto (vpcel_ListMeta a);;
  x2 <- copy_slice DeepCopyInto_VpcEndpoint (Items a);;
  hret (mkVpcEndpointList (vpcel_TypeMeta a) x1 x2).

Lemma VpcEndpointList_copies : copies DeepCopyInto_VpcEndpointList.
Proof. solve_copies. Qed.
#[local] Hint Resolve VpcEndpointList_copies : copies.

Definition DeepCopy_VpcEndpointList := copy_ptr DeepCopyInto_VpcEndpointList.
Definition DeepCopyObject_VpcEndpointList := copy_object DeepCopyInto_VpcEndpointList.

Definition DeepCopyInto_VpceTemplateSpec (a : VpceTemplateSpec) : H VpceTemplateSpec :=
  x1 <- DeepCopyInto (tmpl_ObjectMeta a);;
  x2 <- DeepCopyInto_VpcEndpointSpec (tmpl_Spec a);;
  hret (mkVpceTemplateSpec x1 x2).

Lemma VpceTemplateSpec_copies : copies DeepCopyInto_VpceTemplateSpec.
Proof. solve_copies. Qed.
#[local] Hint Resolve VpceTemplateSpec_copies : copies.

Definition DeepCopy_VpceTemplateSpec := copy_ptr DeepCopyInto_VpceTemplateSpec.

Definition DeepCopyInto_VpcEndpointTemplateSpec (a : VpcEndpointTemplateSpec)
  : H VpcEndpointTemplateSpec :=
  x1 <- DeepCopyInto (Selector a);;
  x2 <- DeepCopyInto_VpceTemplateSpec (Template a);;
  hret (mkVpcEndpointTemplateSpec (Type_ a) x1 x2).

Lemma VpcEndpointTemplateSpec_copies : copies DeepCopyInto_VpcEndpointTemplateSpec.
Proof. solve_copies. Qed.
#[local] Hint Resolve VpcEndpointTemplateSpec_copies : copies.

Definition DeepCopy_VpcEndpointTemplateSpec := copy_ptr DeepCopyInto_VpcEndpointTemplateSpec.

Definition DeepCopyInto_VpcEndpointTemplate (a : VpcEndpointTemplate) : H VpcEndpointTemplate :=
  x1 <- DeepCopyInto (vt_ObjectMeta a);;
  x2 <- DeepCopyInto_VpcEndpointTemplateSpec (vt_Spec a);;
  hret (mkVpcEndpointTemplate (vt_TypeMeta a) x1 x2 (vt_Status a)).

Lemma VpcEndpointTemplate_copies : copies DeepCopyInto_VpcEndpointTemplate.
Proof. solve_copies. Qed.
#[local] Hint Resolve VpcEndpointTemplate_copies : copies.

Definition DeepCopy_VpcEndpointTemplate := copy_ptr DeepCopyInto_VpcEndpointTemplate.
Definition DeepCopyObject_VpcEndpointTemplate := copy_object DeepCopyInto_VpcEndpointTemplate.

Definition DeepCopyInto_VpcEndpointTemplateList (a : VpcEndpointTemplateList)
  : H VpcEndpointTemplateList :=
  x1 <- DeepCopyInto (vtl_ListMeta a);;
  x2 <- copy_slice DeepCopyInto_VpcEndpointTemplate (vtl_Items a);;
  hret (mkVpcEndpointTemplateList (vtl_TypeMeta a) x1 x2).

Lemma VpcEndpointTemplateList_copies : copies DeepCopyInto_VpcEndpointTemplateList.
Proof. solve_copies. Qed.
#[local] Hint Resolve VpcEndpointTemplateList_copies : copies.

Definition DeepCopy_VpcEndpointTemplateList := copy_ptr DeepCopyInto_VpcEndpointTemplateList.
Definition DeepCopyObject_VpcEndpointTemplateList := copy_object
    DeepCopyInto_VpcEndpointTemplateList.

(** ** The contract *)

(** C27: the generated deep copies of v1alpha2 are deep copies. For every valid object
    in memory, of each of the kinds the operator registers, and for a spec, the
    function succeeds, only adds memory, and returns an object with the same value
    that shares no memory with the original: a later write through one of them
    never shows in the other. A nil pointer gives a nil interface, and any other
    one a pointer that is not nil. *)
Theorem deep_copies_are_independent :
  deep_copies DeepCopy_VpcEndpointSpec /\
  deep_copies_object DeepCopyObject_VpcEndpoint /\
  deep_copies_object DeepCopyObject_VpcEndpointList /\
  deep_copies_object DeepCopyObject_VpcEndpointTemplate /\
  deep_copies_object DeepCopyObject_VpcEndpointTemplateList.
Proof.
  split; [apply copies_deep; eauto with copies|].
  split; [|split; [|split]]; apply copy_object_deep; auto with copies.
Qed.

End types.

(** ** A library, and an object in memory *)

Module LibrarySim.

(** Labels are a map behind a reference; the rest of the metadata has none. *)
Record ObjectMeta := mkObjectMeta { flat : metav1.ObjectMeta; labels : ptr (gmap string string) }.

#[export] Instance library : Library := {|
  ObjectMeta_ := ObjectMeta; ListMeta_ := unit; Condition_ := metav1.Condition;
  LabelSelector_ := metav1.LabelSelector; lib_cell := gmap string string; ListMeta := unit
|}.

Definition set_labels (ls : option (gmap string string)) (m : metav1.ObjectMeta)
  : metav1.ObjectMeta :=
  metav1.mkObjectMeta (metav1.Name m) (metav1.Namespace m) (default ∅ ls)
    (metav1.CreationTimestamp m) (metav1.DeletionTimestamp m) (metav1.Finalizers m)
    (metav1.ResourceVersion m).

#[local] Instance map_storable : Storable cell (gmap string string) := lib_cell_storable.
#[local] Instance map_repr : Repr cell (gmap string string) (gmap string string) := plain.

Definition view_meta (h : heap cell) (m : ObjectMeta) : option metav1.ObjectMeta :=
  ls ← view h (labels m); Some (set_labels ls (flat m)).

#[export] Program Instance meta_repr : Repr cell ObjectMeta metav1.ObjectMeta := {
  view := view_meta
}.
Next Obligation.
  unfold view_meta. intros h h' a v Hv Hh. destruct (view h (labels a)) eqn:E; [|done].
  rewrite (view_mono _ _ _ _ E Hh). exact Hv.
Qed.

Definition copy_meta (m : ObjectMeta) : Heap.H cell ObjectMeta :=
  ls <- copy_ptr hret (labels m);;
  hret (mkObjectMeta (flat m) ls).

#[export] Program Instance meta_copy : DeepCopy cell ObjectMeta metav1.ObjectMeta := {
  DeepCopyInto := copy_meta
}.
Next Obligation.
  intros h m v Hv. unfold copy_meta. change (view_meta h m = Some v) in Hv. unfold view_meta in
    Hv.
  destruct (view h (labels m)) as [ls|] eqn:E; [|done]. injection Hv as <-.
  eapply adds_bind; [by eapply copies_adds; [eauto with copies|exact E|]|].
  intros ls' h1 _. apply adds_ret. intros h' Hls. change (view_meta h' (mkObjectMeta (flat m)
    ls') =
    Some (set_labels ls (flat m))). unfold view_meta. cbn [labels]. by rewrite Hls.
Qed.

#[export] Instance copies : LibraryCopies := {|
  ListMeta_repr := plain : Repr cell unit unit;
  ListMeta_copy := @Build_DeepCopy cell unit unit plain hret copies_plain;
  Condition_repr := plain : Repr cell metav1.Condition metav1.Condition;
  Condition_copy := @Build_DeepCopy cell _ _ plain hret copies_plain;
  LabelSelector_repr := plain : Repr cell metav1.LabelSelector metav1.LabelSelector;
  LabelSelector_copy := @Build_DeepCopy cell _ _ plain hret copies_plain
|}.

(** A spec whose [subnetIds] and [ids] are two windows of one array. *)
Definition memory : heap cell :=
  {[ 1%positive := arr_string ["subnet-1"; "subnet-2"; "vpc-1"];
     2%positive := arr_VpcEndpointSpec
       [ mkVpcEndpointSpec "svc" nil (mkSecurityGroup nil nil false) "" nil "us-east-1" false
           (mkVpc false (Some (mkWindow 1 0 2)) (Some (mkWindow 1 2 1)) nil nil)
           (mkCustomDns (mkRoute53PrivateHostedZone false nil "" nil ""
              (avov1alpha2.mkRoute53HostedZoneRecord ""
    (avov1alpha2.mkExternalNameService ""))))] ]}.

Definition spec_ptr : ptr VpcEndpointSpec := Some 2%positive.

Definition subnets_of (o : option (option avov1alpha2.VpcEndpointSpec)) : list string :=
  match o with
  | Some (Some sp) => avov1alpha2.SubnetIds (avov1alpha2.Vpc_ sp)
  | _ => []
  end.

(** The copy keeps its subnets when those of the original are overwritten. *)
Example copy_example :
  subnets_of (view memory spec_ptr) = ["subnet-1"; "subnet-2"] /\
  match DeepCopy_VpcEndpointSpec spec_ptr memory with
  | Some (p', h') =>
      let h'' := <[1%positive := arr_string ["x"; "y"; "z"]]> h' in
      subnets_of (view h'' spec_ptr) = ["x"; "y"] /\
      subnets_of (view h'' p') = ["subnet-1"; "subnet-2"]
  | None => False
  end.
Proof. vm_compute. done. Qed.

(** The contract, for this library. *)
Lemma deep_copies_are_independent_witness :
  deep_copies DeepCopy_VpcEndpointSpec /\
  deep_copies_object DeepCopyObject_VpcEndpoint /\
  deep_copies_object DeepCopyObject_VpcEndpointList /\
  deep_copies_object DeepCopyObject_VpcEndpointTemplate /\
  deep_copies_object DeepCopyObject_VpcEndpointTemplateList.
Proof. exact deep_copies_are_independent. Defined.

End LibrarySim.
End v1alpha2.
