(* ===== verification/DeepCopyV1.v ===== *)
(** * Deep copies of the v1alpha1 types: [api/v1alpha1/zz_generated.deepcopy.go]

    As in DeepCopyV2.v: the types of [api/v1alpha1] in memory and the generated
    functions.  The v1alpha1 version of VpcEndpoint, which no controller reads,
    has its values here ([api/v1alpha1/vpcendpoint_types.go]). *)
From S2P Require Import Prelude Types Heap DeepCopyV2.
Import avov1alpha1 (AAOAccountAcceptanceCriteria).
Import v1alpha2 (TypeMeta).

(** ** The values of the v1alpha1 VpcEndpoint *)

Module values.

Record SecurityGroupRule := mkSecurityGroupRule { FromPort : Z; ToPort : Z; Protocol : string }.

Record SecurityGroup := mkSecurityGroup {
  IngressRules : list SecurityGroupRule;
  EgressRules : list SecurityGroupRule
}.

Record ExternalNameServiceSpec := mkExternalNameServiceSpec { Name : string }.

Record VpcEndpointSpec := mkVpcEndpointSpec {
  ServiceName : string;
  SecurityGroup_ : SecurityGroup;
  SubdomainName : string;
  ExternalNameService : ExternalNameServiceSpec;
  AddtlHostedZoneName : string
}.

Record VpcEndpointStatus := mkVpcEndpointStatus {
  Status : string;
  SecurityGroupId : string;
  VPCEndpointId : string;
  Conditions : list metav1.Condition
}.

Record VpcEndpoint := mkVpcEndpoint {
  meta : metav1.ObjectMeta;
  Spec : VpcEndpointSpec;
  status : VpcEndpointStatus
}.

End values.

Import values (SecurityGroupRule, ExternalNameServiceSpec).

Module v1alpha1.
Open Scope heap_scope.

(** The struct has no fields. *)
Record VpcEndpointAcceptanceStatus := mkVpcEndpointAcceptanceStatus { }.

(** Library types as they lie in memory, among them the embedded
    [ControllerManagerConfigurationSpec]. *)
Class Library := {
  ObjectMeta_ : Type; ListMeta_ : Type; Condition_ : Type; ConfigurationSpec_ : Type;
  lib_cell : Type; ListMeta : Type; ConfigurationSpec : Type
}.

Section types.
Context `{Library}.

(** ** The structs *)

Record AcceptanceCriteria := mkAcceptanceCriteria {
  AwsAccountOperatorAccount : ptr AAOAccountAcceptanceCriteria;
  AlwaysAccept : bool
}.

Record VpcEndpointAcceptanceSpec := mkVpcEndpointAcceptanceSpec {
  Id : string;
  AssumeRoleArn : string;
  Region : string;
  AcceptanceCriteria_ : AcceptanceCriteria
}.

Record VpcEndpointAcceptance := mkVpcEndpointAcceptance {
  vpcea_TypeMeta : TypeMeta;
  vpcea_ObjectMeta : ObjectMeta_;
  vpcea_Spec : VpcEndpointAcceptanceSpec;
  vpcea_Status : VpcEndpointAcceptanceStatus
}.

Record VpcEndpointAcceptanceList := mkVpcEndpointAcceptanceList {
  vpceal_TypeMeta : TypeMeta;
  vpceal_ListMeta : ListMeta_;
  vpceal_Items : slice VpcEndpointAcceptance
}.

Record AvoConfig := mkAvoConfig {
  ac_TypeMeta : TypeMeta;
  ControllerManagerConfigurationSpec : ConfigurationSpec_;
  EnableVpcEndpointController : ptr bool;
  EnableVpcEndpointAcceptanceController : ptr bool;
  EnableVpcEndpointTemplateController : ptr bool;
  EnablePrivateDns : ptr bool
}.

Record AvoConfigList := mkAvoConfigList {
  acl_TypeMeta : TypeMeta;
  acl_ListMeta : ListMeta_;
  acl_Items : slice AvoConfig
}.

Record SecurityGroup := mkSecurityGroup {
  IngressRules : slice SecurityGroupRule;
  EgressRules : slice SecurityGroupRule
}.

Record VpcEndpointSpec := mkVpcEndpointSpec {
  ServiceName : string;
  SecurityGroup_ : SecurityGroup;
  SubdomainName : string;
  ExternalNameService : ExternalNameServiceSpec;
  AddtlHostedZoneName : string
}.

Record VpcEndpointStatus := mkVpcEndpointStatus {
  Status : string;
  SecurityGroupId : string;
  VPCEndpointId : string;
  Conditions : slice Condition_
}.

Record VpcEndpoint := mkVpcEndpoint {
  vpce_TypeMeta : TypeMeta;
  vpce_ObjectMeta : ObjectMeta_;
  vpce_Spec : VpcEndpointSpec;
  vpce_Status : VpcEndpointStatus
}.

Record VpcEndpointList := mkVpcEndpointList {
  vpcel_TypeMeta : TypeMeta;
  vpcel_ListMeta : ListMeta_;
  Items : slice VpcEndpoint
}.

(** ** The memory *)

Inductive cell :=
| arr_bool (l : list bool)
| arr_AAOAccountAcceptanceCriteria (l : list AAOAccountAcceptanceCriteria)
| arr_ExternalNameServiceSpec (l : list ExternalNameServiceSpec)
| arr_SecurityGroupRule (l : list SecurityGroupRule)
| arr_VpcEndpointAcceptanceStatus (l : list VpcEndpointAcceptanceStatus)
| arr_AcceptanceCriteria (l : list AcceptanceCriteria)
| arr_VpcEndpointAcceptanceSpec (l : list VpcEndpointAcceptanceSpec)
| arr_VpcEndpointAcceptance (l : list VpcEndpointAcceptance)
| arr_VpcEndpointAcceptanceList (l : list VpcEndpointAcceptanceList)
| arr_AvoConfig (l : list AvoConfig)
| arr_AvoConfigList (l : list AvoConfigList)
| arr_SecurityGroup (l : list SecurityGroup)
| arr_VpcEndpointSpec (l : list VpcEndpointSpec)
| arr_VpcEndpointStatus (l : list VpcEndpointStatus)
| arr_VpcEndpoint (l : list VpcEndpoint)
| arr_VpcEndpointList (l : list VpcEndpointList)
| arr_Condition_ (l : list Condition_)
| arr_lib_cell (l : list lib_cell).

#[export] Instance bool_storable : Storable cell bool :=
  Build_Storable _ _ arr_bool
    (fun c => match c with arr_bool l => Some l | _ => None end) (fun _ => eq_refl).
#[export] Instance AAOAccountAcceptanceCriteria_storable : Storable cell
    AAOAccountAcceptanceCriteria :=
  Build_Storable _ _ arr_AAOAccountAcceptanceCriteria
    (fun c => match c with arr_AAOAccountAcceptanceCriteria l => Some l | _ => None end) (fun _
    => eq_refl).
#[export] Instance ExternalNameServiceSpec_storable : Storable cell ExternalNameServiceSpec :=
  Build_Storable _ _ arr_ExternalNameServiceSpec
    (fun c => match c with arr_ExternalNameServiceSpec l => Some l | _ => None end) (fun _ =>
    eq_refl).
#[export] Instance SecurityGroupRule_storable : Storable cell SecurityGroupRule :=
  Build_Storable _ _ arr_SecurityGroupRule
    (fun c => match c with arr_SecurityGroupRule l => Some l | _ => None end) (fun _ => eq_refl).
#[export] Instance VpcEndpointAcceptanceStatus_storable : Storable cell
    VpcEndpointAcceptanceStatus :=
  Build_Storable _ _ arr_VpcEndpointAcceptanceStatus
    (fun c => match c with arr_VpcEndpointAcceptanceStatus l => Some l | _ => None end) (fun _ =>
    eq_refl).
#[export] Instance AcceptanceCriteria_storable : Storable cell AcceptanceCriteria :=
  Build_Storable _ _ arr_AcceptanceCriteria
    (fun c => match c with arr_AcceptanceCriteria l => Some l | _ => None end) (fun _ => eq_refl).
#[export] Instance VpcEndpointAcceptanceSpec_storable : Storable cell VpcEndpointAcceptanceSpec :=
  Build_Storable _ _ arr_VpcEndpointAcceptanceSpec
    (fun c => match c with arr_VpcEndpointAcceptanceSpec l => Some l | _ => None end) (fun _ =>
    eq_refl).
#[export] Instance VpcEndpointAcceptance_storable : Storable cell VpcEndpointAcceptance :=
  Build_Storable _ _ arr_VpcEndpointAcceptance
    (fun c => match c with arr_VpcEndpointAcceptance l => Some l | _ => None end) (fun _ =>
    eq_refl).
#[export] Instance VpcEndpointAcceptanceList_storable : Storable cell VpcEndpointAcceptanceList :=
  Build_Storable _ _ arr_VpcEndpointAcceptanceList
    (fun c => match c with arr_VpcEndpointAcceptanceList l => Some l | _ => None end) (fun _ =>
    eq_refl).
#[export] Instance AvoConfig_storable : Storable cell AvoConfig :=
  Build_Storable _ _ arr_AvoConfig
    (fun c => match c with arr_AvoConfig l => Some l | _ => None end) (fun _ => eq_refl).
#[export] Instance AvoConfigList_storable : Storable cell AvoConfigList :=
  Build_Storable _ _ arr_AvoConfigList
    (fun c => match c with arr_AvoConfigList l => Some l | _ => None end) (fun _ => eq_refl).
#[export] Instance SecurityGroup_storable : Storable cell SecurityGroup :=
  Build_Storable _ _ arr_SecurityGroup
    (fun c => match c with arr_SecurityGroup l => Some l | _ => None end) (fun _ => eq_refl).
#[export] Instance VpcEndpointSpec_storable : Storable cell VpcEndpointSpec :=
  Build_Storable _ _ arr_VpcEndpointSpec
    (fun c => match c with arr_VpcEndpointSpec l => Some l | _ => None end) (fun _ => eq_refl).
#[export] Instance VpcEndpointStatus_storable : Storable cell VpcEndpointStatus :=
  Build_Storable _ _ arr_VpcEndpointStatus
    (fun c => match c with arr_VpcEndpointStatus l => Some l | _ => None end) (fun _ => eq_refl).
#[export] Instance VpcEndpoint_storable : Storable cell VpcEndpoint :=
  Build_Storable _ _ arr_VpcEndpoint
    (fun c => match c with arr_VpcEndpoint l => Some l | _ => None end) (fun _ => eq_refl).
#[export] Instance VpcEndpointList_storable : Storable cell VpcEndpointList :=
  Build_Storable _ _ arr_VpcEndpointList
    (fun c => match c with arr_VpcEndpointList l => Some l | _ => None end) (fun _ => eq_refl).
#[export] Instance Condition__storable : Storable cell Condition_ :=
  Build_Storable _ _ arr_Condition_
    (fun c => match c with arr_Condition_ l => Some l | _ => None end) (fun _ => eq_refl).
#[export] Instance lib_cell_storable : Storable cell lib_cell :=
  Build_Storable _ _ arr_lib_cell
    (fun c => match c with arr_lib_cell l => Some l | _ => None end) (fun _ => eq_refl).

Abbreviation H := (H cell).

(** What the libraries provide. *)
Class LibraryCopies := {
  ObjectMeta_repr :: Repr cell ObjectMeta_ metav1.ObjectMeta;
  ObjectMeta_copy :: DeepCopy cell ObjectMeta_ metav1.ObjectMeta;
  ListMeta_repr :: Repr cell ListMeta_ ListMeta;
  ListMeta_copy :: DeepCopy cell ListMeta_ ListMeta;
  Condition_repr :: Repr cell Condition_ metav1.Condition;
  Condition_copy :: DeepCopy cell Condition_ metav1.Condition;
  ConfigurationSpec_repr :: Repr cell ConfigurationSpec_ ConfigurationSpec;
  ConfigurationSpec_copy :: DeepCopy cell ConfigurationSpec_ ConfigurationSpec
}.
Context `{LibraryCopies}.

(** *** The values *)

#[export] Instance bool_repr : Repr cell bool bool := plain.

#[export] Instance AAOAccountAcceptanceCriteria_repr :
    Repr cell AAOAccountAcceptanceCriteria AAOAccountAcceptanceCriteria := plain.
#[export] Instance ExternalNameServiceSpec_repr :
    Repr cell ExternalNameServiceSpec ExternalNameServiceSpec := plain.
#[export] Instance SecurityGroupRule_repr :
    Repr cell SecurityGroupRule SecurityGroupRule := plain.
#[export] Instance VpcEndpointAcceptanceStatus_repr :
    Repr cell VpcEndpointAcceptanceStatus VpcEndpointAcceptanceStatus := plain.
#[export] Program Instance AcceptanceCriteria_repr :
    Repr cell AcceptanceCriteria avov1alpha1.AcceptanceCriteriaT := {
  view h a :=
    v1 ← view h (AwsAccountOperatorAccount a);
    Some (avov1alpha1.mkAcceptanceCriteria v1 (AlwaysAccept a))
}.
Next Obligation. solve_mono. Qed.

#[export] Program Instance VpcEndpointAcceptanceSpec_repr :
    Repr cell VpcEndpointAcceptanceSpec avov1alpha1.VpcEndpointAcceptanceSpec := {
  view h a :=
    v1 ← view h (AcceptanceCriteria_ a);
    Some (avov1alpha1.mkVpcEndpointAcceptanceSpec (Id a) (AssumeRoleArn a) (Region a) v1)
}.
Next Obligation. solve_mono. Qed.

#[export] Program Instance VpcEndpointAcceptance_repr :
    Repr cell VpcEndpointAcceptance (TypeMeta * avov1alpha1.VpcEndpointAcceptance) := {
  view h a :=
    v1 ← view h (vpcea_ObjectMeta a);
    v2 ← view h (vpcea_Spec a);
    Some (vpcea_TypeMeta a, avov1alpha1.mkVpcEndpointAcceptance v1 v2)
}.
Next Obligation. solve_mono. Qed.

#[export] Program Instance VpcEndpointAcceptanceList_repr :
    Repr cell VpcEndpointAcceptanceList (TypeMeta * ListMeta * list (TypeMeta *
    avov1alpha1.VpcEndpointAcceptance)) := {
  view h a :=
    v1 ← view h (vpceal_ListMeta a);
    v2 ← view h (vpceal_Items a);
    Some (vpceal_TypeMeta a, v1, v2)
}.
Next Obligation. solve_mono. Qed.

#[export] Program Instance AvoConfig_repr :
    Repr cell AvoConfig (TypeMeta * ConfigurationSpec * avov1alpha1.AvoConfig) := {
  view h a :=
    v1 ← view h (ControllerManagerConfigurationSpec a);
    v2 ← view h (EnableVpcEndpointController a);
    v3 ← view h (EnableVpcEndpointAcceptanceController a);
    v4 ← view h (EnableVpcEndpointTemplateController a);
    v5 ← view h (EnablePrivateDns a);
    Some (ac_TypeMeta a, v1, avov1alpha1.mkAvoConfig v2 v3 v4 v5)
}.
Next Obligation. solve_mono. Qed.

#[export] Program Instance AvoConfigList_repr :
    Repr cell AvoConfigList (TypeMeta * ListMeta * list (TypeMeta * ConfigurationSpec *
    avov1alpha1.AvoConfig)) := {
  view h a :=
    v1 ← view h (acl_ListMeta a);
    v2 ← view h (acl_Items a);
    Some (acl_TypeMeta a, v1, v2)
}.
Next Obligation. solve_mono. Qed.

#[export] Program Instance SecurityGroup_repr :
    Repr cell SecurityGroup values.SecurityGroup := {
  view h a :=
    v1 ← view h (IngressRules a);
    v2 ← view h (EgressRules a);
    Some (values.mkSecurityGroup v1 v2)
}.
Next Obligation. solve_mono. Qed.

#[export] Program Instance VpcEndpointSpec_repr :
    Repr cell VpcEndpointSpec values.VpcEndpointSpec := {
  view h a :=
    v1 ← view h (SecurityGroup_ a);
    Some (values.mkVpcEndpointSpec (ServiceName a) v1 (SubdomainName a) (ExternalNameService a)
    (AddtlHostedZoneName a))
}.
Next Obligation. solve_mono. Qed.

#[export] Program Instance VpcEndpointStatus_repr :
    Repr cell VpcEndpointStatus values.VpcEndpointStatus := {
  view h a :=
    v1 ← view h (Conditions a);
    Some (values.mkVpcEndpointStatus (Status a) (SecurityGroupId a) (VPCEndpointId a) v1)
}.
Next Obligation. solve_mono. Qed.

#[export] Program Instance VpcEndpoint_repr :
    Repr cell VpcEndpoint (TypeMeta * values.VpcEndpoint) := {
  view h a :=
    v1 ← view h (vpce_ObjectMeta a);
    v2 ← view h (vpce_Spec a);
    v3 ← view h (vpce_Status a);
    Some (vpce_TypeMeta a, values.mkVpcEndpoint v1 v2 v3)
}.
Next Obligation. solve_mono. Qed.

#[export] Program Instance VpcEndpointList_repr :
    Repr cell VpcEndpointList (TypeMeta * ListMeta * list (TypeMeta * values.VpcEndpoint)) := {
  view h a :=
    v1 ← view h (vpcel_ListMeta a);
    v2 ← view h (Items a);
    Some (vpcel_TypeMeta a, v1, v2)
}.
Next Obligation. solve_mono. Qed.

(** ** The generated functions *)

Definition DeepCopyInto_AAOAccountAcceptanceCriteria (a : AAOAccountAcceptanceCriteria) : H
    AAOAccountAcceptanceCriteria := hret a.

Lemma AAOAccountAcceptanceCriteria_copies_v1 : copies DeepCopyInto_AAOAccountAcceptanceCriteria.
Proof. exact copies_plain. Qed.
#[local] Hint Resolve AAOAccountAcceptanceCriteria_copies_v1 : copies.

Definition DeepCopy_AAOAccountAcceptanceCriteria := copy_ptr
    DeepCopyInto_AAOAccountAcceptanceCriteria.

Definition DeepCopyInto_ExternalNameServiceSpec (a : ExternalNameServiceSpec) : H
    ExternalNameServiceSpec := hret a.

Lemma ExternalNameServiceSpec_copies_v1 : copies DeepCopyInto_ExternalNameServiceSpec.
Proof. exact copies_plain. Qed.
#[local] Hint Resolve ExternalNameServiceSpec_copies_v1 : copies.

Definition DeepCopy_ExternalNameServiceSpec := copy_ptr DeepCopyInto_ExternalNameServiceSpec.

Definition DeepCopyInto_SecurityGroupRule (a : SecurityGroupRule) : H SecurityGroupRule := hret a.

Lemma SecurityGroupRule_copies_v1 : copies DeepCopyInto_SecurityGroupRule.
Proof. exact copies_plain. Qed.
#[local] Hint Resolve SecurityGroupRule_copies_v1 : copies.

Definition DeepCopy_SecurityGroupRule := copy_ptr DeepCopyInto_SecurityGroupRule.

Definition DeepCopyInto_VpcEndpointAcceptanceStatus (a : VpcEndpointAcceptanceStatus) : H
    VpcEndpointAcceptanceStatus := hret a.

Lemma VpcEndpointAcceptanceStatus_copies_v1 : copies DeepCopyInto_VpcEndpointAcceptanceStatus.
Proof. exact copies_plain. Qed.
#[local] Hint Resolve VpcEndpointAcceptanceStatus_copies_v1 : copies.

Definition DeepCopy_VpcEndpointAcceptanceStatus := copy_ptr
    DeepCopyInto_VpcEndpointAcceptanceStatus.

Definition DeepCopyInto_AcceptanceCriteria (a : AcceptanceCriteria) : H AcceptanceCriteria :=
  x1 <- copy_ptr hret (AwsAccountOperatorAccount a);;
  hret (mkAcceptanceCriteria x1 (AlwaysAccept a)).

Lemma AcceptanceCriteria_copies_v1 : copies DeepCopyInto_AcceptanceCriteria.
Proof. solve_copies. Qed.
#[local] Hint Resolve AcceptanceCriteria_copies_v1 : copies.

Definition DeepCopy_AcceptanceCriteria := copy_ptr DeepCopyInto_AcceptanceCriteria.

Definition DeepCopyInto_VpcEndpointAcceptanceSpec (a : VpcEndpointAcceptanceSpec)
  : H VpcEndpointAcceptanceSpec :=
  x1 <- DeepCopyInto_AcceptanceCriteria (AcceptanceCriteria_ a);;
  hret (mkVpcEndpointAcceptanceSpec (Id a) (AssumeRoleArn a) (Region a) x1).

Lemma VpcEndpointAcceptanceSpec_copies_v1 : copies DeepCopyInto_VpcEndpointAcceptanceSpec.
Proof. solve_copies. Qed.
#[local] Hint Resolve VpcEndpointAcceptanceSpec_copies_v1 : copies.

Definition DeepCopy_VpcEndpointAcceptanceSpec := copy_ptr DeepCopyInto_VpcEndpointAcceptanceSpec.

Definition DeepCopyInto_VpcEndpointAcceptance (a : VpcEndpointAcceptance)
  : H VpcEndpointAcceptance :=
  x1 <- DeepCopyInto (vpcea_ObjectMeta a);;
  x2 <- DeepCopyInto_VpcEndpointAcceptanceSpec (vpcea_Spec a);;
  hret (mkVpcEndpointAcceptance (vpcea_TypeMeta a) x1 x2 (vpcea_Status a)).

Lemma VpcEndpointAcceptance_copies_v1 : copies DeepCopyInto_VpcEndpointAcceptance.
Proof. solve_copies. Qed.
#[local] Hint Resolve VpcEndpointAcceptance_copies_v1 : copies.

Definition DeepCopy_VpcEndpointAcceptance := copy_ptr DeepCopyInto_VpcEndpointAcceptance.
Definition DeepCopyObject_VpcEndpointAcceptance := copy_object DeepCopyInto_VpcEndpointAcceptance.

Definition DeepCopyInto_VpcEndpointAcceptanceList (a : VpcEndpointAcceptanceList)
  : H VpcEndpointAcceptanceList :=
  x1 <- DeepCopyInto (vpceal_ListMeta a);;
  x2 <- copy_slice DeepCopyInto_VpcEndpointAcceptance (vpceal_Items a);;
  hret (mkVpcEndpointAcceptanceList (vpceal_TypeMeta a) x1 x2).

Lemma VpcEndpointAcceptanceList_copies_v1 : copies DeepCopyInto_VpcEndpointAcceptanceList.
Proof. solve_copies. Qed.
#[local] Hint Resolve VpcEndpointAcceptanceList_copies_v1 : copies.

Definition DeepCopy_VpcEndpointAcceptanceList := copy_ptr DeepCopyInto_VpcEndpointAcceptanceList.
Definition DeepCopyObject_VpcEndpointAcceptanceList := copy_object
    DeepCopyInto_VpcEndpointAcceptanceList.

Definition DeepCopyInto_AvoConfig (a : AvoConfig) : H AvoConfig :=
  x1 <- DeepCopyInto (ControllerManagerConfigurationSpec a);;
  x2 <- copy_ptr hret (EnableVpcEndpointController a);;
  x3 <- copy_ptr hret (EnableVpcEndpointAcceptanceController a);;
  x4 <- copy_ptr hret (EnableVpcEndpointTemplateController a);;
  x5 <- copy_ptr hret (EnablePrivateDns a);;
  hret (mkAvoConfig (ac_TypeMeta a) x1 x2 x3 x4 x5).

Lemma AvoConfig_copies_v1 : copies DeepCopyInto_AvoConfig.
Proof. solve_copies. Qed.
#[local] Hint Resolve AvoConfig_copies_v1 : copies.

Definition DeepCopy_AvoConfig := copy_ptr DeepCopyInto_AvoConfig.
Definition DeepCopyObject_AvoConfig := copy_object DeepCopyInto_AvoConfig.

Definition DeepCopyInto_AvoConfigList (a : AvoConfigList) : H AvoConfigList :=
  x1 <- DeepCopyInto (acl_ListMeta a);;
  x2 <- copy_slice DeepCopyInto_AvoConfig (acl_Items a);;
  hret (mkAvoConfigList (acl_TypeMeta a) x1 x2).

Lemma AvoConfigList_copies_v1 : copies DeepCopyInto_AvoConfigList.
Proof. solve_copies. Qed.
#[local] Hint Resolve AvoConfigList_copies_v1 : copies.

Definition DeepCopy_AvoConfigList := copy_ptr DeepCopyInto_AvoConfigList.
Definition DeepCopyObject_AvoConfigList := copy_object DeepCopyInto_AvoConfigList.

Definition DeepCopyInto_SecurityGroup (a : SecurityGroup) : H SecurityGroup :=
  x1 <- copy_slice hret (IngressRules a);;
  x2 <- copy_slice hret (EgressRules a);;
  hret (mkSecurityGroup x1 x2).

Lemma SecurityGroup_copies_v1 : copies DeepCopyInto_SecurityGroup.
Proof. solve_copies. Qed.
#[local] Hint Resolve SecurityGroup_copies_v1 : copies.

Definition DeepCopy_SecurityGroup := copy_ptr DeepCopyInto_SecurityGroup.

Definition DeepCopyInto_VpcEndpointSpec (a : VpcEndpointSpec) : H VpcEndpointSpec :=
  x1 <- DeepCopyInto_SecurityGroup (SecurityGroup_ a);;
  hret (mkVpcEndpointSpec (ServiceName a) x1 (SubdomainName a) (ExternalNameService a)
    (AddtlHostedZoneName a)).

Lemma VpcEndpointSpec_copies_v1 : copies DeepCopyInto_VpcEndpointSpec.
Proof. solve_copies. Qed.
#[local] Hint Resolve VpcEndpointSpec_copies_v1 : copies.

Definition DeepCopy_VpcEndpointSpec := copy_ptr DeepCopyInto_VpcEndpointSpec.

Definition DeepCopyInto_VpcEndpointStatus (a : VpcEndpointStatus) : H VpcEndpointStatus :=
  x1 <- copy_slice DeepCopyInto (Conditions a);;
  hret (mkVpcEndpointStatus (Status a) (SecurityGroupId a) (VPCEndpointId a) x1).

Lemma VpcEndpointStatus_copies_v1 : copies DeepCopyInto_VpcEndpointStatus.
Proof. solve_copies. Qed.
#[local] Hint Resolve VpcEndpointStatus_copies_v1 : copies.

Definition DeepCopy_VpcEndpointStatus := copy_ptr DeepCopyInto_VpcEndpointStatus.

Definition DeepCopyInto_VpcEndpoint (a : VpcEndpoint) : H VpcEndpoint :=
  x1 <- DeepCopyInto (vpce_ObjectMeta a);;
  x2 <- DeepCopyInto_VpcEndpointSpec (vpce_Spec a);;
  x3 <- DeepCopyInto_VpcEndpointStatus (vpce_Status a);;
  hret (mkVpcEndpoint (vpce_TypeMeta a) x1 x2 x3).

Lemma VpcEndpoint_copies_v1 : copies DeepCopyInto_VpcEndpoint.
Proof. solve_copies. Qed.
#[local] Hint Resolve VpcEndpoint_copies_v1 : copies.

Definition DeepCopy_VpcEndpoint := copy_ptr DeepCopyInto_VpcEndpoint.
Definition DeepCopyObject_VpcEndpoint := copy_object DeepCopyInto_VpcEndpoint.

Definition DeepCopyInto_VpcEndpointList (a : VpcEndpointList) : H VpcEndpointList :=
  x1 <- DeepCopyInto (vpcel_ListMeta a);;
  x2 <- copy_slice DeepCopyInto_VpcEndpoint (Items a);;
  hret (mkVpcEndpointList (vpcel_TypeMeta a) x1 x2).

Lemma VpcEndpointList_copies_v1 : copies DeepCopyInto_VpcEndpointList.
Proof. solve_copies. Qed.
#[local] Hint Resolve VpcEndpointList_copies_v1 : copies.

Definition DeepCopy_VpcEndpointList := copy_ptr DeepCopyInto_VpcEndpointList.
Definition DeepCopyObject_VpcEndpointList := copy_object DeepCopyInto_VpcEndpointList.

(** ** The contract *)

(** The generated deep copies of v1alpha1 are deep copies: for every valid object
    in memory, the function succeeds, only adds memory, and returns an object with
    the same value that shares no memory with the original; nil is copied to nil.
    In particular the feature flags of a copied configuration are variables of its
    own. *)
Theorem deep_copies_are_independent_v1alpha1 :
  deep_copies_object DeepCopyObject_AvoConfig /\
  deep_copies_object DeepCopyObject_AvoConfigList /\
  deep_copies_object DeepCopyObject_VpcEndpointAcceptance /\
  deep_copies_object DeepCopyObject_VpcEndpointAcceptanceList /\
  deep_copies_object DeepCopyObject_VpcEndpoint /\
  deep_copies_object DeepCopyObject_VpcEndpointList.
Proof.
  repeat apply conj; apply copy_object_deep; auto with copies.
Qed.

End types.

(** ** Example *)

Module LibrarySim.

(** A library whose types have no references. *)
#[export] Instance library : Library := {|
  ObjectMeta_ := metav1.ObjectMeta; ListMeta_ := unit; Condition_ := metav1.Condition;
  ConfigurationSpec_ := unit; lib_cell := unit; ListMeta := unit; ConfigurationSpec := unit
|}.

Definition plain_copy {A} : @DeepCopy cell A A plain := @Build_DeepCopy cell A A plain hret
    copies_plain.

#[export] Instance copies : LibraryCopies := {|
  ObjectMeta_repr := plain : Repr cell metav1.ObjectMeta metav1.ObjectMeta;
  ObjectMeta_copy := plain_copy;
  ListMeta_repr := plain : Repr cell unit unit; ListMeta_copy := plain_copy;
  Condition_repr := plain : Repr cell metav1.Condition metav1.Condition;
  Condition_copy := plain_copy;
  ConfigurationSpec_repr := plain : Repr cell unit unit; ConfigurationSpec_copy := plain_copy
|}.

(** Two flags of one configuration that share a variable. *)
Definition memory : heap cell :=
  {[ 1%positive := arr_bool [true];
     2%positive := arr_AvoConfig
       [mkAvoConfig (v1alpha2.mkTypeMeta "AvoConfig" "v1alpha1") tt
          (Some 1%positive) nil (Some 1%positive) nil] ]}.

Definition config_ptr : ptr AvoConfig := Some 2%positive.

(** The copy keeps its flags when the variable is changed. *)
Example copy_example_v1 :
  match DeepCopyObject_AvoConfig config_ptr memory with
  | Some (Some p', h') =>
      let h'' := <[1%positive := arr_bool [false]]> h' in
      (snd <$> (view h'' config_ptr ≫= id)) =
        Some (avov1alpha1.mkAvoConfig (Some false) None (Some false) None) /\
      (snd <$> (view h'' p' ≫= id)) =
        Some (avov1alpha1.mkAvoConfig (Some true) None (Some true) None)
  | _ => False
  end.
Proof. vm_compute. done. Qed.

End LibrarySim.
End v1alpha1.
