(* ===== verification/Yields.v ===== *)
(** * Results of a run, with what the run respects

    [emits] says what a computation does; [yields] also says what its result is,
    when it has one, in a world whose answers are known to fit some description.
    The rules follow the constructs of the monad, like those of [respects]. *)
From S2P Require Import Prelude GoError Naming Types Calls GoMonad AwsClient.

(** A description of the answers to calls, of errors as well. *)
Definition answers : Type := forall R, call R -> error + R -> Prop.

(** Every answer of the world is as described. *)
Class Fits {W : Type} `{World W} (fits : answers) : Prop :=
  answer_fits R (c : call R) w w' r : handle c w = (w', r) -> fits R c r.

Section yields.
Context {W : Type} {L : Type} `{World W}.
Context (fits : answers) `{!Fits fits} (P : call_pred) (Inv : L -> Prop).
Implicit Types s : Sys W L.

(** From a memory that satisfies [Inv], [m] emits [P] calls only, keeps [Inv], and
    its result, if any, satisfies [Q]. *)
Definition yields {A} (Q : A -> Prop) (m : M W L A) : Prop :=
  respects (emits P Inv) m /\ forall s a, Inv (local s) -> (m s).1 = Ok a -> Q a.

Lemma yields_weaken {A} (Q Q' : A -> Prop) (m : M W L A) :
  yields Q m -> (forall a, Q a -> Q' a) -> yields Q' m.
Proof. intros [Hm HQ] HQQ. split; [done|]. eauto. Qed.

Lemma yields_any {A} (m : M W L A) : respects (emits P Inv) m -> yields (fun _ => True) m.
Proof. by split. Qed.

Lemma yields_ret {A} (Q : A -> Prop) a : Q a -> yields Q (ret a).
Proof. intros Ha. split; [apply respects_ret, _|]. by intros s ? _ [= <-]. Qed.

Lemma yields_lift {A} (Q : A -> Prop) (o : outcome A) :
  (forall a, o = Ok a -> Q a) -> yields Q (lift o).
Proof. intros Ho. split; [apply respects_lift, _|]. intros s a _. apply Ho. Qed.

Lemma yields_fail {A} (Q : A -> Prop) e : yields Q (fail e).
Proof. by apply yields_lift. Qed.

Lemma yields_panic {A} (Q : A -> Prop) w : yields Q (panic w).
Proof. by apply yields_lift. Qed.

Lemma yields_bind {A B} (Q : A -> Prop) (Q' : B -> Prop) (m : M W L A) (k : A -> M W L B) :
  yields Q m -> (forall a, Q a -> yields Q' (k a)) -> yields Q' (bind m k).
Proof.
  intros [Hm HQ] Hk. split.
  - intros s Hs. specialize (Hm s Hs) as Hm'. specialize (HQ s). unfold bind.
    destruct (m s) as [[a|e|w|] s1]; simpl in *; [|exact Hm'..].
    destruct (Hk a (HQ a Hs eq_refl)) as [Hka _].
    refine (transitivity (R := emits P Inv) (y := s1) (fun _ => Hm') (Hka s1) Hs).
  - intros s b Hs. specialize (Hm s Hs) as [Hi _]. specialize (HQ s). unfold bind.
    destruct (m s) as [[a|e|w|] s1]; simpl in *; [|done..].
    destruct (Hk a (HQ a Hs eq_refl)) as [_ Hkb]. by apply Hkb.
Qed.

Lemma yields_gets_bind {A B} (Q : B -> Prop) (f : L -> A) (k : A -> M W L B) :
  (forall l, Inv l -> yields Q (k (f l))) -> yields Q (bind (gets f) k).
Proof.
  intros Hk. split.
  - apply emits_gets_bind. intros l Hl. by apply Hk.
  - intros s b Hs. apply (Hk (local s) Hs). exact Hs.
Qed.

Lemma yields_gets {A} (Q : A -> Prop) (f : L -> A) :
  (forall l, Inv l -> Q (f l)) -> yields Q (gets f).
Proof. intros Hf. split; [apply respects_gets, _|]. intros s a Hs [= <-]. auto. Qed.

Lemma yields_modify (f : L -> L) (Q : unit -> Prop) :
  (forall l, Inv l -> Inv (f l)) -> Q tt -> yields Q (modify f).
Proof. intros Hf HQ. split; [by apply emits_modify|]. by intros s [] _ _. Qed.

Lemma yields_trigger {R} (c : call R) (Q : R -> Prop) :
  P R c -> (forall a, fits R c (inr a) -> Q a) -> yields Q (trigger c).
Proof.
  intros Hc HQ. split; [by apply emits_trigger|]. intros s a _. unfold trigger.
  destruct (handle c (world s)) as [w' r] eqn:E. apply answer_fits in E.
  destruct r as [e|a']; intros [= <-]. auto.
Qed.

(** A call whose error is looked at. *)
Lemma yields_try_trigger {R} (c : call R) (Q : error + R -> Prop) :
  P R c -> (forall r, fits R c r -> Q r) -> yields Q (try (trigger c)).
Proof.
  intros Hc HQ. split; [by apply respects_try, emits_trigger|]. intros s a _. unfold try, trigger.
  destruct (handle c (world s)) as [w' r] eqn:E. apply answer_fits in E.
  destruct r as [e|a']; intros [= <-]; auto.
Qed.

Lemma yields_try {A} (Q : A -> Prop) (m : M W L A) :
  yields Q m -> yields (fun r => match r with inl _ => True | inr a => Q a end) (try m).
Proof.
  intros [Hm HQ]. split; [by apply respects_try|]. intros s r Hs. specialize (HQ s). unfold try.
  destruct (m s) as [[a|e|w|] s1]; simpl in *; intros [= <-]; [by apply HQ|done].
Qed.

Lemma yields_wrap {A} p (Q : A -> Prop) (m : M W L A) : yields Q m -> yields Q (wrap p m).
Proof.
  intros Hm. eapply yields_bind; [by apply yields_try|].
  intros [e|a] Ha; [apply yields_fail|by apply yields_ret].
Qed.

Lemma yields_fire c (Q : unit -> Prop) : P unit c -> Q tt -> yields Q (fire c).
Proof. intros Hc HQ. split; [by apply emits_fire|]. by intros s [] _ _. Qed.

Lemma yields_forM_ {A} (l : list A) (f : A -> M W L unit) (I : A -> Prop) :
  Forall I l -> (forall a, I a -> yields (fun _ => True) (f a)) ->
  yields (fun _ => True) (forM_ l f).
Proof.
  intros Hl Hf. induction Hl as [|a l Ha Hl IH]; cbn [forM_]; [by apply yields_ret|].
  eapply yields_bind; [by apply Hf|done].
Qed.

(** Through a client: without one the call panics. *)
Lemma yields_ec2 c {R} (op : ec2op R) (Q : R -> Prop) :
  (forall cfg, P R (EC2 cfg op)) -> (forall cfg a, fits R (EC2 cfg op) (inr a) -> Q a) ->
  yields Q (AWSClient.ec2 c op).
Proof.
  intros HP HQ. destruct c as [cfg|]; simpl; [|apply yields_panic].
  apply yields_trigger; eauto.
Qed.

Lemma yields_try_ec2 c {R} (op : ec2op R) (Q : error + R -> Prop) :
  (forall cfg, P R (EC2 cfg op)) -> (forall cfg r, fits R (EC2 cfg op) r -> Q r) ->
  yields Q (try (AWSClient.ec2 c op)).
Proof.
  intros HP HQ. destruct c as [cfg|]; simpl.
  - apply yields_try_trigger; eauto.
  - split; [apply respects_try, respects_lift, _|]. by intros s a _.
Qed.

Lemma yields_r53 c {R} (op : route53op R) (Q : R -> Prop) :
  (forall cfg, P R (R53 cfg op)) -> (forall cfg a, fits R (R53 cfg op) (inr a) -> Q a) ->
  yields Q (AWSClient.r53 c op).
Proof.
  intros HP HQ. destruct c as [cfg|]; simpl; [|apply yields_panic].
  apply yields_trigger; eauto.
Qed.

(** In a step-by-step proof: what a [yields] computation leaves behind. *)
Lemma wp_yields {A} (Q : A -> Prop) (m : M W L A) (R : outcome A -> Sys W L -> Prop) s :
  yields Q m -> Inv (local s) ->
  (forall o l s', trace s' = trace s ++ l -> Forall (event_sat P) l -> Inv (local s') ->
     (forall a, o = Ok a -> Q a) -> R o s') ->
  wp m R s.
Proof.
  intros [Hm HQ] Hs HR. destruct (Hm s Hs) as (Hi & l & Ht & Hl). unfold wp.
  eapply HR; eauto.
Qed.

End yields.
