(* ===== verification/SteadySpec.v ===== *)
(** * The steady state

    Reconciling is level-triggered: it runs again and again.  When AWS and the
    cluster already are as the object asks for, a pass over it changes nothing in
    them, whatever fails on the way. *)
From S2P Require Import Prelude GoError Naming Types Calls GoMonad AwsClient Lookups.
From S2P Require Import Rules Controller Helpers HostedZones Validation Cleanup Reconcile Sim.
From S2P Require Import AwsSpec Yields.
Import avov1alpha2 Naming Helpers HostedZones Validation Reconcile.

Module SteadySpec.

(** Calls that change AWS, the ExternalName service, or the object itself apart
    from its status. *)
Definition mutates : call_pred := fun R c =>
  match c with
  | EC2 _ op =>
      match op with
      | AuthorizeSecurityGroupEgress _ | AuthorizeSecurityGroupIngress _
      | Calls.CreateSecurityGroup _ | Calls.DeleteSecurityGroup _ | Calls.CreateTags _ _
      | Calls.CreateVpcEndpoint _ | DeleteVpcEndpoints _ | Calls.ModifyVpcEndpoint _
      | Calls.AcceptVpcEndpointConnections _ _ => True
      | _ => False
      end
  | R53 _ op =>
      match op with
      | ChangeResourceRecordSets _ | Calls.ChangeTagsForResource _ | Calls.CreateHostedZone _
      | Calls.CreateVPCAssociationAuthorization _ _ _ | Calls.DeleteHostedZone _
      | Calls.AssociateVPCWithHostedZone _ _ _ _ => True
      | _ => False
      end
  | Kube op =>
      match op with
      | UpdateVpcEndpoint _ | CreateVpcEndpointCR _ | DeleteVpcEndpointCR _
      | CreateService _ | UpdateService _ => True
      | _ => False
      end
  | _ => False
  end.

(** What there is in AWS. *)
Record Actual := mkActual {
  group : ec2Types.SecurityGroup;
  rules : list ec2Types.SecurityGroupRule;
  sources : list string; (* the security groups of the cluster's nodes *)
  vpcCidr : string;
  endpoint : ec2Types.VpcEndpoint;
  discovered : list ec2Types.Subnet;
  azs : list string (* the availability zones of the endpoint service *)
}.

Section steady.
Context `{K8sHelpers}.
(** The object, the operator's switch for private DNS, and what there is. *)
Context (v : VpcEndpoint) (flag : bool) (d : Actual).

(** The zone is one the operator looks up or creates by domain name. *)
Definition own_zone (sp : VpcEndpointSpec) : bool :=
  let phz := r53phz (CustomDns sp) in
  (negb (AutoDiscover phz) && is_empty (Id phz))%bool.

(** A zone with which all the VPCs of the spec are associated. *)
Definition associated (out : route53Types.GetHostedZoneOutput) : Prop :=
  forall ids, sequence (route53Types.VPCs out) = Some ids ->
    Forall (fun av => av_VpcId av ∈ ids) (AssociatedVpcs (r53phz (CustomDns (Spec v)))).

(** The answers show [d]; a call may fail for any reason but the absence of what
    exists. *)
Definition shows : answers := fun R c =>
  match c in call R return error + R -> Prop with
  | EC2 _ op =>
      match op in ec2op R return error + R -> Prop with
      | DescribeSecurityGroups _ ids => fun r =>
          match r, ids with
          | inr sgs, [] => ec2Types.sg_GroupId <$> sgs = Some <$> sources d
          | inr sgs, _ => sgs = [group d]
          | inl e, _ => has_code "InvalidGroup.NotFound" e = false
          end
      | Calls.DescribeSecurityGroupRules _ => fun r => forall rs, r = inr rs -> rs = rules d
      | DescribeVpcs _ _ => fun r =>
          forall vpcs vpc, r = inr vpcs -> vpc ∈ vpcs -> ec2Types.CidrBlock vpc = Some (vpcCidr d)
      | DescribeVpcEndpoints _ _ => fun r =>
          match r with
          | inr vs => vs = [endpoint d]
          | inl e => has_code "InvalidVpcEndpointId.NotFound" e = false
          end
      | DescribeSubnets _ _ => fun r => forall sns, r = inr sns -> sns = discovered d
      | DescribeVpcEndpointServices _ => fun r => forall l, r = inr l -> l = [azs d]
      | _ => fun _ => True
      end
  | R53 _ op =>
      match op in route53op R return error + R -> Prop with
      | Calls.GetHostedZone _ => fun r => forall out, r = inr out -> associated out
      | _ => fun _ => True
      end
  | Kube op =>
      match op in kubeop R return error + R -> Prop with
      | GetVpcEndpoint _ _ => fun r => forall v', r = inr v' -> v' = v
      | GetInfrastructure _ => fun r => forall i, r = inr i ->
          hostedControlPlaneRef v = None -> configv1.InfrastructureName i = InfraId (status v)
      | ListHostedControlPlanes _ => fun r => forall hcps, r = inr hcps ->
          hostedControlPlaneRef v <> None ->
          Forall (fun hcp => hyperv1beta1.InfraID hcp = InfraId (status v)) hcps
      | GetService _ _ => fun r =>
          match r with
          | inr svc => corev1.ExternalName svc = ResourceRecordSet (status v)
          | inl e => IsNotFound e = false
          end
      | SetControllerReference _ _ svc => fun r =>
          forall svc', r = inr svc' -> corev1.ExternalName svc' = corev1.ExternalName svc
      | _ => fun _ => True
      end
  | RangeOrder => fun r => forall o, r = inr o -> valid_order o
  | _ => fun _ => True
  end.

(** The CIDR that the rules use. *)
Definition rule_cidr : string := if UseVpcCidr (SecurityGroup_ (Spec v)) then vpcCidr d else "".

Definition rules_covered (isEgress : bool) (avoRules : list SecurityGroupRule) : Prop :=
  Forall (RulesSpec.covered isEgress (rules d))
    (RulesSpec.desired (UseVpcCidr (SecurityGroup_ (Spec v))) rule_cidr (sources d) avoRules).

(** [d] is what the object asks for, and its status records it. *)
Record settled : Prop := {
  not_deleted : isDeleting v = false;
  finalizer_set : ContainsFinalizer (metav1.Finalizers (meta v)) avoFinalizer = true;
  conditions_true : Forall (fun t => IsStatusConditionTrue (Conditions (status v)) t = true)
    [AWSVpcEndpointCondition; AWSRoute53RecordCondition; AWSRoute53TagsCondition];
  vpc_id : VPCId (status v) <> "";
  group_recorded : ec2Types.sg_GroupId (group d) = Some (SecurityGroupId (status v));
  group_id : SecurityGroupId (status v) <> "";
  group_tags_wf : Forall AwsSpec.tag_wf (ec2Types.sg_Tags (group d));
  group_tagged name tag m :
    GenerateSecurityGroupName (InfraId (status v)) (metav1.Name (meta v)) = Ok name ->
    GetClusterLegacyTagKey (InfraId (status v)) = Ok tag ->
    GenerateAwsTagsAsMap name tag = Ok m ->
    forall k x, m !! k = Some x -> mkAwsTag (Some k) (Some x) ∈ ec2Types.sg_Tags (group d);
  rules_wf : Forall RulesSpec.rule_wf (rules d);
  ingress_covered : rules_covered false (IngressRules (SecurityGroup_ (Spec v)));
  egress_covered : rules_covered true (EgressRules (SecurityGroup_ (Spec v)));
  endpoint_recorded : ec2Types.VpcEndpointId (endpoint d) = Some (VPCEndpointId (status v));
  endpoint_id : VPCEndpointId (status v) <> "";
  endpoint_available : ec2Types.State (endpoint d) = "available";
  endpoint_groups gs :
    sequence (ec2Types.Groups (endpoint d)) = Some gs ->
    forall k, k ∈ gs <-> k = SecurityGroupId (status v);
  endpoint_subnets ids :
    (if AutoDiscoverSubnets (Vpc_ (Spec v))
     then selectSubnets (VPCId (status v)) (azs d) (discovered d) = Ok ids
     else ids = SubnetIds (Vpc_ (Spec v))) ->
    forall k, k ∈ ec2Types.SubnetIds (endpoint d) <-> k ∈ ids;
  endpoint_private_dns :
    (flag && EnablePrivateDns (Spec v))%bool = true ->
    ec2Types.PrivateDnsEnabled (endpoint d) = Some true;
  zone_recorded : own_zone (Spec v) = true -> HostedZoneId (status v) <> ""
}.

Definition is_true_in (m : Mem) (t : string) : Prop :=
  IsStatusConditionTrue (Conditions (status (resource m))) t = true.

(** Cached zones are as the answers are. *)
Definition cache_associated (m : Mem) : Prop :=
  forall id entry, default ∅ (hostedZoneCache (reconciler m)) !! id = Some entry ->
    associated (response entry).

(** The memory during a pass, before and after the cluster's tag is known: the
    object as it was, with its conditions true. *)
Record steady (parsed : bool) (m : Mem) : Prop := {
  st_finalizer : metav1.Finalizers (meta (resource m)) = metav1.Finalizers (meta v);
  st_alive : metav1.DeletionTimestamp (meta (resource m)) = metav1.DeletionTimestamp (meta v);
  st_spec : Spec (resource m) = Spec v;
  st_name : metav1.Name (meta (resource m)) = metav1.Name (meta v);
  st_infra : InfraId (status (resource m)) = InfraId (status v);
  st_group : SecurityGroupId (status (resource m)) = SecurityGroupId (status v);
  st_vpc : VPCId (status (resource m)) = VPCId (status v);
  st_endpoint : VPCEndpointId (status (resource m)) = VPCEndpointId (status v);
  st_record : ResourceRecordSet (status (resource m)) = ResourceRecordSet (status v);
  st_zone : own_zone (Spec v) = true ->
    HostedZoneId (status (resource m)) = HostedZoneId (status v);
  st_conditions : Forall (is_true_in m)
    [AWSVpcEndpointCondition; AWSRoute53RecordCondition; AWSRoute53TagsCondition];
  st_ci : parsed = true -> exists ci, clusterInfo_ (reconciler m) = Some ci /\
    GetClusterLegacyTagKey (InfraId (status v)) = Ok (clusterTag ci);
  st_flag : EnablePrivateDns_flag (reconciler m) = flag;
  st_cache : cache_associated m
}.

End steady.

Section proofs.
Context {W : Type} `{World W} `{K8sHelpersLaws}.
Context (v : VpcEndpoint) (flag : bool) (d : Actual).
Context `{!Fits (shows v d)} (Hd : settled v flag d).

Abbreviation Y := (yields (W:=W) (no mutates) (steady v flag true)).
Abbreviation any := (fun _ => True).

(** ** What keeps the memory steady *)

Lemma no_mutates {R} (c : call R) : (mutates R c -> False) -> no mutates R c.
Proof. done. Qed.

Ltac harmless := first [exact (fun Hno : False => Hno) | intros ?; exact (fun Hno : False => Hno)].

Lemma statusUpdate_yields b : yields (W:=W) (no mutates) (steady v flag b) any statusUpdate.
Proof.
  unfold statusUpdate, res. apply yields_gets_bind. intros m Hm.
  eapply yields_bind; [apply (yields_trigger (shows v d) _ _ _ any); [harmless|done]|].
  intros rv _. apply yields_modify; [|done]. intros m' []. by constructor.
Qed.

Lemma setCondition_yields c :
  metav1.Status c = metav1.ConditionTrue \/ metav1.Type_ c = ExternalNameServiceCondition ->
  Y any (setCondition c).
Proof.
  intros Hc. apply yields_modify; [|done]. intros m []. constructor; try done.
  apply Forall_forall. intros t Ht. unfold is_true_in. cbn.
  assert (Hold : is_true_in m t) by (by eapply Forall_forall in st_conditions0).
  destruct (decide (t = metav1.Type_ c)) as [->|Hne].
  - rewrite condition_true_set. destruct Hc as [->|Hc]; [done|]. rewrite Hc in Ht.
    by repeat (apply elem_of_cons in Ht as [[=]|Ht]); apply elem_of_nil in Ht.
  - unfold is_true_in in Hold. rewrite <- Hold. apply eq_true_iff_eq. rewrite !condition_true_iff.
    by rewrite (condition_set_other _ _ t).
Qed.

Lemma condition_holds m t :
  steady v flag true m ->
  t ∈ [AWSVpcEndpointCondition; AWSRoute53RecordCondition; AWSRoute53TagsCondition] ->
  IsStatusConditionTrue (Conditions (status (resource m))) t = true.
Proof.
  intros Hm Ht. pose proof (st_conditions _ _ _ _ Hm) as Hc. by eapply Forall_forall in Hc.
Qed.

(** ** Security group *)

Lemma foundSecurityGroup_yields : Y (fun sg => sg = group d) (foundSecurityGroup (group d)).
Proof.
  unfold foundSecurityGroup. rewrite (group_recorded _ _ _ Hd). cbn [deref].
  eapply (yields_bind _ _ (fun id => id = SecurityGroupId (status v)));
    [by apply yields_lift; intros ? [= <-]|intros id ->].
  eapply (yields_bind _ _ any); [|intros _ _].
  { apply yields_modify; [|done]. intros m []. by constructor. }
  eapply yields_bind; [apply yields_try, statusUpdate_yields|].
  intros [e|[]] _; [apply yields_fail|by apply yields_ret].
Qed.

Lemma findOrCreateSecurityGroup_yields :
  Y (fun sg => sg = group d) findOrCreateSecurityGroup.
Proof.
  unfold findOrCreateSecurityGroup, client, res. apply yields_gets_bind. intros m _.
  apply yields_gets_bind. intros m' Hm'. rewrite (st_group _ _ _ _ Hm').
  eapply (yields_bind _ _ (fun resp => resp = Some [group d])).
  - unfold AWSClient.FilterSecurityGroupById.
    rewrite (proj2 (is_empty_false _) (group_id _ _ _ Hd)).
    eapply yields_bind; [apply (yields_try_ec2 (shows v d))|].
    + intros cfg. harmless.
    + intros cfg r Hr. exact Hr.
    + intros [e|sgs] Hr; cbn in Hr.
      * rewrite Hr. apply yields_fail.
      * subst sgs. by apply yields_ret.
  - intros resp ->. cbn. apply foundSecurityGroup_yields.
Qed.

Lemma tagsContains_true order tags (wanted : gmap string string) :
  valid_order order -> Forall AwsSpec.tag_wf tags ->
  (forall k x, wanted !! k = Some x -> mkAwsTag (Some k) (Some x) ∈ tags) ->
  tagsContains order tags wanted = Ok true.
Proof.
  intros Ho Hwf Hall. unfold tagsContains. rewrite AwsSpec.hasTags_spec by done.
  rewrite bool_decide_eq_true_2; [done|]. apply Forall_fmap, Forall_forall. simpl.
  intros k Hk%(valid_order_elem _ _ _ Ho). simpl. apply elem_of_dom in Hk as [x Hx].
  rewrite Hx. by apply Hall.
Qed.

(** A read of [clusterInfo], which is there. *)
Lemma get_clusterInfo_yields :
  Y (fun ci => GetClusterLegacyTagKey (InfraId (status v)) = Ok (clusterTag ci)) get_clusterInfo.
Proof.
  unfold get_clusterInfo. apply yields_gets_bind. intros m Hm.
  destruct (st_ci _ _ _ _ Hm eq_refl) as (ci & -> & Hci). by apply yields_lift; intros ? [= <-].
Qed.

Lemma tags_yields : Y any (createMissingSecurityGroupTags (group d)).
Proof.
  unfold createMissingSecurityGroupTags, res. apply yields_gets_bind. intros m Hm.
  rewrite (st_infra _ _ _ _ Hm), (st_name _ _ _ _ Hm).
  eapply yields_bind; [apply get_clusterInfo_yields|intros ci Hci].
  eapply (yields_bind _ _ (fun name =>
    GenerateSecurityGroupName (InfraId (status v)) (metav1.Name (meta v)) = Ok name)).
  { apply yields_wrap, yields_lift. auto. }
  intros name Hname. eapply (yields_bind _ _ (fun tags =>
    GenerateAwsTagsAsMap name (clusterTag ci) = Ok tags)); [by apply yields_lift|].
  intros tags Htags. eapply yields_bind; [apply (yields_trigger (shows v d)); [harmless|]|].
  { intros o Ho. exact (Ho o eq_refl). }
  pose proof (group_tagged _ _ _ Hd name _ tags Hname Hci Htags) as Htagged.
  intros order Ho. rewrite tagsContains_true; [|exact Ho|by apply Hd|exact Htagged].
  eapply (yields_bind _ _ (fun b => b = true)); [by apply yields_lift; intros ? [= <-]|].
  intros b ->. by apply yields_ret.
Qed.

Lemma nothing_missing isEgress avoRules :
  rules_covered v d isEgress avoRules ->
  Rules.missingPermissions isEgress (UseVpcCidr (SecurityGroup_ (Spec v))) (rule_cidr v d)
    (Some <$> sources d) (rules d) avoRules = Ok [].
Proof.
  intros Hall. rewrite RulesSpec.missingPermissions_spec by apply Hd. f_equal.
  unfold RulesSpec.missing. rewrite filter_none; [done|].
  intros t Ht Hn. apply Hn. unfold rules_covered in Hall. by eapply Forall_forall in Hall.
Qed.

Lemma vpcCidrForRules_yields m :
  steady v flag true m -> Y (fun cidr => cidr = rule_cidr v d) (vpcCidrForRules (resource m)).
Proof.
  intros Hm. unfold vpcCidrForRules, rule_cidr, client. rewrite (st_spec _ _ _ _ Hm).
  destruct (UseVpcCidr _); [|by apply yields_ret]. case_match; [apply yields_fail|].
  apply yields_gets_bind. intros m' _. apply yields_wrap. unfold AWSClient.GetVpcCidrBlock.
  case_match; [apply yields_fail|]. eapply yields_bind; [apply yields_wrap, (yields_ec2 (shows v d))|].
  - intros cfg. harmless.
  - intros cfg vpcs Hvpcs. exact (fun vpc => Hvpcs vpcs vpc eq_refl).
  - intros [|vpc vpcs] Hvpcs; [apply yields_fail|]. rewrite (Hvpcs vpc) by by left.
    by apply yields_ret.
Qed.

Lemma generateMissing_yields :
  Y (fun inputs => ec2Types.IpPermissions (fst inputs) = [] /\
                   ec2Types.IpPermissions (snd inputs) = [])
    (generateMissingSecurityGroupRules (Some (group d)) resource_ptr_).
Proof.
  unfold generateMissingSecurityGroupRules, client, res. apply yields_gets_bind. intros m0 _.
  apply yields_gets_bind. intros m Hm.
  eapply (yields_bind _ _ any); [by apply yields_lift|intros groupId _].
  eapply (yields_bind _ _ (fun rs => rs = rules d)); [|intros ? ->].
  { apply (yields_ec2 (shows v d)); [intros cfg; harmless|]. intros cfg rs Hrs. by apply Hrs. }
  eapply (yields_bind _ _ (fun sgs => ec2Types.sg_GroupId <$> sgs = Some <$> sources d)).
  { unfold AWSClient.FilterClusterNodeSecurityGroupsByDefaultTags.
    eapply (yields_bind _ _ any); [by apply yields_lift|intros k _].
    eapply (yields_bind _ _ any); [by apply yields_lift|intros k' _].
    apply (yields_ec2 (shows v d)); [intros cfg; harmless|]. intros cfg sgs Hsgs. exact Hsgs. }
  intros sgs Hsgs. cbv zeta. rewrite Hsgs.
  eapply yields_bind; [by apply vpcCidrForRules_yields|intros ? ->].
  rewrite (st_spec _ _ _ _ Hm). unfold Rules.missingIngress, Rules.missingEgress.
  rewrite nothing_missing by apply Hd.
  eapply (yields_bind _ _ (fun ps => ps = [])); [by apply yields_lift; intros ? [= <-]|intros ? ->].
  rewrite nothing_missing by apply Hd.
  eapply (yields_bind _ _ (fun ps => ps = [])); [by apply yields_lift; intros ? [= <-]|intros ? ->].
  eapply yields_bind; [apply get_clusterInfo_yields|intros ci _]. by apply yields_ret.
Qed.

Lemma observeReady_yields t f : Y any (observeReady t f).
Proof. apply yields_any. go_respects. Qed.

Lemma validateSecurityGroup_yields : Y any (validateSecurityGroup resource_ptr_).
Proof.
  unfold validateSecurityGroup. cbn [is_nil].
  eapply yields_bind; [apply findOrCreateSecurityGroup_yields|intros ? ->].
  eapply yields_bind; [apply tags_yields|intros _ _].
  eapply yields_bind; [apply generateMissing_yields|intros [ing eg] [Hing Heg]].
  cbn in Hing, Heg. unfold client. apply yields_gets_bind. intros m _.
  eapply (yields_bind _ _ any); [|intros _ _].
  { apply yields_any. unfold AWSClient.AuthorizeSecurityGroupRules. cbn [fst snd].
    rewrite Hing, Heg. go_respects. }
  eapply yields_bind; [apply observeReady_yields|intros _ _].
  eapply yields_bind; [by apply setCondition_yields; left|intros _ _]. apply statusUpdate_yields.
Qed.

(** ** Endpoint *)

Lemma findOrCreateVpcEndpoint_yields :
  Y (fun vpce => vpce = endpoint d) findOrCreateVpcEndpoint.
Proof.
  unfold findOrCreateVpcEndpoint, client, res. apply yields_gets_bind. intros m0 _.
  apply yields_gets_bind. intros m Hm. rewrite (st_endpoint _ _ _ _ Hm).
  eapply (yields_bind _ _ (fun resp => resp = Some [endpoint d])).
  { unfold AWSClient.DescribeSingleVPCEndpointById.
    rewrite (proj2 (is_empty_false _) (endpoint_id _ _ _ Hd)).
    eapply yields_bind; [apply (yields_try_ec2 (shows v d)); [intros cfg; harmless|]|].
    - intros cfg r Hr. exact Hr.
    - intros [e|vs] Hr; cbn in Hr; [rewrite Hr; apply yields_fail|].
      subst vs. by apply yields_ret. }
  intros resp ->. cbn [default from_option id].
  eapply (yields_bind _ _ (fun vpce => vpce = endpoint d)); [by apply yields_ret|intros ? ->].
  rewrite (endpoint_recorded _ _ _ Hd). cbn [deref].
  eapply (yields_bind _ _ (fun id => id = VPCEndpointId (status v)));
    [by apply yields_lift; intros ? [= <-]|intros ? ->].
  eapply (yields_bind _ _ any); [|intros _ _].
  { apply yields_modify; [|done]. intros m' []. by constructor. }
  eapply yields_bind; [apply yields_wrap, statusUpdate_yields|intros _ _]. by apply yields_ret.
Qed.

Lemma no_elements (l : list string) : (forall k, k ∉ l) -> l = [].
Proof. destruct l as [|k l]; [done|]. intros Hl. destruct (Hl k). by left. Qed.

Lemma twoWayDiff_yields current expected :
  (forall k, k ∈ current <-> k ∈ expected) ->
  Y (fun diff => diff = ([], [])) (twoWayDiff current expected).
Proof.
  intros Hsame. unfold twoWayDiff.
  eapply yields_bind; [apply (yields_trigger (shows v d)); [harmless|]|].
  { intros o Ho. exact (Ho o eq_refl). }
  intros o1 Ho1. eapply yields_bind; [apply (yields_trigger (shows v d)); [harmless|]|].
  { intros o Ho. exact (Ho o eq_refl). }
  intros o2 Ho2. apply yields_ret.
  destruct (StringSliceTwoWayDiff o1 o2 current expected) as [add rem] eqn:E.
  destruct (StringSliceTwoWayDiff_elem _ _ _ _ _ _ Ho1 Ho2 E) as [Hadd Hrem].
  f_equal; apply no_elements; intros k; [rewrite Hadd|rewrite Hrem]; rewrite Hsame; tauto.
Qed.

Lemma describeSubnets_yields c tags :
  Y (fun sns => sns = discovered d) (AWSClient.DescribeSubnetsByTags c tags).
Proof.
  apply (yields_ec2 (shows v d)); [intros cfg; harmless|]. intros cfg sns Hsns. by apply Hsns.
Qed.

Lemma autodiscover_yields c tag tags :
  Y (fun sns => sns = discovered d) (AWSClient.AutodiscoverPrivateSubnets c tag tags).
Proof.
  unfold AWSClient.AutodiscoverPrivateSubnets.
  eapply yields_bind; [apply describeSubnets_yields|intros ? Hsns].
  case_match; [|by apply yields_ret].
  eapply yields_bind; [apply describeSubnets_yields|intros ? Hsns'].
  case_match; [apply yields_fail|by apply yields_ret].
Qed.

Lemma expectedSubnets_yields m :
  steady v flag true m ->
  Y (fun ids => forall k, k ∈ ec2Types.SubnetIds (endpoint d) <-> k ∈ ids)
    (expectedSubnets (resource m)).
Proof.
  intros Hm. unfold expectedSubnets. rewrite (st_spec _ _ _ _ Hm), (st_vpc _ _ _ _ Hm).
  destruct (AutoDiscoverSubnets (Vpc_ (Spec v))) eqn:Hauto.
  2:{ apply yields_ret. apply (endpoint_subnets _ _ _ Hd). by rewrite Hauto. }
  eapply (yields_bind _ _ (fun sns => sns = discovered d)).
  { unfold discoverSubnets, client. apply yields_gets_bind. intros m1 _.
    case_match; [case_match|]; try apply autodiscover_yields.
    apply yields_gets_bind. intros m2 _. repeat case_match; try apply yields_fail.
    apply autodiscover_yields. }
  intros ? ->. apply yields_gets_bind. intros m3 _.
  eapply (yields_bind _ _ (fun l => l = azs d)).
  { unfold AWSClient.GetVpcEndpointServiceAZs. case_match; [apply yields_fail|].
    eapply (yields_bind _ _ (fun l => l = [azs d])); [apply (yields_ec2 (shows v d))|].
    - intros cfg. harmless.
    - intros cfg l Hl. by apply Hl.
    - intros ? ->. by apply yields_ret. }
  intros ? ->. apply yields_lift. intros ids Hids. apply (endpoint_subnets _ _ _ Hd).
  by rewrite Hauto.
Qed.

Lemma subnets_yields : Y any (ensureVpcEndpointSubnets (endpoint d)).
Proof.
  unfold ensureVpcEndpointSubnets, res, client. apply yields_gets_bind. intros m Hm.
  apply yields_gets_bind. intros m' _.
  eapply yields_bind; [by apply expectedSubnets_yields|intros ids Hids].
  eapply yields_bind; [by apply twoWayDiff_yields|intros ? ->]. cbn.
  eapply (yields_bind _ _ any); [by apply yields_ret|intros _ _; by apply yields_ret].
Qed.

Lemma groups_yields : Y any (ensureVpcEndpointSecurityGroups (endpoint d)).
Proof.
  unfold ensureVpcEndpointSecurityGroups, diffVpcEndpointSecurityGroups, res_status, client.
  eapply (yields_bind _ _ (fun diff => diff = ([], []))).
  - eapply (yields_bind _ _ (fun gs => forall k, k ∈ gs <-> k = SecurityGroupId (status v))).
    { apply yields_lift. intros gs Hgs. apply (endpoint_groups _ _ _ Hd).
      destruct (sequence _); [by injection Hgs as ->|done]. }
    intros gs Hgs. apply yields_gets_bind. intros m Hm. rewrite (st_group _ _ _ _ Hm).
    apply twoWayDiff_yields. intros k. by rewrite Hgs, list_elem_of_singleton.
  - intros ? ->. apply yields_gets_bind. intros m _.
    eapply (yields_bind _ _ any); [by apply yields_ret|intros _ _; by apply yields_ret].
Qed.

Lemma privateDns_yields : Y any (enablePrivateDns (endpoint d)).
Proof.
  unfold enablePrivateDns, res. apply yields_gets_bind. intros m Hm.
  apply yields_gets_bind. intros m' Hm'. rewrite (st_flag _ _ _ _ Hm'), (st_spec _ _ _ _ Hm).
  pose proof (endpoint_private_dns _ _ _ Hd) as Hdns.
  destruct (flag && EnablePrivateDns (Spec v))%bool eqn:E; [|by apply yields_ret].
  rewrite Hdns by done. by apply yields_ret.
Qed.

Lemma validateVPCEndpoint_yields : Y any (validateVPCEndpoint resource_ptr_).
Proof.
  unfold validateVPCEndpoint. cbn [is_nil].
  eapply yields_bind; [apply findOrCreateVpcEndpoint_yields|intros ? ->].
  eapply (yields_bind _ _ any); [|intros _ _].
  { unfold recordChangedId, res_status. apply yields_gets_bind. intros m Hm.
    rewrite (endpoint_recorded _ _ _ Hd), (st_endpoint _ _ _ _ Hm). cbn [deref].
    eapply (yields_bind _ _ (fun id => id = VPCEndpointId (status v)));
      [by apply yields_lift; intros ? [= <-]|intros ? ->].
    rewrite String.eqb_refl. by apply yields_ret. }
  unfold reconcileEndpointState. rewrite (endpoint_available _ _ _ Hd). cbn.
  eapply (yields_bind _ _ any); [apply yields_any; go_respects|intros _ _].
  eapply yields_bind; [apply privateDns_yields|intros _ _]. unfold endpointReady.
  eapply yields_bind; [apply yields_wrap, subnets_yields|intros _ _].
  eapply yields_bind; [apply yields_wrap, groups_yields|intros _ _].
  eapply yields_bind; [apply observeReady_yields|intros _ _].
  eapply yields_bind; [by apply setCondition_yields; left|intros _ _]. apply statusUpdate_yields.
Qed.

(** ** Hosted zone *)

Lemma set_cache_yields cache :
  (forall id entry, cache !! id = Some entry -> associated v (response entry)) ->
  Y any (set_cache cache).
Proof. intros Hc. apply yields_modify; [|done]. intros m []. by constructor. Qed.

Lemma cacheLookup_yields zid :
  Y (fun r => forall out, r = Some out -> associated v out) (cacheLookup zid).
Proof.
  unfold cacheLookup, get_cache. apply yields_gets_bind. intros m Hm.
  pose proof (st_cache _ _ _ _ Hm) as Hc.
  eapply yields_bind; [by apply set_cache_yields|intros _ _].
  destruct (default ∅ (hostedZoneCache (reconciler m)) !! zid) as [entry|] eqn:E;
    [|by apply yields_ret].
  eapply (yields_bind _ _ any); [apply yields_any; go_respects|intros age _].
  case_match; [by apply yields_ret; intros ? [= <-]; eapply Hc|].
  eapply yields_bind; [|intros _ _; by apply yields_ret].
  apply set_cache_yields. intros id entry'. rewrite lookup_delete_Some. intros [_ ?].
  by eapply Hc.
Qed.

Lemma getHostedZoneCached_yields zid : Y (associated v) (getHostedZoneCached zid).
Proof.
  unfold getHostedZoneCached. eapply yields_bind; [apply cacheLookup_yields|].
  intros [out|] Hout; [by apply yields_ret, Hout|]. unfold client. apply yields_gets_bind.
  intros m0 _. eapply (yields_bind _ _ (associated v)).
  { apply (yields_r53 (shows v d)); [intros cfg; harmless|]. intros cfg out' Ha. by apply Ha. }
  intros resp Hresp. eapply (yields_bind _ _ any); [apply yields_any; go_respects|intros now _].
  unfold get_cache. apply yields_gets_bind. intros m Hm.
  eapply yields_bind; [|intros _ _; by apply yields_ret]. apply set_cache_yields.
  intros id entry. rewrite lookup_insert_Some. intros [[_ <-]|[_ He]]; [done|].
  by eapply (st_cache _ _ _ _ Hm).
Qed.

Lemma updateHostedZoneId_yields zid :
  own_zone (Spec v) = false -> Y any (updateHostedZoneId zid).
Proof.
  intros Hown. unfold updateHostedZoneId, res_status. apply yields_gets_bind. intros m _.
  case_match; [|by apply yields_ret]. eapply (yields_bind _ _ any); [|intros _ _].
  { apply yields_modify; [|done]. intros m' []. constructor; try done.
    by rewrite Hown. }
  apply statusUpdate_yields.
Qed.

Lemma validateZone_yields : Y any (validateR53PrivateHostedZone resource_ptr_).
Proof.
  unfold validateR53PrivateHostedZone, res. cbn [is_nil]. apply yields_gets_bind. intros m Hm.
  unfold phz_spec. rewrite (st_spec _ _ _ _ Hm).
  destruct (AutoDiscover (r53phz (CustomDns (Spec v)))) eqn:Hauto.
  { eapply (yields_bind _ _ any); [apply yields_any; go_respects|intros domain _].
    unfold client. apply yields_gets_bind. intros m' _.
    eapply yields_bind; [apply get_clusterInfo_yields|intros ci _].
    eapply (yields_bind _ _ any); [apply yields_any; go_respects|intros hz _].
    eapply (yields_bind _ _ any); [by apply yields_lift|intros zid _].
    apply updateHostedZoneId_yields. unfold own_zone. by rewrite Hauto. }
  destruct (is_empty (Id (r53phz (CustomDns (Spec v))))) eqn:Hid; cbn [negb].
  2:{ eapply yields_bind; [apply getHostedZoneCached_yields|intros resp _].
      eapply (yields_bind _ _ any); [by apply yields_lift|intros zone _].
      eapply (yields_bind _ _ any); [by apply yields_lift|intros zid _].
      apply updateHostedZoneId_yields. unfold own_zone. by rewrite Hauto, Hid. }
  destruct (_ || _)%bool; [|by apply yields_ret].
  assert (Hown : own_zone (Spec v) = true) by (unfold own_zone; by rewrite Hauto, Hid).
  eapply (yields_bind _ _ any).
  - unfold findOrCreatePrivateHostedZone, res_status. cbn [is_nil]. apply yields_gets_bind.
    intros m' Hm'. rewrite (st_zone _ _ _ _ Hm' Hown).
    rewrite (proj2 (is_empty_false _) (zone_recorded _ _ _ Hd Hown)). cbn [negb].
    eapply yields_bind; [apply getHostedZoneCached_yields|intros resp _].
    eapply (yields_bind _ _ any); [by apply yields_lift|intros zone _].
    eapply (yields_bind _ _ any); [by apply yields_lift|intros zid _].
    destruct (String.eqb _ _); [by apply yields_ret|apply yields_fail].
  - intros _ _. unfold conditionTrue. apply yields_gets_bind. intros m' Hm'.
    rewrite (condition_holds m' AWSRoute53TagsCondition) by (done || set_solver).
    by apply yields_ret.
Qed.

Lemma validateRecord_yields : Y any (validateR53HostedZoneRecord resource_ptr_).
Proof.
  unfold validateR53HostedZoneRecord, conditionTrue. cbn [is_nil].
  apply yields_gets_bind. intros m Hm. apply yields_gets_bind. intros m' Hm'.
  rewrite (condition_holds m AWSRoute53RecordCondition),
    (condition_holds m' AWSVpcEndpointCondition) by (done || set_solver).
  by apply yields_ret.
Qed.

Lemma validateAuthorization_yields : Y any (validateR53HostedZoneAuthorization resource_ptr_).
Proof.
  unfold validateR53HostedZoneAuthorization, res. cbn [is_nil]. apply yields_gets_bind.
  intros m Hm. unfold phz_spec. rewrite (st_spec _ _ _ _ Hm).
  destruct (AssociatedVpcs _) as [|vpc vpcs] eqn:Hvpcs; [by apply yields_ret|].
  case_match; [apply yields_fail|].
  eapply yields_bind; [apply getHostedZoneCached_yields|intros resp Hresp].
  eapply (yields_bind _ _ (fun ids => Forall (fun av => av_VpcId av ∈ ids) (vpc :: vpcs))).
  { apply yields_lift. intros ids Hids. rewrite <- Hvpcs. apply Hresp.
    destruct (sequence _); [by injection Hids as ->|done]. }
  intros ids Hall. eapply yields_forM_; [exact Hall|]. intros av Hav. unfold associateVpc.
  rewrite bool_decide_eq_true_2 by set_solver. by apply yields_ret.
Qed.

(** ** ExternalName service *)

Lemma externalName_yields c (next : M W Mem unit) :
  metav1.Type_ c = ExternalNameServiceCondition ->
  Y any next -> Y any (bind (setCondition c) (fun _ => bind statusUpdate (fun _ => next))).
Proof.
  intros Hc Hnext. eapply yields_bind; [by apply setCondition_yields; right|intros _ _].
  by eapply yields_bind; [apply statusUpdate_yields|intros _ _].
Qed.

Lemma validateService_yields : Y any (validateExternalNameService resource_ptr_).
Proof.
  unfold validateExternalNameService, res. cbn [is_nil]. apply yields_gets_bind. intros m Hm.
  case_match; [by apply yields_ret|].
  eapply (yields_bind _ _ (fun svc => corev1.ExternalName svc = ResourceRecordSet (status v))).
  { unfold generateExternalNameService, res. apply yields_gets_bind. intros m' Hm'.
    case_match; [apply yields_fail|]. apply (yields_trigger (shows v d)); [harmless|].
    intros svc Hsvc. cbn in Hsvc. rewrite (Hsvc svc eq_refl). cbn.
    apply (st_record _ _ _ _ Hm'). }
  intros expected Hexp.
  eapply yields_bind; [apply (yields_try_trigger (shows v d)); [harmless|]|].
  { intros r Hr. exact Hr. }
  intros [e|svc] Hr; cbn in Hr.
  - rewrite Hr. apply externalName_yields; [done|apply yields_fail].
  - rewrite Hr, Hexp, String.eqb_refl. by apply yields_ret.
Qed.

Lemma validateResources_yields validations :
  Forall (fun f => Y any (f resource_ptr_)) validations ->
  Y any (validateResources resource_ptr_ validations).
Proof. intros Hall. by eapply yields_forM_. Qed.

Lemma validateCustomDns_yields : Y any (validateCustomDns resource_ptr_).
Proof.
  unfold validateCustomDns, res. apply yields_gets_bind. intros m _. apply yields_gets_bind.
  intros m' _. case_match; [by apply yields_ret|].
  apply validateResources_yields. repeat apply Forall_cons_2; [..|apply Forall_nil_2].
  - apply validateZone_yields.
  - apply validateRecord_yields.
  - apply validateAuthorization_yields.
  - apply validateService_yields.
Qed.

Lemma reconcileNormal_yields : Y any (reconcileNormal resource_ptr_).
Proof.
  unfold reconcileNormal. eapply yields_bind; [apply yields_try|].
  - apply validateResources_yields. repeat apply Forall_cons_2; [..|apply Forall_nil_2].
    + apply validateSecurityGroup_yields.
    + apply validateVPCEndpoint_yields.
    + apply validateCustomDns_yields.
  - intros r _. apply yields_any. destruct r; go_respects.
Qed.

(** ** Cluster information *)

Abbreviation Y0 := (yields (W:=W) (no mutates) (steady v flag false)).

#[local] Hint Extern 1 (steady _ _ _ _ -> steady _ _ _ _) =>
  (let Hm := fresh in intros Hm; destruct Hm; by constructor) : respects.
#[local] Hint Extern 1 (forall m, steady _ _ _ m -> steady _ _ _ _) =>
  (let Hm := fresh in intros ? Hm; destruct Hm; by constructor) : respects.

Lemma recordInfraId_yields (m : M W Mem string) :
  Y0 (fun x => x = InfraId (status v)) m -> Y0 any (recordInfraId m).
Proof.
  intros Hm. unfold recordInfraId. eapply yields_bind; [by apply yields_try|].
  intros [e|x] Hx.
  - apply yields_any. go_respects.
  - subst x. eapply (yields_bind _ _ any); [|intros _ _].
    { apply yields_modify; [|done]. intros m' []. by constructor. }
    apply yields_wrap, statusUpdate_yields.
Qed.

Lemma infraId_yields m :
  steady v flag false m ->
  Y0 any
    (match hostedControlPlaneRef (resource m) with
     | Some _ => recordInfraId (Lookups.GetInfraId (metav1.Namespace (meta (resource m))))
     | None => recordInfraId Lookups.GetInfrastructureName
     end).
Proof.
  intros Hm. assert (Href : hostedControlPlaneRef (resource m) = hostedControlPlaneRef v).
  { unfold hostedControlPlaneRef, phz_spec. by rewrite (st_spec _ _ _ _ Hm). }
  rewrite Href. clear Href.
  destruct (hostedControlPlaneRef v) as [ref|] eqn:Href; apply recordInfraId_yields.
  - eapply yields_bind; [apply (yields_trigger (shows v d)); [harmless|]|].
    { intros hcps Hh. exact (Hh hcps eq_refl). }
    intros hcps Hh. cbn in Hh. assert (Hall := Hh ltac:(by rewrite Href)).
    destruct Hall as [|hcp hcps Hcp []]; try apply yields_fail.
    case_match; [apply yields_fail|]. by apply yields_ret.
  - unfold Lookups.GetInfrastructureName, Lookups.getInfrastructure.
    eapply yields_bind; [apply yields_wrap, (yields_trigger (shows v d)); [harmless|]|].
    { intros i Hi. exact (Hi i eq_refl). }
    intros i Hi. apply yields_ret. by apply Hi.
Qed.

Lemma recordRegion_yields : Y any recordRegion.
Proof.
  assert (Hset : forall x, Y any (setRegion x)).
  { intros x. unfold setRegion.
    eapply yields_bind; [apply get_clusterInfo_yields|intros ci Hci].
    apply yields_modify; [|done]. intros m []. constructor; try done. cbn. eauto. }
  unfold recordRegion, res. apply yields_gets_bind. intros m _. case_match; [apply Hset|].
  eapply (yields_bind _ _ any); [apply yields_any; go_respects|intros x _]. apply Hset.
Qed.

(** What [parseClusterInfo] does once the cluster's tag is known. *)
Lemma parsed_yields :
  Y any (bind getVpcEndpointServiceName (fun _ => bind recordRegion (fun _ =>
    bind (establishClient true) (fun _ => bind res_status (fun s =>
    if is_empty (VPCId s) then
      bind chooseVpc (fun vpcId => bind (modify_status (set_VPCId vpcId)) (fun _ =>
        wrap "failed to update status: " statusUpdate))
    else ret tt))))).
Proof.
  eapply (yields_bind _ _ any); [apply yields_any; go_respects|intros _ _].
  eapply yields_bind; [apply recordRegion_yields|intros _ _].
  eapply (yields_bind _ _ any); [apply yields_any; go_respects|intros _ _].
  unfold res_status. apply yields_gets_bind. intros m Hm. rewrite (st_vpc _ _ _ _ Hm).
  rewrite (proj2 (is_empty_false _) (vpc_id _ _ _ Hd)). by apply yields_ret.
Qed.

Lemma steady_forgets b m : steady v flag b m -> steady v flag false m.
Proof. intros []. by constructor. Qed.

(** Parsing mutates nothing, and where it succeeds the cluster's tag is known. *)
Lemma parse_steady s :
  steady v flag false (local s) ->
  extends (fun o l m => Forall (event_sat (no mutates)) l /\ steady v flag false m /\
             (forall a, o = Ok a -> steady v flag true m)) (parseClusterInfo true) s.
Proof.
  intros Hs. apply extends_wp. unfold parseClusterInfo, res, res_status. repeat wp_step. cbn beta.
  set (s0 := mkSys _ _ _).
  assert (Hs0 : steady v flag false (local s0)) by (destruct Hs; by constructor).
  assert (Hci : clusterInfo_ (reconciler (local s0)) = Some (mkClusterInfo "" "")) by done.
  eapply wp_yields; [by apply infraId_yields|exact Hs0|].
  intros [[]|e|w|] l1 s1 Ht1 Hl1 Hs1 _; cbn [continue]; try (by close_trace).
  repeat wp_step. rewrite (st_infra _ _ _ _ Hs1).
  destruct (GetClusterLegacyTagKey (InfraId (status v))) as [tag|e|w|] eqn:Htag; cbn [continue];
    try (by close_trace).
  unfold setClusterTag, get_clusterInfo. repeat wp_step.
  destruct (clusterInfo_ (reconciler (local s1))) as [ci|]; cbn [deref];
    [|repeat wp_step; by close_trace].
  do 3 wp_step.
  set (s2 := mkSys _ _ _). assert (Hs2 : steady v flag true (local s2)).
  { destruct Hs1. constructor; try done. intros _. by eexists. }
  assert (Ht2 : trace s2 = trace s1) by done.
  eapply wp_yields; [apply parsed_yields|exact Hs2|].
  intros o l2 s3 Ht3 Hl3 Hs3 _. close_trace.
  split_and!; [by apply Forall_app_2|by eapply steady_forgets|done].
Qed.

Lemma alive : metav1.DeletionTimestamp (meta v) = None.
Proof. pose proof (not_deleted _ _ _ Hd) as Ha. unfold isDeleting in Ha. by case_match. Qed.

(** After the object was read. *)
Lemma reconcileObject_steady s :
  steady v flag false (local s) ->
  extends (fun _ l _ => Forall (event_sat (no mutates)) l) reconcileObject s.
Proof.
  intros Hs. apply extends_wp. unfold reconcileObject, res. repeat wp_step.
  eapply wp_extends; [by apply parse_steady|].
  intros [[]|e|w|] l1 s1 Ht1 (Hl1 & Hs1 & Hparsed); cbn [continue]; try (by close_trace).
  all: repeat wp_step; unfold isDeleting; cbn beta.
  - rewrite (st_alive _ _ _ _ Hs1). rewrite alive.
    unfold ensureFinalizer, res. repeat wp_step.
    rewrite (st_finalizer _ _ _ _ Hs1), (finalizer_set _ _ _ Hd). repeat wp_step.
    eapply wp_yields; [apply reconcileNormal_yields|by eapply Hparsed|].
    intros o l2 s2 Ht2 Hl2 _ _. close_trace. by apply Forall_app_2.
  - rewrite (st_alive _ _ _ _ Hs). rewrite alive.
    repeat wp_step. eapply (wp_emits (no mutates) (steady v flag false)); [go_respects|done|].
    intros [[]|e'|w|] l2 s2 Ht2 Hl2 _; repeat wp_step; close_trace; by apply Forall_app_2.
Qed.

(** C6: reconciling an object that is as it should be changes nothing. When the status
    records a group, an endpoint and a zone that are in AWS as the spec wants them,
    the conditions are true, and every call answers what there is or fails, then no
    call of a whole reconcile changes AWS, the service, or the object apart from
    its status: whatever fails on the way, nothing is created a second time,
    re-attached or upserted. *)
Theorem steady_state_changes_nothing namespace name s :
  EnablePrivateDns_flag (reconciler (local s)) = flag -> cache_associated v (local s) ->
  exists l, trace (Reconcile namespace name s).2 = trace s ++ l /\
    Forall (event_sat (no mutates)) l.
Proof.
  intros Hflag Hcache.
  change (extends (fun _ l _ => Forall (event_sat (no mutates)) l) (Reconcile namespace name) s).
  apply extends_wp. unfold Reconcile. repeat wp_step. apply wp_trigger. cbn.
  intros w1 [e|v'] Hget; cbn [of_answer continue]; apply answer_fits in Hget; cbn in Hget.
  - destruct (IsNotFound e); repeat wp_step; close_trace; apply Forall_singleton;
      exact (fun Hno : False => Hno).
  - rewrite (Hget v' eq_refl). repeat wp_step.
    eapply wp_extends; [apply reconcileObject_steady|].
    + constructor; try done. apply Hd.
    + intros o l2 s2 Ht2 Hl2. close_trace. constructor; [exact (fun Hno : False => Hno)|done].
Qed.

End proofs.

(** ** A steady world *)

#[local] Existing Instances K8sRef.helpers K8sRef.helpers_laws.

Module SteadySim.

Definition conds : list metav1.Condition :=
  (fun t => metav1.mkCondition t metav1.ConditionTrue "Ready" "") <$>
    [AWSSecurityGroupCondition; AWSVpcEndpointCondition; AWSRoute53RecordCondition;
     AWSRoute53TagsCondition; ExternalNameServiceCondition].

Definition rule : SecurityGroupRule := mkSecurityGroupRule "" 443 443 "tcp".

(** The spec has a rule for the nodes, a zone of its own and a second VPC. *)
Definition spec : VpcEndpointSpec :=
  mkVpcEndpointSpec "com.amazonaws.vpce.svc" None (mkSecurityGroup [rule] [] false) "" None
    "us-east-1" true (mkVpc false ["subnet-1"] [] [] [])
    (mkCustomDns (mkRoute53PrivateHostedZone false [mkAssociatedVpc None "vpc-2" "us-east-1"]
       "example.com" None ""
       (mkRoute53HostedZoneRecord "api" (mkExternalNameService "svc")))).

Definition object : VpcEndpoint :=
  Sim.object None [avoFinalizer] spec
    (Sim.status_ "vpce-1" "sg-1" "Z1" "api.example.com" conds).

Definition sgName := "infra-example-sg".

Definition tags : list AwsTag :=
  match GenerateAwsTags sgName "kubernetes.io/cluster/infra" with Ok l => l | _ => [] end.

Definition awsRule : ec2Types.SecurityGroupRule :=
  ec2Types.mkSecurityGroupRule (Some false) (Some "tcp") (Some 443%Z) (Some 443%Z) None
    (Some (Some "sg-node")).

Definition actual : Actual :=
  mkActual (ec2Types.mkSecurityGroup (Some "sg-1") tags) [awsRule] ["sg-node"] ""
    (Sim.endpoint "vpce-1" "available") [] [].

Definition zoneOutput (id : string) : route53Types.GetHostedZoneOutput :=
  route53Types.mkGetHostedZoneOutput
    (Some (route53Types.mkHostedZone (Some id) (Some "example.com.") (Some true)))
    [Some "vpc-1"; Some "vpc-2"].

Definition refused : error := EApi "Throttling" "slow down" "api error Throttling: slow down".

(** Answers what [actual] says, and throttles everything else. *)
Definition ec2 {R} (op : ec2op R) : error + R :=
  match op in ec2op R return error + R with
  | DescribeSecurityGroups _ [] => inr [ec2Types.mkSecurityGroup (Some "sg-node") []]
  | DescribeSecurityGroups _ _ => inr [group actual]
  | Calls.DescribeSecurityGroupRules _ => inr (rules actual)
  | DescribeVpcEndpoints _ _ => inr [endpoint actual]
  | _ => inl refused
  end.

Definition kube {R} (op : kubeop R) : error + R :=
  match op in kubeop R return error + R with
  | GetVpcEndpoint _ _ => inr object
  | UpdateVpcEndpointStatus _ => inr "2"
  | GetInfrastructure _ =>
      inr (configv1.mkInfrastructure "infra"
             (Some (configv1.mkPlatformStatus "AWS" (Some "us-east-1"))))
  | GetService ns name =>
      inr (corev1.mkService name ns None corev1.ServiceTypeExternalName "api.example.com" "1")
  | SetControllerReference ns name svc => inr svc
  | _ => inl refused
  end.

#[export] Instance world : World unit := fun R (c : call R) w =>
  (w, match c in call R return error + R with
      | EC2 _ op => ec2 op
      | R53 _ op =>
          match op in route53op R return error + R with
          | Calls.GetHostedZone id => inr (zoneOutput id)
          | _ => inl refused
          end
      | Kube op => kube op
      | LoadDefaultConfig region creds => inr (mkAwsConfig region (default CredDefault creds))
      | Now => inr 60%Z
      | AfterOrDone _ => inr tt
      | RangeOrder => inr elements
      | LookupEnv _ => inr None
      | Metric _ => inr tt
      | Event _ _ _ => inr tt
      | Enqueue _ _ => inr tt
      end).

#[export] Instance fits : Fits (shows object actual).
Proof.
  intros R c [] [] r [= <-].
  destruct c as [R cfg op|R cfg op|R op| | | | | | | |]; try done; [destruct op..|]; cbn; try done.
  - by destruct groupIds.
  - by intros rs [= <-].
  - intros out [= <-] ids [= <-]. by repeat constructor.
  - by intros ? [= <-].
  - by intros i [= <-].
  - by intros svc' [= <-].
  - intros o [= <-]. apply valid_order_elements.
Qed.

Lemma tagsToMap_elem l m0 m k x :
  tagsToMap l m0 = Ok m -> m !! k = Some x -> m0 !! k = Some x \/ mkAwsTag (Some k) (Some x) ∈ l.
Proof.
  revert m0. induction l as [|[[tk|] [tv|]] l IH]; cbn; try done.
  { intros m0 [= ->]. by left. }
  intros m0 Hl Hx. destruct (IH _ Hl Hx) as [[[-> ->]|[_ ?]]%lookup_insert_Some|]; [|by left|];
    right; set_solver.
Qed.

Lemma settled_ : settled object false actual.
Proof.
  constructor; try done.
  - by repeat constructor.
  - repeat (constructor || eexists).
  - intros name tag m [= <-] [= <-] Hm k x Hx. unfold GenerateAwsTagsAsMap in Hm.
    destruct (tagsToMap_elem _ _ _ _ _ Hm Hx) as [He|Hin]; [by rewrite lookup_empty in He|exact Hin].
  - repeat constructor; try by eexists. done.
  - constructor; [|constructor]. constructor. by vm_compute.
  - constructor.
  - intros gs [= <-] k. set_solver.
  - by intros ids ->.
Qed.

End SteadySim.

#[local] Existing Instances SteadySim.world SteadySim.fits.

(** A reconciler that has fetched nothing yet, and the run that changes nothing. *)
Definition settled_sys : Sys unit Mem :=
  mkSys tt [] (mkMem (mkVpcEndpointReconciler false None None None None) SteadySim.object).

Lemma steady_state_changes_nothing_witness :
  exists l, trace (Reconcile "ns" "example" settled_sys).2 = [] ++ l /\
    Forall (event_sat (no mutates)) l.
Proof.
  apply (steady_state_changes_nothing SteadySim.object false SteadySim.actual
           SteadySim.settled_ "ns" "example" settled_sys); [reflexivity|done].
Defined.

(** It reaches the end of the pass. *)
Example settled_requeues :
  (Reconcile "ns" "example" settled_sys).1 = Ok (mkResult (15 * Minute)).
Proof. vm_compute. reflexivity. Qed.

End SteadySpec.
