(* ===== verification/Main.v ===== *)
(** * The entry point: [main.go], and how each controller is set up

    [main] reads the configuration, builds the manager, sets up the enabled
    controllers, registers two probes and starts the manager; it exits with 1 at
    the first failure.  What controller-runtime does with these requests is code
    outside the repository: [main] is a function of which of them fail and of
    what reading the configuration file leaves behind. *)
From S2P Require Import Prelude GoError Naming Types Calls GoMonad AwsClient Reconcile Acceptance.
Import avov1alpha1.

Module Main.

(** ** Setting up a controller *)

(** The kinds of objects that are watched. *)
Inductive kind :=
| VpcEndpointKind | ServiceKind | VpcEndpointAcceptanceKind
| VpcEndpointTemplateKind | HostedControlPlaneKind.

(** [workqueue.RateLimiter]; durations in nanoseconds. *)
Inductive RateLimiter :=
| ItemExponentialFailure (baseDelay maxDelay : Z)
| Bucket (qps burst : Z)
| MaxOf (l1 l2 : RateLimiter).

Definition DefaultAVORateLimiter : RateLimiter :=
  MaxOf (ItemExponentialFailure (1 * Second) (5000 * Second)) (Bucket 10 100).

(** What [ctrl.NewControllerManagedBy] is told; no limiter is the library's own. *)
Record builder := mkBuilder {
  For_ : kind;
  Owns : list kind;
  Watches : list kind;
  limiter : option RateLimiter
}.

(** [SetupWithManager] of the three reconcilers. *)
Definition VpcEndpoint_SetupWithManager : builder :=
  mkBuilder VpcEndpointKind [ServiceKind] [] (Some DefaultAVORateLimiter).
Definition VpcEndpointAcceptance_SetupWithManager : builder :=
  mkBuilder VpcEndpointAcceptanceKind [] [] (Some DefaultAVORateLimiter).
Definition VpcEndpointTemplate_SetupWithManager : builder :=
  mkBuilder VpcEndpointTemplateKind [] [HostedControlPlaneKind] None.

(** ** [main] *)

(** A request that [main] makes. *)
Inductive step :=
| LoadConfigFile (path : string)
| NewManager
| Setup (b : builder) (EnablePrivateDns : bool)
| AddHealthzCheck (name : string)
| AddReadyzCheck (name : string)
| StartManager.

Section main.
(** What reading the file leaves in [ctrlConfig], and its error. *)
Context (loadConfig : string -> AvoConfig * option error).
(** The answers to the other requests. *)
Context (answer : step -> option error).

(** The requests that were made, and whether the program goes on. *)
Definition program : Type := list step * bool.

Definition skip : program := ([], true).

(** [if err := s; err != nil { os.Exit(1) }]. *)
Definition orExit (s : step) : program :=
  ([s], match answer s with None => true | Some _ => false end).

Definition andThen (p k : program) : program :=
  if p.2 then (p.1 ++ k.1, k.2) else p.

Definition when (b : bool) (p : program) : program := if b then p else skip.

(** Omitting the flag keeps the defaults; a file that does not load is logged. *)
Definition loadedConfig (configFile : string) : list step * AvoConfig :=
  if is_empty configFile then ([], mkAvoConfig None None None None)
  else ([LoadConfigFile configFile], (loadConfig configFile).1).

Definition flag (f : option bool) : bool := default false f.

Definition main (configFile : string) : program :=
  let '(loading, ctrlConfig) := loadedConfig configFile in
  let c := Operator.defaultFlags ctrlConfig in
  andThen (loading, true) (
  andThen (orExit NewManager) (
  andThen (when (flag (EnableVpcEndpointController c))
             (orExit (Setup VpcEndpoint_SetupWithManager (flag (EnablePrivateDns c))))) (
  andThen (when (flag (EnableVpcEndpointAcceptanceController c))
             (orExit (Setup VpcEndpointAcceptance_SetupWithManager false))) (
  andThen (when (flag (EnableVpcEndpointTemplateController c))
             (orExit (Setup VpcEndpointTemplate_SetupWithManager false))) (
  andThen (orExit (AddHealthzCheck "healthz")) (
  andThen (orExit (AddReadyzCheck "readyz"))
    (orExit StartManager))))))).

Definition exitCode (p : program) : Z := if p.2 then 0 else 1.

(** ** What a start consists of *)

(** The name of a controller, and the setup it stands for. *)
Definition setup_of (privateDns : bool) (name : string) : option step :=
  if String.eqb name "VpcEndpoint" then Some (Setup VpcEndpoint_SetupWithManager privateDns)
  else if String.eqb name "VpcEndpointAcceptance"
  then Some (Setup VpcEndpointAcceptance_SetupWithManager false)
  else if String.eqb name "VpcEndpointTemplate"
  then Some (Setup VpcEndpointTemplate_SetupWithManager false)
  else None.

(** The manager, the controllers that the configuration enables, the probes, and
    the start at the very end. *)
Definition plan (c : AvoConfig) : list step :=
  [NewManager] ++
  omap (setup_of (default false (EnablePrivateDns c))) (Operator.controllersToStart c) ++
  [AddHealthzCheck "healthz"; AddReadyzCheck "readyz"; StartManager].

(** [l] is done in order up to the first failure. *)
Definition follows (l : list step) (p : program) : Prop :=
  (p = (l, true) /\ Forall (fun s => answer s = None) l) \/
  (p.2 = false /\ exists l1 s l2, l = l1 ++ s :: l2 /\ p.1 = l1 ++ [s] /\
     Forall (fun s => answer s = None) l1 /\ is_Some (answer s)).

Lemma follows_orExit s : follows [s] (orExit s).
Proof.
  unfold follows, orExit. destruct (answer s) as [e|] eqn:E; cbn.
  - right. split; [done|]. exists [], s, []. by eauto.
  - left. eauto.
Qed.

Lemma follows_andThen l l' p k : follows l p -> follows l' k -> follows (l ++ l') (andThen p k).
Proof.
  intros [[-> Hl]|(Hp & l1 & s & l2 & -> & Hp1 & Hl1 & Hs)] Hk; unfold andThen.
  - cbn. destruct Hk as [[-> Hl']|(Hk & l1 & s & l2 & -> & Hk1 & Hl1 & Hs)].
    + left. split; [done|]. by apply Forall_app_2.
    + right. split; [done|]. exists (l ++ l1), s, l2. cbn. rewrite Hk1, <- !app_assoc.
      split_and!; [done|done| |done]. by apply Forall_app_2.
  - rewrite Hp. right. split; [done|]. exists l1, s, (l2 ++ l'). by rewrite <- app_assoc.
Qed.

Lemma follows_when (b : bool) s : follows (if b then [s] else []) (when b (orExit s)).
Proof. destruct b; [apply follows_orExit|]. by left. Qed.

(** C40: [main] follows the plan of the configuration it read, whether or not the
    file loaded: it makes the planned requests in order, exits with 1 right after
    the first one that fails, and so starts the manager only when every enabled
    controller and both probes are in place. *)
Theorem main_follows_plan configFile :
  let '(loading, c) := loadedConfig configFile in
  exists p, main configFile = (loading ++ p.1, p.2) /\ follows (plan c) p /\
    (exitCode (main configFile) = 0%Z <-> p = (plan c, true)).
Proof.
  destruct (loadedConfig configFile) as [loading c] eqn:Hload.
  set (cc := Operator.defaultFlags c).
  assert (Hplan : plan c = [NewManager] ++
    (if flag (EnableVpcEndpointController cc)
     then [Setup VpcEndpoint_SetupWithManager (flag (EnablePrivateDns cc))] else []) ++
    (if flag (EnableVpcEndpointAcceptanceController cc)
     then [Setup VpcEndpointAcceptance_SetupWithManager false] else []) ++
    (if flag (EnableVpcEndpointTemplateController cc)
     then [Setup VpcEndpointTemplate_SetupWithManager false] else []) ++
    [AddHealthzCheck "healthz"] ++ [AddReadyzCheck "readyz"] ++ [StartManager]).
  { unfold plan, Operator.controllersToStart. fold cc. cbn.
    by destruct c as [[[]|] [[]|] [[]|] [[]|]]. }
  unfold main. rewrite Hload. fold cc. eexists. split; [reflexivity|].
  match goal with |- follows _ ?p /\ _ => set (q := p) end.
  assert (Hq : follows (plan c) q).
  { rewrite Hplan. unfold q.
    repeat (apply follows_andThen; [first [apply follows_orExit|apply follows_when]|]).
    apply follows_orExit. }
  split; [done|]. unfold exitCode. cbn [andThen fst snd].
  destruct Hq as [[Hq Hall]|(Hq & _)].
  - rewrite Hq. by split.
  - fold q. rewrite Hq. split; [done|]. intros Hp. by rewrite Hp in Hq.
Qed.

End main.

(** ** Examples *)

Definition unreadable (path : string) : AvoConfig * option error :=
  (mkAvoConfig None None None None, Some (EOpaque "no such file")).

(** With a file that is not there, the default controller runs. *)
Example main_continues_with_defaults :
  main unreadable (fun _ => None) "avo.yaml" =
  ([LoadConfigFile "avo.yaml"; NewManager; Setup VpcEndpoint_SetupWithManager false;
    AddHealthzCheck "healthz"; AddReadyzCheck "readyz"; StartManager], true).
Proof. reflexivity. Qed.

(** A setup that fails ends the program before the probes. *)
Example main_exits :
  main (fun _ => (mkAvoConfig None (Some true) None (Some true), None))
    (fun s => match s with Setup _ false => Some (EOpaque "no kind") | _ => None end) "avo.yaml" =
  ([LoadConfigFile "avo.yaml"; NewManager; Setup VpcEndpoint_SetupWithManager true;
    Setup VpcEndpointAcceptance_SetupWithManager false], false).
Proof. reflexivity. Qed.

End Main.
