(* ===== verification/LeakSpec.v ===== *)
(** * What deletion does not find

    Cleaning up goes by the ids in the status alone, although the operator can
    find its resources by their tags: what it created without managing to record
    it is left behind.  And a record set is only looked for while the status shows it as
    ready, so that one in a zone that is not the operator's can stay there. *)
From S2P Require Import Prelude GoError Naming Types Calls GoMonad AwsClient Lookups.
From S2P Require Import Controller Helpers HostedZones Validation Cleanup Reconcile Sim IsolationSpec.
From S2P Require Import CleanupSpec.
Import avov1alpha2 Helpers HostedZones Validation Cleanup Reconcile.

Module LeakSpec.
Import IsolationSpec.

(** Nothing is recorded in the status. *)
Definition unrecorded `{K8sHelpers} (s : VpcEndpointStatus) : Prop :=
  VPCEndpointId s = "" /\ SecurityGroupId s = "" /\ HostedZoneId s = "" /\
  IsStatusConditionTrue (Conditions s) AWSRoute53RecordCondition = false.

Section spec.
Context {W : Type} `{World W} `{K8sHelpersLaws}.
Implicit Types s : Sys W Mem.

Ltac empty := change (is_empty "") with true; cbn [negb andb]; cbn match.

(** The cleanup of such an object succeeds without looking at AWS. *)
Lemma cleanup_unrecorded p s :
  unrecorded (status (resource (local s))) ->
  extends (fun o l m => o = Ok tt /\ m = local s /\ Forall (event_sat no_aws) l)
    (cleanupAwsResources p) s.
Proof.
  intros (Hv & Hg & Hz & Hr). apply extends_wp.
  unfold cleanupAwsResources, cleanupRecord, cleanupZone, cleanupVpcEndpoint,
    cleanupSecurityGroup, conditionTrue, res, res_status, eventNormal.
  repeat wp_step. cbn [local after]. rewrite Hr. repeat wp_step. cbn [local after].
  rewrite Hz. empty. repeat wp_step. cbn [local after].
  rewrite Hv. empty. repeat wp_step. cbn [local after]. rewrite Hg. empty. repeat wp_step.
  close_trace. split_and!; [done|done|]. by repeat constructor.
Qed.

(** An object whose status records nothing is released at once: its deletion
    makes no AWS call, so a security group or an endpoint that was created but
    whose status update failed, or a status that was lost, survives the object,
    although a search by its tags would find it. *)
Theorem unrecorded_resources_survive_cleanup p s :
  unrecorded (status (resource (local s))) ->
  exists l, trace (reconcileDelete p s).2 = trace s ++ l /\ Forall (event_sat no_aws) l /\
    ((reconcileDelete p s).1 = Ok done_ ->
     avoFinalizer ∉ metav1.Finalizers (meta (resource (local (reconcileDelete p s).2)))).
Proof.
  intros Hs.
  change (wp (reconcileDelete p) (fun o s' => exists l, trace s' = trace s ++ l /\
    Forall (event_sat no_aws) l /\
    (o = Ok done_ -> avoFinalizer ∉ metav1.Finalizers (meta (resource (local s'))))) s).
  unfold reconcileDelete, res. repeat wp_step.
  destruct (ContainsFinalizer _ _) eqn:Hf.
  - repeat wp_step. eapply wp_extends; [by apply cleanup_unrecorded|].
    intros o l1 s1 Ht1 (-> & Hm & Hl1). repeat wp_step.
    unfold removeFinalizer, resourceUpdate, res. repeat wp_step. apply wp_trigger.
    intros w2 [e|rv] _; cbn [of_answer continue].
    { close_trace. split; [|done]. apply Forall_app_2; [done|]. by repeat constructor. }
    repeat wp_step. unfold notReadyDelete, res. repeat wp_step.
    repeat wp_step. close_trace. split; [apply Forall_app_2; [done|]; by repeat constructor|].
    intros _. cbn. rewrite remove_finalizer. tauto.
  - unfold notReadyDelete, res. repeat wp_step. repeat wp_step. close_trace.
    split; [by repeat constructor|]. intros _ Hin. cbn in Hin.
    apply contains_finalizer_iff in Hin. congruence.
Qed.

(** *** Records that are not ready *)

Definition changes_records : call_pred := fun R c =>
  match c with R53 _ (ChangeResourceRecordSets _) => True | _ => False end.

(** The record is not ready, and the zone is not the operator's. *)
Definition record_unready (v : VpcEndpoint) : Prop :=
  IsStatusConditionTrue (Conditions (status v)) AWSRoute53RecordCondition = false /\
  names_domain v = false.

Lemma cleanupRecord_unready p :
  respects (emits (W:=W) (no changes_records) (fun m => record_unready (resource m)))
    (cleanupRecord p).
Proof.
  unfold cleanupRecord, conditionTrue, res_status. apply emits_gets_bind.
  intros m [Hr _]. rewrite Hr. go_respects.
Qed.

Lemma cleanupZone_unready :
  respects (emits (W:=W) (no changes_records) (fun m => record_unready (resource m)))
    cleanupZone.
Proof.
  unfold cleanupZone, res. apply emits_gets_bind. intros m [_ Hn]. rewrite Hn, andb_false_r.
  go_respects.
Qed.

#[local] Hint Resolve cleanupRecord_unready cleanupZone_unready : respects.
#[local] Hint Extern 1 (respects (emits _ _) (pollDeleted _ _ _)) =>
  apply CleanupSpec.pollDeleted_emits; [call_solve|intros; call_solve..|inv_solve] : respects.

(** The deletion of an object whose record is not ready, in a zone that its spec does not
    name by domain, changes no record: the one it created is left in the zone. *)
Theorem unready_record_survives_cleanup p s :
  record_unready (resource (local s)) ->
  exists l, trace (reconcileDelete p s).2 = trace s ++ l /\
    Forall (event_sat (no changes_records)) l.
Proof.
  intros Hs. assert (Hr : respects (emits (W:=W) (no changes_records)
      (fun m => record_unready (resource m))) (reconcileDelete p)).
  { unfold reconcileDelete, cleanupAwsResources. go_respects. }
  destruct (Hr s Hs) as (_ & l & Hl). eauto.
Qed.

End spec.

(** ** Example *)

#[local] Existing Instances K8sRef.helpers K8sRef.helpers_laws Sim.world.

Definition lost : VpcEndpoint :=
  Sim.object (Some 1%Z) [avoFinalizer] (Sim.spec (Sim.phz "other.example" None "api"))
    (Sim.status_ "" "" "" "" []).

Lemma unrecorded_resources_survive_cleanup_witness :
  let s := Sim.sys Sim.state lost in
  exists l, trace (reconcileDelete resource_ptr_ s).2 = [] ++ l /\ Forall (event_sat no_aws) l /\
    ((reconcileDelete resource_ptr_ s).1 = Ok done_ ->
     avoFinalizer ∉ metav1.Finalizers (meta (resource (local (reconcileDelete resource_ptr_ s).2)))).
Proof.
  apply (unrecorded_resources_survive_cleanup resource_ptr_ (Sim.sys Sim.state lost)).
  by vm_compute.
Defined.

(** The zone is given by its id; the endpoint is not available any more, so the record's
    condition is false.  The object is released, its record never touched. *)
Definition unready : Sys Sim.State Mem :=
  Sim.sys Sim.state (Sim.object (Some 1%Z) [avoFinalizer] (Sim.spec (Sim.phz "" None "api"))
    (Sim.status_ "" "" "Z1" "api.other.example"
       [metav1.mkCondition AWSRoute53RecordCondition metav1.ConditionFalse "Invalidated" ""])).

Lemma unready_record_survives_cleanup_witness :
  exists l, trace (reconcileDelete resource_ptr_ unready).2 = [] ++ l /\
    Forall (event_sat (no changes_records)) l.
Proof. apply (unready_record_survives_cleanup resource_ptr_ unready). by vm_compute. Defined.

Example unready_record_released :
  (reconcileDelete resource_ptr_ unready).1 = Ok done_ /\
  metav1.Finalizers (meta (resource (local (reconcileDelete resource_ptr_ unready).2))) = [].
Proof. vm_compute. done. Qed.

(** A security group is created while the API server refuses the status update: the
    group is there, the object in the API server knows nothing of it. *)
Example unrecorded_group :
  let refuse : World Sim.State := fun R (c : call R) w =>
    match c in call R return Sim.State * (error + R) with
    | Kube op =>
        match op in kubeop R return Sim.State * (error + R) with
        | UpdateVpcEndpointStatus _ => (w, inl (EStatus "Conflict" "conflict"))
        | _ => (w, inl (EOpaque "not asked"))
        end
    | EC2 _ op =>
        match op in ec2op R return Sim.State * (error + R) with
        | Calls.CreateSecurityGroup _ =>
            (Sim.set_securityGroups ("sg-new" :: Sim.securityGroups w) w, inr (Some "sg-new"))
        | WaitSecurityGroupExists _ _ => (w, inr tt)
        | _ => (w, inl (EOpaque "not asked"))
        end
    | Event _ _ _ => (w, inr tt)
    | _ => (w, inl (EOpaque "not asked"))
    end in
  let '(o, s') := createSecurityGroup (H := refuse) "infra-example-sg" (Sim.sys Sim.state lost) in
  o = Err (EOpaque "failed to update status") /\
  Sim.securityGroups (world s') = ["sg-new"; "sg-1"].
Proof. vm_compute. done. Qed.

End LeakSpec.
