(* ===== verification/Mock.v ===== *)
(** * The test doubles: [pkg/aws_client/mock.go] and [pkg/testutil/mock.go]

    The doubles that the unit tests of the repository inject in place of AWS, one
    definition per method, and a world that is made of them.  The fake Kubernetes
    client is code outside the repository, and an argument of that world.  The
    file ends with tables of the unit tests, evaluated on the model. *)
From S2P Require Import Prelude GoError Naming Types Calls GoMonad AwsClient Lookups.
From S2P Require Import Controller Helpers HostedZones Validation Cleanup.
Import avov1alpha2 Naming Helpers HostedZones Validation Cleanup.

Module Mock.

(** ** Constants *)

Definition MockLegacyClusterTag := "kubernetes.io/cluster/mock-12345".
Definition MockCapiClusterTag := "sigs.k8s.io/cluster-api-provider-aws/cluster/mock-54321".
Definition MockClusterNameTag := "mock-12345-vpce".
Definition MockHostedZoneId := "R53HZ12345".
Definition MockPublicSubnetId := "subnet-pub12345".
Definition MockPrivateSubnetId := "subnet-priv12345".
Definition MockSecurityGroupId := "sg-12345".
Definition MockVpcId := "vpc-12345".
Definition MockVpcEndpointServiceName := "com.amazonaws.vpce.service.mock-12345".
Definition MockVpcEndpointServiceId := "vpce-svc-12345".
Definition MockVpcCidr := "10.0.0.0/16".

Definition MockAWSRegion := "us-gov-west-1".
Definition MockDomainName := "mock-domain.com".
Definition MockInfrastructureName := "mock-12345".
Definition MockVpcEndpointId := "vpce-12345".
Definition MockVpcEndpointDnsName := "vpce-12345.amazonaws.com".

Definition mockDnses : configv1.DNS := configv1.mkDNS MockDomainName.

Definition mockInfrastructure : configv1.Infrastructure :=
  configv1.mkInfrastructure MockInfrastructureName
    (Some (configv1.mkPlatformStatus "AWS" (Some MockAWSRegion))).

(** ** [MockedEC2] *)

(** A subnet with its tags, by which the double selects. *)
Record MockSubnet := mkMockSubnet { subnet : ec2Types.Subnet; subnet_Tags : list AwsTag }.

Record MockedEC2 := mkMockedEC2 {
  Subnets : list MockSubnet;
  LastCreateVpcEndpointInput : option ec2Types.CreateVpcEndpointInput;
  deletedVpceIds : gset string
}.

Definition mockSubnets : list MockSubnet :=
  [ mkMockSubnet (ec2Types.mkSubnet (Some MockPrivateSubnetId) (Some MockVpcId) None)
      [ mkAwsTag (Some AWSClient.privateSubnetTagKey) None;
        mkAwsTag (Some MockLegacyClusterTag) (Some "shared") ];
    mkMockSubnet (ec2Types.mkSubnet (Some MockPublicSubnetId) (Some MockVpcId) None) [] ].

Definition NewMockedEC2 : MockedEC2 := mkMockedEC2 [] None ∅.
Definition NewMockedEC2WithSubnets : MockedEC2 := mkMockedEC2 mockSubnets None ∅.

(** [filter.Values[0]]. *)
Definition first_value (f : ec2Types.Filter) : outcome string :=
  match ec2Types.flt_Values f with
  | [] => Panic "index out of range [0] with length 0"
  | v :: _ => Ok v
  end.

(** The loop over a subnet's tags: how many have the key. *)
Fixpoint tagsWithKey (tagKey : string) (tags : list AwsTag) : outcome nat :=
  match tags with
  | [] => Ok 0
  | tag :: tags' =>
      obind (deref (tag_Key tag)) (fun k =>
      obind (tagsWithKey tagKey tags') (fun n =>
      Ok (if String.eqb k tagKey then S n else n)))
  end.

(** The loop over the wanted keys: the subnet is returned as soon as the count
    reaches their number. *)
Fixpoint subnetMatches (wanted found : nat) (tags : list AwsTag) (tagKeys : list string)
  : outcome bool :=
  match tagKeys with
  | [] => Ok false
  | tagKey :: tagKeys' =>
      obind (tagsWithKey tagKey tags) (fun n =>
      if Nat.eqb (found + n) wanted then Ok true
      else subnetMatches wanted (found + n) tags tagKeys')
  end.

(** The values of all the filters are taken as tag keys; [orders] are the orders of
    the [range]s over them, one per subnet. *)
Definition tagKeysOf (filters : list ec2Types.Filter) : gset string :=
  list_to_set (filters ≫= ec2Types.flt_Values).

Fixpoint findSubnet (orders : list MapOrder) (tagKeys : gset string) (subnets : list MockSubnet)
  : outcome (list ec2Types.Subnet) :=
  match subnets with
  | [] => Ok []
  | s :: subnets' =>
      obind (subnetMatches (size tagKeys) 0 (subnet_Tags s) (hd elements orders tagKeys))
      (fun b => if b then Ok [subnet s] else findSubnet (tl orders) tagKeys subnets')
  end.

Definition DescribeSubnets (orders : list MapOrder) (m : MockedEC2)
    (filters : list ec2Types.Filter) : outcome (list ec2Types.Subnet) :=
  findSubnet orders (tagKeysOf filters) (Subnets m).

(** Both branches answer the same id; only the echoed tags differ. *)
Definition CreateSecurityGroup (i : ec2Types.CreateSecurityGroupInput) : option string :=
  Some MockSecurityGroupId.

(** The [switch] of the loop over the filters of [DescribeSecurityGroups]. *)
Fixpoint groupsByFilter (filters : list ec2Types.Filter) : outcome (list ec2Types.SecurityGroup) :=
  match filters with
  | [] => Ok []
  | f :: filters' =>
      obind (deref (ec2Types.flt_Name f)) (fun name =>
      if String.eqb name "tag-key" then
        obind (first_value f) (fun v =>
        Ok [ec2Types.mkSecurityGroup (Some MockSecurityGroupId) [mkAwsTag (Some v) None]])
      else if String.eqb name "Tag:Name" then
        obind (first_value f) (fun v =>
        Ok [ec2Types.mkSecurityGroup (Some MockSecurityGroupId)
              [mkAwsTag (Some "Name") (Some v)]])
      else groupsByFilter filters')
  end.

Definition DescribeSecurityGroups (filters : list ec2Types.Filter) (groupIds : list string)
  : outcome (list ec2Types.SecurityGroup) :=
  match groupIds with
  | _ :: _ => Ok ((fun groupId => ec2Types.mkSecurityGroup (Some groupId) []) <$> groupIds)
  | [] => groupsByFilter filters
  end.

Definition DescribeSecurityGroupRules : list ec2Types.SecurityGroupRule :=
  (fun egress => ec2Types.mkSecurityGroupRule (Some egress) (Some "tcp") (Some 1%Z) (Some 1%Z)
     (Some "0.0.0.0/0") None) <$> [false; true].

Definition DescribeVpcs (vpcIds : list string) : list ec2Types.Vpc :=
  match vpcIds with
  | id :: _ => [ec2Types.mkVpc (Some id) (Some MockVpcCidr)]
  | [] => []
  end.

Definition AuthorizeSecurityGroupIngress (i : ec2Types.AuthorizeInput)
  : list ec2Types.SecurityGroupRule :=
  (fun p => ec2Types.mkSecurityGroupRule None (ec2Types.perm_IpProtocol p)
     (ec2Types.perm_FromPort p) (ec2Types.perm_ToPort p) None None) <$> ec2Types.IpPermissions i.

Definition AuthorizeSecurityGroupEgress (i : ec2Types.AuthorizeInput)
  : list ec2Types.SecurityGroupRule :=
  (fun p => ec2Types.mkSecurityGroupRule None (ec2Types.perm_IpProtocol p)
     (ec2Types.perm_FromPort p) (ec2Types.perm_ToPort p) None None) <$> ec2Types.IpPermissions i.

Definition CreateVpcEndpoint (m : MockedEC2) (i : ec2Types.CreateVpcEndpointInput)
  : MockedEC2 * option ec2Types.VpcEndpoint :=
  (mkMockedEC2 (Subnets m) (Some i) (deletedVpceIds m),
   Some (ec2Types.mkVpcEndpoint (Some MockVpcEndpointId) "available" None [] [] None [])).

Definition AcceptVpcEndpointConnections (ids : list string) : error + unit :=
  match ids with
  | [] => inl (EOpaque ("1 validation error(s) found." +:+
                        String (Ascii.ascii_of_nat 10) "- missing required field"))
  | _ => inr tt
  end.

Definition DeleteVpcEndpoints (m : MockedEC2) (ids : list string) : MockedEC2 :=
  mkMockedEC2 (Subnets m) (LastCreateVpcEndpointInput m) (deletedVpceIds m ∪ list_to_set ids).

(** An endpoint as the double reports it. *)
Definition mockEndpoint (id : string) : ec2Types.VpcEndpoint :=
  ec2Types.mkVpcEndpoint (Some id) "available" None [] [] None [Some MockVpcEndpointDnsName].

Fixpoint endpointsByFilter (filters : list ec2Types.Filter)
  : outcome (list ec2Types.VpcEndpoint) :=
  match filters with
  | [] => Ok []
  | f :: filters' =>
      obind (deref (ec2Types.flt_Name f)) (fun name =>
      if String.eqb name "tag-key"
      then obind (first_value f) (fun _ => Ok [mockEndpoint MockVpcEndpointId])
      else endpointsByFilter filters')
  end.

Definition DescribeVpcEndpoints (m : MockedEC2) (filters : list ec2Types.Filter)
    (ids : list string) : outcome (error + list ec2Types.VpcEndpoint) :=
  match ids with
  | id :: _ =>
      if bool_decide (id ∈ deletedVpceIds m) then
        let msg := "VpcEndpointId '" +:+ id +:+ "' does not exist" in
        Ok (inl (EApi "InvalidVpcEndpointId.NotFound" msg
                   ("api error InvalidVpcEndpointId.NotFound: " +:+ msg)))
      else Ok (inr [mockEndpoint id])
  | [] => obind (endpointsByFilter filters) (fun l => Ok (inr l))
  end.

(** ** [MockedRoute53] *)

Definition GetHostedZone : route53Types.GetHostedZoneOutput :=
  route53Types.mkGetHostedZoneOutput
    (Some (route53Types.mkHostedZone (Some ("/hostedzone/" +:+ MockHostedZoneId))
             (Some "example.com.") None)) [].

Definition ListHostedZonesByName (dnsName : string) : list route53Types.HostedZone :=
  [route53Types.mkHostedZone (Some MockHostedZoneId) (Some dnsName) None].

Definition mockResourceRecordSet : route53Types.ResourceRecordSet :=
  route53Types.mkResourceRecordSet (Some "mock") route53Types.RRTypeCname (Some 300%Z)
    [Some MockVpcEndpointDnsName].

Definition ListResourceRecordSets : list route53Types.ResourceRecordSet :=
  [mockResourceRecordSet].

Definition ListHostedZonesByVPC : list route53Types.HostedZoneSummary :=
  [route53Types.mkHostedZoneSummary (Some MockHostedZoneId) (Some "example.com.")].

Definition ListTagsForResource : option (list AwsTag) := Some [].

(** [MockedThrottlingRoute53] overrides this method only. *)
Definition ChangeResourceRecordSets (throttling : bool) : error + unit :=
  if throttling then inl (EApi "Throttling" "Rate exceeded" "api error Throttling: Rate exceeded")
  else inr tt.

(** ** What the doubles do *)

(** Every tag has a key, and no key occurs twice. *)
Definition tags_wf (s : MockSubnet) : Prop :=
  Forall (fun t => is_Some (tag_Key t)) (subnet_Tags s) /\
  NoDup (tag_Key <$> subnet_Tags s).

(** The subnet has a tag for each of the keys, of which there are some. *)
Definition carries (tagKeys : gset string) (s : MockSubnet) : Prop :=
  tagKeys <> ∅ /\ forall k, k ∈ tagKeys -> Some k ∈ tag_Key <$> subnet_Tags s.

#[export] Instance carries_dec tagKeys s : Decision (carries tagKeys s).
Proof.
  refine (cast_if (decide (tagKeys <> ∅ /\
    set_Forall (fun k => Some k ∈ tag_Key <$> subnet_Tags s) tagKeys))); done.
Defined.

Lemma tagsWithKey_spec k s :
  tags_wf s ->
  tagsWithKey k (subnet_Tags s) =
  Ok (if decide (Some k ∈ tag_Key <$> subnet_Tags s) then 1 else 0).
Proof.
  intros [Hkeys Hnd]. induction Hkeys as [|[tk tv] tags [k' Hk] Hkeys IH]; csimpl; [done|].
  simpl in Hk. subst tk. csimpl in Hnd. apply NoDup_cons in Hnd as [Hk' Hnd].
  rewrite IH by done. cbn. destruct (String.eqb_spec k' k) as [->|Hne].
  - rewrite decide_False by done. by rewrite decide_True by by left.
  - f_equal. apply decide_ext. rewrite elem_of_cons. naive_solver.
Qed.

(** The count reaches the number of wanted keys when each of them is there. *)
Lemma subnetMatches_spec wanted found s keys :
  tags_wf s -> found < wanted -> found + length keys <= wanted ->
  subnetMatches wanted found (subnet_Tags s) keys =
  Ok (bool_decide (found + length keys = wanted /\
                   Forall (fun k => Some k ∈ tag_Key <$> subnet_Tags s) keys)).
Proof.
  intros Hs. revert found. induction keys as [|k keys IH]; intros found Hlt Hle;
    cbn [subnetMatches length] in *.
  { rewrite bool_decide_eq_false_2; [done|]. lia. }
  rewrite tagsWithKey_spec by done. cbn [obind].
  destruct (decide (Some k ∈ tag_Key <$> subnet_Tags s)) as [Hk|Hk].
  - destruct (Nat.eqb_spec (found + 1) wanted) as [Heq|Hne].
    + assert (length keys = 0) as ->%nil_length_inv by lia.
      rewrite bool_decide_eq_true_2; [done|]. split; [simpl; lia|by repeat constructor].
    + rewrite IH by lia. f_equal. apply bool_decide_ext. rewrite Forall_cons.
      split; intros [? ?]; (split; [lia|tauto]).
  - rewrite Nat.add_0_r. destruct (Nat.eqb_spec found wanted) as [Heq|Hne]; [lia|].
    rewrite IH by lia. f_equal. rewrite !bool_decide_eq_false_2; [done| |lia].
    rewrite Forall_cons. tauto.
Qed.

Lemma findSubnet_spec orders tagKeys subnets :
  Forall valid_order orders -> Forall tags_wf subnets ->
  findSubnet orders tagKeys subnets =
  Ok (option_list (subnet <$> head (filter (carries tagKeys) subnets))).
Proof.
  intros Ho Hs. revert orders Ho. induction Hs as [|s subnets Hwf _ IH]; intros orders Ho; [done|].
  cbn [findSubnet]. set (o := hd elements orders).
  assert (Hvo : valid_order o) by (destruct Ho; [apply valid_order_elements|done]).
  assert (Hlen : length (o tagKeys) = size tagKeys) by by rewrite (Hvo tagKeys).
  assert (Hm : subnetMatches (size tagKeys) 0 (subnet_Tags s) (o tagKeys) =
    Ok (bool_decide (carries tagKeys s))).
  { destruct (decide (tagKeys = ∅)) as [->|Hne].
    - rewrite size_empty in *. apply nil_length_inv in Hlen. rewrite Hlen. cbn.
      rewrite bool_decide_eq_false_2; [done|]. by intros [].
    - rewrite subnetMatches_spec; [|done| |lia].
      + f_equal. apply bool_decide_ext. unfold carries. rewrite Forall_forall. cbn.
        setoid_rewrite (valid_order_elem o tagKeys); [|done]. naive_solver.
      + assert (size tagKeys <> 0) by (rewrite size_empty_iff; set_solver). lia. }
  rewrite Hm. cbn [obind]. rewrite filter_cons.
  case_bool_decide as Hc; case_decide; try done. apply IH.
  destruct Ho; [constructor|done].
Qed.

(** Whatever the orders of its maps, the double answers the first subnet that has
    all the filters' values among its tag keys. *)
Lemma DescribeSubnets_spec orders m filters :
  Forall valid_order orders -> Forall tags_wf (Subnets m) ->
  DescribeSubnets orders m filters =
  Ok (option_list (subnet <$> head (filter (carries (tagKeysOf filters)) (Subnets m)))).
Proof. apply findSubnet_spec. Qed.

(** A deleted endpoint is not found any more, the others still are. *)
Lemma deleted_not_found m ids id :
  DescribeVpcEndpoints (DeleteVpcEndpoints m ids) [] [id] =
  if decide (id ∈ ids)
  then DescribeVpcEndpoints (mkMockedEC2 [] None {[id]}) [] [id]
  else DescribeVpcEndpoints m [] [id].
Proof.
  unfold DescribeVpcEndpoints, DeleteVpcEndpoints. simpl.
  case_decide as Hid; repeat case_bool_decide; try done; set_solver.
Qed.

(** ** A world of doubles *)

(** A method that panics, in a world that can only answer errors. *)
Definition answer_of {A} (o : outcome A) : error + A :=
  match o with
  | Ok a => inr a
  | Err e => inl e
  | Panic w => inl (EOpaque w)
  | OutOfFuel => inl (EOpaque "out of fuel")
  end.

(** The methods that [MockedEC2] leaves to the nil interface it embeds. *)
Definition notMocked {A} : error + A :=
  inl (EOpaque "invalid memory address or nil pointer dereference").

Definition join {A} (r : error + (error + A)) : error + A :=
  match r with inl e => inl e | inr r => r end.

Definition ec2 {R} (op : ec2op R) (m : MockedEC2) : MockedEC2 * (error + R) :=
  match op in ec2op R return MockedEC2 * (error + R) with
  | Calls.DescribeSubnets filters _ => (m, answer_of (DescribeSubnets [] m filters))
  | Calls.CreateSecurityGroup i => (m, inr (CreateSecurityGroup i))
  | Calls.DeleteSecurityGroup _ => (m, inr tt)
  | Calls.DescribeSecurityGroups filters ids =>
      (m, answer_of (DescribeSecurityGroups filters ids))
  | WaitSecurityGroupExists ids _ => (m, inr tt) (* the waiter finds the groups it asks for *)
  | Calls.DescribeSecurityGroupRules _ => (m, inr DescribeSecurityGroupRules)
  | Calls.DescribeVpcs _ ids => (m, inr (DescribeVpcs ids))
  | Calls.AuthorizeSecurityGroupIngress i => (m, inr (AuthorizeSecurityGroupIngress i))
  | Calls.AuthorizeSecurityGroupEgress i => (m, inr (AuthorizeSecurityGroupEgress i))
  | Calls.CreateTags _ _ => (m, inr tt)
  | Calls.CreateVpcEndpoint i => let '(m, v) := CreateVpcEndpoint m i in (m, inr v)
  | Calls.AcceptVpcEndpointConnections _ ids => (m, AcceptVpcEndpointConnections ids)
  | DescribeVpcEndpointConnections _ => (m, inr [])
  | Calls.DeleteVpcEndpoints ids => (DeleteVpcEndpoints m ids, inr tt)
  | Calls.DescribeVpcEndpoints filters ids =>
      (m, join (answer_of (DescribeVpcEndpoints m filters ids)))
  | Calls.ModifyVpcEndpoint _ => (m, inr tt)
  | DescribeVpcEndpointsPages _ => (m, notMocked)
  | DescribeVpcEndpointServices _ => (m, notMocked)
  end.

Definition r53 {R} (throttling : bool) (op : route53op R) : error + R :=
  match op in route53op R return error + R with
  | Calls.GetHostedZone _ => inr GetHostedZone
  | Calls.ListHostedZonesByName name => inr (ListHostedZonesByName name)
  | Calls.ListResourceRecordSets _ => inr ListResourceRecordSets
  | Calls.ChangeResourceRecordSets _ => ChangeResourceRecordSets throttling
  | Calls.ListTagsForResource _ _ => inr ListTagsForResource
  | Calls.ListHostedZonesByVPC _ _ => inr ListHostedZonesByVPC
  | Calls.ChangeTagsForResource _ => inr tt
  | _ => notMocked
  end.

Record MockState (K : Type) := mkMockState {
  ec2Client : MockedEC2;
  throttlingRoute53 : bool;
  kubeClient : K
}.
Arguments mkMockState {K} ec2Client throttlingRoute53 kubeClient.
Arguments ec2Client {K} _.
Arguments throttlingRoute53 {K} _.
Arguments kubeClient {K} _.

(** [NewMockedAwsClient], [NewMockedAwsClientWithSubnets] and
    [NewMockedThrottlingAwsClient]. *)
Definition NewMockedAwsClient {K} (k : K) : MockState K := mkMockState NewMockedEC2 false k.
Definition NewMockedAwsClientWithSubnets {K} (k : K) : MockState K :=
  mkMockState NewMockedEC2WithSubnets false k.
Definition NewMockedThrottlingAwsClient {K} (k : K) : MockState K :=
  mkMockState NewMockedEC2 true k.

(** The fake Kubernetes client is an argument; the clock stands still. *)
Definition world {K} (fake : forall R, kubeop R -> K -> K * (error + R)) : World (MockState K) :=
  fun R (c : call R) w =>
  match c in call R return MockState K * (error + R) with
  | EC2 _ op => let '(m, r) := ec2 op (ec2Client w) in
                (mkMockState m (throttlingRoute53 w) (kubeClient w), r)
  | R53 _ op => (w, r53 (throttlingRoute53 w) op)
  | Kube op => let '(k, r) := fake _ op (kubeClient w) in
               (mkMockState (ec2Client w) (throttlingRoute53 w) k, r)
  | LoadDefaultConfig region creds => (w, inr (mkAwsConfig region (default CredDefault creds)))
  | Now => (w, inr 0%Z)
  | AfterOrDone _ => (w, inr tt)
  | RangeOrder => (w, inr elements)
  | LookupEnv _ => (w, inr None)
  | Metric _ => (w, inr tt)
  | Event _ _ _ => (w, inr tt)
  | Enqueue _ _ => (w, inr tt)
  end.

(** ** The tables of the unit tests *)

Module Tests.

(** A client that holds the default objects and the one under test, and accepts
    every write to it. *)
Definition fake R (op : kubeop R) (k : option VpcEndpoint) : option VpcEndpoint * (error + R) :=
  match op in kubeop R return option VpcEndpoint * (error + R) with
  | GetVpcEndpoint _ _ =>
      (k, match k with Some v => inr v | None => inl (EStatus "NotFound" "not found") end)
  | UpdateVpcEndpoint v => (Some v, inr "2")
  | UpdateVpcEndpointStatus v => (Some v, inr "2")
  | GetDNS _ => (k, inr mockDnses)
  | GetInfrastructure _ => (k, inr mockInfrastructure)
  | _ => (k, inl (EStatus "NotFound" "not found"))
  end.

#[local] Instance tests_world : World (MockState (option VpcEndpoint)) := world fake.
#[local] Existing Instance K8sRef.helpers.

Definition cfg : option AwsConfig := Some (mkAwsConfig MockAWSRegion CredDefault).

(** The outcome of a method of the client. *)
Definition on_client {A} (w : MockState (option VpcEndpoint)) (m : M _ unit A) : outcome A :=
  (m (mkSys w [] tt)).1.

Definition no_error {A} (o : outcome A) : bool := match o with Ok _ => true | _ => false end.

Abbreviation mocked := (NewMockedAwsClient None).
Abbreviation subnetted := (NewMockedAwsClientWithSubnets None).

(** [pkg/aws_client/security_group_test.go]. *)
Example FilterClusterNodeSecurityGroups_test :
  no_error (on_client mocked
    (AWSClient.FilterClusterNodeSecurityGroupsByDefaultTags cfg "mock-12345")) = true.
Proof. vm_compute. reflexivity. Qed.

Example FilterSecurityGroupById_test :
  length <$> match on_client mocked (AWSClient.FilterSecurityGroupById cfg MockSecurityGroupId)
             with Ok r => r | _ => None end = Some 1.
Proof. vm_compute. reflexivity. Qed.

Example CreateDeleteSecurityGroup_test :
  on_client mocked (AWSClient.CreateSecurityGroup cfg "name" MockVpcId MockLegacyClusterTag) =
    Ok (Some MockSecurityGroupId) /\
  on_client mocked (AWSClient.DeleteSecurityGroup cfg MockSecurityGroupId) = Ok tt.
Proof. vm_compute. done. Qed.

(** [pkg/aws_client/security_group_rules_test.go]. *)
Definition permission80 : ec2Types.IpPermission :=
  ec2Types.mkIpPermission (Some "tcp") (Some 80%Z) (Some 80%Z) [] [].

Example AuthorizeSecurityGroupRules_test :
  let i := ec2Types.mkAuthorizeInput (Some MockSecurityGroupId) [permission80] [] in
  match on_client mocked (AWSClient.AuthorizeSecurityGroupRules cfg i i) with
  | Ok rules => length rules = 2
  | _ => False
  end.
Proof. vm_compute. reflexivity. Qed.

(** [pkg/aws_client/subnet_test.go]. *)
Example DescribeSubnets_test :
  no_error (on_client subnetted
    (AWSClient.AutodiscoverPrivateSubnets cfg MockLegacyClusterTag [])) = true /\
  no_error (on_client subnetted
    (AWSClient.AutodiscoverPrivateSubnets cfg "doesn't exist" [])) = false.
Proof. vm_compute. done. Qed.

(** [pkg/aws_client/vpc_endpoint_test.go]. *)
Example DescribeSingleVPCEndpointById_test :
  match on_client mocked (AWSClient.DescribeSingleVPCEndpointById cfg MockVpcEndpointId) with
  | Ok (Some [v]) => ec2Types.VpcEndpointId v = Some MockVpcEndpointId
  | _ => False
  end.
Proof. vm_compute. reflexivity. Qed.

Example GetVpcCidrBlock_test :
  on_client mocked (AWSClient.GetVpcCidrBlock cfg MockVpcId) = Ok MockVpcCidr /\
  no_error (on_client mocked (AWSClient.GetVpcCidrBlock cfg "")) = false.
Proof. vm_compute. done. Qed.

(** [pkg/aws_client/vpc_endpoint_service_test.go]. *)
Example AcceptVpcEndpointConnections_test :
  on_client mocked
    (AWSClient.AcceptVpcEndpointConnections cfg MockVpcEndpointServiceId []) = Ok tt /\
  on_client mocked
    (AWSClient.AcceptVpcEndpointConnections cfg MockVpcEndpointServiceId ["vpce-12345"]) = Ok tt.
Proof. vm_compute. done. Qed.

(** ** [controllers/vpcendpoint/validation_test.go] and [cleanup_test.go] *)

(** An object with little but a status; the zero value of the rest. *)
Definition mock (privateDns : bool) (group : SecurityGroup) (sgId vpceId infraId : string)
    (conds : list metav1.Condition) : VpcEndpoint :=
  mkVpcEndpoint (metav1.mkObjectMeta "mock1" "" ∅ 0 None [] "")
    (mkVpcEndpointSpec "" None group "" None "" privateDns (mkVpc false [] [] [] [])
       (mkCustomDns (mkRoute53PrivateHostedZone false [] "" None ""
          (mkRoute53HostedZoneRecord "" (mkExternalNameService "")))))
    (mkVpcEndpointStatus "" sgId "" vpceId "" "" "" infraId conds).

Definition noRules : SecurityGroup := mkSecurityGroup [] [] false.
Definition oneRule : SecurityGroup :=
  let rule := mkSecurityGroupRule "" 0 0 "tcp" in mkSecurityGroup [rule] [rule] false.

Definition run {A} (flag : bool) (w : option VpcEndpoint -> MockState (option VpcEndpoint))
    (m : M _ Mem A) (v : VpcEndpoint) : outcome A * Sys (MockState (option VpcEndpoint)) Mem :=
  m (mkSys (w (Some v)) [] (mkMem (mkVpcEndpointReconciler flag cfg None
       (Some (mkClusterInfo MockLegacyClusterTag "")) None) v)).

(** No error, and the condition is true. *)
Definition passes (t : string) {A}
    (r : outcome A * Sys (MockState (option VpcEndpoint)) Mem) : bool :=
  (no_error r.1 && IsStatusConditionTrue (Conditions (status (resource (local r.2)))) t)%bool.

Example validateSecurityGroup_test :
  passes AWSSecurityGroupCondition
    (run false NewMockedAwsClientWithSubnets (validateSecurityGroup resource_ptr_)
       (mock false oneRule MockSecurityGroupId "" MockInfrastructureName [])) = true /\
  no_error (run false NewMockedAwsClientWithSubnets (validateSecurityGroup nil_ptr)
    (mock false oneRule MockSecurityGroupId "" MockInfrastructureName [])).1 = false.
Proof. vm_compute. done. Qed.

(** With and without the operator's switch for private DNS. *)
Example validateVPCEndpoint_test :
  forallb (fun flag => passes AWSVpcEndpointCondition
    (run flag NewMockedAwsClientWithSubnets (validateVPCEndpoint resource_ptr_)
       (mock true noRules "" MockVpcEndpointId "" []))) [true; false] = true /\
  no_error (run false NewMockedAwsClientWithSubnets (validateVPCEndpoint nil_ptr)
    (mock false noRules "" MockVpcEndpointId "" [])).1 = false.
Proof. vm_compute. done. Qed.

Example validateCustomDns_test :
  forallb (fun flags : bool * bool =>
    let r := run flags.1 NewMockedAwsClient (validateCustomDns resource_ptr_)
               (mock flags.2 noRules "" "" "" []) in
    (no_error r.1 && match condition_of (Conditions (status (resource (local r.2))))
                           AWSRoute53RecordCondition with None => true | Some _ => false end)%bool)
    [(true, true); (true, false); (false, true); (false, false)] = true.
Proof. vm_compute. reflexivity. Qed.

(** Without private DNS, the empty zone id is asked for, although no DNS is
    configured at all. *)
Example validateCustomDns_asks_for_empty_zone :
  existsb (fun e => match e with Ev (R53 _ (Calls.GetHostedZone "/hostedzone/")) _ => true
                            | _ => false end)
    (trace (run false NewMockedAwsClient (validateCustomDns resource_ptr_)
              (mock false noRules "" "" "" [])).2) = true.
Proof. vm_compute. reflexivity. Qed.

Example isVpcEndpointReady_test :
  let c t s := metav1.mkCondition t s "" "" in
  let ready conds := isVpcEndpointReady (mock false noRules "" "" "" conds) in
  ready [] = false /\
  ready [c AWSSecurityGroupCondition "True"; c AWSVpcEndpointCondition "True";
         c AWSRoute53RecordCondition "True"] = true /\
  ready [c AWSSecurityGroupCondition "True"; c AWSVpcEndpointCondition "False"] = false /\
  ready [c AWSSecurityGroupCondition "False"] = false /\
  ready [c AWSSecurityGroupCondition "True"; c AWSVpcEndpointCondition "True"] = true.
Proof. vm_compute. done. Qed.

Example cleanupAwsResources_test :
  forallb (fun v => no_error (run false NewMockedAwsClientWithSubnets
                                (cleanupAwsResources resource_ptr_) v).1)
    [ mock false noRules MockSecurityGroupId MockVpcEndpointId ""
        [metav1.mkCondition ExternalNameServiceCondition "True" "" ""];
      mock true noRules MockSecurityGroupId MockVpcEndpointId "" [] ] = true.
Proof. vm_compute. reflexivity. Qed.

(** The double that throttles keeps the record step from succeeding. *)
Example throttled_record :
  no_error (run false NewMockedThrottlingAwsClient (validateR53HostedZoneRecord resource_ptr_)
    (mock false noRules "" MockVpcEndpointId "" [])).1 = false /\
  passes AWSRoute53RecordCondition
    (run false NewMockedAwsClient (validateR53HostedZoneRecord resource_ptr_)
       (mock false noRules "" MockVpcEndpointId "" [])) = true.
Proof. vm_compute. done. Qed.

End Tests.

End Mock.
