(* ===== verification/ApiServer.v ===== *)
(** * The API server, seen by the controllers

    The VpcEndpoint objects in the API server and the writes on them: optimistic
    locking by resource version, the status subresource, finalizers.  [others]
    says what users and the remaining controllers may do to an object at any
    moment; the class [ApiServer] says that a world answers the controllers'
    calls the way an API server does, with such steps in between. *)
From S2P Require Import Prelude GoError Naming Types Calls GoMonad.
From S2P Require Import AwsClient Lookups Controller Helpers HostedZones Validation Cleanup Reconcile.
Import avov1alpha2 Reconcile.

Module ApiServer.

Definition Key : Type := string * string.

Definition key (v : VpcEndpoint) : Key :=
  (metav1.Namespace (meta v), metav1.Name (meta v)).
Definition version (v : VpcEndpoint) : string := metav1.ResourceVersion (meta v).
Definition finalizers (v : VpcEndpoint) : list string := metav1.Finalizers (meta v).
Definition deletion (v : VpcEndpoint) : option Z := metav1.DeletionTimestamp (meta v).
Definition with_version (rv : string) (v : VpcEndpoint) : VpcEndpoint :=
  set_meta (set_ResourceVersion_meta rv) v.

(** The AWS resources a status records. *)
Definition ids (s : VpcEndpointStatus) : string * string * string * string :=
  (SecurityGroupId s, VPCEndpointId s, HostedZoneId s, ResourceRecordSet s).
Definition no_ids : string * string * string * string := ("", "", "", "").

(** The objects that are stored, and every version that ever was: what a cache
    may still answer. *)
Record Api := mkApi { store : gmap Key VpcEndpoint; history : list VpcEndpoint }.

Definition put (v : VpcEndpoint) (a : Api) : Api :=
  mkApi (<[key v := v]> (store a)) (v :: history a).
Definition drop (k : Key) (a : Api) : Api := mkApi (delete k (store a)) (history a).

(** The resource version of [v] is new for its key. *)
Definition fresh_version (v : VpcEndpoint) (a : Api) : Prop :=
  version v <> "" /\ forall v', v' ∈ history a -> key v' = key v -> version v' <> version v.

(** ** What others do

    Users and the other controllers create objects, without a status; edit
    them, but for the operator's finalizer; delete them; and controllers write
    the status.  Only an object that carries the finalizer, or that is already
    being deleted, gets another set of recorded resources. *)
Inductive others : Api -> Api -> Prop :=
| others_create v a :
    store a !! key v = None -> status v = VpcEndpointStatus_zero -> deletion v = None ->
    fresh_version v a -> others a (put v a)
| others_edit cur v a :
    store a !! key v = Some cur -> status v = status cur -> deletion v = deletion cur ->
    (avoFinalizer ∈ finalizers cur -> avoFinalizer ∈ finalizers v) ->
    fresh_version v a -> others a (put v a)
| others_status cur v a :
    store a !! key v = Some cur -> finalizers v = finalizers cur -> deletion v = deletion cur ->
    ids (status v) = ids (status cur) \/ avoFinalizer ∈ finalizers cur \/ deletion cur <> None ->
    fresh_version v a -> others a (put v a)
| others_delete cur v a :
    store a !! key v = Some cur -> finalizers v = finalizers cur -> status v = status cur ->
    deletion cur = None -> deletion v <> None ->
    fresh_version v a -> others a (put v a)
| others_remove k cur a :
    store a !! k = Some cur -> finalizers cur = [] -> others a (drop k a).

(** The step only the VpcEndpoint controller takes: the object of the key [k],
    which is being deleted, loses the finalizer. *)
Inductive step (k : Key) : Api -> Api -> Prop :=
| step_others a a' : others a a' -> step k a a'
| step_release cur v a :
    key v = k -> store a !! k = Some cur -> deletion cur <> None -> deletion v = deletion cur ->
    status v = status cur -> fresh_version v a -> step k a (put v a).

(** ** What the server does with a write

    [written rv new cur a a'] stores [new] in place of [cur] under the version
    [rv]: unchanged objects keep their version, and an object that is being
    deleted goes away with its last finalizer. *)
Definition settle (v : VpcEndpoint) (a : Api) : Api :=
  match deletion v, finalizers v with
  | Some _, [] => drop (key v) a
  | _, _ => a
  end.

Definition written (rv : string) (new cur : VpcEndpoint) (a a' : Api) : Prop :=
  (with_version (version cur) new = cur /\ rv = version cur /\ a' = a) \/
  (fresh_version (with_version rv new) a /\
   a' = settle new (put (with_version rv new) a)).

(** A PUT changes everything but the status, the deletion timestamp and what the
    server owns; a PUT of the status changes only that. *)
Definition put_object (v cur : VpcEndpoint) : VpcEndpoint :=
  mkVpcEndpoint
    (metav1.mkObjectMeta (metav1.Name (meta cur)) (metav1.Namespace (meta cur))
       (metav1.Labels (meta v)) (metav1.CreationTimestamp (meta cur)) (deletion cur)
       (finalizers v) "")
    (Spec v) (status cur).
Definition put_status (v cur : VpcEndpoint) : VpcEndpoint := set_status (fun _ => status v) cur.

(** An accepted update of [v]: its version is the stored one, or empty. *)
Definition updated (result : VpcEndpoint -> VpcEndpoint -> VpcEndpoint) (v : VpcEndpoint)
    (rv : string) (a a' : Api) : Prop :=
  exists cur, store a !! key v = Some cur /\ (version v = "" \/ version v = version cur) /\
    written rv (result v cur) cur a a'.

(** An accepted POST. *)
Definition created (v : VpcEndpoint) (a a' : Api) : Prop :=
  exists rv, let new := mkVpcEndpoint
      (metav1.mkObjectMeta (metav1.Name (meta v)) (metav1.Namespace (meta v))
         (metav1.Labels (meta v)) (metav1.CreationTimestamp (meta v)) None (finalizers v) rv)
      (Spec v) VpcEndpointStatus_zero in
    store a !! key v = None /\ fresh_version new a /\ a' = put new a.

(** An accepted DELETE. *)
Definition set_deletion (t : Z) (rv : string) (v : VpcEndpoint) : VpcEndpoint :=
  set_meta (fun m => metav1.mkObjectMeta (metav1.Name m) (metav1.Namespace m) (metav1.Labels m)
    (metav1.CreationTimestamp m) (Some t) (metav1.Finalizers m) rv) v.

Definition deleted (k : Key) (a a' : Api) : Prop :=
  exists cur, store a !! k = Some cur /\
    match finalizers cur, deletion cur with
    | [], _ => a' = drop k a
    | _, Some _ => a' = a
    | _, None => exists t rv, fresh_version (set_deletion t rv cur) a /\
                   a' = put (set_deletion t rv cur) a
    end.

(** Whether the answer to a write was lost or it was refused, a client cannot
    tell. *)
Definition maybe {R} (r : error + R) (accepted : R -> Api -> Api -> Prop) (a a' : Api) : Prop :=
  match r with
  | inr x => accepted x a a'
  | inl _ => a' = a \/ exists x, accepted x a a'
  end.

(** The effect of a call with its answer. *)
Definition kube_effect {R} (op : kubeop R) : error + R -> Api -> Api -> Prop :=
  match op in kubeop R return error + R -> Api -> Api -> Prop with
  | GetVpcEndpoint ns n => fun r a a' => a' = a /\
      forall v, r = inr v -> v ∈ history a /\ key v = (ns, n)
  | ListVpcEndpoints _ _ => fun r a a' => a' = a /\
      forall vs, r = inr vs -> vs ⊆ history a
  | UpdateVpcEndpoint v => fun r => maybe r (updated put_object v)
  | UpdateVpcEndpointStatus v => fun r => maybe r (updated put_status v)
  | CreateVpcEndpointCR v => fun r => maybe r (fun _ => created v)
  | DeleteVpcEndpointCR v => fun r => maybe r (fun _ => deleted (key v))
  | _ => fun _ a a' => a' = a
  end.

Definition effect {R} (c : call R) : error + R -> Api -> Api -> Prop :=
  match c in call R return error + R -> Api -> Api -> Prop with
  | Kube op => kube_effect op
  | _ => fun _ a a' => a' = a
  end.

(** A world with an API server: around each call others may have taken steps. *)
Class ApiServer `{World W} (api : W -> Api) : Prop :=
  api_effect : forall R (c : call R) w w' r, handle c w = (w', r) ->
    exists a1 a2, rtc others (api w) a1 /\ effect c r a1 a2 /\ rtc others a2 (api w').

(** ** What holds of every state *)

(** A live object whose status records resources carries the finalizer. *)
Definition guarded (v : VpcEndpoint) : Prop :=
  deletion v = None -> ids (status v) <> no_ids -> avoFinalizer ∈ finalizers v.

Record wf (a : Api) : Prop := mkWf {
  wf_store k v : store a !! k = Some v -> key v = k /\ v ∈ history a;
  wf_unique v1 v2 : v1 ∈ history a -> v2 ∈ history a -> key v1 = key v2 ->
    version v1 = version v2 -> v1 = v2;
  wf_version v : v ∈ history a -> version v <> "";
  wf_guarded v : v ∈ history a -> guarded v
}.

Lemma wf_put v a : wf a -> fresh_version v a -> guarded v -> wf (put v a).
Proof.
  intros Hw [Hne Hf] Hg. split.
  - intros k v'. cbn. rewrite lookup_insert_Some. intros [[<- <-]|[_ Hv']].
    + split; [done|by left].
    + apply Hw in Hv' as [? ?]. split; [done|by right].
  - intros v1 v2 [->|H1]%elem_of_cons [->|H2]%elem_of_cons Hk Hv; [done| | |].
    + by destruct (Hf v2 H2 (eq_sym Hk)).
    + by destruct (Hf v1 H1 Hk).
    + by apply (wf_unique a).
  - intros v' [->|Hv']%elem_of_cons; [done|by apply (wf_version a)].
  - intros v' [->|Hv']%elem_of_cons; [done|by apply (wf_guarded a)].
Qed.

Lemma wf_drop k a : wf a -> wf (drop k a).
Proof.
  intros [Hs Hu Hv Hg]. split; [|done..].
  intros k' v'. cbn. rewrite lookup_delete_Some. intros [_ ?]. by apply Hs.
Qed.

Lemma others_wf a a' : others a a' -> wf a -> wf a'.
Proof.
  intros Ho Hw. destruct Ho as [v a Hn Hs Hd Hf|cur v a Hc Hs Hd Hi Hf|cur v a Hc Hi Hd Ha Hf
    |cur v a Hc Hi Hs Hd Hd' Hf|k cur a Hc Hi]; try (by apply wf_drop); apply wf_put; try done.
  - intros _ Hne. destruct Hne. by rewrite Hs.
  - intros Hl Hne. apply Hi. rewrite Hd in Hl. rewrite Hs in Hne.
    apply (wf_guarded a); [done|by eapply wf_store|done..].
  - intros Hl Hne. rewrite Hi. rewrite Hd in Hl. destruct Ha as [Ha|[Ha|Ha]]; [|done|done].
    rewrite Ha in Hne. apply (wf_guarded a); [done|by eapply wf_store|done..].
  - by intros Hl.
Qed.

Lemma others_history a a' : others a a' -> history a ⊆ history a'.
Proof. destruct 1; cbn; set_solver. Qed.

Lemma rtc_others_wf a a' : rtc others a a' -> wf a -> wf a'.
Proof. induction 1; eauto using others_wf. Qed.

Lemma rtc_others_history a a' : rtc others a a' -> history a ⊆ history a'.
Proof. induction 1 as [|a a1 a2 H1 _ IH]; [done|]. apply others_history in H1. set_solver. Qed.

Lemma step_wf k a a' : step k a a' -> wf a -> wf a'.
Proof.
  intros [? ? Ho|cur v a0 Hk Hc Hd Hd' Hs Hf] Hw; [by eapply others_wf|].
  apply wf_put; [done..|]. intros Hl. congruence.
Qed.

Lemma rtc_step_wf k a a' : rtc (step k) a a' -> wf a -> wf a'.
Proof. induction 1; eauto using step_wf. Qed.

Lemma rtc_step_history k a a' : rtc (step k) a a' -> history a ⊆ history a'.
Proof.
  induction 1 as [|a a1 a2 Hs _ IH]; [done|].
  destruct Hs as [? ? Ho%others_history|]; cbn in *; set_solver.
Qed.

Lemma rtc_others_step k a a' : rtc others a a' -> rtc (step k) a a'.
Proof. induction 1; [done|]. eapply rtc_l; [by apply step_others|done]. Qed.

(** An object that is in the store with the operator's finalizer. *)
Definition held (k : Key) (a : Api) : Prop :=
  exists v, store a !! k = Some v /\ avoFinalizer ∈ finalizers v.

(** The stored object is [v] or its key is another one. *)
Lemma held_put k v a :
  held k a -> (key v = k -> avoFinalizer ∈ finalizers v) -> held k (put v a).
Proof.
  intros (v0 & Hv0 & Hin) Hv. unfold held. cbn. destruct (decide (key v = k)) as [<-|Hne].
  - exists v. rewrite lookup_insert_eq. auto.
  - exists v0. by rewrite lookup_insert_ne.
Qed.

(** Others never release an object. *)
Lemma others_held k a a' : others a a' -> held k a -> held k a'.
Proof.
  intros Ho Hh. pose proof Hh as (v0 & Hv0 & Hin).
  destruct Ho as [v a Hn|cur v a Hc Hs Hd Hi|cur v a Hc Hi|cur v a Hc Hi|k' cur a Hc Hi];
    try (apply held_put; [done|]; intros <-; simplify_eq; try rewrite Hi; auto; done).
  exists v0. split; [|done]. cbn. rewrite lookup_delete_ne; [done|]. intros ->.
  simplify_eq. rewrite Hi in Hin. by apply elem_of_nil in Hin.
Qed.

Lemma rtc_others_held k a a' : rtc others a a' -> held k a -> held k a'.
Proof. induction 1; eauto using others_held. Qed.

(** Nor does the VpcEndpoint controller release an object of another key. *)
Lemma step_held k k' a a' : step k' a a' -> k <> k' -> held k a -> held k a'.
Proof.
  intros [? ? Ho|cur v a0 Hk _ _ _ _ _] Hne Hh; [by eapply others_held|].
  apply held_put; [done|]. congruence.
Qed.

Lemma rtc_step_held k k' a a' : rtc (step k') a a' -> k <> k' -> held k a -> held k a'.
Proof. induction 1; eauto using step_held. Qed.

End ApiServer.
