(* ===== verification/ClusterSim.v ===== *)
(** * A simulated cluster with a real API server

    The simulated services of Sim.v around an API server that keeps objects by
    name and enforces resource versions, the status subresource and finalizers.
    It is an [ApiServer], and the operator can be run in it from the creation of
    an object to its end. *)
From S2P Require Import Prelude GoError Naming Types Calls GoMonad.
From S2P Require Import AwsClient Lookups Controller Helpers HostedZones Validation Cleanup Reconcile.
From S2P Require Import Sim ApiServer.
From Stdlib Require Ascii.
Import avov1alpha2 Reconcile ApiServer.

Module ClusterSim.

#[local] Instance VpcEndpoint_eq_dec : EqDecision VpcEndpoint.
Proof.
  assert (EqDecision metav1.ObjectMeta) by solve_decision.
  pose proof metav1.Condition_eq_dec.
  assert (EqDecision VpcEndpointStatus) by solve_decision.
  solve_decision.
Defined.

Record State := mkState {
  base : Sim.State;
  api : Api;
  service : option corev1.Service
}.

Definition set_base (x : Sim.State) (w : State) := mkState x (api w) (service w).
Definition set_api (x : Api) (w : State) := mkState (base w) x (service w).
Definition set_service (x : option corev1.Service) (w : State) := mkState (base w) (api w) x.

(** A version longer than all before. *)
Definition longest (vs : list VpcEndpoint) : nat :=
  foldr (fun v n => Nat.max (String.length (version v)) n) O vs.

Fixpoint ones (n : nat) : string :=
  match n with O => "" | S n' => String (Ascii.ascii_of_nat 49) (ones n') end.

Definition next_version (a : Api) : string := ones (S (longest (history a))).

Lemma ones_length n : String.length (ones n) = n.
Proof. induction n; cbn; congruence. Qed.

Lemma longest_elem v vs : v ∈ vs -> (String.length (version v) <= longest vs)%nat.
Proof.
  induction vs as [|v' vs IH]; [by intros ?%elem_of_nil|].
  intros [->|Hv]%elem_of_cons; cbn; [lia|]. specialize (IH Hv). unfold longest in IH. lia.
Qed.

Lemma next_version_fresh v a : version v = next_version a -> fresh_version v a.
Proof.
  intros Hv. split; [by rewrite Hv|]. intros v' Hin%longest_elem _ Heq.
  rewrite Heq, Hv in Hin. unfold next_version in Hin. rewrite ones_length in Hin. lia.
Qed.

(** ** The server's handlers *)

Definition notFound : error := EStatus "NotFound" "not found".
Definition conflict : error := EStatus "Conflict" "the object has been modified".

Definition update (result : VpcEndpoint -> VpcEndpoint -> VpcEndpoint) (v : VpcEndpoint)
    (a : Api) : Api * (error + string) :=
  match store a !! key v with
  | None => (a, inl notFound)
  | Some cur =>
      if decide (version v = version cur) then
        let new := result v cur in
        let rv := next_version a in
        (settle new (put (with_version rv new) a), inr rv)
      else (a, inl conflict)
  end.

Definition create (v : VpcEndpoint) (a : Api) : Api * (error + unit) :=
  match store a !! key v with
  | Some _ => (a, inl (EStatus "AlreadyExists" "already exists"))
  | None =>
      (put (mkVpcEndpoint
        (metav1.mkObjectMeta (metav1.Name (meta v)) (metav1.Namespace (meta v))
           (metav1.Labels (meta v)) (metav1.CreationTimestamp (meta v)) None (finalizers v)
           (next_version a)) (Spec v) VpcEndpointStatus_zero) a, inr tt)
  end.

Definition delete_object (now : Z) (k : Key) (a : Api) : Api * (error + unit) :=
  match store a !! k with
  | None => (a, inl notFound)
  | Some cur =>
      match finalizers cur, deletion cur with
      | [], _ => (drop k a, inr tt)
      | _, Some _ => (a, inr tt)
      | _, None => (put (set_deletion now (next_version a) cur) a, inr tt)
      end
  end.

Definition with_api {R} (w : State) (r : Api * (error + R)) : State * (error + R) :=
  (set_api r.1 w, r.2).

Definition with_base {R} (w : State) (r : Sim.State * (error + R)) : State * (error + R) :=
  (set_base r.1 w, r.2).

Definition get (ns name : string) (w : State) : error + VpcEndpoint :=
  match store (api w) !! (ns, name) with
  | Some v => if decide (v ∈ history (api w) /\ key v = (ns, name)) then inr v else inl notFound
  | None => inl notFound
  end.

Definition kube {R} (op : kubeop R) (w : State) : State * (error + R) :=
  match op in kubeop R return State * (error + R) with
  | GetVpcEndpoint ns name => (w, get ns name w)
  | UpdateVpcEndpoint v => with_api w (update put_object v (api w))
  | UpdateVpcEndpointStatus v => with_api w (update put_status v (api w))
  | CreateVpcEndpointCR v => with_api w (create v (api w))
  | DeleteVpcEndpointCR v => with_api w (delete_object (Sim.clock (base w)) (key v) (api w))
  | ListVpcEndpoints _ ns =>
      (w, inr (filter (fun v => metav1.Namespace (meta v) = ns /\
                               store (api w) !! key v = Some v) (history (api w))))
  | GetService _ _ =>
      (w, match service w with Some s => inr s | None => inl notFound end)
  | CreateService s => (set_service (Some s) w, inr tt)
  | UpdateService s => (set_service (Some s) w, inr tt)
  | op => with_base w (Sim.kube op (base w))
  end.

(** ** AWS: what Sim.v leaves out *)

Definition ec2 {R} (op : ec2op R) (w : State) : State * (error + R) :=
  match op in ec2op R return State * (error + R) with
  | CreateSecurityGroup _ =>
      (set_base (Sim.set_securityGroups ("sg-new" :: Sim.securityGroups (base w)) (base w)) w,
       inr (Some "sg-new"))
  | WaitSecurityGroupExists _ _ => (w, inr tt)
  | op => with_base w (Sim.ec2 op (base w))
  end.

#[export] Instance world : World State := fun R (c : call R) w =>
  match c in call R return State * (error + R) with
  | Kube op => kube op w
  | EC2 _ op => ec2 op w
  | c => with_base w (Sim.world _ c (base w))
  end.

(** ** The laws *)

Lemma update_accepted result v a a' rv :
  update result v a = (a', inr rv) -> updated result v rv a a'.
Proof.
  unfold update. destruct (store a !! key v) as [cur|] eqn:Hc; [|done].
  case_decide as Hv; [|done]. intros [= <- <-]. exists cur. split_and!; [done|by right|].
  right. split; [by apply next_version_fresh|done].
Qed.

Lemma update_refused result v a a' e : update result v a = (a', inl e) -> a' = a.
Proof.
  unfold update. destruct (store a !! key v); [|by intros [= <- _]].
  case_decide; [done|by intros [= <- _]].
Qed.

Lemma create_effect v a a' r :
  create v a = (a', r) -> maybe r (fun _ => created v) a a'.
Proof.
  unfold create. destruct (store a !! key v) eqn:Hc; intros [= <- <-]; [by left|].
  exists (next_version a). split_and!; [done|by apply next_version_fresh|done].
Qed.

Lemma delete_effect now k a a' r :
  delete_object now k a = (a', r) -> maybe r (fun _ => deleted k) a a'.
Proof.
  unfold delete_object. destruct (store a !! k) as [cur|] eqn:Hc; [|intros [= <- <-]; by left].
  intros Heq. assert (Hr : r = inr tt) by by destruct (finalizers cur), (deletion cur);
    injection Heq. subst r. exists cur. split; [done|].
  destruct (finalizers cur), (deletion cur); injection Heq as <-; try done.
  exists now, (next_version a). split; [by apply next_version_fresh|done].
Qed.

Lemma with_api_effect {R} w (p : Api * (error + R)) (Q : error + R -> Api -> Api -> Prop) w' r :
  with_api w p = (w', r) -> Q p.2 (api w) p.1 -> Q r (api w) (api w').
Proof. by intros [= <- <-]. Qed.

Lemma update_effect result v a :
  maybe (update result v a).2 (updated result v) a (update result v a).1.
Proof.
  destruct (update result v a) as [a' [e|rv]] eqn:Hu.
  - left. by eapply update_refused.
  - by apply update_accepted.
Qed.

Lemma kube_effect_ok {R} (op : kubeop R) w w' r :
  kube op w = (w', r) -> kube_effect op r (api w) (api w').
Proof.
  destruct op; try (by intros [= <- _]); intros Hop.
  - injection Hop as <- <-. split; [done|]. intros v. unfold get.
    destruct (store _ !! _); [|done]. case_decide as Hd; [|done]. by intros [= <-].
  - eapply with_api_effect; [exact Hop|]. apply update_effect.
  - eapply with_api_effect; [exact Hop|]. apply update_effect.
  - eapply with_api_effect; [exact Hop|]. by eapply create_effect, surjective_pairing.
  - eapply with_api_effect; [exact Hop|]. by eapply delete_effect, surjective_pairing.
  - injection Hop as <- <-. split; [done|]. intros vs [= <-] v.
    by intros [_ ?]%list_elem_of_filter.
Qed.

#[export] Instance api_server : ApiServer api.
Proof.
  intros R c w w' r Hh. exists (api w), (api w'). split; [done|]. split; [|done].
  destruct c; try (by injection Hh as <- _).
  - cbn in *. destruct op; by injection Hh as <- _.
  - by apply kube_effect_ok.
Qed.

End ClusterSim.
