(* ===== verification/SystemSpec.v ===== *)
(** * The whole operator around one API server

    The controllers' reconciles as moves on the objects in the API server, while
    users and other controllers act in between.  A pass of the VpcEndpoint
    controller does what anyone may do ([ApiServer.others]), except that it takes
    the finalizer off the object it reconciles, and that only once the resources it takes
    down with the object are confirmed gone ([ReleaseSpec.resources_gone]).  The template and the acceptance
    controllers do nothing that others may not do.  From this the invariants of
    every run of the operator follow, by induction on the run. *)
From S2P Require Import Prelude GoError Naming Types Calls GoMonad AwsClient Lookups.
From S2P Require Import Controller Helpers HostedZones Validation Cleanup Reconcile Template Acceptance.
From S2P Require Import CleanupSpec ReleaseSpec ApiServer.
Import avov1alpha2 Helpers HostedZones Validation Cleanup Reconcile ApiServer.

Module SystemSpec.

(** ** What the memory of a pass knows of the store *)

(** Before the finalizer is there, the resource is the object [v0] that was
    read, but for fields of the status that are neither conditions nor record a
    resource; from then on it
    is an object of the key [k] that carries the finalizer, or is deleted. *)
Inductive phase :=
| Reading (v0 : VpcEndpoint)
| Holding (k : Key) (d : option Z).

(** The resource [m] in memory, and the version [v] of it the server has. *)
Definition in_phase (p : phase) (v m : VpcEndpoint) : Prop :=
  match p with
  | Reading v0 =>
      ids (status v) = ids (status m) /\ ids (status m) = ids (status v0) /\
      Spec m = Spec v0 /\ key m = key v0 /\ finalizers m = finalizers v0 /\
      deletion m = deletion v0 /\ Conditions (status m) = Conditions (status v0)
  | Holding k d => key m = k /\ deletion m = d /\ (avoFinalizer ∈ finalizers m \/ d <> None)
  end.

(** [v] and [m] agree on what the server compares and keeps. *)
Definition same_meta (v m : VpcEndpoint) : Prop :=
  key v = key m /\ version v = version m /\ finalizers v = finalizers m /\
  deletion v = deletion m.

(** ** Computations that write no VpcEndpoint *)

Section calm.
Context {W : Type} {L : Type} `{World W}.
Context (api : W -> Api) `{!ApiServer api}.

Definition quiet {R} (c : call R) : Prop := forall r a a', effect c r a a' -> a' = a.

Lemma quiet_others {R} (c : call R) w w' r :
  quiet c -> handle c w = (w', r) -> rtc others (api w) (api w').
Proof.
  intros Hq Hh. destruct (api_effect _ c w w' r Hh) as (a1 & a2 & Hr1 & ->%Hq & Hr3).
  by etransitivity.
Qed.

(** Only others changed the store. *)
Definition calm : relation (Sys W L) := fun s s' =>
  trace s `prefix_of` trace s' /\ rtc others (api (world s)) (api (world s')).

#[export] Instance calm_preorder : PreOrder calm.
Proof.
  split; [done|]. intros s1 s2 s3 [? ?] [? ?]. by split; etransitivity.
Qed.

Lemma calm_trigger {R} (c : call R) : quiet c -> respects calm (trigger c).
Proof.
  intros Hq s. unfold trigger. destruct (handle c (world s)) as [w' r] eqn:Hh. cbn.
  split; [by apply prefix_app_r|]. by eapply quiet_others.
Qed.

Lemma calm_fire (c : call unit) : quiet c -> respects calm (fire c).
Proof.
  intros Hq. apply respects_bind; [apply _|by apply respects_try, calm_trigger|].
  intros r. apply respects_ret, _.
Qed.

Lemma calm_modify (f : L -> L) : respects calm (modify f).
Proof. by intros s. Qed.

End calm.

#[export] Hint Resolve calm_modify : respects.
#[export] Hint Extern 1 (respects (calm _) (trigger _)) =>
  apply calm_trigger; [apply _|intros ? ? ? Heffect; exact Heffect] : respects.
#[export] Hint Extern 1 (respects (calm _) (fire _)) =>
  apply calm_fire; [apply _|intros ? ? ? Heffect; exact Heffect] : respects.

(** ** The VpcEndpoint controller *)

Section spec.
Context {W : Type} `{World W} `{K8sHelpersLaws}.
Context (api : W -> Api) `{!ApiServer api}.
Implicit Types s : Sys W Mem.

Definition synced (p : phase) (w : W) (m : VpcEndpoint) : Prop :=
  exists v, v ∈ history (api w) /\ same_meta v m /\ in_phase p v m.

Lemma synced_later p w w' m : rtc others (api w) (api w') -> synced p w m -> synced p w' m.
Proof. intros Hr%rtc_others_history (v & Hv & ?). exists v. split; [by apply Hr|done]. Qed.

(** ** The writes of the VpcEndpoint controller *)

(** What a write leaves behind, given the rule that allows it. *)
Lemma written_others rv new cur a a' :
  store a !! key new = Some cur -> cur ∈ history a ->
  (fresh_version (with_version rv new) a -> others a (put (with_version rv new) a)) ->
  written rv new cur a a' ->
  rtc others a a' /\ with_version rv new ∈ history a'.
Proof.
  intros Hs Hc Ho [(Heq & -> & ->)|[Hf ->]]; [by rewrite Heq|].
  specialize (Ho Hf). unfold settle.
  assert (Hn : with_version rv new ∈ history (put (with_version rv new) a)) by by left.
  destruct (deletion new); [|split; [by apply rtc_once|done]].
  destruct (finalizers new) eqn:Hfs; [|split; [by apply rtc_once|done]].
  split; [|done]. eapply rtc_l; [exact Ho|]. apply rtc_once.
  eapply others_remove; [by apply lookup_insert_eq|done].
Qed.

(** The stored object an accepted update replaces is the version known. *)
Lemma updated_inv result v m rv a a' :
  wf a -> v ∈ history a -> same_meta v m -> updated result m rv a a' ->
  store a !! key v = Some v /\ written rv (result m v) v a a'.
Proof.
  intros Hw Hv (Hk & Hve & _) (cur & Hc & Hver & Hwr).
  destruct Hver as [Hver|Hver]; [by rewrite <- Hve in Hver; apply (wf_version a) in Hver|].
  pose proof (wf_store a Hw _ _ Hc) as [Hkc Hin].
  assert (cur = v) as -> by (apply (wf_unique a); [done..|congruence|congruence]).
  by rewrite Hk.
Qed.

Lemma status_written p v m rv a a' :
  wf a -> v ∈ history a -> same_meta v m -> in_phase p v m -> updated put_status m rv a a' ->
  rtc others a a' /\ with_version rv (put_status m v) ∈ history a'.
Proof.
  intros Hw Hv Hm Hp Hu. destruct (updated_inv _ _ _ _ _ _ Hw Hv Hm Hu) as [Hs Hwr].
  eapply written_others; [exact Hs|done| |exact Hwr].
  intros Hf. eapply others_status; [exact Hs|done..| |done].
  destruct Hm as (_ & _ & Hfi & Hd). destruct p as [v0|k d]; cbn in Hp.
  - left. symmetry. apply Hp.
  - destruct Hp as (_ & <- & [Hp|Hp]); right; [left; by rewrite Hfi|right; by rewrite Hd].
Qed.

(** Every call leads from the state before it to the state after it by steps of
    others, if its own effect does. *)
Lemma call_others {R} (c : call R) w w' r :
  wf (api w) -> handle c w = (w', r) ->
  (forall a a', rtc others (api w) a -> wf a -> effect c r a a' -> rtc others a a') ->
  rtc others (api w) (api w').
Proof.
  intros Hw Hh Ho. destruct (api_effect _ c w w' r Hh) as (a1 & a2 & Hr1 & He2 & Hr3).
  etransitivity; [exact Hr1|]. etransitivity; [|exact Hr3].
  eapply Ho; [done|by eapply rtc_others_wf|done].
Qed.

(** ** Following the text of a pass *)

Definition keeps (p : phase) : relation (Sys W Mem) := fun s s' =>
  trace s `prefix_of` trace s' /\
  (wf (api (world s)) -> synced p (world s) (resource (local s)) ->
   rtc others (api (world s)) (api (world s')) /\
   synced p (world s') (resource (local s'))).

#[local] Instance keeps_preorder p : PreOrder (keeps p).
Proof.
  split; [done|]. intros s1 s2 s3 [Ht12 H12] [Ht23 H23]. split; [by etransitivity|].
  intros Hw Hs. destruct (H12 Hw Hs) as [Hr Hs2].
  destruct (H23 (rtc_others_wf _ _ Hr Hw) Hs2) as [Hr' Hs3].
  split; [by etransitivity|done].
Qed.

Lemma keeps_trigger p {R} (c : call R) : quiet c -> respects (keeps p) (trigger c).
Proof.
  intros Hq s. unfold trigger. destruct (handle c (world s)) as [w' r] eqn:Hh. cbn.
  split; [by apply prefix_app_r|]. intros Hw Hs. apply (quiet_others api) in Hh; [|done]. split; [done|]. by eapply synced_later.
Qed.

Lemma keeps_fire p (c : call unit) : quiet c -> respects (keeps p) (fire c).
Proof.
  intros Hq. apply respects_bind; [apply _|by apply respects_try, keeps_trigger|].
  intros r. apply respects_ret, _.
Qed.

Lemma keeps_modify p (f : Mem -> Mem) :
  (forall v m, same_meta v (resource m) -> in_phase p v (resource m) ->
     same_meta v (resource (f m)) /\ in_phase p v (resource (f m))) ->
  respects (keeps p) (modify f).
Proof.
  intros Hf s. split; [done|]. intros Hw (v & Hv & Hm & Hp). split; [done|]. exists v. split; [done|]. by apply Hf.
Qed.

Lemma keeps_statusUpdate p : respects (keeps p) statusUpdate.
Proof.
  intros s. change (wp statusUpdate (fun _ s' => keeps p s s') s).
  unfold statusUpdate, res. repeat wp_step. cbn [continue]. repeat wp_step.
  apply wp_trigger. intros w' r Hh.
  enough (wf (api (world s)) -> synced p (world s) (resource (local s)) ->
    rtc others (api (world s)) (api w') /\
    synced p w' (match r with
                 | inl _ => resource (local s)
                 | inr rv => with_version rv (resource (local s))
                 end)) as Hk by (destruct r; (split; [by apply prefix_app_r|exact Hk])).
  intros Hw (v & Hv & Hm & Hp).
  destruct (api_effect _ _ _ _ _ Hh) as (a1 & a2 & Hr1 & He2 & Hr3). cbn in He2.
  pose proof (rtc_others_history _ _ Hr1 _ Hv) as Hv1.
  pose proof (rtc_others_wf _ _ Hr1 Hw) as Hw1.
  destruct r as [e|rv]; cbn.
  - assert (Hr : rtc others (api (world s)) (api w')).
    { etransitivity; [exact Hr1|]. etransitivity; [|exact Hr3].
      destruct He2 as [->|[rv He2]]; [done|]. by eapply status_written. }
    split; [done|]. exists v. split; [|done]. by apply (rtc_others_history _ _ Hr).
  - cbn in He2. destruct (status_written p v _ rv a1 a2 Hw1 Hv1 Hm Hp He2) as [He2' Hin].
    split; [etransitivity; [exact Hr1|]; by etransitivity|].
    eexists. split; [by apply (rtc_others_history _ _ Hr3), Hin|].
    destruct Hm as (Hk & _ & Hfi & Hd). split; [by repeat split|].
    destruct p; cbn in *; [|done]. tauto.
Qed.

#[local] Hint Resolve keeps_statusUpdate : respects.
#[local] Hint Extern 1 (respects (keeps _) (trigger _)) =>
  apply keeps_trigger; intros ? ? ? Heffect; exact Heffect : respects.
#[local] Hint Extern 1 (respects (keeps _) (fire _)) =>
  apply keeps_fire; intros ? ? ? Heffect; exact Heffect : respects.
#[local] Hint Extern 1 (respects (keeps _) (modify _)) =>
  apply keeps_modify; intros ? ? ? ?; split; assumption : respects.

Lemma keeps_pollDeleted k d fuel deadline id :
  respects (keeps (Holding k d)) (pollDeleted (W:=W) fuel deadline id).
Proof. induction fuel as [|fuel IH]; cbn [pollDeleted]; go_respects. Qed.

#[local] Hint Resolve keeps_pollDeleted : respects.

Lemma keeps_parseClusterInfo p : respects (keeps p) (parseClusterInfo (W:=W) true).
Proof. destruct p; go_respects. Qed.

Lemma keeps_degradedCleanup p err : respects (keeps p) (degradedCleanup (W:=W) err).
Proof. destruct p; go_respects. Qed.

Lemma keeps_cleanup k d ptr : respects (keeps (Holding k d)) (cleanupAwsResources (W:=W) ptr).
Proof. go_respects. Qed.

Lemma keeps_reconcileNormal k d ptr : respects (keeps (Holding k d)) (reconcileNormal (W:=W) ptr).
Proof. go_respects. Qed.

(** *** The two updates of the finalizers *)

(** Writing a version [v] back with other finalizers: by itself it is an edit
    that others may make, if the operator's finalizer stays; otherwise it is the
    release of an object that is being deleted. *)
Lemma object_written v m rv a a' :
  wf a -> v ∈ history a -> key v = key m -> version v = version m ->
  updated put_object m rv a a' ->
  ((avoFinalizer ∈ finalizers v -> avoFinalizer ∈ finalizers m) -> rtc others a a') /\
  (deletion v <> None -> rtc (step (key m)) a a') /\
  with_version rv (put_object m v) ∈ history a'.
Proof.
  intros Hw Hv Hk Hve (cur & Hc & Hver & Hwr).
  destruct Hver as [Hver|Hver]; [by rewrite <- Hve in Hver; apply (wf_version a) in Hver|].
  pose proof (wf_store a Hw _ _ Hc) as [Hkc Hin].
  assert (cur = v) as -> by (apply (wf_unique a); [done..|congruence|congruence]).
  assert (Hs : store a !! key (put_object m v) = Some v) by by rewrite <- Hkc in Hc.
  destruct Hwr as [(Heq & -> & ->)|[Hf ->]]; [by rewrite Heq|]. split_and!.
  - intros Hfi. eapply written_others; [exact Hs|done| |by right].
    intros _. by eapply others_edit.
  - intros Hd. transitivity (put (with_version rv (put_object m v)) a).
    + apply rtc_once. by eapply step_release.
    + unfold settle. destruct (deletion _); [|done]. destruct (finalizers _) eqn:Hfs; [|done].
      apply rtc_once, step_others. eapply others_remove; [by apply lookup_insert_eq|done].
  - unfold settle. destruct (deletion _); [|by left]. by destruct (finalizers _); left.
Qed.

(** The resource in memory is a version [v] of the server but for its
    finalizers. *)
Definition synced_but (w : W) (v m : VpcEndpoint) : Prop :=
  v ∈ history (api w) /\ key v = key m /\ version v = version m /\ deletion v = deletion m.

Lemma resourceUpdate_wp v s :
  wf (api (world s)) -> synced_but (world s) v (resource (local s)) ->
  wp resourceUpdate (fun o s' =>
    trace s `prefix_of` trace s' /\
    ((avoFinalizer ∈ finalizers v -> avoFinalizer ∈ finalizers (resource (local s))) ->
      rtc others (api (world s)) (api (world s'))) /\
    (deletion v <> None ->
      rtc (step (key (resource (local s)))) (api (world s)) (api (world s'))) /\
    (o = Ok tt -> exists rv, resource (local s') = with_version rv (resource (local s)) /\
      with_version rv (put_object (resource (local s)) v) ∈ history (api (world s')))) s.
Proof.
  intros Hw (Hv & Hk & Hve & Hd). unfold resourceUpdate, res. repeat wp_step. cbn [continue].
  repeat wp_step. apply wp_trigger. intros w' r Hh.
  destruct (api_effect _ _ _ _ _ Hh) as (a1 & a2 & Hr1 & He2 & Hr3). cbn in He2.
  pose proof (rtc_others_history _ _ Hr1 _ Hv) as Hv1.
  pose proof (rtc_others_wf _ _ Hr1 Hw) as Hw1.
  assert (Hmoves :
    ((avoFinalizer ∈ finalizers v -> avoFinalizer ∈ finalizers (resource (local s))) ->
       rtc others a1 a2) /\
    (deletion v <> None -> rtc (step (key (resource (local s)))) a1 a2)).
  { destruct r as [e|rv]; cbn in He2; [destruct He2 as [->|[rv He2]]; [done|]|];
      destruct (object_written _ _ _ _ _ Hw1 Hv1 Hk Hve He2) as (? & ? & _); done. }
  destruct Hmoves as [Ho Hst].
  assert (Hall :
    ((avoFinalizer ∈ finalizers v -> avoFinalizer ∈ finalizers (resource (local s))) ->
       rtc others (api (world s)) (api w')) /\
    (deletion v <> None ->
       rtc (step (key (resource (local s)))) (api (world s)) (api w'))).
  { split; intros Hc.
    - etransitivity; [exact Hr1|]. etransitivity; [by apply Ho|done].
    - etransitivity; [by apply rtc_others_step, Hr1|].
      etransitivity; [by apply Hst|by apply rtc_others_step]. }
  destruct Hall as [Ho' Hst'].
  destruct r as [e|rv]; cbn; (split_and!; [by apply prefix_app_r|done|done|]); [done|].
  intros _. exists rv. split; [done|]. cbn in He2.
  destruct (object_written _ _ _ _ _ Hw1 Hv1 Hk Hve He2) as (_ & _ & Hin).
  by apply (rtc_others_history _ _ Hr3).
Qed.

(** A run that keeps the memory in step with the store, with what is known of its
    outcome. *)
Lemma wp_keeps p {A} (m : M W Mem A) Q (Post : outcome A -> Sys W Mem -> Prop) s :
  respects (keeps p) m -> extends Q m s ->
  (forall o l s', keeps p s s' -> trace s' = trace s ++ l -> Q o l (local s') -> Post o s') ->
  wp m Post s.
Proof. intros Hm (l & Ht & HQ) HP. by apply (HP _ l). Qed.

Lemma wp_keeps_only p {A} (m : M W Mem A) (Post : outcome A -> Sys W Mem -> Prop) s :
  respects (keeps p) m -> (forall o s', keeps p s s' -> Post o s') -> wp m Post s.
Proof. intros Hm HP. by apply HP. Qed.

(** A live object carries the finalizer once [ensureFinalizer] succeeded. *)
Lemma ensureFinalizer_wp v0 s :
  wf (api (world s)) -> synced (Reading v0) (world s) (resource (local s)) ->
  deletion v0 = None ->
  wp ensureFinalizer (fun o s' =>
    trace s `prefix_of` trace s' /\ rtc others (api (world s)) (api (world s')) /\
    (o = Ok tt -> synced (Holding (key v0) None) (world s') (resource (local s')))) s.
Proof.
  intros Hw (v & Hv & (Hk & Hve & Hfi & Hd) & (_ & _ & _ & Hk0 & _ & Hd0 & _)) Hl.
  unfold ensureFinalizer, res. repeat wp_step. cbn [continue].
  destruct (ContainsFinalizer _ _) eqn:Hc.
  - apply contains_finalizer_iff in Hc. wp_step. split_and!; [done..|]. intros _. exists v.
    repeat (split; [done|]). cbn. rewrite Hd0. by auto.
  - repeat wp_step. cbn [continue].
    eapply wp_mono; [apply (resourceUpdate_wp v)|]; [done|by repeat split|].
    cbn [world local trace on_resource resource]. intros o s' (Ht & Ho & _ & Hok).
    split_and!; [done| |].
    + apply Ho. intros Hin. apply add_finalizer. right. by rewrite Hfi in Hin.
    + intros Ho'. destruct (Hok Ho') as (rv & -> & Hin). eexists. split; [exact Hin|].
      split; [by repeat split|]. split_and!; [done|by rewrite <- Hl, <- Hd0|].
      left. by apply add_finalizer; left.
Qed.

(** *** Deletion *)

(** The calls between two traces confirm the end of the resources of [v]. *)
Definition gone_since (t : list event) (v : VpcEndpoint) (t' : list event) : Prop :=
  exists l, t' = t ++ l /\ ReleaseSpec.resources_gone v l.

Lemma gone_since_mono t t1 t2 t3 v :
  t `prefix_of` t1 -> gone_since t1 v t2 -> t2 `prefix_of` t3 -> gone_since t v t3.
Proof.
  intros [l1 ->] (l2 & -> & Hg) [l3 ->]. exists (l1 ++ l2 ++ l3).
  split; [by rewrite !app_assoc|]. by apply ReleaseSpec.resources_gone_mid.
Qed.

(** Only the recorded resources, the conditions and the spec matter. *)
Lemma gone_since_ext t v v' t' :
  ids (status v) = ids (status v') -> Conditions (status v) = Conditions (status v') ->
  Spec v = Spec v' -> gone_since t v t' -> gone_since t v' t'.
Proof.
  intros [= Hs He Hz Hr] Hc Hsp (l & -> & Hg). exists l. split; [done|].
  unfold ReleaseSpec.resources_gone, ReleaseSpec.record_known, ReleaseSpec.zone_released,
    names_domain, phz_spec in *.
  by rewrite <- Hs, <- He, <- Hz, <- Hr, <- Hc, <- Hsp.
Qed.

(** What a pass over the key [k] does to the store: what others may do, or the
    release of an object whose recorded resources are confirmed gone. *)
Definition pass_moves (k : Key) (t : list event) (a : Api) (t' : list event) (a' : Api) : Prop :=
  rtc others a a' \/
  (rtc (step k) a a' /\
   exists v, v ∈ history a' /\ key v = k /\ deletion v <> None /\ gone_since t v t').

Lemma pass_moves_others k t t1 a a1 t2 a2 t3 a3 :
  t `prefix_of` t1 -> rtc others a a1 -> pass_moves k t1 a1 t2 a2 ->
  t2 `prefix_of` t3 -> rtc others a2 a3 -> pass_moves k t a t3 a3.
Proof.
  intros Ht Hr1 Hp Ht' Hr3. destruct Hp as [Hr2|(Hr2 & v & Hv & Hk & Hd & Hg)].
  - left. etransitivity; [exact Hr1|]. by etransitivity.
  - right. split.
    + etransitivity; [by apply rtc_others_step, Hr1|]. etransitivity; [exact Hr2|].
      by apply rtc_others_step.
    + exists v. split_and!; [by apply (rtc_others_history _ _ Hr3)|done..|].
      by eapply gone_since_mono.
Qed.

Abbreviation moves k s s' :=
  (pass_moves k (trace s) (api (world s)) (trace s') (api (world s'))).

Lemma quiet_moves p k (s s' s'' : Sys W Mem) :
  moves k s s' -> wf (api (world s')) -> keeps p s' s'' ->
  synced p (world s') (resource (local s')) -> moves k s s''.
Proof.
  intros Hm Hw [Ht Hk] Hs. destruct (Hk Hw Hs) as [Hr _]. by eapply pass_moves_others.
Qed.

Lemma removeFinalizer_wp k d s :
  wf (api (world s)) -> synced (Holding k (Some d)) (world s) (resource (local s)) ->
  wp removeFinalizer (fun o s' =>
    trace s `prefix_of` trace s' /\ rtc (step k) (api (world s)) (api (world s'))) s.
Proof.
  intros Hw (v & Hv & (Hk & Hve & Hfi & Hd) & (Hk0 & Hd0 & _)). unfold removeFinalizer.
  repeat wp_step. cbn [continue].
  eapply wp_mono; [apply (resourceUpdate_wp v)|]; [done|by repeat split|].
  cbn [world local trace on_resource resource]. intros o s' (Ht & _ & Hst & _).
  split; [done|]. rewrite <- Hk0. apply Hst. congruence.
Qed.

Lemma calm_others k {A} (m : M W Mem A) s s1 :
  respects (calm api) m -> moves k s s1 -> wp m (fun _ s' => moves k s s') s1.
Proof.
  intros Hm Hs. destruct (Hm s1) as [Ht Hr]. by eapply pass_moves_others.
Qed.

Lemma calm_cleanupFailed err : respects (calm api) (cleanupFailed (W:=W) err).
Proof. go_respects. Qed.

Lemma calm_notReadyDelete {A} (a : A) : respects (calm api) (notReadyDelete (W:=W);; ret a)%go.
Proof. go_respects. Qed.

Lemma keeps_moves p k s s' : wf (api (world s)) ->
  synced p (world s) (resource (local s)) -> keeps p s s' -> moves k s s'.
Proof. intros Hw Hs [_ Hk]. left. by apply Hk. Qed.

Lemma calm_moves k (s s' : Sys W Mem) : calm api s s' -> moves k s s'.
Proof. intros [_ Hr]. by left. Qed.

Lemma reading_holding v0 d w m :
  synced (Reading v0) w m -> deletion v0 = Some d -> synced (Holding (key v0) (Some d)) w m.
Proof.
  intros (v & Hv & Hm & _ & _ & _ & Hk & _ & Hd & _) Hd0. exists v.
  do 2 (split; [done|]). split_and!; [done|congruence|by right].
Qed.

Lemma reconcileDelete_moves v0 d ptr s :
  wf (api (world s)) -> v0 ∈ history (api (world s)) ->
  synced (Reading v0) (world s) (resource (local s)) -> deletion v0 = Some d ->
  wp (reconcileDelete ptr) (fun _ s' => moves (key v0) s s') s.
Proof.
  intros Hw Hv0 Hs Hd. pose proof (reading_holding _ _ _ _ Hs Hd) as Hh.
  destruct Hs as (v & _ & _ & _ & Hids & Hsp & _ & _ & _ & Hcs).
  unfold reconcileDelete, res. repeat wp_step. cbn [continue].
  destruct (ContainsFinalizer _ _); [|apply calm_others; [auto using calm_cleanupFailed, calm_notReadyDelete|by left]].
  repeat wp_step.
  eapply (wp_keeps _ _ _ _ s (keeps_cleanup (key v0) (Some d) ptr));
    [by apply (ReleaseSpec.cleanupAwsResources_extends ptr s)|].
  intros o l s1 [Ht1 Hk1] Ht Hgone. destruct (Hk1 Hw Hh) as [Hr1 Hh1].
  pose proof (rtc_others_wf _ _ Hr1 Hw) as Hw1.
  destruct o as [[]|e|w|]; cbn [continue]; [|apply calm_others; [auto using calm_cleanupFailed, calm_notReadyDelete|by left]|by left..].
  wp_step. eapply wp_mono; [by apply (removeFinalizer_wp (key v0) d)|].
  intros o s2 [Ht2 Hr2].
  assert (Hm : moves (key v0) s s2).
  { right. split; [etransitivity; [by apply rtc_others_step, Hr1|done]|]. exists v0.
    split_and!; [|done|by rewrite Hd|].
    - apply (rtc_step_history _ _ _ Hr2), (rtc_others_history _ _ Hr1), Hv0.
    - apply (gone_since_mono _ (trace s) (trace s1)); [done| |exact Ht2].
      apply (gone_since_ext _ (resource (local s))); [done..|]. exists l. auto. }
  destruct o as [[]|e|w|]; cbn [continue]; [|done..]. apply calm_others; [auto using calm_cleanupFailed, calm_notReadyDelete|done].
Qed.

Lemma isDeleting_live v : isDeleting v = false -> deletion v = None.
Proof. unfold isDeleting, deletion. by destruct (metav1.DeletionTimestamp _). Qed.

Lemma isDeleting_deleted v : isDeleting v = true -> exists d, deletion v = Some d.
Proof. unfold isDeleting, deletion. destruct (metav1.DeletionTimestamp _); [eauto|done]. Qed.

Lemma reading_deletion v0 w m : synced (Reading v0) w m -> deletion m = deletion v0.
Proof. by intros (v & _ & _ & _ & _ & _ & _ & _ & ? & _). Qed.

(** What a pass does after it has parsed the cluster's information. *)
Definition finishReconcile : M W Mem Result :=
  (v <- res;;
   if isDeleting v then reconcileDelete resource_ptr_
   else
     ensureFinalizer;;
     reconcileNormal resource_ptr_)%go.

Lemma finishReconcile_moves v0 s :
  wf (api (world s)) -> v0 ∈ history (api (world s)) ->
  synced (Reading v0) (world s) (resource (local s)) ->
  wp finishReconcile (fun _ s' => moves (key v0) s s') s.
Proof.
  intros Hw Hv0 Hs. unfold finishReconcile, res. repeat wp_step. cbn [continue].
  pose proof (reading_deletion _ _ _ Hs) as Hd. destruct (isDeleting _) eqn:Hdel.
  - apply isDeleting_deleted in Hdel as [d Hdel].
    apply (reconcileDelete_moves v0 d); congruence.
  - apply isDeleting_live in Hdel. wp_step.
    eapply wp_mono; [apply (ensureFinalizer_wp v0); congruence|].
    intros o s1 (Ht1 & Hr1 & Hh1). destruct o as [[]|e|w|]; cbn [continue]; [|by left..].
    eapply wp_keeps_only; [apply (keeps_reconcileNormal (key v0) None)|]. intros o s2 Hk2.
    eapply quiet_moves; [by left|by apply (rtc_others_wf _ _ Hr1)|exact Hk2|by apply Hh1].
Qed.

(** Steps of the pass that keep the memory in step with the store may come
    first. *)
Lemma moves_after v0 {A} (m : M W Mem A) s s1 :
  wf (api (world s)) -> v0 ∈ history (api (world s)) ->
  synced (Reading v0) (world s) (resource (local s)) -> keeps (Reading v0) s s1 ->
  (wf (api (world s1)) -> v0 ∈ history (api (world s1)) ->
   synced (Reading v0) (world s1) (resource (local s1)) ->
   wp m (fun _ s' => moves (key v0) s1 s') s1) ->
  wp m (fun _ s' => moves (key v0) s s') s1.
Proof.
  intros Hw Hv0 Hs [Ht Hk] Hm. destruct (Hk Hw Hs) as [Hr Hs1].
  eapply wp_mono; [apply Hm; [by apply (rtc_others_wf _ _ Hr)|by apply (rtc_others_history _ _ Hr)|done]|].
  intros o s2 Hm2. by eapply pass_moves_others; [exact Ht|exact Hr|exact Hm2|..].
Qed.

Lemma reconcileObject_moves v0 s :
  wf (api (world s)) -> v0 ∈ history (api (world s)) ->
  synced (Reading v0) (world s) (resource (local s)) ->
  wp reconcileObject (fun _ s' => moves (key v0) s s') s.
Proof.
  intros Hw Hv0 Hs. unfold reconcileObject. fold finishReconcile. unfold res at 1.
  repeat wp_step. cbn [continue]. repeat wp_step.
  apply (wp_keeps_only (Reading v0)); [apply keeps_parseClusterInfo|].
  intros o s1 Hk1. pose proof (keeps_moves _ (key v0) _ _ Hw Hs Hk1) as Hm1.
  destruct o as [[]|err|w|]; [| |done..].
  - repeat wp_step. apply (moves_after v0); try done. by apply finishReconcile_moves.
  - wp_step. apply (wp_keeps_only (Reading v0)).
    { destruct (isDeleting _); [apply keeps_degradedCleanup|go_respects]. }
    intros o s2 Hk2.
    assert (Hk : keeps (Reading v0) s s2) by by etransitivity.
    pose proof (keeps_moves _ (key v0) _ _ Hw Hs Hk) as Hm2.
    destruct o as [[]|e|w|]; cbn [continue]; [|done..].
    apply (moves_after v0); try done. by apply finishReconcile_moves.
Qed.

Lemma Reconcile_moves namespace name s :
  wf (api (world s)) -> moves (namespace, name) s (Reconcile namespace name s).2.
Proof.
  intros Hw. change (wp (Reconcile namespace name)
    (fun _ s' => moves (namespace, name) s s') s).
  unfold Reconcile. repeat wp_step. cbn [continue]. repeat wp_step.
  apply wp_trigger. intros w1 r Hh. cbn [world] in Hh.
  destruct (api_effect _ _ _ _ _ Hh) as (a1 & a2 & Hr1 & [-> Hv] & Hr3).
  assert (Hr : rtc others (api (world s)) (api w1)) by by etransitivity.
  destruct r as [e|v]; cbn.
  - destruct (IsNotFound e); wp_step; by left.
  - destruct (Hv v eq_refl) as [Hin Hk]. repeat wp_step. cbn [continue].
    apply (rtc_others_history _ _ Hr3) in Hin. rewrite <- Hk.
    eapply wp_mono; [apply (reconcileObject_moves v)|].
    + by apply (rtc_others_wf _ _ Hr).
    + done.
    + exists v. by repeat split.
    + intros o s2 Hm. eapply pass_moves_others; [|exact Hr|exact Hm|done|done].
      by apply prefix_app_r.
Qed.

End spec.
End SystemSpec.
