(* ===== verification/OperatorSpec.v ===== *)
(** * Runs of the operator

    The template and the acceptance controllers as moves on the objects in the
    API server, and the runs of all three controllers, with what others do in
    between: what holds in every state a run reaches, and when an object may
    leave the store. *)
From S2P Require Import Prelude GoError Naming Types Calls GoMonad AwsClient Lookups.
From S2P Require Import Controller Helpers HostedZones Validation Cleanup Reconcile Template Acceptance.
From S2P Require Import CleanupSpec ReleaseSpec Sim ApiServer ClusterSim SystemSpec.
Import avov1alpha2 ApiServer SystemSpec.

Module OperatorSpec.

(** ** The template controller *)

Section template.
Context {W : Type} `{World W} `{K8sHelpers}.
Context (api : W -> Api) `{!ApiServer api}.
Implicit Types s : Sys W VpcEndpointTemplate.

(** From a store that has (or had) the objects [vs], only moves that others may
    make. *)
Definition moves_with (vs : list VpcEndpoint) : relation (Sys W VpcEndpointTemplate) :=
  fun s s' => wf (api (world s)) -> vs ⊆ history (api (world s)) ->
    rtc others (api (world s)) (api (world s')).

#[local] Instance moves_with_preorder vs : PreOrder (moves_with vs).
Proof.
  split; [by intros s _ _|]. intros s1 s2 s3 H12 H23 Hw Hvs. specialize (H12 Hw Hvs).
  etransitivity; [exact H12|]. apply H23; [by apply (rtc_others_wf _ _ H12)|].
  pose proof (rtc_others_history _ _ H12). set_solver.
Qed.

Lemma moves_call vs {R} (c : call R) :
  (forall r a a', wf a -> vs ⊆ history a -> effect c r a a' -> rtc others a a') ->
  respects (moves_with vs) (trigger c).
Proof.
  intros Hc s Hw Hvs. unfold trigger. destruct (handle c (world s)) as [w' r] eqn:Hh. cbn.
  destruct (api_effect _ c _ _ r Hh) as (a1 & a2 & Hr1 & He2 & Hr3).
  etransitivity; [exact Hr1|]. etransitivity; [|exact Hr3].
  apply (Hc r a1 a2); [by apply (rtc_others_wf _ _ Hr1)| |done].
  pose proof (rtc_others_history _ _ Hr1). set_solver.
Qed.

Lemma moves_quiet vs {R} (c : call R) : quiet c -> respects (moves_with vs) (trigger c).
Proof. intros Hq. apply moves_call. by intros r a a' _ _ ->%Hq. Qed.

Lemma moves_modify vs f : respects (moves_with vs) (modify f).
Proof. by intros s _ _. Qed.

(** The objects of a list are known from there on. *)
Lemma moves_list vs {A} sel ns (k : list VpcEndpoint -> M W VpcEndpointTemplate A) :
  (forall items, respects (moves_with items) (k items)) ->
  respects (moves_with vs) (bind (trigger (Kube (ListVpcEndpoints sel ns))) k).
Proof.
  intros Hk s Hw _. unfold bind, trigger.
  destruct (handle _ (world s)) as [w' r] eqn:Hh.
  destruct (api_effect _ _ _ _ r Hh) as (a1 & a2 & Hr1 & [-> Hin] & Hr3).
  assert (Hr : rtc others (api (world s)) (api w')) by (etransitivity; [exact Hr1|done]).
  destruct r as [e|items]; cbn; [done|]. etransitivity; [exact Hr|].
  apply (Hk items (after s _ w' (inr items))); cbn; [by apply (rtc_others_wf _ _ Hr)|].
  pose proof (rtc_others_history _ _ Hr3). specialize (Hin items eq_refl). set_solver.
Qed.

Lemma maybe_moves {R} (r : error + R) (accepted : R -> Api -> Api -> Prop) a a' :
  (forall x, accepted x a a' -> rtc others a a') -> maybe r accepted a a' -> rtc others a a'.
Proof.
  intros Ha. destruct r as [e|x]; cbn; [|by apply Ha].
  intros [->|[x Hx]]; [done|by apply (Ha x)].
Qed.

Lemma created_moves v a a' : created v a a' -> rtc others a a'.
Proof. intros (rv & Hn & Hf & ->). apply rtc_once. by apply others_create. Qed.

Lemma deleted_moves k a a' : wf a -> deleted k a a' -> rtc others a a'.
Proof.
  intros Hw (cur & Hc & Hm). destruct (wf_store a Hw _ _ Hc) as [Hk _].
  destruct (finalizers cur) as [|f fs] eqn:Hf.
  - subst a'. apply rtc_once. by eapply others_remove.
  - destruct (deletion cur) eqn:Hd; [by subst a'|]. destruct Hm as (t & rv & Hfr & ->).
    apply rtc_once. apply (others_delete cur); try done. by rewrite <- Hk in Hc.
Qed.

Lemma moves_create vs vpcet ns :
  respects (moves_with vs) (Template.CreateVpcEndpoint vpcet ns).
Proof.
  apply moves_call. intros r a a' _ _ He. cbn in He.
  eapply maybe_moves; [|exact He]. intros x. apply created_moves.
Qed.

Lemma moves_delete vs v : respects (moves_with vs) (trigger (Kube (DeleteVpcEndpointCR v))).
Proof.
  apply moves_call. intros r a a' Hw _ He. cbn in He.
  eapply maybe_moves; [|exact He]. intros x. by apply deleted_moves.
Qed.

Lemma moves_deleteAll vs items : respects (moves_with vs) (Template.deleteAll items).
Proof. apply respects_forM_; [apply _|]. intros v. apply moves_delete. Qed.

Lemma moves_deleteExtras vs vpcet items found :
  respects (moves_with vs) (Template.deleteExtras vpcet items found).
Proof.
  revert found. induction items as [|v items IH]; intros found; cbn.
  - apply respects_ret, _.
  - destruct (Template.matches_template _ _); [done|].
    apply respects_bind; [apply _|apply moves_delete|done].
Qed.

(** The listed object that is replaced keeps its finalizers. *)
Lemma moves_replace vs v vpcet :
  v ∈ vs -> respects (moves_with vs) (Template.ReplaceVpcEndpointSpec v vpcet).
Proof.
  intros Hv. unfold Template.ReplaceVpcEndpointSpec. destruct (Template.matches_template _ _).
  { apply respects_ret, _. }
  apply respects_bind; [apply _| |intros _; apply respects_ret, _].
  apply moves_call. intros r a a' Hw Hvs He. cbn in He. eapply maybe_moves; [|exact He].
  intros rv Hu. apply (object_written v (set_Spec (tmpl_Spec (Template (vt_Spec vpcet))) v) rv) in Hu;
    [by apply Hu|done|by apply Hvs|done..].
Qed.

#[local] Hint Resolve moves_modify moves_create moves_deleteAll moves_delete : respects.
#[local] Hint Extern 1 (respects (moves_with _) (trigger _)) =>
  apply moves_quiet; intros ? ? ? Heffect; exact Heffect : respects.

Lemma moves_hcp vs vpcet hcp :
  respects (moves_with vs) (Template.validateHostedControlPlane vpcet hcp).
Proof.
  apply moves_list. intros items. destruct (hyperv1beta1.DeletionTimestamp hcp); [go_respects|].
  destruct items as [|v [|v' items]].
  - apply moves_create.
  - apply moves_replace. by left.
  - apply respects_bind; [apply _|apply moves_deleteExtras|]. intros []; go_respects.
Qed.

Lemma moves_deleteMatching vs : respects (moves_with vs) Template.deleteMatching.
Proof.
  unfold Template.deleteMatching. go_respects_step; [go_respects|].
  go_respects_step; [go_respects|]. apply moves_list. intros items. apply moves_deleteAll.
Qed.

#[local] Hint Resolve moves_hcp moves_deleteMatching : respects.

Lemma Template_moves namespace name s :
  wf (api (world s)) ->
  rtc others (api (world s)) (api (world (Template.Reconcile namespace name s).2)).
Proof.
  assert (Hr : respects (moves_with []) (Template.Reconcile (W:=W) namespace name))
    by go_respects.
  intros Hw. apply Hr; [done|]. set_solver.
Qed.

End template.

(** ** The acceptance controller writes no VpcEndpoint *)

Lemma calm_acceptedConnections {W} `{World W} (api : W -> Api) `{!ApiServer api} criteria cs :
  respects (calm api) (Acceptance.acceptedConnections (W:=W) criteria cs).
Proof. induction cs as [|c cs IH]; cbn [Acceptance.acceptedConnections]; go_respects. Qed.

#[local] Hint Resolve calm_acceptedConnections : respects.

Lemma Acceptance_moves {W} `{World W} `{K8sHelpers} (api : W -> Api) `{!ApiServer api}
    namespace name s :
  rtc others (api (world s)) (api (world (Acceptance.Reconcile namespace name s).2)).
Proof.
  assert (Hr : respects (calm api) (Acceptance.Reconcile (W:=W) namespace name))
    by go_respects.
  apply Hr.
Qed.

(** ** Runs *)

Inductive activity :=
| ByOthers
| VpcEndpointPass (k : Key) (calls : list event)
| TemplatePass (k : Key)
| AcceptancePass (k : Key).

Section runs.
Context {W : Type} `{World W} `{K8sHelpersLaws}.
Context (api : W -> Api) `{!ApiServer api}.

(** Passes of the three controllers on any object, one after the other, with
    what others do around every call of them and in between. The state is the
    world and the VpcEndpoint reconciler, which lives as long as the process;
    what a pass finds in its other variables does not matter. *)
Inductive run (w0 : W) (r0 : VpcEndpointReconciler)
  : list activity -> W -> VpcEndpointReconciler -> Prop :=
| run_nil : run w0 r0 [] w0 r0
| run_others acts w r w' :
    run w0 r0 acts w r -> rtc others (api w) (api w') ->
    run w0 r0 (acts ++ [ByOthers]) w' r
| run_vpcEndpoint acts w r ns n v s' :
    run w0 r0 acts w r ->
    (Reconcile.Reconcile ns n (mkSys w [] (mkMem r v))).2 = s' ->
    run w0 r0 (acts ++ [VpcEndpointPass (ns, n) (trace s')])
      (world s') (reconciler (local s'))
| run_template acts w r ns n t s' :
    run w0 r0 acts w r ->
    (Template.Reconcile ns n (mkSys w [] t)).2 = s' ->
    run w0 r0 (acts ++ [TemplatePass (ns, n)]) (world s') r
| run_acceptance acts w r ns n c s' :
    run w0 r0 acts w r ->
    (Acceptance.Reconcile ns n (mkSys w [] c)).2 = s' ->
    run w0 r0 (acts ++ [AcceptancePass (ns, n)]) (world s') r.

(** What one activity does to the store. *)
Definition activity_moves (act : activity) (a a' : Api) : Prop :=
  match act with
  | VpcEndpointPass k calls => pass_moves k [] a calls a'
  | _ => rtc others a a'
  end.

Lemma run_last w0 r0 acts w r :
  run w0 r0 acts w r -> wf (api w0) ->
  acts = [] /\ w = w0 \/
  exists acts' act w' r', acts = acts' ++ [act] /\ run w0 r0 acts' w' r' /\
    (wf (api w') -> activity_moves act (api w') (api w)).
Proof.
  intros Hr _. destruct Hr as [|acts w r w' Hr Ho|acts w r ns n v s' Hr Hs
    |acts w r ns n t s' Hr Hs|acts w r ns n c s' Hr Hs]; [by left|right; subst..];
    eexists _, _, w, r; (split; [done|]); (split; [done|]); intros Hw; cbn.
  - done.
  - by apply (Reconcile_moves api ns n (mkSys w [] (mkMem r v))).
  - by apply (Template_moves api ns n (mkSys w [] t)).
  - apply (Acceptance_moves api ns n (mkSys w [] c)).
Qed.

Lemma activity_wf act a a' : activity_moves act a a' -> wf a -> wf a'.
Proof.
  destruct act as [|k calls|k|k]; cbn; try apply rtc_others_wf.
  intros [Hr|[Hr _]]; [by apply rtc_others_wf|by eapply rtc_step_wf].
Qed.

(** The rule induction over runs: a property that every activity preserves. *)
Lemma run_ind_moves (P : list activity -> Api -> Prop) w0 r0 acts w r :
  wf (api w0) -> P [] (api w0) ->
  (forall acts act a a', wf a -> wf a' -> P acts a -> activity_moves act a a' ->
     P (acts ++ [act]) a') ->
  run w0 r0 acts w r -> wf (api w) /\ P acts (api w).
Proof.
  intros Hw0 H0' Hstep. revert w r. induction acts as [|act acts IH] using rev_ind; intros w r Hr.
  - destruct (run_last _ _ _ _ _ Hr Hw0) as [[_ ->]|(acts' & act & ? & ? & Heq & _)]; [done|].
    by apply app_cons_not_nil in Heq.
  - destruct (run_last _ _ _ _ _ Hr Hw0) as [[Heq _]|(acts' & act' & w' & r' & Heq & Hr' & Hm)];
      [by symmetry in Heq; apply app_cons_not_nil in Heq|].
    apply app_inj_tail in Heq as [<- <-]. destruct (IH _ _ Hr') as [Hw HP].
    specialize (Hm Hw). pose proof (activity_wf _ _ _ Hm Hw) as Hwf.
    split; [done|]. exact (Hstep _ _ _ _ Hw Hwf HP Hm).
Qed.

(** C3: the protocol of the finalizer, as seen in the API server. Whatever AWS and the API server
    answer, and whatever others do to the objects around each call, one pass of
    the VpcEndpoint controller changes the stored objects only in ways that
    others may change them too (in particular it never takes the finalizer off a
    live object, and never overwrites a newer version), except that it may
    release the object it reconciles: then that object was being deleted, and
    the calls of the pass confirm the end of what it recorded when the pass read it:
    the endpoint, the security group, the record set if it was shown as ready, and the
    hosted zone if the spec names its domain and this is not shown to be the cluster's
    ([ReleaseSpec.resources_gone]). The template and the acceptance controllers never
    release an object. *)
Theorem controllers_refine_finalizer_protocol namespace name w :
  wf (api w) ->
  (forall r v, let s' := (Reconcile.Reconcile namespace name (mkSys w [] (mkMem r v))).2 in
    rtc others (api w) (api (world s')) \/
    (rtc (step (namespace, name)) (api w) (api (world s')) /\
     exists v0, v0 ∈ history (api (world s')) /\ key v0 = (namespace, name) /\
       deletion v0 <> None /\ ReleaseSpec.resources_gone v0 (trace s'))) /\
  (forall t, rtc others (api w)
     (api (world (Template.Reconcile namespace name (mkSys w [] t)).2))) /\
  (forall c, rtc others (api w)
     (api (world (Acceptance.Reconcile namespace name (mkSys w [] c)).2))).
Proof.
  intros Hw. split_and!.
  - intros r v. destruct (Reconcile_moves api namespace name (mkSys w [] (mkMem r v)) Hw)
      as [Hr|(Hr & v0 & Hv & Hk & Hd & l & Hl & Hg)]; [by left|right].
    split; [done|]. exists v0. split_and!; try done.
    rewrite app_nil_l in Hl. by subst l.
  - intros t. by apply (Template_moves api namespace name (mkSys w [] t)).
  - intros c. apply (Acceptance_moves api namespace name (mkSys w [] c)).
Qed.

(** C2: in every state that a run of the operator reaches, every live VpcEndpoint
    in the API server whose status records an AWS resource carries the
    operator's finalizer, so its deletion cannot go past the clean-up. *)
Theorem recorded_resources_are_guarded w0 r0 acts w r k v :
  wf (api w0) -> run w0 r0 acts w r ->
  store (api w) !! k = Some v -> deletion v = None -> ids (status v) <> no_ids ->
  Reconcile.avoFinalizer ∈ finalizers v.
Proof.
  intros Hw0 Hr Hk. destruct (run_ind_moves (fun _ _ => True) w0 r0 acts w r Hw0 I)
    as [Hw _]; [done..|].
  apply (wf_guarded _ Hw). by eapply wf_store.
Qed.


End runs.

(** ** A whole life in the simulated cluster *)

#[local] Existing Instances K8sRef.helpers K8sRef.helpers_laws ClusterSim.world ClusterSim.api_server.

Module Life.

Definition obj : VpcEndpoint :=
  mkVpcEndpoint (metav1.mkObjectMeta "example" "ns" ∅ 0 None [] "")
    (Sim.spec (Sim.phz "other.example" None "api")) VpcEndpointStatus_zero.

Definition k : Key := ("ns", "example").

(** An account with the hosted zone and the subnet, and an empty cluster. *)
Definition w0 : ClusterSim.State :=
  ClusterSim.mkState
    (Sim.mkState 0 [] 3 [Sim.zone "Z1" "other.example."]
       [ec2Types.mkSubnet (Some "subnet-1") (Some "vpc-1") (Some "us-east-1a")] [] None None)
    (mkApi ∅ []) None.

(** A user creates the object, and deletes it. *)
Definition user_creates (w : ClusterSim.State) : ClusterSim.State :=
  ClusterSim.set_api (ClusterSim.create obj (ClusterSim.api w)).1 w.
Definition user_deletes (w : ClusterSim.State) : ClusterSim.State :=
  ClusterSim.set_api (ClusterSim.delete_object 1 k (ClusterSim.api w)).1 w.

(** AWS makes the endpoint available. *)
Definition endpoint_up (w : ClusterSim.State) : ClusterSim.State :=
  ClusterSim.set_base (Sim.set_endpoints
    ((fun v => Sim.endpoint (default "" (ec2Types.VpcEndpointId v)) "available")
       <$> Sim.endpoints (ClusterSim.base w)) (ClusterSim.base w)) w.

Definition pass (w : ClusterSim.State) (r : VpcEndpointReconciler)
  : outcome Result * Sys ClusterSim.State Mem :=
  Reconcile.Reconcile "ns" "example" (mkSys w [] (mkMem r obj)).

(** The states after each activity. *)
Definition s1 := (pass (user_creates w0) Sim.reconciler_).2.
Definition s2 := (pass (world s1) (reconciler (local s1))).2.
Definition s3 := (pass (endpoint_up (world s2)) (reconciler (local s2))).2.
Definition s4 := (pass (user_deletes (world s3)) (reconciler (local s3))).2.

Definition acts_live : list activity := [ByOthers; VpcEndpointPass k (trace s1)].

Lemma created_run :
  run ClusterSim.api w0 Sim.reconciler_ [ByOthers] (user_creates w0) Sim.reconciler_.
Proof.
  eapply (run_others _ _ _ []); [apply run_nil|]. apply rtc_once.
  apply others_create; [done..|]. by apply ClusterSim.next_version_fresh.
Qed.

Lemma pass_run w r acts w' r' :
  run ClusterSim.api w r acts w' r' ->
  run ClusterSim.api w r (acts ++ [VpcEndpointPass k (trace (pass w' r').2)])
    (world (pass w' r').2) (reconciler (local (pass w' r').2)).
Proof. intros Hr. by eapply run_vpcEndpoint. Qed.

Lemma live_run :
  run ClusterSim.api w0 Sim.reconciler_ acts_live (world s1) (reconciler (local s1)).
Proof. exact (pass_run _ _ _ _ _ created_run). Qed.

(** The object the first pass leaves in the store: live, its security group
    recorded. *)
Example live_object :
  option_map (fun v => (deletion v, ids (status v), finalizers v))
    (store (ClusterSim.api (world s1)) !! k) =
  Some (None, ("sg-new", "", "", ""), [Reconcile.avoFinalizer]).
Proof. vm_compute. reflexivity. Qed.

(** After the second pass the endpoint is pending, after the third everything
    serves, and after the deletion everything is gone. *)
Example life :
  ec2Types.State <$> Sim.endpoints (ClusterSim.base (world s2)) = ["pending"] /\
  (pass (endpoint_up (world s2)) (reconciler (local s2))).1 = Ok (mkResult (15 * Minute)) /\
  ids (status (resource (local s3))) = ("sg-new", "vpce-new", "Z1", "api.other.example") /\
  store (ClusterSim.api (world s4)) = ∅ /\ Sim.endpoints (ClusterSim.base (world s4)) = [] /\
  Sim.securityGroups (ClusterSim.base (world s4)) = [].
Proof. vm_compute. by repeat split. Qed.

Lemma wf_empty : wf (mkApi ∅ []).
Proof. split; cbn; [done|by intros ?? ?%elem_of_nil|by intros ? ?%elem_of_nil..]. Qed.


Lemma wf_created : wf (ClusterSim.api (user_creates w0)).
Proof.
  apply (others_wf (mkApi ∅ [])); [|apply wf_empty].
  apply others_create; [done..|]. by apply ClusterSim.next_version_fresh.
Qed.








End Life.

Lemma controllers_refine_finalizer_protocol_witness :
  rtc others (ClusterSim.api (Life.user_creates Life.w0)) (ClusterSim.api (world Life.s1)) \/
  (rtc (step Life.k) (ClusterSim.api (Life.user_creates Life.w0))
     (ClusterSim.api (world Life.s1)) /\
   exists v0, v0 ∈ history (ClusterSim.api (world Life.s1)) /\ key v0 = Life.k /\
     deletion v0 <> None /\ ReleaseSpec.resources_gone v0 (trace Life.s1)).
Proof.
  apply (controllers_refine_finalizer_protocol ClusterSim.api "ns" "example"
           (Life.user_creates Life.w0) Life.wf_created).
Defined.

Lemma recorded_resources_are_guarded_witness :
  exists v, store (ClusterSim.api (world Life.s1)) !! Life.k = Some v /\
    ids (status v) = ("sg-new", "", "", "") /\ Reconcile.avoFinalizer ∈ finalizers v.
Proof.
  destruct (store (ClusterSim.api (world Life.s1)) !! Life.k) as [v|] eqn:Hv;
    [|by vm_compute in Hv].
  assert (Hl : deletion v = None /\ ids (status v) = ("sg-new", "", "", "")).
  { vm_compute in Hv. by injection Hv as <-. }
  destruct Hl as [Hd Hi]. exists v. split; [done|]. split; [done|].
  eapply (recorded_resources_are_guarded ClusterSim.api Life.w0 Sim.reconciler_);
    [apply Life.wf_empty|apply Life.live_run|exact Hv|exact Hd|by rewrite Hi].
Defined.


End OperatorSpec.
