(* ===== verification/SafetySpec.v ===== *)
(** * No nil pointers

    A reconcile dereferences pointers all along: fields of AWS answers, of the
    cluster's objects, of its own memory.  When the answers are complete, in that
    the fields that AWS and the cluster document as present are there, and the spec is
    complete, in that it says where the name of the endpoint service comes from and, in a
    reference to a hosted control plane, by which field to find it, no pass of any
    controller panics, whatever else is answered and whatever fails.  (The CRD does not
    enforce the second: AdmissionSpec.v has specs that it admits and that panic.) *)
From S2P Require Import Prelude GoError Naming Types Calls GoMonad AwsClient Lookups.
From S2P Require Import Rules Controller Helpers HostedZones Validation Cleanup Reconcile Template Acceptance.
From S2P Require Import Sim AwsSpec Yields SteadySpec.
Import avov1alpha2 Naming Helpers HostedZones Validation Cleanup Reconcile.

Module SafetySpec.

(** ** Complete answers *)

Definition sg_complete (sg : ec2Types.SecurityGroup) : Prop :=
  is_Some (ec2Types.sg_GroupId sg) /\ Forall AwsSpec.tag_wf (ec2Types.sg_Tags sg).

Definition subnet_complete (s : ec2Types.Subnet) : Prop :=
  is_Some (ec2Types.SubnetId s) /\ is_Some (ec2Types.subnet_VpcId s) /\
  is_Some (ec2Types.AvailabilityZone s).

Definition vpce_complete (v : ec2Types.VpcEndpoint) : Prop :=
  is_Some (ec2Types.VpcEndpointId v) /\ is_Some (ec2Types.vpce_VpcId v) /\
  Forall is_Some (ec2Types.Groups v).

Definition zone_complete (z : route53Types.HostedZone) : Prop :=
  is_Some (route53Types.hz_Id z) /\ is_Some (route53Types.hz_Name z).

Definition summary_complete (z : route53Types.HostedZoneSummary) : Prop :=
  is_Some (route53Types.hzs_HostedZoneId z) /\ is_Some (route53Types.hzs_Name z).

Definition output_complete (out : route53Types.GetHostedZoneOutput) : Prop :=
  (exists z, route53Types.HostedZone_ out = Some z /\ zone_complete z) /\
  Forall is_Some (route53Types.VPCs out).

Definition connection_complete (c : ec2Types.VpcEndpointConnection) : Prop :=
  is_Some (ec2Types.conn_VpcEndpointId c) /\ is_Some (ec2Types.VpcEndpointOwner c).

(** A route has a hostname. *)
Definition services_complete (hcp : hyperv1beta1.HostedControlPlane) : Prop :=
  Forall (fun svc => hyperv1beta1.Type_ svc = hyperv1beta1.Route ->
    is_Some (hyperv1beta1.Route_Hostname svc)) (hyperv1beta1.Services hcp).

(** The spec names the endpoint service, or an object to read its name from. *)
Definition names_service (sp : VpcEndpointSpec) : Prop :=
  ServiceName sp <> "" \/
  exists ref, ServiceNameRef sp = Some ref /\
    (sn_Name ref <> "" \/
     exists vf, sn_ValueFrom ref = Some vf /\ is_Some (AwsEndpointServiceRef vf)).

(** And a reference to a hosted control plane says by which field to find it. *)
Definition spec_complete (sp : VpcEndpointSpec) : Prop :=
  names_service sp /\
  forall ref vf hcp, DomainNameRef (r53phz (CustomDns sp)) = Some ref ->
    dn_ValueFrom ref = Some vf -> HostedControlPlaneRef vf = Some hcp ->
    is_Some (NamespaceFieldRef hcp).

(** Successful answers are complete; errors are free. *)
Definition complete : answers := fun R c =>
  match c in call R return error + R -> Prop with
  | EC2 _ op =>
      match op in ec2op R return error + R -> Prop with
      | Calls.CreateSecurityGroup _ => fun r => forall id, r = inr id -> is_Some id
      | DescribeSecurityGroups _ _ => fun r => forall l, r = inr l -> Forall sg_complete l
      | Calls.DescribeSecurityGroupRules _ => fun r =>
          forall l, r = inr l -> Forall RulesSpec.rule_wf l
      | DescribeSubnets _ _ => fun r => forall l, r = inr l -> Forall subnet_complete l
      | DescribeVpcs _ _ => fun r =>
          forall l, r = inr l -> Forall (fun v => is_Some (ec2Types.VpcId v)) l
      | Calls.CreateVpcEndpoint _ => fun r =>
          forall o, r = inr o -> exists v, o = Some v /\ vpce_complete v
      | DescribeVpcEndpoints _ _ => fun r => forall l, r = inr l -> Forall vpce_complete l
      | DescribeVpcEndpointsPages _ => fun r =>
          forall pages l, r = inr pages -> inr l ∈ pages -> Forall vpce_complete l
      | DescribeVpcEndpointConnections _ => fun r =>
          forall l, r = inr l -> Forall connection_complete l
      | _ => fun _ => True
      end
  | R53 _ op =>
      match op in route53op R return error + R -> Prop with
      | Calls.CreateHostedZone _ => fun r =>
          forall o, r = inr o -> exists z, o = Some z /\ zone_complete z
      | Calls.GetHostedZone _ => fun r => forall out, r = inr out -> output_complete out
      | Calls.ListHostedZonesByName _ => fun r => forall l, r = inr l -> Forall zone_complete l
      | Calls.ListHostedZonesByVPC _ _ => fun r =>
          forall l, r = inr l -> Forall summary_complete l
      | Calls.ListResourceRecordSets _ => fun r =>
          forall l, r = inr l -> Forall (fun rr => is_Some (route53Types.rrs_Name rr)) l
      | ListTagsForResource _ _ => fun r =>
          forall o, r = inr o -> exists l, o = Some l /\ Forall AwsSpec.tag_wf l
      | _ => fun _ => True
      end
  | Kube op =>
      match op in kubeop R return error + R -> Prop with
      | GetVpcEndpoint _ _ => fun r => forall v, r = inr v -> spec_complete (Spec v)
      | GetInfrastructure _ => fun r =>
          forall i, r = inr i -> is_Some (configv1.PlatformStatus_ i)
      | ListHostedControlPlanes _ => fun r =>
          forall l, r = inr l -> Forall services_complete l
      | _ => fun _ => True
      end
  | _ => fun _ => True
  end.

(** ** Pure helpers do not panic *)

Definition no_panic {A} (o : outcome A) : Prop := forall w, o <> Panic w.

Create HintDb safe.

Lemma obind_no_panic {A B} (o : outcome A) (k : A -> outcome B) :
  no_panic o -> (forall a, o = Ok a -> no_panic (k a)) -> no_panic (obind o k).
Proof. intros Ho Hk w. destruct o; cbn; [by apply Hk|done|by intros [= ->]; eapply Ho|done]. Qed.

Lemma deref_no_panic {A} (p : option A) : is_Some p -> no_panic (deref p).
Proof. by intros [a ->]. Qed.

Lemma sequence_no_panic {A} (l : list (option A)) :
  Forall is_Some l ->
  no_panic (match sequence l with Some l' => Ok l' | None => Panic "nil pointer dereference" end).
Proof.
  intros Hl. destruct (all_present id (fun _ => True) l) as (l' & Hl' & _).
  - eapply Forall_impl; [exact Hl|]. intros x [y ->]. eauto.
  - rewrite list_fmap_id in Hl'. by rewrite Hl', sequence_Some.
Qed.
Lemma no_panic_ok {A} (a : A) : no_panic (Ok a).
Proof. done. Qed.
Lemma no_panic_err {A} e : no_panic (A:=A) (Err e).
Proof. done. Qed.

#[export] Hint Resolve deref_no_panic no_panic_ok no_panic_err sequence_no_panic : safe.

Ltac pure_step :=
  match goal with
  | |- no_panic (Ok _) => done
  | |- no_panic (Err _) => done
  | |- no_panic (obind _ _) => apply obind_no_panic; [|intros ? ?]
  | |- no_panic ?o => solve [eauto with safe]
  | |- no_panic (match ?x with _ => _ end) => destruct x eqn:?
  | |- no_panic (let _ := _ in _) => cbv zeta
  end.
Ltac go_pure := repeat pure_step.

Lemma generated_no_panic clusterName purpose :
  no_panic (GenerateSecurityGroupName clusterName purpose) /\
  no_panic (GenerateVPCEndpointName clusterName purpose).
Proof.
  unfold GenerateSecurityGroupName, GenerateVPCEndpointName.
  destruct (is_empty clusterName) eqn:Hc; [done|]. breflect.
  assert (Hp : clusterName +:+ "-" +:+ purpose <> "") by apply cluster_prefix_nonempty.
  destruct (generateName_Ok _ "sg" 255 Hp) as (n1 & -> & _); [done|done|].
  by destruct (generateName_Ok _ "vpce" 255 Hp) as (n2 & -> & _).
Qed.

Lemma tagsToMap_no_panic tags m : Forall AwsSpec.tag_wf tags -> no_panic (tagsToMap tags m).
Proof. intros Ht. revert m. induction Ht as [|t tags [[? Hk] [? Hv]] Ht IH]; intros m; cbn; [done|].
  rewrite Hk, Hv. apply IH. Qed.

Lemma GenerateAwsTags_complete name key :
  no_panic (GenerateAwsTags name key) /\
  forall tags, GenerateAwsTags name key = Ok tags -> Forall AwsSpec.tag_wf tags.
Proof.
  unfold GenerateAwsTags. destruct (_ || _)%bool; [done|]. split; [done|].
  intros tags [= <-]. repeat constructor; by eexists.
Qed.

Lemma GenerateAwsTagsAsMap_no_panic name key : no_panic (GenerateAwsTagsAsMap name key).
Proof.
  destruct (GenerateAwsTags_complete name key) as [Hn Ht]. apply obind_no_panic; [done|].
  intros tags Hok. by apply tagsToMap_no_panic, Ht.
Qed.

Lemma keys_no_panic infra :
  no_panic (GetClusterLegacyTagKey infra) /\ no_panic (GetClusterCapiTagKey infra).
Proof. unfold GetClusterLegacyTagKey, GetClusterCapiTagKey. by destruct (is_empty infra). Qed.

Lemma hasTag_no_panic tags k v : Forall AwsSpec.tag_wf tags -> no_panic (hasTag tags k v).
Proof. induction 1 as [|t tags [Hk Hv] Ht IH]; cbn; go_pure. Qed.

#[export] Hint Resolve hasTag_no_panic tagsToMap_no_panic GenerateAwsTagsAsMap_no_panic : safe.

Lemma hasTags_no_panic tags entries : Forall AwsSpec.tag_wf tags -> no_panic (hasTags tags entries).
Proof. intros Ht. induction entries as [|[k v] entries IH]; cbn; go_pure. Qed.

Lemma tagsContains_no_panic o tags m : Forall AwsSpec.tag_wf tags -> no_panic (tagsContains o tags m).
Proof. apply hasTags_no_panic. Qed.

Lemma countPage_no_panic vs m : Forall vpce_complete vs -> no_panic (AWSClient.countPage vs m).
Proof. intros Hv. revert m. induction Hv as [|v vs (_ & ? & _) Hv IH]; intros m; cbn; go_pure. Qed.

Lemma countPages_no_panic pages m :
  (forall l, inr l ∈ pages -> Forall vpce_complete l) -> no_panic (AWSClient.countPages pages m).
Proof.
  revert m. induction pages as [|[e|l] pages IH]; intros m Hp; cbn; [done..|].
  apply obind_no_panic; [apply countPage_no_panic, Hp; by left|].
  intros m' _. apply IH. intros l' Hl. apply Hp. by right.
Qed.

Lemma sameVpc_no_panic id ss : Forall subnet_complete ss -> no_panic (AWSClient.sameVpc id ss).
Proof. induction 1 as [|s ss (_ & ? & _) Hs IH]; cbn; go_pure. Qed.

Lemma findZoneByName_no_panic n zs :
  Forall summary_complete zs -> no_panic (AWSClient.findZoneByName n zs).
Proof. induction 1 as [|z zs [_ ?] Hz IH]; cbn; go_pure. Qed.

Lemma findZoneByName_complete n zs z :
  Forall summary_complete zs -> AWSClient.findZoneByName n zs = Ok (Some z) -> summary_complete z.
Proof.
  induction 1 as [|z' zs [? [n' Hn]] Hz IH]; cbn; [done|]. rewrite Hn. cbn.
  case_match; [intros [= ->]; by split|done].
Qed.

Lemma findSummary_no_panic n zs : Forall summary_complete zs -> no_panic (findSummary n zs).
Proof. induction 1 as [|z zs [_ ?] Hz IH]; cbn; go_pure. Qed.

Lemma findSummary_complete n zs z :
  Forall summary_complete zs -> findSummary n zs = Ok (Some z) -> summary_complete z.
Proof.
  induction 1 as [|z' zs [? [n' Hn]] Hz IH]; cbn; [done|]. rewrite Hn. cbn.
  case_match; [intros [= ->]; split; eauto|done].
Qed.

Lemma findPrivateZone_no_panic n zs : Forall zone_complete zs -> no_panic (findPrivateZone n zs).
Proof. induction 1 as [|z zs [_ ?] Hz IH]; cbn; go_pure. Qed.

Lemma findPrivateZone_complete n zs z :
  Forall zone_complete zs -> findPrivateZone n zs = Ok (Some z) -> zone_complete z.
Proof.
  induction 1 as [|z' zs [? [n' Hn]] Hz IH]; cbn; [done|]. rewrite Hn. cbn.
  case_match; [intros [= ->]; split; eauto|done].
Qed.

Lemma subnetSelected_no_panic id azs s : subnet_complete s -> no_panic (subnetSelected id azs s).
Proof. intros (? & ? & ?). induction azs as [|az azs IH]; cbn; go_pure. Qed.

Lemma selectSubnets_no_panic id azs ss :
  Forall subnet_complete ss -> no_panic (selectSubnets id azs ss).
Proof. induction 1 as [|s ss Hs Hss IH]; cbn; [done|]. apply obind_no_panic; [by apply subnetSelected_no_panic|].
  intros ids _. by apply obind_no_panic. Qed.

Lemma apiServerDomain_no_panic hcp :
  services_complete hcp -> no_panic (Lookups.apiServerDomain (hyperv1beta1.Services hcp)).
Proof.
  unfold services_complete. induction 1 as [|svc svcs Hs _ IH]; cbn; [done|].
  destruct (String.eqb _ _); [|done]. destruct (String.eqb_spec (hyperv1beta1.Type_ svc)
    hyperv1beta1.Route) as [Hr|]; [|done]. destruct (Hs Hr) as [h ->]. cbn. go_pure.
Qed.

Lemma missing_no_panic useVpcCidr vpcCidr sgs rules avoRules :
  Forall RulesSpec.rule_wf rules -> Forall sg_complete sgs ->
  no_panic (Rules.missingIngress useVpcCidr vpcCidr (ec2Types.sg_GroupId <$> sgs) rules avoRules) /\
  no_panic (Rules.missingEgress useVpcCidr vpcCidr (ec2Types.sg_GroupId <$> sgs) rules avoRules).
Proof.
  intros Hr Hs. destruct (all_present ec2Types.sg_GroupId (fun _ => True) sgs) as (ids & -> & _).
  { eapply Forall_impl; [exact Hs|]. intros sg [[id Hid] _]. eauto. }
  unfold Rules.missingIngress, Rules.missingEgress.
  by rewrite !RulesSpec.missingPermissions_spec.
Qed.

(** ** Computations that do not panic *)

Section logic.
Context {W : Type} {L : Type} `{World W} `{!Fits complete}.
Implicit Types (s : Sys W L) (Inv : L -> Prop).

(** From a memory that satisfies [Inv], [m] does not panic, keeps [Inv], and its
    result, if any, satisfies [Q]. *)
Definition safe {A} Inv (Q : A -> Prop) (m : M W L A) : Prop := forall s,
  Inv (local s) -> Inv (local (m s).2) /\ no_panic (m s).1 /\ forall a, (m s).1 = Ok a -> Q a.

Lemma safe_weaken {A} Inv (Q Q' : A -> Prop) (m : M W L A) :
  safe Inv Q m -> (forall a, Q a -> Q' a) -> safe Inv Q' m.
Proof. intros Hm HQ s Hs. destruct (Hm s Hs) as (? & ? & ?). eauto. Qed.

Lemma safe_any {A} Inv (Q : A -> Prop) (m : M W L A) :
  safe Inv Q m -> safe Inv (fun _ => True) m.
Proof. intros Hm. by eapply safe_weaken. Qed.

Lemma safe_ret {A} Inv (Q : A -> Prop) a : Q a -> safe Inv Q (ret a).
Proof. intros Ha s Hs. split_and!; [done|done|]. by intros ? [= <-]. Qed.

Lemma safe_lift {A} Inv (Q : A -> Prop) (o : outcome A) :
  no_panic o -> (forall a, o = Ok a -> Q a) -> safe Inv Q (lift o).
Proof. intros Ho HQ s Hs. split_and!; [done|exact Ho|exact HQ]. Qed.

Lemma safe_fail {A} Inv (Q : A -> Prop) e : safe Inv Q (fail e).
Proof. by apply safe_lift. Qed.

Lemma safe_out_of_fuel {A} Inv (Q : A -> Prop) : safe Inv Q out_of_fuel.
Proof. by apply safe_lift. Qed.

Lemma safe_bind {A B} Inv (Q : A -> Prop) (Q' : B -> Prop) (m : M W L A) (k : A -> M W L B) :
  safe Inv Q m -> (forall a, Q a -> safe Inv Q' (k a)) -> safe Inv Q' (bind m k).
Proof.
  intros Hm Hk s Hs. destruct (Hm s Hs) as (Hi & Hp & HQ). unfold bind.
  destruct (m s) as [[a|e|w|] s1]; cbn in *; [by apply Hk; [apply HQ|]|by split_and!| |by split_and!].
  by destruct (Hp w).
Qed.

Lemma safe_bind_any {A B} Inv (Q' : B -> Prop) (m : M W L A) (k : A -> M W L B) :
  safe Inv (fun _ => True) m -> (forall a, safe Inv Q' (k a)) -> safe Inv Q' (bind m k).
Proof. intros Hm Hk. by eapply safe_bind. Qed.

Lemma safe_lift_bind {A B} Inv (Q : B -> Prop) (o : outcome A) (k : A -> M W L B) :
  no_panic o -> (forall a, o = Ok a -> safe Inv Q (k a)) -> safe Inv Q (bind (lift o) k).
Proof.
  intros Ho Hk. apply (safe_bind _ (fun a => o = Ok a)); [by apply safe_lift|done].
Qed.

Lemma safe_gets_bind {A B} Inv (Q : B -> Prop) (f : L -> A) (k : A -> M W L B) :
  (forall l, Inv l -> safe Inv Q (k (f l))) -> safe Inv Q (bind (gets f) k).
Proof. intros Hk s Hs. exact (Hk (local s) Hs s Hs). Qed.

Lemma safe_gets {A} Inv (Q : A -> Prop) (f : L -> A) :
  (forall l, Inv l -> Q (f l)) -> safe Inv Q (gets f).
Proof. intros Hf s Hs. split_and!; [done|done|]. intros a [= <-]. auto. Qed.

Lemma safe_modify Inv (Q : unit -> Prop) (f : L -> L) :
  (forall l, Inv l -> Inv (f l)) -> Q tt -> safe Inv Q (modify f).
Proof. intros Hf HQ s Hs. split_and!; [by apply Hf|done|]. by intros [] _. Qed.

Lemma safe_trigger {R} Inv (Q : R -> Prop) (c : call R) :
  (forall a, complete R c (inr a) -> Q a) -> safe Inv Q (trigger c).
Proof.
  intros HQ s Hs. unfold trigger. destruct (handle c (world s)) as [w' r] eqn:E.
  apply answer_fits in E. destruct r as [e|a]; cbn; (split_and!; [done|done|]); [done|].
  intros ? [= <-]. auto.
Qed.

Lemma safe_try {A} Inv (Q : A -> Prop) (m : M W L A) :
  safe Inv Q m -> safe Inv (fun r => forall a, r = inr a -> Q a) (try m).
Proof.
  intros Hm s Hs. destruct (Hm s Hs) as (Hi & Hp & HQ). unfold try.
  destruct (m s) as [[a|e|w|] s1]; cbn in *; (split_and!; [done| |]); try done.
  - intros r [= <-] a' [= <-]. by apply HQ.
  - by intros r [= <-].
  - by destruct (Hp w).
Qed.

(** The error is handled in place. *)
Lemma safe_try_bind {A B} Inv (Q : A -> Prop) (Q' : B -> Prop) (m : M W L A)
    (k : error + A -> M W L B) :
  safe Inv Q m -> (forall e, safe Inv Q' (k (inl e))) -> (forall a, Q a -> safe Inv Q' (k (inr a))) ->
  safe Inv Q' (bind (try m) k).
Proof.
  intros Hm He Hk. eapply safe_bind; [by apply safe_try|]. intros [e|a] Ha; [done|]. auto.
Qed.

Lemma safe_wrap {A} p Inv (Q : A -> Prop) (m : M W L A) : safe Inv Q m -> safe Inv Q (wrap p m).
Proof.
  intros Hm. eapply safe_try_bind; [done|intros; apply safe_fail|intros; by apply safe_ret].
Qed.

Lemma safe_fire Inv (Q : unit -> Prop) c : Q tt -> safe Inv Q (fire c).
Proof.
  intros HQ. apply safe_bind_any; [|intros; by apply safe_ret].
  eapply safe_any, safe_try, (safe_trigger _ (fun _ => True)). done.
Qed.

Lemma safe_forM_ {A} Inv (P : A -> Prop) (l : list A) (f : A -> M W L unit) :
  Forall P l -> (forall a, P a -> safe Inv (fun _ => True) (f a)) ->
  safe Inv (fun _ => True) (forM_ l f).
Proof.
  intros Hl Hf. induction Hl as [|a l Ha Hl IH]; cbn [forM_]; [by apply safe_ret|].
  apply safe_bind_any; [by apply Hf|done].
Qed.

(** Through a client that is there. *)
Lemma safe_ec2 {R} Inv (Q : R -> Prop) c (op : ec2op R) :
  is_Some c -> (forall cfg a, complete R (EC2 cfg op) (inr a) -> Q a) ->
  safe Inv Q (AWSClient.ec2 c op).
Proof. intros [cfg ->] HQ. apply safe_trigger, HQ. Qed.

Lemma safe_r53 {R} Inv (Q : R -> Prop) c (op : route53op R) :
  is_Some c -> (forall cfg a, complete R (R53 cfg op) (inr a) -> Q a) ->
  safe Inv Q (AWSClient.r53 c op).
Proof. intros [cfg ->] HQ. apply safe_trigger, HQ. Qed.

End logic.

(** What a successful answer of a call satisfies. *)
Ltac answer := first [exact I | let Ha := fresh in intros ? Ha; exact (Ha _ eq_refl)
  | let Ha := fresh in intros ? ? Ha; exact (Ha _ eq_refl) | done].

(** Follows the text of a program in a goal [safe Inv Q m]; facts about called
    functions and about the memory are taken from the hints of [safe]. *)
Ltac go_safe_step :=
  match goal with
  | |- safe _ _ (bind (gets _) _) => apply safe_gets_bind; intros ? ?
  | |- safe _ _ (bind ?m _) =>
      let h := head_of m in
      lazymatch h with
      | @res => idtac | @res_status => idtac | @client => idtac | @conditionTrue => idtac
      end;
      apply safe_gets_bind; intros ? ?
  | |- safe _ _ (bind (lift _) _) =>
      apply safe_lift_bind; [solve [eauto with safe]|intros ? ?]
  | |- safe _ _ (bind (try _) _) =>
      eapply safe_try_bind; [solve [eauto with safe]|intros ?|intros ? ?]
  | |- safe _ _ (bind (try _) _) =>
      eapply (safe_try_bind _ (fun _ => True)); [|intros ?|intros ? _]
  | |- safe _ _ (bind _ _) => eapply safe_bind; [solve [eauto with safe]|intros ? ?]
  | |- safe _ _ (bind _ _) => apply safe_bind_any; [|intros ?]
  | |- safe _ _ (ret _) => apply safe_ret; try done
  | |- safe _ _ (fail _) => apply safe_fail
  | |- safe _ _ out_of_fuel => apply safe_out_of_fuel
  | |- safe _ _ (fire _) => by apply safe_fire
  | |- safe _ _ (trigger _) => apply safe_trigger; by intros
  | |- safe _ _ (AWSClient.ec2 _ _) => apply safe_ec2; [solve [eauto with safe]|by intros]
  | |- safe _ _ (AWSClient.r53 _ _) => apply safe_r53; [solve [eauto with safe]|by intros]
  | |- safe _ _ (wrap _ _) => apply safe_wrap
  | |- safe _ _ (modify _) => apply safe_modify; [solve [eauto with safe]|done]
  | |- safe _ _ (lift _) => apply safe_lift; [solve [eauto with safe]|by intros]
  | |- safe _ _ ?m => solve [eauto with safe]
  | |- safe _ (fun _ => True) ?m => solve [eapply safe_any; eauto with safe]
  | |- safe _ _ (let _ := _ in _) => cbv zeta
  | |- safe _ _ (match ?x with _ => _ end) => destruct x eqn:?
  | |- safe _ _ ?m => unfold_program m
  end.
Ltac go_safe := repeat go_safe_step.

(** ** The VpcEndpoint controller *)

Section vpcendpoint.
Context {W : Type} `{World W} `{K8sHelpers} `{!Fits complete}.
Implicit Types s : Sys W Mem.

Definition cache_complete (m : Mem) : Prop :=
  forall id entry, default ∅ (hostedZoneCache (reconciler m)) !! id = Some entry ->
    output_complete (response entry).

(** The memory of a pass, before and after its AWS client was established. *)
Record mem_safe (connected : bool) (m : Mem) : Prop := {
  ms_spec : spec_complete (Spec (resource m));
  ms_cache : cache_complete m;
  ms_ci : is_Some (clusterInfo_ (reconciler m));
  ms_client : connected = true -> is_Some (awsClient (reconciler m))
}.

Lemma mem_client m : mem_safe true m -> is_Some (awsClient (reconciler m)).
Proof. intros Hm. by apply (ms_client _ _ Hm). Qed.

#[local] Hint Resolve mem_client ms_ci : safe.
#[local] Hint Resolve tagsContains_no_panic countPages_no_panic sameVpc_no_panic
  findZoneByName_no_panic findSummary_no_panic findPrivateZone_no_panic selectSubnets_no_panic
  apiServerDomain_no_panic : safe.
#[local] Hint Extern 1 (forall m, mem_safe _ m -> mem_safe _ _) =>
  (let Hm := fresh in intros ? Hm; destruct Hm; constructor; cbn; solve [done | eauto]) : safe.

Abbreviation S b := (safe (W:=W) (mem_safe b)).
Abbreviation any := (fun _ => True).

Lemma generated_sg_no_panic c p : no_panic (GenerateSecurityGroupName c p).
Proof. apply generated_no_panic. Qed.
Lemma generated_vpce_no_panic c p : no_panic (GenerateVPCEndpointName c p).
Proof. apply generated_no_panic. Qed.
Lemma legacy_key_no_panic i : no_panic (GetClusterLegacyTagKey i).
Proof. apply keys_no_panic. Qed.
Lemma capi_key_no_panic i : no_panic (GetClusterCapiTagKey i).
Proof. apply keys_no_panic. Qed.
Lemma aws_tags_no_panic n k : no_panic (GenerateAwsTags n k).
Proof. apply GenerateAwsTags_complete. Qed.
#[local] Hint Resolve generated_sg_no_panic generated_vpce_no_panic legacy_key_no_panic
  capi_key_no_panic aws_tags_no_panic : safe.

Lemma statusUpdate_safe b : S b any statusUpdate.
Proof. go_safe. Qed.

Lemma clusterInfo_safe b : S b any get_clusterInfo.
Proof. unfold get_clusterInfo. go_safe. Qed.

#[local] Hint Resolve statusUpdate_safe clusterInfo_safe : safe.

(** *** Lookups *)

Lemma region_safe b : S b any Lookups.GetAWSRegion.
Proof.
  unfold Lookups.GetAWSRegion, Lookups.getInfrastructure.
  eapply (safe_bind _ (fun i => is_Some (configv1.PlatformStatus_ i)));
    [apply safe_wrap, safe_trigger; answer|intros i Hi]. go_safe.
Qed.

Lemma hcp_domain_safe b ns :
  S b any (Lookups.hostedcontrolplanes_GetPrivateHostedZoneDomainName ns).
Proof.
  unfold Lookups.hostedcontrolplanes_GetPrivateHostedZoneDomainName.
  eapply (safe_bind _ (Forall services_complete)); [apply safe_trigger; answer|].
  intros hcps Hh. destruct Hh as [|hcp hcps Hhcp [|]]; go_safe.
Qed.

#[local] Hint Resolve region_safe hcp_domain_safe : safe.

(** *** The AWS client *)

Lemma describe_sgs_safe b c fs ids :
  is_Some c -> S b (Forall sg_complete) (AWSClient.ec2 c (DescribeSecurityGroups fs ids)).
Proof. intros Hc. apply safe_ec2; [done|answer]. Qed.

Lemma describe_vpces_safe b c fs ids :
  is_Some c -> S b (Forall vpce_complete) (AWSClient.ec2 c (DescribeVpcEndpoints fs ids)).
Proof. intros Hc. apply safe_ec2; [done|answer]. Qed.

Lemma describe_subnets_safe b c fs ids :
  is_Some c -> S b (Forall subnet_complete) (AWSClient.ec2 c (DescribeSubnets fs ids)).
Proof. intros Hc. apply safe_ec2; [done|answer]. Qed.

#[local] Hint Resolve describe_sgs_safe describe_vpces_safe describe_subnets_safe : safe.

(** An optional list: its elements. *)
Definition all_of {A} (P : A -> Prop) (r : option (list A)) : Prop := Forall P (default [] r).

Lemma sg_by_id_safe b c id :
  is_Some c -> S b (all_of sg_complete) (AWSClient.FilterSecurityGroupById c id).
Proof. intros Hc. unfold AWSClient.FilterSecurityGroupById. go_safe; by constructor. Qed.

Lemma sg_by_tags_safe b c i n :
  is_Some c -> S b (Forall sg_complete) (AWSClient.FilterSecurityGroupByDefaultTags c i n).
Proof. intros Hc. unfold AWSClient.FilterSecurityGroupByDefaultTags. go_safe. Qed.

Lemma node_sgs_safe b c i :
  is_Some c -> S b (Forall sg_complete) (AWSClient.FilterClusterNodeSecurityGroupsByDefaultTags c i).
Proof. intros Hc. unfold AWSClient.FilterClusterNodeSecurityGroupsByDefaultTags. go_safe. Qed.

Lemma vpce_by_id_safe b c id :
  is_Some c -> S b (all_of vpce_complete) (AWSClient.DescribeSingleVPCEndpointById c id).
Proof. intros Hc. unfold AWSClient.DescribeSingleVPCEndpointById. go_safe; by constructor. Qed.

Lemma vpce_by_tags_safe b c t n :
  is_Some c -> S b (Forall vpce_complete) (AWSClient.FilterVPCEndpointByDefaultTags c t n).
Proof. intros Hc. unfold AWSClient.FilterVPCEndpointByDefaultTags. go_safe. Qed.

Lemma discover_safe b c t ts :
  is_Some c -> S b (Forall subnet_complete) (AWSClient.AutodiscoverPrivateSubnets c t ts).
Proof.
  intros Hc. unfold AWSClient.AutodiscoverPrivateSubnets, AWSClient.DescribeSubnetsByTags. go_safe.
Qed.

Lemma GetVPCId_safe b c ids : is_Some c -> S b any (AWSClient.GetVPCId c ids).
Proof.
  intros Hc. unfold AWSClient.GetVPCId. destruct ids; [go_safe|].
  eapply safe_bind; [apply safe_wrap; eauto with safe|]. intros ss Hss.
  destruct Hss as [|s0 ss Hs Hss]; [go_safe|]. pose proof Hs as (_ & ? & _).
  assert (Forall subnet_complete (s0 :: ss)) by by constructor. go_safe.
Qed.

Lemma SelectVPC_safe b c ids : is_Some c -> S b any (AWSClient.SelectVPCForVPCEndpoint c ids).
Proof.
  intros Hc. unfold AWSClient.SelectVPCForVPCEndpoint. destruct ids; [go_safe|]. cbv zeta.
  eapply (safe_bind _ (fun pages => forall l, inr l ∈ pages -> Forall vpce_complete l)).
  { apply safe_ec2; [done|]. intros cfg pages Hp l. by apply Hp. }
  intros pages Hp. go_safe.
Qed.

Lemma FilterVpcIds_safe b c ts : is_Some c -> S b any (AWSClient.FilterVpcIdsByTags c ts).
Proof.
  intros Hc. unfold AWSClient.FilterVpcIdsByTags. destruct ts; [go_safe|]. cbv zeta.
  eapply (safe_bind _ (Forall (fun v => is_Some (ec2Types.VpcId v)))).
  { apply safe_ec2; [done|answer]. }
  intros vpcs Hv. destruct vpcs; [go_safe|]. apply safe_lift; [|done].
  by apply sequence_no_panic, Forall_fmap.
Qed.

#[local] Hint Resolve sg_by_id_safe sg_by_tags_safe node_sgs_safe vpce_by_id_safe
  vpce_by_tags_safe discover_safe GetVPCId_safe SelectVPC_safe FilterVpcIds_safe : safe.

(** *** Cluster information *)

Lemma chooseVpc_safe : S true any chooseVpc.
Proof.
  unfold chooseVpc, res, client. go_safe_step. go_safe_step. cbv zeta.
  case_match; [case_match|]; [|go_safe..].
  case_match; [|go_safe].
  go_safe_step. eapply safe_bind; [apply safe_wrap; eauto with safe|]. intros ss Hss.
  apply safe_lift_bind; [|intros; go_safe].
  apply sequence_no_panic, Forall_fmap. eapply Forall_impl; [exact Hss|]. by intros x [? _].
Qed.

Lemma recordInfraId_safe b m : S b any m -> S b any (recordInfraId m).
Proof. intros Hm. unfold recordInfraId. go_safe. Qed.

Lemma infraName_safe b : S b any Lookups.GetInfrastructureName.
Proof. unfold Lookups.GetInfrastructureName, Lookups.getInfrastructure. go_safe. Qed.

Lemma infraId_safe b ns : S b any (Lookups.GetInfraId ns).
Proof. unfold Lookups.GetInfraId. go_safe. Qed.

Lemma serviceName_safe b : S b any getVpcEndpointServiceName.
Proof.
  unfold getVpcEndpointServiceName, res. apply safe_gets_bind. intros m Hm.
  destruct (ms_spec _ _ Hm) as [[Hn|(ref & Href & Hn)] _].
  - apply is_empty_false in Hn. rewrite Hn. cbn [negb]. go_safe.
  - rewrite Href. cbn [deref]. apply safe_bind_any; [|intros; go_safe].
    destruct (negb _); [go_safe|].
    eapply (safe_bind _ (fun r => r = ref)); [by apply safe_lift; [|intros ? [= <-]]|intros ? ->].
    destruct Hn as [Hn|(vf & Hvf & aes & Haes)].
    + apply is_empty_false in Hn. rewrite Hn. cbn [negb]. go_safe.
    + rewrite Hvf. cbn [deref]. destruct (negb _); [go_safe|].
      eapply (safe_bind _ (fun r => r = vf)); [by apply safe_lift; [|intros ? [= <-]]|intros ? ->].
      rewrite Haes. go_safe.
Qed.

Lemma credentials_safe b region ref :
  S b any (Lookups.ParseAWSCredentialOverride region ref).
Proof. unfold Lookups.ParseAWSCredentialOverride. go_safe. Qed.

#[local] Hint Resolve chooseVpc_safe infraName_safe infraId_safe serviceName_safe credentials_safe
  : safe.

(** [parseClusterInfo] connects: a client is there when it succeeds. *)
Definition connects {A} (m : M W Mem A) : Prop := forall s,
  mem_safe false (local s) ->
  mem_safe false (local (m s).2) /\ no_panic (m s).1 /\
  forall a, (m s).1 = Ok a -> mem_safe true (local (m s).2).

Lemma mem_safe_weaken b m : mem_safe b m -> mem_safe false m.
Proof. intros []. by constructor. Qed.

Lemma connects_after {A B} (Q : A -> Prop) (m : M W Mem A) (k : A -> M W Mem B) :
  S false Q m -> (forall a, Q a -> connects (k a)) -> connects (bind m k).
Proof.
  intros Hm Hk s Hs. destruct (Hm s Hs) as (Hi & Hp & HQ). unfold bind.
  destruct (m s) as [[a|e|w|] s1]; cbn in *; [by apply Hk; [apply HQ|]|by split_and!| |by split_and!].
  by destruct (Hp w).
Qed.

Lemma connects_then {A B} (Q : B -> Prop) (m : M W Mem A) (k : A -> M W Mem B) :
  connects m -> (forall a, S true Q (k a)) -> connects (bind m k).
Proof.
  intros Hm Hk s Hs. destruct (Hm s Hs) as (Hi & Hp & HQ). unfold bind.
  destruct (m s) as [[a|e|w|] s1]; cbn in *; [|by split_and!| |by split_and!].
  - destruct (Hk a s1 (HQ a eq_refl)) as (? & ? & _). split_and!; [by eapply mem_safe_weaken|done..].
  - by destruct (Hp w).
Qed.

Lemma connects_modify cfg :
  connects (modify (on_reconciler (set_awsClient (Some cfg)))).
Proof. intros s []. split_and!; [by constructor|done|]. intros _ _. by constructor. Qed.

Lemma connects_fail {A} e : connects (A:=A) (fail e).
Proof. by intros s Hs. Qed.

Lemma establishClient_connects : connects (establishClient true).
Proof.
  unfold establishClient, res.
  eapply (connects_after any); [apply safe_gets; done|intros v _].
  eapply (connects_after any); [apply clusterInfo_safe|intros ci _].
  destruct (AWSCredentialOverrideRef _).
  - eapply (connects_after any); [apply credentials_safe|intros cfg _]. apply connects_modify.
  - eapply (connects_after any); [go_safe|intros cfg _]. apply connects_modify.
Qed.

(** The memory before a pass. *)
Definition mem_ready (m : Mem) : Prop := spec_complete (Spec (resource m)) /\ cache_complete m.

Lemma bind_modify {A} (f : Mem -> Mem) (k : unit -> M W Mem A) s :
  bind (modify f) k s = k tt (mkSys (world s) (trace s) (f (local s))).
Proof. done. Qed.

Lemma parseClusterInfo_safe s :
  mem_ready (local s) ->
  wp (parseClusterInfo true) (fun o s' =>
    mem_safe false (local s') /\ no_panic o /\
    forall a, o = Ok a -> mem_safe true (local s')) s.
Proof.
  intros [Hsp Hc]. unfold wp, parseClusterInfo. rewrite bind_modify.
  set (s0 := mkSys _ _ _). assert (Hs0 : mem_safe false (local s0)) by by constructor.
  match goal with |- context [no_panic (?m s0).1] => enough (Hm : connects m) by exact (Hm s0 Hs0) end.
  eapply (connects_after any); [apply safe_gets; done|intros v _].
  eapply (connects_after any).
  { destruct (hostedControlPlaneRef v); apply recordInfraId_safe; eauto with safe. }
  intros _ _. eapply (connects_after any); [apply safe_gets; done|intros st _].
  eapply (connects_after any); [apply safe_lift; eauto with safe; done|intros tag _].
  eapply (connects_after any); [unfold setClusterTag; go_safe|intros _ _].
  eapply (connects_after any); [go_safe|intros _ _].
  eapply (connects_after any); [unfold recordRegion, setRegion; go_safe|intros _ _].
  eapply (connects_then any); [apply establishClient_connects|intros _]. go_safe.
Qed.

(** *** The security group *)

Lemma found_sg_safe sg : sg_complete sg -> S true sg_complete (foundSecurityGroup sg).
Proof. intros Hsg. pose proof Hsg as [? _]. unfold foundSecurityGroup. go_safe. Qed.

Lemma AWS_CreateSecurityGroup_safe c n v t :
  is_Some c -> S true is_Some (AWSClient.CreateSecurityGroup c n v t).
Proof.
  intros Hc. unfold AWSClient.CreateSecurityGroup. go_safe_step.
  eapply (safe_bind _ is_Some); [apply safe_ec2; [done|answer]|]. intros o Ho. go_safe.
Qed.

Lemma createSecurityGroup_safe n : S true sg_complete (createSecurityGroup n).
Proof.
  unfold createSecurityGroup, client, res_status. do 2 (apply safe_gets_bind; intros ? ?).
  go_safe_step. eapply safe_bind; [apply AWS_CreateSecurityGroup_safe; eauto with safe|].
  intros o Ho. go_safe.
Qed.

Lemma findOrCreateSecurityGroup_safe : S true sg_complete findOrCreateSecurityGroup.
Proof.
  unfold findOrCreateSecurityGroup, client, res. do 2 (apply safe_gets_bind; intros ? ?).
  eapply safe_bind; [eauto with safe|]. intros resp Hresp. unfold all_of in Hresp.
  destruct Hresp; [|by apply found_sg_safe]. go_safe_step.
  eapply safe_bind; [eauto with safe|]. intros sgs Hsgs.
  destruct Hsgs; [apply createSecurityGroup_safe|by apply found_sg_safe].
Qed.

Lemma tags_safe sg : sg_complete sg -> S true any (createMissingSecurityGroupTags sg).
Proof.
  intros [? ?]. unfold createMissingSecurityGroupTags. go_safe.
Qed.

Lemma cidr_safe v : S true any (vpcCidrForRules v).
Proof. unfold vpcCidrForRules, AWSClient.GetVpcCidrBlock. go_safe. Qed.

Lemma rules_safe sg p :
  sg_complete sg -> S true any (generateMissingSecurityGroupRules (Some sg) p).
Proof.
  intros Hsg. pose proof Hsg as [? _]. destruct p; [apply safe_fail|].
  unfold generateMissingSecurityGroupRules, client, res.
  do 2 (apply safe_gets_bind; intros ? ?). apply safe_lift_bind; [eauto with safe|intros id _].
  eapply (safe_bind _ (Forall RulesSpec.rule_wf)).
  { apply safe_ec2; [eauto with safe|answer]. }
  intros rs Hrs. eapply safe_bind; [eauto with safe|]. intros sgs Hsgs. cbv zeta.
  eapply safe_bind; [apply cidr_safe|]. intros cidr _.
  apply safe_lift_bind; [by apply missing_no_panic|intros ? _].
  apply safe_lift_bind; [by apply missing_no_panic|intros ? _]. go_safe.
Qed.

#[local] Hint Resolve findOrCreateSecurityGroup_safe tags_safe rules_safe : safe.

Lemma observeReady_safe b t m : S b any (observeReady t m).
Proof. unfold observeReady. go_safe. Qed.

Lemma setCondition_safe b c : S b any (setCondition c).
Proof. unfold setCondition. go_safe. Qed.

#[local] Hint Resolve observeReady_safe setCondition_safe : safe.

Lemma validateSecurityGroup_safe p : S true any (validateSecurityGroup p).
Proof. unfold validateSecurityGroup, AWSClient.AuthorizeSecurityGroupRules. go_safe. Qed.

(** *** The endpoint *)

Lemma createVpcEndpoint_safe n : S true vpce_complete (createVpcEndpoint n).
Proof.
  unfold createVpcEndpoint, client, res_status, AWSClient.CreateDefaultInterfaceVPCEndpoint.
  do 2 (apply safe_gets_bind; intros ? ?). go_safe_step.
  eapply (safe_bind _ (fun o => exists v, o = Some v /\ vpce_complete v)).
  { apply safe_wrap. go_safe_step. apply safe_ec2; [eauto with safe|answer]. }
  intros o (v & -> & Hv). pose proof Hv as [? _].
  eapply (safe_bind _ (fun v' => v' = v)); [by apply safe_lift; [|intros ? [= <-]]|intros ? ->].
  go_safe.
Qed.

Lemma findOrCreateVpcEndpoint_safe : S true vpce_complete findOrCreateVpcEndpoint.
Proof.
  unfold findOrCreateVpcEndpoint, client, res. do 2 (apply safe_gets_bind; intros ? ?).
  eapply safe_bind; [eauto with safe|]. intros resp Hresp. unfold all_of in Hresp.
  eapply (safe_bind _ vpce_complete).
  - destruct Hresp; [|by apply safe_ret]. do 2 go_safe_step.
    eapply safe_bind; [eauto with safe|]. intros vs Hvs.
    destruct Hvs; [apply createVpcEndpoint_safe|by apply safe_ret].
  - intros v Hv. pose proof Hv as [? _]. go_safe.
Qed.

Lemma discoverSubnets_safe v : S true (Forall subnet_complete) (discoverSubnets v).
Proof. unfold discoverSubnets. go_safe. Qed.

#[local] Hint Resolve findOrCreateVpcEndpoint_safe discoverSubnets_safe : safe.

Lemma endpointReady_safe v : vpce_complete v -> S true any (endpointReady v).
Proof.
  intros (_ & _ & Hg). unfold endpointReady, ensureVpcEndpointSubnets,
    ensureVpcEndpointSecurityGroups, diffVpcEndpointSecurityGroups, expectedSubnets,
    AWSClient.GetVpcEndpointServiceAZs. go_safe.
Qed.

#[local] Hint Resolve endpointReady_safe : safe.

Lemma validateVPCEndpoint_safe p : S true any (validateVPCEndpoint p).
Proof.
  unfold validateVPCEndpoint. go_safe_step; [go_safe|].
  eapply safe_bind; [eauto with safe|]. intros v Hv. pose proof Hv as [? _]. go_safe.
Qed.

(** *** Hosted zones and records *)

Lemma fetched_zone_safe c id :
  is_Some c -> S true output_complete (AWSClient.GetHostedZone c id).
Proof. intros Hc. apply safe_r53; [done|answer]. Qed.

Lemma set_cache_safe b cache :
  (forall id entry, cache !! id = Some entry -> output_complete (response entry)) ->
  S b any (set_cache cache).
Proof. intros Hc. apply safe_modify; [|done]. intros m []. by constructor. Qed.

Lemma getHostedZoneCached_safe id : S true output_complete (getHostedZoneCached id).
Proof.
  unfold getHostedZoneCached, cacheLookup, get_cache.
  eapply (safe_bind _ (fun r => forall out, r = Some out -> output_complete out)).
  - apply safe_gets_bind. intros m Hm. pose proof (ms_cache _ _ Hm) as Hc.
    eapply safe_bind; [by apply set_cache_safe|intros _ _].
    destruct (default ∅ _ !! id) as [entry|] eqn:He; [|by apply safe_ret].
    eapply safe_bind_any; [unfold since; go_safe|intros age]. case_match.
    + apply safe_ret. intros out [= <-]. by eapply Hc.
    + eapply safe_bind_any; [|intros _; by apply safe_ret]. apply set_cache_safe.
      intros id' entry' [_ He']%lookup_delete_Some. by eapply Hc.
  - intros [out|] Hout; [by apply safe_ret, Hout|]. unfold client.
    apply safe_gets_bind. intros m Hm.
    eapply safe_bind; [by apply fetched_zone_safe, mem_client|intros out Ho].
    apply safe_bind_any; [go_safe|intros now].
    apply safe_gets_bind. intros m' Hm'. pose proof (ms_cache _ _ Hm') as Hc.
    eapply safe_bind_any; [|intros _; by apply safe_ret]. apply set_cache_safe.
    intros id' entry [[_ <-]|[_ He]]%lookup_insert_Some; [done|by eapply Hc].
Qed.

Lemma invalidate_safe b id : S b any (invalidateHostedZoneCache id).
Proof.
  unfold invalidateHostedZoneCache. apply safe_gets_bind. intros m Hm.
  pose proof (ms_cache _ _ Hm) as Hc. unfold cache_complete in Hc.
  destruct (hostedZoneCache (reconciler m)) as [cache|]; [|by apply safe_ret].
  apply set_cache_safe. intros id' entry [_ He]%lookup_delete_Some. by eapply Hc.
Qed.

Lemma requestedDomainName_safe : S true any requestedDomainName.
Proof.
  unfold requestedDomainName, res. apply safe_gets_bind. intros m Hm.
  destruct (ms_spec _ _ Hm) as [_ Hh]. unfold phz_spec.
  case_match; [go_safe|]. destruct (DomainNameRef _) as [ref|] eqn:Href; [|go_safe].
  case_match; [go_safe|]. destruct (dn_ValueFrom ref) as [vf|] eqn:Hvf; [|go_safe].
  destruct (DnsRef vf); [unfold Lookups.dnses_GetPrivateHostedZoneDomainName; go_safe|].
  destruct (HostedControlPlaneRef vf) as [hcp|] eqn:Hhcp; [|go_safe].
  pose proof (Hh _ _ _ eq_refl Hvf Hhcp). go_safe.
Qed.

Lemma updateHostedZoneId_safe b id : S b any (updateHostedZoneId id).
Proof. unfold updateHostedZoneId. go_safe. Qed.

#[local] Hint Resolve getHostedZoneCached_safe invalidate_safe requestedDomainName_safe
  updateHostedZoneId_safe : safe.

Lemma zones_by_vpc_safe c v r :
  is_Some c -> S true (Forall summary_complete) (AWSClient.ListHostedZonesByVPC c v r).
Proof. intros Hc. apply safe_r53; [done|answer]. Qed.

Lemma zones_by_name_safe c n :
  is_Some c -> S true (Forall zone_complete) (AWSClient.ListHostedZonesByName c n).
Proof. intros Hc. apply safe_r53; [done|answer]. Qed.

#[local] Hint Resolve zones_by_vpc_safe zones_by_name_safe : safe.

Lemma createZone_safe n : S true any (createZone n).
Proof.
  unfold createZone, client, res_status. do 2 (apply safe_gets_bind; intros ? ?). go_safe_step.
  eapply (safe_bind _ (fun o => exists z, o = Some z /\ zone_complete z)).
  { apply safe_wrap. unfold AWSClient.CreateHostedZone. go_safe_step; [go_safe|].
    apply safe_r53; [eauto with safe|answer]. }
  intros o (z & -> & Hz & _).
  eapply (safe_bind _ (fun z' => z' = z)); [by apply safe_lift; [|intros ? [= <-]]|intros ? ->].
  go_safe.
Qed.

#[local] Hint Resolve createZone_safe : safe.

Lemma findOrCreateZone_safe n : S true any (findOrCreateZone n).
Proof.
  unfold findOrCreateZone, client, res_status. case_match; [go_safe|].
  do 2 (apply safe_gets_bind; intros ? ?). go_safe_step.
  eapply safe_bind; [eauto with safe|intros hzs Hhzs].
  apply safe_lift_bind; [eauto with safe|]. intros [hz|] Hf.
  - apply findSummary_complete in Hf as [? _]; [|done]. go_safe.
  - eapply safe_bind; [apply safe_wrap; eauto with safe|intros zs Hzs].
    apply safe_lift_bind; [eauto with safe|]. intros [z|] Hfz; [|go_safe].
    apply findPrivateZone_complete in Hfz as [? _]; [|done]. go_safe.
Qed.

(** The zone that was found, and its fields. *)
Lemma with_zone_safe {A} (Q : A -> Prop) out (k : route53Types.HostedZone -> M W Mem A) :
  output_complete out -> (forall z, zone_complete z -> S true Q (k z)) ->
  S true Q (bind (lift (deref (route53Types.HostedZone_ out))) k).
Proof.
  intros [(z & Hz & Hzc) _] Hk. apply safe_lift_bind; [rewrite Hz; by apply deref_no_panic|].
  rewrite Hz. intros ? [= <-]. by apply Hk.
Qed.

#[local] Hint Resolve findOrCreateZone_safe : safe.

Lemma findOrCreatePrivateHostedZone_safe p : S true any (findOrCreatePrivateHostedZone p).
Proof.
  unfold findOrCreatePrivateHostedZone, res_status. case_match; [go_safe|].
  apply safe_gets_bind. intros m Hm. case_match; [|go_safe].
  eapply safe_bind; [eauto with safe|intros out Hout].
  apply with_zone_safe; [done|intros z [? _]]. go_safe.
Qed.

Lemma zoneTags_safe : S true any createMissingPrivateZoneTags.
Proof.
  unfold createMissingPrivateZoneTags, client, res_status.
  do 2 (apply safe_gets_bind; intros ? ?). cbv zeta.
  eapply (safe_bind _ (fun o => exists l, o = Some l /\ Forall AwsSpec.tag_wf l)).
  { apply safe_wrap, safe_r53; [eauto with safe|answer]. }
  intros o (tags & -> & Hl). go_safe_step.
  eapply (safe_bind _ (fun i => Forall AwsSpec.tag_wf (route53Types.AddTags i))).
  { apply safe_wrap, safe_lift; unfold AWSClient.GenerateDefaultTagsForHostedZoneInput,
      GenerateR53Tags; case_match; try done. intros i [= <-]. repeat constructor; by eexists. }
  intros i Hi.
  eapply (safe_bind _ (fun tags' => tags' = tags));
    [by apply safe_lift; [|intros ? [= <-]]|intros ? ->].
  apply safe_lift_bind; [eauto with safe|intros actual _].
  apply safe_bind_any; [|intros _; go_safe].
  eapply safe_forM_; [exact Hi|]. intros t [? ?]. unfold checkZoneTag,
    AWSClient.ChangeTagsForResource. go_safe.
Qed.

#[local] Hint Resolve findOrCreatePrivateHostedZone_safe zoneTags_safe : safe.

Lemma validateZone_safe p : S true any (validateR53PrivateHostedZone p).
Proof.
  unfold validateR53PrivateHostedZone, res. case_match; [go_safe|].
  apply safe_gets_bind. intros m Hm. case_match; [|case_match; [|go_safe]].
  - unfold Lookups.dnses_GetPrivateHostedZoneDomainName. go_safe_step; [go_safe|].
    unfold client. apply safe_gets_bind. intros m' Hm'. go_safe_step.
    eapply (safe_bind _ summary_complete).
    { unfold AWSClient.GetDefaultPrivateHostedZoneId.
      eapply safe_bind; [eauto with safe|intros zs Hzs].
      apply safe_lift_bind; [eauto with safe|]. intros [z|] Hz; [|go_safe].
      by apply safe_ret, (findZoneByName_complete _ _ _ Hzs Hz). }
    intros hz [? _]. go_safe.
  - eapply safe_bind; [eauto with safe|intros out Hout].
    apply with_zone_safe; [done|intros z [? _]]. go_safe.
Qed.

Lemma associateVpc_safe vpcs v : S true any (associateVpc vpcs v).
Proof.
  unfold associateVpc, AWSClient.CreateVPCAssociationAuthorization. case_match; [go_safe|].
  unfold client, res_status. do 2 (apply safe_gets_bind; intros ? ?). go_safe_step.
  { apply safe_r53; [eauto with safe|done]. }
  apply safe_bind_any; [apply credentials_safe|intros cfg].
  apply safe_bind_any; [go_safe|intros _].
  apply safe_bind_any; [apply safe_r53; [by eexists|done]|intros _]. go_safe.
Qed.

Lemma authorization_safe p : S true any (validateR53HostedZoneAuthorization p).
Proof.
  unfold validateR53HostedZoneAuthorization, res. case_match; [go_safe|].
  apply safe_gets_bind. intros m Hm. destruct (AssociatedVpcs _) as [|v vpcs]; [go_safe|].
  case_match; [go_safe|]. eapply safe_bind; [eauto with safe|intros out [_ Hv]].
  apply safe_lift_bind; [by apply sequence_no_panic|intros ids _].
  eapply (safe_forM_ _ any); [by apply Forall_true|]. intros av _. apply associateVpc_safe.
Qed.

Lemma upsertRecord_safe z r : zone_complete z -> S true any (upsertRecord z r).
Proof. intros [? ?]. unfold upsertRecord, AWSClient.UpsertResourceRecordSet. go_safe. Qed.

Lemma route53Record_safe : S true any generateRoute53Record.
Proof.
  unfold generateRoute53Record, res. apply safe_gets_bind. intros m Hm.
  case_match; [go_safe|]. unfold client. apply safe_gets_bind. intros m' Hm'.
  eapply safe_bind; [eauto with safe|intros r _]. go_safe.
Qed.

#[local] Hint Resolve validateZone_safe authorization_safe upsertRecord_safe route53Record_safe : safe.

Lemma validateRecord_safe p : S true any (validateR53HostedZoneRecord p).
Proof.
  unfold validateR53HostedZoneRecord. case_match; [go_safe|].
  do 2 go_safe_step. case_match; [go_safe|]. unfold res_status.
  apply safe_gets_bind. intros m Hm. eapply safe_bind; [eauto with safe|intros out Hout].
  eapply safe_try_bind; [apply route53Record_safe|intros e; go_safe|].
  intros [r|] _; [|go_safe]. apply with_zone_safe; [done|]. intros z Hz. by apply upsertRecord_safe.
Qed.

Lemma service_safe p : S true any (validateExternalNameService p).
Proof.
  unfold validateExternalNameService, generateExternalNameService, externalNameError,
    externalNameDone. go_safe.
Qed.

#[local] Hint Resolve validateRecord_safe service_safe : safe.

Lemma validateResources_safe p vs :
  Forall (fun v => S true any (v p)) vs -> S true any (validateResources p vs).
Proof. intros Hv. by eapply safe_forM_. Qed.

Lemma validateCustomDns_safe p : S true any (validateCustomDns p).
Proof.
  unfold validateCustomDns. do 2 go_safe_step. case_match; [go_safe|].
  apply validateResources_safe. repeat (apply Forall_cons_2; [eauto with safe|]). done.
Qed.

(** *** The cleanup *)

Lemma pollDeleted_safe fuel deadline id : S true any (pollDeleted fuel deadline id).
Proof.
  induction fuel as [|fuel IH]; cbn [pollDeleted]; [apply safe_out_of_fuel|].
  go_safe_step; [go_safe|]. case_match; [|go_safe].
  go_safe_step. eapply safe_bind; [apply safe_wrap; eauto with safe|intros r _]. go_safe.
Qed.

#[local] Hint Resolve pollDeleted_safe : safe.

Lemma records_safe c id :
  is_Some c -> S true (Forall (fun rr => is_Some (route53Types.rrs_Name rr)))
    (AWSClient.ListResourceRecordSets c id).
Proof. intros Hc. apply safe_r53; [done|answer]. Qed.

#[local] Hint Resolve records_safe : safe.

Lemma deleteRecordSet_safe c rr id :
  is_Some c -> is_Some (route53Types.rrs_Name rr) ->
  S true any (AWSClient.DeleteResourceRecordSet c rr id).
Proof. intros ??. unfold AWSClient.DeleteResourceRecordSet. go_safe. Qed.

#[local] Hint Resolve deleteRecordSet_safe : safe.

Lemma cleanupRecord_safe p : S true any (cleanupRecord p).
Proof.
  assert (Hd : S true any deleteRecord).
  { unfold deleteRecord. do 2 go_safe_step.
    eapply safe_bind; [by apply fetched_zone_safe, mem_client|intros out [(z & -> & [? _]) _]].
    apply safe_bind_any; [|intros _; go_safe].
    eapply safe_bind; [eauto with safe|intros rrs Hrrs].
    eapply safe_forM_; [exact Hrrs|]. intros rr ?. unfold deleteOwnRecord. go_safe. }
  unfold cleanupRecord. go_safe.
Qed.

Lemma DeleteHostedZone_safe c id : is_Some c -> S true any (AWSClient.DeleteHostedZone c id).
Proof. intros Hc. by apply safe_r53. Qed.

#[local] Hint Resolve DeleteHostedZone_safe : safe.

Lemma cleanupZone_safe : S true any cleanupZone.
Proof.
  assert (He : S true any emptyAndDeleteZone).
  { unfold emptyAndDeleteZone. do 2 go_safe_step.
    eapply safe_bind; [eauto with safe|intros rrs Hrrs].
    apply safe_bind_any; [|intros _; go_safe].
    eapply safe_forM_; [exact Hrrs|]. intros rr ?. unfold deleteOtherRecord. go_safe. }
  assert (Hd : S true any deleteZone) by (unfold deleteZone; go_safe).
  unfold cleanupZone. go_safe.
Qed.

Lemma cleanupSecurityGroup_safe : S true any cleanupSecurityGroup.
Proof. unfold cleanupSecurityGroup, AWSClient.DeleteSecurityGroup. go_safe. Qed.

Lemma cleanupVpcEndpoint_safe : S true any cleanupVpcEndpoint.
Proof. unfold cleanupVpcEndpoint, AWSClient.DeleteVPCEndpoint, awaitDeleted. go_safe. Qed.

#[local] Hint Resolve cleanupRecord_safe cleanupZone_safe cleanupVpcEndpoint_safe
  cleanupSecurityGroup_safe validateSecurityGroup_safe validateVPCEndpoint_safe
  validateCustomDns_safe : safe.

(** *** The reconcile *)

Lemma reconcileDelete_safe p : S true any (reconcileDelete p).
Proof. unfold reconcileDelete, cleanupAwsResources, cleanupFailed. go_safe. Qed.

Lemma reconcileNormal_safe p : S true any (reconcileNormal p).
Proof.
  unfold reconcileNormal. eapply (safe_try_bind _ any).
  - apply validateResources_safe. repeat (apply Forall_cons_2; [eauto with safe|]). done.
  - intros e. unfold validationFailed. go_safe.
  - intros _ _. go_safe.
Qed.

Lemma degradedCleanup_connects err : connects (degradedCleanup err).
Proof.
  unfold degradedCleanup, res.
  eapply (connects_after any); [go_safe|intros _ _].
  eapply (connects_after any); [by apply safe_gets|intros v _].
  destruct (AWSCredentialOverrideRef _).
  - case_match.
    + eapply (connects_after any); [go_safe|intros _ _]. apply connects_fail.
    + eapply (connects_after any); [eapply safe_any, safe_try, credentials_safe|intros r _].
      destruct r as [e|cfg]; [|apply connects_modify].
      eapply (connects_after any); [go_safe|intros _ _]. apply connects_fail.
  - intros s Hs. unfold client, bind at 1 3 5, gets. cbn.
    destruct (awsClient (reconciler (local s))) as [cfg|] eqn:Hc; rewrite ?Hc.
    + split_and!; [done|done|]. intros _ _. destruct Hs.
      constructor; [done..|]. cbn. rewrite Hc. by eexists.
    + apply (connects_after any (cleanupFailure _) (fun _ => fail err));
        [go_safe|intros _ _; apply connects_fail|done].
Qed.

Lemma mem_safe_ready b m : mem_safe b m -> mem_ready m.
Proof. intros []. by split. Qed.

Abbreviation ready_again := (fun o s' => no_panic o /\ mem_ready (local s')).

Lemma finish_safe {A} (Q : A -> Prop) (m : M W Mem A) s :
  S true Q m -> mem_safe true (local s) -> wp m ready_again s.
Proof. intros Hm Hs. destruct (Hm s Hs) as (? & ? & _). split; [done|]. by eapply mem_safe_ready. Qed.

Lemma connected_finish {A} (m : M W Mem unit) (k : M W Mem A) s :
  connects m -> S true any k -> mem_safe false (local s) -> wp m (continue (fun _ => k) ready_again) s.
Proof.
  intros Hm Hk Hs. destruct (Hm s Hs) as (Hi & Hp & Hok). unfold wp.
  destruct (m s) as [[[]|e|w|] s1]; cbn in *; [| |by destruct (Hp w)|].
  - eapply finish_safe; [exact Hk|]. by apply (Hok tt).
  - split; [done|]. by eapply mem_safe_ready.
  - split; [done|]. by eapply mem_safe_ready.
Qed.

Lemma reconcileObject_safe s : mem_ready (local s) -> wp reconcileObject ready_again s.
Proof.
  intros Hs. unfold reconcileObject. pose proof (parseClusterInfo_safe s Hs) as Hp.
  set (k := (v <- res;; if isDeleting v then reconcileDelete resource_ptr_
             else ensureFinalizer;; reconcileNormal resource_ptr_)%go).
  assert (Hk : S true any k).
  { unfold k. pose proof reconcileDelete_safe. pose proof reconcileNormal_safe. go_safe. }
  unfold res at 1. repeat wp_step. eapply wp_mono; [exact Hp|]. clear Hp.
  intros o s1 (Hs1 & Hp & Hok). destruct o as [[]|err|w|]; [| |by destruct (Hp w)|].
  - cbn [continue]. repeat wp_step. eapply finish_safe; [exact Hk|]. by apply (Hok tt).
  - cbn [continue]. apply wp_bind, connected_finish; [|done..].
    destruct (isDeleting _); [apply degradedCleanup_connects|].
    eapply (connects_after any); [go_safe|intros _ _]. apply connects_fail.
  - split; [done|]. by eapply mem_safe_ready.
Qed.

(** The resource a pass starts with does not matter: it is replaced. *)
Lemma Reconcile_safe ns n s :
  cache_complete (local s) ->
  wp (Reconcile ns n) (fun o s' => no_panic o /\ cache_complete (local s')) s.
Proof.
  intros Hc. unfold Reconcile. repeat wp_step. cbn [continue]. repeat wp_step.
  apply wp_trigger. intros w1 r E. apply answer_fits in E. destruct r as [e|v]; cbn.
  - by destruct (IsNotFound e); wp_step.
  - repeat wp_step. cbn [continue]. eapply wp_mono; [apply reconcileObject_safe|].
    + split; [by apply E|done].
    + intros o s' [? [_ ?]]. by split.
Qed.

End vpcendpoint.

(** ** The other controllers *)

Lemma Template_safe {W} `{World W} `{K8sHelpers} `{!Fits complete} ns n s :
  no_panic (Template.Reconcile (W:=W) ns n s).1.
Proof.
  assert (He : forall vt items b,
    safe (W:=W) (fun _ => True) (fun _ => True) (Template.deleteExtras vt items b)).
  { intros vt items. induction items as [|v items IH]; intros b; cbn; go_safe. }
  assert (Hd : forall items, safe (W:=W) (L:=VpcEndpointTemplate) (fun _ => True) (fun _ => True)
    (Template.deleteAll items)).
  { intros items. eapply (safe_forM_ _ (fun _ => True)); [by apply Forall_true|].
    intros v _. go_safe. }
  assert (Hh : forall vt hcps, safe (W:=W) (L:=VpcEndpointTemplate) (fun _ => True) (fun _ => True)
    (forM_ hcps (Template.validateHostedControlPlane vt))).
  { intros vt hcps. eapply (safe_forM_ _ (fun _ => True)); [by apply Forall_true|].
    intros hcp _. go_safe. }
  assert (Hr : safe (W:=W) (fun _ => True) (fun _ => True) (Template.Reconcile ns n)) by go_safe.
  by apply Hr.
Qed.

Lemma Acceptance_safe {W} `{World W} `{!Fits complete} ns n s :
  no_panic (Acceptance.Reconcile (W:=W) ns n s).1.
Proof.
  assert (Ha : forall criteria cs, Forall connection_complete cs ->
    safe (W:=W) (L:=option AwsConfig) (fun _ => True) (fun _ => True)
      (Acceptance.acceptedConnections criteria cs)).
  { intros criteria cs. induction 1 as [|c cs [? ?] Hcs IH]; cbn; go_safe. }
  assert (Hp : forall v, safe (W:=W) (fun _ => True) (fun _ => True) (Acceptance.acceptPending v)).
  { intros v. unfold Acceptance.acceptPending.
    eapply (safe_bind _ is_Some).
    { unfold Acceptance.acceptanceClient. go_safe_step; [go_safe|]. cbv zeta.
      apply safe_bind_any; [by apply safe_modify|]. intros _. apply safe_ret. by eexists. }
    intros c Hc. eapply (safe_bind _ (Forall connection_complete)).
    { unfold AWSClient.GetVpcEndpointConnectionsPendingAcceptance. case_match.
      - by apply safe_ret.
      - apply safe_ec2; [done|answer]. }
    intros cs Hcs. apply safe_bind_any; [by apply Ha|intros ids].
    unfold AWSClient.AcceptVpcEndpointConnections. go_safe. }
  assert (Hr : safe (W:=W) (fun _ => True) (fun _ => True) (Acceptance.Reconcile ns n)).
  { unfold Acceptance.Reconcile. go_safe. }
  by apply Hr.
Qed.

(** ** The theorem *)

Section theorem.
Context {W : Type} `{World W} `{K8sHelpers} `{!Fits complete}.

(** C8: no reconcile panics on complete input ([complete]): AWS fills in the ids and names
    that it documents as present, the Infrastructure has a platform status, the routes of
    a hosted control plane have hostnames, the spec of the object names its endpoint
    service or where to read the name, and a reference to a hosted control plane has its
    [namespaceFieldRef]. Then no pass of the VpcEndpoint controller dereferences
    a nil pointer or slices out of bounds, whatever calls fail and in whatever
    order maps are ranged over; the zones it keeps in its cache for the next
    passes are complete again. The same holds of the other two controllers. *)
Theorem reconciles_never_panic namespace name s st sa :
  cache_complete (local s) ->
  no_panic (Reconcile namespace name s).1 /\
  cache_complete (local (Reconcile namespace name s).2) /\
  no_panic (Template.Reconcile (W:=W) namespace name st).1 /\
  no_panic (Acceptance.Reconcile (W:=W) namespace name sa).1.
Proof.
  intros Hc. destruct (Reconcile_safe namespace name s Hc).
  split_and!; [done|done|apply Template_safe|apply Acceptance_safe].
Qed.

End theorem.

(** ** Examples *)

#[local] Existing Instances K8sRef.helpers SteadySpec.SteadySim.world.

(** The steady world of SteadySpec.v answers completely. *)
#[local] Instance steady_complete : Fits complete.
Proof.
  intros R c [] [] r [= <-].
  destruct c as [R cfg op|R cfg op|R op| | | | | | | |]; try done; destruct op; cbn; try done.
  - intros l. destruct groupIds; intros [= <-]; repeat constructor; by eexists.
  - intros l [= <-]. repeat constructor; try by eexists. discriminate.
  - intros l [= <-]. repeat constructor; by eexists.
  - intros out [= <-]. split; [eexists; split; [reflexivity|]; split; by eexists|].
    repeat constructor; by eexists.
  - intros v [= <-]. split; [by left|done].
  - intros i [= <-]. by eexists.
Qed.

Definition start : Sys unit Mem :=
  mkSys tt [] (mkMem Sim.reconciler_ SteadySpec.SteadySim.object).

Lemma reconciles_never_panic_witness :
  no_panic (Reconcile "ns" "example" start).1 /\
  cache_complete (local (Reconcile "ns" "example" start).2) /\
  no_panic (Template.Reconcile (W:=unit) "ns" "example"
    (mkSys tt [] (mkVpcEndpointTemplate ObjectMeta_zero
       (mkVpcEndpointTemplateSpec "" (metav1.mkLabelSelector ∅ [])
          (mkVpceTemplateSpec ObjectMeta_zero VpcEndpointSpec_zero))))).1 /\
  no_panic (Acceptance.Reconcile (W:=unit) "ns" "example" (mkSys tt [] None)).1.
Proof. apply (reconciles_never_panic "ns" "example" start). intros id entry. discriminate. Defined.

(** In that world the pass succeeds. *)
Example start_succeeds : (Reconcile "ns" "example" start).1 = Ok (mkResult (15 * AwsClient.Minute)).
Proof. vm_compute. reflexivity. Qed.

End SafetySpec.
