(* ===== verification/Metrics.v ===== *)
(** * Metrics: [controllers/vpcendpoint/metrics.go] and
      [controllers/vpcendpointacceptance/metrics.go]

    The collectors as they are declared and registered, the series that the
    updates of a run leave in the registry, and what the gauge of objects that
    are not ready shows. *)
From S2P Require Import Prelude GoError Naming Types Calls GoMonad AwsClient Lookups.
From S2P Require Import Controller Helpers HostedZones Validation Cleanup Reconcile Sim.
From S2P Require Import CleanupSpec ReconcileSpec.
Import avov1alpha2 Helpers HostedZones Validation Cleanup Reconcile.

Module Metrics.

(** ** The collectors *)

(** The kinds of collectors; a histogram has its buckets, in seconds. *)
Inductive kind := Gauge | Counter | Histogram (buckets : list Z).

(** The options of a collector, but for the help text. *)
Record Collector := mkCollector {
  Namespace : string;
  Name : string;
  kind_ : kind;
  labels : list string
}.

Definition vpcePendingAcceptance : Collector :=
  mkCollector "aws_vpce_operator" "vpce_pendingAcceptance_total" Gauge
    ["name"; "namespace"; "vpce_id"].

Definition awsUnauthorizedOperation : Collector :=
  mkCollector "aws_vpce_operator" "unauthorized_operation_total" Gauge ["action"].

Definition vpceCleanupFailure : Collector :=
  mkCollector "aws_vpce_operator" "vpce_cleanup_failure_total" Counter ["error_type"].

Definition vpceSecurityGroupReadyDuration : Collector :=
  mkCollector "aws_vpce_operator" "vpce_security_group_ready_duration_seconds"
    (Histogram [5; 10; 30; 60; 120; 300; 600; 900; 1800; 3600]%Z) [].

Definition vpceEndpointReadyDuration : Collector :=
  mkCollector "aws_vpce_operator" "vpce_endpoint_ready_duration_seconds"
    (Histogram [30; 60; 120; 300; 600; 900; 1800; 3600; 5400; 7200]%Z) [].

Definition vpceRoute53ReadyDuration : Collector :=
  mkCollector "aws_vpce_operator" "vpce_route53_ready_duration_seconds"
    (Histogram [30; 60; 120; 300; 600; 900; 1800; 3600; 5400; 7200]%Z) [].

Definition vpceNotReadySeconds : Collector :=
  mkCollector "aws_vpce_operator" "vpce_not_ready_seconds" Gauge ["name"; "namespace"].

Definition vpcEndpointAcceptanceQueue : Collector :=
  mkCollector "" "aws_vpce_operator_vpcendpointacceptance_queue" Gauge ["name"; "namespace"].

(** The arguments of [MustRegister] in the two [init] functions. *)
Definition registered_vpcendpoint : list Collector :=
  [vpcePendingAcceptance; awsUnauthorizedOperation; vpceCleanupFailure;
   vpceSecurityGroupReadyDuration; vpceEndpointReadyDuration; vpceRoute53ReadyDuration;
   vpceNotReadySeconds].

Definition registered_vpcendpointacceptance : list Collector := [vpcEndpointAcceptanceQueue].

(** ** The updates *)

(** Which collector an update goes to, with which label values. *)
Definition target (m : metric) : Collector * list string :=
  match m with
  | VpcePendingAcceptanceSet name ns id _ | VpcePendingAcceptanceDelete name ns id =>
      (vpcePendingAcceptance, [name; ns; id])
  | AwsUnauthorizedOperationInc action => (awsUnauthorizedOperation, [action])
  | VpceCleanupFailureInc error_type => (vpceCleanupFailure, [error_type])
  | VpceSecurityGroupReadyDuration _ => (vpceSecurityGroupReadyDuration, [])
  | VpceEndpointReadyDuration _ => (vpceEndpointReadyDuration, [])
  | VpceRoute53ReadyDuration _ => (vpceRoute53ReadyDuration, [])
  | VpceNotReadySecondsSet name ns _ | VpceNotReadySecondsDelete name ns =>
      (vpceNotReadySeconds, [name; ns])
  | VpcEndpointAcceptanceQueueSet name ns _ | VpcEndpointAcceptanceQueueDelete name ns =>
      (vpcEndpointAcceptanceQueue, [name; ns])
  end.

(** The series of the gauges and counters, by collector and label values, and
    the observations of the histograms. *)
Record Registry := mkRegistry {
  values : gmap (string * list string) Z;
  observations : gmap string (list Z)
}.

Definition empty : Registry := mkRegistry ∅ ∅.

(** An update of a registry: [Set], [Inc], [Observe] and [DeleteLabelValues]. *)
Definition update (r : Registry) (m : metric) : Registry :=
  let '(c, vs) := target m in
  let key := (Name c, vs) in
  let set v := mkRegistry (<[key := v]> (values r)) (observations r) in
  let inc := set (default 0 (values r !! key) + 1)%Z in
  let del := mkRegistry (delete key (values r)) (observations r) in
  let observe v :=
    mkRegistry (values r)
      (<[Name c := default [] (observations r !! Name c) ++ [v]]> (observations r)) in
  match m with
  | VpcePendingAcceptanceSet _ _ _ v | VpceNotReadySecondsSet _ _ v
  | VpcEndpointAcceptanceQueueSet _ _ v => set v
  | AwsUnauthorizedOperationInc _ | VpceCleanupFailureInc _ => inc
  | VpceSecurityGroupReadyDuration v | VpceEndpointReadyDuration v
  | VpceRoute53ReadyDuration v => observe v
  | VpcePendingAcceptanceDelete _ _ _ | VpceNotReadySecondsDelete _ _
  | VpcEndpointAcceptanceQueueDelete _ _ => del
  end.

Definition record_event (r : Registry) (e : event) : Registry :=
  match e with
  | @Ev _ c _ => match c with Metric m => update r m | _ => r end
  end.

(** The registry after the calls of a trace. *)
Definition exposed (l : list event) : Registry := foldl record_event empty l.

(** ** The declarations fit *)

(** Documented behaviour of the Prometheus client: registering panics when two
    collectors have the same fully qualified name, and looking up a series
    panics when the number of label values is not the number of labels. *)
Section declarations.
Context (BuildFQName : string -> string -> string -> string).

Definition fqName (c : Collector) : string := BuildFQName (Namespace c) "" (Name c).

Definition registers (cs : list Collector) : Prop := NoDup (fqName <$> cs).

(** No metric can panic. The operator's eight collectors have different names,
    once the client library has joined the parts of a name by an underscore and
    left out empty parts, so both [init] functions register them; and every
    update that the controllers can make gives a collector that is registered
    exactly as many label values as it declares labels. *)
Theorem metrics_fit_declarations :
  (forall ns n, ns <> "" -> n <> "" -> BuildFQName ns "" n = ns +:+ "_" +:+ n) ->
  (forall n, BuildFQName "" "" n = n) ->
  registers (registered_vpcendpoint ++ registered_vpcendpointacceptance) /\
  forall m, (target m).1 ∈ registered_vpcendpoint ++ registered_vpcendpointacceptance /\
    length (target m).2 = length (labels (target m).1).
Proof.
  intros Hjoin Hempty. split.
  - unfold registers, fqName. cbn. rewrite ?Hjoin, ?Hempty by done.
    apply (bool_decide_unpack _). vm_compute. exact I.
  - intros m. split; [|by destruct m].
    destruct m; set_solver.
Qed.
End declarations.

(** ** The gauge of objects that are not ready *)

(** The series of one object. *)
Definition not_ready_gauge (l : list event) (v : VpcEndpoint) : option Z :=
  values (exposed l) !!
    (Name vpceNotReadySeconds, [metav1.Name (meta v); metav1.Namespace (meta v)]).

Lemma exposed_snoc l e : exposed (l ++ [e]) = record_event (exposed l) e.
Proof. unfold exposed. by rewrite foldl_app. Qed.

Section spec.
Context {W : Type} `{World W} `{K8sHelpers} (clock : W -> Z) `{!ClockLaws clock}.
Implicit Types s : Sys W Mem.

(** The resource is still the object [v]. *)
Definition same_identity (v : VpcEndpoint) (m : Mem) : Prop :=
  metav1.Name (meta (resource m)) = metav1.Name (meta v) /\
  metav1.Namespace (meta (resource m)) = metav1.Namespace (meta v) /\
  metav1.CreationTimestamp (meta (resource m)) = metav1.CreationTimestamp (meta v).

Abbreviation any_call := (fun _ _ => True).

#[local] Hint Extern 1 (respects (emits _ _) (pollDeleted _ _ _)) =>
  apply CleanupSpec.pollDeleted_emits; [call_solve|intros; call_solve..|inv_solve] : respects.

Lemma validations_identity p v :
  respects (emits (W:=W) any_call (same_identity v))
    (validateResources p [validateSecurityGroup; validateVPCEndpoint; validateCustomDns]).
Proof. go_respects. Qed.

Lemma cleanup_identity p v :
  respects (emits (W:=W) any_call (same_identity v)) (cleanupAwsResources p).
Proof. go_respects. Qed.

Lemma notReadyDelete_wp v (Q : outcome unit -> Sys W Mem -> Prop) s :
  same_identity v (local s) ->
  (forall s', local s' = local s -> not_ready_gauge (trace s') v = None -> Q (Ok tt) s') ->
  wp notReadyDelete Q s.
Proof.
  intros (Hn & Hns & _) HQ. unfold notReadyDelete, res. repeat wp_step. apply HQ; [done|].
  cbn. unfold not_ready_gauge. rewrite exposed_snoc. cbn. rewrite Hn, Hns.
  apply lookup_delete_eq.
Qed.

(** The age of [v] at some moment between two states. *)
Definition age_between (v : VpcEndpoint) (s s' : Sys W Mem) (a : Z) : Prop :=
  exists t, a = (t - metav1.CreationTimestamp (meta v))%Z /\
    (clock (world s) <= t <= clock (world s'))%Z.

Lemma notReadySet_gauge v (Q : outcome unit -> Sys W Mem -> Prop) s :
  same_identity v (local s) ->
  (forall s' a, local s' = local s -> (clock (world s) <= clock (world s'))%Z ->
     not_ready_gauge (trace s') v = Some a -> age_between v s s' a -> Q (Ok tt) s') ->
  wp notReadySet Q s.
Proof.
  intros (Hn & Hns & Hc) HQ. unfold notReadySet, sinceCreation, since, res. repeat wp_step.
  apply wp_trigger. intros w1 r E. apply clock_now in E as (t & -> & Ht). cbn.
  repeat wp_step. rename H1 into E2. apply clock_monotone in E2. cbn in E2.
  eapply (HQ _ (t - metav1.CreationTimestamp (meta v))%Z); cbn; [done|lia| |].
  - unfold not_ready_gauge. rewrite exposed_snoc. cbn. rewrite Hn, Hns, Hc.
    apply lookup_insert_eq.
  - exists t. cbn. split; [done|lia].
Qed.

(** Time passes. *)
Definition later : relation (Sys W Mem) := fun s s' => (clock (world s) <= clock (world s'))%Z.

#[local] Instance later_preorder : PreOrder later.
Proof. split; [intros s; unfold later; lia|]. intros ???; unfold later; lia. Qed.

Lemma settles_trigger {R} (c : call R) : respects later (trigger c).
Proof.
  intros s. unfold trigger. destruct (handle c (world s)) as [w' r] eqn:E.
  by apply clock_monotone in E.
Qed.

Lemma settles_fire (c : call unit) : respects later (fire c).
Proof.
  apply respects_bind; [apply _|apply respects_try, settles_trigger|].
  intros r. apply respects_ret, _.
Qed.

Lemma settles_modify f : respects later (modify f).
Proof. intros s. unfold later. cbn. lia. Qed.

#[local] Hint Resolve settles_trigger settles_fire settles_modify : respects.

Lemma validations_later p :
  respects later
    (validateResources p [validateSecurityGroup; validateVPCEndpoint; validateCustomDns]).
Proof. go_respects. Qed.

Lemma age_weaken v s0 s1 s2 s3 a :
  later s0 s1 -> age_between v s1 s2 a -> later s2 s3 -> age_between v s0 s3 a.
Proof. unfold later. intros H01 (t & -> & Ht) H23. exists t. split; [done|lia]. Qed.

Lemma unauthorized_later e (Q : outcome unit -> Sys W Mem -> Prop) s :
  (forall s', local s' = local s -> later s s' -> Q (Ok tt) s') ->
  wp (awsUnauthorizedOperationMetricHandler e) Q s.
Proof.
  intros HQ. assert (Hr : respects later (awsUnauthorizedOperationMetricHandler (W:=W) e))
    by go_respects.
  specialize (Hr s). revert Hr. unfold awsUnauthorizedOperationMetricHandler.
  repeat case_match; cbn; intros Hr; try (wp_step; by apply HQ);
    wp_step; apply HQ; try done; unfold later; cbn;
    match goal with E : handle _ _ = _ |- _ => by apply clock_monotone in E end.
Qed.

(** The gauge of [v] shows its age at some moment since [s]. *)
Definition shows_age v s s' : Prop :=
  exists a, not_ready_gauge (trace s') v = Some a /\ age_between v s s' a.

(** The handler of a failed validation sets the gauge. *)
Lemma validationFailed_gauge v err s0 s :
  later s0 s -> same_identity v (local s) ->
  wp (validationFailed err) (fun o s' =>
    o <> Ok (mkResult (15 * Minute)) /\ shows_age v s0 s') s.
Proof.
  intros Hl Hid. unfold validationFailed. wp_step. apply unauthorized_later.
  intros s1 Hs1 Hl1. cbn [continue]. wp_step. apply (notReadySet_gauge v); [by rewrite Hs1|].
  intros s2 a Hs2 Hl2 Hg Ha. cbn [continue]. unfold conditionTrue. repeat wp_step.
  assert (Hsh : shows_age v s0 s2).
  { exists a. split; [done|]. apply (age_weaken v s0 s s2 s2); [done| |unfold later; lia].
    destruct Ha as (t & -> & Ht). exists t. unfold later in *. split; [done|lia]. }
  destruct (_ && _)%bool; wp_step; by split.
Qed.

(** After a pass over [v] from [s] with the outcome [o]. *)
Definition gauge_tracks v s (o : outcome Result) s' : Prop :=
  match o with
  | Ok r =>
      if decide (r = mkResult (15 * Minute) /\ isVpcEndpointReady (resource (local s')) = true)
      then not_ready_gauge (trace s') v = None
      else shows_age v s s'
  | Err _ => shows_age v s s'
  | _ => True
  end.

Lemma gauge_tracks_later v s s1 o s' :
  later s s1 -> gauge_tracks v s1 o s' -> gauge_tracks v s o s'.
Proof.
  intros Hl. assert (Hs : shows_age v s1 s' -> shows_age v s s').
  { intros (a & Hg & Ha). exists a. split; [done|].
    apply (age_weaken v s s1 s' s'); [done..|unfold later; lia]. }
  destruct o as [r|e|w|]; cbn; auto. case_decide; auto.
Qed.

Lemma reconcileNormal_gauge p v s :
  same_identity v (local s) -> wp (reconcileNormal p) (gauge_tracks v s) s.
Proof.
  intros Hid0. unfold reconcileNormal. wp_step. wp_step. pose proof (validations_later p s) as Hl.
  destruct (validations_identity p v s) as [Hid _]; [done|].
  unfold wp. destruct (validateResources _ _ s) as [o s1]. cbn [fst snd] in *.
  destruct o as [[]|err|w|]; cbn [continue]; [| |done..].
  - unfold res. repeat wp_step. destruct (isVpcEndpointReady (resource (local s1))) eqn:Hready.
    + apply (notReadyDelete_wp v); [done|].
      intros s2 Hs2 Hg. cbn [continue]. wp_step. cbn. rewrite Hs2.
      by rewrite decide_True.
    + apply (notReadySet_gauge v); [done|].
      intros s2 a Hs2 Hl2 Hg Ha. cbn [continue]. wp_step. cbn. rewrite Hs2.
      rewrite decide_False by (rewrite Hready; intros [_ ?]; done).
      exists a. split; [done|]. apply (age_weaken _ s s1 s2 s2); [done..|unfold later; lia].
  - eapply wp_mono; [by apply (validationFailed_gauge v err s s1)|].
    intros [r|e|w|] s2 [Hr Hs]; cbn; try done. rewrite decide_False; [done|].
    by intros [-> _].
Qed.

(** *** Before the validations *)

Definition touches_gauge : call_pred := fun R c =>
  match c with
  | Metric (VpceNotReadySecondsSet _ _ _) | Metric (VpceNotReadySecondsDelete _ _) => True
  | _ => False
  end.

Lemma gauge_untouched v t l :
  Forall (event_sat (no touches_gauge)) l -> not_ready_gauge (t ++ l) v = not_ready_gauge t v.
Proof.
  induction l as [|e l IH] using rev_ind; intros Hl; [by rewrite app_nil_r|].
  apply Forall_app in Hl as [Hl [He _]%Forall_cons]. rewrite <- (IH Hl). clear IH.
  rewrite app_assoc. unfold not_ready_gauge. rewrite exposed_snoc.
  destruct e as [R c r]. destruct c; try done. cbn. destruct m; cbn; try done;
    try (by destruct He); by rewrite ?lookup_insert_ne, ?lookup_delete_ne.
Qed.

(** The resource is still the live object [v]. *)
Definition live (v : VpcEndpoint) (m : Mem) : Prop :=
  same_identity v m /\ isDeleting (resource m) = false.

Definition untouched v s s' : Prop :=
  later s s' /\ not_ready_gauge (trace s') v = not_ready_gauge (trace s) v.

Lemma untouched_trans v s1 s2 s3 : untouched v s1 s2 -> untouched v s2 s3 -> untouched v s1 s3.
Proof. unfold untouched, later. intros [? ?] [? ?]. split; [lia|congruence]. Qed.

Lemma untouched_wp {A} v (m : M W Mem A) (Q : outcome A -> Sys W Mem -> Prop) s :
  respects (emits (W:=W) (no touches_gauge) (live v)) m -> respects later m ->
  live v (local s) ->
  (forall o s', untouched v s s' -> live v (local s') -> Q o s') -> wp m Q s.
Proof.
  intros Hm Hl Hs HQ. destruct (Hm s Hs) as (Hs' & l & Ht & Hl'). apply HQ; [|done].
  split; [apply Hl|]. rewrite Ht. by apply gauge_untouched.
Qed.

(** A pass over a live object: either it got to the validations, or it failed before and
    left the gauge as it was. *)
Definition pass_tracks v s (o : outcome Result) s' : Prop :=
  gauge_tracks v s o s' \/
  ((forall r, o <> Ok r) /\ not_ready_gauge (trace s') v = not_ready_gauge (trace s) v).

Lemma reconcileObject_gauge s :
  isDeleting (resource (local s)) = false ->
  wp reconcileObject (pass_tracks (resource (local s)) s) s.
Proof.
  intros Hd. set (v := resource (local s)). unfold reconcileObject, res.
  repeat wp_step. cbn [continue]. repeat wp_step.
  apply (untouched_wp v); [go_respects|go_respects|by repeat split|].
  intros o s1 Hu1 Hs1. destruct o as [[]|err|w|]; [| |right; by split; [|apply Hu1]..].
  - repeat wp_step. cbn [continue]. repeat wp_step. destruct Hs1 as [Hi1 Hd1]. rewrite Hd1. wp_step.
    apply (untouched_wp v); [go_respects|go_respects|by split|].
    intros o s2 Hu2 Hs2. pose proof (untouched_trans _ _ _ _ Hu1 Hu2) as Hu.
    destruct o as [[]|err|w|]; cbn [continue]; [|right; by split; [|apply Hu]..].
    eapply wp_mono; [apply (reconcileNormal_gauge _ v), Hs2|].
    intros o s3 Ho. left. eapply gauge_tracks_later; [apply Hu|done].
  - wp_step. change (isDeleting v) with (isDeleting (resource (local s))). rewrite Hd. wp_step.
    apply (untouched_wp v); [go_respects|go_respects|done|].
    intros o s2 Hu2 _. pose proof (untouched_trans _ _ _ _ Hu1 Hu2) as Hu.
    destruct o as [[]|e|w|]; cbn [continue]; repeat wp_step; right; by split; [|apply Hu].
Qed.

Lemma reconcileDelete_gauge p s :
  wp (reconcileDelete p)
    (fun o s' => o = Ok done_ -> not_ready_gauge (trace s') (resource (local s)) = None) s.
Proof.
  unfold reconcileDelete, res. repeat wp_step. cbn [continue].
  destruct (ContainsFinalizer _ _).
  2:{ wp_step. apply (notReadyDelete_wp (resource (local s))); [done|].
      intros s1 _ Hg. cbn [continue]. by wp_step. }
  repeat wp_step.
  destruct (cleanup_identity p (resource (local s)) s) as [Hid _]; [done|].
  unfold wp. destruct (cleanupAwsResources p s) as [o s1]. cbn [fst snd] in *.
  destruct o as [[]|err|w|]; cbn [continue]; [| |done..].
  - wp_step.
    assert (Hr : respects (emits (W:=W) any_call (same_identity (resource (local s))))
                   removeFinalizer) by go_respects.
    destruct (Hr s1 Hid) as [Hid2 _].
    unfold wp. destruct (removeFinalizer s1) as [o s2]. cbn [fst snd] in *.
    destruct o as [[]|err|w|]; cbn [continue]; [|done..].
    wp_step. apply (notReadyDelete_wp (resource (local s))); [done|].
    intros s3 _ Hg. cbn [continue]. by wp_step.
  - unfold wp. rewrite (surjective_pairing (cleanupFailed err s1)), ReconcileSpec.cleanupFailed_result. cbn.
    by case_match.
Qed.

(** C34: the not-ready gauge tells the truth about the last pass that looked. After the
    validations of a live object, unless they panicked or were cut off, the series of
    the object is gone if all of them passed and every condition is true; otherwise it
    is there and shows the age the object had at some moment of that pass. A whole
    pass over a live object leaves the gauge like that, or it ends without a result and
    with the series as it found it (it failed before the validations). The reconcile that
    releases a deleted object removes the series, too. *)
Theorem not_ready_gauge_tracks_readiness p s :
  let v := resource (local s) in
  wp (reconcileNormal p) (gauge_tracks v s) s /\
  (isDeleting v = false -> wp reconcileObject (pass_tracks v s) s) /\
  wp (reconcileDelete p) (fun o s' => o = Ok done_ -> not_ready_gauge (trace s') v = None) s.
Proof.
  split_and!; [by apply reconcileNormal_gauge|apply reconcileObject_gauge|
               apply reconcileDelete_gauge].
Qed.

End spec.
(** ** Examples *)

(** Joining the namespace and the name by an underscore. *)
Definition joined (ns subsystem name : string) : string :=
  match ns with
  | EmptyString => name
  | _ => ns +:+ "_" +:+ name
  end.

Lemma metrics_fit_declarations_witness :
  registers joined (registered_vpcendpoint ++ registered_vpcendpointacceptance) /\
  forall m, (target m).1 ∈ registered_vpcendpoint ++ registered_vpcendpointacceptance /\
    length (target m).2 = length (labels (target m).1).
Proof.
  apply (metrics_fit_declarations joined).
  - by intros [|c ns] n Hns Hn.
  - done.
Defined.

#[local] Existing Instances K8sRef.helpers Sim.world Sim.clock_laws.

(** An object whose first validation fails. *)
Definition unready : Sys Sim.State Mem :=
  Sim.sys Sim.state (Sim.object None [] (Sim.spec (Sim.phz "" None ""))
    (Sim.status_ "" "sg-1" "" "" [])).

Lemma not_ready_gauge_tracks_readiness_witness :
  wp (reconcileNormal resource_ptr_)
    (gauge_tracks Sim.clock (resource (local unready)) unready) unready /\
  wp reconcileObject (pass_tracks Sim.clock (resource (local unready)) unready) unready.
Proof.
  destruct (not_ready_gauge_tracks_readiness Sim.clock resource_ptr_ unready) as (Hn & Ho & _).
  split; [exact Hn|by apply Ho].
Defined.

(** What the metrics say after that pass. *)
Example unready_gauge :
  not_ready_gauge (trace (reconcileNormal resource_ptr_ unready).2)
    (resource (local unready)) = Some 0%Z.
Proof. vm_compute. reflexivity. Qed.

End Metrics.
