(* ===== verification/Provision.v ===== *)
(** * A world that provides

    What creation can count on: services that answer every call but deletions,
    remember what was created and what was stored, and fill in the fields they
    document.  [reply] says how an answer depends on what exists, and what exists
    afterwards; [runs] is the logic of computations in such a world. *)
From S2P Require Import Prelude GoError Naming Types Calls GoMonad AwsClient Lookups.
From S2P Require Import Rules Controller Helpers AwsSpec SafetySpec.
Import avov1alpha2 Naming.

Module Provision.
Import SafetySpec.

(** ** Computations against what is known of a world *)

Section logic.
Context {W L K : Type} `{World W} (known : W -> K).
Context (reply : forall R, call R -> K -> error + R -> K -> Prop).
Implicit Types k : K.

(** The world answers as [reply] says. *)
Class Replies : Prop :=
  replies R (c : call R) w w' r : handle c w = (w', r) -> reply _ c (known w) r (known w').
Context `{!Replies}.

(** From the memory [l], when [k] is known of the world, [m] ends as [Q] says. *)
Definition runs {A} (m : M W L A) (Q : outcome A -> K -> L -> Prop) k l : Prop :=
  forall s, known (world s) = k -> local s = l ->
    Q (m s).1 (known (world (m s).2)) (local (m s).2).

Lemma runs_mono {A} (m : M W L A) (Q Q' : outcome A -> K -> L -> Prop) k l :
  runs m Q k l -> (forall o k' l', Q o k' l' -> Q' o k' l') -> runs m Q' k l.
Proof. intros Hm HQ s Hk Hl. by apply HQ, Hm. Qed.

Lemma runs_ret {A} (a : A) (Q : outcome A -> K -> L -> Prop) k l :
  Q (Ok a) k l -> runs (ret a) Q k l.
Proof. by intros HQ s <- <-. Qed.

Lemma runs_lift {A} (o : outcome A) (Q : outcome A -> K -> L -> Prop) k l :
  Q o k l -> runs (lift o) Q k l.
Proof. by intros HQ s <- <-. Qed.

Lemma runs_gets {A} (f : L -> A) (Q : outcome A -> K -> L -> Prop) k l :
  Q (Ok (f l)) k l -> runs (gets f) Q k l.
Proof. by intros HQ s <- <-. Qed.

Lemma runs_modify (f : L -> L) (Q : outcome unit -> K -> L -> Prop) k l :
  Q (Ok tt) k (f l) -> runs (modify f) Q k l.
Proof. by intros HQ s <- <-. Qed.

(** How [Q] continues after a first computation. *)
Definition go_on {A B} (f : A -> M W L B) (Q : outcome B -> K -> L -> Prop)
  : outcome A -> K -> L -> Prop := fun o k l =>
  match o with
  | Ok a => runs (f a) Q k l
  | Err e => Q (Err e) k l
  | Panic w => Q (Panic w) k l
  | OutOfFuel => Q OutOfFuel k l
  end.

Lemma runs_bind {A B} (m : M W L A) (f : A -> M W L B) Q k l :
  runs m (go_on f Q) k l -> runs (bind m f) Q k l.
Proof.
  intros Hm s Hk Hl. specialize (Hm s Hk Hl). unfold bind, go_on in *.
  destruct (m s) as [[a|e|w|] s']; cbn in *; [by apply Hm|done..].
Qed.

Definition tried {A} (Q : outcome (error + A) -> K -> L -> Prop) : outcome A -> K -> L -> Prop :=
  fun o k l =>
  match o with
  | Ok a => Q (Ok (inr a)) k l
  | Err e => Q (Ok (inl e)) k l
  | Panic w => Q (Panic w) k l
  | OutOfFuel => Q OutOfFuel k l
  end.

Lemma runs_try {A} (m : M W L A) Q k l : runs m (tried Q) k l -> runs (try m) Q k l.
Proof.
  intros Hm s Hk Hl. specialize (Hm s Hk Hl). unfold try, tried in *.
  by destruct (m s) as [[a|e|w|] s'].
Qed.

Lemma runs_trigger {R} (c : call R) (Q : outcome R -> K -> L -> Prop) k l :
  (forall r k', reply _ c k r k' -> Q (of_answer r) k' l) -> runs (trigger c) Q k l.
Proof.
  intros HQ s <- <-. unfold trigger. destruct (handle c (world s)) as [w' r] eqn:E.
  by apply replies, HQ in E.
Qed.

Lemma runs_fire (c : call unit) (Q : outcome unit -> K -> L -> Prop) k l :
  (forall r k', reply _ c k r k' -> Q (Ok tt) k' l) -> runs (fire c) Q k l.
Proof.
  intros HQ. apply runs_bind, runs_try, runs_trigger.
  intros [e|[]] k' Hr; cbn; by eapply runs_ret, HQ.
Qed.

Lemma runs_wrap {A} p (m : M W L A) (Q : outcome A -> K -> L -> Prop) k l :
  runs m (fun o k' l' => match o with Err e => Q (Err (Errorf_w p e)) k' l' | _ => Q o k' l' end)
    k l ->
  runs (wrap p m) Q k l.
Proof.
  intros Hm. apply runs_bind, runs_try. eapply runs_mono; [exact Hm|].
  intros [a|e|w|] k' l' HQ; cbn; [by apply runs_ret|by apply runs_lift|done..].
Qed.

(** ** Reading *)

(** A pure function with a result, of which [F] holds. *)
Definition ok {A} (F : A -> Prop) (o : outcome A) : Prop := exists a, o = Ok a /\ F a.

(** A call that succeeds and changes nothing. *)
Definition answers {R} (F : R -> Prop) (k : K) (r : error + R) (k' : K) : Prop :=
  k' = k /\ exists a, r = inr a /\ F a.

(** [m] has a result, of which [F] holds, and leaves world and memory alone. *)
Definition finds {A} (F : A -> Prop) (m : M W L A) k l : Prop :=
  runs m (fun o k' l' => k' = k /\ l' = l /\ ok F o) k l.

Lemma runs_finds {A B} (F : A -> Prop) (m : M W L A) (f : A -> M W L B) Q k l :
  finds F m k l -> (forall a, F a -> runs (f a) Q k l) -> runs (bind m f) Q k l.
Proof.
  intros Hm Hf. apply runs_bind. eapply runs_mono; [exact Hm|].
  intros o k' l' (-> & -> & a & -> & Ha). by apply Hf.
Qed.

Lemma finds_weaken {A} (F F' : A -> Prop) (m : M W L A) k l :
  finds F m k l -> (forall a, F a -> F' a) -> finds F' m k l.
Proof. intros Hm HF. eapply runs_mono; [exact Hm|]. unfold ok. naive_solver. Qed.

Lemma finds_ret {A} (F : A -> Prop) a k l : F a -> finds F (ret a) k l.
Proof. intros Ha. apply runs_ret. unfold ok. eauto. Qed.

Lemma finds_lift {A} (F : A -> Prop) (o : outcome A) k l :
  ok F o -> finds F (lift o) k l.
Proof. intros Ho. by apply runs_lift. Qed.

Lemma finds_bind {A B} (F : A -> Prop) (G : B -> Prop) (m : M W L A) (f : A -> M W L B) k l :
  finds F m k l -> (forall a, F a -> finds G (f a) k l) -> finds G (bind m f) k l.
Proof. apply runs_finds. Qed.

Lemma finds_gets_bind {A B} (G : B -> Prop) (g : L -> A) (f : A -> M W L B) k l :
  finds G (f (g l)) k l -> finds G (bind (gets g) f) k l.
Proof. intros Hf. by apply runs_bind, runs_gets. Qed.

Lemma finds_ok_bind {A B} (G : B -> Prop) a (f : A -> M W L B) k l :
  finds G (f a) k l -> finds G (bind (lift (Ok a)) f) k l.
Proof. intros Hf. by apply runs_bind, runs_lift. Qed.

Lemma finds_trigger {R} (F : R -> Prop) (c : call R) k l :
  (forall r k', reply _ c k r k' -> answers F k r k') -> finds F (trigger c) k l.
Proof. intros HF. apply runs_trigger. intros r k' [-> (a & -> & Ha)]%HF. unfold ok. eauto. Qed.

Lemma finds_fire (c : call unit) k l :
  (forall r k', reply _ c k r k' -> k' = k) -> finds (fun _ => True) (fire c) k l.
Proof. intros HF. apply runs_fire. intros r k' ->%HF. unfold ok. eauto. Qed.

Lemma finds_try {A} (F : A -> Prop) (m : M W L A) k l :
  finds F m k l -> finds (fun r => exists a, r = inr a /\ F a) (try m) k l.
Proof.
  intros Hm. apply runs_try. eapply runs_mono; [exact Hm|].
  intros o k' l' (-> & -> & a & -> & Ha). unfold ok. cbn. eauto 7.
Qed.

Lemma finds_wrap {A} p (F : A -> Prop) (m : M W L A) k l :
  finds F m k l -> finds F (wrap p m) k l.
Proof.
  intros Hm. apply runs_wrap. eapply runs_mono; [exact Hm|].
  intros o k' l' (-> & -> & a & -> & Ha). unfold ok. eauto.
Qed.

(** A loop keeps what each of its iterations keeps. *)
Lemma runs_forM_ {A} (I : K -> L -> Prop) (f : A -> M W L unit) (xs : list A) k l :
  I k l ->
  (forall a k l, a ∈ xs -> I k l -> runs (f a) (fun o k' l' => o = Ok tt /\ I k' l') k l) ->
  runs (forM_ xs f) (fun o k' l' => o = Ok tt /\ I k' l') k l.
Proof.
  revert k l. induction xs as [|x xs IH]; intros k l Hi Hf; cbn [forM_]; [by apply runs_ret|].
  apply runs_bind. eapply runs_mono; [apply Hf; [by left|done]|]. intros o k' l' [-> Hi'].
  cbn. apply IH; [done|]. intros a k'' l'' Ha. apply Hf. by right.
Qed.

Lemma finds_forM_ {A} (f : A -> M W L unit) (xs : list A) k l :
  (forall a, a ∈ xs -> finds (fun _ => True) (f a) k l) -> finds (fun _ => True) (forM_ xs f) k l.
Proof.
  intros Hf. eapply runs_mono; [apply (runs_forM_ (fun k' l' => k' = k /\ l' = l)); [done|]|].
  - intros a k' l' Ha [-> ->]. eapply runs_mono; [by apply Hf|].
    by intros o k' l' (-> & -> & [] & -> & _).
  - intros o k' l' (-> & -> & ->). unfold ok. eauto.
Qed.

End logic.

#[global] Arguments runs : simpl never.
#[global] Arguments finds : simpl never.

(** One step of symbolic execution of a goal [runs known m Q k l]. *)
Ltac run_step :=
  match goal with
  | |- runs _ (bind _ _) _ _ _ => apply runs_bind
  | |- go_on _ _ _ (Ok _) _ _ => cbn [go_on]
  | |- go_on _ _ _ (Err _) _ _ => cbn [go_on]
  | |- tried _ _ _ _ => cbn [tried]
  | |- runs _ (ret _) _ _ _ => apply runs_ret
  | |- runs _ (fail _) _ _ _ => apply runs_lift
  | |- runs _ (lift _) _ _ _ => apply runs_lift
  | |- runs _ (try _) _ _ _ => apply runs_try
  | |- runs _ (gets _) _ _ _ => apply runs_gets
  | |- runs _ (modify _) _ _ _ => apply runs_modify
  | |- runs _ (wrap _ _) _ _ _ => apply runs_wrap
  end.

(** ** What exists, and how the services answer *)

(** The object as it is stored, the ids of the security groups, endpoints and zones
    that exist, the ExternalName service, and how often the object will still be read
    before the endpoints are accepted and available: time passes between the passes. *)
Record Known := mkKnown {
  object : VpcEndpoint;
  groups : gset string;
  endpoints : gset string;
  zones : gset string;
  service : option corev1.Service;
  waiting : nat
}.

Definition store (v : VpcEndpoint) (k : Known) : Known :=
  mkKnown v (groups k) (endpoints k) (zones k) (service k) (waiting k).
Definition add_group (id : string) (k : Known) : Known :=
  mkKnown (object k) ({[id]} ∪ groups k) (endpoints k) (zones k) (service k) (waiting k).
Definition add_endpoint (id : string) (k : Known) : Known :=
  mkKnown (object k) (groups k) ({[id]} ∪ endpoints k) (zones k) (service k) (waiting k).
Definition add_zone (id : string) (k : Known) : Known :=
  mkKnown (object k) (groups k) (endpoints k) ({[id]} ∪ zones k) (service k) (waiting k).
Definition set_service (svc : corev1.Service) (k : Known) : Known :=
  mkKnown (object k) (groups k) (endpoints k) (zones k) (Some svc) (waiting k).

Definition later (k : Known) : Known :=
  mkKnown (object k) (groups k) (endpoints k) (zones k) (service k) (pred (waiting k)).

(** A zone id as the status records it. *)
Definition zone_id_wf (id : string) : Prop := id <> "" /\ no_space id.

Definition group_exists (k : Known) (sg : ec2Types.SecurityGroup) : Prop :=
  sg_complete sg /\
  exists id, ec2Types.sg_GroupId sg = Some id /\ id <> "" /\ id ∈ groups k.

(** An endpoint is available and has its DNS names, or has still to wait. *)
Definition endpoint_exists (k : Known) (v : ec2Types.VpcEndpoint) : Prop :=
  vpce_complete v /\
  (ec2Types.State v = "available" /\ ec2Types.DnsEntries v <> [] \/
   waiting k <> 0 /\ ec2Types.State v ∈ ["pending"; "pendingAcceptance"]) /\
  exists id, ec2Types.VpcEndpointId v = Some id /\ id <> "" /\ id ∈ endpoints k.

Definition endpoint_new (v : ec2Types.VpcEndpoint) (id : string) : Prop :=
  vpce_complete v /\ ec2Types.VpcEndpointId v = Some id /\ id <> "" /\
  ec2Types.State v ∈ ["pending"; "pendingAcceptance"; "available"].

Definition zone_is (id : string) (z : route53Types.HostedZone) : Prop :=
  zone_complete z /\ route53Types.hz_Id z = Some ("/hostedzone/" +:+ id).

Definition output_is (id : string) (out : route53Types.GetHostedZoneOutput) : Prop :=
  output_complete out /\ forall z, route53Types.HostedZone_ out = Some z -> zone_is id z.

(** The subnets are there, all in one VPC. *)
Definition subnets_exist (l : list ec2Types.Subnet) : Prop :=
  l <> [] /\ Forall subnet_complete l /\
  exists vpc, vpc <> "" /\ Forall (fun s => ec2Types.subnet_VpcId s = Some vpc) l.

Definition vpc_exists (v : ec2Types.Vpc) : Prop :=
  (exists id, ec2Types.VpcId v = Some id /\ id <> "") /\ is_Some (ec2Types.CidrBlock v).

(** The pages can be read, name the VPC of each endpoint, and are not endless. *)
Definition pages_exist (pages : list (error + list ec2Types.VpcEndpoint)) : Prop :=
  exists ps l, pages = inr <$> ps /\ AwsSpec.vpc_ids ps = Some <$> l /\
    (forall id, id ∈ l -> id <> "") /\ (Z.of_nat (length l) < AWSClient.MaxInt)%Z.

(** An infrastructure of AWS with a name, a hosted control plane with an infra id and a
    domain, a secret with credentials. *)
Definition infrastructure_exists (i : configv1.Infrastructure) : Prop :=
  configv1.InfrastructureName i <> "" /\
  exists region, configv1.PlatformStatus_ i = Some (configv1.mkPlatformStatus "AWS" (Some region)).

Definition plane_exists (l : list hyperv1beta1.HostedControlPlane) : Prop :=
  exists hcp domain, l = [hcp] /\ hyperv1beta1.InfraID hcp <> "" /\
    Lookups.apiServerDomain (hyperv1beta1.Services hcp) = Ok domain /\ domain <> "".

Definition secret_usable (data : gmap string string) : Prop :=
  is_Some (data !! Lookups.defaultRoleArn) \/
  (is_Some (data !! Lookups.defaultAWSAccessKeyId) /\
   is_Some (data !! Lookups.defaultAWSSecretAccessKey)).

Definition ec2_reply {R} (op : ec2op R) (k : Known) : error + R -> Known -> Prop :=
  match op in ec2op R return error + R -> Known -> Prop with
  | AuthorizeSecurityGroupEgress _ => answers (fun _ => True) k
  | AuthorizeSecurityGroupIngress _ => answers (fun _ => True) k
  | Calls.CreateSecurityGroup _ => fun r k' =>
      exists id, r = inr (Some id) /\ id <> "" /\ k' = add_group id k
  | WaitSecurityGroupExists _ _ => answers (fun _ => True) k
  | DescribeSecurityGroups _ [] => answers (Forall (group_exists k)) k
  | DescribeSecurityGroups _ [id] => fun r k' =>
      id <> "" -> id ∈ groups k -> answers (fun l => exists sg, l = [sg] /\ group_exists k sg) k r k'
  | Calls.DescribeSecurityGroupRules _ => answers (Forall RulesSpec.rule_wf) k
  | DescribeSubnets _ _ => answers subnets_exist k
  | DescribeVpcs _ _ => answers (fun l => l <> [] /\ Forall vpc_exists l) k
  | Calls.CreateTags _ _ => answers (fun _ => True) k
  | Calls.CreateVpcEndpoint _ => fun r k' =>
      exists v id, r = inr (Some v) /\ endpoint_new v id /\ k' = add_endpoint id k
  | DescribeVpcEndpoints _ [] => answers (Forall (endpoint_exists k)) k
  | DescribeVpcEndpoints _ [id] => fun r k' =>
      id <> "" -> id ∈ endpoints k -> answers (fun l => exists v, l = [v] /\ endpoint_exists k v) k r k'
  | DescribeVpcEndpointsPages _ => answers pages_exist k
  | Calls.ModifyVpcEndpoint _ => answers (fun _ => True) k
  | DescribeVpcEndpointServices _ => answers (fun l => exists azs, l = [azs]) k
  | _ => fun _ _ => True
  end.

Definition r53_reply {R} (op : route53op R) (k : Known) : error + R -> Known -> Prop :=
  match op in route53op R return error + R -> Known -> Prop with
  | ChangeResourceRecordSets _ => answers (fun _ => True) k
  | Calls.ChangeTagsForResource _ => answers (fun _ => True) k
  | Calls.CreateHostedZone _ => fun r k' =>
      exists z id, r = inr (Some z) /\ zone_is id z /\ zone_id_wf id /\ k' = add_zone id k
  | Calls.CreateVPCAssociationAuthorization _ _ _ => answers (fun _ => True) k
  | Calls.GetHostedZone zid => fun r k' =>
      forall id, zid = "/hostedzone/" +:+ id -> id ∈ zones k -> answers (output_is id) k r k'
  | Calls.ListHostedZonesByName _ =>
      answers (Forall (fun z => exists id, zone_is id z /\ zone_id_wf id /\ id ∈ zones k)) k
  | Calls.ListHostedZonesByVPC _ _ =>
      answers (Forall (fun z => summary_complete z /\ exists id,
        route53Types.hzs_HostedZoneId z = Some id /\ zone_id_wf id /\ id ∈ zones k)) k
  | ListTagsForResource _ _ =>
      answers (fun o => exists l, o = Some l /\ Forall AwsSpec.tag_wf l) k
  | Calls.AssociateVPCWithHostedZone _ _ _ _ => answers (fun _ => True) k
  | _ => fun _ _ => True
  end.

(** The API server keeps what it is sent: a status update the status, an update the
    rest. *)
Definition kube_reply {R} (op : kubeop R) (k : Known) : error + R -> Known -> Prop :=
  match op in kubeop R return error + R -> Known -> Prop with
  | GetVpcEndpoint namespace name => fun r k' =>
      metav1.Namespace (meta (object k)) = namespace -> metav1.Name (meta (object k)) = name ->
      r = inr (object k) /\ k' = later k
  | UpdateVpcEndpointStatus v => fun r k' => exists rv, r = inr rv /\
      k' = store (set_meta (set_ResourceVersion_meta rv)
                    (set_status (fun _ => status v) (object k))) k
  | UpdateVpcEndpoint v => fun r k' => exists rv, r = inr rv /\
      k' = store (set_meta (set_ResourceVersion_meta rv)
                    (set_status (fun _ => status (object k)) v)) k
  | GetInfrastructure _ => answers infrastructure_exists k
  | GetDNS _ => answers (fun dns => configv1.BaseDomain dns <> "") k
  | ListHostedControlPlanes _ => answers plane_exists k
  | GetAWSEndpointService _ _ => answers (fun n => n <> "") k
  | GetSecret _ _ => answers secret_usable k
  | GetService _ _ => fun r k' => k' = k /\
      match service k with
      | None => exists e, r = inl e /\ IsNotFound e = true
      | Some svc => r = inr svc
      end
  | CreateService svc => fun r k' => r = inr tt /\ k' = set_service svc k
  | UpdateService svc => fun r k' => r = inr tt /\ k' = set_service svc k
  | SetControllerReference _ _ svc =>
      answers (fun svc' => corev1.ExternalName svc' = corev1.ExternalName svc) k
  | _ => fun _ _ => True
  end.

Definition reply R (c : call R) (k : Known) : error + R -> Known -> Prop :=
  match c in call R return error + R -> Known -> Prop with
  | EC2 _ op => ec2_reply op k
  | R53 _ op => r53_reply op k
  | Kube op => kube_reply op k
  | LoadDefaultConfig _ _ => answers (fun _ => True) k
  | Now => answers (fun _ => True) k
  | RangeOrder => answers valid_order k
  | Metric _ => fun _ k' => k' = k
  | Event _ _ _ => fun _ k' => k' = k
  | _ => fun _ _ => True
  end.

(** A world of which so much is known. *)
Class Provides (W : Type) `{World W} := {
  known : W -> Known;
  provides :: Replies known reply
}.

End Provision.
