(* ===== verification/ProvisionSim.v ===== *)
(** * A simulated world that provides

    The smallest world that [Provision.reply] describes: its state is what is known of
    it.  Searches find nothing, so that the operator creates what it needs. *)
From S2P Require Import Prelude GoError Naming Types Calls GoMonad AwsClient Lookups.
From S2P Require Import Rules Controller Helpers Sim AwsSpec SafetySpec Provision.
Import avov1alpha2 Naming.

Module ProvisionSim.
Import SafetySpec Provision.

Definition notSimulated {A} (k : Known) : Known * (error + A) :=
  (k, inl (EOpaque "not simulated")).

Definition ec2 {R} (op : ec2op R) (k : Known) : Known * (error + R) :=
  match op in ec2op R return Known * (error + R) with
  | AuthorizeSecurityGroupEgress _ => (k, inr [])
  | AuthorizeSecurityGroupIngress _ => (k, inr [])
  | Calls.CreateSecurityGroup _ => (add_group "sg-1" k, inr (Some "sg-1"))
  | WaitSecurityGroupExists _ _ => (k, inr tt)
  | DescribeSecurityGroups _ [] => (k, inr [])
  | DescribeSecurityGroups _ [id] =>
      if decide (id <> "" /\ id ∈ groups k)
      then (k, inr [ec2Types.mkSecurityGroup (Some id) []])
      else (k, inl (Sim.notFound "InvalidGroup.NotFound"))
  | Calls.DescribeSecurityGroupRules _ => (k, inr [])
  | DescribeSubnets _ _ =>
      (k, inr [ec2Types.mkSubnet (Some "subnet-1") (Some "vpc-1") (Some "us-east-1a")])
  | DescribeVpcs _ _ => (k, inr [ec2Types.mkVpc (Some "vpc-1") (Some "10.0.0.0/16")])
  | Calls.CreateTags _ _ => (k, inr tt)
  | Calls.CreateVpcEndpoint _ =>
      (add_endpoint "vpce-1" k, inr (Some (Sim.endpoint "vpce-1" "pendingAcceptance")))
  | DescribeVpcEndpoints _ [] => (k, inr [])
  | DescribeVpcEndpoints _ [id] =>
      if decide (id <> "" /\ id ∈ endpoints k) then (k, inr [Sim.endpoint id (if decide (waiting k = 0) then "available" else "pendingAcceptance")])
      else (k, inl (Sim.notFound "InvalidVpcEndpointId.NotFound"))
  | DescribeVpcEndpointsPages _ => (k, inr [inr []])
  | Calls.ModifyVpcEndpoint _ => (k, inr tt)
  | DescribeVpcEndpointServices _ => (k, inr [["us-east-1a"]])
  | _ => notSimulated k
  end.

Definition zone_out (zid : string) : route53Types.GetHostedZoneOutput :=
  route53Types.mkGetHostedZoneOutput
    (Some (route53Types.mkHostedZone (Some zid) (Some "example.com.") (Some true))) [Some "vpc-1"].

Definition r53 {R} (op : route53op R) (k : Known) : Known * (error + R) :=
  match op in route53op R return Known * (error + R) with
  | ChangeResourceRecordSets _ => (k, inr tt)
  | Calls.ChangeTagsForResource _ => (k, inr tt)
  | Calls.CreateHostedZone i =>
      (add_zone "Z1" k,
       inr (Some (route53Types.mkHostedZone (Some "/hostedzone/Z1")
                    (Some (route53Types.chz_Name i)) (Some true))))
  | Calls.CreateVPCAssociationAuthorization _ _ _ => (k, inr tt)
  | Calls.GetHostedZone zid => (k, inr (zone_out zid))
  | Calls.ListHostedZonesByName _ => (k, inr [])
  | Calls.ListHostedZonesByVPC _ _ => (k, inr [])
  | ListTagsForResource _ _ => (k, inr (Some []))
  | Calls.AssociateVPCWithHostedZone _ _ _ _ => (k, inr tt)
  | _ => notSimulated k
  end.

Definition plane : hyperv1beta1.HostedControlPlane :=
  hyperv1beta1.mkHostedControlPlane "hcp" "ns" None "infra"
    [hyperv1beta1.mkService hyperv1beta1.APIServer hyperv1beta1.Route (Some "api.example.com")].

Definition kube {R} (op : kubeop R) (k : Known) : Known * (error + R) :=
  match op in kubeop R return Known * (error + R) with
  | GetVpcEndpoint _ _ => (later k, inr (object k))
  | UpdateVpcEndpointStatus v =>
      (store (set_meta (set_ResourceVersion_meta "2")
                (set_status (fun _ => status v) (object k))) k, inr "2")
  | UpdateVpcEndpoint v =>
      (store (set_meta (set_ResourceVersion_meta "2")
                (set_status (fun _ => status (object k)) v)) k, inr "2")
  | GetInfrastructure _ =>
      (k, inr (configv1.mkInfrastructure "infra"
                 (Some (configv1.mkPlatformStatus "AWS" (Some "us-east-1")))))
  | GetDNS _ => (k, inr (configv1.mkDNS Sim.baseDomain))
  | ListHostedControlPlanes _ => (k, inr [plane])
  | GetAWSEndpointService _ _ => (k, inr "com.amazonaws.vpce.svc")
  | GetSecret _ _ => (k, inr {[Lookups.defaultRoleArn := "arn:aws:iam::1:role/avo"]})
  | GetService _ _ =>
      match service k with
      | None => (k, inl (EStatus "NotFound" "not found"))
      | Some svc => (k, inr svc)
      end
  | CreateService svc => (set_service svc k, inr tt)
  | UpdateService svc => (set_service svc k, inr tt)
  | SetControllerReference ns name svc =>
      (k, inr (corev1.mkService (corev1.Name svc) (corev1.Namespace svc) (Some (ns, name))
                 (corev1.Type_ svc) (corev1.ExternalName svc) (corev1.ResourceVersion svc)))
  | _ => notSimulated k
  end.

#[export] Instance world : World Known := fun R (c : call R) k =>
  match c in call R return Known * (error + R) with
  | EC2 _ op => ec2 op k
  | R53 _ op => r53 op k
  | Kube op => kube op k
  | LoadDefaultConfig region creds => (k, inr (mkAwsConfig region (default CredDefault creds)))
  | Now => (k, inr 0%Z)
  | RangeOrder => (k, inr elements)
  | Metric _ => (k, inr tt)
  | Event _ _ _ => (k, inr tt)
  | _ => notSimulated k
  end.

Lemma endpoint_complete id st : vpce_complete (Sim.endpoint id st).
Proof. by repeat split; repeat constructor; eexists. Qed.

Lemma answers_known {R} (F : R -> Prop) (k : Known) a : F a -> answers F k (inr a) k.
Proof. intros Ha. split; eauto. Qed.

Lemma ec2_replies {R} (op : ec2op R) (k : Known) : ec2_reply op k (ec2 op k).2 (ec2 op k).1.
Proof.
  destruct op as [| |i| |filters ids| | | | | |i| |filters ids| | | | |]; cbn;
    try exact I; try (by apply answers_known; repeat constructor; eauto).
  - by exists "sg-1".
  - destruct ids as [|id [|? ?]]; [by apply answers_known| |done].
    intros Hne Hin. rewrite decide_True by done. apply answers_known.
    eexists. split; [done|]. split; [by split; [eexists|]|]. by exists id.
  - apply answers_known. split; [done|]. split; [by repeat constructor; eexists|].
    exists "vpc-1". split; [done|]. by repeat constructor.
  - eexists _, "vpce-1". split; [done|]. split; [|done].
    split; [apply endpoint_complete|]. split_and!; [done..|]. cbn. set_solver.
  - destruct ids as [|id [|? ?]]; [by apply answers_known| |done].
    intros Hne Hin. rewrite decide_True by done. apply answers_known.
    eexists. split; [done|]. split; [apply endpoint_complete|]. split; [|by exists id].
    case_decide; [by left|right]. cbn. split; [done|set_solver].
  - apply answers_known. exists [[]], []. by split_and!; try set_solver.
Qed.

Lemma r53_replies {R} (op : route53op R) (k : Known) : r53_reply op k (r53 op k).2 (r53 op k).1.
Proof.
  destruct op; cbn; try exact I; try (by apply answers_known; repeat constructor; eauto).
  - eexists _, "Z1". split; [done|]. split; [by repeat split; eexists|].
    split; [split; [done|vm_compute; by repeat constructor]|done].
  - intros zid -> _. apply answers_known. split; [split|].
    + eexists. split; [done|]. by split; eexists.
    + by repeat constructor; eexists.
    + intros z [= <-]. by repeat split; eexists.
Qed.

Lemma kube_replies {R} (op : kubeop R) (k : Known) : kube_reply op k (kube op k).2 (kube op k).1.
Proof.
  destruct op; cbn; try exact I; try (by apply answers_known); try (by eauto).
  - apply answers_known. split; [done|]. by eexists.
  - apply answers_known. by eexists _, "example.com".
  - apply answers_known. left. rewrite lookup_insert_eq. by eexists.
  - destruct (service k); [done|]. split; [done|]. by eexists.
Qed.

Lemma replies : Replies id reply.
Proof.
  intros R c k k' r. unfold handle, world, id. destruct c; cbn [reply].
  - pose proof (ec2_replies op k). by destruct (ec2 op k) as [? ?]; intros [= <- <-].
  - pose proof (r53_replies op k). by destruct (r53 op k) as [? ?]; intros [= <- <-].
  - pose proof (kube_replies op k). by destruct (kube op k) as [? ?]; intros [= <- <-].
  - intros [= <- <-]. by apply answers_known.
  - intros [= <- <-]. by apply answers_known.
  - done.
  - intros [= <- <-]. apply answers_known. apply valid_order_elements.
  - done.
  - by intros [= <- <-].
  - by intros [= <- <-].
  - done.
Qed.

#[export] Instance provides : Provides Known := {| known := id; Provision.provides := replies |}.

(** An object that was just created: nothing exists and nothing is recorded. *)
Definition sp : VpcEndpointSpec :=
  mkVpcEndpointSpec "com.amazonaws.vpce.svc" None (mkSecurityGroup [] [] false) "" None "" false
    (mkVpc true [] [] [] [])
    (mkCustomDns (mkRoute53PrivateHostedZone false [] "example.com" None ""
       (mkRoute53HostedZoneRecord "api" (mkExternalNameService "api-service")))).

Definition new_object : VpcEndpoint :=
  Sim.object None [] sp (mkVpcEndpointStatus "" "" "" "" "" "" "" "" []).

(** Endpoints are accepted before the object is read for the fifth time. *)
Definition nothing : Known := mkKnown new_object ∅ ∅ ∅ None 4.

Definition reconciler_ : VpcEndpointReconciler :=
  mkVpcEndpointReconciler false None None None None.

Definition state : Sys Known Mem := mkSys nothing [] (mkMem reconciler_ new_object).

End ProvisionSim.
