(* ===== verification/Creation.v ===== *)
(** * Creating: what a pass relies on

    The object that is created, the invariant of the passes over it, how the status is
    written, and that the readings of a pass succeed, in a world that provides
    (Provision.v). *)
From S2P Require Import Prelude GoError Naming Types Calls GoMonad AwsClient Lookups.
From S2P Require Import Rules Controller Helpers HostedZones Validation Cleanup Reconcile.
From S2P Require Import AwsSpec HostedZoneSpec InvariantSpec SteadySpec SafetySpec Provision.
Import avov1alpha2 Naming Helpers HostedZones Validation Reconcile.

Module Creation.
Import SafetySpec Provision.

(** What a spec has to say for its endpoint to be created: the endpoint service, a
    VPC, and the domain of a hosted zone of its own. *)
Record provisionable (sp : VpcEndpointSpec) : Prop := {
  service_named : ServiceName sp <> "" \/
    exists ref, ServiceNameRef sp = Some ref /\
      (sn_Name ref <> "" \/ exists vf aes, sn_ValueFrom ref = Some vf /\
         AwsEndpointServiceRef vf = Some aes /\ aes_Name aes <> "");
  vpc_named : avov1alpha2.Tags (Vpc_ sp) <> [] \/ Ids (Vpc_ sp) <> [] \/
    AutoDiscoverSubnets (Vpc_ sp) = true \/ SubnetIds (Vpc_ sp) <> [];
  vpcs_named : Forall (fun id => id <> "") (Ids (Vpc_ sp));
  zone_own : SteadySpec.own_zone sp = true;
  domain_named : DomainName (r53phz (CustomDns sp)) <> "" \/
    exists ref, DomainNameRef (r53phz (CustomDns sp)) = Some ref /\
      (dn_Name ref <> "" \/ exists vf, dn_ValueFrom ref = Some vf /\
         (is_Some (DnsRef vf) \/ exists hcp f, HostedControlPlaneRef vf = Some hcp /\
            NamespaceFieldRef hcp = Some f /\ FieldPath f = ".metadata.namespace"));
  associated_named :
    Forall (fun av => is_Some (CredentialsSecretRef av)) (AssociatedVpcs (r53phz (CustomDns sp)))
}.

(** The object: where it is, its spec, and the operator's switch for private DNS, which
    here leaves the DNS to the operator. *)
Class Subject := {
  the_namespace : string;
  the_name : string;
  the_spec : VpcEndpointSpec;
  the_flag : bool;
  the_spec_provisionable : provisionable the_spec;
  the_dns : (the_flag && EnablePrivateDns the_spec)%bool = false
}.

(** ** Pure helpers that succeed *)

Definition nonempty (s : string) : Prop := s <> "".

Lemma long_nonempty n : (0 < Z.of_nat (String.length n))%Z -> n <> "".
Proof. intros Hn ->. cbn in Hn. lia. Qed.

Lemma generated_names infra purpose :
  infra <> "" ->
  ok nonempty (GenerateSecurityGroupName infra purpose) /\
  ok nonempty (GenerateVPCEndpointName infra purpose).
Proof.
  intros Hi. unfold GenerateSecurityGroupName, GenerateVPCEndpointName.
  rewrite (proj2 (is_empty_false _) Hi).
  assert (Hp : infra +:+ "-" +:+ purpose <> "") by apply cluster_prefix_nonempty.
  assert (Hlen : forall suffix, (1 < Z.of_nat (String.length suffix) < 255)%Z ->
    (0 < generated_length (infra +:+ "-" +:+ purpose) suffix 255)%Z).
  { intros suffix Hs. unfold generated_length. case_match; lia. }
  split.
  - destruct (generateName_Ok _ "sg" 255 Hp) as (n & Hn & Hl); [done|done|].
    exists n. split; [exact Hn|]. apply long_nonempty. rewrite Hl. by apply Hlen.
  - destruct (generateName_Ok _ "vpce" 255 Hp) as (n & Hn & Hl); [done|done|].
    exists n. split; [exact Hn|]. apply long_nonempty. rewrite Hl. by apply Hlen.
Qed.

Lemma legacy_key infra :
  infra <> "" -> ok nonempty (GetClusterLegacyTagKey infra).
Proof.
  intros Hi. unfold GetClusterLegacyTagKey. rewrite (proj2 (is_empty_false _) Hi). by eexists.
Qed.

Lemma capi_key infra : infra <> "" -> ok nonempty (GetClusterCapiTagKey infra).
Proof.
  intros Hi. unfold GetClusterCapiTagKey. rewrite (proj2 (is_empty_false _) Hi). by eexists.
Qed.

Lemma aws_tags n t :
  nonempty n -> nonempty t ->
  ok (Forall AwsSpec.tag_wf) (GenerateAwsTags n t).
Proof.
  intros Hn Ht. unfold GenerateAwsTags. rewrite !(proj2 (is_empty_false _)) by done. cbn [orb].
  eexists. split; [done|]. by repeat constructor; eexists.
Qed.

Lemma tagsToMap_ok tags m :
  Forall AwsSpec.tag_wf tags -> ok (fun _ => True) (tagsToMap tags m).
Proof.
  intros Ht. revert m. induction Ht as [|t tags [[? Hk] [? Hv]] Ht IH]; intros m; cbn; [by eexists|].
  rewrite Hk, Hv. apply IH.
Qed.

Lemma aws_tags_map n t : nonempty n -> nonempty t -> ok (fun _ => True) (GenerateAwsTagsAsMap n t).
Proof.
  intros Hn Ht. destruct (aws_tags n t Hn Ht) as (tags & E & Htags).
  unfold GenerateAwsTagsAsMap. rewrite E. cbn. by apply tagsToMap_ok.
Qed.

Lemma tagsContains_ok o tags m :
  Forall AwsSpec.tag_wf tags -> ok (fun _ => True) (tagsContains o tags m).
Proof. intros Hwf. unfold tagsContains. rewrite AwsSpec.hasTags_spec by done. by eexists. Qed.

Lemma missing_ok useVpcCidr vpcCidr sgs rules avoRules isEgress :
  Forall RulesSpec.rule_wf rules -> Forall sg_complete sgs ->
  ok (fun _ => True) (Rules.missingPermissions isEgress useVpcCidr vpcCidr
    (ec2Types.sg_GroupId <$> sgs) rules avoRules).
Proof.
  intros Hr Hs. destruct (all_present ec2Types.sg_GroupId (fun _ => True) sgs) as (ids & -> & _).
  { eapply Forall_impl; [exact Hs|]. intros sg [[id Hid] _]. eauto. }
  eexists. split; [by apply RulesSpec.missingPermissions_spec|done].
Qed.

Lemma selectSubnets_ok vpc azs ss :
  Forall subnet_complete ss -> ok (fun _ => True) (selectSubnets vpc azs ss).
Proof.
  intros Hs. induction Hs as [|s ss ([i Hi] & [v Hv] & [z Hz]) _ (ids & IH & _)]; [by exists []|].
  cbn [selectSubnets]. rewrite IH.
  assert (exists ids, subnetSelected vpc azs s = Ok ids) as [ids' ->].
  { clear IH. induction azs as [|az azs IHa]; cbn [subnetSelected]; [eauto|].
    rewrite Hz. cbn. case_match; [|exact IHa]. rewrite Hv, Hi. cbn. repeat case_match; eauto. }
  cbn. by eexists.
Qed.

(** Some VPC is chosen: the counts stay below the loop's start value. *)
Lemma selected_ok order ids pages :
  valid_order order -> ids <> [] -> Forall nonempty ids -> pages_exist pages ->
  exists m, AWSClient.countPages pages (list_to_map ((fun id => (id, 0%Z)) <$> ids)) = Ok m /\
    nonempty (AWSClient.selectMin (AWSClient.rangeMap order m) "" AWSClient.MaxInt).
Proof.
  intros Ho Hne Hids (ps & l & -> & Hl & Hlne & Hmax).
  assert (exists m, AWSClient.countPages (inr <$> ps)
    (list_to_map ((fun id => (id, 0%Z)) <$> ids)) = Ok m) as [m Hm].
  { clear -Hl. unfold AwsSpec.vpc_ids in Hl. revert l Hl.
    generalize (list_to_map ((fun id => (id, 0%Z)) <$> ids) : gmap string Z) as m.
    induction ps as [|page ps IH]; intros m l Hl; [by exists m|]. cbn in *.
    rewrite fmap_app in Hl. symmetry in Hl. apply fmap_app_inv in Hl as (l1 & l2 & Hl1 & Hl2 & ->).
    assert (exists m', AWSClient.countPage page m = Ok m') as [m' ->].
    { clear -Hl1. revert m l1 Hl1. induction page as [|v page IH]; intros m l1 Hl1; [by exists m|].
      destruct l1 as [|x l1]; [done|]. cbn in *. injection Hl1 as Hx Hl1. rewrite Hx. cbn.
      by eapply IH. }
    cbn. by eapply IH. }
  exists m. split; [done|].
  apply AwsSpec.countPages_counts in Hm as (ps' & l' & Hps & Hl' & Hc & Hd).
  apply (inj (fmap inr)) in Hps as <-. rewrite Hl in Hl'. apply (inj (fmap Some)) in Hl' as <-.
  assert (Hcand : forall u, is_Some (m !! u) <-> u ∈ ids \/ u ∈ l).
  { intros u. rewrite Hd, AwsSpec.zeros_lookup. case_decide; naive_solver. }
  destruct (AwsSpec.selectMin_spec (AWSClient.rangeMap order m) "" AWSClient.MaxInt)
    as [[_ Hmin]|(c & Hin & _ & _)].
  - destruct ids as [|i ids]; [done|]. destruct (proj2 (Hcand i)) as [ci Hci]; [left; by left|].
    exfalso. assert (ci = AwsSpec.occurrences i l) as ->.
    { specialize (Hc i). rewrite Hci, AwsSpec.zeros_lookup in Hc. cbn in Hc.
      rewrite Hc. by case_decide. }
    apply (AwsSpec.rangeMap_elem order) in Hci; [|done]. apply Hmin in Hci.
    unfold AwsSpec.occurrences in Hci. pose proof (length_filter (fun x => x = i) l). lia.
  - apply AwsSpec.rangeMap_elem in Hin; [|done].
    destruct (proj1 (Hcand _) (mk_is_Some _ _ Hin)) as [Hi|Hi]; [|by apply Hlne].
    by eapply Forall_forall in Hids.
Qed.

(** Follows the text of a program in a goal [finds known F m k l]; what the calls answer
    becomes a hypothesis. *)
Ltac answer :=
  let Hr := fresh "Hr" in
  intros ? ? Hr; cbn [reply ec2_reply r53_reply kube_reply] in Hr; first [exact Hr | by subst].

Ltac find_step :=
  match goal with
  | |- finds _ _ (bind (trigger _) _) _ _ =>
      eapply (finds_bind known); [apply (finds_trigger known reply); answer|intros ? ?]
  | |- finds _ _ (bind (fire _) _) _ _ =>
      eapply (finds_bind known); [apply (finds_fire known reply); answer|intros ? _]
  | |- finds _ _ (fire _) _ _ => apply (finds_fire known reply); answer
  | |- finds _ _ (trigger _) _ _ => apply (finds_trigger known reply); answer
  | |- finds _ _ (bind (gets _) _) _ _ => apply finds_gets_bind
  | |- finds _ _ (bind (lift (Ok _)) _) _ _ => apply finds_ok_bind
  | |- finds _ _ (ret _) _ _ => apply finds_ret
  | |- finds _ _ (wrap _ _) _ _ => apply finds_wrap
  end.

(** A call with a name for its answer. *)
Ltac find_call a Ha :=
  eapply (finds_bind known); [apply (finds_trigger known reply); answer|intros a Ha].

(** A step with a known lemma. *)
Ltac find_by H := eapply (finds_bind known); [exact H|intros ? ?].
Ltac pure_by H :=
  eapply (finds_bind known);
  [first [apply finds_lift | apply finds_wrap, finds_lift]; exact H|intros ? ?].

(** How often the object will be read, after this pass, before the endpoints are
    available. *)
Class Waiting := the_waiting : nat.

Section creation.
Context {W : Type} `{World W} `{K8sHelpersLaws} `{!Provides W} `{!Subject} `{!Waiting}.
Abbreviation runs := (runs (W:=W) (L:=Mem) known).
Abbreviation finds := (finds (W:=W) (L:=Mem) known).
Implicit Types (k : Known) (l : Mem).

(** ** What holds before, during and after a pass *)

Definition holds (t : string) (st : VpcEndpointStatus) : Prop :=
  IsStatusConditionTrue (Conditions st) t = true.

(** What the status records exists; the service's condition was never set to false. *)
Record status_ok k (st : VpcEndpointStatus) : Prop := {
  ok_group : SecurityGroupId st <> "" -> SecurityGroupId st ∈ groups k;
  ok_endpoint : VPCEndpointId st <> "" -> VPCEndpointId st ∈ endpoints k;
  ok_zone : HostedZoneId st <> "" -> HostedZoneId st ∈ zones k;
  ok_record : holds AWSRoute53RecordCondition st -> ResourceRecordSet st <> "";
  ok_conditions : InvariantSpec.conditions_wf (Conditions st);
  ok_service : Forall (fun c => metav1.Type_ c = ExternalNameServiceCondition ->
    metav1.Status c = metav1.ConditionTrue) (Conditions st)
}.

Record object_ok (v : VpcEndpoint) : Prop := {
  ok_spec : Spec v = the_spec;
  ok_name : metav1.Name (meta v) = the_name;
  ok_namespace : metav1.Namespace (meta v) = the_namespace;
  ok_alive : metav1.DeletionTimestamp (meta v) = None
}.

(** Cached zones are the zones of their ids. *)
Definition cache_ok l : Prop := forall id entry,
  default ∅ (hostedZoneCache (reconciler l)) !! id = Some entry -> output_is id (response entry).

Record stored_ok k : Prop := {
  ok_stored : object_ok (object k);
  ok_stored_status : status_ok k (status (object k))
}.

Record base k l : Prop := {
  base_stored : stored_ok k;
  base_object : object_ok (resource l);
  base_status : status_ok k (status (resource l));
  base_cache : cache_ok l;
  base_flag : EnablePrivateDns_flag (reconciler l) = the_flag;
  base_waiting : waiting k = the_waiting
}.

Definition has_tag l : Prop :=
  exists ci, clusterInfo_ (reconciler l) = Some ci /\ clusterTag ci <> "".

(** What [parseClusterInfo] establishes. *)
Record parsed l : Prop := {
  parsed_client : is_Some (awsClient (reconciler l));
  parsed_tag : has_tag l;
  parsed_infra : InfraId (status (resource l)) <> "";
  parsed_vpc : VPCId (status (resource l)) <> "";
  parsed_service : VPCEndpointServiceName (status (resource l)) <> ""
}.

(** The status in memory is the one that is stored. *)
Definition synced k l : Prop := status (object k) = status (resource l).

(** At most the stored object is different. *)
Definition same_assets k k' : Prop := k' = store (object k') k.

#[export] Instance same_assets_preorder : PreOrder same_assets.
Proof.
  unfold same_assets, store. split; [by intros []|].
  intros [] [] [] [= -> -> -> -> ->] [= -> -> -> -> ->]. done.
Qed.

(** More may exist. *)
Record more k k' : Prop := {
  more_groups : groups k ⊆ groups k';
  more_endpoints : endpoints k ⊆ endpoints k';
  more_zones : zones k ⊆ zones k';
  more_waiting : waiting k' = waiting k
}.

Lemma status_ok_more k k' st : more k k' -> status_ok k st -> status_ok k' st.
Proof. intros [] []. constructor; set_solver. Qed.

Lemma stored_ok_more k k' : more k k' -> object k' = object k -> stored_ok k -> stored_ok k'.
Proof. intros Hm Ho []. constructor; rewrite Ho; [done|by eapply status_ok_more]. Qed.

Lemma base_more k k' l : more k k' -> object k' = object k -> base k l -> base k' l.
Proof.
  intros Hm Ho []. constructor; try done; [by eapply stored_ok_more|by eapply status_ok_more|].
  by rewrite (more_waiting _ _ Hm).
Qed.

Lemma more_add_group id k : more k (add_group id k).
Proof. constructor; cbn; set_solver. Qed.
Lemma more_add_endpoint id k : more k (add_endpoint id k).
Proof. constructor; cbn; set_solver. Qed.
Lemma more_add_zone id k : more k (add_zone id k).
Proof. constructor; cbn; set_solver. Qed.
Lemma more_set_service svc k : more k (set_service svc k).
Proof. by constructor. Qed.

(** ** Writing *)

Definition with_status (f : VpcEndpointStatus -> VpcEndpointStatus) l : Mem :=
  on_resource (set_status f) l.

Lemma base_with_status k l f :
  base k l -> status_ok k (f (status (resource l))) -> base k (with_status f l).
Proof. intros [? [] ? ? ? ?] Hf. by constructor. Qed.

(** A status update stores the status. *)
Lemma statusUpdate_runs (Q : outcome unit -> Known -> Mem -> Prop) k l :
  base k l ->
  (forall k' l', base k' l' -> synced k' l' -> same_assets k k' ->
     reconciler l' = reconciler l -> status (resource l') = status (resource l) ->
     Q (Ok tt) k' l') ->
  runs statusUpdate Q k l.
Proof.
  intros Hb HQ. unfold statusUpdate, res. repeat run_step.
  apply (runs_trigger known reply). intros r k' (rv & -> & ->). cbn [of_answer go_on]. run_step.
  destruct Hb as [[[] Hst] [] Hm Hc Hf Hw]. apply HQ; try done. constructor; try done.
  - constructor; [by constructor|]. destruct Hm. by constructor.
  - destruct Hm. by constructor.
Qed.

(** Conditions. *)
Lemma holds_set c st : metav1.Status c = metav1.ConditionTrue ->
  holds (metav1.Type_ c) (set_Conditions (SetStatusCondition (Conditions st) c) st).
Proof. intros Hc. unfold holds. cbn. by rewrite condition_true_set, Hc. Qed.

Lemma holds_set_other c t st : t <> metav1.Type_ c ->
  holds t (set_Conditions (SetStatusCondition (Conditions st) c) st) <-> holds t st.
Proof.
  intros Ht. unfold holds. cbn. rewrite !condition_true_iff. by rewrite condition_set_other.
Qed.

Lemma status_ok_set k st c :
  InvariantSpec.condition_wf c ->
  (metav1.Type_ c = ExternalNameServiceCondition -> metav1.Status c = metav1.ConditionTrue) ->
  (metav1.Type_ c = AWSRoute53RecordCondition -> metav1.Status c = metav1.ConditionTrue ->
     ResourceRecordSet st <> "") ->
  status_ok k st -> status_ok k (set_Conditions (SetStatusCondition (Conditions st) c) st).
Proof.
  intros Hwf Hext Hrec []. constructor; try done.
  - destruct (decide (AWSRoute53RecordCondition = metav1.Type_ c)) as [Ht|Ht].
    + unfold holds. cbn -[AWSRoute53RecordCondition]. rewrite Ht, condition_true_set, String.eqb_eq. auto.
    + rewrite holds_set_other by done. done.
  - by apply InvariantSpec.conditions_wf_set.
  - apply Forall_forall. intros c' [Hin|[Ht Hst]]%condition_set_elem.
    + by eapply Forall_forall in ok_service0.
    + intros Ht'. rewrite Hst. apply Hext. congruence.
Qed.

(** ** Reading *)

Lemma get_clusterInfo_finds l k :
  has_tag l -> finds (fun ci => nonempty (clusterTag ci)) get_clusterInfo k l.
Proof.
  intros (ci & Hci & Ht). unfold get_clusterInfo. apply finds_gets_bind. rewrite Hci.
  apply finds_lift. by eexists.
Qed.

Lemma tags_finds sg l k :
  parsed l -> sg_complete sg -> finds (fun _ => True) (createMissingSecurityGroupTags sg) k l.
Proof.
  intros [[cfg Hcfg] Htag Hinfra _ _] [[id Hid] Hwf].
  unfold createMissingSecurityGroupTags, res, client, eventNormal. apply finds_gets_bind.
  find_by (get_clusterInfo_finds l k Htag).
  pure_by (proj1 (generated_names _ (metav1.Name (meta (resource l))) Hinfra)).
  pure_by (aws_tags_map a0 (clusterTag a) ltac:(done) ltac:(done)). find_step.
  pure_by (tagsContains_ok a2 _ a1 Hwf).
  destruct a3; [by apply finds_ret|].
  pure_by (aws_tags a0 (clusterTag a) ltac:(done) ltac:(done)). rewrite Hid. cbn [deref].
  find_step. apply finds_gets_bind. rewrite Hcfg.
  unfold AWSClient.CreateTags, AWSClient.ec2.
  eapply (finds_bind known); [apply finds_wrap, (finds_trigger known reply); answer|intros ? _].
  find_step.
Qed.

Lemma vpcCidrForRules_finds l k :
  parsed l -> finds (fun _ => True) (vpcCidrForRules (resource l)) k l.
Proof.
  intros [[cfg Hcfg] _ _ Hvpc _]. unfold vpcCidrForRules, client. case_match; [|by apply finds_ret].
  rewrite (proj2 (is_empty_false _) Hvpc). apply finds_gets_bind. rewrite Hcfg. apply finds_wrap.
  unfold AWSClient.GetVpcCidrBlock, AWSClient.ec2. rewrite (proj2 (is_empty_false _) Hvpc).
  eapply (finds_bind known); [apply finds_wrap, (finds_trigger known reply); answer|].
  intros [|v vs] [Hne Hvs]; [done|]. apply Forall_cons in Hvs as [[_ [c ->]] _].
  by apply finds_ret.
Qed.

Lemma rules_finds sg l k :
  parsed l -> sg_complete sg ->
  finds (fun _ => True) (generateMissingSecurityGroupRules (Some sg) resource_ptr_) k l.
Proof.
  intros Hp [[id Hid] Hwf]. pose proof Hp as [[cfg Hcfg] Htag Hinfra _ _].
  unfold generateMissingSecurityGroupRules, res, client. do 2 apply finds_gets_bind. rewrite Hid, Hcfg.
  cbn [deref]. find_step.
  unfold AWSClient.DescribeSecurityGroupRules, AWSClient.ec2. find_step.
  unfold AWSClient.FilterClusterNodeSecurityGroupsByDefaultTags, AWSClient.ec2.
  eapply (finds_bind known).
  { pure_by (legacy_key _ Hinfra). pure_by (capi_key _ Hinfra). find_step. }
  intros sgs Hsgs. cbv zeta. find_by (vpcCidrForRules_finds l k Hp).
  assert (Hc : Forall sg_complete sgs) by (eapply Forall_impl; [exact Hsgs|by intros ? []]).
  unfold Rules.missingIngress, Rules.missingEgress.
  pure_by (missing_ok (UseVpcCidr (SecurityGroup_ (Spec (resource l)))) a0 sgs a
    (IngressRules (SecurityGroup_ (Spec (resource l)))) false ltac:(done) Hc).
  pure_by (missing_ok (UseVpcCidr (SecurityGroup_ (Spec (resource l)))) a0 sgs a
    (EgressRules (SecurityGroup_ (Spec (resource l)))) true ltac:(done) Hc).
  find_by (get_clusterInfo_finds l k Htag). by apply finds_ret.
Qed.

Lemma authorize_finds i e l k :
  is_Some (awsClient (reconciler l)) ->
  finds (fun _ => True) (AWSClient.AuthorizeSecurityGroupRules (awsClient (reconciler l)) i e) k l.
Proof.
  intros [cfg ->]. unfold AWSClient.AuthorizeSecurityGroupRules, AWSClient.ec2.
  eapply (finds_bind known (fun _ => True)); [destruct (ec2Types.IpPermissions i)|intros ? _].
  { by apply finds_ret. } { find_step. }
  eapply (finds_bind known (fun _ => True)); [destruct (ec2Types.IpPermissions e)|intros ? _].
  { by apply finds_ret. } { find_step. }
  by apply finds_ret.
Qed.

Lemma observe_finds t f l k : finds (fun _ => True) (observeReady t f) k l.
Proof.
  unfold observeReady, conditionTrue, sinceCreation, since, res. apply finds_gets_bind.
  case_match; [by apply finds_ret|].
  eapply (finds_bind known (fun _ => True)); [apply finds_gets_bind; find_step; by apply finds_ret|].
  intros d _. find_step.
Qed.

End creation.
End Creation.
