(* ===== verification/CreationEndpoint.v ===== *)
(** * Creating the security group and the endpoint

    What [validateSecurityGroup] and [validateVPCEndpoint] come to in a world that
    provides. *)
From S2P Require Import Prelude GoError Naming Types Calls GoMonad AwsClient Lookups.
From S2P Require Import Rules Controller Helpers HostedZones Validation Cleanup Reconcile.
From S2P Require Import AwsSpec HostedZoneSpec InvariantSpec SteadySpec SafetySpec Provision Creation.
Import avov1alpha2 Naming Helpers HostedZones Validation Reconcile.

Module CreationEndpoint.
Import SafetySpec Provision Creation.

Section endpoint.
Context {W : Type} `{World W} `{K8sHelpersLaws} `{!Provides W} `{!Subject} `{!Waiting}.
Abbreviation runs := (runs (W:=W) (L:=Mem) known).
Abbreviation finds := (finds (W:=W) (L:=Mem) known).
Implicit Types (k : Known) (l : Mem).

(** ** Security group *)

(** A pass that got so far. *)
Definition running k l : Prop := base k l /\ parsed l.

(** The status changes by [f], which leaves alone what was parsed, and nothing else
    in the memory does but the resource version. *)
Lemma running_status k l l' f :
  parsed l -> base k l' -> reconciler l' = reconciler l ->
  status (resource l') = f (status (resource l)) ->
  (forall st, InfraId (f st) = InfraId st /\ VPCId (f st) = VPCId st /\
     VPCEndpointServiceName (f st) = VPCEndpointServiceName st) ->
  running k l'.
Proof.
  intros [] Hb Hr Hst Hf. destruct (Hf (status (resource l))) as (E1 & E2 & E3).
  split; [done|]. constructor; unfold has_tag; rewrite ?Hr, ?Hst, ?E1, ?E2, ?E3; done.
Qed.

(** What a step of a pass leaves behind: the status changed by [f] and is stored. *)
Record stepped (f : VpcEndpointStatus -> VpcEndpointStatus) k l k' l' : Prop := {
  stepped_running : running k' l';
  stepped_synced : synced k' l';
  stepped_status : status (resource l') = f (status (resource l))
}.

(** A change of the status that is stored at once. *)
Lemma modify_update_runs f (Q : outcome unit -> Known -> Mem -> Prop) k l :
  running k l -> status_ok k (f (status (resource l))) ->
  (forall st, InfraId (f st) = InfraId st /\ VPCId (f st) = VPCId st /\
     VPCEndpointServiceName (f st) = VPCEndpointServiceName st) ->
  (forall k' l', stepped f k l k' l' -> same_assets k k' -> Q (Ok tt) k' l') ->
  runs (bind (modify_status f) (fun _ => statusUpdate)) Q k l.
Proof.
  intros [Hb Hp] Hok Hf HQ. unfold modify_status. repeat run_step.
  apply statusUpdate_runs; [by apply base_with_status|]. intros k' l' Hb' Hs' Hk' Hr' Hst'.
  apply HQ; [|done]. constructor; [|done|done].
  exact (running_status _ l l' f Hp Hb' Hr' Hst' Hf).
Qed.

Lemma FilterSecurityGroupById_finds k l id :
  is_Some (awsClient (reconciler l)) -> (id <> "" -> id ∈ groups k) ->
  finds (fun resp => Forall (group_exists k) (default [] resp) /\
      (default [] resp = [] -> id = ""))
    (AWSClient.FilterSecurityGroupById (awsClient (reconciler l)) id) k l.
Proof.
  intros [cfg ->] Hid. unfold AWSClient.FilterSecurityGroupById, AWSClient.ec2.
  destruct (is_empty id) eqn:He; breflect; [by apply finds_ret; split; [constructor|]|].
  eapply (finds_bind known).
  { apply finds_try, (finds_trigger known reply). intros r k' Hr. exact (Hr He (Hid He)). }
  intros [e|sgs] (a & [= <-] & sg & -> & Hsg). apply finds_ret. split; [|done]. by constructor.
Qed.

Lemma FilterSecurityGroupByDefaultTags_finds k l infra n :
  is_Some (awsClient (reconciler l)) -> infra <> "" ->
  finds (Forall (group_exists k))
    (AWSClient.FilterSecurityGroupByDefaultTags (awsClient (reconciler l)) infra n) k l.
Proof.
  intros [cfg ->] Hinfra. unfold AWSClient.FilterSecurityGroupByDefaultTags, AWSClient.ec2.
  pure_by (legacy_key _ Hinfra). find_step.
Qed.

Lemma foundSecurityGroup_runs sg (Q : outcome ec2Types.SecurityGroup -> Known -> Mem -> Prop) k l :
  running k l -> group_exists k sg ->
  (forall id k' l', id <> "" -> stepped (set_SecurityGroupId id) k l k' l' -> same_assets k k' ->
     Q (Ok sg) k' l') ->
  runs (foundSecurityGroup sg) Q k l.
Proof.
  intros Hr (_ & id & Hid & Hne & Hin) HQ. unfold foundSecurityGroup. rewrite Hid. cbn [deref].
  do 2 run_step. cbn [go_on]. unfold modify_status. run_step. run_step. cbn [go_on].
  do 2 run_step. destruct Hr as [Hb Hp]. apply statusUpdate_runs.
  { apply base_with_status; [done|]. destruct (base_status _ _ Hb). by constructor. }
  intros k' l' Hb' Hs' Hk' Hr' Hst'. cbn [tried go_on]. run_step.
  apply (HQ id); [done| |done]. constructor; [|done|done].
  by apply (running_status _ l l' (set_SecurityGroupId id)).
Qed.

Lemma createSecurityGroup_runs n (Q : outcome ec2Types.SecurityGroup -> Known -> Mem -> Prop) k l :
  running k l -> nonempty n ->
  (forall e id k' l', id <> "" -> stepped (set_SecurityGroupId id) k l k' l' ->
     service k' = service k -> Q (Err e) k' l') ->
  runs (createSecurityGroup n) Q k l.
Proof.
  intros [Hb Hp] Hn HQ. pose proof Hp as [[cfg Hcfg] Htag Hinfra Hvpc _].
  unfold createSecurityGroup, client, res_status. do 2 (run_step; run_step; cbn [go_on]).
  eapply (runs_finds known); [by apply get_clusterInfo_finds|]. intros ci Hci. rewrite Hcfg.
  unfold AWSClient.CreateSecurityGroup, AWSClient.ec2. run_step.
  eapply (runs_finds known); [apply finds_lift, (aws_tags n (clusterTag ci)); done|]. intros tags _.
  run_step. apply (runs_trigger known reply). intros r k1 (id & -> & Hne & ->). cbn [of_answer go_on].
  do 2 run_step. cbn [deref go_on].
  eapply (runs_finds known); [apply (finds_trigger known reply); answer|]. intros [] _.
  run_step. cbn [go_on]. do 2 run_step. cbn [deref go_on]. unfold eventNormal.
  eapply (runs_finds known); [apply (finds_fire known reply); answer|]. intros [] _.
  unfold modify_status. do 2 run_step. cbn [go_on]. do 2 run_step.
  pose proof (more_add_group id k) as Hm. apply statusUpdate_runs.
  { apply base_with_status; [by apply (base_more k)|].
    destruct (status_ok_more _ _ _ Hm (base_status _ _ Hb)). constructor; try done.
    intros _. cbn. set_solver. }
  intros k' l' Hb' Hs' Hk' Hr' Hst'. cbn [tried go_on]. run_step.
  apply (HQ _ id); [done| |by rewrite Hk']. constructor; [|done|done].
  by apply (running_status _ l l' (set_SecurityGroupId id)).
Qed.

Lemma findOrCreateSecurityGroup_runs
    (Q : outcome ec2Types.SecurityGroup -> Known -> Mem -> Prop) k l :
  running k l ->
  (forall sg id k' l', sg_complete sg -> id <> "" ->
     stepped (set_SecurityGroupId id) k l k' l' -> same_assets k k' -> Q (Ok sg) k' l') ->
  (forall e id k' l', SecurityGroupId (status (resource l)) = "" -> id <> "" ->
     stepped (set_SecurityGroupId id) k l k' l' -> service k' = service k -> Q (Err e) k' l') ->
  runs findOrCreateSecurityGroup Q k l.
Proof.
  intros Hr Hok Herr. pose proof Hr as [Hb [Hc _ Hinfra _ _]].
  assert (Hfound : forall sg, group_exists k sg -> runs (foundSecurityGroup sg) Q k l).
  { intros sg Hsg. apply foundSecurityGroup_runs; [done..|]. intros id k' l' Hne Hst Hk.
    apply (Hok _ id); try done. by destruct Hsg. }
  unfold findOrCreateSecurityGroup, client, res. do 2 (run_step; run_step; cbn [go_on]).
  eapply (runs_finds known); [apply FilterSecurityGroupById_finds; [done|apply Hb]|].
  intros resp [Hresp Hnone]. destruct (default [] resp) as [|sg sgs].
  2:{ apply Forall_cons in Hresp as [Hsg _]. by apply Hfound. }
  eapply (runs_finds known); [apply finds_lift, (generated_names _ _ Hinfra)|]. intros n Hn.
  eapply (runs_finds known); [by apply FilterSecurityGroupByDefaultTags_finds|].
  intros [|sg sgs] Hsgs; [|by apply Forall_cons in Hsgs as [Hsg _]; apply Hfound].
  apply createSecurityGroup_runs; [done..|]. intros e id k' l' Hne Hst Hk. eapply Herr; eauto.
Qed.

Definition group_validated : metav1.Condition :=
  metav1.mkCondition AWSSecurityGroupCondition metav1.ConditionTrue "Validated" "Validated".

(** Sets the condition [c], in a status. *)
Definition with_condition (c : metav1.Condition) (st : VpcEndpointStatus) : VpcEndpointStatus :=
  set_Conditions (SetStatusCondition (Conditions st) c) st.

(** A condition that is set and stored. *)
Lemma setCondition_update_runs c (Q : outcome unit -> Known -> Mem -> Prop) k l :
  running k l -> status_ok k (with_condition c (status (resource l))) ->
  (forall k' l', stepped (with_condition c) k l k' l' -> same_assets k k' -> Q (Ok tt) k' l') ->
  runs (bind (setCondition c) (fun _ => statusUpdate)) Q k l.
Proof. intros Hr Hok HQ. by apply modify_update_runs. Qed.

Lemma validateSecurityGroup_runs (Q : outcome unit -> Known -> Mem -> Prop) k l :
  running k l ->
  (forall id k' l', id <> "" ->
     stepped (fun st => with_condition group_validated (set_SecurityGroupId id st)) k l k' l' ->
     same_assets k k' -> Q (Ok tt) k' l') ->
  (forall e id k' l', SecurityGroupId (status (resource l)) = "" -> id <> "" ->
     stepped (set_SecurityGroupId id) k l k' l' -> service k' = service k -> Q (Err e) k' l') ->
  runs (validateSecurityGroup resource_ptr_) Q k l.
Proof.
  intros Hr Hok Herr. unfold validateSecurityGroup. cbn [is_nil]. run_step.
  apply findOrCreateSecurityGroup_runs; [done| |done].
  intros sg id k1 l1 Hsg Hid [[Hb1 Hp1] Hs1 Hst1] Hk1. cbn [go_on].
  eapply (runs_finds known); [by apply tags_finds|]. intros [] _.
  eapply (runs_finds known); [by apply rules_finds|]. intros [i e] _. unfold client.
  do 2 run_step. cbn [go_on].
  eapply (runs_finds known); [apply authorize_finds, Hp1|]. intros ? _.
  eapply (runs_finds known); [apply observe_finds|]. intros [] _.
  apply setCondition_update_runs; [done| |].
  { apply status_ok_set; [split; set_solver|done|done|apply Hb1]. }
  intros k2 l2 [Hr2 Hs2 Hst2] Hk2. apply (Hok id); [done| |by transitivity k1].
  constructor; [done..|]. by rewrite Hst2, Hst1.
Qed.

(** ** Endpoint *)

Lemma twoWayDiff_finds current expected k l :
  finds (fun _ => True) (twoWayDiff current expected) k l.
Proof. unfold twoWayDiff. do 2 find_step. by apply finds_ret. Qed.

Lemma modify_finds i k l :
  is_Some (awsClient (reconciler l)) ->
  finds (fun _ => True) (AWSClient.ModifyVpcEndpoint (awsClient (reconciler l)) i) k l.
Proof. intros [cfg ->]. unfold AWSClient.ModifyVpcEndpoint, AWSClient.ec2. find_step. Qed.

Lemma autodiscover_finds tag tags k l :
  is_Some (awsClient (reconciler l)) ->
  finds subnets_exist
    (AWSClient.AutodiscoverPrivateSubnets (awsClient (reconciler l)) tag tags) k l.
Proof.
  intros [cfg ->]. unfold AWSClient.AutodiscoverPrivateSubnets, AWSClient.DescribeSubnetsByTags,
    AWSClient.ec2.
  find_call ss Hss. destruct ss; [by destruct Hss|]. by apply finds_ret.
Qed.

Lemma expectedSubnets_finds k l :
  parsed l -> finds (fun _ => True) (expectedSubnets (resource l)) k l.
Proof.
  intros [Hc (ci & Hci & Ht) _ _ Hsvc]. unfold expectedSubnets. case_match; [|by apply finds_ret].
  eapply (finds_bind known subnets_exist).
  { unfold discoverSubnets, client. find_step.
    repeat case_match; try (by apply autodiscover_finds).
    find_step. rewrite Hci, (proj2 (is_empty_false _) Ht). by apply autodiscover_finds. }
  intros ss (_ & Hss & _). unfold client. find_step. destruct Hc as [cfg ->].
  unfold AWSClient.GetVpcEndpointServiceAZs, AWSClient.ec2.
  rewrite (proj2 (is_empty_false _) Hsvc).
  eapply (finds_bind known (fun _ => True)).
  { find_call l0 Hazs. destruct Hazs as [azs ->]. by apply finds_ret. }
  intros azs _. apply finds_lift. by apply selectSubnets_ok.
Qed.

(** A call that is left out when there is nothing to do. *)
Lemma unless_empty_finds (xs : list string) (m : M W Mem unit) k l :
  finds (fun _ => True) m k l ->
  finds (fun _ => True) (match xs with [] => ret tt | _ => m end) k l.
Proof. intros Hm. destruct xs; [by apply finds_ret|done]. Qed.

Lemma subnets_finds vpce k l :
  parsed l -> finds (fun _ => True) (ensureVpcEndpointSubnets vpce) k l.
Proof.
  intros Hp. unfold ensureVpcEndpointSubnets, res, client. do 2 find_step.
  find_by (expectedSubnets_finds k l Hp). find_by (twoWayDiff_finds (ec2Types.SubnetIds vpce) a k l).
  destruct a0 as [add rem].
  eapply (finds_bind known); [apply unless_empty_finds, finds_wrap, modify_finds, Hp|intros ? _].
  apply unless_empty_finds, finds_wrap, modify_finds, Hp.
Qed.

Lemma security_groups_finds vpce k l :
  parsed l -> vpce_complete vpce ->
  finds (fun _ => True) (ensureVpcEndpointSecurityGroups vpce) k l.
Proof.
  intros Hp (_ & _ & Hg). unfold ensureVpcEndpointSecurityGroups, diffVpcEndpointSecurityGroups.
  destruct (all_present id (fun _ => True) (ec2Types.Groups vpce)) as (gs & Hgs & _).
  { eapply Forall_impl; [exact Hg|]. intros x [y ->]. eauto. }
  rewrite list_fmap_id in Hgs. rewrite Hgs, sequence_Some.
  eapply (finds_bind known (fun _ => True)).
  { find_step. unfold res_status. find_step. apply twoWayDiff_finds. }
  intros [add rem] _. unfold client. find_step.
  eapply (finds_bind known); [apply unless_empty_finds, modify_finds, Hp|intros ? _].
  apply unless_empty_finds, modify_finds, Hp.
Qed.

Lemma setPendingAcceptance_finds n k l : finds (fun _ => True) (setPendingAcceptance n) k l.
Proof. unfold setPendingAcceptance, res. find_step. find_step. Qed.

(** The operator manages the DNS itself. *)
Lemma private_dns_off k l :
  base k l -> (EnablePrivateDns_flag (reconciler l) && EnablePrivateDns (Spec (resource l)))%bool = false.
Proof. intros [_ [-> _ _ _] _ _ ->]. exact the_dns. Qed.

Lemma enablePrivateDns_finds vpce k l :
  base k l -> finds (fun _ => True) (enablePrivateDns vpce) k l.
Proof.
  intros Hb. unfold enablePrivateDns, res. do 2 find_step. rewrite (private_dns_off k l Hb).
  by apply finds_ret.
Qed.

Definition endpoint_validated (vpce : ec2Types.VpcEndpoint) : metav1.Condition :=
  metav1.mkCondition AWSVpcEndpointCondition metav1.ConditionTrue (ec2Types.State vpce)
    ("VPC Endpoint status is: " +:+ ec2Types.State vpce).

Lemma endpointReady_runs vpce (Q : outcome unit -> Known -> Mem -> Prop) k l :
  running k l -> vpce_complete vpce ->
  (forall k' l', stepped (with_condition (endpoint_validated vpce)) k l k' l' ->
     same_assets k k' -> Q (Ok tt) k' l') ->
  runs (endpointReady vpce) Q k l.
Proof.
  intros [Hb Hp] Hv HQ. unfold endpointReady.
  eapply (runs_finds known); [by apply finds_wrap, subnets_finds|]. intros [] _.
  eapply (runs_finds known); [by apply finds_wrap, security_groups_finds|]. intros [] _.
  eapply (runs_finds known); [apply observe_finds|]. intros [] _.
  apply setCondition_update_runs; [done| |done].
  apply status_ok_set; [split; set_solver|done|done|apply Hb].
Qed.

(** What [endpointNotReady] does to the status. *)
Definition invalidated (t message : string) (st : VpcEndpointStatus) : VpcEndpointStatus :=
  if IsStatusConditionTrue (Conditions st) t
  then with_condition (metav1.mkCondition t metav1.ConditionFalse "VpcEndpointChanged" message) st
  else st.

Definition not_ready (state : string) (st : VpcEndpointStatus) : VpcEndpointStatus :=
  invalidated AWSRoute53TagsCondition
    "VPC endpoint is no longer available, tags will be re-verified"
    (invalidated AWSRoute53RecordCondition
       "VPC endpoint is no longer available, Route53 record will be re-created"
       (with_condition (metav1.mkCondition AWSVpcEndpointCondition metav1.ConditionFalse state "") st)).

Lemma invalidated_ok k t message st :
  t ∈ InvariantSpec.condition_types -> t <> ExternalNameServiceCondition ->
  status_ok k st -> status_ok k (invalidated t message st).
Proof.
  intros Ht Hext Hok. unfold invalidated. case_match; [|done].
  apply status_ok_set; [|done|done|done]. split; [done|set_solver].
Qed.

Lemma invalidateCondition_runs t message (Q : outcome unit -> Known -> Mem -> Prop) k l :
  Q (Ok tt) k (with_status (invalidated t message) l) -> runs (invalidateCondition t message) Q k l.
Proof.
  intros HQ. unfold invalidateCondition, conditionTrue. do 2 run_step. cbn [go_on].
  unfold with_status, invalidated, set_status, on_resource in HQ. cbn in HQ.
  case_match; [unfold setCondition, modify_status; run_step; exact HQ|].
  run_step. by destruct l as [? []].
Qed.

Lemma endpointNotReady_runs state n (Q : outcome unit -> Known -> Mem -> Prop) k l :
  running k l ->
  (forall k' l', stepped (not_ready state) k l k' l' -> same_assets k k' -> Q (Ok tt) k' l') ->
  runs (endpointNotReady state n) Q k l.
Proof.
  intros [Hb Hp] HQ. unfold endpointNotReady.
  eapply (runs_finds known); [apply setPendingAcceptance_finds|]. intros [] _.
  unfold setCondition, modify_status, invalidateRoute53RecordCondition. do 2 run_step. cbn [go_on].
  do 2 run_step. apply invalidateCondition_runs. cbn [go_on]. apply invalidateCondition_runs.
  cbn [go_on]. apply statusUpdate_runs.
  - repeat apply base_with_status; cbn; [done| | |].
    all: repeat apply invalidated_ok; try done; try set_solver.
    all: apply status_ok_set; [split; set_solver|done|done|apply Hb].
  - intros k' l' Hb' Hs' Hk' Hr' Hst'. apply HQ; [|done]. constructor; [|done|done].
    apply (running_status _ l l' (not_ready state)); try done.
    intros st. unfold not_ready, invalidated. by repeat case_match.
Qed.

Lemma DescribeSingleVPCEndpointById_finds k l id :
  is_Some (awsClient (reconciler l)) -> (id <> "" -> id ∈ endpoints k) ->
  finds (fun resp => Forall (endpoint_exists k) (default [] resp) /\
      (default [] resp = [] -> id = ""))
    (AWSClient.DescribeSingleVPCEndpointById (awsClient (reconciler l)) id) k l.
Proof.
  intros [cfg ->] Hid. unfold AWSClient.DescribeSingleVPCEndpointById, AWSClient.ec2.
  destruct (is_empty id) eqn:He; breflect; [apply finds_ret; split; cbn; auto using Forall_nil|].
  eapply (finds_bind known).
  { apply finds_try, (finds_trigger known reply). intros r k' Hr. exact (Hr He (Hid He)). }
  intros [e|vs] (a & [= <-] & v & -> & Hv). apply finds_ret. split; [|done]. by constructor.
Qed.

Lemma FilterVPCEndpointByDefaultTags_finds k l tag n :
  is_Some (awsClient (reconciler l)) ->
  finds (Forall (endpoint_exists k))
    (AWSClient.FilterVPCEndpointByDefaultTags (awsClient (reconciler l)) tag n) k l.
Proof.
  intros [cfg ->]. unfold AWSClient.FilterVPCEndpointByDefaultTags, AWSClient.ec2.
  case_match; [by apply finds_ret|find_step].
Qed.

(** An endpoint that was found or created: one that was there is available, unless it has
    to wait. *)
Definition usable (k : Known) (v : ec2Types.VpcEndpoint) (id : string) : Prop :=
  endpoint_new v id /\ id ∈ endpoints k.

Lemma endpoint_exists_usable k v :
  endpoint_exists k v ->
  exists id, usable k v id /\ (waiting k = 0 -> ec2Types.State v = "available").
Proof.
  intros (Hc & Hst & id & Hid & Hne & Hin). exists id.
  split; [split; [split_and!; try done|done]|]; destruct Hst as [[-> _]|[? ?]]; set_solver.
Qed.

Lemma createVpcEndpoint_runs n (Q : outcome ec2Types.VpcEndpoint -> Known -> Mem -> Prop) k l :
  running k l -> nonempty n ->
  (forall v id k', usable k' v id -> running k' l -> service k' = service k -> Q (Ok v) k' l) ->
  runs (createVpcEndpoint n) Q k l.
Proof.
  intros [Hb Hp] Hn HQ. pose proof Hp as [[cfg Hcfg] Htag _ _ _].
  unfold createVpcEndpoint, client, res_status. do 2 (run_step; run_step; cbn [go_on]).
  eapply (runs_finds known); [by apply get_clusterInfo_finds|]. intros ci Hci. rewrite Hcfg.
  unfold AWSClient.CreateDefaultInterfaceVPCEndpoint, AWSClient.ec2. do 2 run_step.
  eapply (runs_finds known); [apply finds_lift, (aws_tags n (clusterTag ci)); done|]. intros tags _.
  apply (runs_trigger known reply). intros r k1 (v & id & -> & Hv & ->). cbn [of_answer go_on].
  do 2 run_step. cbn [deref go_on]. pose proof Hv as (_ & Hid & _). rewrite Hid.
  do 2 run_step. cbn [deref go_on]. unfold eventNormal.
  eapply (runs_finds known); [apply (finds_fire known reply); answer|]. intros [] _.
  run_step. apply (HQ _ id); [split; [done|]; cbn; set_solver| |done].
  split; [|done]. apply (base_more k); [apply more_add_endpoint|done|done].
Qed.

Definition record_endpoint (state id : string) (st : VpcEndpointStatus) : VpcEndpointStatus :=
  set_Status state (set_VPCEndpointId id st).

Lemma recordEndpoint_runs v id (Q : outcome ec2Types.VpcEndpoint -> Known -> Mem -> Prop) k l :
  running k l -> usable k v id ->
  (forall k' l', stepped (record_endpoint (ec2Types.State v) id) k l k' l' -> same_assets k k' ->
     Q (Ok v) k' l') ->
  runs (id <- lift (deref (ec2Types.VpcEndpointId v));;
        modify_status (fun s => set_Status (ec2Types.State v) (set_VPCEndpointId id s));;
        wrap "failed to update status: " statusUpdate;;
        ret v)%go Q k l.
Proof.
  intros [Hb Hp] [(_ & Hid & _) Hin] HQ. rewrite Hid. do 2 run_step. cbn [deref go_on].
  unfold modify_status. do 2 run_step. cbn [go_on]. do 2 run_step. apply statusUpdate_runs.
  { apply base_with_status; [done|]. destruct (base_status _ _ Hb). by constructor. }
  intros k' l' Hb' Hs' Hk' Hr' Hst'. cbn [go_on]. run_step. apply HQ; [|done].
  constructor; [|done|done]. by apply (running_status _ l l' (record_endpoint (ec2Types.State v) id)).
Qed.

Lemma findOrCreateVpcEndpoint_runs
    (Q : outcome ec2Types.VpcEndpoint -> Known -> Mem -> Prop) k l :
  running k l ->
  (forall v id k' l', usable k' v id ->
     (VPCEndpointId (status (resource l)) <> "" -> the_waiting = 0 ->
        ec2Types.State v = "available") ->
     stepped (record_endpoint (ec2Types.State v) id) k l k' l' -> service k' = service k ->
     Q (Ok v) k' l') ->
  runs findOrCreateVpcEndpoint Q k l.
Proof.
  intros Hr HQ. pose proof Hr as [Hb [Hc Htag Hinfra _ _]].
  unfold findOrCreateVpcEndpoint, client, res. do 2 (run_step; run_step; cbn [go_on]).
  eapply (runs_finds known); [apply DescribeSingleVPCEndpointById_finds; [done|apply Hb]|].
  intros resp [Hresp Hnone]. run_step.
  assert (Hrecord : forall v id k1, usable k1 v id -> running k1 l -> service k1 = service k ->
    (VPCEndpointId (status (resource l)) <> "" -> the_waiting = 0 ->
       ec2Types.State v = "available") ->
    go_on known (fun v => id <- lift (deref (ec2Types.VpcEndpointId v));;
      modify_status (fun s => set_Status (ec2Types.State v) (set_VPCEndpointId id s));;
      wrap "failed to update status: " statusUpdate;; ret v)%go Q (Ok v) k1 l).
  { intros v id k1 Hv Hr1 Hsvc Hav. cbn [go_on]. apply (recordEndpoint_runs v id); [done..|].
    intros k' l' [] Hk'. apply (HQ _ id); try done; [|by rewrite Hk'].
    destruct Hv. split; [done|]. by rewrite Hk'. }
  destruct (default [] resp) as [|v vs].
  2:{ apply Forall_cons in Hresp as [(id & Hv & Hst)%endpoint_exists_usable _].
      apply runs_ret. apply (Hrecord v id); try done. by rewrite <- (base_waiting _ _ Hb). }
  specialize (Hnone eq_refl).
  eapply (runs_finds known); [apply finds_lift, (generated_names _ _ Hinfra)|]. intros n Hn.
  eapply (runs_finds known); [by apply get_clusterInfo_finds|]. intros ci Hci.
  eapply (runs_finds known); [by apply FilterVPCEndpointByDefaultTags_finds|]. intros [|v vs] Hvs.
  - apply createVpcEndpoint_runs; [done..|]. intros v id k1 Hv Hr1 Hsvc. by apply (Hrecord v id).
  - apply Forall_cons in Hvs as [(id & Hv & Hst)%endpoint_exists_usable _].
    apply runs_ret. by apply (Hrecord v id).
Qed.

(** What the validation of the endpoint does: the endpoint is recorded, and its condition
    is true if it was there before the pass and need not wait. *)
Record endpoint_step k l k' l' : Prop := {
  es_running : running k' l';
  es_synced : synced k' l';
  es_service : service k' = service k;
  es_group : SecurityGroupId (status (resource l')) = SecurityGroupId (status (resource l));
  es_endpoint : VPCEndpointId (status (resource l')) <> "";
  es_group_holds : holds AWSSecurityGroupCondition (status (resource l)) ->
    holds AWSSecurityGroupCondition (status (resource l'));
  es_holds : VPCEndpointId (status (resource l)) <> "" -> the_waiting = 0 ->
    holds AWSVpcEndpointCondition (status (resource l'))
}.

Lemma invalidated_holds t t' message st :
  t' <> t -> holds t' (invalidated t message st) <-> holds t' st.
Proof. intros Ht. unfold invalidated. case_match; [by apply holds_set_other|done]. Qed.

Lemma not_ready_holds_group state st :
  holds AWSSecurityGroupCondition (not_ready state st) <-> holds AWSSecurityGroupCondition st.
Proof. unfold not_ready. rewrite !invalidated_holds by done. by apply holds_set_other. Qed.

Lemma not_ready_ids state st :
  SecurityGroupId (not_ready state st) = SecurityGroupId st /\
  VPCEndpointId (not_ready state st) = VPCEndpointId st.
Proof. unfold not_ready, invalidated. by repeat case_match. Qed.

Lemma reconcileEndpointState_runs v id (Q : outcome unit -> Known -> Mem -> Prop) k l :
  running k l -> usable k v id -> VPCEndpointId (status (resource l)) = id ->
  (forall k' l', running k' l' -> synced k' l' -> same_assets k k' ->
     (status (resource l') = with_condition (endpoint_validated v) (status (resource l)) \/
      ec2Types.State v <> "available" /\
      status (resource l') = not_ready (ec2Types.State v) (status (resource l))) ->
     Q (Ok tt) k' l') ->
  runs (reconcileEndpointState v) Q k l.
Proof.
  intros Hr [(Hv & _ & _ & Hst) _] Hid HQ. unfold reconcileEndpointState. cbv zeta.
  assert (Hnot : forall n, ec2Types.State v <> "available" ->
    runs (endpointNotReady (ec2Types.State v) n) Q k l).
  { intros n Hna. apply endpointNotReady_runs; [done|]. intros k' l' [] Hk'. apply HQ; auto. }
  repeat (apply elem_of_cons in Hst as [Hst|Hst]); [| | |by apply elem_of_nil in Hst];
    rewrite Hst in Hnot |- *; cbn [String.eqb Ascii.eqb Bool.eqb orb].
  - by apply Hnot.
  - by apply Hnot.
  - eapply (runs_finds known); [apply setPendingAcceptance_finds|]. intros [] _.
    eapply (runs_finds known); [apply enablePrivateDns_finds, Hr|]. intros [] _.
    apply endpointReady_runs; [done..|]. intros k' l' [] Hk'. apply HQ; auto.
Qed.

Lemma validateVPCEndpoint_runs (Q : outcome unit -> Known -> Mem -> Prop) k l :
  running k l ->
  (forall k' l', endpoint_step k l k' l' -> Q (Ok tt) k' l') ->
  runs (validateVPCEndpoint resource_ptr_) Q k l.
Proof.
  intros Hr HQ. unfold validateVPCEndpoint. cbn [is_nil]. run_step.
  apply findOrCreateVpcEndpoint_runs; [done|]. intros v id k1 l1 Hv Hav [Hr1 Hs1 Hst1] Hsvc.
  cbn [go_on]. unfold recordChangedId, res_status. do 2 run_step.
  pose proof Hv as [(_ & Hid & Hne & _) _].
  assert (Hrec : VPCEndpointId (status (resource l1)) = id) by by rewrite Hst1.
  do 2 run_step. cbn [go_on]. do 2 run_step. rewrite Hid. cbn [deref go_on].
  rewrite Hrec, String.eqb_refl. cbn [negb]. run_step. cbn [go_on].
  apply (reconcileEndpointState_runs v id); [done..|]. intros k2 l2 Hr2 Hs2 Hk2 Hst2. apply HQ.
  assert (Hstay : holds AWSSecurityGroupCondition (status (resource l)) ->
    holds AWSSecurityGroupCondition (status (resource l1))) by by rewrite Hst1.
  destruct Hst2 as [Hst2|[Hna Hst2]]; constructor; try done; rewrite ?Hst2; try (by rewrite Hk2).
  - by rewrite Hst1.
  - cbn. by rewrite Hrec.
  - intros ?%Hstay. by apply holds_set_other.
  - intros _ _. by apply (holds_set (endpoint_validated v)).
  - rewrite (proj1 (not_ready_ids _ _)). by rewrite Hst1.
  - rewrite (proj2 (not_ready_ids _ _)). by rewrite Hrec.
  - intros ?%Hstay. by apply not_ready_holds_group.
  - intros Hhad Hw. by destruct Hna; apply Hav.
Qed.

End endpoint.
End CreationEndpoint.
