(* ===== verification/CreationDns.v ===== *)
(** * Creating the DNS

    What [validateCustomDns] comes to in a world that provides: the hosted zone and its
    tags, the record, the associated VPCs and the service. *)
From S2P Require Import Prelude GoError Naming Types Calls GoMonad AwsClient Lookups.
From S2P Require Import Rules Controller Helpers HostedZones Validation Cleanup Reconcile.
From S2P Require Import AwsSpec HostedZoneSpec InvariantSpec SteadySpec SafetySpec Provision.
From S2P Require Import Creation CreationEndpoint.
Import avov1alpha2 Naming Helpers HostedZones Validation Reconcile.

Module CreationDns.
Import SafetySpec Provision Creation CreationEndpoint.

Section dns.
Context {W : Type} `{World W} `{K8sHelpersLaws} `{!Provides W} `{!Subject} `{!Waiting}.
Abbreviation runs := (runs (W:=W) (L:=Mem) known).
Abbreviation finds := (finds (W:=W) (L:=Mem) known).
Implicit Types (k : Known) (l : Mem).

(** ** Hosted zone *)

(** The reconciler changes, but not in what a pass relies on. *)
Record same_pass l l' : Prop := {
  sp_resource : resource l' = resource l;
  sp_client : awsClient (reconciler l') = awsClient (reconciler l);
  sp_info : clusterInfo_ (reconciler l') = clusterInfo_ (reconciler l);
  sp_flag : EnablePrivateDns_flag (reconciler l') = EnablePrivateDns_flag (reconciler l)
}.

#[export] Instance same_pass_preorder : PreOrder same_pass.
Proof. split; [done|]. intros l1 l2 l3 [] []. constructor; congruence. Qed.

Lemma running_same_pass k l l' : running k l -> same_pass l l' -> cache_ok l' -> running k l'.
Proof.
  intros [[] []] [Hr Hc Hi Hf] Hca. split; constructor; unfold has_tag in *;
    rewrite ?Hr, ?Hc, ?Hi, ?Hf; done.
Qed.

Lemma synced_same_pass k l l' : synced k l -> same_pass l l' -> synced k l'.
Proof. unfold synced. by intros -> [-> _ _ _]. Qed.

(** The zone comes from the cache or from AWS; both have its id. *)
Lemma getHostedZoneCached_runs id
    (Q : outcome route53Types.GetHostedZoneOutput -> Known -> Mem -> Prop) k l :
  running k l -> id ∈ zones k ->
  (forall out l', output_is id out -> same_pass l l' -> running k l' -> Q (Ok out) k l') ->
  runs (getHostedZoneCached id) Q k l.
Proof.
  intros Hr Hid HQ. pose proof Hr as [Hb [[cfg Hcfg] _ _ _ _]]. pose proof (base_cache _ _ Hb) as Hca.
  assert (Hfetch : forall l1 : Mem, same_pass l l1 -> cache_ok l1 ->
    runs (c <- client;; resp <- AWSClient.GetHostedZone c id;; now <- trigger Now;;
      cache <- get_cache;; set_cache (<[id := mkHostedZoneCacheEntry resp now]> cache);;
      ret resp)%go Q k l1).
  { intros l1 Hl1 Hc1. unfold client, get_cache, set_cache. do 2 run_step. cbn [go_on].
    rewrite (sp_client _ _ Hl1), Hcfg. unfold AWSClient.GetHostedZone, AWSClient.r53.
    eapply (runs_finds known).
    { apply (finds_trigger known reply). intros r k' Ha. exact (Ha id eq_refl Hid). }
    intros out Hout.
    eapply (runs_finds known); [apply (finds_trigger known reply); answer|]. intros now _.
    do 2 run_step. cbn [go_on]. do 2 run_step. cbn [go_on]. run_step.
    assert (Hca' : cache_ok (on_reconciler (set_hostedZoneCache (Some (<[id := mkHostedZoneCacheEntry out now]>
      (default ∅ (hostedZoneCache (reconciler l1)))))) l1)).
    { intros id' entry. cbn. intros [[<- <-]|[_ He]]%lookup_insert_Some; [done|by apply (Hc1 id')]. }
    assert (Hs : same_pass l (on_reconciler (set_hostedZoneCache (Some (<[id := mkHostedZoneCacheEntry out now]>
      (default ∅ (hostedZoneCache (reconciler l1)))))) l1)) by by destruct Hl1.
    apply HQ; [done..|]. by apply (running_same_pass k l). }
  unfold getHostedZoneCached, cacheLookup, get_cache, set_cache. do 3 run_step. cbn [go_on].
  do 2 run_step. cbn [go_on].
  set (cache := default ∅ (hostedZoneCache (reconciler l))) in *.
  assert (Hset : forall x : gmap string hostedZoneCacheEntry,
    (forall id e, x !! id = Some e -> output_is id (response e)) ->
    let l1 := on_reconciler (set_hostedZoneCache (Some x)) l in same_pass l l1 /\ cache_ok l1) by done.
  destruct (Hset cache Hca) as [Hs1 Hc1].
  destruct (cache !! id) as [entry|] eqn:He; [|run_step; cbn [go_on]; by apply Hfetch].
  unfold since. eapply (runs_finds known).
  { eapply (finds_bind known); [apply (finds_trigger known reply); answer|intros t _].
    by apply (finds_ret known (fun _ => True)). }
  intros age _. case_match.
  - do 2 run_step. cbn [go_on]. run_step. apply HQ; [by apply Hca|done|by apply (running_same_pass k l)].
  - do 2 run_step. cbn [go_on]. run_step. cbn [go_on].
    destruct (Hset (delete id cache)) as [Hs2 Hc2]; [|by apply Hfetch].
    intros id' e [_ Hl]%lookup_delete_Some. by apply Hca.
Qed.

Lemma apiServer_finds ns k l :
  finds nonempty (Lookups.hostedcontrolplanes_GetPrivateHostedZoneDomainName ns) k l.
Proof.
  unfold Lookups.hostedcontrolplanes_GetPrivateHostedZoneDomainName. find_call hcps Hl.
  destruct Hl as (hcp & d & -> & _ & Hd & Hne). apply finds_lift. by exists d.
Qed.

Lemma dns_finds n k l : finds nonempty (Lookups.dnses_GetPrivateHostedZoneDomainName n) k l.
Proof. unfold Lookups.dnses_GetPrivateHostedZoneDomainName. find_step. by apply finds_ret. Qed.

Lemma requestedDomainName_finds k l :
  base k l -> finds nonempty requestedDomainName k l.
Proof.
  intros Hb. unfold requestedDomainName, res, phz_spec. apply finds_gets_bind.
  rewrite (ok_spec _ (base_object _ _ Hb)).
  destruct (is_empty (DomainName _)) eqn:He; cbn [negb]; breflect; [|by apply finds_ret].
  destruct (domain_named _ the_spec_provisionable) as [?|(ref & -> & Href)]; [done|].
  destruct (is_empty (dn_Name ref)) eqn:He'; cbn [negb]; breflect; [|by apply finds_ret].
  destruct Href as [?|(vf & -> & Hvf)]; [done|].
  destruct (DnsRef vf) as [dns|] eqn:Hdns; [apply dns_finds|].
  destruct Hvf as [[? ?]|(hcp & f & -> & Hf & Hpath)]; [done|]. rewrite Hf. cbn [deref].
  find_step. rewrite Hpath. apply apiServer_finds.
Qed.

Lemma findSummary_ok (P : route53Types.HostedZoneSummary -> Prop) d zs :
  Forall (fun z => summary_complete z /\ P z) zs ->
  ok (fun o => forall z, o = Some z -> P z) (findSummary d zs).
Proof.
  induction 1 as [|z zs [[_ [n Hn]] HP] _ IH]; cbn; [by eexists|]. rewrite Hn. cbn.
  case_match; [|exact IH]. eexists. split; [done|]. by intros ? [= <-].
Qed.

Lemma findPrivateZone_ok (P : route53Types.HostedZone -> Prop) d zs :
  Forall (fun z => zone_complete z /\ P z) zs ->
  ok (fun o => forall z, o = Some z -> P z) (findPrivateZone d zs).
Proof.
  induction 1 as [|z zs [[_ [n Hn]] HP] _ IH]; cbn; [by eexists|]. rewrite Hn. cbn.
  case_match; [|exact IH]. eexists. split; [done|]. by intros ? [= <-].
Qed.

(** A zone that is recorded. *)
Definition zone_recorded k l k' l' : Prop :=
  exists id, zone_id_wf id /\ stepped (set_HostedZoneId id) k l k' l' /\ service k' = service k.

Lemma record_zone_ok k l id :
  base k l -> id ∈ zones k -> status_ok k (set_HostedZoneId id (status (resource l))).
Proof. intros Hb Hin. destruct (base_status _ _ Hb). by constructor. Qed.

Lemma createZone_runs d (Q : outcome unit -> Known -> Mem -> Prop) k l :
  running k l ->
  (forall k' l', zone_recorded k l k' l' -> Q (Ok tt) k' l') ->
  runs (createZone d) Q k l.
Proof.
  intros [Hb Hp] HQ. pose proof Hp as [[cfg Hcfg] Htag _ _ _].
  unfold createZone, client, res_status. do 2 (run_step; run_step; cbn [go_on]).
  eapply (runs_finds known); [by apply get_clusterInfo_finds|]. intros ci Hci. rewrite Hcfg.
  unfold AWSClient.CreateHostedZone, AWSClient.r53. do 2 run_step.
  eapply (runs_finds known); [apply (finds_trigger known reply); answer|]. intros now _.
  apply (runs_trigger known reply). intros r k1 (z & id & -> & (_ & Hid) & Hwf & ->).
  cbn [of_answer go_on]. do 2 run_step. cbn [deref go_on]. rewrite Hid. do 2 run_step.
  cbn [deref go_on]. rewrite HostedZoneSpec.zoneIdOf_prefix by apply Hwf.
  unfold modify_status, eventNormal. do 2 run_step. cbn [go_on].
  eapply (runs_finds known); [apply (finds_fire known reply); answer|]. intros [] _. run_step.
  pose proof (base_more k _ l (more_add_zone id k) eq_refl Hb) as Hb1.
  apply statusUpdate_runs.
  { apply base_with_status; [done|]. apply record_zone_ok; [done|]. cbn. set_solver. }
  intros k' l' Hb' Hs' Hk' Hr' Hst'. apply HQ. exists id. split; [done|].
  split; [|by rewrite Hk']. constructor; [|done|done].
  by apply (running_status _ l l' (set_HostedZoneId id)).
Qed.

Lemma findOrCreateZone_runs d (Q : outcome unit -> Known -> Mem -> Prop) k l :
  running k l -> HostedZoneId (status (resource l)) = "" -> nonempty d ->
  (forall k' l', zone_recorded k l k' l' -> Q (Ok tt) k' l') ->
  runs (findOrCreateZone d) Q k l.
Proof.
  intros Hr Hz Hd HQ. pose proof Hr as [Hb [[cfg Hcfg] Htag _ _ _]].
  assert (Hsave : forall id, zone_id_wf id -> id ∈ zones k -> forall k' l',
    stepped (set_HostedZoneId id) k l k' l' -> same_assets k k' -> Q (Ok tt) k' l').
  { intros id Hwf Hin k' l' Hst Hk. apply HQ. exists id. split_and!; [done..|by rewrite Hk]. }
  unfold findOrCreateZone, client, res_status. rewrite (proj2 (is_empty_false _) Hd).
  do 2 (run_step; run_step; cbn [go_on]).
  eapply (runs_finds known); [by apply get_clusterInfo_finds|]. intros ci Hci. rewrite Hcfg.
  unfold AWSClient.ListHostedZonesByVPC, AWSClient.r53.
  eapply (runs_finds known); [apply (finds_trigger known reply); answer|]. intros hzs Hhzs.
  eapply (runs_finds known); [eapply finds_lift, findSummary_ok; exact Hhzs|]. intros [z|] Hz'.
  - destruct (Hz' z eq_refl) as (id & -> & Hwf & Hin). do 2 run_step. cbn [deref go_on].
    unfold updateHostedZoneId, res_status. do 2 run_step. cbn [go_on]. rewrite Hz.
    destruct (String.eqb_spec "" id) as [<-|_]; [by destruct Hwf|]. cbn [negb].
    apply modify_update_runs; [done|by apply record_zone_ok|done|by apply Hsave].
  - unfold AWSClient.ListHostedZonesByName, AWSClient.r53.
    eapply (runs_finds known); [apply finds_wrap, (finds_trigger known reply); answer|]. intros zs Hzs.
    eapply (runs_finds known).
    { apply finds_lift, (findPrivateZone_ok (fun z => exists id, zone_is id z /\ zone_id_wf id /\ id ∈ zones k)).
      eapply Forall_impl; [exact Hzs|]. intros z (id & Hi & Hin). split; [apply Hi|eauto]. }
    intros [z|] Hz''; [|by apply createZone_runs].
    destruct (Hz'' z eq_refl) as (id & (_ & ->) & Hwf & Hin). do 2 run_step. cbn [deref go_on].
    rewrite HostedZoneSpec.zoneIdOf_prefix by apply Hwf. unfold modify_status.
    do 2 run_step. cbn [go_on]. run_step. destruct Hr as [_ Hp].
    apply statusUpdate_runs; [apply base_with_status; [done|by apply record_zone_ok]|].
    intros k' l' Hb' Hs' Hk' Hr' Hst'. apply (Hsave id); [done..| |done].
    constructor; [|done|done]. by apply (running_status _ l l' (set_HostedZoneId id)).
Qed.

Lemma zone_eta st : set_HostedZoneId (HostedZoneId st) st = st.
Proof. by destruct st. Qed.

Lemma findOrCreatePrivateHostedZone_runs (Q : outcome unit -> Known -> Mem -> Prop) k l :
  running k l -> synced k l ->
  (forall id k' l', id <> "" -> stepped (set_HostedZoneId id) k l k' l' ->
     service k' = service k -> Q (Ok tt) k' l') ->
  runs (findOrCreatePrivateHostedZone resource_ptr_) Q k l.
Proof.
  intros Hr Hs HQ. unfold findOrCreatePrivateHostedZone, res_status. cbn [is_nil].
  do 2 run_step. cbn [go_on]. destruct (is_empty _) eqn:He; cbn [negb]; breflect.
  - eapply (runs_finds known); [apply requestedDomainName_finds, Hr|]. intros d Hd.
    apply findOrCreateZone_runs; [done..|]. intros k' l' (id & Hwf & Hst & Hsvc).
    by apply (HQ id); [apply Hwf|..].
  - run_step. apply getHostedZoneCached_runs; [done|by apply Hr|].
    intros out l' [((z & Hout & _) & _) Hz] Hsp' Hr'. cbn [go_on]. rewrite Hout.
    do 2 run_step. cbn [deref go_on]. destruct (Hz z Hout) as (_ & ->). do 2 run_step.
    cbn [deref go_on]. rewrite String.eqb_refl. run_step. apply (HQ (HostedZoneId (status (resource l)))); [done| |done].
    constructor; [done|by eapply synced_same_pass|]. by rewrite zone_eta, (sp_resource _ _ Hsp').
Qed.

Lemma r53_tags t :
  nonempty t -> ok (Forall AwsSpec.tag_wf) (GenerateR53Tags t).
Proof.
  intros Ht. unfold GenerateR53Tags. rewrite (proj2 (is_empty_false _) Ht).
  eexists. split; [done|]. by repeat constructor; eexists.
Qed.

Lemma checkZoneTag_finds input m tag k l :
  is_Some (awsClient (reconciler l)) -> AwsSpec.tag_wf tag ->
  finds (fun _ => True) (checkZoneTag input m tag) k l.
Proof.
  intros [cfg Hcfg] [[key Hk] [v Hv]]. unfold checkZoneTag, client. rewrite Hk, Hv. cbn [deref].
  find_step. cbv zeta.
  assert (Hchange : finds (fun _ => True) (c <- gets (fun m => awsClient (reconciler m));;
    wrap "failed tag hosted zone with default tags " (AWSClient.ChangeTagsForResource c input))%go k l).
  { find_step. rewrite Hcfg. unfold AWSClient.ChangeTagsForResource, AWSClient.r53.
    find_step. find_step. }
  case_match; [|done]. find_step. case_match; [by apply finds_ret|done].
Qed.

Definition zone_tagged : metav1.Condition :=
  metav1.mkCondition AWSRoute53TagsCondition metav1.ConditionTrue "TagsVerified"
    "Route53 hosted zone tags are correct".

Lemma zone_tags_runs (Q : outcome unit -> Known -> Mem -> Prop) k l :
  running k l ->
  (forall k' l', stepped (with_condition zone_tagged) k l k' l' -> same_assets k k' ->
     Q (Ok tt) k' l') ->
  runs createMissingPrivateZoneTags Q k l.
Proof.
  intros Hr HQ. pose proof Hr as [Hb [Hc Htag _ _ _]].
  unfold createMissingPrivateZoneTags, client, res_status.
  do 2 (run_step; run_step; cbn [go_on]). cbv zeta.
  eapply (runs_finds known).
  { apply finds_wrap. destruct Hc as [cfg ->].
    unfold AWSClient.FetchPrivateZoneTags, AWSClient.r53. apply (finds_trigger known reply). answer. }
  intros o (tags & -> & Htags).
  eapply (runs_finds known); [by apply get_clusterInfo_finds|]. intros ci Hci.
  eapply (runs_finds known (fun input => Forall AwsSpec.tag_wf (route53Types.AddTags input))).
  { apply finds_wrap, finds_lift. unfold AWSClient.GenerateDefaultTagsForHostedZoneInput.
    destruct (r53_tags (clusterTag ci) Hci) as (ts & -> & Hts).
    eexists. split; [done|]. exact Hts. }
  intros input Hin. cbn [deref]. do 2 run_step. cbn [go_on].
  eapply (runs_finds known); [by apply finds_lift, tagsToMap_ok|]. intros m _.
  eapply (runs_finds known).
  { apply finds_forM_. intros t Ht. apply checkZoneTag_finds; [done|].
    by eapply Forall_forall in Hin; [|exact Ht]. }
  intros [] _. apply setCondition_update_runs; [done| |done].
  apply status_ok_set; [split; set_solver|done|done|apply Hb].
Qed.

(** What a step leaves alone that sets the condition [t0]. *)
Record kept (t0 : string) (st st' : VpcEndpointStatus) : Prop := {
  kept_group : SecurityGroupId st' = SecurityGroupId st;
  kept_endpoint : VPCEndpointId st' = VPCEndpointId st;
  kept_zone : HostedZoneId st <> "" -> HostedZoneId st' <> "";
  kept_holds t : t <> t0 -> holds t st -> holds t st'
}.

Lemma kept_set c st : kept (metav1.Type_ c) st (with_condition c st).
Proof. constructor; try done. intros t Ht ?. by apply holds_set_other. Qed.

Lemma kept_refl t st : kept t st st.
Proof. by constructor. Qed.

Lemma kept_trans t st1 st2 st3 : kept t st1 st2 -> kept t st2 st3 -> kept t st1 st3.
Proof. intros [] []. constructor; [congruence..| |]; eauto. Qed.

(** A step of the DNS validation. *)
Record dns_step (t0 : string) k l k' l' : Prop := {
  ds_running : running k' l';
  ds_synced : synced k' l';
  ds_kept : kept t0 (status (resource l)) (status (resource l'))
}.

Lemma validateZone_runs (Q : outcome unit -> Known -> Mem -> Prop) k l :
  running k l -> synced k l ->
  (forall k' l', dns_step AWSRoute53TagsCondition k l k' l' ->
     HostedZoneId (status (resource l')) <> "" ->
     holds AWSRoute53TagsCondition (status (resource l')) -> service k' = service k ->
     Q (Ok tt) k' l') ->
  runs (validateR53PrivateHostedZone resource_ptr_) Q k l.
Proof.
  intros Hr Hs HQ. unfold validateR53PrivateHostedZone, res, phz_spec. cbn [is_nil].
  do 2 run_step. cbn [go_on]. rewrite (ok_spec _ (base_object _ _ (proj1 Hr))).
  pose proof (zone_own _ the_spec_provisionable) as Hown. unfold SteadySpec.own_zone in Hown. cbv zeta in Hown.
  apply andb_true_iff in Hown as [Hauto Hid]. apply negb_true_iff in Hauto.
  rewrite Hauto, Hid. cbn [negb].
  assert (Hnamed : (negb (is_empty (DomainName (r53phz (CustomDns the_spec)))) ||
    match DomainNameRef (r53phz (CustomDns the_spec)) with Some _ => true | None => false end)%bool = true).
  { destruct (domain_named _ the_spec_provisionable) as [Hne|(ref & -> & _)]; [|by destruct (negb _)].
    by rewrite (proj2 (is_empty_false _) Hne). }
  rewrite Hnamed. run_step. apply findOrCreatePrivateHostedZone_runs; [done..|].
  intros id k1 l1 Hne [Hr1 Hs1 Hst1] Hsvc. cbn [go_on]. unfold conditionTrue. do 2 run_step.
  cbn [go_on].
  assert (Hk1 : kept AWSRoute53TagsCondition (status (resource l)) (status (resource l1)))
    by by rewrite Hst1.
  destruct (IsStatusConditionTrue _ _) eqn:Ht.
  - run_step. apply HQ; [done| |done..]. by rewrite Hst1.
  - apply zone_tags_runs; [done|]. intros k2 l2 [Hr2 Hs2 Hst2] Hk2. apply HQ.
    + constructor; [done..|]. rewrite Hst2. eapply kept_trans; [exact Hk1|].
      apply (kept_set zone_tagged).
    + by rewrite Hst2, Hst1.
    + rewrite Hst2. by apply (holds_set zone_tagged).
    + by rewrite Hk2.
Qed.

(** ** Record *)

(** The record has a value when the endpoint need not wait, and else perhaps not. *)
Lemma generateRoute53Record_finds k l :
  running k l -> VPCEndpointId (status (resource l)) <> "" ->
  finds (fun r => (exists e, r = inl e) /\ the_waiting <> 0 \/ exists rec, r = inr (Some rec))
    (try generateRoute53Record) k l.
Proof.
  intros [Hb [Hc _ _ _ _]] Hid. apply runs_try. unfold generateRoute53Record, res, client.
  do 2 run_step. cbn [go_on]. rewrite (proj2 (is_empty_false _) Hid). do 2 run_step. cbn [go_on].
  eapply (runs_finds known).
  { apply DescribeSingleVPCEndpointById_finds; [done|apply Hb]. }
  intros resp [Hresp Hnone]. destruct (default [] resp) as [|v vs]; [by destruct Hid; apply Hnone|].
  apply Forall_cons in Hresp as [(_ & [[Hst Hdns]|[Hw Hst]] & _) _].
  - rewrite Hst. cbn [negb]. rewrite String.eqb_refl. cbn [negb].
    destruct (ec2Types.DnsEntries v); [done|]. run_step. cbn. unfold ok. eauto 7.
  - rewrite (proj2 (String.eqb_neq _ _)) by (intros Hav; rewrite Hav in Hst; set_solver).
    cbn [negb]. run_step. cbn. rewrite (base_waiting _ _ Hb) in Hw. unfold ok. eauto 9.
Qed.

Definition record_created (n : string) : metav1.Condition :=
  metav1.mkCondition AWSRoute53RecordCondition metav1.ConditionTrue "Created" ("Created: " +:+ n).

Lemma upsertRecord_runs z r (Q : outcome unit -> Known -> Mem -> Prop) k l :
  running k l -> zone_complete z ->
  (forall n k' l', n <> "" ->
     stepped (fun st => with_condition (record_created n) (set_ResourceRecordSet n st)) k l k' l' ->
     same_assets k k' -> Q (Ok tt) k' l') ->
  runs (upsertRecord z r) Q k l.
Proof.
  intros Hr [[id Hid] [zn Hzn]] HQ. pose proof Hr as [Hb Hp]. pose proof Hp as [[cfg Hcfg] _ _ _ _].
  unfold upsertRecord, res, client. do 2 run_step. cbn [go_on]. rewrite Hzn, Hid.
  do 2 run_step. cbn [deref go_on]. cbv zeta. set (n := _ +:+ "." +:+ _).
  assert (Hn : n <> "").
  { unfold n. by destruct (Hostname (Record_ (phz_spec (resource l)))). }
  do 2 run_step. cbn [go_on]. do 2 run_step. cbn [go_on]. rewrite Hcfg.
  unfold AWSClient.UpsertResourceRecordSet, AWSClient.r53.
  eapply (runs_finds known); [apply (finds_trigger known reply); answer|]. intros [] _.
  eapply (runs_finds known); [apply observe_finds|]. intros [] _.
  unfold modify_status at 1. do 2 run_step. cbn [go_on]. unfold setCondition, modify_status.
  do 2 run_step. cbn [go_on].
  assert (Hn1 : status_ok k (set_ResourceRecordSet n (status (resource l)))).
  { destruct (base_status _ _ Hb). by constructor. }
  apply statusUpdate_runs.
  { apply (base_with_status k (with_status (set_ResourceRecordSet n) l)
      (with_condition (record_created n))); [by apply base_with_status|].
    apply status_ok_set; [split; set_solver|done|done|exact Hn1]. }
  intros k' l' Hb' Hs' Hk' Hr' Hst'. apply (HQ n); [done| |done]. constructor; [|done|done].
  by apply (running_status _ l l'
    (fun st => with_condition (record_created n) (set_ResourceRecordSet n st))).
Qed.

Lemma validateRecord_runs (Q : outcome unit -> Known -> Mem -> Prop) k l :
  running k l -> synced k l ->
  VPCEndpointId (status (resource l)) <> "" -> HostedZoneId (status (resource l)) <> "" ->
  (forall k' l', dns_step AWSRoute53RecordCondition k l k' l' ->
     (the_waiting = 0 -> holds AWSRoute53RecordCondition (status (resource l'))) ->
     service k' = service k -> Q (Ok tt) k' l') ->
  runs (validateR53HostedZoneRecord resource_ptr_) Q k l.
Proof.
  intros Hr Hs Hv Hz HQ. unfold validateR53HostedZoneRecord, conditionTrue, res_status.
  cbn [is_nil]. do 2 (run_step; run_step; cbn [go_on]).
  destruct (IsStatusConditionTrue _ _ && _)%bool eqn:Hdone.
  { run_step. apply andb_true_iff in Hdone as [Hrec _].
    apply HQ; [|done|done]. constructor; [done..|apply kept_refl]. }
  do 2 run_step. cbn [go_on]. run_step.
  apply getHostedZoneCached_runs; [done|by apply Hr|].
  intros out l1 [((z & Hout & Hzc) & _) _] Hsp1 Hr1. cbn [go_on].
  eapply (runs_finds known).
  { apply generateRoute53Record_finds; [done|]. by rewrite (sp_resource _ _ Hsp1). }
  intros r [[[e ->] Hw]|[rec ->]].
  { run_step. apply HQ; [|done|done]. constructor; [done|by eapply synced_same_pass|].
    rewrite (sp_resource _ _ Hsp1). apply kept_refl. }
  rewrite Hout. do 2 run_step. cbn [deref go_on].
  apply upsertRecord_runs; [done..|]. intros n k2 l2 Hn [Hr2 Hs2 Hst2] Hk2.
  rewrite (sp_resource _ _ Hsp1) in Hst2. apply HQ;
    [|intros _; rewrite Hst2; by apply (holds_set (record_created n))|by rewrite Hk2].
  constructor; [done..|]. rewrite Hst2.
  eapply kept_trans; [|apply (kept_set (record_created n))]. by constructor.
Qed.

(** ** Associated VPCs *)

Lemma credentials_finds region ref k l :
  finds (fun _ => True) (Lookups.ParseAWSCredentialOverride region (Some ref)) k l.
Proof.
  unfold Lookups.ParseAWSCredentialOverride. find_call data Hdata. destruct Hdata as [[arn Harn]|[[i Hi] [s Hs]]].
  - rewrite Harn. eapply (finds_bind known).
    { apply finds_wrap, (finds_trigger known reply). answer. }
    intros cfg _. by apply finds_ret.
  - destruct (data !! Lookups.defaultRoleArn).
    + eapply (finds_bind known).
      { apply finds_wrap, (finds_trigger known reply). answer. }
      intros cfg _. by apply finds_ret.
    + rewrite Hi, Hs. find_step.
Qed.

(** Associating VPCs changes the reconciler only. *)
Lemma associateVpc_runs ids av k l0 l :
  running k l -> same_pass l0 l -> is_Some (CredentialsSecretRef av) ->
  runs (associateVpc ids av)
    (fun o k' l' => o = Ok tt /\ k' = k /\ running k l' /\ same_pass l0 l') k l.
Proof.
  intros Hr Hsp0 [ref Href]. pose proof Hr as [Hb [[cfg Hcfg] _ _ _ _]].
  pose proof (base_cache _ _ Hb) as Hca.
  unfold associateVpc, client, res_status. case_match; [by run_step|].
  do 2 (run_step; run_step; cbn [go_on]). rewrite Hcfg, Href.
  unfold AWSClient.CreateVPCAssociationAuthorization, AWSClient.r53.
  eapply (runs_finds known); [apply (finds_trigger known reply); answer|]. intros [] _.
  eapply (runs_finds known); [apply credentials_finds|]. intros acfg _.
  do 2 run_step. cbn [go_on]. unfold AWSClient.AssociateVPCWithHostedZone, AWSClient.r53.
  eapply (runs_finds known); [apply (finds_trigger known reply); answer|]. intros [] _.
  unfold invalidateHostedZoneCache, set_cache. do 2 run_step. cbn [go_on].
  assert (Hgo : forall l1, same_pass l l1 -> cache_ok l1 ->
    Ok tt = Ok tt /\ k = k /\ running k l1 /\ same_pass l0 l1).
  { intros l1 H1' Hc1. split_and!; [done|done| |by transitivity l]. by apply (running_same_pass k l). }
  destruct (hostedZoneCache _) as [cache|] eqn:Hcache; run_step; apply Hgo; try done.
  intros id entry. cbn in *. intros [_ Hl]%lookup_delete_Some. apply Hca. by rewrite Hcache.
Qed.

Lemma validateAuthorization_runs (Q : outcome unit -> Known -> Mem -> Prop) k l :
  running k l -> HostedZoneId (status (resource l)) <> "" ->
  (forall l', running k l' -> same_pass l l' -> Q (Ok tt) k l') ->
  runs (validateR53HostedZoneAuthorization resource_ptr_) Q k l.
Proof.
  intros Hr Hz HQ. unfold validateR53HostedZoneAuthorization, res, phz_spec. cbn [is_nil].
  do 2 run_step. cbn [go_on]. rewrite (ok_spec _ (base_object _ _ (proj1 Hr))).
  pose proof (associated_named _ the_spec_provisionable) as Hrefs.
  destruct (AssociatedVpcs _) as [|av avs]; [run_step; by apply HQ|].
  rewrite (proj2 (is_empty_false _) Hz). run_step.
  apply getHostedZoneCached_runs; [done|by apply Hr|]. intros out l1 [[_ Hvpcs] _] Hsp1 Hr1.
  cbn [go_on]. destruct (all_present id (fun _ => True) (route53Types.VPCs out)) as (ids & Hids & _).
  { eapply Forall_impl; [exact Hvpcs|]. intros x [y ->]. eauto. }
  rewrite list_fmap_id in Hids. rewrite Hids, sequence_Some. do 2 run_step. cbn [go_on].
  eapply runs_mono.
  { apply (runs_forM_ known (fun k' l' => k' = k /\ running k l' /\ same_pass l l')); [done|].
    intros av' k' l' Hav (-> & Hr' & Hsp').
    eapply runs_mono; [apply (associateVpc_runs _ _ k l); [done..|]|].
    - by eapply Forall_forall in Hrefs.
    - by intros o k1 l2 (-> & -> & ? & ?). }
  intros o k' l' (-> & -> & Hr' & Hsp'). by apply HQ.
Qed.

(** ** Service *)

(** The spec asks for a service. *)
Definition wants_service : bool :=
  negb (is_empty (Hostname (Record_ (r53phz (CustomDns the_spec)))) ||
        is_empty (ens_Name (ExternalNameService_ (Record_ (r53phz (CustomDns the_spec)))))).

Definition service_there k : Prop := wants_service = true -> is_Some (service k).

Lemma externalNameDone_runs reason (Q : outcome unit -> Known -> Mem -> Prop) k l :
  running k l ->
  (forall k' l', dns_step ExternalNameServiceCondition k l k' l' -> service k' = service k ->
     Q (Ok tt) k' l') ->
  runs (externalNameDone reason) Q k l.
Proof.
  intros Hr HQ. unfold externalNameDone. apply setCondition_update_runs; [done| |].
  { apply status_ok_set; [split; set_solver|done|done|apply Hr]. }
  intros k' l' [Hr' Hs' Hst'] Hk'. apply HQ; [|by rewrite Hk']. constructor; [done..|].
  rewrite Hst'. apply (kept_set (metav1.mkCondition ExternalNameServiceCondition _ reason "")).
Qed.

Lemma running_set_service svc k l : running k l -> running (set_service svc k) l.
Proof. intros [Hb Hp]. split; [|done]. apply (base_more k); [apply more_set_service|done|done]. Qed.

Lemma generateService_finds k l :
  ResourceRecordSet (status (resource l)) <> "" ->
  finds (fun _ => True) generateExternalNameService k l.
Proof.
  intros Hrec. unfold generateExternalNameService, res. find_step.
  rewrite (proj2 (is_empty_false _) Hrec).
  eapply (finds_weaken known); [apply (finds_trigger known reply); answer|done].
Qed.

(** Why a pass over a known object fails: the service was only just created, or there is
    no record for it to name yet. *)
Definition unfinished k k' : Prop :=
  the_waiting <> 0 /\ service k' = service k \/
  wants_service = true /\ service k = None /\ service_there k'.

Lemma validateService_runs (Q : outcome unit -> Known -> Mem -> Prop) k l :
  running k l -> synced k l ->
  (the_waiting = 0 -> holds AWSRoute53RecordCondition (status (resource l))) ->
  (forall k' l', dns_step ExternalNameServiceCondition k l k' l' -> service_there k' ->
     Q (Ok tt) k' l') ->
  (forall e k' l', dns_step ExternalNameServiceCondition k l k' l' -> unfinished k k' ->
     Q (Err e) k' l') ->
  runs (validateExternalNameService resource_ptr_) Q k l.
Proof.
  intros Hr Hs Hrec HQ Herr. pose proof Hr as [Hb _].
  assert (Hsame : dns_step ExternalNameServiceCondition k l k l)
    by (constructor; [done..|apply kept_refl]).
  unfold validateExternalNameService, res, phz_spec, externalNameServiceName, phz_spec. cbn [is_nil].
  do 2 run_step. cbn [go_on]. rewrite (ok_spec _ (base_object _ _ Hb)).
  destruct (is_empty (Hostname _) || _)%bool eqn:Hw.
  { run_step. apply HQ; [done|]. unfold service_there, wants_service. by rewrite Hw. }
  assert (Hwants : wants_service = true) by (unfold wants_service; by rewrite Hw).
  destruct (is_empty (ResourceRecordSet (status (resource l)))) eqn:Hset.
  { unfold generateExternalNameService, res. do 2 (run_step; run_step; cbn [go_on]). rewrite Hset.
    run_step. cbn [go_on]. apply Herr; [done|]. left. split; [|done].
    intros Hw0. apply is_empty_spec in Hset. revert Hset.
    by apply (ok_record _ _ (base_status _ _ Hb)), Hrec. }
  breflect. eapply (runs_finds known); [by apply generateService_finds|].
  intros svc _. do 2 run_step. apply (runs_trigger known reply). intros r k' [-> Hr'].
  destruct (service k) as [found|] eqn:Hsvc.
  - subst r. cbn [of_answer tried go_on]. case_match.
    { run_step. apply HQ; [done|]. intros _. by rewrite Hsvc. }
    do 2 run_step. apply (runs_trigger known reply). intros r k1 [-> ->]. cbn [of_answer tried go_on].
    apply externalNameDone_runs; [by apply running_set_service|]. intros k2 l2 [] Hk2.
    apply HQ; [by constructor|]. intros _. by rewrite Hk2.
  - destruct Hr' as (e & -> & He). cbn [of_answer tried go_on]. rewrite He. run_step.
    apply (runs_trigger known reply). intros r k1 [-> ->]. cbn [of_answer go_on]. run_step.
    apply externalNameDone_runs; [by apply running_set_service|]. intros k2 l2 [] Hk2. cbn [go_on].
    run_step. apply Herr; [by constructor|]. right. split_and!; [done..|]. intros _. by rewrite Hk2.
Qed.

(** ** The DNS as a whole *)

(** The ids and the conditions of group and endpoint are as before. *)
Record dns_kept (st st' : VpcEndpointStatus) : Prop := {
  dk_group : SecurityGroupId st' = SecurityGroupId st;
  dk_endpoint : VPCEndpointId st' = VPCEndpointId st;
  dk_holds t : t ∈ [AWSSecurityGroupCondition; AWSVpcEndpointCondition] ->
    holds t st -> holds t st'
}.

Lemma validateCustomDns_runs (Q : outcome unit -> Known -> Mem -> Prop) k l :
  running k l -> synced k l -> VPCEndpointId (status (resource l)) <> "" ->
  (forall k' l', running k' l' -> synced k' l' ->
     dns_kept (status (resource l)) (status (resource l')) ->
     HostedZoneId (status (resource l')) <> "" ->
     holds AWSRoute53TagsCondition (status (resource l')) ->
     (the_waiting = 0 -> holds AWSRoute53RecordCondition (status (resource l'))) ->
     service_there k' -> Q (Ok tt) k' l') ->
  (forall e k' l', running k' l' -> synced k' l' ->
     dns_kept (status (resource l)) (status (resource l')) -> unfinished k k' ->
     Q (Err e) k' l') ->
  runs (validateCustomDns resource_ptr_) Q k l.
Proof.
  intros Hr Hs Hv HQ Herr. unfold validateCustomDns, res. do 2 (run_step; run_step; cbn [go_on]).
  rewrite (private_dns_off k l (proj1 Hr)). unfold validateResources. cbn [forM_].
  run_step. apply validateZone_runs; [done..|]. intros k1 l1 [Hr1 Hs1 Hk1] Hz1 Ht1 Hsvc1. cbn [go_on].
  run_step. apply validateRecord_runs; [done..| |done|].
  { by rewrite (kept_endpoint _ _ _ Hk1). }
  intros k2 l2 [Hr2 Hs2 Hk2] Hrec2 Hsvc2. cbn [go_on].
  run_step. apply validateAuthorization_runs; [done|by apply Hk2|]. intros l3 Hr3 Hsp3. cbn [go_on].
  assert (Hres : resource l3 = resource l2) by apply Hsp3.
  assert (Hall : forall st', kept ExternalNameServiceCondition (status (resource l3)) st' ->
    dns_kept (status (resource l)) st' /\ HostedZoneId st' <> "" /\
    holds AWSRoute53TagsCondition st' /\
    (the_waiting = 0 -> holds AWSRoute53RecordCondition st')).
  { rewrite Hres. intros st' [Hg Hv' Hz' Hh]. destruct Hk1, Hk2. split_and!.
    - constructor; [congruence..|]. intros t Ht ?.
      repeat (apply elem_of_cons in Ht as [->|Ht]); [eauto..|by apply elem_of_nil in Ht].
    - eauto.
    - apply Hh; [done|]. eauto.
    - intros Hw. by apply Hh, Hrec2. }
  run_step. apply validateService_runs; [done|by eapply synced_same_pass|by rewrite Hres| |].
  - intros k4 l4 [Hr4 Hs4 Hk4] Hsvc4. cbn [go_on]. run_step.
    destruct (Hall _ Hk4) as (? & ? & ? & ?). by apply HQ.
  - intros e k4 l4 [Hr4 Hs4 Hk4] Hun. cbn [go_on].
    destruct (Hall _ Hk4) as (? & ? & ? & ?). apply Herr; try done.
    unfold unfinished in *. by rewrite Hsvc2, Hsvc1 in Hun.
Qed.

End dns.
End CreationDns.
