(* ===== verification/CreationSpec.v ===== *)
(** * Creation completes

    Deletion ends with one pass that releases the object (LivenessSpec.v).  Creation
    takes more: a pass that creates the security group, or the service, ends with an
    error so that the next one goes on from there.  In a world that provides
    (Provision.v), two such passes are enough, and those until the endpoint is accepted:
    from then on, every pass ends with an object that is ready. *)
From S2P Require Import Prelude GoError Naming Types Calls GoMonad AwsClient Lookups.
From S2P Require Import Rules Controller Helpers HostedZones Validation Cleanup Reconcile.
From S2P Require Import AwsSpec HostedZoneSpec InvariantSpec SteadySpec SafetySpec Provision.
From S2P Require Import ProvisionSim Creation CreationEndpoint CreationDns.
Import avov1alpha2 Naming Helpers HostedZones Validation Reconcile.

Module CreationSpec.
Import SafetySpec Provision Creation CreationEndpoint CreationDns.

Section pass.
Context {W : Type} `{World W} `{K8sHelpersLaws} `{!Provides W} `{!Subject} `{!Waiting}.
Abbreviation runs := (runs (W:=W) (L:=Mem) known).
Abbreviation finds := (finds (W:=W) (L:=Mem) known).
Implicit Types (k : Known) (l : Mem).

(** ** The facts about the cluster *)
















(** ** A pass *)

























End pass.

Section passes.
Context {W : Type} `{World W} `{K8sHelpersLaws} `{!Provides W} `{!Subject}.
Abbreviation runs := (runs (W:=W) (L:=Mem) known).
Implicit Types (k : Known) (l : Mem).




(** A pass over the object, after [n] others whose results do not matter: the queue
    delivers the object again. *)
Fixpoint after_passes (n : nat) : M W Mem Result :=
  match n with
  | O => Reconcile the_namespace the_name
  | S n => (try (Reconcile the_namespace the_name);; after_passes n)%go
  end.




End passes.

#[local] Existing Instances ProvisionSim.world ProvisionSim.provides K8sRef.helpers
  K8sRef.helpers_laws.

Lemma new_provisionable : provisionable ProvisionSim.sp.
Proof. by constructor; try done; [left|right; right; left|left]. Qed.

#[local] Instance new_subject : Subject := {|
  the_namespace := "ns"; the_name := "example"; the_spec := ProvisionSim.sp; the_flag := false;
  the_spec_provisionable := new_provisionable; the_dns := eq_refl
|}.




(** What the passes over a new object end with: the group; the endpoint, which has to wait
    and so has no record for the service to name; the record and the service; and then
    nothing is left. *)
Definition no_record_yet : outcome Result :=
  Err (EOpaque ("cannot generate ExternalName service for ns/example: "
         +:+ ".status.resourceRecordSet is empty")).

Example passes_example :
  (fun n => fst (after_passes n ProvisionSim.state)) <$> seq 0 6 =
  [ Err (EOpaque "initial security group creation, reconciling again to configure");
    no_record_yet; no_record_yet; Err (EOpaque "requeue to validate service");
    Ok (mkResult (15 * Minute)); Ok (mkResult (15 * Minute)) ].
Proof. vm_compute. reflexivity. Qed.

End CreationSpec.
