(* ===== verification/Json.v ===== *)
(** * JSON, the rules of a CRD and Go's encoding

    What the API server checks is JSON, not a Go value.  This file has the JSON values
    of a spec, a fragment of CEL (the language of [XValidation] markers), structural
    schemas, and [GoType]: how [encoding/json] writes a Go type and reads it back.
    Admission.v instantiates all of it for [api/v1alpha2].

    A spec has no floating point numbers, and the API server removes nulls and unknown
    fields before it validates, so a [json] has neither.  The keys of an object are
    distinct. *)
From S2P Require Import Prelude.

#[local] Unset Elimination Schemes.

Inductive json :=
| JBool (b : bool)
| JNum (z : Z)
| JStr (s : string)
| JArr (items : list json)
| JObj (fields : list (string * json)).

Fixpoint field (k : string) (kvs : list (string * json)) : option json :=
  match kvs with
  | [] => None
  | (k', v) :: kvs' => if String.eqb k k' then Some v else field k kvs'
  end.

Definition member (k : string) (j : json) : option json :=
  match j with JObj kvs => field k kvs | _ => None end.

(** An object of the fields that are present. *)
Definition obj (fs : list (string * option json)) : json :=
  JObj (omap (fun f => (f.1,.) <$> f.2) fs).

(** The field [k] of [obj fs], to evaluate by [cbn]. *)
Fixpoint pick (k : string) (fs : list (string * option json)) : option json :=
  match fs with
  | [] => None
  | (k', o) :: fs' =>
      if String.eqb k k' then match o with Some v => Some v | None => pick k fs' end
      else pick k fs'
  end.

Lemma member_obj k fs : member k (obj fs) = pick k fs.
Proof.
  cbn. induction fs as [|[k' [v|]] fs IH]; cbn; [done| |].
  - by destruct (String.eqb k k').
  - by destruct (String.eqb k k').
Qed.

(** ** CEL

    A value is a JSON value; [None] is a runtime error.  Selecting a field that is
    absent is an error.  [&&] and [||] are commutative in errors: an operand that
    decides the result hides the error of the other. *)
Inductive cel :=
| Self
| Sel (e : cel) (f : string)
| Has (e : cel) (f : string)
| Size (e : cel)
| StrLit (s : string)
| IntLit (z : Z)
| Equal (a b : cel)
| Greater (a b : cel)
| Not (a : cel)
| And (a b : cel)
| Or (a b : cel).

Definition cel_and (a b : option json) : option json :=
  match a, b with
  | Some (JBool false), _ | _, Some (JBool false) => Some (JBool false)
  | Some (JBool true), Some (JBool true) => Some (JBool true)
  | _, _ => None
  end.

Definition cel_or (a b : option json) : option json :=
  match a, b with
  | Some (JBool true), _ | _, Some (JBool true) => Some (JBool true)
  | Some (JBool false), Some (JBool false) => Some (JBool false)
  | _, _ => None
  end.

Definition cel_not (a : option json) : option json :=
  match a with Some (JBool b) => Some (JBool (negb b)) | _ => None end.

Fixpoint eval (self : json) (e : cel) : option json :=
  match e with
  | Self => Some self
  | Sel e' f => v ← eval self e'; member f v
  | Has e' f =>
      match eval self e' with
      | Some (JObj kvs) => Some (JBool (bool_decide (is_Some (field f kvs))))
      | _ => None
      end
  | Size e' =>
      match eval self e' with
      | Some (JArr l) => Some (JNum (Z.of_nat (length l)))
      | _ => None
      end
  | StrLit s => Some (JStr s)
  | IntLit z => Some (JNum z)
  | Equal a b =>
      match eval self a, eval self b with
      | Some (JStr x), Some (JStr y) => Some (JBool (String.eqb x y))
      | _, _ => None
      end
  | Greater a b =>
      match eval self a, eval self b with
      | Some (JNum x), Some (JNum y) => Some (JBool (Z.ltb y x))
      | _, _ => None
      end
  | Not a => cel_not (eval self a)
  | And a b => cel_and (eval self a) (eval self b)
  | Or a b => cel_or (eval self a) (eval self b)
  end.

(** A rule admits a value when it evaluates to true; an error rejects the value. *)
Definition holds (self : json) (rule : cel) : bool :=
  match eval self rule with Some (JBool true) => true | _ => false end.

Lemma holds_not self a : holds self (Not a) = true <-> eval self a = Some (JBool false).
Proof.
  unfold holds. cbn. unfold cel_not. by destruct (eval self a) as [[[]| | | |]|].
Qed.

Lemma holds_not_eval self a :
  holds self (Not a) = match eval self a with Some (JBool b) => negb b | _ => false end.
Proof. unfold holds. cbn. unfold cel_not. by destruct (eval self a) as [[[]| | | |]|]. Qed.

Lemma cel_and_false a b :
  cel_and a b = Some (JBool false) <-> a = Some (JBool false) \/ b = Some (JBool false).
Proof.
  destruct a as [[[]| | | |]|], b as [[[]| | | |]|]; cbn; naive_solver.
Qed.

Lemma cel_or_true a b :
  cel_or a b = Some (JBool true) <-> a = Some (JBool true) \/ b = Some (JBool true).
Proof.
  destruct a as [[[]| | | |]|], b as [[[]| | | |]|]; cbn; naive_solver.
Qed.

(** ** Structural schemas *)

(** [TCidr] is a string of the format cidr, [TEnum] one of a list. *)
Inductive schema :=
| TString
| TCidr
| TEnum (values : list string)
| TInt32
| TBool
| TArray (items : schema)
| TObject (properties : list (string * bool * schema)) (rules : list cel).

(** A property and whether it is required. *)
Definition optional (k : string) (s : schema) : string * bool * schema := (k, false, s).
Definition required (k : string) (s : schema) : string * bool * schema := (k, true, s).

(** The formats are checked by a library of the API server. *)
Class Formats := isCidr : string -> bool.

Definition int32_ok (z : Z) : bool :=
  bool_decide (-2147483648 <= z < 2147483648)%Z.

Fixpoint validate `{Formats} (s : schema) (j : json) : bool :=
  match s, j with
  | TString, JStr _ => true
  | TCidr, JStr x => isCidr x
  | TEnum values, JStr x => bool_decide (x ∈ values)
  | TInt32, JNum z => int32_ok z
  | TBool, JBool _ => true
  | TArray items, JArr l => forallb (validate items) l
  | TObject properties rules, JObj _ =>
      (forallb (fun p => match p with (k, req, s') =>
                   match member k j with
                   | None => negb req
                   | Some v => validate s' v
                   end end) properties
       && forallb (holds j) rules)%bool
  | _, _ => false
  end.

#[local] Set Elimination Schemes.

(** ** [encoding/json]

    [isEmpty] is the emptiness of [omitempty], which no struct has.  [wf] holds of the
    values a Go variable of the type can have ([int32]s are [Z] in the model), and
    [decode] fails where [json.Unmarshal] returns an error. *)
Class GoType (A : Type) := {
  zero : A;
  isEmpty : A -> bool;
  wf : A -> Prop;
  encode : A -> json;
  decode : json -> option A;
  wf_zero : wf zero;
  isEmpty_zero : forall a, isEmpty a = true -> a = zero;
  decode_encode : forall a, wf a -> decode (encode a) = Some a
}.

(** A field of a struct, without and with [omitempty]. *)
Definition plain {A} `{GoType A} (a : A) : option json := Some (encode a).
Definition omitempty {A} `{GoType A} (a : A) : option json :=
  if isEmpty a then None else Some (encode a).

(** The field [k] of the struct that is read from [j]: an absent field keeps its zero
    value. *)
Definition decodeField {A} `{GoType A} (k : string) (j : json) : option A :=
  match member k j with None => Some zero | Some v => decode v end.

Lemma decode_plain {A} `{GoType A} (a : A) k fs :
  wf a -> pick k fs = plain a -> decodeField k (obj fs) = Some a.
Proof.
  intros Hwf Hp. unfold decodeField. rewrite member_obj, Hp. by apply decode_encode.
Qed.

Lemma decode_omitempty {A} `{GoType A} (a : A) k fs :
  wf a -> pick k fs = omitempty a -> decodeField k (obj fs) = Some a.
Proof.
  intros Hwf Hp. unfold decodeField. rewrite member_obj, Hp. unfold omitempty.
  destruct (isEmpty a) eqn:He; [|by apply decode_encode].
  f_equal. symmetry. by apply isEmpty_zero.
Qed.

Definition always {A} (_ : A) : Prop := True.

#[export] Instance GoType_string : GoType string.
Proof.
  refine {| zero := ""; isEmpty := Prelude.is_empty; wf := always; encode := JStr;
    decode := fun j => match j with JStr s => Some s | _ => None end |}.
  - done.
  - intros a. apply is_empty_spec.
  - done.
Defined.

#[export] Instance GoType_bool : GoType bool.
Proof.
  refine {| zero := false; isEmpty := negb; wf := always; encode := JBool;
    decode := fun j => match j with JBool b => Some b | _ => None end |}.
  - done.
  - by intros [].
  - done.
Defined.

(** [int32]. *)
#[export] Instance GoType_int32 : GoType Z.
Proof.
  refine {| zero := 0%Z; isEmpty := Z.eqb 0; wf := fun z => int32_ok z = true;
    encode := JNum;
    decode := fun j => match j with
                       | JNum z => if int32_ok z then Some z else None
                       | _ => None
                       end |}.
  - done.
  - by intros a <-%Z.eqb_eq.
  - by intros a ->.
Defined.

Lemma mapM_encode {A} `{GoType A} (l : list A) :
  Forall wf l -> mapM decode (encode <$> l) = Some l.
Proof.
  induction 1 as [|a l Ha Hl IH]; [done|]. csimpl. rewrite decode_encode by done.
  change (mapM decode (encode <$> l) ≫= (λ k, mret (a :: k)) = Some (a :: l)). by rewrite IH.
Qed.

#[export] Instance GoType_slice {A} `{GoType A} : GoType (list A).
Proof.
  refine {| zero := []; isEmpty := fun l => match l with [] => true | _ => false end;
    wf := Forall wf; encode := fun l => JArr (encode <$> l);
    decode := fun j => match j with JArr l => mapM decode l | _ => None end |}.
  - constructor.
  - by intros [].
  - exact mapM_encode.
Defined.

(** A pointer field.  A nil pointer is left out by [omitempty]; without it, it is
    written as a null, which the API server removes. *)
Definition pointer {A} `{GoType A} (p : option A) : option json := encode <$> p.

Definition decodePointer {A} `{GoType A} (k : string) (j : json) : option (option A) :=
  match member k j with None => Some None | Some v => Some <$> decode v end.

Definition wf_pointer {A} `{GoType A} (p : option A) : Prop := from_option wf True p.

Lemma decode_pointer {A} `{GoType A} (p : option A) k fs :
  wf_pointer p -> pick k fs = pointer p -> decodePointer k (obj fs) = Some p.
Proof.
  intros Hwf Hp. unfold decodePointer. rewrite member_obj, Hp.
  destruct p as [a|]; [|done]. cbn. by rewrite decode_encode.
Qed.

(** What [pick] computes to when the key is found. *)
Lemma option_eta {A} (o : option A) : match o with Some v => Some v | None => None end = o.
Proof. by destruct o. Qed.

(** A struct: [omitempty] never leaves it out, and only an object can be read into it. *)
Definition struct {A} (z : A) (w : A -> Prop) (fs : A -> list (string * option json))
    (dec : json -> option A) (Hz : w z)
    (Hdec : forall a, w a -> dec (obj (fs a)) = Some a) : GoType A :=
  {| zero := z; isEmpty := fun _ => false; wf := w; encode := fun a => obj (fs a);
     decode := fun j => match j with JObj _ => dec j | _ => None end;
     wf_zero := Hz; isEmpty_zero := fun _ H => False_ind _ (diff_false_true H);
     decode_encode := Hdec |}.

Ltac pick_solve := cbn [pick String.eqb Ascii.eqb Bool.eqb]; first [done|apply option_eta].

Ltac wf_solve :=
  first [done | assumption | by apply Forall_true
    | match goal with |- wf_pointer ?p => by destruct p end].

(** Reads back, one by one, the fields of a struct that was written. *)
Ltac decode_fields :=
  repeat match goal with
  | |- context [@decodeField ?A ?H ?k ?j] =>
      let Hf := fresh in
      eassert (Hf : @decodeField A H k j = Some _);
      [ first [eapply decode_plain; [|solve [pick_solve]]
              |eapply decode_omitempty; [|solve [pick_solve]]]; wf_solve
      | rewrite Hf; clear Hf; cbn [mbind option_bind] ]
  | |- context [@decodePointer ?A ?H ?k ?j] =>
      let Hf := fresh in
      eassert (Hf : @decodePointer A H k j = Some _);
      [ eapply decode_pointer; [|solve [pick_solve]]; wf_solve
      | rewrite Hf; clear Hf; cbn [mbind option_bind] ]
  end.

(** ** Schemas of structs *)

(** The check of one property. *)
Definition check `{Formats} (s : schema) (req : bool) (o : option json) : bool :=
  match o with None => negb req | Some v => validate s v end.

Lemma validate_obj `{Formats} ps rules fs :
  validate (TObject ps rules) (obj fs) =
  (forallb (fun p => check p.2 p.1.2 (pick p.1.1 fs)) ps && forallb (holds (obj fs)) rules)%bool.
Proof.
  unfold obj at 1. cbn [validate]. f_equal. induction ps as [|[[k req] s] ps IH]; cbn [forallb]; [done|].
  rewrite IH. f_equal. cbn [fst snd]. by rewrite <- member_obj.
Qed.

Lemma eval_and self a b : eval self (And a b) = cel_and (eval self a) (eval self b).
Proof. done. Qed.

Lemma eval_or self a b : eval self (Or a b) = cel_or (eval self a) (eval self b).
Proof. done. Qed.

Lemma eval_has self e f fs :
  eval self e = Some (obj fs) ->
  eval self (Has e f) = Some (JBool (bool_decide (is_Some (pick f fs)))).
Proof. intros He. cbn. rewrite He. unfold obj. by rewrite <- member_obj. Qed.

Lemma eval_sel self e f fs :
  eval self e = Some (obj fs) -> eval self (Sel e f) = pick f fs.
Proof. intros He. cbn [eval]. rewrite He. apply member_obj. Qed.

Lemma is_Some_omitempty {A} `{GoType A} (a : A) :
  bool_decide (is_Some (omitempty a)) = negb (isEmpty a).
Proof.
  unfold omitempty. destruct (isEmpty a); [|by rewrite bool_decide_true].
  rewrite bool_decide_false; [done|]. by intros [].
Qed.

Lemma is_Some_pointer {A} `{GoType A} (p : option A) :
  bool_decide (is_Some (pointer p)) = bool_decide (is_Some p).
Proof. apply bool_decide_ext. unfold pointer. by rewrite fmap_is_Some. Qed.

(** [Checked A s ok sane]: the schema [s] accepts what is written for an [a : A] just
    when [ok a], and what it accepts can be read as an [a] with [sane a]. *)
Class Checked (A : Type) `{GoType A} `{Formats} (s : schema) (ok sane : A -> bool) := {
  checked_encode : forall a, wf a -> validate s (encode a) = ok a;
  checked_decode : forall j, validate s j = true ->
    exists a, decode j = Some a /\ wf a /\ sane a = true
}.

Lemma decodeField_absent {A} `{GoType A} k j (a : A) :
  member k j = None -> decodeField k j = Some a -> a = zero.
Proof. unfold decodeField. by intros -> [= <-]. Qed.

Definition free {A} (_ : A) : bool := true.

Section checked.
Context `{Formats}.

#[export] Instance checked_string : Checked string TString free free.
Proof. split; [done|]. intros []; try done. intros _. by eexists. Qed.

#[export] Instance checked_bool : Checked bool TBool free free.
Proof. split; [done|]. intros []; try done. intros _. by eexists. Qed.

#[export] Instance checked_int32 : Checked Z TInt32 free free.
Proof.
  split; [by intros a Ha|]. intros []; try done. cbn. intros Hz. exists z. by rewrite Hz.
Qed.

#[export] Instance checked_cidr : Checked string TCidr isCidr isCidr.
Proof. split; [done|]. intros []; try done. cbn. intros Hs. by exists s. Qed.

#[export] Instance checked_enum vs :
  Checked string (TEnum vs) (fun s => bool_decide (s ∈ vs)) (fun s => bool_decide (s ∈ vs)).
Proof. split; [done|]. intros []; try done. cbn -[bool_decide]. intros Hs. by exists s. Qed.

#[export] Instance checked_slice {A} `{GoType A} s ok sane :
  Checked A s ok sane -> Checked (list A) (TArray s) (forallb ok) (forallb sane).
Proof.
  intros Hc. split.
  - intros l Hl. cbn. induction Hl as [|a l Ha Hl IH]; csimpl; [done|].
    by rewrite checked_encode, IH.
  - intros []; try done. cbn. induction items as [|j l IH]; csimpl.
    { intros _. by exists []. }
    intros [Hj Hl]%andb_true_iff. destruct (checked_decode j Hj) as (a & Ha & Hwf & Hs).
    destruct (IH Hl) as (l' & Hl' & Hwf' & Hs'). exists (a :: l'). csimpl.
    rewrite Ha. change (mapM decode l ≫= (λ k, mret (a :: k)) = Some (a :: l') /\
      wf (a :: l') /\ (sane a && forallb sane l')%bool = true).
    rewrite Hl', Hs, Hs'. split_and!; [done|by constructor|done].
Qed.

Context {A : Type} `{GoType A} {s : schema} {ok sane : A -> bool} `{!Checked A s ok sane}.

Lemma check_plain req a : wf a -> check s req (plain a) = ok a.
Proof. apply checked_encode. Qed.

Lemma check_omitempty a : wf a -> check s false (omitempty a) = (isEmpty a || ok a)%bool.
Proof.
  intros Ha. unfold omitempty. destruct (isEmpty a); [done|]. cbn [check orb].
  by apply checked_encode.
Qed.

Lemma check_pointer req p :
  wf_pointer p -> check s req (pointer p) = from_option ok (negb req) p.
Proof. destruct p as [a|]; [|done]. exact (checked_encode a). Qed.

Lemma checked_field k req j :
  check s req (member k j) = true ->
  exists a, decodeField k j = Some a /\ wf a /\
    (sane a = true \/ req = false /\ a = zero).
Proof.
  unfold decodeField. destruct (member k j) as [v|]; cbn.
  - intros (a & Ha & Hwf & Hs)%checked_decode. exists a. auto.
  - intros Hr%negb_true_iff. exists zero. split_and!; [done|apply wf_zero|auto].
Qed.

Lemma checked_pointer k req j :
  check s req (member k j) = true ->
  exists p, decodePointer k j = Some p /\ wf_pointer p /\
    from_option sane (negb req) p = true.
Proof.
  unfold decodePointer. destruct (member k j) as [v|]; cbn.
  - intros (a & Ha & Hwf & Hs)%checked_decode. exists (Some a). by rewrite Ha.
  - intros Hr. by exists None.
Qed.

Lemma forallb_free (l : list A) : forallb free l = true.
Proof. by induction l. Qed.

Lemma isEmpty_forallb (p : A -> bool) (l : list A) :
  (isEmpty l || forallb p l)%bool = forallb p l.
Proof. by destruct l. Qed.

Lemma from_option_free (p : option A) : from_option free true p = true.
Proof. by destruct p. Qed.

Lemma validate_inv ps rules j :
  validate (TObject ps rules) j = true ->
  (exists kvs, j = JObj kvs) /\
  Forall (fun p => check p.2 p.1.2 (member p.1.1 j) = true) ps /\
  Forall (fun r => holds j r = true) rules.
Proof.
  destruct j; try done. cbn [validate]. intros [Hps Hrs]%andb_true_iff.
  split_and!; [by eexists| |apply Forall_forall; intros r Hr;
    by apply (proj1 (forallb_forall _ _) Hrs), list_elem_of_In].
  revert Hps. induction ps as [|[[k req] s'] ps IH]; cbn [forallb]; [constructor|].
  intros [Hp Hps]%andb_true_iff. constructor; [exact Hp|by apply IH].
Qed.

End checked.
