(* ===== verification/Admission.v ===== *)
(** * Admission of VpcEndpoints and templates: the markers of [api/v1alpha2]

    [api/v1alpha2/vpcendpoint_types.go] declares more than Go types.  The json tags say
    how a spec is written; the kubebuilder markers become the schema of the CRD, with
    rules in CEL, by which the API server decides whether it stores an object.  The
    instances of [GoType] follow the tags, the schemas the markers, and
    [enforced] is what an API server with that schema answers to the controllers. *)
From S2P Require Import Prelude GoError Naming Types Calls GoMonad Yields Json.
Import avov1alpha2.

Module Admission.

(** ** The json tags

    The fields of a struct with their tags, and the struct that is read back. *)

Create HintDb structs.

Ltac struct_decodes :=
  intros a Ha; destruct a; autounfold with structs in *; cbn in Ha;
  repeat match goal with H : _ /\ _ |- _ => destruct H end;
  cbn -[decodeField decodePointer obj];
  decode_fields; reflexivity.

Definition SecretReference_fields (a : SecretReference) : list (string * option json) :=
  [("name", omitempty (secret_Name a)); ("namespace", omitempty (secret_Namespace a))].

Definition decode_SecretReference (j : json) : option SecretReference :=
  x1 ← decodeField "name" j;
  x2 ← decodeField "namespace" j;
  Some (mkSecretReference x1 x2).

#[export] Hint Unfold always SecretReference_fields decode_SecretReference : structs.
#[export] Instance GoType_SecretReference : GoType SecretReference.
Proof.
  refine (struct (mkSecretReference "" "") always
    SecretReference_fields decode_SecretReference _ _); [by repeat constructor|].
  struct_decodes.
Defined.

Definition SecurityGroupRule_fields (a : SecurityGroupRule) : list (string * option json) :=
  [("cidrIp", omitempty (CidrIp a)); ("fromPort", omitempty (FromPort a));
   ("toPort", omitempty (ToPort a)); ("protocol", omitempty (Protocol a))].

Definition decode_SecurityGroupRule (j : json) : option SecurityGroupRule :=
  x1 ← decodeField "cidrIp" j;
  x2 ← decodeField "fromPort" j;
  x3 ← decodeField "toPort" j;
  x4 ← decodeField "protocol" j;
  Some (mkSecurityGroupRule x1 x2 x3 x4).

Definition wf_SecurityGroupRule (a : SecurityGroupRule) : Prop := wf (FromPort a) /\ wf (ToPort a).

#[export] Hint Unfold always SecurityGroupRule_fields decode_SecurityGroupRule wf_SecurityGroupRule : structs.
#[export] Instance GoType_SecurityGroupRule : GoType SecurityGroupRule.
Proof.
  refine (struct (mkSecurityGroupRule "" 0 0 "") wf_SecurityGroupRule
    SecurityGroupRule_fields decode_SecurityGroupRule _ _); [by repeat constructor|].
  struct_decodes.
Defined.

Definition SecurityGroup_fields (a : SecurityGroup) : list (string * option json) :=
  [("ingressRules", omitempty (IngressRules a));
   ("egressRules", omitempty (EgressRules a)); ("useVpcCidr", omitempty (UseVpcCidr a))].

Definition decode_SecurityGroup (j : json) : option SecurityGroup :=
  x1 ← decodeField "ingressRules" j;
  x2 ← decodeField "egressRules" j;
  x3 ← decodeField "useVpcCidr" j;
  Some (mkSecurityGroup x1 x2 x3).

Definition wf_SecurityGroup (a : SecurityGroup) : Prop := wf (IngressRules a) /\ wf (EgressRules a).

#[export] Hint Unfold always SecurityGroup_fields decode_SecurityGroup wf_SecurityGroup : structs.
#[export] Instance GoType_SecurityGroup : GoType SecurityGroup.
Proof.
  refine (struct (mkSecurityGroup [] [] false) wf_SecurityGroup
    SecurityGroup_fields decode_SecurityGroup _ _); [by repeat constructor|].
  struct_decodes.
Defined.

Definition Tag_fields (a : Tag) : list (string * option json) :=
  [("key", plain (Key a)); ("value", plain (Value a))].

Definition decode_Tag (j : json) : option Tag :=
  x1 ← decodeField "key" j;
  x2 ← decodeField "value" j;
  Some (mkTag x1 x2).

#[export] Hint Unfold always Tag_fields decode_Tag : structs.
#[export] Instance GoType_Tag : GoType Tag.
Proof.
  refine (struct (mkTag "" "") always
    Tag_fields decode_Tag _ _); [by repeat constructor|].
  struct_decodes.
Defined.

Definition Vpc_fields (a : Vpc) : list (string * option json) :=
  [("autoDiscoverSubnets", omitempty (AutoDiscoverSubnets a));
   ("subnetIds", omitempty (SubnetIds a)); ("ids", omitempty (Ids a));
   ("tags", omitempty (Tags a)); ("subnetTags", omitempty (SubnetTags a))].

Definition decode_Vpc (j : json) : option Vpc :=
  x1 ← decodeField "autoDiscoverSubnets" j;
  x2 ← decodeField "subnetIds" j;
  x3 ← decodeField "ids" j;
  x4 ← decodeField "tags" j;
  x5 ← decodeField "subnetTags" j;
  Some (mkVpc x1 x2 x3 x4 x5).

#[export] Hint Unfold always Vpc_fields decode_Vpc : structs.
#[export] Instance GoType_Vpc : GoType Vpc.
Proof.
  refine (struct (mkVpc false [] [] [] []) always
    Vpc_fields decode_Vpc _ _); [by repeat constructor|].
  struct_decodes.
Defined.

Definition ExternalNameService_fields (a : ExternalNameService) : list (string * option json) :=
  [("name", plain (ens_Name a))].

Definition decode_ExternalNameService (j : json) : option ExternalNameService :=
  x1 ← decodeField "name" j;
  Some (mkExternalNameService x1).

#[export] Hint Unfold always ExternalNameService_fields decode_ExternalNameService : structs.
#[export] Instance GoType_ExternalNameService : GoType ExternalNameService.
Proof.
  refine (struct (mkExternalNameService "") always
    ExternalNameService_fields decode_ExternalNameService _ _); [by repeat constructor|].
  struct_decodes.
Defined.

Definition Route53HostedZoneRecord_fields (a : Route53HostedZoneRecord) : list (string * option json) :=
  [("hostname", plain (Hostname a));
   ("externalNameService", omitempty (ExternalNameService_ a))].

Definition decode_Route53HostedZoneRecord (j : json) : option Route53HostedZoneRecord :=
  x1 ← decodeField "hostname" j;
  x2 ← decodeField "externalNameService" j;
  Some (mkRoute53HostedZoneRecord x1 x2).

#[export] Hint Unfold always Route53HostedZoneRecord_fields decode_Route53HostedZoneRecord : structs.
#[export] Instance GoType_Route53HostedZoneRecord : GoType Route53HostedZoneRecord.
Proof.
  refine (struct (mkRoute53HostedZoneRecord "" zero) always
    Route53HostedZoneRecord_fields decode_Route53HostedZoneRecord _ _); [by repeat constructor|].
  struct_decodes.
Defined.

Definition DnsSelector_fields (a : DnsSelector) : list (string * option json) :=
  [("name", plain (dns_Name a))].

Definition decode_DnsSelector (j : json) : option DnsSelector :=
  x1 ← decodeField "name" j;
  Some (mkDnsSelector x1).

#[export] Hint Unfold always DnsSelector_fields decode_DnsSelector : structs.
#[export] Instance GoType_DnsSelector : GoType DnsSelector.
Proof.
  refine (struct (mkDnsSelector "") always
    DnsSelector_fields decode_DnsSelector _ _); [by repeat constructor|].
  struct_decodes.
Defined.

Definition ObjectFieldSelector_fields (a : ObjectFieldSelector) : list (string * option json) :=
  [("fieldPath", plain (FieldPath a))].

Definition decode_ObjectFieldSelector (j : json) : option ObjectFieldSelector :=
  x1 ← decodeField "fieldPath" j;
  Some (mkObjectFieldSelector x1).

#[export] Hint Unfold always ObjectFieldSelector_fields decode_ObjectFieldSelector : structs.
#[export] Instance GoType_ObjectFieldSelector : GoType ObjectFieldSelector.
Proof.
  refine (struct (mkObjectFieldSelector "") always
    ObjectFieldSelector_fields decode_ObjectFieldSelector _ _); [by repeat constructor|].
  struct_decodes.
Defined.

Definition HostedControlPlaneSelector_fields (a : HostedControlPlaneSelector) : list (string * option json) :=
  [("namespaceFieldRef", pointer (NamespaceFieldRef a))].

Definition decode_HostedControlPlaneSelector (j : json) : option HostedControlPlaneSelector :=
  x1 ← decodePointer "namespaceFieldRef" j;
  Some (mkHostedControlPlaneSelector x1).

#[export] Hint Unfold always HostedControlPlaneSelector_fields decode_HostedControlPlaneSelector : structs.
#[export] Instance GoType_HostedControlPlaneSelector : GoType HostedControlPlaneSelector.
Proof.
  refine (struct (mkHostedControlPlaneSelector None) always
    HostedControlPlaneSelector_fields decode_HostedControlPlaneSelector _ _); [by repeat constructor|].
  struct_decodes.
Defined.

Definition DomainNameSource_fields (a : DomainNameSource) : list (string * option json) :=
  [("dnsRef", pointer (DnsRef a));
   ("hostedControlPlaneRef", pointer (HostedControlPlaneRef a))].

Definition decode_DomainNameSource (j : json) : option DomainNameSource :=
  x1 ← decodePointer "dnsRef" j;
  x2 ← decodePointer "hostedControlPlaneRef" j;
  Some (mkDomainNameSource x1 x2).

#[export] Hint Unfold always DomainNameSource_fields decode_DomainNameSource : structs.
#[export] Instance GoType_DomainNameSource : GoType DomainNameSource.
Proof.
  refine (struct (mkDomainNameSource None None) always
    DomainNameSource_fields decode_DomainNameSource _ _); [by repeat constructor|].
  struct_decodes.
Defined.

Definition DomainNameT_fields (a : DomainNameT) : list (string * option json) :=
  [("name", omitempty (dn_Name a)); ("valueFrom", pointer (dn_ValueFrom a))].

Definition decode_DomainNameT (j : json) : option DomainNameT :=
  x1 ← decodeField "name" j;
  x2 ← decodePointer "valueFrom" j;
  Some (mkDomainName x1 x2).

#[export] Hint Unfold always DomainNameT_fields decode_DomainNameT : structs.
#[export] Instance GoType_DomainNameT : GoType DomainNameT.
Proof.
  refine (struct (mkDomainName "" None) always
    DomainNameT_fields decode_DomainNameT _ _); [by repeat constructor|].
  struct_decodes.
Defined.

Definition AssociatedVpc_fields (a : AssociatedVpc) : list (string * option json) :=
  [("credentialsSecretRef", pointer (CredentialsSecretRef a));
   ("vpcId", plain (av_VpcId a)); ("region", plain (av_Region a))].

Definition decode_AssociatedVpc (j : json) : option AssociatedVpc :=
  x1 ← decodePointer "credentialsSecretRef" j;
  x2 ← decodeField "vpcId" j;
  x3 ← decodeField "region" j;
  Some (mkAssociatedVpc x1 x2 x3).

#[export] Hint Unfold always AssociatedVpc_fields decode_AssociatedVpc : structs.
#[export] Instance GoType_AssociatedVpc : GoType AssociatedVpc.
Proof.
  refine (struct (mkAssociatedVpc None "" "") always
    AssociatedVpc_fields decode_AssociatedVpc _ _); [by repeat constructor|].
  struct_decodes.
Defined.

Definition Route53PrivateHostedZone_fields (a : Route53PrivateHostedZone) : list (string * option json) :=
  [("autoDiscoverPrivateHostedZone", omitempty (AutoDiscover a));
   ("associatedVpcs", omitempty (AssociatedVpcs a));
   ("domainName", omitempty (DomainName a)); ("domainNameRef", pointer (DomainNameRef a));
   ("id", omitempty (Id a)); ("record", omitempty (Record_ a))].

Definition decode_Route53PrivateHostedZone (j : json) : option Route53PrivateHostedZone :=
  x1 ← decodeField "autoDiscoverPrivateHostedZone" j;
  x2 ← decodeField "associatedVpcs" j;
  x3 ← decodeField "domainName" j;
  x4 ← decodePointer "domainNameRef" j;
  x5 ← decodeField "id" j;
  x6 ← decodeField "record" j;
  Some (mkRoute53PrivateHostedZone x1 x2 x3 x4 x5 x6).

#[export] Hint Unfold always Route53PrivateHostedZone_fields decode_Route53PrivateHostedZone : structs.
#[export] Instance GoType_Route53PrivateHostedZone : GoType Route53PrivateHostedZone.
Proof.
  refine (struct (mkRoute53PrivateHostedZone false [] "" None "" zero) always
    Route53PrivateHostedZone_fields decode_Route53PrivateHostedZone _ _); [by repeat constructor|].
  struct_decodes.
Defined.

Definition CustomDnsT_fields (a : CustomDnsT) : list (string * option json) :=
  [("route53PrivateHostedZone", omitempty (r53phz a))].

Definition decode_CustomDnsT (j : json) : option CustomDnsT :=
  x1 ← decodeField "route53PrivateHostedZone" j;
  Some (mkCustomDns x1).

#[export] Hint Unfold always CustomDnsT_fields decode_CustomDnsT : structs.
#[export] Instance GoType_CustomDnsT : GoType CustomDnsT.
Proof.
  refine (struct (mkCustomDns zero) always
    CustomDnsT_fields decode_CustomDnsT _ _); [by repeat constructor|].
  struct_decodes.
Defined.

Definition AwsEndpointSelector_fields (a : AwsEndpointSelector) : list (string * option json) :=
  [("name", plain (aes_Name a))].

Definition decode_AwsEndpointSelector (j : json) : option AwsEndpointSelector :=
  x1 ← decodeField "name" j;
  Some (mkAwsEndpointSelector x1).

#[export] Hint Unfold always AwsEndpointSelector_fields decode_AwsEndpointSelector : structs.
#[export] Instance GoType_AwsEndpointSelector : GoType AwsEndpointSelector.
Proof.
  refine (struct (mkAwsEndpointSelector "") always
    AwsEndpointSelector_fields decode_AwsEndpointSelector _ _); [by repeat constructor|].
  struct_decodes.
Defined.

Definition ServiceNameSource_fields (a : ServiceNameSource) : list (string * option json) :=
  [("awsEndpointServiceRef", pointer (AwsEndpointServiceRef a))].

Definition decode_ServiceNameSource (j : json) : option ServiceNameSource :=
  x1 ← decodePointer "awsEndpointServiceRef" j;
  Some (mkServiceNameSource x1).

#[export] Hint Unfold always ServiceNameSource_fields decode_ServiceNameSource : structs.
#[export] Instance GoType_ServiceNameSource : GoType ServiceNameSource.
Proof.
  refine (struct (mkServiceNameSource None) always
    ServiceNameSource_fields decode_ServiceNameSource _ _); [by repeat constructor|].
  struct_decodes.
Defined.

Definition ServiceNameT_fields (a : ServiceNameT) : list (string * option json) :=
  [("name", omitempty (sn_Name a)); ("valueFrom", pointer (sn_ValueFrom a))].

Definition decode_ServiceNameT (j : json) : option ServiceNameT :=
  x1 ← decodeField "name" j;
  x2 ← decodePointer "valueFrom" j;
  Some (mkServiceName x1 x2).

#[export] Hint Unfold always ServiceNameT_fields decode_ServiceNameT : structs.
#[export] Instance GoType_ServiceNameT : GoType ServiceNameT.
Proof.
  refine (struct (mkServiceName "" None) always
    ServiceNameT_fields decode_ServiceNameT _ _); [by repeat constructor|].
  struct_decodes.
Defined.

Definition VpcEndpointSpec_fields (a : VpcEndpointSpec) : list (string * option json) :=
  [("serviceName", omitempty (ServiceName a));
   ("serviceNameRef", pointer (ServiceNameRef a));
   ("securityGroup", plain (SecurityGroup_ a));
   ("assumeRoleArn", omitempty (AssumeRoleArn a));
   ("awsCredentialOverrideRef", pointer (AWSCredentialOverrideRef a));
   ("region", omitempty (Region a)); ("enablePrivateDns", omitempty (EnablePrivateDns a));
   ("vpc", omitempty (Vpc_ a)); ("customDns", omitempty (CustomDns a))].

Definition decode_VpcEndpointSpec (j : json) : option VpcEndpointSpec :=
  x1 ← decodeField "serviceName" j;
  x2 ← decodePointer "serviceNameRef" j;
  x3 ← decodeField "securityGroup" j;
  x4 ← decodeField "assumeRoleArn" j;
  x5 ← decodePointer "awsCredentialOverrideRef" j;
  x6 ← decodeField "region" j;
  x7 ← decodeField "enablePrivateDns" j;
  x8 ← decodeField "vpc" j;
  x9 ← decodeField "customDns" j;
  Some (mkVpcEndpointSpec x1 x2 x3 x4 x5 x6 x7 x8 x9).

Definition wf_VpcEndpointSpec (a : VpcEndpointSpec) : Prop := wf (SecurityGroup_ a).

#[export] Hint Unfold always VpcEndpointSpec_fields decode_VpcEndpointSpec wf_VpcEndpointSpec : structs.
#[export] Instance GoType_VpcEndpointSpec : GoType VpcEndpointSpec.
Proof.
  refine (struct (mkVpcEndpointSpec "" None zero "" None "" false zero zero) wf_VpcEndpointSpec
    VpcEndpointSpec_fields decode_VpcEndpointSpec _ _); [by repeat constructor|].
  struct_decodes.
Defined.

(** ** The schema

    A property is required when neither [omitempty] nor [+optional] is there.  The two
    defaults of the markers, [useVpcCidr] and [enablePrivateDns], are what an absent
    field is read as, and no rule mentions them. *)

Definition SecretReference_schema : schema :=
  TObject [optional "name" TString; optional "namespace" TString] [].

Definition SecurityGroupRule_schema : schema :=
  TObject [optional "cidrIp" TCidr; optional "fromPort" TInt32;
           optional "toPort" TInt32; optional "protocol" TString] [].

Definition SecurityGroup_schema : schema :=
  TObject [optional "ingressRules" (TArray SecurityGroupRule_schema);
           optional "egressRules" (TArray SecurityGroupRule_schema);
           optional "useVpcCidr" TBool] [].

Definition Tag_schema : schema :=
  TObject [required "key" TString; required "value" TString] [].

(** The rules on [.spec.vpc]. *)
Definition discover_with_tags : cel :=
  Not (And (Greater (Size (Sel Self "tags")) (IntLit 0))
           (Not (Sel Self "autoDiscoverSubnets"))).

Definition discover_with_ids : cel :=
  Not (And (Greater (Size (Sel Self "ids")) (IntLit 0))
           (Not (Sel Self "autoDiscoverSubnets"))).

Definition no_subnets_with_ids : cel :=
  Not (And (And (Greater (Size (Sel Self "ids")) (IntLit 0)) (Has Self "subnetIds"))
           (Greater (Size (Sel Self "subnetIds")) (IntLit 0))).

Definition Vpc_schema : schema :=
  TObject [optional "autoDiscoverSubnets" TBool; optional "subnetIds" (TArray TString);
           optional "ids" (TArray TString); optional "tags" (TArray Tag_schema);
           optional "subnetTags" (TArray Tag_schema)]
          [discover_with_tags; discover_with_ids; no_subnets_with_ids].

Definition ExternalNameService_schema : schema := TObject [required "name" TString] [].

(** The rule on the record. *)
Definition service_needs_record : cel :=
  Not (And (Equal (Sel Self "hostname") (StrLit ""))
           (Not (Equal (Sel (Sel Self "externalNameService") "name") (StrLit "")))).

Definition Route53HostedZoneRecord_schema : schema :=
  TObject [required "hostname" TString;
           optional "externalNameService" ExternalNameService_schema]
          [service_needs_record].

Definition DnsSelector_schema : schema := TObject [required "name" TString] [].

Definition ObjectFieldSelector_schema : schema :=
  TObject [required "fieldPath" (TEnum [".metadata.namespace"])] [].

Definition HostedControlPlaneSelector_schema : schema :=
  TObject [optional "namespaceFieldRef" ObjectFieldSelector_schema] [].

Definition DomainNameSource_schema : schema :=
  TObject [optional "dnsRef" DnsSelector_schema;
           optional "hostedControlPlaneRef" HostedControlPlaneSelector_schema] [].

Definition DomainName_schema : schema :=
  TObject [optional "name" TString; optional "valueFrom" DomainNameSource_schema] [].

Definition AssociatedVpc_schema : schema :=
  TObject [required "credentialsSecretRef" SecretReference_schema;
           required "vpcId" TString; required "region" TString] [].

(** The rule on [.spec.customDns.route53PrivateHostedZone]. *)
Definition id_or_domain : cel :=
  Not (And (Has Self "id") (Or (Has Self "domainName") (Has Self "domainNameRef"))).

Definition Route53PrivateHostedZone_schema : schema :=
  TObject [optional "autoDiscoverPrivateHostedZone" TBool;
           optional "associatedVpcs" (TArray AssociatedVpc_schema);
           optional "domainName" TString; optional "domainNameRef" DomainName_schema;
           optional "id" TString; optional "record" Route53HostedZoneRecord_schema]
          [id_or_domain].

Definition CustomDns_schema : schema :=
  TObject [optional "route53PrivateHostedZone" Route53PrivateHostedZone_schema] [].

Definition AwsEndpointSelector_schema : schema := TObject [required "name" TString] [].

Definition ServiceNameSource_schema : schema :=
  TObject [optional "awsEndpointServiceRef" AwsEndpointSelector_schema] [].

Definition ServiceName_schema : schema :=
  TObject [optional "name" TString; optional "valueFrom" ServiceNameSource_schema] [].

(** The rules on [.spec]. *)
Definition region_without_discovery : cel :=
  Not (And (Has Self "region") (Sel (Sel Self "vpc") "autoDiscoverSubnets")).

Definition region_without_zone_discovery : cel :=
  Not (And (Has Self "region")
           (Sel (Sel (Sel Self "customDns") "route53PrivateHostedZone")
                "autoDiscoverPrivateHostedZone")).

Definition service_is_named : cel :=
  let ref := Sel Self "serviceNameRef" in
  Or (Has Self "serviceName")
     (And (Has Self "serviceNameRef")
          (Or (Has ref "name")
              (And (Has ref "valueFrom")
                   (Has (Sel ref "valueFrom") "awsEndpointServiceRef")))).

Definition VpcEndpointSpec_schema : schema :=
  TObject [optional "serviceName" TString; optional "serviceNameRef" ServiceName_schema;
           required "securityGroup" SecurityGroup_schema; optional "assumeRoleArn" TString;
           optional "awsCredentialOverrideRef" SecretReference_schema;
           optional "region" TString; optional "enablePrivateDns" TBool;
           optional "vpc" Vpc_schema; optional "customDns" CustomDns_schema]
          [region_without_discovery; region_without_zone_discovery; service_is_named].

(** ** Admission *)

Section admission.
Context `{Formats}.

(** Whether the API server takes the JSON [j] for the spec of a VpcEndpoint, or of the
    VpcEndpoints of a template. *)
Definition admitted (j : json) : bool := validate VpcEndpointSpec_schema j.

(** What it takes when a controller sends [s]. *)
Definition storable (s : VpcEndpointSpec) : bool := admitted (encode s).

(** An API server with this schema accepts only what is [storable].  An update of the
    status does not touch the spec.  (A server may skip a rule on a value that an update
    does not change.  For an object that was created under these rules, that is no
    exception: a value that is written back as it was read satisfied its rules then.) *)
Definition enforced : answers := fun R c =>
  match c in call R return error + R -> Prop with
  | Kube op =>
      match op in kubeop R return error + R -> Prop with
      | UpdateVpcEndpoint v => fun r => forall rv, r = inr rv -> storable (Spec v) = true
      | CreateVpcEndpointCR v => fun r => forall x, r = inr x -> storable (Spec v) = true
      | UpdateVpcEndpointTemplate t => fun r => forall rv, r = inr rv ->
          storable (tmpl_Spec (Template (vt_Spec t))) = true
      | _ => fun _ => True
      end
  | _ => fun _ => True
  end.

(** A world with such an API server in front of it. *)
Definition refused {R} (c : call R) : bool :=
  match c with
  | Kube (UpdateVpcEndpoint v) | Kube (CreateVpcEndpointCR v) => negb (storable (Spec v))
  | Kube (UpdateVpcEndpointTemplate t) =>
      negb (storable (tmpl_Spec (Template (vt_Spec t))))
  | _ => false
  end.

Definition guarded {W} (world : World W) : World W := fun R (c : call R) w =>
  if refused c then (w, inl (EStatus "Invalid" "is invalid")) else world R c w.

Lemma guarded_enforced {W} (world : World W) : Fits (H:=guarded world) enforced.
Proof.
  intros R c w w' r. unfold handle, guarded. destruct (refused c) eqn:Hr.
  - intros [= _ <-]. destruct c as [| |? op| | | | | | | |]; try done. by destruct op.
  - intros _. destruct c as [| |? op| | | | | | | |]; try done.
    destruct op; try done; cbn -[storable] in Hr; apply negb_false_iff in Hr; intros ? ?; exact Hr.
Qed.
End admission.

End Admission.
