(* ===== verification/AdmissionSpec.v ===== *)
(** * What the schema admits

    The markers of [vpcendpoint_types.go] against the json tags: what is written can be
    read back, what is admitted can be read, and which specs the operator is able to
    store. *)
From S2P Require Import Prelude GoError Naming Types Calls GoMonad AwsClient Lookups.
From S2P Require Import Controller Helpers HostedZones Validation Reconcile Template ReconcileSpec.
From S2P Require Import Sim Yields SafetySpec ProvisionSim Json Admission.
From Stdlib Require Import Ascii.
Import avov1alpha2 Helpers Admission.

Module AdmissionSpec.

Section shapes.
Context `{Formats}.

(** ** What each struct has to satisfy *)

Definition rule_ok (r : SecurityGroupRule) : bool :=
  (Prelude.is_empty (CidrIp r) || isCidr (CidrIp r))%bool.

Definition group_ok (g : SecurityGroup) : bool :=
  (forallb rule_ok (IngressRules g) && forallb rule_ok (EgressRules g))%bool.

Definition path_ok (p : ObjectFieldSelector) : bool :=
  bool_decide (FieldPath p ∈ [".metadata.namespace"]).

Definition hcp_ok (h : HostedControlPlaneSelector) : bool :=
  from_option path_ok true (NamespaceFieldRef h).

Definition source_ok (d : DomainNameSource) : bool :=
  from_option hcp_ok true (HostedControlPlaneRef d).

Definition domain_ok (d : DomainNameT) : bool := from_option source_ok true (dn_ValueFrom d).

Definition associated_ok (v : AssociatedVpc) : bool :=
  from_option free false (CredentialsSecretRef v).

Definition record_ok (r : Route53HostedZoneRecord) : bool :=
  negb (Prelude.is_empty (Hostname r) &&
        negb (Prelude.is_empty (ens_Name (ExternalNameService_ r)))).

(** The two ways to choose a hosted zone, by id and by domain, are not combined. *)
Definition one_zone (z : Route53PrivateHostedZone) : bool :=
  negb (negb (Prelude.is_empty (Id z)) &&
        (negb (Prelude.is_empty (DomainName z)) || bool_decide (is_Some (DomainNameRef z)))).

Definition zone_ok (z : Route53PrivateHostedZone) : bool :=
  (forallb associated_ok (AssociatedVpcs z) && from_option domain_ok true (DomainNameRef z) &&
   record_ok (Record_ z) && one_zone z)%bool.

Definition dns_ok (d : CustomDnsT) : bool := zone_ok (r53phz d).

Definition vpc_ok (v : Vpc) : bool :=
  (AutoDiscoverSubnets v && bool_decide (SubnetIds v = []))%bool.

(** One of the three ways to name the endpoint service. *)
Definition service_ok (s : VpcEndpointSpec) : bool :=
  (negb (Prelude.is_empty (ServiceName s)) ||
   match ServiceNameRef s with
   | None => false
   | Some ref =>
       negb (Prelude.is_empty (sn_Name ref)) ||
       match sn_ValueFrom ref with
       | None => false
       | Some vf => bool_decide (is_Some (AwsEndpointServiceRef vf))
       end
   end)%bool.

Definition spec_sane (s : VpcEndpointSpec) : bool :=
  (group_ok (SecurityGroup_ s) && dns_ok (CustomDns s))%bool.

Definition spec_ok (s : VpcEndpointSpec) : bool :=
  (spec_sane s && vpc_ok (Vpc_ s) && Prelude.is_empty (Region s) && service_ok s)%bool.

Ltac pick_fields := cbn [pick String.eqb Ascii.eqb Bool.eqb]; rewrite ?option_eta.

(** What is written for a struct, field by field. *)
Ltac checked_written schema_ fields_ :=
  let a := fresh "a" in let Ha := fresh "Ha" in
  intros a Ha;
  match goal with |- ?l = _ => change l with (validate schema_ (obj (fields_ a))) end;
  cbn in Ha; autounfold with structs in Ha; destruct_and? Ha;
  unfold schema_, fields_, optional, required; rewrite validate_obj;
  cbn [forallb fst snd]; pick_fields;
  repeat first [rewrite check_plain by wf_solve
               |rewrite check_omitempty by wf_solve
               |rewrite check_pointer by wf_solve];
  rewrite ?isEmpty_forallb, ?forallb_free, ?from_option_free; unfold free;
  rewrite ?orb_true_r, ?andb_true_r, ?andb_true_l.

(** What is read from an object that the schema accepts. *)
Ltac checked_read schema_ decode_ :=
  let j := fresh "j" in let Hj := fresh "Hj" in
  let Hps := fresh "Hps" in let Hrs := fresh "Hrs" in
  intros j Hj; unfold schema_ in Hj; apply validate_inv in Hj as ([? ->] & Hps & Hrs);
  repeat match goal with
  | Hp : Forall _ (_ :: _) |- _ => apply Forall_cons in Hp as [? Hp]
  end;
  unfold optional, required in *; cbn [fst snd] in *;
  match goal with |- context [decode ?j] => change (decode j) with (decode_ j) end;
  unfold decode_;
  repeat match goal with
  | Hc : check ?s ?r (member ?k ?j) = true |- context [@decodeField ?A _ ?k ?j] =>
      let E := fresh "Hf" in
      apply (checked_field (A:=A)) in Hc as (? & E & ? & ?); rewrite E; cbn [mbind option_bind]
  | Hc : check ?s ?r (member ?k ?j) = true |- context [@decodePointer ?A _ ?k ?j] =>
      let E := fresh "Hf" in
      apply (checked_pointer (A:=A)) in Hc as (? & E & ? & ?); rewrite E; cbn [mbind option_bind]
  end;
  eexists; split; [reflexivity|];
  repeat match goal with
  | Ho : free _ = true \/ _ |- _ => clear Ho
  | Ho : _ \/ true = false /\ _ |- _ => destruct Ho as [Ho|[[=] _]]
  | Ho : _ \/ _ = _ /\ _ = _ |- _ => destruct Ho as [Ho|[_ ->]]
  end.

#[export] Instance checked_Tag : Checked Tag Tag_schema free free.
Proof.
  split.
  - by checked_written Tag_schema Tag_fields.
  - checked_read Tag_schema decode_Tag; done.
Qed.

#[export] Instance checked_SecretReference :
  Checked SecretReference SecretReference_schema free free.
Proof.
  split.
  - by checked_written SecretReference_schema SecretReference_fields.
  - checked_read SecretReference_schema decode_SecretReference; done.
Qed.

#[export] Instance checked_SecurityGroupRule : Checked SecurityGroupRule SecurityGroupRule_schema rule_ok rule_ok.
Proof.
  split.
  - checked_written SecurityGroupRule_schema SecurityGroupRule_fields. done.
  - checked_read SecurityGroupRule_schema decode_SecurityGroupRule;
      (split; [done|]; unfold rule_ok; cbn;
      first [done|match goal with Hc : isCidr _ = true |- _ => by rewrite Hc, orb_true_r end]).
Qed.

#[export] Instance checked_SecurityGroup : Checked SecurityGroup SecurityGroup_schema group_ok group_ok.
Proof.
  split.
  - checked_written SecurityGroup_schema SecurityGroup_fields. done.
  - checked_read SecurityGroup_schema decode_SecurityGroup;
      (split; [by repeat constructor|by apply andb_true_iff]).
Qed.

#[export] Instance checked_Vpc : Checked Vpc Vpc_schema vpc_ok free.
Proof.
  split.
  - checked_written Vpc_schema Vpc_fields. by destruct a as [[] [|x1 l1] [|x2 l2] [|x3 l3] [|x4 l4]].
  - checked_read Vpc_schema decode_Vpc; done.
Qed.

#[export] Instance checked_ExternalNameService : Checked ExternalNameService ExternalNameService_schema free free.
Proof.
  split.
  - checked_written ExternalNameService_schema ExternalNameService_fields. done.
  - checked_read ExternalNameService_schema decode_ExternalNameService; done.
Qed.

Lemma record_rule_read j h e :
  decodeField "hostname" j = Some h -> decodeField "externalNameService" j = Some e ->
  holds j service_needs_record = true -> record_ok (mkRoute53HostedZoneRecord h e) = true.
Proof.
  unfold decodeField. intros Hh He Hr. apply holds_not in Hr. cbn in Hr.
  unfold record_ok, Prelude.is_empty. cbn [Hostname ExternalNameService_].
  apply cel_and_false in Hr as [Hr|Hr].
  - destruct (member "hostname" j) as [[]|]; try done. injection Hh as <-.
    injection Hr as Hr. by rewrite Hr.
  - destruct (member "externalNameService" j) as [[| | | |kvs]|]; try done. cbn in Hr, He.
    unfold decode_ExternalNameService, decodeField in He. cbn in He.
    destruct (field "name" kvs) as [[]|]; try done. injection He as <-. cbn.
    destruct (String.eqb s ""); [|done]. by rewrite andb_false_r.
Qed.

#[export] Instance checked_Route53HostedZoneRecord : Checked Route53HostedZoneRecord Route53HostedZoneRecord_schema record_ok record_ok.
Proof.
  split.
  - checked_written Route53HostedZoneRecord_schema Route53HostedZoneRecord_fields.
    destruct a as [n [e]]. unfold record_ok, Prelude.is_empty, holds, service_needs_record. cbn.
    by destruct (String.eqb n ""), (String.eqb e "").
  - checked_read Route53HostedZoneRecord_schema decode_Route53HostedZoneRecord.
    split; [done|by apply (record_rule_read (JObj x))].
Qed.

#[export] Instance checked_DnsSelector : Checked DnsSelector DnsSelector_schema free free.
Proof.
  split.
  - checked_written DnsSelector_schema DnsSelector_fields. done.
  - checked_read DnsSelector_schema decode_DnsSelector; done.
Qed.

#[export] Instance checked_ObjectFieldSelector : Checked ObjectFieldSelector ObjectFieldSelector_schema path_ok path_ok.
Proof.
  split.
  - by checked_written ObjectFieldSelector_schema ObjectFieldSelector_fields.
  - checked_read ObjectFieldSelector_schema decode_ObjectFieldSelector; done.
Qed.

#[export] Instance checked_HostedControlPlaneSelector : Checked HostedControlPlaneSelector HostedControlPlaneSelector_schema hcp_ok hcp_ok.
Proof.
  split.
  - by checked_written HostedControlPlaneSelector_schema HostedControlPlaneSelector_fields.
  - checked_read HostedControlPlaneSelector_schema decode_HostedControlPlaneSelector; done.
Qed.

#[export] Instance checked_DomainNameSource : Checked DomainNameSource DomainNameSource_schema source_ok source_ok.
Proof.
  split.
  - by checked_written DomainNameSource_schema DomainNameSource_fields.
  - checked_read DomainNameSource_schema decode_DomainNameSource; done.
Qed.

#[export] Instance checked_DomainNameT : Checked DomainNameT DomainName_schema domain_ok domain_ok.
Proof.
  split.
  - by checked_written DomainName_schema DomainNameT_fields.
  - checked_read DomainName_schema decode_DomainNameT; done.
Qed.

#[export] Instance checked_AssociatedVpc : Checked AssociatedVpc AssociatedVpc_schema associated_ok associated_ok.
Proof.
  split.
  - by checked_written AssociatedVpc_schema AssociatedVpc_fields.
  - checked_read AssociatedVpc_schema decode_AssociatedVpc; done.
Qed.

Lemma zone_rule_written z :
  holds (obj (Route53PrivateHostedZone_fields z)) id_or_domain = one_zone z.
Proof.
  unfold id_or_domain. rewrite holds_not_eval, eval_and, eval_or.
  rewrite !(eval_has _ Self _ (Route53PrivateHostedZone_fields z)) by done.
  unfold Route53PrivateHostedZone_fields. pick_fields.
  rewrite !is_Some_omitempty, is_Some_pointer. unfold one_zone.
  change (isEmpty ?s) with (Prelude.is_empty s).
  by destruct (is_empty (Id z)), (is_empty (DomainName z)), (bool_decide _).
Qed.

Lemma zone_rule_read kvs d vs n r i rec :
  let j := JObj kvs in
  decodeField "domainName" j = Some n -> decodePointer "domainNameRef" j = Some r ->
  decodeField "id" j = Some i -> holds j id_or_domain = true ->
  one_zone (mkRoute53PrivateHostedZone d vs n r i rec) = true.
Proof.
  intros j Hn Hr Hi Hh. apply holds_not, cel_and_false in Hh. cbn -[bool_decide] in Hh.
  unfold one_zone. cbn.
  destruct (field "id" kvs) as [v|] eqn:Hid; cycle 1.
  { by rewrite (decodeField_absent "id" j i Hid Hi). }
  destruct Hh as [[=]|Hh]. unfold decodePointer, member, j in Hr.
  destruct (field "domainName" kvs) eqn:Hd; [by cbn in Hh|].
  rewrite (decodeField_absent "domainName" j n Hd Hn). cbn.
  destruct (field "domainNameRef" kvs); [done|]. injection Hr as <-.
  by rewrite andb_false_r.
Qed.

#[export] Instance checked_Route53PrivateHostedZone : Checked Route53PrivateHostedZone Route53PrivateHostedZone_schema zone_ok zone_ok.
Proof.
  split.
  - checked_written Route53PrivateHostedZone_schema Route53PrivateHostedZone_fields.
    fold (Route53PrivateHostedZone_fields a). rewrite zone_rule_written.
    unfold zone_ok. by rewrite !andb_assoc.
  - checked_read Route53PrivateHostedZone_schema decode_Route53PrivateHostedZone;
      (split; [done|]; unfold zone_ok; cbn [AssociatedVpcs DomainNameRef Record_];
       rewrite (zone_rule_read x x4) by done; rewrite ?andb_true_r;
       by repeat (apply andb_true_iff; split)).
Qed.

#[export] Instance checked_CustomDnsT : Checked CustomDnsT CustomDns_schema dns_ok dns_ok.
Proof.
  split.
  - checked_written CustomDns_schema CustomDnsT_fields. done.
  - checked_read CustomDns_schema decode_CustomDnsT; done.
Qed.

#[export] Instance checked_AwsEndpointSelector : Checked AwsEndpointSelector AwsEndpointSelector_schema free free.
Proof.
  split.
  - checked_written AwsEndpointSelector_schema AwsEndpointSelector_fields. done.
  - checked_read AwsEndpointSelector_schema decode_AwsEndpointSelector; done.
Qed.

#[export] Instance checked_ServiceNameSource : Checked ServiceNameSource ServiceNameSource_schema free free.
Proof.
  split.
  - checked_written ServiceNameSource_schema ServiceNameSource_fields. done.
  - checked_read ServiceNameSource_schema decode_ServiceNameSource; done.
Qed.

#[export] Instance checked_ServiceNameT : Checked ServiceNameT ServiceName_schema free free.
Proof.
  split.
  - checked_written ServiceName_schema ServiceNameT_fields. done.
  - checked_read ServiceName_schema decode_ServiceNameT; done.
Qed.

(** A spec with a region is never written in a way that the rules on it can evaluate to
    true: the field that they read is left out when it is false. *)
Lemma region_rule_written s :
  holds (obj (VpcEndpointSpec_fields s)) region_without_discovery = Prelude.is_empty (Region s).
Proof.
  unfold region_without_discovery. rewrite holds_not_eval, eval_and.
  rewrite (eval_has _ Self _ (VpcEndpointSpec_fields s)) by done.
  rewrite (eval_sel _ _ _ (Vpc_fields (Vpc_ s)))
    by (rewrite (eval_sel _ Self _ (VpcEndpointSpec_fields s)) by done;
        unfold VpcEndpointSpec_fields; by pick_fields).
  unfold VpcEndpointSpec_fields, Vpc_fields. pick_fields. rewrite is_Some_omitempty.
  change (isEmpty (Region s)) with (Prelude.is_empty (Region s)).
  unfold omitempty. by destruct (Prelude.is_empty (Region s)), (AutoDiscoverSubnets (Vpc_ s)).
Qed.

Lemma region_zone_rule_written s :
  holds (obj (VpcEndpointSpec_fields s)) region_without_zone_discovery =
  Prelude.is_empty (Region s).
Proof.
  unfold region_without_zone_discovery. rewrite holds_not_eval, eval_and.
  rewrite (eval_has _ Self _ (VpcEndpointSpec_fields s)) by done.
  rewrite (eval_sel _ _ _ (Route53PrivateHostedZone_fields (r53phz (CustomDns s))))
    by (rewrite (eval_sel _ _ _ (CustomDnsT_fields (CustomDns s)))
          by (rewrite (eval_sel _ Self _ (VpcEndpointSpec_fields s)) by done;
              unfold VpcEndpointSpec_fields; by pick_fields);
        unfold CustomDnsT_fields; by pick_fields).
  unfold VpcEndpointSpec_fields, Route53PrivateHostedZone_fields. pick_fields.
  rewrite is_Some_omitempty.
  change (isEmpty (Region s)) with (Prelude.is_empty (Region s)).
  unfold omitempty.
  by destruct (Prelude.is_empty (Region s)), (AutoDiscover (r53phz (CustomDns s))).
Qed.

Lemma has_name ref vf :
  pick "name" (ServiceNameT_fields ref) = omitempty (sn_Name ref) /\
  pick "valueFrom" (ServiceNameT_fields ref) = pointer (sn_ValueFrom ref) /\
  pick "awsEndpointServiceRef" (ServiceNameSource_fields vf) =
    pointer (AwsEndpointServiceRef vf).
Proof. unfold ServiceNameT_fields, ServiceNameSource_fields. split_and!; by pick_fields. Qed.

Lemma has_service s :
  pick "serviceName" (VpcEndpointSpec_fields s) = omitempty (ServiceName s) /\
  pick "serviceNameRef" (VpcEndpointSpec_fields s) = pointer (ServiceNameRef s).
Proof. unfold VpcEndpointSpec_fields. split; by pick_fields. Qed.

Lemma service_rule_written s :
  holds (obj (VpcEndpointSpec_fields s)) service_is_named = service_ok s.
Proof.
  destruct (has_service s) as [Hn Hr]. unfold service_is_named, holds, service_ok. cbv zeta.
  rewrite eval_or, eval_and, eval_or, eval_and.
  rewrite !(eval_has _ Self _ (VpcEndpointSpec_fields s)), Hn, Hr by done.
  rewrite is_Some_omitempty, is_Some_pointer.
  change (isEmpty (ServiceName s)) with (Prelude.is_empty (ServiceName s)).
  destruct (Prelude.is_empty (ServiceName s)); [|done]. cbn [negb orb].
  destruct (ServiceNameRef s) as [ref|]; [|done]. rewrite bool_decide_true by done.
  assert (He : eval (obj (VpcEndpointSpec_fields s)) (Sel Self "serviceNameRef") =
    Some (obj (ServiceNameT_fields ref))) by by rewrite (eval_sel _ Self _ _ eq_refl).
  rewrite !(eval_has _ (Sel Self "serviceNameRef") _ _ He).
  destruct (has_name ref (mkServiceNameSource None)) as (-> & Hv & _). rewrite Hv.
  rewrite is_Some_omitempty, is_Some_pointer.
  change (isEmpty (sn_Name ref)) with (Prelude.is_empty (sn_Name ref)).
  destruct (Prelude.is_empty (sn_Name ref)); [|done]. cbn [negb].
  destruct (sn_ValueFrom ref) as [vf|]; [|done].
  rewrite (eval_has _ _ _ (ServiceNameSource_fields vf))
    by (by rewrite (eval_sel _ _ _ _ He), Hv).
  destruct (has_name ref vf) as (_ & _ & ->). rewrite is_Some_pointer.
  by destruct (bool_decide (is_Some (AwsEndpointServiceRef vf))).
Qed.

#[export] Instance checked_VpcEndpointSpec : Checked VpcEndpointSpec VpcEndpointSpec_schema spec_ok spec_sane.
Proof.
  split.
  - checked_written VpcEndpointSpec_schema VpcEndpointSpec_fields.
    fold (VpcEndpointSpec_fields a).
    rewrite region_rule_written, region_zone_rule_written, service_rule_written.
    unfold spec_ok, spec_sane. cbn [isEmpty struct GoType_Vpc GoType_CustomDnsT orb].
    destruct (group_ok _), (vpc_ok _), (dns_ok _), (Prelude.is_empty _); done.
  - checked_read VpcEndpointSpec_schema decode_VpcEndpointSpec;
      (split; [done|]; unfold spec_sane; cbn [SecurityGroup_ CustomDns];
       by apply andb_true_iff).
Qed.


(** ** The encoding *)

(** What the operator sends is read back as the same spec, whatever [omitempty] leaves
    out, when its ports are [int32]s. *)
Theorem spec_round_trip (s : VpcEndpointSpec) : wf s -> decode (encode s) = Some s.
Proof. apply decode_encode. Qed.

Lemma service_ok_spec s : service_ok s = true <-> SafetySpec.names_service s.
Proof.
  unfold service_ok, SafetySpec.names_service.
  rewrite orb_true_iff, negb_true_iff, is_empty_false. apply or_iff_compat_l.
  destruct (ServiceNameRef s) as [ref|]; [|naive_solver].
  rewrite orb_true_iff, negb_true_iff, is_empty_false.
  transitivity (sn_Name ref <> "" \/
    exists vf, sn_ValueFrom ref = Some vf /\ is_Some (AwsEndpointServiceRef vf)); [|naive_solver].
  apply or_iff_compat_l. destruct (sn_ValueFrom ref) as [vf|]; [|naive_solver].
  rewrite bool_decide_eq_true. naive_solver.
Qed.

(** C9: which specs the operator, or any Go client, is able to store: those that name a
    service, discover their subnets, list none, and have no region.  (The rest of the
    rules is [spec_sane].) *)
Theorem storable_iff (s : VpcEndpointSpec) :
  wf s ->
  storable s = true <->
  SafetySpec.names_service s /\ Region s = "" /\
  AutoDiscoverSubnets (Vpc_ s) = true /\ SubnetIds (Vpc_ s) = [] /\ spec_sane s = true.
Proof.
  intros Hwf. unfold storable, admitted. rewrite checked_encode by done.
  unfold spec_ok, vpc_ok. rewrite !andb_true_iff, bool_decide_eq_true, is_empty_spec.
  rewrite service_ok_spec. tauto.
Qed.

(** C10: every JSON that the schema admits is read without an error, as a spec that
    obeys the rules it was checked for; and when the operator writes that spec back, which
    it does to add its finalizer, the API server takes it only if it names a service,
    discovers its subnets, lists none and has no region. *)
Theorem admitted_then_stored j :
  admitted j = true ->
  exists s, decode j = Some s /\ wf s /\ decode (encode s) = Some s /\
    (storable s = true <->
     SafetySpec.names_service s /\ Region s = "" /\
     AutoDiscoverSubnets (Vpc_ s) = true /\ SubnetIds (Vpc_ s) = []).
Proof.
  unfold admitted. intros (s & Hs & Hwf & Hsane)%checked_decode. exists s.
  split_and!; [done|done|by apply decode_encode|]. rewrite storable_iff by done. tauto.
Qed.

End shapes.

(** ** The controllers and an API server that enforces the schema *)

Section enforced.
Context {W : Type} `{World W} `{K8sHelpersLaws} `{Formats} `{!Fits enforced}.

(** C11: a live object without the finalizer whose spec is not storable never gets
    anything: no pass over it ends without an error, and none creates a resource in AWS,
    since the update that adds the finalizer is refused. *)
Theorem unstorable_objects_get_nothing (s : Sys W Mem) :
  metav1.DeletionTimestamp (meta (resource (local s))) = None ->
  ContainsFinalizer (metav1.Finalizers (meta (resource (local s)))) Reconcile.avoFinalizer = false ->
  storable (Spec (resource (local s))) = false ->
  (forall r, (Reconcile.reconcileObject s).1 <> Ok r) /\
  exists l, trace (Reconcile.reconcileObject s).2 = trace s ++ l /\
    Forall (event_sat (no ReconcileSpec.creates_resource)) l.
Proof.
  intros Hd Hf Hs.
  assert (He : extends (fun o l _ => (forall r, o <> Ok r) /\
      Forall (event_sat (no ReconcileSpec.creates_resource)) l) Reconcile.reconcileObject s).
  { apply ReconcileSpec.without_finalizer_extends; [done..|auto|].
    intros o l1 v rv l2 m w w' Hsp _ Hh _. exfalso.
    pose proof (answer_fits _ _ _ _ _ Hh rv eq_refl) as Hst. congruence. }
  destruct He as (l & Hl & Ho & Hc). split; [done|]. by exists l.
Qed.

(** A write of a VpcEndpoint that the schema admits. *)
Definition writes_storable : call_pred := fun R c =>
  match c with
  | Kube (CreateVpcEndpointCR v) | Kube (UpdateVpcEndpoint v) => storable (Spec v) = true
  | _ => True
  end.

Definition template_spec (t : VpcEndpointTemplate) : VpcEndpointSpec :=
  tmpl_Spec (avov1alpha2.Template (vt_Spec t)).

Lemma deleteExtras_writes Inv t items found :
  respects (emits (W:=W) writes_storable Inv) (Template.deleteExtras t items found).
Proof.
  revert found. induction items as [|v items IH]; intros found; go_respects; apply IH.
Qed.

#[local] Hint Resolve deleteExtras_writes : respects.

(** The pass after the finalizer. *)
Lemma templated_writes t :
  storable (template_spec t) = true ->
  respects (emits (W:=W) writes_storable (fun _ => True))
    (hcps <- Template.FilterHostedControlPlanes t;;
     Template.ValidateVpcEndpointForHostedControlPlanes t hcps;;
     ret (Reconcile.mkResult 0))%go.
Proof. intros Ht. go_respects; exact Ht. Qed.

(** C31: a template whose spec the operator has managed to write, has VpcEndpoints that the
    API server takes as well: in the pass that adds the finalizer, and in every pass over
    a template with a storable spec, each VpcEndpoint that is created or replaced has a
    storable spec.  (A template that is edited later to a spec that is admitted only as it
    is spelled is beyond this: its VpcEndpoints are refused.) *)
Theorem templates_write_storable_objects (s : Sys W VpcEndpointTemplate) :
  ContainsFinalizer (metav1.Finalizers (vt_meta (local s))) Template.finalizer = false \/
  storable (template_spec (local s)) = true ->
  exists l, trace (Template.reconcileLive s).2 = trace s ++ l /\
    Forall (event_sat writes_storable) l.
Proof.
  intros Hf.
  change (extends (fun _ l _ => Forall (event_sat writes_storable) l) Template.reconcileLive s).
  apply extends_wp. unfold Template.reconcileLive, Template.ensureFinalizer, Template.templateUpdate.
  repeat wp_step. unfold id. destruct (ContainsFinalizer _ _).
  { destruct Hf as [[=]|Hst]. do 4 wp_step. cbv beta.
    eapply wp_emits; [by apply templated_writes|done|]. intros o l s' Ht Hl _. by close_trace. }
  clear Hf. repeat wp_step. apply wp_trigger. cbn -[storable]. intros w' [e|rv] Hh; cbn [of_answer continue].
  - close_trace. by repeat constructor.
  - pose proof (answer_fits _ _ _ _ _ Hh rv eq_refl) as Hst. do 4 wp_step. cbv beta.
    eapply wp_emits; [by apply templated_writes|done|]. intros o l s' Ht Hl _.
    close_trace. by repeat constructor.
Qed.

End enforced.

(** ** Examples *)

(** A format check for the examples: something with a slash in it. *)
#[local] Instance slash : Formats := fun s => existsb (Ascii.eqb "/"%char) (String.list_ascii_of_string s).

(** The VpcEndpoint of README.md.  The rules on [.spec.vpc] read [tags] and [ids], which
    are absent, and the error rejects the object. *)
Definition readme_example : json :=
  JObj [("serviceName", JStr "com.amazonaws.vpce.us-east-2.vpce-svc-00000000000000000");
    ("securityGroup", JObj [("ingressRules", JArr [JObj [("fromPort", JNum 6443);
       ("toPort", JNum 6443); ("protocol", JStr "tcp")]])]);
    ("customDns", JObj [("route53PrivateHostedZone", JObj [
       ("autoDiscoverPrivateHostedZone", JBool false); ("id", JStr "Z10360602M0THU1Q366IN");
       ("record", JObj [("hostname", JStr "test");
          ("externalNameService", JObj [("name", JStr "test")])])])]);
    ("vpc", JObj [("autoDiscoverSubnets", JBool false);
       ("subnetIds", JArr [JStr "subnet-0f64d2ce8aea72990"])])].

Example readme_example_rejected : admitted readme_example = false.
Proof. vm_compute. reflexivity. Qed.

(** A region is admitted when every field that the rules read is spelled out; the
    operator does not spell them out, and so cannot add its finalizer. *)
Definition spelled_out : json :=
  JObj [("serviceName", JStr "svc"); ("securityGroup", JObj []); ("region", JStr "us-west-1");
    ("vpc", JObj [("autoDiscoverSubnets", JBool false); ("subnetIds", JArr [JStr "subnet-1"]);
       ("ids", JArr []); ("tags", JArr [])]);
    ("customDns", JObj [("route53PrivateHostedZone", JObj [
       ("autoDiscoverPrivateHostedZone", JBool false)])])].

Example spelled_out_is_lost :
  admitted spelled_out = true /\ storable <$> decode spelled_out = Some false.
Proof. vm_compute. done. Qed.

(** The rule on the name of the service tests presence only: an empty name is admitted,
    and the reconcile dereferences a nil pointer. *)
Definition unnamed : json :=
  JObj [("serviceName", JStr ""); ("securityGroup", JObj [])].

#[local] Existing Instances K8sRef.helpers K8sRef.helpers_laws.

Definition run (sp : VpcEndpointSpec) : Sys Sim.State Mem :=
  Sim.sys Sim.state (Sim.object None [] sp VpcEndpointStatus_zero).

Example unnamed_panics :
  admitted unnamed = true /\
  (fun sp => (getVpcEndpointServiceName (H:=Sim.world) (run sp)).1) <$> decode unnamed =
    Some (Panic "nil pointer dereference").
Proof. split; vm_compute; reflexivity. Qed.

(** So is a reference to a hosted control plane that does not say by which field, which
    the operator can even store. *)
Definition no_field : json :=
  JObj [("serviceName", JStr "svc"); ("securityGroup", JObj []);
    ("vpc", JObj [("autoDiscoverSubnets", JBool true)]);
    ("customDns", JObj [("route53PrivateHostedZone", JObj [("domainNameRef",
       JObj [("valueFrom", JObj [("hostedControlPlaneRef", JObj [])])])])])].

Example no_field_panics :
  admitted no_field = true /\
  storable <$> decode no_field = Some true /\
  (fun sp => (HostedZones.requestedDomainName (H:=Sim.world) (run sp)).1) <$> decode no_field =
    Some (Panic "nil pointer dereference").
Proof. split_and!; vm_compute; reflexivity. Qed.

(** *** Witnesses *)

Definition discovering : VpcEndpointSpec :=
  mkVpcEndpointSpec "svc" None
    (mkSecurityGroup [mkSecurityGroupRule "10.0.0.0/8" 443 443 "tcp"] [] true) "" None "" false
    (mkVpc true [] ["vpc-1"] [] [mkTag "key" ""])
    (mkCustomDns (Sim.phz "example.com" None "api")).

(** The object that is created in CreationSpec.v can be stored. *)
Example created_object_storable : storable ProvisionSim.sp = true.
Proof. vm_compute. reflexivity. Qed.

Lemma spec_round_trip_witness : decode (encode discovering) = Some discovering.
Proof. apply (spec_round_trip discovering). split; repeat constructor. Defined.

Lemma storable_iff_witness :
  storable discovering = true <->
  SafetySpec.names_service discovering /\ Region discovering = "" /\
  AutoDiscoverSubnets (Vpc_ discovering) = true /\ SubnetIds (Vpc_ discovering) = [] /\
  spec_sane discovering = true.
Proof. apply (storable_iff discovering). split; repeat constructor. Defined.

Lemma admitted_then_stored_witness :
  exists s, decode spelled_out = Some s /\ wf s /\ decode (encode s) = Some s /\
    (storable s = true <->
     SafetySpec.names_service s /\ Region s = "" /\
     AutoDiscoverSubnets (Vpc_ s) = true /\ SubnetIds (Vpc_ s) = []).
Proof. apply (admitted_then_stored spelled_out). vm_compute. reflexivity. Defined.

#[local] Instance guarded_world : World Sim.State := guarded Sim.world.
#[local] Instance guarded_fits : Fits enforced := guarded_enforced Sim.world.

(** The spec has a region. *)
Definition regional : Sys Sim.State Mem := run (Sim.spec (Sim.phz "" None "")).

Lemma unstorable_objects_get_nothing_witness :
  (forall r, (Reconcile.reconcileObject regional).1 <> Ok r) /\
  exists l, trace (Reconcile.reconcileObject regional).2 = [] ++ l /\
    Forall (event_sat (no ReconcileSpec.creates_resource)) l.
Proof. apply (unstorable_objects_get_nothing regional); vm_compute; reflexivity. Defined.

Definition templated : Sys Sim.State VpcEndpointTemplate :=
  mkSys Sim.state []
    (mkVpcEndpointTemplate ObjectMeta_zero
       (mkVpcEndpointTemplateSpec HCPVpcEndpointTemplateType (metav1.mkLabelSelector ∅ [])
          (mkVpceTemplateSpec ObjectMeta_zero discovering))).

Lemma templates_write_storable_objects_witness :
  exists l, trace (Template.reconcileLive templated).2 = [] ++ l /\
    Forall (event_sat writes_storable) l.
Proof. apply (templates_write_storable_objects templated). left. vm_compute. reflexivity. Defined.

End AdmissionSpec.
