(* ===== verification/E2e.v ===== *)
(** * The end-to-end test: [test/e2e/aws_vpce_operator_tests.go]

    The test installs the CRDs in a cluster and asks for dry runs of creations, which go
    as far as the validation.  Its objects are data here, and its expectations are
    evaluated on the schema of Admission.v. *)
From stdpp Require Import pretty.
From S2P Require Import Prelude GoError Naming Types Calls GoMonad Yields Json Admission.
Import avov1alpha2 Admission.

Module E2e.

(** ** The objects of the test *)

Definition zone_with_id (id : string) : CustomDnsT :=
  mkCustomDns (mkRoute53PrivateHostedZone false [] "" None id
    (mkRoute53HostedZoneRecord "" (mkExternalNameService ""))).

Definition no_group : SecurityGroup := mkSecurityGroup [] [] false.

Definition in_vpc (id : string) : Vpc := mkVpc true [] [id] [] [].

Definition valid_serviceName : VpcEndpointSpec :=
  mkVpcEndpointSpec "test" None no_group "" None "" false (in_vpc "vpc-a")
    (zone_with_id "ABCDEFG").

Definition valid_serviceNameRef : VpcEndpointSpec :=
  mkVpcEndpointSpec "" (Some (mkServiceName "test" None)) no_group "" None "" false
    (in_vpc "vpc-a") (zone_with_id "ABCDEFG").

Definition from_service (name : string) : ServiceNameT :=
  mkServiceName "" (Some (mkServiceNameSource (Some (mkAwsEndpointSelector name)))).

Definition valid_awsEndpointServiceRef : VpcEndpointSpec :=
  mkVpcEndpointSpec "" (Some (from_service "test")) no_group "" None "" false
    (in_vpc "vpc-a") (zone_with_id "ABCDEFG").

Definition no_vpce_service : VpcEndpointSpec := VpcEndpointSpec_zero.

(** The template that is used in ROSA HCP. *)
Definition private_hcp_spec : VpcEndpointSpec :=
  mkVpcEndpointSpec "" (Some (from_service "awsendpointservice"))
    (mkSecurityGroup [mkSecurityGroupRule "0.0.0.0/0" 443 443 "tcp"] [] false) ""
    (Some (mkSecretReference "aws-creds" "default")) "" false
    (mkVpc true [] [] [mkTag "key" "value"] [])
    (mkCustomDns (mkRoute53PrivateHostedZone false
       [mkAssociatedVpc (Some (mkSecretReference "vpc-aws-creds" "default")) "vpc-id"
          "vpc-region"] ""
       (Some (mkDomainName "" (Some (mkDomainNameSource None
          (Some (mkHostedControlPlaneSelector
             (Some (mkObjectFieldSelector ".metadata.namespace"))))))))
       "" (mkRoute53HostedZoneRecord "api" (mkExternalNameService "")))).

Definition labels : gmap string string := {[ "foo" := "bar" ]}.

Definition private_hcp : VpcEndpointTemplate :=
  mkVpcEndpointTemplate
    (metav1.mkObjectMeta "private-hcp" "default" ∅ 0 None [] "")
    (mkVpcEndpointTemplateSpec HCPVpcEndpointTemplateType (metav1.mkLabelSelector labels [])
       (mkVpceTemplateSpec (metav1.mkObjectMeta "" "" labels 0 None [] "") private_hcp_spec)).

(** The expectations of the test, in its order: the dry run succeeds, or it does not. *)
Definition expectations `{Formats} : list (bool * bool) :=
  [(storable valid_serviceName, true); (storable valid_serviceNameRef, true);
   (storable valid_awsEndpointServiceRef, true); (storable no_vpce_service, false);
   (storable (tmpl_Spec (Template (vt_Spec private_hcp))), true)].

(** The test passes, if the format check takes the CIDR block of the template. *)
Lemma expectations_met `{Formats} :
  isCidr "0.0.0.0/0" = true -> Forall (fun e => e.1 = e.2) expectations.
Proof. intros Hc. repeat constructor; cbn; by rewrite ?Hc. Qed.

(** ** [applyCRDYaml] *)

Record CRD := mkCRD {
  crd_Name : string;
  crd_ResourceVersion : string;
  crd_Spec : string;
  crd_Conditions : list (string * string) (* type and status *)
}.

Definition set_version (rv : string) (c : CRD) : CRD :=
  mkCRD (crd_Name c) rv (crd_Spec c) (crd_Conditions c).

(** The decoder of the client library, and the API server: [Create] and [Update] answer
    with the object as stored; [pause] is the server between two polls. *)
Class Cluster (S : Type) := {
  decodeYaml : string -> error + (string * CRD);
  createCRD : CRD -> S -> S * (error + CRD);
  getCRD : string -> S -> S * (error + CRD);
  updateCRD : CRD -> S -> S * (error + CRD);
  pause : S -> S
}.

Definition isEstablished (c : CRD) : bool :=
  existsb (fun p => (String.eqb p.1 "Established" && String.eqb p.2 "True")%bool)
    (crd_Conditions c).

Definition IsAlreadyExists (e : error) : bool :=
  bool_decide (ReasonForError e = Some "AlreadyExists").

Section apply.
Context {S : Type} `{Cluster S}.

(** [Eventually]: one poll, and [n] more, 500 ms apart. *)
Fixpoint established (n : nat) (name : string) (s : S) : S * bool :=
  let '(s1, r) := getCRD name s in
  if match r with inr c => isEstablished c | inl _ => false end then (s1, true)
  else match n with O => (s1, false) | Datatypes.S n' => established n' name (pause s1) end.

(** 60 s of polls every 500 ms. *)
Definition polls : nat := 120.

Definition Errorf_v (prefix : string) (e : error) : error :=
  EOpaque (prefix +:+ error_text e).

(** The object that the server ends up with: created, or replaced. *)
Definition createOrUpdate (crd : CRD) (s : S) : S * (error + CRD) :=
  let '(s1, r) := createCRD crd s in
  match r with
  | inr crd' => (s1, inr crd')
  | inl e =>
      if IsAlreadyExists e then
        let '(s2, r2) := getCRD (crd_Name crd) s1 in
        match r2 with
        | inl e2 => (s2, inl (Errorf_v "failed to get existing CRD: " e2))
        | inr existing =>
            let '(s3, r3) := updateCRD (set_version (crd_ResourceVersion existing) crd) s2 in
            match r3 with
            | inl e3 => (s3, inl (Errorf_v "failed to update CRD: " e3))
            | inr crd' => (s3, inr crd')
            end
        end
      else (s1, inl (Errorf_v "failed to create CRD: " e))
  end.

(** A failed expectation ends the test: [Panic]. *)
Definition applyCRDYaml (yaml : string) (s : S) : S * outcome CRD :=
  match decodeYaml yaml with
  | inl e => (s, Err (Errorf_v "unable to decode VpcEndpoint CRD YAML into an object: " e))
  | inr (kind, crd) =>
      if negb (String.eqb kind "CustomResourceDefinition") then
        (s, Err (EOpaque ("unsupported object, expected kind: CustomResourceDefinition, got: "
                  +:+ kind)))
      else
        let '(s1, r) := createOrUpdate crd s in
        match r with
        | inl e => (s1, Err e)
        | inr crd' =>
            let '(s2, ok) := established polls (crd_Name crd') s1 in
            if (ok : bool) then (s2, Ok crd')
            else (s2, Panic ("CRD " +:+ crd_Name crd' +:+ " not established"))
        end
  end.
End apply.

(** ** A server that keeps versions *)

Record Server := mkServer { stored : gmap string CRD; next : nat; delay : nat }.

Definition versioned (c : CRD) (s : Server) : CRD :=
  mkCRD (crd_Name c) (pretty (next s)) (crd_Spec c) [].

Definition put (c : CRD) (s : Server) : Server * (error + CRD) :=
  (mkServer (<[crd_Name c := versioned c s]> (stored s)) (Datatypes.S (next s)) (delay s),
   inr (versioned c s)).

(** An update must carry the stored version.  A stored CRD is established after [delay]
    pauses. *)
#[export] Instance cluster (yaml : string -> error + (string * CRD)) : Cluster Server := {
  decodeYaml := yaml;
  createCRD c s :=
    match stored s !! crd_Name c with
    | Some _ => (s, inl (EStatus "AlreadyExists" "already exists"))
    | None => put c s
    end;
  getCRD n s :=
    (s, match stored s !! n with
        | Some c => inr (match delay s with
                         | O => mkCRD (crd_Name c) (crd_ResourceVersion c) (crd_Spec c)
                                  [("Established", "True")]
                         | _ => c
                         end)
        | None => inl (EStatus "NotFound" "not found")
        end);
  updateCRD c s :=
    match stored s !! crd_Name c with
    | Some c' => if String.eqb (crd_ResourceVersion c) (crd_ResourceVersion c') then put c s
                 else (s, inl (EStatus "Conflict" "conflict"))
    | None => (s, inl (EStatus "NotFound" "not found"))
    end;
  pause s := mkServer (stored s) (next s) (pred (delay s))
}.

Section server.
Context (yaml : string -> error + (string * CRD)).

Lemma createOrUpdate_stores crd s :
  createOrUpdate (H:=cluster yaml) crd s = put crd s.
Proof.
  unfold createOrUpdate. cbn. destruct (stored s !! crd_Name crd) as [c|] eqn:Hc; [|done].
  cbn. rewrite Hc. cbn. destruct (delay s); cbn -[put]; by rewrite String.eqb_refl.
Qed.

Lemma established_after n name s c :
  stored s !! name = Some c -> crd_Conditions c = [] -> delay s <= n ->
  exists s', established (H:=cluster yaml) n name s = (s', true) /\ stored s' = stored s.
Proof.
  revert s. induction n as [|n IH]; intros s Hs Hc Hd; cbn; rewrite Hs;
    destruct (delay s) as [|d] eqn:Hdelay; cbn; try lia; try (by eexists).
  unfold isEstablished. rewrite Hc. cbn.
  edestruct (IH (mkServer (stored s) (next s) d)) as (s' & He & Hst); [done..|cbn; lia|].
  rewrite He. by exists s'.
Qed.

(** On a server that establishes CRDs within a minute, [applyCRDYaml] leaves the CRD
    of the file there, whether one was installed before or not. *)
Lemma applyCRDYaml_installs text crd s :
  yaml text = inr ("CustomResourceDefinition", crd) -> delay s <= polls ->
  exists s', applyCRDYaml (H:=cluster yaml) text s = (s', Ok (versioned crd s)) /\
    stored s' = <[crd_Name crd := versioned crd s]> (stored s).
Proof.
  intros Hy Hd. unfold applyCRDYaml. cbn [decodeYaml cluster]. rewrite Hy.
  cbn [String.eqb Ascii.eqb Bool.eqb negb]. rewrite createOrUpdate_stores. unfold put.
  destruct (established_after polls (crd_Name crd)
    (mkServer (<[crd_Name crd := versioned crd s]> (stored s)) (Datatypes.S (next s)) (delay s))
    (versioned crd s)) as (s' & He & Hst); [apply lookup_insert_eq|done|exact Hd|].
  change (crd_Name (versioned crd s)) with (crd_Name crd). rewrite He. by exists s'.
Qed.
End server.

End E2e.
